(* ===== verification/_CoqProject ===== *)
-Q . S2P
Prelude.v
ProvTypes.v
Zcbor.v
ZcborDec.v
Schema.v
Encode.v
EncodeProofs.v
Decode.v
DecodeProofs.v
DecodeMsgs.v
Codec.v
CodecZcbor.v
ZcborRef.v
Platform.v
State.v
Frame.v
Rpc.v
Session.v
Auth.v
CredStore.v
CredHandler.v
WifiScan.v
WifiConfig.v
Version.v
Adv.v
Identity.v
Manager.v
Ctrl.v
FakeWifi.v
Dispatch.v
System.v
Samples.v
Frames.v
Instances.v
DispatchSpec.v
AuthSpec.v
CredSpec.v
CredPersist.v
WifiSpec.v
WifiInv.v
WifiStatus.v
ScanSpec.v
CodecSpec.v
Lifecycle.v
Safety.v
Replies.v
WorldFrame.v
FactoryReset.v
Client.v
Hello.v
Bootstrap.v
Complete.v
IdentitySpec.v
SamplesSpec.v
FakeWifiSpec.v
FakeNet.v
Provision.v
Survey.v
FakeSim.v
