(* ===== verification/Prelude.v ===== *)
(** * Pouch network provisioning: the development

    The repository is a Zephyr library that provisions a device over BLE.  A
    client (phone or command line) reaches the device through an encrypted pouch
    session, proves that it knows a secret, hands over Wi-Fi and cloud
    credentials as CBOR messages, and the device stores and uses them.  This
    development models the C program: the library under src/src with its headers
    under src/include/pouch_prov, the simulated Wi-Fi driver src/sim/wifi, and the
    applications under src/samples.

    ** The program and its model

    A request comes in as chunks of a pouch entry (dispatch.c), is decoded by the
    generated codec (codec/prov_decode.c), handled by the endpoint's handler
    (handlers/), encoded (codec/prov_encode.c), queued (rpc.c) and written into
    the next uplink pouch.  Behind the handlers are the Wi-Fi connection state
    machine (handlers/wifi_config.c), driven by network events and a delayed work
    item, the scan cache (handlers/wifi_scan.c) and the credential store
    (cred_store.c), kept in settings.  The manager (manager.c) starts and stops
    sessions; advertising (adv.c) and the device's identity (identity.c) serve it.

    Every stateful C function is a definition in the state monad [M] below, over
    the record of all static variables (State.v) and the outside world.  [None]
    is undefined behaviour: a null dereference, a read or write past an array, a
    read through a dead pointer.  Integers keep their width where they can leave
    it ([u8], [u32]); buffers are byte lists of fixed length.  The files, with
    the code they model:

    - Prelude: machine integers, bytes, buffers, errno, the monad, [wp].
    - Platform: kernel objects, PSA, mbedTLS, settings, network, Bluetooth and
      pouch as parameters, and the laws some theorems name; events.h.
    - State, Session, System: the statics of every file; the parts of dispatch.c,
      auth.c and manager.c that every handler calls; the device before main, its
      entry points as events, and reachability.
    - ProvTypes, Zcbor, ZcborDec, Encode, Decode: prov_types.h, the zcbor
      functions the codec calls (parameters with laws), prov_encode.c and
      prov_decode.c, function by function.  Codec is prov_encode.h and
      prov_decode.h, the interface the handlers and the client use; CodecZcbor
      shows that the generated code implements it.
    - Rpc (rpc.c), Auth (auth.c), CredStore (cred_store.c), CredHandler (cred.c),
      WifiScan (wifi_scan.c), WifiConfig (wifi_config.c), Version (version.c), Adv
      (adv.c), Identity (identity.c), Manager (manager.c), Ctrl (ctrl.c), Dispatch
      (dispatch.c): one file of the model per C file.
    - FakeWifi: sim/wifi/fake_wifi.c.  Samples: the three main.c.

    Definitions carry the names of the C functions; a comment above each names
    the C file and, where a definition is a part of a function, the lines.

    ** What is proved

    - Codec (Schema, EncodeProofs, DecodeProofs, DecodeMsgs, CodecSpec): the
      encoders write exactly the items of cddl/prov.cddl, with the repository's
      golden vectors as instances; every message reads back; what is accepted is
      in range.
    - Dispatch (DispatchSpec, Replies): requests are reassembled; oversized
      and unauthorized ones are answered and reach no handler, malformed ones
      change nothing but the queue; one request queues at most one reply, and
      only a served end request drops the replies that wait.
    - Authorization (AuthSpec): only a correct proof authorizes, nothing but the
      two open endpoints acts before that, and what the attempt limit does and
      does not prevent.
    - Credentials (CredSpec, CredPersist): staging refines an upload machine,
      finalize on every outcome, the DER check, deletion, and the round trip
      through a reboot.
    - Wi-Fi (WifiSpec, WifiInv, WifiStatus, ScanSpec): the invariant that ties the
      reported state to the attempt in flight, the retry budget, apply as a
      refinement, what a connect result counts for, status polls, scan collection
      and paging.
    - Sessions (Lifecycle, FactoryReset): flush, start, stop, the end request,
      disconnects, auto-stop, and the factory reset with what is left stored.
    - Safety: from boot on, in every interleaving of events and changes of the
      world, every call is defined and keeps the buffers' invariant, with two
      exceptions that are named and shown to be real.
    - Composition (FakeWifiSpec, FakeNet, FakeSim): the simulated driver is safe,
      and with it behind the library an accepted apply always settles, on the
      outcome the simulated network dictates; a scan finds what is on the air.
    - End to end (Client, Hello, Bootstrap, Complete, Provision, Survey): a client
      written after "Client flow" of docs/protocol.md, run against the device
      through dispatcher, codec, handlers, queue and flush.  The version query and
      the handshake succeed for whoever knows the secret.  A session that uploads certificate and key and
      ends wakes the application that waits and leaves them there for every
      reboot; a Wi-Fi set and apply settle on what the network dictates; a scan
      brings the client the list of the networks on the air, page by page.
    - Identity (IdentitySpec): the certificate pouch was given at the first
      initialisation after a boot is stored, and comes back with a key imported
      from the same private bytes at every later boot; what a failed save leaves.
    - Applications (SamplesSpec): a device that has its credentials does not
      provision again after a reboot.

    Frame, Frames, WorldFrame and the calculus in Safety.v decide by the shape of
    a function which parts of the device and of the world it leaves alone and that
    it is defined.
    Instances, ZcborRef and FakeSim are concrete platforms, codec and driver that
    satisfy all the laws; the witnesses run on them.

    ** Loops and fuel

    Most loops of the code are structural recursions.  Two have fuel: draining
    the queue takes one round more than there are responses (Rpc.drain_exhausts),
    a page of scan results one more than its bound (ScanSpec.page_loop_window).
    FakeNet.settle runs the driver's and the retry work items; its rounds are the
    attempt budget, and the theorem says that they are enough.  The client's page
    loop has a round for each network announced (Survey.wp_client_pages).

    ** What modelling showed

    Reading the status of a connected device reads a dead stack frame
    (WifiStatus.status_undefined_iff); the 8-bit attempt counter wraps
    (AuthSpec.lockout_expires); a challenge without a secret is undefined
    (AuthSpec.challenge_without_secret_undefined); the poll that the protocol
    prescribes runs into the dead stack frame after every successful provisioning
    (Provision.client_learns_outcome); a key that could not be saved is used by
    the next attempt, beside a certificate for another key
    (IdentitySpec.unsaved_key_reused); a full page of long SSIDs does
    not fit its reply (ScanSpec.full_page_overflows), so that clients that ask for
    full pages get no list where the names are long
    (Survey.long_names_block_survey); staging overwrites the credential in use
    (CredPersist.staging_overwrites_persisted) and finalizing is not atomic
    (CredPersist.finalize_not_atomic); malformed requests with an
    operation code from 3 to 23 get no reply, and the others do although the
    handlers' contract says that a negative result queues none
    (Replies.malformed_request_answered); an end request drops the replies to the
    requests before it (Replies.one_reply_per_request); a channel of 256 or more
    is staged as another one (WifiInv.set_stages_exactly); a connect result that
    is late by a reset and a new apply counts for the new network
    (WifiInv.connect_result_effect); the results of deleting stored networks are
    ignored, so that a failed connect or a factory reset can leave the device
    "provisioned" (WifiInv.retries_up_to_budget,
    FactoryReset.factory_reset_forgets), and an apply whose store is refused has
    already deleted the network stored before (WifiInv.apply_connects_to_staged);
    a certificate that could not be saved is handed out at the next attempt
    (IdentitySpec.sim_unsaved_cert_reused); the
    decoders refuse the unknown keys the schema tells them to ignore
    (CodecSpec.unknown_key_refused).

    ** Not modelled

    - Calls the application makes back into the library from its event callback:
      the callback is a change of the world.
    - Threads: every entry point runs to its end before the next one, as on one
      work queue; the two blocking waits take what other threads do meanwhile as
      an argument.  Data races between the work queues are out of scope.
    - Logging, and the sizes of stack and heap beyond an allocation that fails.
    - zcbor, pouch, PSA, mbedTLS, Zephyr and the Golioth client: parameters.
    - The Kotlin, Swift and Python clients and the tests: other programs.

    ** What could be added

    The two samples that connect to a network, composed with the simulated
    driver; the certificate's contents as mbedTLS writes it; a second client that
    interferes. *)

From Stdlib Require Export ZArith Lia.
From Stdlib Require Export Strings.Byte.
From stdpp Require Export base option list strings.

Declare Scope prov_scope.
Delimit Scope prov_scope with prov.

#[global] Open Scope Z_scope.
#[global] Open Scope prov_scope.

(** ** Machine integers *)

(** Values of a C unsigned type of [w] bits; arithmetic wraps. *)
Definition uwrap (w z : Z) : Z := z mod 2 ^ w.
Definition u8 (z : Z) : Z := uwrap 8 z.
Definition u32 (z : Z) : Z := uwrap 32 z.

Definition in_u8 (z : Z) : Prop := 0 <= z < 256.
Definition in_u32 (z : Z) : Prop := 0 <= z < 4294967296.
Definition in_i32 (z : Z) : Prop := -2147483648 <= z < 2147483648.

Lemma u8_range z : in_u8 (u8 z).
Proof. unfold in_u8, u8, uwrap. pose proof (Z.mod_pos_bound z (2 ^ 8)). lia. Qed.

Lemma u8_small z : in_u8 z -> u8 z = z.
Proof. unfold in_u8, u8, uwrap. intros H. apply Z.mod_small. lia. Qed.

Lemma u32_small z : in_u32 z -> u32 z = z.
Proof. unfold in_u32, u32, uwrap. intros H. apply Z.mod_small. lia. Qed.

(** ** Bytes *)

#[export] Instance byte_eq_dec : EqDecision byte := Byte.byte_eq_dec.

Definition b2z (b : byte) : Z := Z.of_N (Byte.to_N b).

Definition z2b (z : Z) : byte :=
  match Byte.of_N (Z.to_N (z mod 256)) with
  | Some b => b
  | None => x00
  end.

Lemma b2z_range b : in_u8 (b2z b).
Proof. unfold in_u8, b2z. pose proof (Byte.to_N_bounded b). lia. Qed.

Lemma z2b_b2z b : z2b (b2z b) = b.
Proof.
  unfold z2b. rewrite Z.mod_small by apply b2z_range.
  unfold b2z. by rewrite N2Z.id, Byte.of_to_N.
Qed.

Lemma b2z_z2b z : b2z (z2b z) = z mod 256.
Proof.
  unfold z2b. pose proof (Z.mod_pos_bound z 256).
  destruct (Byte.of_N _) as [b|] eqn:E.
  - unfold b2z. apply Byte.to_of_N in E. rewrite E. lia.
  - apply Byte.of_N_None_iff in E. lia.
Qed.

Lemma b2z_inj b c : b2z b = b2z c -> b = c.
Proof. intros H. by rewrite <- (z2b_b2z b), <- (z2b_b2z c), H. Qed.

(** C string literals as the bytes they hold. *)
Definition str (s : string) : list byte := String.list_byte_of_string s.

(** Big-endian bytes of [z] in [n] bytes, and the value they have. *)
Fixpoint be_bytes (n : nat) (z : Z) : list byte :=
  match n with
  | O => []
  | S k => z2b (Z.shiftr z (8 * Z.of_nat k)) :: be_bytes k z
  end.

Lemma length_be_bytes n z : length (be_bytes n z) = n.
Proof. induction n; simpl; auto. Qed.

Fixpoint be_val (l : list byte) : Z :=
  match l with
  | [] => 0
  | b :: l' => b2z b * 256 ^ Z.of_nat (length l') + be_val l'
  end.

Lemma be_val_bytes k z : be_val (be_bytes k z) = z mod 256 ^ Z.of_nat k.
Proof.
  induction k as [|k IH]; [by rewrite Z.mod_1_r|].
  cbn [be_bytes be_val]. rewrite IH, length_be_bytes, b2z_z2b, Z.shiftr_div_pow2 by lia.
  replace (2 ^ (8 * Z.of_nat k)) with (256 ^ Z.of_nat k)
    by (change 256 with (2 ^ 8); by rewrite <- Z.pow_mul_r by lia).
  rewrite Nat2Z.inj_succ, Z.pow_succ_r, (Z.mul_comm 256) by lia.
  rewrite Z.rem_mul_r by (try lia; apply Z.pow_nonzero; lia). lia.
Qed.

Lemma be_val_range l : 0 <= be_val l < 256 ^ Z.of_nat (length l).
Proof.
  induction l as [|b l IH]; cbn [be_val length]; [lia|]. pose proof (b2z_range b).
  unfold in_u8 in *. rewrite Nat2Z.inj_succ, Z.pow_succ_r by lia. nia.
Qed.

(** Shifting a byte in: [(c << 8) | b]. *)
Lemma shift_in_byte c b : 0 <= b < 256 -> Z.lor (Z.shiftl c 8) b = c * 256 + b.
Proof.
  intros Hb. assert (Hl : Z.land (Z.shiftl c 8) b = 0).
  { apply Z.bits_inj'. intros n Hn. rewrite Z.land_spec, Z.bits_0.
    destruct (Z.ltb_spec n 8).
    - by rewrite Z.shiftl_spec_low.
    - rewrite <- (Z.mod_small b (2 ^ 8)) by lia.
      by rewrite Z.mod_pow2_bits_high, andb_false_r by lia. }
  rewrite <- Z.lxor_lor, <- Z.add_nocarry_lxor by done. by rewrite Z.shiftl_mul_pow2 by lia.
Qed.

(** ** C buffers

    An array of [n] bytes is a list of length [n].  [buf_write] is memcpy to
    an offset of it; a write past the end is undefined behaviour, so the
    callers guard it with [buf_fits]. *)

Definition zeros (n : nat) : list byte := replicate n x00.

Definition buf_fits (off : nat) (src dst : list byte) : bool :=
  (off + length src <=? length dst)%nat.

Definition buf_write (off : nat) (src dst : list byte) : list byte :=
  take off dst ++ src ++ drop (off + length src) dst.

Lemma length_buf_write off src dst :
  (off + length src <= length dst)%nat ->
  length (buf_write off src dst) = length dst.
Proof. intros H. unfold buf_write. rewrite !length_app, length_take, length_drop. lia. Qed.

Lemma take_buf_write off src dst :
  (off + length src <= length dst)%nat ->
  take (off + length src) (buf_write off src dst) = take off dst ++ src.
Proof.
  intros H. unfold buf_write. rewrite app_assoc, take_app_length'; [done|].
  rewrite length_app, length_take. lia.
Qed.

Lemma take_buf_write_0 src dst :
  (length src <= length dst)%nat -> take (length src) (buf_write 0 src dst) = src.
Proof. intros H. apply (take_buf_write 0 src dst H). Qed.

Lemma alter_insert {A} (f : A -> A) k (l : list A) x :
  l !! k = Some x -> alter f k l = <[k := f x]> l.
Proof.
  intros H. apply list_eq. intros j. destruct (decide (k = j)) as [->|].
  - rewrite list_lookup_alter_eq, H, list_lookup_insert_eq; [done|]. by eapply lookup_lt_Some.
  - by rewrite list_lookup_alter_ne, list_lookup_insert_ne.
Qed.

Lemma alter_none {A} (f : A -> A) k (l : list A) : l !! k = None -> alter f k l = l.
Proof.
  intros H. apply list_eq. intros j. destruct (decide (k = j)) as [->|].
  - by rewrite list_lookup_alter_eq, H.
  - by rewrite list_lookup_alter_ne.
Qed.

(** ** errno

    Only that the codes are positive and distinct matters; the values are
    those of the C library Zephyr builds with by default. *)

Definition ENOENT : Z := 2.
Definition EIO : Z := 5.
Definition EAGAIN : Z := 11.
Definition ENOMEM : Z := 12.
Definition ENODEV : Z := 19.
Definition EINVAL : Z := 22.
Definition EBADMSG : Z := 77.
Definition EALREADY : Z := 120.
Definition EMSGSIZE : Z := 122.

(** ** The state monad

    A C function over the module-level state and the outside world.  [None]
    is undefined behaviour (a null dereference, a write past a buffer). *)

Definition M (St A : Type) : Type := St -> option (A * St).

Section Monad.
Context {St : Type}.

Definition mret {A} (a : A) : M St A := fun s => Some (a, s).
Definition mbind {A B} (m : M St A) (k : A -> M St B) : M St B :=
  fun s => match m s with Some (a, s') => k a s' | None => None end.
Definition mget {A} (f : St -> A) : M St A := fun s => Some (f s, s).
Definition mmod (f : St -> St) : M St unit := fun s => Some (tt, f s).
Definition mub {A} : M St A := fun _ => None.

(** [if (c) { m }] *)
Definition mwhen (c : bool) (m : M St unit) : M St unit := if c then m else mret tt.

(** Undefined behaviour unless [c]. *)
Definition mguard (c : bool) : M St unit := if c then mret tt else mub.

(** [for (x in l) f(x)] *)
Fixpoint mfor {A} (l : list A) (f : A -> M St unit) : M St unit :=
  match l with
  | [] => mret tt
  | x :: l' => mbind (f x) (fun _ => mfor l' f)
  end.

(** Weakest precondition: [m] is defined at [s] and ends in [Q]. *)
Definition wp {A} (m : M St A) (Q : A -> St -> Prop) (s : St) : Prop :=
  match m s with Some (a, s') => Q a s' | None => False end.

Lemma wp_ret {A} (a : A) Q s : Q a s -> wp (mret a) Q s.
Proof. done. Qed.

Lemma wp_bind {A B} (m : M St A) (k : A -> M St B) Q s :
  wp m (fun a => wp (k a) Q) s -> wp (mbind m k) Q s.
Proof. unfold wp, mbind. by destruct (m s) as [[a s']|]. Qed.

Lemma wp_bind_inv {A B} (m : M St A) (k : A -> M St B) Q s :
  wp (mbind m k) Q s -> wp m (fun a => wp (k a) Q) s.
Proof. unfold wp, mbind. by destruct (m s) as [[a s']|]. Qed.

Lemma wp_get {A} (f : St -> A) Q s : Q (f s) s -> wp (mget f) Q s.
Proof. done. Qed.

Lemma wp_mod f Q s : Q tt (f s) -> wp (mmod f) Q s.
Proof. done. Qed.

Lemma wp_guard c Q s : c = true -> Q tt s -> wp (mguard c) Q s.
Proof. by intros ->. Qed.

Lemma wp_when c m Q s :
  (c = true -> wp m Q s) -> (c = false -> Q tt s) -> wp (mwhen c m) Q s.
Proof. destruct c; intros H1 H2; [by apply H1|by apply H2]. Qed.

Lemma wp_mono {A} (m : M St A) (P Q : A -> St -> Prop) s :
  wp m P s -> (forall a s', P a s' -> Q a s') -> wp m Q s.
Proof. unfold wp. destruct (m s) as [[a s']|]; auto. Qed.

Lemma wp_and {A} (m : M St A) (P Q : A -> St -> Prop) s :
  wp m P s -> wp m Q s -> wp m (fun a s' => P a s' /\ Q a s') s.
Proof. unfold wp. destruct (m s) as [[a s']|]; auto. Qed.

(** A loop keeps what every round of its body keeps. *)
Lemma wp_for {A} (l : list A) (f : A -> M St unit) (I : St -> Prop) s :
  I s -> (forall x s', x ∈ l -> I s' -> wp (f x) (fun _ => I) s') ->
  wp (mfor l f) (fun _ => I) s.
Proof.
  revert s. induction l as [|x l IH]; simpl; intros s Hs Hf; [by apply wp_ret|].
  apply wp_bind. eapply wp_mono; [apply Hf; [left|done]|].
  intros ? s' Hs'. apply IH; [done|]. intros y s'' Hy. apply Hf. by right.
Qed.

Lemma mfor_app {A} (l1 l2 : list A) (f : A -> M St unit) s :
  mfor (l1 ++ l2) f s = mbind (mfor l1 f) (fun _ => mfor l2 f) s.
Proof.
  revert s. induction l1 as [|x l1 IH]; intros s; [done|]. cbn [mfor app]. unfold mbind in *.
  destruct (f x s) as [[u s1]|]; [apply IH|done].
Qed.

Lemma mfor_map {A B} (g : B -> A) (l : list B) (f : A -> M St unit) s :
  mfor (map g l) f s = mfor l (fun x => f (g x)) s.
Proof.
  revert s. induction l as [|x l IH]; intros s; [done|]. cbn [mfor map]. unfold mbind.
  destruct (f (g x) s) as [[u s1]|]; [apply IH|done].
Qed.

Lemma wp_eq {A} (m m' : M St A) Q s s' : m s = m' s' -> wp m' Q s' -> wp m Q s.
Proof. unfold wp. by intros ->. Qed.

(** What a run computed, from the fact that it ran. *)
Lemma wp_run {A} (m : M St A) Q s a s' : m s = Some (a, s') -> wp m Q s -> Q a s'.
Proof. unfold wp. by intros ->. Qed.

Lemma wp_run_some {A} (m : M St A) Q s :
  wp m Q s -> exists a s', m s = Some (a, s') /\ Q a s'.
Proof. unfold wp. destruct (m s) as [[a s']|]; [eauto|done]. Qed.

Lemma mbind_inv {A B} (m : M St A) (k : A -> M St B) s b s' :
  mbind m k s = Some (b, s') -> exists a s1, m s = Some (a, s1) /\ k a s1 = Some (b, s').
Proof. unfold mbind. destruct (m s) as [[a s1]|]; [eauto|done]. Qed.
End Monad.

Notation "x <- m ;; k" := (mbind m (fun x => k))
  (at level 100, m at next level, right associativity) : prov_scope.
Notation "'let*' p := m 'in' k" := (mbind m (fun x => match x with p => k end))
  (at level 100, p pattern, m at next level, right associativity) : prov_scope.
Notation "m ;;; k" := (mbind m (fun _ => k))
  (at level 100, right associativity) : prov_scope.

(** One step of symbolic execution of a weakest precondition. *)
Create HintDb wp.
#[export] Hint Resolve wp_ret wp_get wp_mod : wp.

Ltac wp_step :=
  match goal with
  | |- wp (mbind _ _) _ _ => apply wp_bind
  | |- wp (mret _) _ _ => apply wp_ret
  | |- wp (mget _) _ _ => apply wp_get
  | |- wp (mmod _) _ _ => apply wp_mod
  | |- wp (mwhen _ _) _ _ => apply wp_when; intros ?
  | |- wp (if ?c then _ else _) _ _ => destruct c eqn:?
  | |- wp (match ?x with _ => _ end) _ _ => destruct x eqn:?
  | |- wp (let '(_, _) := ?x in _) _ _ => destruct x eqn:?
  end; lazy beta iota.

Ltac wp_go := repeat wp_step.

(** Reflection of the boolean tests the models use. *)
Ltac zbool :=
  repeat match goal with
  | H : (_ && _)%bool = true |- _ => apply andb_prop in H; destruct H
  | H : (_ || _)%bool = false |- _ => apply orb_false_elim in H; destruct H
  | H : negb _ = true |- _ => apply negb_true_iff in H
  | H : negb _ = false |- _ => apply negb_false_iff in H
  | H : (_ <? _)%nat = true |- _ => apply Nat.ltb_lt in H
  | H : (_ <? _)%nat = false |- _ => apply Nat.ltb_ge in H
  | H : (_ <=? _)%nat = true |- _ => apply Nat.leb_le in H
  | H : (_ <=? _)%nat = false |- _ => apply Nat.leb_gt in H
  | H : (_ =? _)%nat = true |- _ => apply Nat.eqb_eq in H
  | H : (_ =? _)%nat = false |- _ => apply Nat.eqb_neq in H
  | H : (_ <? _)%Z = true |- _ => apply Z.ltb_lt in H
  | H : (_ <? _)%Z = false |- _ => apply Z.ltb_ge in H
  | H : (_ <=? _)%Z = true |- _ => apply Z.leb_le in H
  | H : (_ <=? _)%Z = false |- _ => apply Z.leb_gt in H
  | H : (_ =? _)%Z = true |- _ => apply Z.eqb_eq in H
  | H : (_ =? _)%Z = false |- _ => apply Z.eqb_neq in H
  end.
