(* ===== verification/ProvTypes.v ===== *)
(** * Message types (src/src/codec/include/prov_types.h)

    The C structs of the wire messages, field for field.  A [zcbor_string] is
    the bytes it points to; an array with its count is a list; a value with
    its [_present] flag is an option; a union with its [_choice] is an
    inductive type whose constructors carry the names of the union's members. *)

From S2P Require Import Prelude.

(* C: prov_types.h prov_status_r *)
Inductive prov_status_r : Set :=
| prov_status_status_ok_m_c
| prov_status_status_invalid_proto_m_c
| prov_status_status_invalid_argument_m_c
| prov_status_status_internal_error_m_c
| prov_status_status_unauthorized_m_c
| prov_status_status_invalid_state_m_c
| prov_status_status_busy_m_c.

#[export] Instance prov_status_eq_dec : EqDecision prov_status_r.
Proof. solve_decision. Defined.

(* C: prov_types.h sta_state_r *)
Inductive sta_state_r : Set :=
| sta_state_sta_connected_m_c
| sta_state_sta_connecting_m_c
| sta_state_sta_disconnected_m_c
| sta_state_sta_failed_m_c.

#[export] Instance sta_state_eq_dec : EqDecision sta_state_r.
Proof. solve_decision. Defined.

(* C: prov_types.h fail_reason_r *)
Inductive fail_reason_r : Set :=
| fail_reason_fail_auth_error_m_c
| fail_reason_fail_network_not_found_m_c.

#[export] Instance fail_reason_eq_dec : EqDecision fail_reason_r.
Proof. solve_decision. Defined.

(* C: prov_types.h cred_kind_r *)
Inductive cred_kind_r : Set :=
| cred_kind_cred_device_cert_m_c
| cred_kind_cred_private_key_m_c
| cred_kind_cred_ca_cert_m_c.

#[export] Instance cred_kind_eq_dec : EqDecision cred_kind_r.
Proof. solve_decision. Defined.

(** The numeric values of the enumerators that the C code fixes. *)

(* C: prov_types.h prov_status_r *)
Definition prov_status_val (s : prov_status_r) : Z :=
  match s with
  | prov_status_status_ok_m_c => 0
  | prov_status_status_invalid_proto_m_c => 1
  | prov_status_status_invalid_argument_m_c => 2
  | prov_status_status_internal_error_m_c => 3
  | prov_status_status_unauthorized_m_c => 4
  | prov_status_status_invalid_state_m_c => 5
  | prov_status_status_busy_m_c => 6
  end.

(* C: prov_types.h sta_state_r *)
Definition sta_state_val (s : sta_state_r) : Z :=
  match s with
  | sta_state_sta_connected_m_c => 0
  | sta_state_sta_connecting_m_c => 1
  | sta_state_sta_disconnected_m_c => 2
  | sta_state_sta_failed_m_c => 3
  end.

(* C: prov_types.h fail_reason_r *)
Definition fail_reason_val (r : fail_reason_r) : Z :=
  match r with
  | fail_reason_fail_auth_error_m_c => 0
  | fail_reason_fail_network_not_found_m_c => 1
  end.

(* C: prov_types.h cred_kind_r *)
Definition cred_kind_val (k : cred_kind_r) : Z :=
  match k with
  | cred_kind_cred_device_cert_m_c => 0
  | cred_kind_cred_private_key_m_c => 1
  | cred_kind_cred_ca_cert_m_c => 2
  end.

(** ** .prov/ver *)

(* C: prov_types.h ver_info *)
Record ver_info : Type := {
  ver_info_proto : Z;
  ver_info_caps_tstr : list (list byte);
  ver_info_blk : Z;
  ver_info_lib : list byte;
  ver_info_pop : option bool;
}.

(* C: prov_types.h ver_rsp *)
Record ver_rsp : Type := {
  ver_rsp_prov_status_m : prov_status_r;
  ver_rsp_ver_info_m : ver_info;
}.

(** ** .prov/auth *)

(* C: prov_types.h auth_challenge *)
Record auth_challenge : Type := { auth_challenge_cli_nonce : list byte }.

(* C: prov_types.h auth_proof *)
Record auth_proof : Type := { auth_proof_cli_proof : list byte }.

(* C: prov_types.h auth_req_r *)
Inductive auth_req_r : Type :=
| auth_req_auth_challenge_m (c : auth_challenge)
| auth_req_auth_proof_m (p : auth_proof).

(* C: prov_types.h auth_challenge_rsp *)
Record auth_challenge_rsp : Type := {
  auth_challenge_rsp_prov_status_m : prov_status_r;
  auth_challenge_rsp_dev_nonce : list byte;
  auth_challenge_rsp_dev_proof : list byte;
}.

(* C: prov_types.h auth_proof_rsp *)
Record auth_proof_rsp : Type := { auth_proof_rsp_prov_status_m : prov_status_r }.

(* C: prov_types.h auth_rsp_r *)
Inductive auth_rsp_r : Type :=
| auth_rsp_auth_challenge_rsp_m (r : auth_challenge_rsp)
| auth_rsp_auth_proof_rsp_m (r : auth_proof_rsp).

(** ** .prov/config *)

(* C: prov_types.h wifi_config *)
Record wifi_config : Type := {
  wifi_config_ssid : list byte;
  wifi_config_pass : option (list byte);
  wifi_config_bssid : option (list byte);
  wifi_config_ch : option Z;
}.

(* C: prov_types.h config_set *)
Record config_set : Type := { config_set_wifi_config_m : wifi_config }.

(* C: prov_types.h config_req_r *)
Inductive config_req_r : Type :=
| config_req_config_get_status_m
| config_req_config_set_m (c : config_set)
| config_req_config_apply_m.

(* C: prov_types.h connected_info *)
Record connected_info : Type := {
  connected_info_ip4 : list byte;
  connected_info_ssid : list byte;
  connected_info_rssi : option Z;
}.

(* C: prov_types.h config_detail_r *)
Inductive config_detail_r : Type :=
| config_detail_fail_reason_m (r : fail_reason_r)
| config_detail_connected_info_m (c : connected_info).

(* C: prov_types.h config_status_rsp *)
Record config_status_rsp : Type := {
  config_status_rsp_prov_status_m : prov_status_r;
  config_status_rsp_sta_state_m : sta_state_r;
  config_status_rsp_config_detail_m : option config_detail_r;
}.

(* C: prov_types.h config_set_rsp *)
Record config_set_rsp : Type := { config_set_rsp_prov_status_m : prov_status_r }.

(* C: prov_types.h config_apply_rsp *)
Record config_apply_rsp : Type := { config_apply_rsp_prov_status_m : prov_status_r }.

(* C: prov_types.h config_rsp_r *)
Inductive config_rsp_r : Type :=
| config_rsp_config_status_rsp_m (r : config_status_rsp)
| config_rsp_config_set_rsp_m (r : config_set_rsp)
| config_rsp_config_apply_rsp_m (r : config_apply_rsp).

(** ** .prov/scan *)

(* C: prov_types.h scan_params *)
Record scan_params : Type := {
  scan_params_passive : option bool;
  scan_params_period_ms : option Z;
}.

(* C: prov_types.h scan_start *)
Record scan_start : Type := { scan_start_scan_params_m : scan_params }.

(* C: prov_types.h scan_get_results *)
Record scan_get_results : Type := {
  scan_get_results_start : Z;
  scan_get_results_count : Z;
}.

(* C: prov_types.h scan_req_r *)
Inductive scan_req_r : Type :=
| scan_req_scan_start_m (s : scan_start)
| scan_req_scan_get_status_m
| scan_req_scan_get_results_m (r : scan_get_results).

(* C: prov_types.h scan_start_rsp *)
Record scan_start_rsp : Type := { scan_start_rsp_prov_status_m : prov_status_r }.

(* C: prov_types.h scan_status_rsp *)
Record scan_status_rsp : Type := {
  scan_status_rsp_prov_status_m : prov_status_r;
  scan_status_rsp_finished : bool;
  scan_status_rsp_total : Z;
}.

(* C: prov_types.h scan_entry *)
Record scan_entry : Type := {
  scan_entry_ssid : list byte;
  scan_entry_bssid : list byte;
  scan_entry_ch : Z;
  scan_entry_rssi : Z;
  scan_entry_auth : Z;
}.

(* C: prov_types.h scan_results_rsp *)
Record scan_results_rsp : Type := {
  scan_results_rsp_prov_status_m : prov_status_r;
  scan_results_rsp_scan_entry_m_l_scan_entry_m : list scan_entry;
}.

(* C: prov_types.h scan_rsp_r *)
Inductive scan_rsp_r : Type :=
| scan_rsp_scan_start_rsp_m (r : scan_start_rsp)
| scan_rsp_scan_status_rsp_m (r : scan_status_rsp)
| scan_rsp_scan_results_rsp_m (r : scan_results_rsp).

(** ** .prov/cred *)

(* C: prov_types.h cred_chunk *)
Record cred_chunk : Type := {
  cred_chunk_kind : cred_kind_r;
  cred_chunk_off : Z;
  cred_chunk_total : Z;
  cred_chunk_data : list byte;
}.

(* C: prov_types.h cred_write *)
Record cred_write : Type := { cred_write_cred_chunk_m : cred_chunk }.

(* C: prov_types.h cred_req_r *)
Inductive cred_req_r : Type :=
| cred_req_cred_write_m (w : cred_write)
| cred_req_cred_finalize_m
| cred_req_cred_get_status_m.

(* C: prov_types.h cred_write_rsp *)
Record cred_write_rsp : Type := {
  cred_write_rsp_prov_status_m : prov_status_r;
  cred_write_rsp_received : Z;
}.

(* C: prov_types.h cred_finalize_rsp *)
Record cred_finalize_rsp : Type := { cred_finalize_rsp_prov_status_m : prov_status_r }.

(* C: prov_types.h map_tstruint *)
Record map_tstruint_r : Type := {
  cred_status_rsp_map_tstruint_key : list byte;
  map_tstruint : Z;
}.

(* C: prov_types.h cred_status_rsp *)
Record cred_status_rsp : Type := {
  cred_status_rsp_prov_status_m : prov_status_r;
  cred_status_rsp_map : list map_tstruint_r;
}.

(* C: prov_types.h cred_rsp_r *)
Inductive cred_rsp_r : Type :=
| cred_rsp_cred_write_rsp_m (r : cred_write_rsp)
| cred_rsp_cred_finalize_rsp_m (r : cred_finalize_rsp)
| cred_rsp_cred_status_rsp_m (r : cred_status_rsp).

(** ** .prov/ctrl *)

(* C: prov_types.h ctrl_req_r *)
Inductive ctrl_req_r : Type :=
| ctrl_req_ctrl_reset_m
| ctrl_req_ctrl_reprovision_m
| ctrl_req_ctrl_end_m.

(* C: prov_types.h ctrl_rsp *)
Record ctrl_rsp : Type := {
  ctrl_rsp_ctrl_op_m : Z;
  ctrl_rsp_prov_status_m : prov_status_r;
}.
