(* ===== verification/Zcbor.v ===== *)
(** * The zcbor library as an interface

    The generated codec (src/src/codec) only calls the zcbor library, which is
    not part of the repository.  Its functions are parameters of the codec
    model: [ZcborEnc] here and [ZcborDec] in ZcborDec.v list them, their
    observations and laws state the documented behaviour the codec relies on, on
    the CBOR data model of RFC 8949 with definite lengths (zcbor's canonical
    mode, which the protocol asks for).  The combinators [>&&] and [orE] are C's
    [&&] and [|| (.., false)] on zcbor calls that share one state. *)

From S2P Require Import Prelude.

(** ** CBOR data items *)

#[warnings="-register-all"]
Inductive item : Type :=
| IUint (n : Z)
| INint (n : Z)              (**r the value [-1 - n] *)
| IBstr (b : list byte)
| ITstr (b : list byte)
| IBool (b : bool)
| IArr (l : list item)
| IMap (l : list (item * item)).

(** Initial byte and argument of a data item (RFC 8949, section 3). *)
Definition cbor_head (mt n : Z) : list byte :=
  if n <? 24 then [z2b (mt * 32 + n)]
  else if n <? 256 then z2b (mt * 32 + 24) :: be_bytes 1 n
  else if n <? 65536 then z2b (mt * 32 + 25) :: be_bytes 2 n
  else z2b (mt * 32 + 26) :: be_bytes 4 n.

Definition flat_pairs {A} (l : list (A * A)) : list A :=
  concat (map (fun p => [p.1; p.2]) l).

Fixpoint item_bytes (i : item) : list byte :=
  match i with
  | IUint n => cbor_head 0 n
  | INint n => cbor_head 1 n
  | IBstr b => cbor_head 2 (Z.of_nat (length b)) ++ b
  | ITstr b => cbor_head 3 (Z.of_nat (length b)) ++ b
  | IBool b => [if b then xf5 else xf4]
  | IArr l => cbor_head 4 (Z.of_nat (length l)) ++ concat (map item_bytes l)
  | IMap l => cbor_head 5 (Z.of_nat (length l)) ++
                concat (map (fun p => item_bytes p.1 ++ item_bytes p.2) l)
  end.

Definition items_bytes (l : list item) : list byte := concat (map item_bytes l).

Lemma items_bytes_app l1 l2 : items_bytes (l1 ++ l2) = items_bytes l1 ++ items_bytes l2.
Proof. unfold items_bytes. by rewrite map_app, concat_app. Qed.

Lemma items_bytes_cons i l : items_bytes (i :: l) = item_bytes i ++ items_bytes l.
Proof. done. Qed.

Lemma items_bytes_flat l :
  items_bytes (flat_pairs l) = concat (map (fun p => item_bytes p.1 ++ item_bytes p.2) l).
Proof.
  induction l as [|[a b] l IH]; [done|].
  unfold flat_pairs in *. simpl. rewrite !items_bytes_cons, IH. by rewrite <- app_assoc.
Qed.

Lemma length_flat_pairs {A} (l : list (A * A)) : length (flat_pairs l) = (2 * length l)%nat.
Proof. unfold flat_pairs. induction l as [|p l IH]; simpl in *; lia. Qed.

Lemma length_head mt n : (1 <= length (cbor_head mt n) <= 5)%nat.
Proof.
  unfold cbor_head. repeat (destruct (_ <? _); cbn [length]; rewrite ?length_be_bytes); lia.
Qed.

(** A bound on an item's encoding: five bytes for every head. *)
Fixpoint item_bound (i : item) : nat :=
  match i with
  | IUint _ | INint _ => 5
  | IBstr b | ITstr b => 5 + length b
  | IBool _ => 1
  | IArr l => 5 + sum_list (map item_bound l)
  | IMap l => 5 + sum_list (map (fun p => (item_bound p.1 + item_bound p.2)%nat) l)
  end.

Lemma item_bounds : forall i, (0 < length (item_bytes i) <= item_bound i)%nat.
Proof.
  fix IH 1. intros [n|n|b|b|b|l|l]; cbn [item_bytes item_bound]; rewrite ?length_app;
    try match goal with |- context [cbor_head ?m ?k] => pose proof (length_head m k) end; try lia.
  - cbn. lia.
  - assert (H' : (length (concat (map item_bytes l)) <= sum_list (map item_bound l))%nat); [|lia].
    clear H. induction l as [|x l IHl]; cbn; [lia|]. rewrite length_app. pose proof (IH x). lia.
  - assert (H' : (length (concat (map (fun p => item_bytes p.1 ++ item_bytes p.2) l)) <=
        sum_list (map (fun p => (item_bound p.1 + item_bound p.2)%nat) l))%nat); [|lia].
    clear H. induction l as [|[x y] l IHl]; cbn; [lia|]. rewrite !length_app. cbn.
    pose proof (IH x). pose proof (IH y). lia.
Qed.

(** A signed 32-bit integer as a data item. *)
Definition IInt (z : Z) : item := if z <? 0 then INint (-1 - z) else IUint z.

(** ** Encoding *)

Class ZcborEnc : Type := {
  E : Type;                                          (**r zcbor_state_t when encoding *)
  zcbor_uint32_put : Z -> E -> bool * E;
  zcbor_uint32_encode : Z -> E -> bool * E;
  zcbor_int32_encode : Z -> E -> bool * E;
  zcbor_bool_encode : bool -> E -> bool * E;
  zcbor_bstr_encode : list byte -> E -> bool * E;
  zcbor_tstr_encode : list byte -> E -> bool * E;
  zcbor_list_start_encode : nat -> E -> bool * E;
  zcbor_list_end_encode : nat -> E -> bool * E;
  zcbor_map_start_encode : nat -> E -> bool * E;
  zcbor_map_end_encode : nat -> E -> bool * E;
  zcbor_list_map_end_force_encode : E -> E;
  zcbor_error_enc : E -> E;                          (**r zcbor_error *)
  zcbor_multi_encode_minmax :
    forall {A : Type}, nat -> nat -> (A -> E -> bool * E) -> list A -> E -> bool * E;
  (** zcbor_entry_function on an output buffer of the given size, with the
      encoder and the number of states: the bytes written when it returns 0. *)
  zcbor_entry_encode : nat -> (E -> bool * E) -> nat -> option (list byte);
}.

Section EncCombinators.
Context {ZE : ZcborEnc}.

Definition enc : Type := E -> bool * E.

(** [f && g] *)
Definition andE (f g : enc) : enc :=
  fun s => let '(b, s') := f s in if b then g s' else (false, s').

(** [f || (h, false)] *)
Definition orE (f : enc) (h : E -> E) : enc :=
  fun s => let '(b, s') := f s in if b then (true, s') else (false, h s').

(** A C condition used as an operand of [&&]. *)
Definition testE (c : bool) : enc := fun s => (c, s).

(** [zcbor_multi_encode]: the encoder on every element, up to the first failure. *)
Fixpoint seqE {A} (f : A -> enc) (l : list A) : enc :=
  match l with
  | [] => testE true
  | x :: l' => andE (f x) (seqE f l')
  end.
End EncCombinators.

Infix ">&&" := andE (at level 42, right associativity) : prov_scope.

(** Observations of an encoder state: whether it is usable, what the open
    container holds so far, the space left in the payload, the elements encoded
    in the open container, the backups of the enclosing ones and the free
    backups. *)
Class ZcborEncObs (ZE : ZcborEnc) : Type := {
  e_ok : E -> Prop;
  e_written : E -> list byte;
  e_room : E -> nat;
  e_count : E -> nat;
  e_frames : E -> list (list byte * nat);
  e_depth : E -> nat;
}.

(** With [d] free backups, [f] writes exactly [its] when they fit in the
    payload, and fails when they do not. *)
Definition emits {ZE : ZcborEnc} {ZO : ZcborEncObs ZE} (d : nat) (f : enc)
    (its : list item) : Prop :=
  forall s, e_ok s -> (d <= e_depth s)%nat ->
    if (length (items_bytes its) <=? e_room s)%nat
    then exists s', f s = (true, s') /\ e_ok s' /\
           e_written s' = e_written s ++ items_bytes its /\
           e_room s' = (e_room s - length (items_bytes its))%nat /\
           e_count s' = (e_count s + length its)%nat /\
           e_frames s' = e_frames s /\ e_depth s' = e_depth s
    else exists s', f s = (false, s').

(** The documented behaviour of the encoder. *)
Class ZcborEncLaws (ZE : ZcborEnc) (ZO : ZcborEncObs ZE) : Prop := {
  uint32_put_law v : in_u32 v -> emits 0 (zcbor_uint32_put v) [IUint v];
  uint32_encode_law v : in_u32 v -> emits 0 (zcbor_uint32_encode v) [IUint v];
  int32_encode_law v : in_i32 v -> emits 0 (zcbor_int32_encode v) [IInt v];
  bool_encode_law b : emits 0 (zcbor_bool_encode b) [IBool b];
  bstr_encode_law b :
    in_u32 (Z.of_nat (length b)) -> emits 0 (zcbor_bstr_encode b) [IBstr b];
  tstr_encode_law b :
    in_u32 (Z.of_nat (length b)) -> emits 0 (zcbor_tstr_encode b) [ITstr b];
  (** A list or map needs one free backup; its header is rewritten to the actual
      element count when it is closed, and holds one byte for fewer than 24. *)
  list_encode_law d f its max h :
    emits d f its -> (length its <= max < 24)%nat ->
    emits (S d) (zcbor_list_start_encode max >&& orE f h >&& zcbor_list_end_encode max)
      [IArr its];
  map_encode_law d f kvs max h :
    emits d f (flat_pairs kvs) -> (length kvs <= max < 24)%nat ->
    emits (S d) (zcbor_map_start_encode max >&& orE f h >&& zcbor_map_end_encode max)
      [IMap kvs];
  multi_encode_law {A} mn mx (f : A -> enc) l s :
    e_ok s -> (mn <= length l <= mx)%nat ->
    zcbor_multi_encode_minmax mn mx f l s = seqE f l s;
  (** The entry function starts from a fresh state with [n - 2] free backups and
      reports the encoder's result. *)
  entry_encode_law size f n :
    exists s0, e_ok s0 /\ e_written s0 = [] /\ e_room s0 = size /\
      e_depth s0 = (n - 2)%nat /\
      zcbor_entry_encode size f n =
        (let '(b, s') := f s0 in if b then Some (e_written s') else None);
}.

Section EncLemmas.
Context {ZE : ZcborEnc} {ZO : ZcborEncObs ZE} {ZL : ZcborEncLaws ZE ZO}.

(** Encoders compose: the items of [f], then the items of [g]. *)
Lemma emits_and d f g l1 l2 : emits d f l1 -> emits d g l2 -> emits d (f >&& g) (l1 ++ l2).
Proof.
  intros Hf Hg s Hs Hd. specialize (Hf s Hs Hd). unfold andE.
  rewrite items_bytes_app, length_app in *.
  destruct (_ <=? _)%nat eqn:F in Hf.
  - destruct Hf as (s1 & -> & Hs1 & Hw1 & Hr1 & Hc1 & Hf1 & Hd1).
    specialize (Hg s1 Hs1 ltac:(lia)). zbool.
    destruct (_ <=? _)%nat eqn:G in Hg; zbool.
    + destruct Hg as (s2 & -> & Hs2 & Hw2 & Hr2 & Hc2 & Hf2 & Hd2).
      rewrite (proj2 (Nat.leb_le _ _)) by lia.
      exists s2. split; [done|]. split; [done|]. rewrite length_app.
      split; [by rewrite Hw2, Hw1, app_assoc|]. split_and!; first [lia|by rewrite Hf2].
    + destruct Hg as (s2 & ->). rewrite (proj2 (Nat.leb_gt _ _)) by lia. eauto.
  - destruct Hf as (s1 & ->). zbool. rewrite (proj2 (Nat.leb_gt _ _)) by lia. eauto.
Qed.

Lemma emits_weaken d d' f l : emits d f l -> (d <= d')%nat -> emits d' f l.
Proof. intros Hf Hle s Hs Hd. apply Hf; [done|lia]. Qed.

(** A failed test is followed by [zcbor_error]; a test that holds is invisible. *)
Lemma emits_test d c h f l : c = true -> emits d f l -> emits d (orE (testE c) h >&& f) l.
Proof. intros -> Hf s Hs Hd. apply (Hf s Hs Hd). Qed.

Lemma emits_nil d : emits d (testE true) [].
Proof.
  intros s Hs Hd. exists s. rewrite app_nil_r. split_and!; try done; simpl; lia.
Qed.

(** [!present || f] for an optional field. *)
Lemma emits_opt {A} d (o : option A) (f : A -> enc) (its : A -> list item) :
  (forall a, o = Some a -> emits d (f a) (its a)) ->
  emits d (match o with Some a => f a | None => testE true end)
    (match o with Some a => its a | None => [] end).
Proof. intros H. destruct o; [by apply H|apply emits_nil]. Qed.

Lemma emits_seq {A} d (f : A -> enc) (it : A -> list item) l :
  (forall x, x ∈ l -> emits d (f x) (it x)) -> emits d (seqE f l) (concat (map it l)).
Proof.
  induction l as [|x l IH]; simpl; intros H; [apply emits_nil|].
  apply emits_and; [apply H; left|]. apply IH. intros y Hy. apply H. by right.
Qed.

Lemma emits_multi {A} d mn mx (f : A -> enc) (it : A -> list item) l :
  (mn <= length l <= mx)%nat -> (forall x, x ∈ l -> emits d (f x) (it x)) ->
  emits d (zcbor_multi_encode_minmax mn mx f l) (concat (map it l)).
Proof.
  intros Hl Hf s Hs Hd. rewrite multi_encode_law by done.
  by apply (emits_seq d f it l Hf s Hs Hd).
Qed.

Lemma emits_eq d f l l' : emits d f l -> l = l' -> emits d f l'.
Proof. by intros H <-. Qed.

(** The entry function on an encoder of one data item. *)
Lemma entry_emits d size f n it :
  emits d f [it] -> (d + 2 <= n)%nat ->
  zcbor_entry_encode size f n =
    (if (length (item_bytes it) <=? size)%nat then Some (item_bytes it) else None).
Proof.
  intros Hf Hn. destruct (entry_encode_law size f n) as (s0 & H0 & Hw & Hr & Hd & ->).
  specialize (Hf s0 H0 ltac:(lia)). unfold items_bytes in Hf. simpl in Hf.
  rewrite app_nil_r in Hf. rewrite Hr in Hf.
  destruct (_ <=? _)%nat.
  - destruct Hf as (s' & -> & _ & -> & _). by rewrite Hw.
  - by destruct Hf as (s' & ->).
Qed.

(** An encoder that fails whatever the state makes the entry function fail. *)
Definition refusesE (f : enc) : Prop := forall s, (f s).1 = false.

Lemma entry_refuses size f n : refusesE f -> zcbor_entry_encode size f n = None.
Proof.
  intros Hf. destruct (entry_encode_law size f n) as (s0 & _ & _ & _ & _ & ->).
  specialize (Hf s0). by destruct (f s0) as [[] ?].
Qed.

Lemma refusesE_and_l f g : refusesE f -> refusesE (f >&& g).
Proof. intros H s. specialize (H s). unfold andE. by destruct (f s) as [[] ?]. Qed.

Lemma refusesE_and_r f g : refusesE g -> refusesE (f >&& g).
Proof. intros H s. unfold andE. destruct (f s) as [[] s']; [apply H|done]. Qed.

Lemma refusesE_or f h : refusesE f -> refusesE (orE f h).
Proof. intros H s. specialize (H s). unfold orE. by destruct (f s) as [[] ?]. Qed.
End EncLemmas.

(** Symbolic execution of encoders; filled by EncodeProofs.v. *)
Create HintDb emits.

(** Proof search goes through the lemmas above, not through the definition. *)
#[global] Opaque emits.
