(* ===== verification/ZcborDec.v ===== *)
(** * The decoding half of the zcbor library as an interface

    Functions of zcbor that the generated decoders call, with their documented
    behaviour.  A decoder state is observed through the payload still to read,
    the elements left in the container being read, the stack of backups that
    containers and unions push, and the free backups.  A decoder returns
    [Some result] for C's [true]. *)

From S2P Require Import Prelude Zcbor.

Class ZcborDec : Type := {
  D : Type;                                          (**r zcbor_state_t when decoding *)
  zcbor_uint32_decode : D -> option Z * D;
  zcbor_uint_decode : D -> option Z * D;             (**r into 4 bytes *)
  zcbor_int32_decode : D -> option Z * D;
  zcbor_bool_decode : D -> option bool * D;
  zcbor_bstr_decode : D -> option (list byte) * D;
  zcbor_tstr_decode : D -> option (list byte) * D;
  zcbor_uint32_expect : Z -> D -> option unit * D;
  zcbor_tstr_expect : list byte -> D -> option unit * D;
  zcbor_list_start_decode : D -> option unit * D;
  zcbor_list_end_decode : D -> option unit * D;
  zcbor_map_start_decode : D -> option unit * D;
  zcbor_map_end_decode : D -> option unit * D;
  zcbor_list_map_end_force_decode : D -> D;
  zcbor_union_start_code : D -> option unit * D;
  zcbor_union_elem_code : D -> option unit * D;
  zcbor_union_end_code : D -> D;
  zcbor_error_dec : D -> D;                          (**r zcbor_error *)
  zcbor_present_decode : forall {A : Type}, (D -> option A * D) -> D -> option (option A) * D;
  zcbor_multi_decode :
    forall {A : Type}, nat -> nat -> (D -> option A * D) -> D -> option (list A) * D;
  (** zcbor_entry_function on a payload, for one element, with the decoder and
      the number of states: the result when it returns 0. *)
  zcbor_entry_decode : forall {A : Type}, list byte -> (D -> option A * D) -> nat -> option A;
}.

Section DecCombinators.
Context {ZD : ZcborDec}.

Definition dec (A : Type) : Type := D -> option A * D.

Definition retD {A} (a : A) : dec A := fun s => (Some a, s).

(** [f && g], with the result of [f] at hand. *)
Definition bindD {A B} (f : dec A) (g : A -> dec B) : dec B :=
  fun s => let '(o, s') := f s in
           match o with Some a => g a s' | None => (None, s') end.

(** [f || (h, false)] *)
Definition orD {A} (f : dec A) (h : D -> D) : dec A :=
  fun s => let '(o, s') := f s in
           match o with Some a => (Some a, s') | None => (None, h s') end.

(** A C condition on the result so far. *)
Definition testD {A} (c : bool) (a : A) : dec A := fun s => (if c then Some a else None, s).

(** [f || (union_elem && g) || ..] *)
Fixpoint altsD {A} (f : dec A) (l : list (dec A)) : dec A :=
  match l with
  | [] => f
  | g :: l' => fun s =>
      let '(o, s') := f s in
      match o with
      | Some a => (Some a, s')
      | None => altsD (bindD zcbor_union_elem_code (fun _ => g)) l' s'
      end
  end.

(** [union_start && (int_res = (alternatives), union_end, int_res)] *)
Definition unionD {A} (f : dec A) (l : list (dec A)) : dec A :=
  bindD zcbor_union_start_code (fun _ s =>
    let '(o, s') := altsD f l s in (o, zcbor_union_end_code s')).
End DecCombinators.

Notation "x <~ f ;; g" := (bindD f (fun x => g))
  (at level 100, f at next level, right associativity) : prov_scope.
Notation "f ;~ g" := (bindD f (fun _ => g))
  (at level 100, right associativity) : prov_scope.

(** Observations of a decoder state. *)
Class ZcborDecObs (ZD : ZcborDec) : Type := {
  d_rest : D -> list byte;
  d_count : D -> nat;
  d_frames : D -> list (list byte * nat);
  d_free : D -> nat;
}.

(** [s] is observed as given. *)
Definition dec_at {ZD : ZcborDec} {ZO : ZcborDecObs ZD} (s : D) (rest : list byte) (count : nat)
    (frames : list (list byte * nat)) (free : nat) : Prop :=
  d_rest s = rest /\ d_count s = count /\ d_frames s = frames /\ d_free s = free.

(** With [d] free backups, [f] reads exactly the items [its] and returns [a]. *)
Definition reads {ZD : ZcborDec} {ZO : ZcborDecObs ZD} {A} (d : nat) (f : dec A)
    (its : list item) (a : A) : Prop :=
  forall s tl c fs k, dec_at s (items_bytes its ++ tl) (length its + c) fs k -> (d <= k)%nat ->
    exists s', f s = (Some a, s') /\ dec_at s' tl c fs k.

(** With [d] free backups, [f] fails on a payload that starts with the item
    [it], and leaves the backups as they were. *)
Definition rejects {ZD : ZcborDec} {ZO : ZcborDecObs ZD} {A} (d : nat) (f : dec A) (it : item)
  : Prop :=
  forall s tl c, d_rest s = item_bytes it ++ tl -> d_count s = S c -> (d <= d_free s)%nat ->
    exists s', f s = (None, s') /\ d_frames s' = d_frames s /\ d_free s' = d_free s.

(** [f] fails, touching nothing, when the container has no element left. *)
Definition starves {ZD : ZcborDec} {ZO : ZcborDecObs ZD} {A} (f : dec A) : Prop :=
  forall s, d_count s = 0%nat ->
    exists s', f s = (None, s') /\ dec_at s' (d_rest s) 0 (d_frames s) (d_free s).

(** Repeated successful runs of [f]. *)
Inductive runs {ZD : ZcborDec} {A} (f : dec A) : D -> list A -> D -> Prop :=
| runs_nil s : runs f s [] s
| runs_cons s a s1 l s2 : f s = (Some a, s1) -> runs f s1 l s2 -> runs f s (a :: l) s2.

(** The documented behaviour of the decoder. *)
Class ZcborDecLaws (ZD : ZcborDec) (ZO : ZcborDecObs ZD) : Prop := {
  uint32_decode_law n : in_u32 n -> reads 0 zcbor_uint32_decode [IUint n] n;
  uint_decode_law n : in_u32 n -> reads 0 zcbor_uint_decode [IUint n] n;
  int32_decode_law z : in_i32 z -> reads 0 zcbor_int32_decode [IInt z] z;
  bool_decode_law b : reads 0 zcbor_bool_decode [IBool b] b;
  bstr_decode_law b : in_u32 (Z.of_nat (length b)) -> reads 0 zcbor_bstr_decode [IBstr b] b;
  tstr_decode_law b : in_u32 (Z.of_nat (length b)) -> reads 0 zcbor_tstr_decode [ITstr b] b;
  uint32_expect_law n : in_u32 n -> reads 0 (zcbor_uint32_expect n) [IUint n] tt;
  tstr_expect_law b :
    in_u32 (Z.of_nat (length b)) -> reads 0 (zcbor_tstr_expect b) [ITstr b] tt;
  (** A result is a value of its C type. *)
  uint32_decode_range s n s' : zcbor_uint32_decode s = (Some n, s') -> in_u32 n;
  bstr_decode_range s b s' :
    zcbor_bstr_decode s = (Some b, s') -> in_u32 (Z.of_nat (length b));
  (** A value that is not there is not read. *)
  uint32_expect_other n m : in_u32 m -> m <> n -> rejects 0 (zcbor_uint32_expect n) (IUint m);
  tstr_expect_other b c :
    in_u32 (Z.of_nat (length c)) -> c <> b -> rejects 0 (zcbor_tstr_expect b) (ITstr c);
  uint_decode_map l :
    in_u32 (Z.of_nat (length l)) -> rejects 0 zcbor_uint_decode (IMap l);
  uint_decode_starves : starves zcbor_uint_decode;
  tstr_decode_starves : starves zcbor_tstr_decode;
  tstr_expect_starves b : starves (zcbor_tstr_expect b);
  map_start_starves : starves zcbor_map_start_decode;
  (** Containers: the header's count is the number of elements to read; the
      end asks for none to be left, and drops the backup in any case. *)
  list_start_law s n tl c fs k :
    in_u32 (Z.of_nat n) -> dec_at s (cbor_head 4 (Z.of_nat n) ++ tl) (S c) fs (S k) ->
    exists s' r, zcbor_list_start_decode s = (Some tt, s') /\ dec_at s' tl n ((r, c) :: fs) k;
  map_start_law s n tl c fs k :
    in_u32 (Z.of_nat n) -> dec_at s (cbor_head 5 (Z.of_nat n) ++ tl) (S c) fs (S k) ->
    exists s' r, zcbor_map_start_decode s = (Some tt, s') /\
      dec_at s' tl (2 * n) ((r, c) :: fs) k;
  list_end_law s tl r c fs k :
    dec_at s tl 0 ((r, c) :: fs) k ->
    exists s', zcbor_list_end_decode s = (Some tt, s') /\ dec_at s' tl c fs (S k);
  map_end_law s tl r c fs k :
    dec_at s tl 0 ((r, c) :: fs) k ->
    exists s', zcbor_map_end_decode s = (Some tt, s') /\ dec_at s' tl c fs (S k);
  list_end_left s x fs k :
    d_count s <> 0%nat -> d_frames s = x :: fs -> d_free s = k ->
    exists s', zcbor_list_end_decode s = (None, s') /\ d_frames s' = fs /\ d_free s' = S k;
  force_end_law s x fs :
    d_frames s = x :: fs ->
    d_frames (zcbor_list_map_end_force_decode s) = fs /\
    d_free (zcbor_list_map_end_force_decode s) = S (d_free s);
  error_law s : dec_at (zcbor_error_dec s) (d_rest s) (d_count s) (d_frames s) (d_free s);
  (** Unions: a backup of the position, restored before each further alternative. *)
  union_start_law s rest c fs k :
    dec_at s rest c fs (S k) ->
    exists s', zcbor_union_start_code s = (Some tt, s') /\ dec_at s' rest c ((rest, c) :: fs) k;
  union_elem_law s rest c fs :
    d_frames s = (rest, c) :: fs ->
    exists s', zcbor_union_elem_code s = (Some tt, s') /\
      dec_at s' rest c ((rest, c) :: fs) (d_free s);
  union_end_law s rest c x fs k :
    dec_at s rest c (x :: fs) k -> dec_at (zcbor_union_end_code s) rest c fs (S k);
  (** An optional element is read or left where it is. *)
  present_some_law {A} (f : dec A) s a s' :
    f s = (Some a, s') -> zcbor_present_decode f s = (Some (Some a), s');
  present_none_law {A} (f : dec A) s s' :
    f s = (None, s') -> d_frames s' = d_frames s -> d_free s' = d_free s ->
    exists s'', zcbor_present_decode f s = (Some None, s'') /\
      dec_at s'' (d_rest s) (d_count s) (d_frames s) (d_free s);
  present_from_law {A} (f : dec A) s a s' :
    zcbor_present_decode f s = (Some (Some a), s') -> exists s1 s2, f s1 = (Some a, s2);
  (** Repetition runs until the maximum or the first failure. *)
  multi_law {A} mn mx (f : dec A) s l s1 s2 :
    runs f s l s1 -> (mn <= length l <= mx)%nat -> f s1 = (None, s2) ->
    d_frames s2 = d_frames s1 -> d_free s2 = d_free s1 ->
    exists s', zcbor_multi_decode mn mx f s = (Some l, s') /\
      dec_at s' (d_rest s1) (d_count s1) (d_frames s1) (d_free s1);
  multi_full_law {A} mn mx (f : dec A) s l s1 :
    runs f s l s1 -> length l = mx -> (mn <= mx)%nat ->
    zcbor_multi_decode mn mx f s = (Some l, s1);
  (** The entry function reads one element with [n - 2] free backups. *)
  entry_decode_law {A} b (f : dec A) n :
    exists s0, dec_at s0 b 1 [] (n - 2) /\ zcbor_entry_decode b f n = (f s0).1;
}.
