(* ===== verification/Schema.v ===== *)
(** * The wire format of every message (cddl/prov.cddl)

    The CBOR data item the schema gives each message, and the value ranges it
    asks for.  This is the abstract specification of the codec: Encode.v and
    Decode.v are proved to implement it.  Keys come in the schema's order. *)

From S2P Require Import Prelude ProvTypes Zcbor.

Definition kv (k : string) (v : item) : item * item := (ITstr (str k), v).

(** An optional map entry. *)
Definition okv {A} (k : string) (f : A -> item) (o : option A) : list (item * item) :=
  match o with Some a => [kv k (f a)] | None => [] end.

Definition status_item (s : prov_status_r) : item := IUint (prov_status_val s).

(** [[op, status]], the reply shape every path shares. *)
Definition op_status_item (op : Z) (s : prov_status_r) : item := IArr [IUint op; status_item s].

Definition op_item (op : Z) : item := IArr [IUint op].

(** ** .prov/ver *)

Definition ver_req_item : item := op_item 0.

Definition ver_info_item (v : ver_info) : item :=
  IMap ([kv "proto" (IUint (ver_info_proto v));
         kv "caps" (IArr (map ITstr (ver_info_caps_tstr v)));
         kv "blk" (IUint (ver_info_blk v));
         kv "lib" (ITstr (ver_info_lib v))] ++ okv "pop" IBool (ver_info_pop v)).

Definition ver_rsp_item (r : ver_rsp) : item :=
  IArr [IUint 0; status_item (ver_rsp_prov_status_m r); ver_info_item (ver_rsp_ver_info_m r)].

Definition str_ok (b : list byte) : Prop := in_u32 (Z.of_nat (length b)).

Definition ver_rsp_ok (r : ver_rsp) : Prop :=
  let v := ver_rsp_ver_info_m r in
  in_u32 (ver_info_proto v) /\ in_u32 (ver_info_blk v) /\ str_ok (ver_info_lib v) /\
  (length (ver_info_caps_tstr v) <= 8)%nat /\ (forall t, t ∈ ver_info_caps_tstr v -> str_ok t).

(** ** .prov/auth *)

Definition auth_req_item (r : auth_req_r) : item :=
  match r with
  | auth_req_auth_challenge_m c => IArr [IUint 0; IBstr (auth_challenge_cli_nonce c)]
  | auth_req_auth_proof_m p => IArr [IUint 1; IBstr (auth_proof_cli_proof p)]
  end.

Definition auth_req_ok (r : auth_req_r) : Prop :=
  match r with
  | auth_req_auth_challenge_m c => length (auth_challenge_cli_nonce c) = 16%nat
  | auth_req_auth_proof_m p => length (auth_proof_cli_proof p) = 32%nat
  end.

Definition auth_rsp_item (r : auth_rsp_r) : item :=
  match r with
  | auth_rsp_auth_challenge_rsp_m c =>
      IArr [IUint 0; status_item (auth_challenge_rsp_prov_status_m c);
            IBstr (auth_challenge_rsp_dev_nonce c); IBstr (auth_challenge_rsp_dev_proof c)]
  | auth_rsp_auth_proof_rsp_m p => op_status_item 1 (auth_proof_rsp_prov_status_m p)
  end.

Definition auth_rsp_ok (r : auth_rsp_r) : Prop :=
  match r with
  | auth_rsp_auth_challenge_rsp_m c =>
      length (auth_challenge_rsp_dev_nonce c) = 16%nat /\
      length (auth_challenge_rsp_dev_proof c) = 32%nat
  | auth_rsp_auth_proof_rsp_m _ => True
  end.

(** ** .prov/config *)

Definition wifi_config_item (c : wifi_config) : item :=
  IMap ([kv "ssid" (IBstr (wifi_config_ssid c))] ++ okv "pass" IBstr (wifi_config_pass c) ++
        okv "bssid" IBstr (wifi_config_bssid c) ++ okv "ch" IUint (wifi_config_ch c)).

Definition wifi_config_ok (c : wifi_config) : Prop :=
  (1 <= length (wifi_config_ssid c) <= 32)%nat /\
  (forall p, wifi_config_pass c = Some p -> (length p <= 64)%nat) /\
  (forall b, wifi_config_bssid c = Some b -> length b = 6%nat) /\
  (forall ch, wifi_config_ch c = Some ch -> in_u32 ch).

Definition config_req_item (r : config_req_r) : item :=
  match r with
  | config_req_config_get_status_m => op_item 0
  | config_req_config_set_m c => IArr [IUint 1; wifi_config_item (config_set_wifi_config_m c)]
  | config_req_config_apply_m => op_item 2
  end.

Definition config_req_ok (r : config_req_r) : Prop :=
  match r with
  | config_req_config_set_m c => wifi_config_ok (config_set_wifi_config_m c)
  | _ => True
  end.

Definition connected_info_item (c : connected_info) : item :=
  IMap ([kv "ip4" (IBstr (connected_info_ip4 c)); kv "ssid" (IBstr (connected_info_ssid c))] ++
        okv "rssi" IInt (connected_info_rssi c)).

Definition connected_info_ok (c : connected_info) : Prop :=
  length (connected_info_ip4 c) = 4%nat /\ (1 <= length (connected_info_ssid c) <= 32)%nat /\
  (forall r, connected_info_rssi c = Some r -> in_i32 r).

Definition config_detail_item (d : config_detail_r) : item :=
  match d with
  | config_detail_fail_reason_m r => IUint (fail_reason_val r)
  | config_detail_connected_info_m c => connected_info_item c
  end.

Definition config_detail_ok (d : config_detail_r) : Prop :=
  match d with
  | config_detail_fail_reason_m _ => True
  | config_detail_connected_info_m c => connected_info_ok c
  end.

Definition config_rsp_item (r : config_rsp_r) : item :=
  match r with
  | config_rsp_config_status_rsp_m s =>
      IArr ([IUint 0; status_item (config_status_rsp_prov_status_m s);
             IUint (sta_state_val (config_status_rsp_sta_state_m s))] ++
            match config_status_rsp_config_detail_m s with
            | Some d => [config_detail_item d]
            | None => []
            end)
  | config_rsp_config_set_rsp_m s => op_status_item 1 (config_set_rsp_prov_status_m s)
  | config_rsp_config_apply_rsp_m s => op_status_item 2 (config_apply_rsp_prov_status_m s)
  end.

Definition config_rsp_ok (r : config_rsp_r) : Prop :=
  match r with
  | config_rsp_config_status_rsp_m s =>
      forall d, config_status_rsp_config_detail_m s = Some d -> config_detail_ok d
  | _ => True
  end.

(** ** .prov/scan *)

Definition scan_params_item (p : scan_params) : item :=
  IMap (okv "passive" IBool (scan_params_passive p) ++
        okv "period-ms" IUint (scan_params_period_ms p)).

Definition scan_req_item (r : scan_req_r) : item :=
  match r with
  | scan_req_scan_start_m s => IArr [IUint 0; scan_params_item (scan_start_scan_params_m s)]
  | scan_req_scan_get_status_m => op_item 1
  | scan_req_scan_get_results_m g =>
      IArr [IUint 2; IUint (scan_get_results_start g); IUint (scan_get_results_count g)]
  end.

Definition scan_req_ok (r : scan_req_r) : Prop :=
  match r with
  | scan_req_scan_start_m s =>
      forall p, scan_params_period_ms (scan_start_scan_params_m s) = Some p -> in_u32 p
  | scan_req_scan_get_status_m => True
  | scan_req_scan_get_results_m g =>
      in_u32 (scan_get_results_start g) /\ in_u32 (scan_get_results_count g)
  end.

Definition scan_entry_item (e : scan_entry) : item :=
  IMap [kv "ssid" (IBstr (scan_entry_ssid e)); kv "bssid" (IBstr (scan_entry_bssid e));
        kv "ch" (IUint (scan_entry_ch e)); kv "rssi" (IInt (scan_entry_rssi e));
        kv "auth" (IUint (scan_entry_auth e))].

Definition scan_entry_ok (e : scan_entry) : Prop :=
  (length (scan_entry_ssid e) <= 32)%nat /\ length (scan_entry_bssid e) = 6%nat /\
  in_u32 (scan_entry_ch e) /\ in_i32 (scan_entry_rssi e) /\ in_u32 (scan_entry_auth e).

Definition scan_rsp_item (r : scan_rsp_r) : item :=
  match r with
  | scan_rsp_scan_start_rsp_m s => op_status_item 0 (scan_start_rsp_prov_status_m s)
  | scan_rsp_scan_status_rsp_m s =>
      IArr [IUint 1; status_item (scan_status_rsp_prov_status_m s);
            IBool (scan_status_rsp_finished s); IUint (scan_status_rsp_total s)]
  | scan_rsp_scan_results_rsp_m s =>
      IArr [IUint 2; status_item (scan_results_rsp_prov_status_m s);
            IArr (map scan_entry_item (scan_results_rsp_scan_entry_m_l_scan_entry_m s))]
  end.

Definition scan_rsp_ok (r : scan_rsp_r) : Prop :=
  match r with
  | scan_rsp_scan_start_rsp_m _ => True
  | scan_rsp_scan_status_rsp_m s => in_u32 (scan_status_rsp_total s)
  | scan_rsp_scan_results_rsp_m s =>
      let l := scan_results_rsp_scan_entry_m_l_scan_entry_m s in
      (length l <= 8)%nat /\ (forall e, e ∈ l -> scan_entry_ok e)
  end.

(** ** .prov/cred *)

Definition cred_chunk_item (c : cred_chunk) : item :=
  IMap [kv "kind" (IUint (cred_kind_val (cred_chunk_kind c)));
        kv "off" (IUint (cred_chunk_off c)); kv "total" (IUint (cred_chunk_total c));
        kv "data" (IBstr (cred_chunk_data c))].

Definition cred_chunk_ok (c : cred_chunk) : Prop :=
  in_u32 (cred_chunk_off c) /\ in_u32 (cred_chunk_total c) /\ str_ok (cred_chunk_data c).

Definition cred_req_item (r : cred_req_r) : item :=
  match r with
  | cred_req_cred_write_m w => IArr [IUint 0; cred_chunk_item (cred_write_cred_chunk_m w)]
  | cred_req_cred_finalize_m => op_item 1
  | cred_req_cred_get_status_m => op_item 2
  end.

Definition cred_req_ok (r : cred_req_r) : Prop :=
  match r with
  | cred_req_cred_write_m w => cred_chunk_ok (cred_write_cred_chunk_m w)
  | _ => True
  end.

Definition map_tstruint_pair (m : map_tstruint_r) : item * item :=
  (ITstr (cred_status_rsp_map_tstruint_key m), IUint (map_tstruint m)).

Definition cred_rsp_item (r : cred_rsp_r) : item :=
  match r with
  | cred_rsp_cred_write_rsp_m w =>
      IArr [IUint 0; status_item (cred_write_rsp_prov_status_m w);
            IUint (cred_write_rsp_received w)]
  | cred_rsp_cred_finalize_rsp_m f => op_status_item 1 (cred_finalize_rsp_prov_status_m f)
  | cred_rsp_cred_status_rsp_m s =>
      IArr [IUint 2; status_item (cred_status_rsp_prov_status_m s);
            IMap (map map_tstruint_pair (cred_status_rsp_map s))]
  end.

Definition cred_rsp_ok (r : cred_rsp_r) : Prop :=
  match r with
  | cred_rsp_cred_write_rsp_m w => in_u32 (cred_write_rsp_received w)
  | cred_rsp_cred_finalize_rsp_m _ => True
  | cred_rsp_cred_status_rsp_m s =>
      (length (cred_status_rsp_map s) <= 8)%nat /\
      (forall m, m ∈ cred_status_rsp_map s ->
         str_ok (cred_status_rsp_map_tstruint_key m) /\ in_u32 (map_tstruint m))
  end.

(** ** .prov/ctrl *)

Definition ctrl_req_item (r : ctrl_req_r) : item :=
  match r with
  | ctrl_req_ctrl_reset_m => op_item 0
  | ctrl_req_ctrl_reprovision_m => op_item 1
  | ctrl_req_ctrl_end_m => op_item 2
  end.

Definition ctrl_rsp_item (r : ctrl_rsp) : item :=
  op_status_item (ctrl_rsp_ctrl_op_m r) (ctrl_rsp_prov_status_m r).

Definition ctrl_rsp_ok (r : ctrl_rsp) : Prop := 0 <= ctrl_rsp_ctrl_op_m r <= 2.
