(* ===== verification/Encode.v ===== *)
(** * The message encoders (src/src/codec/prov_encode.c)

    One definition per C function, in the file's order of dependence: a list is
    [start >&& orE body force_end >&& end], a range check is
    [orE (testE c) zcbor_error], as the generated C has them. *)

From S2P Require Import Prelude ProvTypes Zcbor.

Section Encode.
Context {ZE : ZcborEnc}.

(** [zcbor_tstr_encode] of a literal key. *)
Definition tkey (k : string) : enc := zcbor_tstr_encode (str k).

(** The generated shape of a list and of a map. *)
Definition listE (n : nat) (body : enc) : enc :=
  zcbor_list_start_encode n >&& orE body zcbor_list_map_end_force_encode >&&
  zcbor_list_end_encode n.

Definition mapE (n : nat) (body : enc) : enc :=
  zcbor_map_start_encode n >&& orE body zcbor_list_map_end_force_encode >&&
  zcbor_map_end_encode n.

(** [(c || (zcbor_error(..), false))] *)
Definition rangeE (c : bool) : enc := orE (testE c) zcbor_error_enc.

(** [(!present || f(..))] *)
Definition optE {A} (o : option A) (f : A -> enc) : enc :=
  match o with Some a => f a | None => testE true end.

Definition lenbt (b : list byte) (lo hi : nat) : bool :=
  ((lo <=? length b) && (length b <=? hi))%nat.

(* C: prov_encode.c encode_prov_status *)
Definition encode_prov_status (input : prov_status_r) : enc :=
  match input with
  | prov_status_status_ok_m_c => zcbor_uint32_put 0
  | prov_status_status_invalid_proto_m_c => zcbor_uint32_put 1
  | prov_status_status_invalid_argument_m_c => zcbor_uint32_put 2
  | prov_status_status_internal_error_m_c => zcbor_uint32_put 3
  | prov_status_status_unauthorized_m_c => zcbor_uint32_put 4
  | prov_status_status_invalid_state_m_c => zcbor_uint32_put 5
  | prov_status_status_busy_m_c => zcbor_uint32_put 6
  end.

(* C: prov_encode.c encode_repeated_ver_info_pop *)
Definition encode_repeated_ver_info_pop (input : bool) : enc :=
  tkey "pop" >&& zcbor_bool_encode input.

(* C: prov_encode.c encode_ver_info *)
Definition encode_ver_info (input : ver_info) : enc :=
  mapE 5
    ((tkey "proto" >&& zcbor_uint32_encode (ver_info_proto input)) >&&
     (tkey "caps" >&&
        listE 8 (zcbor_multi_encode_minmax 0 8 zcbor_tstr_encode (ver_info_caps_tstr input))) >&&
     (tkey "blk" >&& zcbor_uint32_encode (ver_info_blk input)) >&&
     (tkey "lib" >&& zcbor_tstr_encode (ver_info_lib input)) >&&
     optE (ver_info_pop input) encode_repeated_ver_info_pop).

(* C: prov_encode.c encode_auth_challenge *)
Definition encode_auth_challenge (input : auth_challenge) : enc :=
  listE 2 (zcbor_uint32_put 0 >&&
           rangeE (length (auth_challenge_cli_nonce input) =? 16)%nat >&&
           zcbor_bstr_encode (auth_challenge_cli_nonce input)).

(* C: prov_encode.c encode_auth_proof *)
Definition encode_auth_proof (input : auth_proof) : enc :=
  listE 2 (zcbor_uint32_put 1 >&&
           rangeE (length (auth_proof_cli_proof input) =? 32)%nat >&&
           zcbor_bstr_encode (auth_proof_cli_proof input)).

(* C: prov_encode.c encode_config_get_status *)
Definition encode_config_get_status : enc := listE 1 (zcbor_uint32_put 0).

(* C: prov_encode.c encode_repeated_wifi_config_pass *)
Definition encode_repeated_wifi_config_pass (input : list byte) : enc :=
  tkey "pass" >&& rangeE (lenbt input 0 64) >&& zcbor_bstr_encode input.

(* C: prov_encode.c encode_repeated_wifi_config_bssid *)
Definition encode_repeated_wifi_config_bssid (input : list byte) : enc :=
  tkey "bssid" >&& rangeE (length input =? 6)%nat >&& zcbor_bstr_encode input.

(* C: prov_encode.c encode_repeated_wifi_config_ch *)
Definition encode_repeated_wifi_config_ch (input : Z) : enc :=
  tkey "ch" >&& zcbor_uint32_encode input.

(* C: prov_encode.c encode_wifi_config *)
Definition encode_wifi_config (input : wifi_config) : enc :=
  mapE 4
    ((tkey "ssid" >&& rangeE (lenbt (wifi_config_ssid input) 1 32) >&&
      zcbor_bstr_encode (wifi_config_ssid input)) >&&
     optE (wifi_config_pass input) encode_repeated_wifi_config_pass >&&
     optE (wifi_config_bssid input) encode_repeated_wifi_config_bssid >&&
     optE (wifi_config_ch input) encode_repeated_wifi_config_ch).

(* C: prov_encode.c encode_config_set *)
Definition encode_config_set (input : config_set) : enc :=
  listE 2 (zcbor_uint32_put 1 >&& encode_wifi_config (config_set_wifi_config_m input)).

(* C: prov_encode.c encode_config_apply *)
Definition encode_config_apply : enc := listE 1 (zcbor_uint32_put 2).

(* C: prov_encode.c encode_repeated_scan_params_passive *)
Definition encode_repeated_scan_params_passive (input : bool) : enc :=
  tkey "passive" >&& zcbor_bool_encode input.

(* C: prov_encode.c encode_repeated_scan_params_period_ms *)
Definition encode_repeated_scan_params_period_ms (input : Z) : enc :=
  tkey "period-ms" >&& zcbor_uint32_encode input.

(* C: prov_encode.c encode_scan_params *)
Definition encode_scan_params (input : scan_params) : enc :=
  mapE 2 (optE (scan_params_passive input) encode_repeated_scan_params_passive >&&
          optE (scan_params_period_ms input) encode_repeated_scan_params_period_ms).

(* C: prov_encode.c encode_scan_start *)
Definition encode_scan_start (input : scan_start) : enc :=
  listE 2 (zcbor_uint32_put 0 >&& encode_scan_params (scan_start_scan_params_m input)).

(* C: prov_encode.c encode_scan_get_status *)
Definition encode_scan_get_status : enc := listE 1 (zcbor_uint32_put 1).

(* C: prov_encode.c encode_scan_get_results *)
Definition encode_scan_get_results (input : scan_get_results) : enc :=
  listE 3 (zcbor_uint32_put 2 >&& zcbor_uint32_encode (scan_get_results_start input) >&&
           zcbor_uint32_encode (scan_get_results_count input)).

(* C: prov_encode.c encode_ctrl_reset *)
Definition encode_ctrl_reset : enc := listE 1 (zcbor_uint32_put 0).

(* C: prov_encode.c encode_ctrl_reprovision *)
Definition encode_ctrl_reprovision : enc := listE 1 (zcbor_uint32_put 1).

(* C: prov_encode.c encode_ctrl_end *)
Definition encode_ctrl_end : enc := listE 1 (zcbor_uint32_put 2).

(* C: prov_encode.c encode_auth_challenge_rsp *)
Definition encode_auth_challenge_rsp (input : auth_challenge_rsp) : enc :=
  listE 4 (zcbor_uint32_put 0 >&&
           encode_prov_status (auth_challenge_rsp_prov_status_m input) >&&
           (rangeE (length (auth_challenge_rsp_dev_nonce input) =? 16)%nat >&&
            zcbor_bstr_encode (auth_challenge_rsp_dev_nonce input)) >&&
           (rangeE (length (auth_challenge_rsp_dev_proof input) =? 32)%nat >&&
            zcbor_bstr_encode (auth_challenge_rsp_dev_proof input))).

(* C: prov_encode.c encode_auth_proof_rsp *)
Definition encode_auth_proof_rsp (input : auth_proof_rsp) : enc :=
  listE 2 (zcbor_uint32_put 1 >&& encode_prov_status (auth_proof_rsp_prov_status_m input)).

(* C: prov_encode.c encode_scan_start_rsp *)
Definition encode_scan_start_rsp (input : scan_start_rsp) : enc :=
  listE 2 (zcbor_uint32_put 0 >&& encode_prov_status (scan_start_rsp_prov_status_m input)).

(* C: prov_encode.c encode_scan_status_rsp *)
Definition encode_scan_status_rsp (input : scan_status_rsp) : enc :=
  listE 4 (zcbor_uint32_put 1 >&& encode_prov_status (scan_status_rsp_prov_status_m input) >&&
           zcbor_bool_encode (scan_status_rsp_finished input) >&&
           zcbor_uint32_encode (scan_status_rsp_total input)).

(* C: prov_encode.c encode_scan_entry *)
Definition encode_scan_entry (input : scan_entry) : enc :=
  mapE 5
    ((tkey "ssid" >&& rangeE (lenbt (scan_entry_ssid input) 0 32) >&&
      zcbor_bstr_encode (scan_entry_ssid input)) >&&
     (tkey "bssid" >&& rangeE (length (scan_entry_bssid input) =? 6)%nat >&&
      zcbor_bstr_encode (scan_entry_bssid input)) >&&
     (tkey "ch" >&& zcbor_uint32_encode (scan_entry_ch input)) >&&
     (tkey "rssi" >&& zcbor_int32_encode (scan_entry_rssi input)) >&&
     (tkey "auth" >&& zcbor_uint32_encode (scan_entry_auth input))).

(* C: prov_encode.c encode_scan_results_rsp *)
Definition encode_scan_results_rsp (input : scan_results_rsp) : enc :=
  listE 3 (zcbor_uint32_put 2 >&& encode_prov_status (scan_results_rsp_prov_status_m input) >&&
           listE 8 (zcbor_multi_encode_minmax 0 8 encode_scan_entry
                      (scan_results_rsp_scan_entry_m_l_scan_entry_m input))).

(* C: prov_encode.c encode_cred_write_rsp *)
Definition encode_cred_write_rsp (input : cred_write_rsp) : enc :=
  listE 3 (zcbor_uint32_put 0 >&& encode_prov_status (cred_write_rsp_prov_status_m input) >&&
           zcbor_uint32_encode (cred_write_rsp_received input)).

(* C: prov_encode.c encode_cred_finalize_rsp *)
Definition encode_cred_finalize_rsp (input : cred_finalize_rsp) : enc :=
  listE 2 (zcbor_uint32_put 1 >&& encode_prov_status (cred_finalize_rsp_prov_status_m input)).

(* C: prov_encode.c encode_repeated_map_tstruint *)
Definition encode_repeated_map_tstruint (input : map_tstruint_r) : enc :=
  zcbor_tstr_encode (cred_status_rsp_map_tstruint_key input) >&&
  zcbor_uint32_encode (map_tstruint input).

(* C: prov_encode.c encode_cred_status_rsp *)
Definition encode_cred_status_rsp (input : cred_status_rsp) : enc :=
  listE 3 (zcbor_uint32_put 2 >&& encode_prov_status (cred_status_rsp_prov_status_m input) >&&
           mapE 8 (zcbor_multi_encode_minmax 0 8 encode_repeated_map_tstruint
                     (cred_status_rsp_map input))).

(* C: prov_encode.c encode_sta_state *)
Definition encode_sta_state (input : sta_state_r) : enc :=
  match input with
  | sta_state_sta_connected_m_c => zcbor_uint32_put 0
  | sta_state_sta_connecting_m_c => zcbor_uint32_put 1
  | sta_state_sta_disconnected_m_c => zcbor_uint32_put 2
  | sta_state_sta_failed_m_c => zcbor_uint32_put 3
  end.

(* C: prov_encode.c encode_fail_reason *)
Definition encode_fail_reason (input : fail_reason_r) : enc :=
  match input with
  | fail_reason_fail_auth_error_m_c => zcbor_uint32_put 0
  | fail_reason_fail_network_not_found_m_c => zcbor_uint32_put 1
  end.

(* C: prov_encode.c encode_repeated_connected_info_rssi *)
Definition encode_repeated_connected_info_rssi (input : Z) : enc :=
  tkey "rssi" >&& zcbor_int32_encode input.

(* C: prov_encode.c encode_connected_info *)
Definition encode_connected_info (input : connected_info) : enc :=
  mapE 3
    ((tkey "ip4" >&& rangeE (length (connected_info_ip4 input) =? 4)%nat >&&
      zcbor_bstr_encode (connected_info_ip4 input)) >&&
     (tkey "ssid" >&& rangeE (lenbt (connected_info_ssid input) 1 32) >&&
      zcbor_bstr_encode (connected_info_ssid input)) >&&
     optE (connected_info_rssi input) encode_repeated_connected_info_rssi).

(* C: prov_encode.c encode_config_detail *)
Definition encode_config_detail (input : config_detail_r) : enc :=
  match input with
  | config_detail_fail_reason_m r => encode_fail_reason r
  | config_detail_connected_info_m c => encode_connected_info c
  end.

(* C: prov_encode.c encode_config_status_rsp *)
Definition encode_config_status_rsp (input : config_status_rsp) : enc :=
  listE 4 (zcbor_uint32_put 0 >&& encode_prov_status (config_status_rsp_prov_status_m input) >&&
           encode_sta_state (config_status_rsp_sta_state_m input) >&&
           optE (config_status_rsp_config_detail_m input) encode_config_detail).

(* C: prov_encode.c encode_config_set_rsp *)
Definition encode_config_set_rsp (input : config_set_rsp) : enc :=
  listE 2 (zcbor_uint32_put 1 >&& encode_prov_status (config_set_rsp_prov_status_m input)).

(* C: prov_encode.c encode_config_apply_rsp *)
Definition encode_config_apply_rsp (input : config_apply_rsp) : enc :=
  listE 2 (zcbor_uint32_put 2 >&& encode_prov_status (config_apply_rsp_prov_status_m input)).

(* C: prov_encode.c encode_cred_kind *)
Definition encode_cred_kind (input : cred_kind_r) : enc :=
  match input with
  | cred_kind_cred_device_cert_m_c => zcbor_uint32_put 0
  | cred_kind_cred_private_key_m_c => zcbor_uint32_put 1
  | cred_kind_cred_ca_cert_m_c => zcbor_uint32_put 2
  end.

(* C: prov_encode.c encode_cred_chunk *)
Definition encode_cred_chunk (input : cred_chunk) : enc :=
  mapE 4
    ((tkey "kind" >&& encode_cred_kind (cred_chunk_kind input)) >&&
     (tkey "off" >&& zcbor_uint32_encode (cred_chunk_off input)) >&&
     (tkey "total" >&& zcbor_uint32_encode (cred_chunk_total input)) >&&
     (tkey "data" >&& zcbor_bstr_encode (cred_chunk_data input))).

(* C: prov_encode.c encode_cred_write *)
Definition encode_cred_write (input : cred_write) : enc :=
  listE 2 (zcbor_uint32_put 0 >&& encode_cred_chunk (cred_write_cred_chunk_m input)).

(* C: prov_encode.c encode_cred_finalize *)
Definition encode_cred_finalize : enc := listE 1 (zcbor_uint32_put 1).

(* C: prov_encode.c encode_cred_get_status *)
Definition encode_cred_get_status : enc := listE 1 (zcbor_uint32_put 2).

(* C: prov_encode.c encode_ctrl_rsp *)
Definition encode_ctrl_rsp (input : ctrl_rsp) : enc :=
  listE 2 (orE (rangeE (ctrl_rsp_ctrl_op_m input <=? 2)) zcbor_error_enc >&&
           zcbor_uint32_encode (ctrl_rsp_ctrl_op_m input) >&&
           encode_prov_status (ctrl_rsp_prov_status_m input)).

(* C: prov_encode.c encode_ctrl_req *)
Definition encode_ctrl_req (input : ctrl_req_r) : enc :=
  match input with
  | ctrl_req_ctrl_reset_m => encode_ctrl_reset
  | ctrl_req_ctrl_reprovision_m => encode_ctrl_reprovision
  | ctrl_req_ctrl_end_m => encode_ctrl_end
  end.

(* C: prov_encode.c encode_cred_rsp *)
Definition encode_cred_rsp (input : cred_rsp_r) : enc :=
  match input with
  | cred_rsp_cred_write_rsp_m r => encode_cred_write_rsp r
  | cred_rsp_cred_finalize_rsp_m r => encode_cred_finalize_rsp r
  | cred_rsp_cred_status_rsp_m r => encode_cred_status_rsp r
  end.

(* C: prov_encode.c encode_cred_req *)
Definition encode_cred_req (input : cred_req_r) : enc :=
  match input with
  | cred_req_cred_write_m w => encode_cred_write w
  | cred_req_cred_finalize_m => encode_cred_finalize
  | cred_req_cred_get_status_m => encode_cred_get_status
  end.

(* C: prov_encode.c encode_scan_rsp *)
Definition encode_scan_rsp (input : scan_rsp_r) : enc :=
  match input with
  | scan_rsp_scan_start_rsp_m r => encode_scan_start_rsp r
  | scan_rsp_scan_status_rsp_m r => encode_scan_status_rsp r
  | scan_rsp_scan_results_rsp_m r => encode_scan_results_rsp r
  end.

(* C: prov_encode.c encode_scan_req *)
Definition encode_scan_req (input : scan_req_r) : enc :=
  match input with
  | scan_req_scan_start_m s => encode_scan_start s
  | scan_req_scan_get_status_m => encode_scan_get_status
  | scan_req_scan_get_results_m r => encode_scan_get_results r
  end.

(* C: prov_encode.c encode_config_rsp *)
Definition encode_config_rsp (input : config_rsp_r) : enc :=
  match input with
  | config_rsp_config_status_rsp_m r => encode_config_status_rsp r
  | config_rsp_config_set_rsp_m r => encode_config_set_rsp r
  | config_rsp_config_apply_rsp_m r => encode_config_apply_rsp r
  end.

(* C: prov_encode.c encode_config_req *)
Definition encode_config_req (input : config_req_r) : enc :=
  match input with
  | config_req_config_get_status_m => encode_config_get_status
  | config_req_config_set_m c => encode_config_set c
  | config_req_config_apply_m => encode_config_apply
  end.

(* C: prov_encode.c encode_auth_rsp *)
Definition encode_auth_rsp (input : auth_rsp_r) : enc :=
  match input with
  | auth_rsp_auth_challenge_rsp_m r => encode_auth_challenge_rsp r
  | auth_rsp_auth_proof_rsp_m r => encode_auth_proof_rsp r
  end.

(* C: prov_encode.c encode_auth_req *)
Definition encode_auth_req (input : auth_req_r) : enc :=
  match input with
  | auth_req_auth_challenge_m c => encode_auth_challenge c
  | auth_req_auth_proof_m p => encode_auth_proof p
  end.

(* C: prov_encode.c encode_ver_rsp *)
Definition encode_ver_rsp (input : ver_rsp) : enc :=
  listE 3 (zcbor_uint32_put 0 >&& encode_prov_status (ver_rsp_prov_status_m input) >&&
           encode_ver_info (ver_rsp_ver_info_m input)).

(* C: prov_encode.c encode_ver_req *)
Definition encode_ver_req : enc := listE 1 (zcbor_uint32_put 0).

(** The entry points: the output buffer's size, the message, and the bytes
    written on success. *)

(* C: prov_encode.c cbor_encode_ver_req *)
Definition cbor_encode_ver_req (size : nat) : option (list byte) :=
  zcbor_entry_encode size encode_ver_req 3.

(* C: prov_encode.c cbor_encode_ver_rsp *)
Definition cbor_encode_ver_rsp (size : nat) (input : ver_rsp) : option (list byte) :=
  zcbor_entry_encode size (encode_ver_rsp input) 5.

(* C: prov_encode.c cbor_encode_auth_req *)
Definition cbor_encode_auth_req (size : nat) (input : auth_req_r) : option (list byte) :=
  zcbor_entry_encode size (encode_auth_req input) 4.

(* C: prov_encode.c cbor_encode_auth_rsp *)
Definition cbor_encode_auth_rsp (size : nat) (input : auth_rsp_r) : option (list byte) :=
  zcbor_entry_encode size (encode_auth_rsp input) 5.

(* C: prov_encode.c cbor_encode_config_req *)
Definition cbor_encode_config_req (size : nat) (input : config_req_r) : option (list byte) :=
  zcbor_entry_encode size (encode_config_req input) 5.

(* C: prov_encode.c cbor_encode_config_rsp *)
Definition cbor_encode_config_rsp (size : nat) (input : config_rsp_r) : option (list byte) :=
  zcbor_entry_encode size (encode_config_rsp input) 6.

(* C: prov_encode.c cbor_encode_scan_req *)
Definition cbor_encode_scan_req (size : nat) (input : scan_req_r) : option (list byte) :=
  zcbor_entry_encode size (encode_scan_req input) 5.

(* C: prov_encode.c cbor_encode_scan_rsp *)
Definition cbor_encode_scan_rsp (size : nat) (input : scan_rsp_r) : option (list byte) :=
  zcbor_entry_encode size (encode_scan_rsp input) 6.

(* C: prov_encode.c cbor_encode_cred_req *)
Definition cbor_encode_cred_req (size : nat) (input : cred_req_r) : option (list byte) :=
  zcbor_entry_encode size (encode_cred_req input) 6.

(* C: prov_encode.c cbor_encode_cred_rsp *)
Definition cbor_encode_cred_rsp (size : nat) (input : cred_rsp_r) : option (list byte) :=
  zcbor_entry_encode size (encode_cred_rsp input) 5.

(* C: prov_encode.c cbor_encode_ctrl_req *)
Definition cbor_encode_ctrl_req (size : nat) (input : ctrl_req_r) : option (list byte) :=
  zcbor_entry_encode size (encode_ctrl_req input) 4.

(* C: prov_encode.c cbor_encode_ctrl_rsp *)
Definition cbor_encode_ctrl_rsp (size : nat) (input : ctrl_rsp) : option (list byte) :=
  zcbor_entry_encode size (encode_ctrl_rsp input) 4.
End Encode.
