(* ===== verification/EncodeProofs.v ===== *)
(** * The encoders write the schema's items

    Every message encoder, run on a message the schema allows, emits the
    message's data item of Schema.v; the entry points therefore return exactly
    its bytes when they fit the buffer and fail when they do not.  Proved
    against the interface of Zcbor.v. *)

From S2P Require Import Prelude ProvTypes Zcbor Schema Encode.

Section EncodeProofs.
Context {ZE : ZcborEnc} {ZO : ZcborEncObs ZE} {ZL : ZcborEncLaws ZE ZO}.

(** ** Leaves and brackets, at any number of free backups *)

Lemma emits_put d v : in_u32 v -> emits d (zcbor_uint32_put v) [IUint v].
Proof. intros H. eapply emits_weaken; [by apply uint32_put_law|lia]. Qed.

Lemma emits_u32 d v : in_u32 v -> emits d (zcbor_uint32_encode v) [IUint v].
Proof. intros H. eapply emits_weaken; [by apply uint32_encode_law|lia]. Qed.

Lemma emits_i32 d v : in_i32 v -> emits d (zcbor_int32_encode v) [IInt v].
Proof. intros H. eapply emits_weaken; [by apply int32_encode_law|lia]. Qed.

Lemma emits_bool d b : emits d (zcbor_bool_encode b) [IBool b].
Proof. eapply emits_weaken; [apply bool_encode_law|lia]. Qed.

Lemma emits_bstr d b : str_ok b -> emits d (zcbor_bstr_encode b) [IBstr b].
Proof. intros H. eapply emits_weaken; [by apply bstr_encode_law|lia]. Qed.

Lemma emits_tstr d b : str_ok b -> emits d (zcbor_tstr_encode b) [ITstr b].
Proof. intros H. eapply emits_weaken; [by apply tstr_encode_law|lia]. Qed.

Lemma emits_tkey d k : str_ok (str k) -> emits d (tkey k) [ITstr (str k)].
Proof. apply emits_tstr. Qed.

Lemma emits_list d n f its :
  emits d f its -> (length its <= n < 24)%nat -> emits (S d) (listE n f) [IArr its].
Proof. intros. by apply list_encode_law. Qed.

Lemma emits_map d n f its kvs :
  emits d f its -> its = flat_pairs kvs -> (length kvs <= n < 24)%nat ->
  emits (S d) (mapE n f) [IMap kvs].
Proof. intros H -> ?. by apply map_encode_law. Qed.

Lemma emits_range d c f l : emits d f l -> c = true -> emits d (rangeE c >&& f) l.
Proof. intros H ->. by apply emits_test. Qed.

(** The generator doubles the check of a [.le] bound. *)
Lemma emits_range2 d c f l :
  emits d f l -> c = true -> emits d (orE (rangeE c) zcbor_error_enc >&& f) l.
Proof. intros H ->. by apply (emits_test d true zcbor_error_enc). Qed.

Lemma emits_optE {A} d (o : option A) f (its : A -> list item) :
  (forall a, o = Some a -> emits d (f a) (its a)) ->
  emits d (optE o f) (match o with Some a => its a | None => [] end).
Proof. apply emits_opt. Qed.
End EncodeProofs.

(** Side conditions: ranges of constants, lengths of short strings. *)
Ltac emit_side :=
  unfold str_ok, in_u32, in_i32, in_u8, lenbt in *;
  repeat match goal with
  | H : _ /\ _ |- _ => destruct H
  | |- (_ && _)%bool = true => apply andb_true_intro; split
  | |- (_ <=? _)%nat = true => apply Nat.leb_le
  | |- (_ =? _)%nat = true => apply Nat.eqb_eq
  | |- (_ <=? _)%Z = true => apply Z.leb_le
  end; solve [lia | simpl in *; lia | eauto].

#[export] Hint Extern 4 (emits _ (zcbor_uint32_put _) _) => apply emits_put; emit_side : emits.
#[export] Hint Extern 4 (emits _ (zcbor_uint32_encode _) _) => apply emits_u32; emit_side : emits.
#[export] Hint Extern 4 (emits _ (zcbor_int32_encode _) _) => apply emits_i32; emit_side : emits.
#[export] Hint Extern 4 (emits _ (zcbor_bool_encode _) _) => apply emits_bool : emits.
#[export] Hint Extern 4 (emits _ (zcbor_bstr_encode _) _) => apply emits_bstr; emit_side : emits.
#[export] Hint Extern 4 (emits _ (zcbor_tstr_encode _) _) => apply emits_tstr; emit_side : emits.
#[export] Hint Extern 4 (emits _ (tkey _) _) => apply emits_tkey; emit_side : emits.

(** Runs an encoder symbolically: computes the items it emits, from the
    encoder's text and the lemmas of the [emits] database. *)
Ltac emit :=
  first
  [ solve [eauto 2 with emits]
  | lazymatch goal with
    | |- emits _ (rangeE _ >&& _) _ => eapply emits_range; [emit | emit_side]
    | |- emits _ (orE (rangeE _) _ >&& _) _ => eapply emits_range2; [emit | emit_side]
    | |- emits _ (_ >&& _) _ => eapply emits_and; [emit | emit]
    | |- emits _ (listE _ _) _ => eapply emits_list; [emit | simpl; lia]
    | |- emits _ (testE true) _ => apply emits_nil
    end ].

(** A goal about known items: run the encoder, then compare. *)
Ltac emit_as := eapply emits_eq; [emit | try reflexivity].

Section Messages.
Context {ZE : ZcborEnc} {ZO : ZcborEncObs ZE} {ZL : ZcborEncLaws ZE ZO}.

Lemma emits_prov_status d s : emits d (encode_prov_status s) [status_item s].
Proof. destruct s; simpl; emit. Qed.

Lemma emits_sta_state d s : emits d (encode_sta_state s) [IUint (sta_state_val s)].
Proof. destruct s; simpl; emit. Qed.

Lemma emits_fail_reason d r : emits d (encode_fail_reason r) [IUint (fail_reason_val r)].
Proof. destruct r; simpl; emit. Qed.

Lemma emits_cred_kind d k : emits d (encode_cred_kind k) [IUint (cred_kind_val k)].
Proof. destruct k; simpl; emit. Qed.

#[local] Hint Resolve emits_prov_status emits_sta_state emits_fail_reason emits_cred_kind
  : emits.

Lemma emits_caps d l :
  (length l <= 8)%nat -> (forall t, t ∈ l -> str_ok t) ->
  emits (S d) (listE 8 (zcbor_multi_encode_minmax 0 8 zcbor_tstr_encode l))
    [IArr (map ITstr l)].
Proof.
  intros Hl Hs. replace (map ITstr l) with (concat (map (fun t => [ITstr t]) l))
    by (clear; induction l; simpl; congruence).
  apply emits_list.
  - apply emits_multi; [lia|]. intros t Ht. apply emits_tstr. auto.
  - assert (length (concat (map (fun t => [ITstr t]) l)) = length l) as ->
      by (clear; induction l; simpl; auto). lia.
Qed.

Lemma emits_ver_info v :
  ver_rsp_ok {| ver_rsp_prov_status_m := prov_status_status_ok_m_c; ver_rsp_ver_info_m := v |} ->
  emits 2 (encode_ver_info v) [ver_info_item v].
Proof.
  intros (Hp & Hb & Hl & Hc & Ht). simpl in *.
  pose proof (emits_caps 0 _ Hc Ht). unfold ver_info_item.
  destruct v as [p caps blk lib [pop|]]; simpl in *;
    (eapply emits_map; [unfold optE, encode_repeated_ver_info_pop; simpl; emit
                       |reflexivity|simpl; lia]).
Qed.

Lemma emits_wifi_config c : wifi_config_ok c -> emits 1 (encode_wifi_config c) [wifi_config_item c].
Proof.
  intros (Hs & Hp & Hb & Hc).
  unfold wifi_config_item, encode_wifi_config, encode_repeated_wifi_config_pass,
    encode_repeated_wifi_config_bssid, encode_repeated_wifi_config_ch.
  destruct c as [ssid [p|] [b|] [ch|]]; simpl in *;
    try specialize (Hp _ eq_refl); try specialize (Hb _ eq_refl);
    try specialize (Hc _ eq_refl);
    (eapply emits_map; [emit|reflexivity|simpl; lia]).
Qed.

Lemma emits_scan_params p :
  (forall v, scan_params_period_ms p = Some v -> in_u32 v) ->
  emits 1 (encode_scan_params p) [scan_params_item p].
Proof.
  intros H. unfold scan_params_item, encode_scan_params,
    encode_repeated_scan_params_passive, encode_repeated_scan_params_period_ms.
  destruct p as [[b|] [v|]]; simpl in *; try specialize (H _ eq_refl);
    (eapply emits_map; [emit|reflexivity|simpl; lia]).
Qed.

Lemma emits_scan_entry d e : scan_entry_ok e -> emits (S d) (encode_scan_entry e) [scan_entry_item e].
Proof.
  intros (Hs & Hb & Hc & Hr & Ha). unfold scan_entry_item, encode_scan_entry.
  eapply emits_map; [emit|reflexivity|simpl; lia].
Qed.

Lemma emits_connected_info d c :
  connected_info_ok c -> emits (S d) (encode_connected_info c) [connected_info_item c].
Proof.
  intros (Hi & Hs & Hr). unfold connected_info_item, encode_connected_info,
    encode_repeated_connected_info_rssi.
  destruct c as [ip ssid [r|]]; simpl in *; try specialize (Hr _ eq_refl);
    (eapply emits_map; [emit|reflexivity|simpl; lia]).
Qed.

Lemma emits_cred_chunk c : cred_chunk_ok c -> emits 1 (encode_cred_chunk c) [cred_chunk_item c].
Proof.
  intros (Ho & Ht & Hd). unfold cred_chunk_item, encode_cred_chunk.
  eapply emits_map; [emit|reflexivity|simpl; lia].
Qed.

Lemma emits_scan_entries d l :
  (length l <= 8)%nat -> (forall e, e ∈ l -> scan_entry_ok e) ->
  emits (S (S d)) (listE 8 (zcbor_multi_encode_minmax 0 8 encode_scan_entry l))
    [IArr (map scan_entry_item l)].
Proof.
  intros Hl He. replace (map scan_entry_item l) with (concat (map (fun t => [scan_entry_item t]) l))
    by (clear; induction l; simpl; congruence).
  apply emits_list.
  - apply emits_multi; [lia|]. intros t Ht. apply emits_scan_entry. auto.
  - assert (length (concat (map (fun t => [scan_entry_item t]) l)) = length l) as ->
      by (clear; induction l; simpl; auto). lia.
Qed.

Lemma emits_map_tstruint d l :
  (length l <= 8)%nat ->
  (forall m, m ∈ l -> str_ok (cred_status_rsp_map_tstruint_key m) /\ in_u32 (map_tstruint m)) ->
  emits (S d) (mapE 8 (zcbor_multi_encode_minmax 0 8 encode_repeated_map_tstruint l))
    [IMap (map map_tstruint_pair l)].
Proof.
  intros Hl He. eapply emits_map.
  - apply (emits_multi d 0 8 encode_repeated_map_tstruint
             (fun m => [(map_tstruint_pair m).1; (map_tstruint_pair m).2])); [lia|].
    intros m Hm. destruct (He m Hm). unfold encode_repeated_map_tstruint. emit_as.
  - unfold flat_pairs. by rewrite map_map.
  - rewrite length_map. lia.
Qed.

#[local] Hint Resolve emits_ver_info emits_wifi_config emits_scan_params emits_connected_info
  emits_cred_chunk emits_scan_entries emits_map_tstruint : emits.

(** ** Whole messages *)

Lemma emits_ver_req : emits 1 encode_ver_req [ver_req_item].
Proof. unfold encode_ver_req. emit_as. Qed.

Lemma emits_ver_rsp r : ver_rsp_ok r -> emits 3 (encode_ver_rsp r) [ver_rsp_item r].
Proof.
  intros H. assert (emits 2 (encode_ver_info (ver_rsp_ver_info_m r))
    [ver_info_item (ver_rsp_ver_info_m r)]) by by apply emits_ver_info.
  unfold encode_ver_rsp. emit_as.
Qed.

Lemma emits_auth_req r : auth_req_ok r -> emits 1 (encode_auth_req r) [auth_req_item r].
Proof.
  destruct r as [[n]|[p]]; simpl; intros H;
    unfold encode_auth_challenge, encode_auth_proof; emit_as.
Qed.

Lemma emits_auth_rsp r : auth_rsp_ok r -> emits 1 (encode_auth_rsp r) [auth_rsp_item r].
Proof.
  destruct r as [[s n p]|[s]]; simpl; intros H;
    unfold encode_auth_challenge_rsp, encode_auth_proof_rsp; emit_as.
Qed.

Lemma emits_config_req r : config_req_ok r -> emits 2 (encode_config_req r) [config_req_item r].
Proof.
  destruct r as [|[c]|]; simpl; intros H;
    unfold encode_config_get_status, encode_config_set, encode_config_apply; emit_as.
Qed.

Lemma emits_config_rsp r : config_rsp_ok r -> emits 2 (encode_config_rsp r) [config_rsp_item r].
Proof.
  destruct r as [[s t [[f|c]|]]|[s]|[s]]; simpl; intros H;
    unfold encode_config_status_rsp, encode_config_set_rsp, encode_config_apply_rsp;
    simpl; try specialize (H _ eq_refl); emit_as.
Qed.

Lemma emits_scan_req r : scan_req_ok r -> emits 2 (encode_scan_req r) [scan_req_item r].
Proof.
  destruct r as [[p]| |[s c]]; simpl; intros H;
    unfold encode_scan_start, encode_scan_get_status, encode_scan_get_results; emit_as.
Qed.

Lemma emits_scan_rsp r : scan_rsp_ok r -> emits 3 (encode_scan_rsp r) [scan_rsp_item r].
Proof.
  destruct r as [[s]|[s f t]|[s l]]; simpl; intros H;
    unfold encode_scan_start_rsp, encode_scan_status_rsp, encode_scan_results_rsp;
    [emit_as|emit_as|]. simpl. destruct H. emit_as.
Qed.

Lemma emits_cred_req r : cred_req_ok r -> emits 2 (encode_cred_req r) [cred_req_item r].
Proof.
  destruct r as [[c]| |]; simpl; intros H;
    unfold encode_cred_write, encode_cred_finalize, encode_cred_get_status; emit_as.
Qed.

Lemma emits_cred_rsp r : cred_rsp_ok r -> emits 2 (encode_cred_rsp r) [cred_rsp_item r].
Proof.
  destruct r as [[s n]|[s]|[s l]]; simpl; intros H;
    unfold encode_cred_write_rsp, encode_cred_finalize_rsp, encode_cred_status_rsp;
    [emit_as|emit_as|]. simpl. destruct H. emit_as.
Qed.

Lemma emits_ctrl_req r : emits 1 (encode_ctrl_req r) [ctrl_req_item r].
Proof.
  destruct r; simpl; unfold encode_ctrl_reset, encode_ctrl_reprovision, encode_ctrl_end; emit_as.
Qed.

Lemma emits_ctrl_rsp r : ctrl_rsp_ok r -> emits 1 (encode_ctrl_rsp r) [ctrl_rsp_item r].
Proof.
  intros H. unfold ctrl_rsp_ok in H. unfold encode_ctrl_rsp. emit_as.
Qed.
End Messages.
