(* ===== verification/Decode.v ===== *)
(** * The generated decoders (src/src/codec/prov_decode.c)

    Every decoder of the file, on the zcbor interface of ZcborDec.v, in the
    same order of calls.  [cbor_decode_x] are the entry points with the number
    of states the file allots them. *)

From S2P Require Import Prelude ProvTypes Zcbor ZcborDec.

Section Decode.
Context {ZD : ZcborDec}.

(** [zcbor_list_start && (body || (force_end, false)) && zcbor_list_end] *)
Definition listD {A} (body : dec A) : dec A :=
  zcbor_list_start_decode ;~
  r <~ orD body zcbor_list_map_end_force_decode ;;
  zcbor_list_end_decode ;~ retD r.
Definition mapD {A} (body : dec A) : dec A :=
  zcbor_map_start_decode ;~
  r <~ orD body zcbor_list_map_end_force_decode ;;
  zcbor_map_end_decode ;~ retD r.

(** [zcbor_tstr_expect(key) && f] *)
Definition keyD {A} (k : string) (f : dec A) : dec A := zcbor_tstr_expect (str k) ;~ f.

(** [(c || (zcbor_error(..), false))] after the value is read. *)
Definition checkD {A} (c : A -> bool) (f : dec A) : dec A :=
  a <~ f ;; orD (testD (c a) a) zcbor_error_dec.

Definition len_is (n : nat) (b : list byte) : bool := (length b =? n)%nat.
Definition len_in (lo hi : nat) (b : list byte) : bool :=
  ((lo <=? length b) && (length b <=? hi))%nat.

(** An integer that must be one of the enumerators. *)
Definition enumD {A} (of_val : Z -> option A) : dec A :=
  z <~ zcbor_uint_decode ;;
  orD (fun s => (of_val z, s)) zcbor_error_dec.

Definition prov_status_of (z : Z) : option prov_status_r :=
  if z =? 0 then Some prov_status_status_ok_m_c
  else if z =? 1 then Some prov_status_status_invalid_proto_m_c
  else if z =? 2 then Some prov_status_status_invalid_argument_m_c
  else if z =? 3 then Some prov_status_status_internal_error_m_c
  else if z =? 4 then Some prov_status_status_unauthorized_m_c
  else if z =? 5 then Some prov_status_status_invalid_state_m_c
  else if z =? 6 then Some prov_status_status_busy_m_c
  else None.

Definition sta_state_of (z : Z) : option sta_state_r :=
  if z =? 0 then Some sta_state_sta_connected_m_c
  else if z =? 1 then Some sta_state_sta_connecting_m_c
  else if z =? 2 then Some sta_state_sta_disconnected_m_c
  else if z =? 3 then Some sta_state_sta_failed_m_c
  else None.

Definition fail_reason_of (z : Z) : option fail_reason_r :=
  if z =? 0 then Some fail_reason_fail_auth_error_m_c
  else if z =? 1 then Some fail_reason_fail_network_not_found_m_c
  else None.

Definition cred_kind_of (z : Z) : option cred_kind_r :=
  if z =? 0 then Some cred_kind_cred_device_cert_m_c
  else if z =? 1 then Some cred_kind_cred_private_key_m_c
  else if z =? 2 then Some cred_kind_cred_ca_cert_m_c
  else None.

(** [[op]] with nothing else *)
Definition opD {A} (op : Z) (a : A) : dec A := listD (zcbor_uint32_expect op ;~ retD a).

(* C: prov_decode.c decode_prov_status *)
Definition decode_prov_status : dec prov_status_r :=
  enumD prov_status_of.

(* C: prov_decode.c decode_repeated_ver_info_pop *)
Definition decode_repeated_ver_info_pop : dec bool :=
  keyD "pop" zcbor_bool_decode.

(* C: prov_decode.c decode_ver_info *)
Definition decode_ver_info : dec ver_info :=
  mapD (
    proto <~ keyD "proto" zcbor_uint32_decode ;;
    caps <~ keyD "caps" (listD (zcbor_multi_decode 0 8 zcbor_tstr_decode)) ;;
    blk <~ keyD "blk" zcbor_uint32_decode ;;
    lib <~ keyD "lib" zcbor_tstr_decode ;;
    pop <~ zcbor_present_decode decode_repeated_ver_info_pop ;;
    retD {| ver_info_proto := proto; ver_info_caps_tstr := caps; ver_info_blk := blk;
            ver_info_lib := lib; ver_info_pop := pop |}).

(* C: prov_decode.c decode_auth_challenge *)
Definition decode_auth_challenge : dec auth_challenge :=
  listD (
    zcbor_uint32_expect 0 ;~
    n <~ checkD (len_is 16) zcbor_bstr_decode ;;
    retD {| auth_challenge_cli_nonce := n |}).

(* C: prov_decode.c decode_auth_proof *)
Definition decode_auth_proof : dec auth_proof :=
  listD (
    zcbor_uint32_expect 1 ;~
    p <~ checkD (len_is 32) zcbor_bstr_decode ;;
    retD {| auth_proof_cli_proof := p |}).

(* C: prov_decode.c decode_config_get_status *)
Definition decode_config_get_status : dec unit :=
  opD 0 tt.

(* C: prov_decode.c decode_repeated_wifi_config_pass *)
Definition decode_repeated_wifi_config_pass : dec (list byte) :=
  keyD "pass" (checkD (len_in 0 64) zcbor_bstr_decode).

(* C: prov_decode.c decode_repeated_wifi_config_bssid *)
Definition decode_repeated_wifi_config_bssid : dec (list byte) :=
  keyD "bssid" (checkD (len_is 6) zcbor_bstr_decode).

(* C: prov_decode.c decode_repeated_wifi_config_ch *)
Definition decode_repeated_wifi_config_ch : dec Z :=
  keyD "ch" zcbor_uint32_decode.

(* C: prov_decode.c decode_wifi_config *)
Definition decode_wifi_config : dec wifi_config :=
  mapD (
    ssid <~ keyD "ssid" (checkD (len_in 1 32) zcbor_bstr_decode) ;;
    pass <~ zcbor_present_decode decode_repeated_wifi_config_pass ;;
    bssid <~ zcbor_present_decode decode_repeated_wifi_config_bssid ;;
    ch <~ zcbor_present_decode decode_repeated_wifi_config_ch ;;
    retD {| wifi_config_ssid := ssid; wifi_config_pass := pass; wifi_config_bssid := bssid;
            wifi_config_ch := ch |}).

(* C: prov_decode.c decode_config_set *)
Definition decode_config_set : dec config_set :=
  listD (
    zcbor_uint32_expect 1 ;~
    c <~ decode_wifi_config ;;
    retD {| config_set_wifi_config_m := c |}).

(* C: prov_decode.c decode_config_apply *)
Definition decode_config_apply : dec unit :=
  opD 2 tt.

(* C: prov_decode.c decode_repeated_scan_params_passive *)
Definition decode_repeated_scan_params_passive : dec bool :=
  keyD "passive" zcbor_bool_decode.

(* C: prov_decode.c decode_repeated_scan_params_period_ms *)
Definition decode_repeated_scan_params_period_ms : dec Z :=
  keyD "period-ms" zcbor_uint32_decode.

(* C: prov_decode.c decode_scan_params *)
Definition decode_scan_params : dec scan_params :=
  mapD (
    passive <~ zcbor_present_decode decode_repeated_scan_params_passive ;;
    period <~ zcbor_present_decode decode_repeated_scan_params_period_ms ;;
    retD {| scan_params_passive := passive; scan_params_period_ms := period |}).

(* C: prov_decode.c decode_scan_start *)
Definition decode_scan_start : dec scan_start :=
  listD (
    zcbor_uint32_expect 0 ;~
    p <~ decode_scan_params ;;
    retD {| scan_start_scan_params_m := p |}).

(* C: prov_decode.c decode_scan_get_status *)
Definition decode_scan_get_status : dec unit :=
  opD 1 tt.

(* C: prov_decode.c decode_scan_get_results *)
Definition decode_scan_get_results : dec scan_get_results :=
  listD (
    zcbor_uint32_expect 2 ;~
    start <~ zcbor_uint32_decode ;;
    count <~ zcbor_uint32_decode ;;
    retD {| scan_get_results_start := start; scan_get_results_count := count |}).

(* C: prov_decode.c decode_ctrl_reset *)
Definition decode_ctrl_reset : dec unit :=
  opD 0 tt.

(* C: prov_decode.c decode_ctrl_reprovision *)
Definition decode_ctrl_reprovision : dec unit :=
  opD 1 tt.

(* C: prov_decode.c decode_ctrl_end *)
Definition decode_ctrl_end : dec unit :=
  opD 2 tt.

(* C: prov_decode.c decode_auth_challenge_rsp *)
Definition decode_auth_challenge_rsp : dec auth_challenge_rsp :=
  listD (
    zcbor_uint32_expect 0 ;~
    st <~ decode_prov_status ;;
    nonce <~ checkD (len_is 16) zcbor_bstr_decode ;;
    proof <~ checkD (len_is 32) zcbor_bstr_decode ;;
    retD {| auth_challenge_rsp_prov_status_m := st; auth_challenge_rsp_dev_nonce := nonce;
            auth_challenge_rsp_dev_proof := proof |}).

(* C: prov_decode.c decode_auth_proof_rsp *)
Definition decode_auth_proof_rsp : dec auth_proof_rsp :=
  listD (
    zcbor_uint32_expect 1 ;~
    st <~ decode_prov_status ;;
    retD {| auth_proof_rsp_prov_status_m := st |}).

(* C: prov_decode.c decode_scan_start_rsp *)
Definition decode_scan_start_rsp : dec scan_start_rsp :=
  listD (
    zcbor_uint32_expect 0 ;~
    st <~ decode_prov_status ;;
    retD {| scan_start_rsp_prov_status_m := st |}).

(* C: prov_decode.c decode_scan_status_rsp *)
Definition decode_scan_status_rsp : dec scan_status_rsp :=
  listD (
    zcbor_uint32_expect 1 ;~
    st <~ decode_prov_status ;;
    finished <~ zcbor_bool_decode ;;
    total <~ zcbor_uint32_decode ;;
    retD {| scan_status_rsp_prov_status_m := st; scan_status_rsp_finished := finished;
            scan_status_rsp_total := total |}).

(* C: prov_decode.c decode_scan_entry *)
Definition decode_scan_entry : dec scan_entry :=
  mapD (
    ssid <~ keyD "ssid" (checkD (len_in 0 32) zcbor_bstr_decode) ;;
    bssid <~ keyD "bssid" (checkD (len_is 6) zcbor_bstr_decode) ;;
    ch <~ keyD "ch" zcbor_uint32_decode ;;
    rssi <~ keyD "rssi" zcbor_int32_decode ;;
    auth <~ keyD "auth" zcbor_uint32_decode ;;
    retD {| scan_entry_ssid := ssid; scan_entry_bssid := bssid; scan_entry_ch := ch;
            scan_entry_rssi := rssi; scan_entry_auth := auth |}).

(* C: prov_decode.c decode_scan_results_rsp *)
Definition decode_scan_results_rsp : dec scan_results_rsp :=
  listD (
    zcbor_uint32_expect 2 ;~
    st <~ decode_prov_status ;;
    l <~ listD (zcbor_multi_decode 0 8 decode_scan_entry) ;;
    retD {| scan_results_rsp_prov_status_m := st;
            scan_results_rsp_scan_entry_m_l_scan_entry_m := l |}).

(* C: prov_decode.c decode_cred_write_rsp *)
Definition decode_cred_write_rsp : dec cred_write_rsp :=
  listD (
    zcbor_uint32_expect 0 ;~
    st <~ decode_prov_status ;;
    n <~ zcbor_uint32_decode ;;
    retD {| cred_write_rsp_prov_status_m := st; cred_write_rsp_received := n |}).

(* C: prov_decode.c decode_cred_finalize_rsp *)
Definition decode_cred_finalize_rsp : dec cred_finalize_rsp :=
  listD (
    zcbor_uint32_expect 1 ;~
    st <~ decode_prov_status ;;
    retD {| cred_finalize_rsp_prov_status_m := st |}).

(* C: prov_decode.c decode_repeated_map_tstruint *)
Definition decode_repeated_map_tstruint : dec map_tstruint_r :=
  k <~ zcbor_tstr_decode ;;
  v <~ zcbor_uint32_decode ;;
  retD {| cred_status_rsp_map_tstruint_key := k; map_tstruint := v |}.

(* C: prov_decode.c decode_cred_status_rsp *)
Definition decode_cred_status_rsp : dec cred_status_rsp :=
  listD (
    zcbor_uint32_expect 2 ;~
    st <~ decode_prov_status ;;
    m <~ mapD (zcbor_multi_decode 0 8 decode_repeated_map_tstruint) ;;
    retD {| cred_status_rsp_prov_status_m := st; cred_status_rsp_map := m |}).

(* C: prov_decode.c decode_sta_state *)
Definition decode_sta_state : dec sta_state_r :=
  enumD sta_state_of.

(* C: prov_decode.c decode_fail_reason *)
Definition decode_fail_reason : dec fail_reason_r :=
  enumD fail_reason_of.

(* C: prov_decode.c decode_repeated_connected_info_rssi *)
Definition decode_repeated_connected_info_rssi : dec Z :=
  keyD "rssi" zcbor_int32_decode.

(* C: prov_decode.c decode_connected_info *)
Definition decode_connected_info : dec connected_info :=
  mapD (
    ip4 <~ keyD "ip4" (checkD (len_is 4) zcbor_bstr_decode) ;;
    ssid <~ keyD "ssid" (checkD (len_in 1 32) zcbor_bstr_decode) ;;
    rssi <~ zcbor_present_decode decode_repeated_connected_info_rssi ;;
    retD {| connected_info_ip4 := ip4; connected_info_ssid := ssid;
            connected_info_rssi := rssi |}).

(** An alternative of a union, with its constructor. *)
Definition altD {A B} (con : A -> B) (f : dec A) : dec B := a <~ f ;; retD (con a).

(* C: prov_decode.c decode_config_detail *)
Definition decode_config_detail : dec config_detail_r :=
  unionD (altD config_detail_fail_reason_m decode_fail_reason)
    [altD config_detail_connected_info_m decode_connected_info].

(** [(present = f(..)), 1]: a failure is an absent element. *)
Definition maybeD {A} (f : dec A) : dec (option A) :=
  fun s => let '(o, s') := f s in (Some o, s').

(* C: prov_decode.c decode_config_status_rsp *)
Definition decode_config_status_rsp : dec config_status_rsp :=
  listD (
    zcbor_uint32_expect 0 ;~
    st <~ decode_prov_status ;;
    sta <~ decode_sta_state ;;
    detail <~ maybeD decode_config_detail ;;
    retD {| config_status_rsp_prov_status_m := st; config_status_rsp_sta_state_m := sta;
            config_status_rsp_config_detail_m := detail |}).

(* C: prov_decode.c decode_config_set_rsp *)
Definition decode_config_set_rsp : dec config_set_rsp :=
  listD (
    zcbor_uint32_expect 1 ;~
    st <~ decode_prov_status ;;
    retD {| config_set_rsp_prov_status_m := st |}).

(* C: prov_decode.c decode_config_apply_rsp *)
Definition decode_config_apply_rsp : dec config_apply_rsp :=
  listD (
    zcbor_uint32_expect 2 ;~
    st <~ decode_prov_status ;;
    retD {| config_apply_rsp_prov_status_m := st |}).

(* C: prov_decode.c decode_cred_kind *)
Definition decode_cred_kind : dec cred_kind_r :=
  enumD cred_kind_of.

(* C: prov_decode.c decode_cred_chunk *)
Definition decode_cred_chunk : dec cred_chunk :=
  mapD (
    kind <~ keyD "kind" decode_cred_kind ;;
    off <~ keyD "off" zcbor_uint32_decode ;;
    total <~ keyD "total" zcbor_uint32_decode ;;
    data <~ keyD "data" zcbor_bstr_decode ;;
    retD {| cred_chunk_kind := kind; cred_chunk_off := off; cred_chunk_total := total;
            cred_chunk_data := data |}).

(* C: prov_decode.c decode_cred_write *)
Definition decode_cred_write : dec cred_write :=
  listD (
    zcbor_uint32_expect 0 ;~
    c <~ decode_cred_chunk ;;
    retD {| cred_write_cred_chunk_m := c |}).

(* C: prov_decode.c decode_cred_finalize *)
Definition decode_cred_finalize : dec unit :=
  opD 1 tt.

(* C: prov_decode.c decode_cred_get_status *)
Definition decode_cred_get_status : dec unit :=
  opD 2 tt.

(* C: prov_decode.c decode_ctrl_rsp *)
Definition decode_ctrl_rsp : dec ctrl_rsp :=
  listD (
    op <~ checkD (fun op => op <=? 2) zcbor_uint32_decode ;;
    st <~ decode_prov_status ;;
    retD {| ctrl_rsp_ctrl_op_m := op; ctrl_rsp_prov_status_m := st |}).

(* C: prov_decode.c decode_ctrl_req *)
Definition decode_ctrl_req : dec ctrl_req_r :=
  unionD (altD (fun _ => ctrl_req_ctrl_reset_m) decode_ctrl_reset)
    [altD (fun _ => ctrl_req_ctrl_reprovision_m) decode_ctrl_reprovision;
     altD (fun _ => ctrl_req_ctrl_end_m) decode_ctrl_end].

(* C: prov_decode.c decode_cred_rsp *)
Definition decode_cred_rsp : dec cred_rsp_r :=
  unionD (altD cred_rsp_cred_write_rsp_m decode_cred_write_rsp)
    [altD cred_rsp_cred_finalize_rsp_m decode_cred_finalize_rsp;
     altD cred_rsp_cred_status_rsp_m decode_cred_status_rsp].

(* C: prov_decode.c decode_cred_req *)
Definition decode_cred_req : dec cred_req_r :=
  unionD (altD cred_req_cred_write_m decode_cred_write)
    [altD (fun _ => cred_req_cred_finalize_m) decode_cred_finalize;
     altD (fun _ => cred_req_cred_get_status_m) decode_cred_get_status].

(* C: prov_decode.c decode_scan_rsp *)
Definition decode_scan_rsp : dec scan_rsp_r :=
  unionD (altD scan_rsp_scan_start_rsp_m decode_scan_start_rsp)
    [altD scan_rsp_scan_status_rsp_m decode_scan_status_rsp;
     altD scan_rsp_scan_results_rsp_m decode_scan_results_rsp].

(* C: prov_decode.c decode_scan_req *)
Definition decode_scan_req : dec scan_req_r :=
  unionD (altD scan_req_scan_start_m decode_scan_start)
    [altD (fun _ => scan_req_scan_get_status_m) decode_scan_get_status;
     altD scan_req_scan_get_results_m decode_scan_get_results].

(* C: prov_decode.c decode_config_rsp *)
Definition decode_config_rsp : dec config_rsp_r :=
  unionD (altD config_rsp_config_status_rsp_m decode_config_status_rsp)
    [altD config_rsp_config_set_rsp_m decode_config_set_rsp;
     altD config_rsp_config_apply_rsp_m decode_config_apply_rsp].

(* C: prov_decode.c decode_config_req *)
Definition decode_config_req : dec config_req_r :=
  unionD (altD (fun _ => config_req_config_get_status_m) decode_config_get_status)
    [altD config_req_config_set_m decode_config_set;
     altD (fun _ => config_req_config_apply_m) decode_config_apply].

(* C: prov_decode.c decode_auth_rsp *)
Definition decode_auth_rsp : dec auth_rsp_r :=
  unionD (altD auth_rsp_auth_challenge_rsp_m decode_auth_challenge_rsp)
    [altD auth_rsp_auth_proof_rsp_m decode_auth_proof_rsp].

(* C: prov_decode.c decode_auth_req *)
Definition decode_auth_req : dec auth_req_r :=
  unionD (altD auth_req_auth_challenge_m decode_auth_challenge)
    [altD auth_req_auth_proof_m decode_auth_proof].

(* C: prov_decode.c decode_ver_rsp *)
Definition decode_ver_rsp : dec ver_rsp :=
  listD (
    zcbor_uint32_expect 0 ;~
    st <~ decode_prov_status ;;
    info <~ decode_ver_info ;;
    retD {| ver_rsp_prov_status_m := st; ver_rsp_ver_info_m := info |}).

(* C: prov_decode.c decode_ver_req *)
Definition decode_ver_req : dec unit :=
  opD 0 tt.

(** ** Entry points *)

(* C: prov_decode.c cbor_decode_ver_req *)
Definition cbor_decode_ver_req (payload : list byte) : bool :=
  match zcbor_entry_decode payload decode_ver_req 3 with Some _ => true | None => false end.

(* C: prov_decode.c cbor_decode_ver_rsp *)
Definition cbor_decode_ver_rsp (payload : list byte) : option ver_rsp :=
  zcbor_entry_decode payload decode_ver_rsp 5.

(* C: prov_decode.c cbor_decode_auth_req *)
Definition cbor_decode_auth_req (payload : list byte) : option auth_req_r :=
  zcbor_entry_decode payload decode_auth_req 4.

(* C: prov_decode.c cbor_decode_auth_rsp *)
Definition cbor_decode_auth_rsp (payload : list byte) : option auth_rsp_r :=
  zcbor_entry_decode payload decode_auth_rsp 5.

(* C: prov_decode.c cbor_decode_config_req *)
Definition cbor_decode_config_req (payload : list byte) : option config_req_r :=
  zcbor_entry_decode payload decode_config_req 5.

(* C: prov_decode.c cbor_decode_config_rsp *)
Definition cbor_decode_config_rsp (payload : list byte) : option config_rsp_r :=
  zcbor_entry_decode payload decode_config_rsp 6.

(* C: prov_decode.c cbor_decode_scan_req *)
Definition cbor_decode_scan_req (payload : list byte) : option scan_req_r :=
  zcbor_entry_decode payload decode_scan_req 5.

(* C: prov_decode.c cbor_decode_scan_rsp *)
Definition cbor_decode_scan_rsp (payload : list byte) : option scan_rsp_r :=
  zcbor_entry_decode payload decode_scan_rsp 6.

(* C: prov_decode.c cbor_decode_cred_req *)
Definition cbor_decode_cred_req (payload : list byte) : option cred_req_r :=
  zcbor_entry_decode payload decode_cred_req 6.

(* C: prov_decode.c cbor_decode_cred_rsp *)
Definition cbor_decode_cred_rsp (payload : list byte) : option cred_rsp_r :=
  zcbor_entry_decode payload decode_cred_rsp 5.

(* C: prov_decode.c cbor_decode_ctrl_req *)
Definition cbor_decode_ctrl_req (payload : list byte) : option ctrl_req_r :=
  zcbor_entry_decode payload decode_ctrl_req 4.

(* C: prov_decode.c cbor_decode_ctrl_rsp *)
Definition cbor_decode_ctrl_rsp (payload : list byte) : option ctrl_rsp :=
  zcbor_entry_decode payload decode_ctrl_rsp 4.

End Decode.
