(* ===== verification/DecodeProofs.v ===== *)
(** * The decoders read what the schema says

    A calculus for [reads] (a decoder consumes exactly the given items),
    [reads_all] (the same for the rest of a container, where optional elements
    may be absent), [rejects] (an alternative that fails) and [yields] (what a
    result satisfies whatever the payload), and its use on every decoder. *)

From S2P Require Import Prelude ProvTypes Zcbor ZcborDec Schema Decode.

Create HintDb dec.

Section Calculus.
Context {ZD : ZcborDec} {ZO : ZcborDecObs ZD} {ZL : ZcborDecLaws ZD ZO}.

Lemma reads_weaken {A} d d' (f : dec A) its a : reads d f its a -> (d <= d')%nat -> reads d' f its a.
Proof. intros H Hd s tl c fs k Hs Hk. apply (H s tl c fs k Hs). lia. Qed.

Lemma reads_ret {A} d (a : A) : reads d (retD a) [] a.
Proof. intros s tl c fs k Hs Hk. by exists s. Qed.

Lemma reads_bind {A B} d (f : dec A) (g : A -> dec B) l1 l2 a b :
  reads d f l1 a -> reads d (g a) l2 b -> reads d (bindD f g) (l1 ++ l2) b.
Proof.
  intros Hf Hg s tl c fs k Hs Hk. rewrite items_bytes_app, <- app_assoc, length_app in Hs.
  destruct (Hf s (items_bytes l2 ++ tl) (length l2 + c)%nat fs k) as (s1 & E1 & H1); [|done|].
  { by rewrite Nat.add_assoc. }
  unfold bindD. rewrite E1. by apply Hg.
Qed.

Lemma reads_check {A} d (c : A -> bool) f its a :
  reads d f its a -> c a = true -> reads d (checkD c f) its a.
Proof.
  intros Hf Hc. rewrite <- (app_nil_r its). apply (reads_bind d f _ its [] a a Hf).
  intros s tl n fs k Hs Hk. unfold orD, testD. rewrite Hc. by exists s.
Qed.

Lemma reads_key {A} d k (f : dec A) its a :
  in_u32 (Z.of_nat (length (str k))) -> reads d f its a ->
  reads d (keyD k f) (ITstr (str k) :: its) a.
Proof.
  intros Hk Hf. apply (reads_bind d _ _ [ITstr (str k)] its tt a); [|done].
  by apply (reads_weaken 0), Nat.le_0_l; apply tstr_expect_law.
Qed.

Lemma reads_op {A} d n (f : dec A) its a :
  in_u32 n -> reads d f its a -> reads d (zcbor_uint32_expect n ;~ f) (IUint n :: its) a.
Proof.
  intros Hn Hf. apply (reads_bind d _ _ [IUint n] its tt a); [|done].
  by apply (reads_weaken 0), Nat.le_0_l; apply uint32_expect_law.
Qed.

Lemma reads_enum {A} d (of_val : Z -> option A) v a :
  in_u32 v -> of_val v = Some a -> reads d (enumD of_val) [IUint v] a.
Proof.
  intros Hv Ha. apply (reads_bind d _ _ [IUint v] [] v a).
  - apply (reads_weaken 0), Nat.le_0_l. by apply uint_decode_law.
  - intros s tl n fs k Hs Hk. unfold orD. rewrite Ha. by exists s.
Qed.

(** ** The rest of a container *)

(** [f] reads all the items left in the container. *)
Definition reads_all {A} (d : nat) (f : dec A) (its : list item) (a : A) : Prop :=
  forall s tl fs k, dec_at s (items_bytes its ++ tl) (length its) fs k -> (d <= k)%nat ->
    exists s', f s = (Some a, s') /\ dec_at s' tl 0 fs k.

Lemma reads_all_of {A} d (f : dec A) its a : reads d f its a -> reads_all d f its a.
Proof. intros H s tl fs k Hs Hk. apply (H s tl 0%nat fs k); [by rewrite Nat.add_0_r|done]. Qed.

Lemma reads_all_bind {A B} d (f : dec A) (g : A -> dec B) l1 l2 a b :
  reads d f l1 a -> reads_all d (g a) l2 b -> reads_all d (bindD f g) (l1 ++ l2) b.
Proof.
  intros Hf Hg s tl fs k Hs Hk. rewrite items_bytes_app, <- app_assoc, length_app in Hs.
  destruct (Hf s _ _ fs k Hs Hk) as (s1 & E1 & H1). unfold bindD. rewrite E1. by apply Hg.
Qed.

Lemma reads_all_op {A} d n (f : dec A) its a :
  in_u32 n -> reads_all d f its a ->
  reads_all d (zcbor_uint32_expect n ;~ f) (IUint n :: its) a.
Proof.
  intros Hn Hf. apply (reads_all_bind d _ _ [IUint n] its tt a); [|done].
  by apply (reads_weaken 0), Nat.le_0_l; apply uint32_expect_law.
Qed.

(** What comes next is not the optional element. *)
Definition absent {A} (d : nat) (f : dec A) (l : list item) : Prop :=
  match l with
  | [] => starves f
  | it :: _ => rejects d f it
  end.

Lemma present_absent {A} d (f : dec A) l s tl fs k :
  absent d f l -> dec_at s (items_bytes l ++ tl) (length l) fs k -> (d <= k)%nat ->
  exists s', zcbor_present_decode f s = (Some None, s') /\
    dec_at s' (items_bytes l ++ tl) (length l) fs k.
Proof.
  intros Ha (Hr & Hc & Hf & Hk) Hd. destruct l as [|it l]; cbn [absent length] in *.
  - destruct (Ha s Hc) as (s1 & E1 & _ & _ & H3 & H4).
    destruct (present_none_law f s s1 E1 H3 H4) as (s2 & E2 & H2).
    exists s2. split; [done|]. by rewrite Hr, Hc, Hf, Hk in H2.
  - rewrite items_bytes_cons, <- app_assoc in Hr.
    destruct (Ha s _ _ Hr Hc) as (s1 & E1 & H3 & H4); [lia|].
    destruct (present_none_law f s s1 E1 H3 H4) as (s2 & E2 & H2).
    exists s2. split; [done|]. rewrite Hr, Hc, Hf, Hk in H2.
    by rewrite items_bytes_cons, <- app_assoc.
Qed.

Lemma reads_all_opt {A B} d (f : dec A) (g : option A -> dec B) (its : A -> list item) o l b :
  (forall a, o = Some a -> reads d f (its a) a) -> (o = None -> absent d f l) ->
  reads_all d (g o) l b ->
  reads_all d (bindD (zcbor_present_decode f) g)
    (match o with Some a => its a | None => [] end ++ l) b.
Proof.
  intros Hs Hn Hg s tl fs k H Hk. unfold bindD. destruct o as [a|].
  - rewrite items_bytes_app, <- app_assoc, length_app in H.
    destruct (Hs a eq_refl s _ _ fs k H Hk) as (s1 & E1 & H1).
    rewrite (present_some_law f s a s1 E1). by apply Hg.
  - destruct (present_absent d f l s tl fs k (Hn eq_refl) H Hk) as (s1 & E1 & H1).
    rewrite E1. by apply Hg.
Qed.

Lemma runs_reads {A} d (f : dec A) (it : A -> list item) l :
  (forall x, x ∈ l -> reads d f (it x) x) ->
  forall s tl c fs k,
    dec_at s (items_bytes (concat (map it l)) ++ tl) (length (concat (map it l)) + c) fs k ->
    (d <= k)%nat -> exists s', runs f s l s' /\ dec_at s' tl c fs k.
Proof.
  induction l as [|x l IH]; simpl; intros Hf s tl c fs k Hs Hk.
  - exists s. split; [constructor|done].
  - rewrite items_bytes_app, <- app_assoc, length_app, <- Nat.add_assoc in Hs.
    destruct (Hf x ltac:(left) s _ _ fs k Hs Hk) as (s1 & E1 & H1).
    destruct (IH (fun y Hy => Hf y ltac:(by right)) s1 tl c fs k H1 Hk) as (s2 & E2 & H2).
    exists s2. split; [by econstructor|done].
Qed.

Lemma reads_all_multi {A} d mx (f : dec A) (it : A -> list item) l :
  (forall x, x ∈ l -> reads d f (it x) x) -> starves f -> (length l <= mx)%nat ->
  reads_all d (zcbor_multi_decode 0 mx f) (concat (map it l)) l.
Proof.
  intros Hf Hst Hl s tl fs k Hs Hk.
  destruct (runs_reads d f it l Hf s tl 0%nat fs k) as (s1 & E1 & H1);
    [by rewrite Nat.add_0_r|done|].
  destruct (decide (length l = mx)) as [E|E].
  - exists s1. split; [|done]. by apply multi_full_law; [| |lia].
  - destruct H1 as (Hr & Hc & Hfr & Hk1).
    destruct (Hst s1 Hc) as (s2 & E2 & _ & _ & H3 & H4).
    destruct (multi_law 0 mx f s l s1 s2 E1 ltac:(lia) E2 H3 H4) as (s3 & E3 & H5).
    exists s3. split; [done|]. by rewrite Hr, Hc, Hfr, Hk1 in H5.
Qed.

(** ** Containers *)

Lemma reads_list {A} d (f : dec A) its a :
  in_u32 (Z.of_nat (length its)) -> reads_all d f its a -> reads (S d) (listD f) [IArr its] a.
Proof.
  intros Hl Hf s tl c fs k Hs Hk. destruct k as [|k]; [lia|].
  rewrite items_bytes_cons in Hs. cbn [item_bytes items_bytes map concat] in Hs.
  rewrite app_nil_r, <- app_assoc in Hs.
  destruct (list_start_law s _ _ _ _ _ Hl Hs) as (s1 & r & E1 & H1).
  destruct (Hf s1 tl _ k H1) as (s2 & E2 & H2); [lia|].
  destruct (list_end_law s2 _ _ _ _ _ H2) as (s3 & E3 & H3).
  unfold listD, bindD, orD. rewrite E1, E2, E3. by exists s3.
Qed.

Lemma reads_map {A} d (f : dec A) kvs a :
  in_u32 (Z.of_nat (length kvs)) -> reads_all d f (flat_pairs kvs) a ->
  reads (S d) (mapD f) [IMap kvs] a.
Proof.
  intros Hl Hf s tl c fs k Hs Hk. destruct k as [|k]; [lia|].
  rewrite items_bytes_cons in Hs. cbn [item_bytes items_bytes map concat] in Hs.
  rewrite app_nil_r, <- app_assoc, <- items_bytes_flat in Hs.
  destruct (map_start_law s _ _ _ _ _ Hl Hs) as (s1 & r & E1 & H1).
  rewrite <- length_flat_pairs in H1.
  destruct (Hf s1 tl _ k H1) as (s2 & E2 & H2); [lia|].
  destruct (map_end_law s2 _ _ _ _ _ H2) as (s3 & E3 & H3).
  unfold mapD, bindD, orD. rewrite E1, E2, E3. by exists s3.
Qed.

(** A list whose first element is another operation code. *)
Lemma rejects_op {A} n m (f : dec A) its :
  in_u32 (Z.of_nat (length (IUint m :: its))) -> in_u32 m -> m <> n ->
  rejects 1 (listD (zcbor_uint32_expect n ;~ f)) (IArr (IUint m :: its)).
Proof.
  intros Hl Hm Hne s tl c Hr Hc Hk. destruct (d_free s) as [|k] eqn:Ek; [lia|].
  cbn [item_bytes] in Hr. rewrite <- app_assoc in Hr.
  destruct (list_start_law s (length (IUint m :: its))
    (concat (map item_bytes (IUint m :: its)) ++ tl) c (d_frames s) k Hl)
    as (s1 & r & E1 & H1).
  { split_and!; [exact Hr|done..]. }
  destruct H1 as (H1 & H2 & H3 & H4). cbn [map concat] in H1. rewrite <- app_assoc in H1.
  destruct (uint32_expect_other n m Hm Hne s1 _ _ H1 H2 ltac:(lia)) as (s2 & E2 & F2 & G2).
  rewrite H3 in F2. destruct (force_end_law s2 _ _ F2) as [F3 G3].
  unfold listD, orD, bindD. rewrite E1, E2.
  eexists. split; [done|]. split; [done|]. by rewrite G3, G2, H4.
Qed.

Lemma rejects_key {A} k k' (f : dec A) :
  in_u32 (Z.of_nat (length (str k'))) -> str k' <> str k ->
  rejects 0 (keyD k f) (ITstr (str k')).
Proof.
  intros Hl Hne s tl c Hr Hc Hk.
  destruct (tstr_expect_other (str k) (str k') Hl Hne s tl c Hr Hc Hk) as (s1 & E1 & H1).
  unfold keyD, bindD. rewrite E1. eauto.
Qed.

Lemma rejects_bind {A B} d (f : dec A) (g : A -> dec B) it :
  rejects d f it -> rejects d (bindD f g) it.
Proof.
  intros H s tl c Hr Hc Hk. destruct (H s tl c Hr Hc Hk) as (s1 & E1 & H1).
  unfold bindD. rewrite E1. eauto.
Qed.

Lemma rejects_weaken {A} d d' (f : dec A) it : rejects d f it -> (d <= d')%nat -> rejects d' f it.
Proof. intros H Hd s tl c Hr Hc Hk. apply (H s tl c Hr Hc). lia. Qed.

Lemma starves_bind {A B} (f : dec A) (g : A -> dec B) : starves f -> starves (bindD f g).
Proof.
  intros H s Hc. destruct (H s Hc) as (s1 & E1 & H1). unfold bindD. rewrite E1. eauto.
Qed.

Lemma starves_key {A} k (f : dec A) : starves (keyD k f).
Proof. apply starves_bind, tstr_expect_starves. Qed.

Lemma starves_map {A} (f : dec A) : starves (mapD f).
Proof. apply starves_bind, map_start_starves. Qed.

(** ** Unions *)

(** The first alternative that does not reject the item reads it. *)
Inductive picks {A} (d : nat) (it : item) (a : A) : dec A -> list (dec A) -> Prop :=
| picks_here f l : reads d f [it] a -> picks d it a f l
| picks_next f g l : rejects d f it -> picks d it a g l -> picks d it a f (g :: l).

Lemma altsD_some {A} (f : dec A) l s a s' : f s = (Some a, s') -> altsD f l s = (Some a, s').
Proof. intros E. destruct l; simpl; [done|by rewrite E]. Qed.

Lemma altsD_elem {A} d it (a : A) f l :
  picks d it a f l -> forall s tl c fs,
  d_frames s = (item_bytes it ++ tl, S c) :: fs -> (d <= d_free s)%nat ->
  exists s', altsD (zcbor_union_elem_code ;~ f) l s = (Some a, s') /\
    dec_at s' tl c ((item_bytes it ++ tl, S c) :: fs) (d_free s).
Proof.
  induction 1 as [f l Hf|f g l Hf _ IH]; intros s tl c fs Hs Hk;
    destruct (union_elem_law s _ _ _ Hs) as (s1 & E1 & H1).
  - destruct (Hf s1 tl c ((item_bytes it ++ tl, S c) :: fs) (d_free s)) as (s2 & E2 & H2);
      [|exact Hk|].
    { unfold items_bytes. cbn [map concat length Nat.add]. rewrite app_nil_r. exact H1. }
    exists s2. split; [|done]. apply altsD_some. unfold bindD. by rewrite E1.
  - destruct H1 as (H1 & H2 & H3 & H4).
    destruct (Hf s1 tl c H1 H2) as (s2 & E2 & F2 & G2); [lia|].
    cbn [altsD]. unfold bindD at 1. rewrite E1, E2.
    destruct (IH s2 tl c fs) as (s3 & E3 & H5); [by rewrite F2|lia|].
    exists s3. split; [done|]. by rewrite G2, H4 in H5.
Qed.

Lemma reads_union {A} d (f : dec A) l it a :
  picks d it a f l -> reads (S d) (unionD f l) [it] a.
Proof.
  intros Hp s tl c fs k Hs Hk. destruct k as [|k]; [lia|].
  unfold items_bytes in Hs. cbn [map concat length Nat.add] in Hs. rewrite app_nil_r in Hs.
  destruct (union_start_law s _ _ _ _ Hs) as (s1 & E1 & H1).
  assert (exists s2, altsD f l s1 = (Some a, s2) /\
            dec_at s2 tl c ((item_bytes it ++ tl, S c) :: fs) k) as (s2 & E2 & H2).
  { destruct Hp as [f l Hf|f g l Hf Hp].
    - destruct (Hf s1 tl c ((item_bytes it ++ tl, S c) :: fs) k) as (s2 & E2 & H2);
        [|lia|].
      { unfold items_bytes. cbn [map concat length Nat.add]. rewrite app_nil_r. exact H1. }
      exists s2. split; [by apply altsD_some|done].
    - destruct H1 as (H1 & H2 & H3 & H4).
      destruct (Hf s1 tl c H1 H2) as (s2 & E2 & F2 & G2); [lia|].
      cbn [altsD]. rewrite E2.
      destruct (altsD_elem d it a g l Hp s2 tl c fs) as (s3 & E3 & H5);
        [by rewrite F2|lia|].
      exists s3. split; [done|]. by rewrite G2, H4 in H5. }
  pose proof (union_end_law s2 _ _ _ _ _ H2) as H3.
  unfold unionD, bindD. rewrite E1, E2. eauto.
Qed.

(** A union of two alternatives at the end of a container. *)
Lemma union_starves {A} (f g : dec A) s rest fs k :
  starves f -> starves g -> dec_at s rest 0 fs (S k) ->
  exists s', unionD f [g] s = (None, s') /\ dec_at s' rest 0 fs (S k).
Proof.
  intros Hf Hg Hs. destruct (union_start_law s _ _ _ _ Hs) as (s1 & E1 & H1 & H2 & H3 & H4).
  destruct (Hf s1 H2) as (s2 & E2 & _ & _ & F2 & G2). rewrite H3 in F2.
  destruct (union_elem_law s2 _ _ _ F2) as (s3 & E3 & H5 & H6 & H7 & H8).
  destruct (Hg s3 H6) as (s4 & E4 & H9).
  rewrite H5, H7, H8, G2, H4 in H9.
  pose proof (union_end_law s4 _ _ _ _ _ H9) as H10.
  unfold unionD, bindD. rewrite E1. cbn [altsD]. rewrite E2. unfold bindD. rewrite E3, E4.
  eauto.
Qed.

Lemma reads_alt {A B} d (con : A -> B) f its a :
  reads d f its a -> reads d (altD con f) its (con a).
Proof.
  intros H. rewrite <- (app_nil_r its). apply (reads_bind d f _ its [] a); [done|].
  apply reads_ret.
Qed.

(** ** What results satisfy *)

Definition yields {A} (f : dec A) (Q : A -> Prop) : Prop :=
  forall s a s', f s = (Some a, s') -> Q a.

Lemma yields_true {A} (f : dec A) : yields f (fun _ => True).
Proof. done. Qed.

Lemma yields_ret {A} (a : A) (Q : A -> Prop) : Q a -> yields (retD a) Q.
Proof. intros H s b s' [= <- _]. done. Qed.

Lemma yields_bind {A B} (f : dec A) (g : A -> dec B) (Q : A -> Prop) (R : B -> Prop) :
  yields f Q -> (forall a, Q a -> yields (g a) R) -> yields (bindD f g) R.
Proof.
  intros Hf Hg s b s'. unfold bindD. destruct (f s) as [[a|] s1] eqn:E; [|done].
  intros H. eapply Hg, H. by eapply Hf.
Qed.

Lemma yields_or {A} (f : dec A) h Q : yields f Q -> yields (orD f h) Q.
Proof.
  intros Hf s a s'. unfold orD. destruct (f s) as [[b|] s1] eqn:E; [|done].
  intros [= <- <-]. by eapply Hf.
Qed.

Lemma yields_mono {A} (f : dec A) (Q R : A -> Prop) :
  yields f Q -> (forall a, Q a -> R a) -> yields f R.
Proof. intros H HR s a s' E. by eapply HR, H. Qed.

Lemma yields_check {A} c (f : dec A) (Q : A -> Prop) :
  yields f Q -> yields (checkD c f) (fun a => Q a /\ c a = true).
Proof.
  intros Hf. eapply yields_bind; [exact Hf|]. intros a Ha. apply yields_or.
  intros s b s'. unfold testD. destruct (c a) eqn:E; [|done]. by intros [= <- _].
Qed.

Lemma yields_key {A} k (f : dec A) Q : yields f Q -> yields (keyD k f) Q.
Proof. intros Hf. by eapply yields_bind; [apply yields_true|]. Qed.

Lemma yields_list {A} (f : dec A) Q : yields f Q -> yields (listD f) Q.
Proof.
  intros Hf. eapply yields_bind; [apply yields_true|]. intros _ _.
  eapply yields_bind; [by apply yields_or|]. intros a Ha.
  eapply yields_bind; [apply yields_true|]. intros _ _. by apply yields_ret.
Qed.

Lemma yields_map {A} (f : dec A) Q : yields f Q -> yields (mapD f) Q.
Proof.
  intros Hf. eapply yields_bind; [apply yields_true|]. intros _ _.
  eapply yields_bind; [by apply yields_or|]. intros a Ha.
  eapply yields_bind; [apply yields_true|]. intros _ _. by apply yields_ret.
Qed.

Lemma yields_present {A} (f : dec A) (Q : A -> Prop) :
  yields f Q -> yields (zcbor_present_decode f) (fun o => forall a, o = Some a -> Q a).
Proof.
  intros Hf s o s' E a ->. destruct (present_from_law f s a s' E) as (s1 & s2 & E1).
  by eapply Hf.
Qed.

Lemma yields_alts {A} (f : dec A) l (Q : A -> Prop) :
  yields f Q -> (forall g, g ∈ l -> yields g Q) -> yields (altsD f l) Q.
Proof.
  revert f. induction l as [|g l IH]; cbn [altsD]; intros f Hf Hl; [done|].
  intros s a s'. destruct (f s) as [[b|] s1] eqn:E.
  - intros [= <- <-]. by eapply Hf.
  - intros E2. revert E2. apply IH.
    + eapply yields_bind; [apply yields_true|]. intros _ _. apply Hl. left.
    + intros h Hh. apply Hl. by right.
Qed.

Lemma yields_union {A} (f : dec A) l (Q : A -> Prop) :
  yields f Q -> (forall g, g ∈ l -> yields g Q) -> yields (unionD f l) Q.
Proof.
  intros Hf Hl. eapply yields_bind; [apply yields_true|]. intros _ _ s a s'.
  destruct (altsD f l s) as [o s1] eqn:E. intros [= -> _].
  by eapply (yields_alts f l Q Hf Hl).
Qed.

Lemma yields_alt {A B} (con : A -> B) f (Q : A -> Prop) (R : B -> Prop) :
  yields f Q -> (forall a, Q a -> R (con a)) -> yields (altD con f) R.
Proof. intros Hf HR. eapply yields_bind; [exact Hf|]. intros a Ha. by apply yields_ret, HR. Qed.

(** ** The entry function *)

Lemma entry_reads {A} d n (f : dec A) it a tl :
  reads d f [it] a -> (d + 2 <= n)%nat -> zcbor_entry_decode (item_bytes it ++ tl) f n = Some a.
Proof.
  intros Hf Hn. destruct (entry_decode_law (item_bytes it ++ tl) f n) as (s0 & H0 & ->).
  destruct (Hf s0 tl 0%nat [] (n - 2)%nat) as (s1 & -> & _); [|lia|done].
  unfold items_bytes. cbn [map concat length Nat.add]. rewrite app_nil_r. exact H0.
Qed.

Lemma entry_yields {A} n (f : dec A) (Q : A -> Prop) b a :
  yields f Q -> zcbor_entry_decode b f n = Some a -> Q a.
Proof.
  intros Hf. destruct (entry_decode_law b f n) as (s0 & H0 & ->).
  destruct (f s0) as [o s1] eqn:E. simpl. intros ->. by eapply Hf.
Qed.
End Calculus.
