(* ===== verification/DecodeMsgs.v ===== *)
(** * Every decoder reads its message

    One [reads] lemma per decoder of prov_decode.c, by the calculus of
    DecodeProofs.v; and, for the requests the device decodes, what an accepted
    message satisfies. *)

From S2P Require Import Prelude ProvTypes Zcbor ZcborDec Schema Decode DecodeProofs.

Section Messages.
Context {ZD : ZcborDec} {ZO : ZcborDecObs ZD} {ZL : ZcborDecLaws ZD ZO}.

Lemma flat_pairs_kv k v l : flat_pairs (kv k v :: l) = ITstr (str k) :: v :: flat_pairs l.
Proof. done. Qed.

Lemma flat_pairs_okv {A} k (f : A -> item) o l :
  flat_pairs (okv k f o ++ l) =
  match o with Some a => [ITstr (str k); f a] | None => [] end ++ flat_pairs l.
Proof. by destruct o. Qed.

Lemma flat_pairs_okv_end {A} k (f : A -> item) o :
  flat_pairs (okv k f o) =
  match o with Some a => [ITstr (str k); f a] | None => [] end ++ [].
Proof. by destruct o. Qed.

Lemma reads_all_bind1 {A B} d (f : dec A) (g : A -> dec B) it l a b :
  reads d f [it] a -> reads_all d (g a) l b -> reads_all d (bindD f g) (it :: l) b.
Proof. apply (reads_all_bind d f g [it] l a b). Qed.

Lemma reads_all_key1 {A B} d k (f : dec A) (g : A -> dec B) it l a b :
  in_u32 (Z.of_nat (length (str k))) -> reads d f [it] a -> reads_all d (g a) l b ->
  reads_all d (bindD (keyD k f) g) (ITstr (str k) :: it :: l) b.
Proof.
  intros Hk Hf. apply (reads_all_bind d _ g [ITstr (str k); it] l a b). by apply reads_key.
Qed.

Lemma reads_leaf {A} d (f : dec A) it a : reads 0 f [it] a -> reads d f [it] a.
Proof. intros H. by apply (reads_weaken 0), Nat.le_0_l. Qed.

Lemma reads_all_opt_key {A B} d k (f : dec A) (g : option A -> dec B) (it : A -> item) o l b :
  in_u32 (Z.of_nat (length (str k))) ->
  (forall a, o = Some a -> reads d f [it a] a) ->
  (o = None -> absent d (keyD k f) l) -> reads_all d (g o) l b ->
  reads_all d (bindD (zcbor_present_decode (keyD k f)) g)
    (match o with Some a => [ITstr (str k); it a] | None => [] end ++ l) b.
Proof.
  intros Hk Hf Hn Hg.
  apply (reads_all_opt d (keyD k f) g (fun a => [ITstr (str k); it a]) o l b); [|done..].
  intros a ->. by apply reads_key, Hf.
Qed.

Lemma absent_key {A} d k (f : dec A) : absent d (keyD k f) [].
Proof. apply starves_key. Qed.

(** The next element, if any, is an optional entry under another key. *)
Lemma absent_okv {A B} d k k' (f : dec A) (it : B -> item) o l :
  in_u32 (Z.of_nat (length (str k'))) -> str k' <> str k -> absent d (keyD k f) l ->
  absent d (keyD k f) (match o with Some a => [ITstr (str k'); it a] | None => [] end ++ l).
Proof.
  intros Hk Hne Hl. destruct o; simpl; [|done].
  by eapply rejects_weaken; [apply rejects_key|lia].
Qed.
End Messages.

(** Range side conditions: numerals, lengths of keys and of container bodies. *)
Ltac dlen := lazymatch goal with
  | |- in_u32 (Z.of_nat (length (str _))) => by vm_compute
  | |- in_u32 (Z.of_nat _) =>
      unfold in_u32 in *; unfold okv;
      repeat match goal with |- context [match ?o with Some _ => _ | None => _ end] =>
        destruct o end;
      cbn [length app]; lia
  | |- in_u32 _ => first [assumption | unfold in_u32; lia]
  end.

Ltac dleaf := apply reads_leaf; first
  [ apply uint32_decode_law | apply uint_decode_law | apply int32_decode_law
  | apply bool_decode_law | apply bstr_decode_law | apply tstr_decode_law ];
  try solve [assumption | dlen].

Ltac dabsent := repeat lazymatch goal with
  | |- absent _ _ (_ ++ _) => apply absent_okv; [dlen|discriminate|]
  | |- absent _ _ [] => apply absent_key
  end.

(** The entries of a map as a flat list of items. *)
Ltac flat := cbn [app]; repeat first
  [ rewrite flat_pairs_kv | rewrite flat_pairs_okv | rewrite flat_pairs_okv_end
  | progress change (flat_pairs (A := item) []) with (@nil item) ].

Ltac dread_step := lazymatch goal with
  | |- reads_all _ _ (flat_pairs _) _ => flat
  | |- reads _ (listD _) _ _ => apply reads_list; [dlen|]
  | |- reads _ (mapD _) _ _ => apply reads_map; [dlen|]
  | |- reads _ (altD _ _) _ _ => apply reads_alt
  | |- reads _ (checkD _ _) _ _ => apply reads_check
  | |- reads_all _ (retD _) [] _ => apply reads_all_of, reads_ret
  | |- reads_all _ (bindD (zcbor_uint32_expect _) _) _ _ => apply reads_all_op; [dlen|]
  | |- reads_all _ (bindD (zcbor_present_decode (keyD _ _)) _) _ _ =>
      apply reads_all_opt_key; [dlen|intros ? ->|intros _; dabsent|]
  | |- reads_all _ (bindD (keyD _ _) _) _ _ => eapply reads_all_key1; [dlen| |]
  | |- reads_all _ (bindD _ _) (_ :: _) _ => eapply reads_all_bind1
  end.

(** The fields a schema item mentions, from a destructed message. *)
Ltac dread := repeat first [dread_step | solve [eauto with dec] | dleaf].

Section Readers.
Context {ZD : ZcborDec} {ZO : ZcborDecObs ZD} {ZL : ZcborDecLaws ZD ZO}.

Lemma reads_prov_status d s : reads d decode_prov_status [status_item s] s.
Proof. apply reads_enum; [|by destruct s]. by destruct s; vm_compute. Qed.

Lemma reads_sta_state d s : reads d decode_sta_state [IUint (sta_state_val s)] s.
Proof. apply reads_enum; [|by destruct s]. by destruct s; vm_compute. Qed.

Lemma reads_fail_reason d s : reads d decode_fail_reason [IUint (fail_reason_val s)] s.
Proof. apply reads_enum; [|by destruct s]. by destruct s; vm_compute. Qed.

Lemma reads_cred_kind d k : reads d decode_cred_kind [IUint (cred_kind_val k)] k.
Proof. apply reads_enum; [|by destruct k]. by destruct k; vm_compute. Qed.

Lemma reads_opD {A} d n (a : A) : in_u32 n -> reads (S d) (opD n a) [op_item n] a.
Proof. intros Hn. apply reads_list; [dlen|]. apply reads_all_op; [done|]. dread. Qed.
End Readers.

#[export] Hint Resolve reads_prov_status reads_sta_state reads_fail_reason reads_cred_kind : dec.

Section Requests.
Context {ZD : ZcborDec} {ZO : ZcborDecObs ZD} {ZL : ZcborDecLaws ZD ZO}.

Lemma in_u32_small (n m : nat) : (n <= m)%nat -> Z.of_nat m < 4294967296 -> in_u32 (Z.of_nat n).
Proof. unfold in_u32. lia. Qed.

Lemma len_is_ok n b : length b = n -> len_is n b = true.
Proof. unfold len_is. by apply Nat.eqb_eq. Qed.

Lemma len_in_ok lo hi b : (lo <= length b <= hi)%nat -> len_in lo hi b = true.
Proof. unfold len_in. intros H. apply andb_true_intro. split; apply Nat.leb_le; lia. Qed.

Lemma reads_sized d n b :
  length b = n -> Z.of_nat n < 4294967296 ->
  reads d (checkD (len_is n) zcbor_bstr_decode) [IBstr b] b.
Proof.
  intros Hb Hn. apply reads_check; [|by apply len_is_ok]. apply reads_leaf, bstr_decode_law.
  apply (in_u32_small _ n); lia.
Qed.

Lemma reads_ranged d lo hi b :
  (lo <= length b <= hi)%nat -> Z.of_nat hi < 4294967296 ->
  reads d (checkD (len_in lo hi) zcbor_bstr_decode) [IBstr b] b.
Proof.
  intros Hb Hn. apply reads_check; [|by apply len_in_ok]. apply reads_leaf, bstr_decode_law.
  apply (in_u32_small _ hi); lia.
Qed.

Lemma reads_wifi_config d c :
  wifi_config_ok c -> reads (S d) decode_wifi_config [wifi_config_item c] c.
Proof.
  destruct c as [ssid pass bssid ch]. intros (Hs & Hp & Hb & Hc). cbn in *.
  unfold decode_wifi_config, wifi_config_item. cbn [wifi_config_ssid wifi_config_pass
    wifi_config_bssid wifi_config_ch]. dread_step. flat. eapply reads_all_key1; [dlen|by apply reads_ranged|].
  apply reads_all_opt_key; [dlen| | |].
  { intros a ->. apply reads_ranged; [|lia]. specialize (Hp a eq_refl). lia. }
  { intros _. dabsent. }
  apply reads_all_opt_key; [dlen| | |].
  { intros a ->. apply reads_sized; [|lia]. exact (Hb a eq_refl). }
  { intros _. dabsent. }
  apply reads_all_opt_key; [dlen| |intros _; apply absent_key|].
  { intros a ->. apply reads_leaf, uint32_decode_law. by apply Hc. }
  apply reads_all_of, reads_ret.
Qed.

Lemma reads_scan_params d p :
  (forall ms, scan_params_period_ms p = Some ms -> in_u32 ms) ->
  reads (S d) decode_scan_params [scan_params_item p] p.
Proof.
  destruct p as [passive period]. cbn. intros Hp. unfold decode_scan_params, scan_params_item.
  cbn [scan_params_passive scan_params_period_ms]. dread_step. flat.
  apply reads_all_opt_key; [dlen| | |].
  { intros a ->. apply reads_leaf, bool_decode_law. }
  { intros _. dabsent. }
  apply reads_all_opt_key; [dlen| |intros _; apply absent_key|].
  { intros a ->. apply reads_leaf, uint32_decode_law. by apply Hp. }
  apply reads_all_of, reads_ret.
Qed.

Lemma reads_cred_chunk d c :
  cred_chunk_ok c -> reads (S d) decode_cred_chunk [cred_chunk_item c] c.
Proof.
  destruct c as [k off total data]. intros (Ho & Ht & Hd). cbn in *.
  unfold decode_cred_chunk, cred_chunk_item. cbn [cred_chunk_kind cred_chunk_off
    cred_chunk_total cred_chunk_data]. dread_step. dread.
Qed.

(** ** The request decoders *)

Lemma reads_ver_req : reads 1 decode_ver_req [ver_req_item] tt.
Proof. apply reads_opD. by vm_compute. Qed.

Lemma reads_auth_req r : auth_req_ok r -> reads 2 decode_auth_req [auth_req_item r] r.
Proof.
  intros Hr. apply reads_union. destruct r as [[n]|[p]]; cbn in Hr; cbn [auth_req_item].
  - apply picks_here, reads_alt. unfold decode_auth_challenge. dread_step. dread_step.
    eapply reads_all_bind1; [by apply reads_sized|]. dread.
  - apply picks_next; [apply rejects_bind, rejects_op; [dlen|by vm_compute|lia]|].
    apply picks_here, reads_alt. unfold decode_auth_proof. dread_step. dread_step.
    eapply reads_all_bind1; [by apply reads_sized|]. dread.
Qed.

Lemma rejects_opD {A} n m (a : A) its :
  in_u32 (Z.of_nat (length (IUint m :: its))) -> in_u32 m -> m <> n ->
  rejects 1 (opD n a) (IArr (IUint m :: its)).
Proof. apply rejects_op. Qed.

Ltac next_alt := apply picks_next;
  [eapply rejects_weaken; [apply rejects_bind, rejects_op; [dlen|by vm_compute|lia]|lia]|].

Lemma reads_config_req r : config_req_ok r -> reads 3 decode_config_req [config_req_item r] r.
Proof.
  intros Hr. apply reads_union. destruct r as [|[c]|]; cbn [config_req_item].
  - apply picks_here, (reads_alt _ (fun _ => _) _ _ tt). by apply reads_opD.
  - next_alt. apply picks_here, reads_alt. unfold decode_config_set. dread_step. dread_step.
    eapply reads_all_bind1; [by apply reads_wifi_config|]. dread.
  - next_alt. next_alt.
    apply picks_here, (reads_alt _ (fun _ => _) _ _ tt). by apply reads_opD.
Qed.

Lemma reads_scan_req r : scan_req_ok r -> reads 3 decode_scan_req [scan_req_item r] r.
Proof.
  intros Hr. apply reads_union. destruct r as [[p]| |[start count]]; cbn [scan_req_item].
  - apply picks_here, reads_alt. unfold decode_scan_start. dread_step. dread_step.
    eapply reads_all_bind1; [by apply reads_scan_params|]. dread.
  - next_alt. apply picks_here, (reads_alt _ (fun _ => _) _ _ tt). by apply reads_opD.
  - next_alt. next_alt. destruct Hr as [H1 H2]. cbn in H1, H2.
    apply picks_here, reads_alt. unfold decode_scan_get_results. dread.
Qed.

Lemma reads_cred_req r : cred_req_ok r -> reads 3 decode_cred_req [cred_req_item r] r.
Proof.
  intros Hr. apply reads_union. destruct r as [[c]| |]; cbn [cred_req_item].
  - apply picks_here, reads_alt. unfold decode_cred_write. dread_step. dread_step.
    eapply reads_all_bind1; [by apply reads_cred_chunk|]. dread.
  - next_alt. apply picks_here, (reads_alt _ (fun _ => _) _ _ tt). by apply reads_opD.
  - next_alt. next_alt.
    apply picks_here, (reads_alt _ (fun _ => _) _ _ tt). by apply reads_opD.
Qed.

Lemma reads_ctrl_req r : reads 2 decode_ctrl_req [ctrl_req_item r] r.
Proof.
  apply reads_union. destruct r; cbn [ctrl_req_item].
  - apply picks_here, (reads_alt _ (fun _ => _) _ _ tt). by apply reads_opD.
  - next_alt. apply picks_here, (reads_alt _ (fun _ => _) _ _ tt). by apply reads_opD.
  - next_alt. next_alt.
    apply picks_here, (reads_alt _ (fun _ => _) _ _ tt). by apply reads_opD.
Qed.
End Requests.

Section Responses.
Context {ZD : ZcborDec} {ZO : ZcborDecObs ZD} {ZL : ZcborDecLaws ZD ZO}.

Lemma concat_singles {A B} (g : A -> B) l : concat (map (fun x => [g x]) l) = map g l.
Proof. induction l as [|x l IH]; simpl; [done|]. by rewrite IH. Qed.

Lemma reads_strings d l :
  (length l <= 8)%nat -> (forall t, t ∈ l -> str_ok t) ->
  reads (S d) (listD (zcbor_multi_decode 0 8 zcbor_tstr_decode)) [IArr (map ITstr l)] l.
Proof.
  intros Hl Ht. apply reads_list; [rewrite length_map; unfold in_u32; lia|].
  rewrite <- concat_singles. apply reads_all_multi; [|apply tstr_decode_starves|done].
  intros x Hx. by apply reads_leaf, tstr_decode_law, Ht.
Qed.

Lemma reads_ver_info d v :
  in_u32 (ver_info_proto v) -> in_u32 (ver_info_blk v) -> str_ok (ver_info_lib v) ->
  (length (ver_info_caps_tstr v) <= 8)%nat -> (forall t, t ∈ ver_info_caps_tstr v -> str_ok t) ->
  reads (S (S d)) decode_ver_info [ver_info_item v] v.
Proof.
  destruct v as [proto caps blk lib pop]. cbn. intros Hp Hb Hs Hn Ht.
  unfold str_ok in Hs. unfold decode_ver_info, ver_info_item.
  cbn [ver_info_proto ver_info_caps_tstr ver_info_blk ver_info_lib ver_info_pop].
  dread_step. flat.
  eapply reads_all_key1; [dlen|by apply reads_leaf, uint32_decode_law|].
  eapply reads_all_key1; [dlen|by apply reads_strings|].
  eapply reads_all_key1; [dlen|by apply reads_leaf, uint32_decode_law|].
  eapply reads_all_key1; [dlen|by apply reads_leaf, tstr_decode_law|].
  apply reads_all_opt_key; [dlen| |intros _; apply absent_key|].
  { intros a ->. apply reads_leaf, bool_decode_law. }
  apply reads_all_of, reads_ret.
Qed.

Lemma reads_ver_rsp r : ver_rsp_ok r -> reads 3 decode_ver_rsp [ver_rsp_item r] r.
Proof.
  destruct r as [s v]. intros (H1 & H2 & H3 & H4 & H5). cbn in *.
  unfold decode_ver_rsp, ver_rsp_item. dread_step. dread_step.
  eapply reads_all_bind1; [apply reads_prov_status|].
  eapply reads_all_bind1; [by apply reads_ver_info|]. dread.
Qed.

Lemma reads_auth_rsp r : auth_rsp_ok r -> reads 2 decode_auth_rsp [auth_rsp_item r] r.
Proof.
  intros Hr. apply reads_union.
  destruct r as [[s n p]|[s]]; cbn in Hr; unfold auth_rsp_item, op_status_item.
  - destruct Hr as [Hn Hp]. apply picks_here, reads_alt. unfold decode_auth_challenge_rsp.
    dread_step. dread_step. eapply reads_all_bind1; [apply reads_prov_status|].
    eapply reads_all_bind1; [by apply reads_sized|].
    eapply reads_all_bind1; [by apply reads_sized|]. dread.
  - apply picks_next; [apply rejects_bind, rejects_op; [dlen|by vm_compute|lia]|].
    apply picks_here, reads_alt. unfold decode_auth_proof_rsp. dread.
Qed.

Lemma reads_connected_info d c :
  connected_info_ok c -> reads (S d) decode_connected_info [connected_info_item c] c.
Proof.
  destruct c as [ip4 ssid rssi]. intros (Hi & Hs & Hr). cbn in *.
  unfold decode_connected_info, connected_info_item.
  cbn [connected_info_ip4 connected_info_ssid connected_info_rssi]. dread_step. flat.
  eapply reads_all_key1; [dlen|by apply reads_sized|].
  eapply reads_all_key1; [dlen|by apply reads_ranged|].
  apply reads_all_opt_key; [dlen| |intros _; apply absent_key|].
  { intros a ->. by apply reads_leaf, int32_decode_law, Hr. }
  apply reads_all_of, reads_ret.
Qed.

Lemma reads_config_detail d c :
  config_detail_ok c -> reads (S (S d)) decode_config_detail [config_detail_item c] c.
Proof.
  intros Hc. apply reads_union. destruct c as [r|c]; cbn [config_detail_item].
  - apply picks_here, reads_alt, reads_fail_reason.
  - apply picks_next.
    { eapply rejects_weaken; [|apply Nat.le_0_l]. apply rejects_bind, rejects_bind.
      apply uint_decode_map. dlen. }
    by apply picks_here, reads_alt, reads_connected_info.
Qed.

(** [(present = f(..)), 1] at the end of a list. *)
Lemma reads_all_detail {B} d (g : option config_detail_r -> dec B) o b :
  (forall c, o = Some c -> config_detail_ok c) -> reads_all (S (S d)) (g o) [] b ->
  reads_all (S (S d)) (bindD (maybeD decode_config_detail) g)
    match o with Some c => [config_detail_item c] | None => [] end b.
Proof.
  intros Ho Hg s tl fs k Hs Hk. destruct o as [c|].
  - destruct (reads_config_detail d c (Ho c eq_refl) s tl 0%nat fs k) as (s1 & E1 & H1);
      [by rewrite Nat.add_0_r|done|].
    unfold bindD, maybeD. rewrite E1. by apply Hg.
  - destruct k as [|k]; [lia|].
    destruct (union_starves (altD config_detail_fail_reason_m decode_fail_reason)
      (altD config_detail_connected_info_m decode_connected_info) s tl fs k)
      as (s1 & E1 & H1); [| |exact Hs|].
    + apply starves_bind, starves_bind, uint_decode_starves.
    + apply starves_bind, starves_map.
    + unfold bindD, maybeD, decode_config_detail. rewrite E1. by apply Hg.
Qed.

Ltac next_alt := apply picks_next;
  [eapply rejects_weaken; [apply rejects_bind, rejects_op; [dlen|by vm_compute|lia]|lia]|].

Lemma reads_config_rsp r : config_rsp_ok r -> reads 4 decode_config_rsp [config_rsp_item r] r.
Proof.
  intros Hr. apply reads_union.
  destruct r as [[s sta o]|[s]|[s]]; unfold config_rsp_item, op_status_item; cbn in *.
  - apply picks_here, reads_alt. unfold decode_config_status_rsp.
    apply reads_list; [by destruct o|]. dread_step.
    eapply reads_all_bind1; [apply reads_prov_status|].
    eapply reads_all_bind1; [apply reads_sta_state|].
    apply reads_all_detail; [done|]. dread.
  - next_alt. apply picks_here, reads_alt. unfold decode_config_set_rsp. dread.
  - next_alt. next_alt. apply picks_here, reads_alt. unfold decode_config_apply_rsp. dread.
Qed.

Lemma reads_scan_entry d e :
  scan_entry_ok e -> reads (S d) decode_scan_entry [scan_entry_item e] e.
Proof.
  destruct e as [ssid bssid ch rssi auth]. intros (H1 & H2 & H3 & H4 & H5). cbn in *.
  unfold decode_scan_entry, scan_entry_item.
  cbn [scan_entry_ssid scan_entry_bssid scan_entry_ch scan_entry_rssi scan_entry_auth].
  dread_step. flat.
  eapply reads_all_key1; [dlen|apply reads_ranged; lia|].
  eapply reads_all_key1; [dlen|by apply reads_sized|].
  eapply reads_all_key1; [dlen|by apply reads_leaf, uint32_decode_law|].
  eapply reads_all_key1; [dlen|by apply reads_leaf, int32_decode_law|].
  eapply reads_all_key1; [dlen|by apply reads_leaf, uint32_decode_law|].
  apply reads_all_of, reads_ret.
Qed.

Lemma reads_scan_entries d l :
  (length l <= 8)%nat -> (forall e, e ∈ l -> scan_entry_ok e) ->
  reads (S (S d)) (listD (zcbor_multi_decode 0 8 decode_scan_entry))
    [IArr (map scan_entry_item l)] l.
Proof.
  intros Hl He. apply reads_list; [rewrite length_map; unfold in_u32; lia|].
  rewrite <- concat_singles. apply reads_all_multi; [|apply starves_map|done].
  intros x Hx. by apply reads_scan_entry, He.
Qed.

Lemma reads_scan_rsp r : scan_rsp_ok r -> reads 4 decode_scan_rsp [scan_rsp_item r] r.
Proof.
  intros Hr. apply reads_union.
  destruct r as [[s]|[s fin total]|[s l]]; unfold scan_rsp_item, op_status_item; cbn in *.
  - apply picks_here, reads_alt. unfold decode_scan_start_rsp. dread.
  - next_alt. apply picks_here, reads_alt. unfold decode_scan_status_rsp. dread.
  - next_alt. next_alt. destruct Hr as [H1 H2].
    apply picks_here, reads_alt. unfold decode_scan_results_rsp. dread_step. dread_step.
    eapply reads_all_bind1; [apply reads_prov_status|].
    eapply reads_all_bind1; [by apply reads_scan_entries|]. dread.
Qed.

Lemma reads_status_entry d m :
  str_ok (cred_status_rsp_map_tstruint_key m) -> in_u32 (map_tstruint m) ->
  reads d decode_repeated_map_tstruint
    [ITstr (cred_status_rsp_map_tstruint_key m); IUint (map_tstruint m)] m.
Proof.
  destruct m as [k v]. cbn. intros Hk Hv.
  apply (reads_bind d _ _ [ITstr k] [IUint v] k); [by apply reads_leaf, tstr_decode_law|].
  apply (reads_bind d _ _ [IUint v] [] v); [by apply reads_leaf, uint32_decode_law|].
  apply reads_ret.
Qed.

Lemma reads_status_map d l :
  (length l <= 8)%nat ->
  (forall m, m ∈ l -> str_ok (cred_status_rsp_map_tstruint_key m) /\ in_u32 (map_tstruint m)) ->
  reads (S d) (mapD (zcbor_multi_decode 0 8 decode_repeated_map_tstruint))
    [IMap (map map_tstruint_pair l)] l.
Proof.
  intros Hl Hm. apply reads_map; [rewrite length_map; unfold in_u32; lia|].
  unfold flat_pairs. rewrite map_map. cbn [map_tstruint_pair fst snd].
  apply (reads_all_multi d 8 _
    (fun m => [ITstr (cred_status_rsp_map_tstruint_key m); IUint (map_tstruint m)])); [| |done].
  - intros x Hx. destruct (Hm x Hx). by apply reads_status_entry.
  - apply starves_bind, tstr_decode_starves.
Qed.

Lemma reads_cred_rsp r : cred_rsp_ok r -> reads 3 decode_cred_rsp [cred_rsp_item r] r.
Proof.
  intros Hr. apply reads_union.
  destruct r as [[s n]|[s]|[s l]]; unfold cred_rsp_item, op_status_item; cbn in *.
  - apply picks_here, reads_alt. unfold decode_cred_write_rsp. dread.
  - next_alt. apply picks_here, reads_alt. unfold decode_cred_finalize_rsp. dread.
  - next_alt. next_alt. destruct Hr as [H1 H2].
    apply picks_here, reads_alt. unfold decode_cred_status_rsp. dread_step. dread_step.
    eapply reads_all_bind1; [apply reads_prov_status|].
    eapply reads_all_bind1; [by apply reads_status_map|]. dread.
Qed.

Lemma reads_ctrl_rsp r : ctrl_rsp_ok r -> reads 1 decode_ctrl_rsp [ctrl_rsp_item r] r.
Proof.
  destruct r as [op s]. unfold ctrl_rsp_ok. cbn. intros Ho.
  unfold decode_ctrl_rsp, ctrl_rsp_item, op_status_item. dread_step.
  eapply reads_all_bind1.
  { apply reads_check; [apply reads_leaf, uint32_decode_law; unfold in_u32; cbn; lia|].
    apply Z.leb_le. cbn. lia. }
  dread.
Qed.
End Responses.

(** ** What an accepted request satisfies *)

Section Accepted.
Context {ZD : ZcborDec} {ZO : ZcborDecObs ZD} {ZL : ZcborDecLaws ZD ZO}.

Lemma yields_u32 : yields zcbor_uint32_decode in_u32.
Proof. intros s n s'. apply uint32_decode_range. Qed.

Lemma yields_sized n : yields (checkD (len_is n) zcbor_bstr_decode) (fun b => length b = n).
Proof.
  eapply yields_mono; [apply yields_check, yields_true|]. intros b [_ H].
  by apply Nat.eqb_eq in H.
Qed.

Lemma yields_ranged lo hi :
  yields (checkD (len_in lo hi) zcbor_bstr_decode) (fun b => (lo <= length b <= hi)%nat).
Proof.
  eapply yields_mono; [apply yields_check, yields_true|]. intros b [_ H].
  unfold len_in in H. zbool. lia.
Qed.

Lemma yields_auth_req : yields decode_auth_req auth_req_ok.
Proof.
  apply yields_union; [|intros g ->%list_elem_of_singleton].
  - eapply yields_alt; [|intros a Ha; exact Ha]. apply yields_list.
    eapply yields_bind; [apply yields_true|]. intros _ _.
    eapply yields_bind; [apply yields_sized|]. intros n Hn. by apply yields_ret.
  - eapply yields_alt; [|intros a Ha; exact Ha]. apply yields_list.
    eapply yields_bind; [apply yields_true|]. intros _ _.
    eapply yields_bind; [apply yields_sized|]. intros n Hn. by apply yields_ret.
Qed.

Lemma yields_wifi_config : yields decode_wifi_config wifi_config_ok.
Proof.
  apply yields_map.
  eapply yields_bind; [apply yields_key, (yields_ranged 1 32)|]. intros ssid Hs.
  eapply yields_bind; [apply yields_present, yields_key, (yields_ranged 0 64)|]. intros p Hp.
  eapply yields_bind; [apply yields_present, yields_key, (yields_sized 6)|]. intros b Hb.
  eapply yields_bind; [apply yields_present, yields_key, yields_u32|]. intros ch Hc.
  apply yields_ret. unfold wifi_config_ok. cbn in *. split_and!; [lia|lia| |done..].
  intros q E. specialize (Hp q E). cbn in Hp. lia.
Qed.

(** The alternatives of a union, one by one. *)
Ltac each_alt := apply yields_union;
  [|intros g [->|[->|H]%elem_of_cons]%elem_of_cons; [| |by apply not_elem_of_nil in H]];
  (eapply yields_alt; [|intros ? Ha; exact Ha]).

Lemma yields_config_req : yields decode_config_req config_req_ok.
Proof.
  each_alt; try apply (yields_true (A := unit)).
  apply yields_list. eapply yields_bind; [apply yields_true|]. intros _ _.
  eapply yields_bind; [apply yields_wifi_config|]. intros c Hc. by apply yields_ret.
Qed.

Lemma yields_scan_req : yields decode_scan_req scan_req_ok.
Proof.
  each_alt; try apply (yields_true (A := unit)); apply yields_list.
  - eapply yields_bind; [apply yields_true|]. intros _ _.
    eapply (yields_bind _ _ (fun p => forall ms, scan_params_period_ms p = Some ms -> in_u32 ms)).
    + apply yields_map. eapply yields_bind; [apply yields_true|]. intros o _.
      eapply yields_bind; [apply yields_present, yields_key, yields_u32|]. intros ms Hms.
      by apply yields_ret.
    + intros p Hp. by apply yields_ret.
  - eapply yields_bind; [apply yields_true|]. intros _ _.
    eapply yields_bind; [apply yields_u32|]. intros start H1.
    eapply yields_bind; [apply yields_u32|]. intros count H2. by apply yields_ret.
Qed.

Lemma yields_cred_req : yields decode_cred_req cred_req_ok.
Proof.
  each_alt; try apply (yields_true (A := unit)).
  apply yields_list. eapply yields_bind; [apply yields_true|]. intros _ _.
  eapply (yields_bind _ _ cred_chunk_ok).
  - apply yields_map. eapply yields_bind; [apply yields_true|]. intros kind _.
    eapply yields_bind; [apply yields_key, yields_u32|]. intros off H1.
    eapply yields_bind; [apply yields_key, yields_u32|]. intros total H2.
    eapply yields_bind; [apply yields_key; intros s b s'; apply bstr_decode_range|].
    intros data H3. by apply yields_ret.
  - intros c Hc. by apply yields_ret.
Qed.
End Accepted.
