(* ===== verification/Codec.v ===== *)
(** * The codec's interface

    The handlers, and the clients on the other end, call the codec only through
    the entry points of its two headers, [ProvDecode] and [ProvEncode];
    [CodecEncLaws] and [CodecDecLaws] state what they rely on.  CodecZcbor.v
    discharges the laws for the generated codec. *)

From S2P Require Import Prelude ProvTypes Zcbor Schema.

(** Bytes that fit an output buffer, or the encoder's failure. *)
Definition fit (size : nat) (b : list byte) : option (list byte) :=
  if (length b <=? size)%nat then Some b else None.

Lemma fit_some size b : (length b <= size)%nat -> fit size b = Some b.
Proof. intros H. unfold fit. by rewrite (proj2 (Nat.leb_le _ _) H). Qed.

Lemma fit_none size b : (size < length b)%nat -> fit size b = None.
Proof. intros H. unfold fit. by rewrite (proj2 (Nat.leb_gt _ _) H). Qed.

Lemma fit_inv size b b' : fit size b = Some b' -> b' = b /\ (length b <= size)%nat.
Proof. unfold fit. destruct (_ <=? _)%nat eqn:E; [|done]. zbool. intros [= <-]. auto. Qed.

(** The prototypes of the generated headers.  An encoder takes the size of its
    output buffer; a decoder's [*_len_out] is not used by the library. *)

(* C: prov_decode.h 25-94 cbor_decode_ver_req *)
Class ProvDecode : Type := {
  cbor_decode_ver_req : list byte -> bool;
  cbor_decode_ver_rsp : list byte -> option ver_rsp;
  cbor_decode_auth_req : list byte -> option auth_req_r;
  cbor_decode_auth_rsp : list byte -> option auth_rsp_r;
  cbor_decode_config_req : list byte -> option config_req_r;
  cbor_decode_config_rsp : list byte -> option config_rsp_r;
  cbor_decode_scan_req : list byte -> option scan_req_r;
  cbor_decode_scan_rsp : list byte -> option scan_rsp_r;
  cbor_decode_cred_req : list byte -> option cred_req_r;
  cbor_decode_cred_rsp : list byte -> option cred_rsp_r;
  cbor_decode_ctrl_req : list byte -> option ctrl_req_r;
  cbor_decode_ctrl_rsp : list byte -> option ctrl_rsp;
}.

(* C: prov_encode.h 25-94 cbor_encode_ver_req *)
Class ProvEncode : Type := {
  cbor_encode_ver_req : nat -> option (list byte);
  cbor_encode_ver_rsp : nat -> ver_rsp -> option (list byte);
  cbor_encode_auth_req : nat -> auth_req_r -> option (list byte);
  cbor_encode_auth_rsp : nat -> auth_rsp_r -> option (list byte);
  cbor_encode_config_req : nat -> config_req_r -> option (list byte);
  cbor_encode_config_rsp : nat -> config_rsp_r -> option (list byte);
  cbor_encode_scan_req : nat -> scan_req_r -> option (list byte);
  cbor_encode_scan_rsp : nat -> scan_rsp_r -> option (list byte);
  cbor_encode_cred_req : nat -> cred_req_r -> option (list byte);
  cbor_encode_cred_rsp : nat -> cred_rsp_r -> option (list byte);
  cbor_encode_ctrl_req : nat -> ctrl_req_r -> option (list byte);
  cbor_encode_ctrl_rsp : nat -> ctrl_rsp -> option (list byte);
}.

Class Codec : Type := {
  codec_decode :: ProvDecode;
  codec_encode :: ProvEncode;
}.

(** Messages are written as the schema says, or refused for lack of room. *)
Class CodecEncLaws (C : Codec) : Prop := {
  encode_ver_req_law n : cbor_encode_ver_req n = fit n (item_bytes ver_req_item);
  encode_auth_req_law n r :
    auth_req_ok r -> cbor_encode_auth_req n r = fit n (item_bytes (auth_req_item r));
  encode_config_req_law n r :
    config_req_ok r -> cbor_encode_config_req n r = fit n (item_bytes (config_req_item r));
  encode_scan_req_law n r :
    scan_req_ok r -> cbor_encode_scan_req n r = fit n (item_bytes (scan_req_item r));
  encode_cred_req_law n r :
    cred_req_ok r -> cbor_encode_cred_req n r = fit n (item_bytes (cred_req_item r));
  encode_ctrl_req_law n r : cbor_encode_ctrl_req n r = fit n (item_bytes (ctrl_req_item r));
  encode_ver_rsp_law n r :
    ver_rsp_ok r -> cbor_encode_ver_rsp n r = fit n (item_bytes (ver_rsp_item r));
  encode_auth_rsp_law n r :
    auth_rsp_ok r -> cbor_encode_auth_rsp n r = fit n (item_bytes (auth_rsp_item r));
  encode_config_rsp_law n r :
    config_rsp_ok r -> cbor_encode_config_rsp n r = fit n (item_bytes (config_rsp_item r));
  encode_scan_rsp_law n r :
    scan_rsp_ok r -> cbor_encode_scan_rsp n r = fit n (item_bytes (scan_rsp_item r));
  encode_cred_rsp_law n r :
    cred_rsp_ok r -> cbor_encode_cred_rsp n r = fit n (item_bytes (cred_rsp_item r));
  encode_ctrl_rsp_law n r :
    ctrl_rsp_ok r -> cbor_encode_ctrl_rsp n r = fit n (item_bytes (ctrl_rsp_item r));
  (** An operation code the schema does not know is refused. *)
  encode_ctrl_rsp_range n r : 2 < ctrl_rsp_ctrl_op_m r -> cbor_encode_ctrl_rsp n r = None;
}.

(** Messages are read as the schema says, whatever follows them in the
    payload; what a decoder accepts obeys the schema's ranges. *)
Class CodecDecLaws (C : Codec) : Prop := {
  decode_ver_req_law tl : cbor_decode_ver_req (item_bytes ver_req_item ++ tl) = true;
  decode_auth_req_law r tl :
    auth_req_ok r -> cbor_decode_auth_req (item_bytes (auth_req_item r) ++ tl) = Some r;
  decode_config_req_law r tl :
    config_req_ok r -> cbor_decode_config_req (item_bytes (config_req_item r) ++ tl) = Some r;
  decode_scan_req_law r tl :
    scan_req_ok r -> cbor_decode_scan_req (item_bytes (scan_req_item r) ++ tl) = Some r;
  decode_cred_req_law r tl :
    cred_req_ok r -> cbor_decode_cred_req (item_bytes (cred_req_item r) ++ tl) = Some r;
  decode_ctrl_req_law r tl :
    cbor_decode_ctrl_req (item_bytes (ctrl_req_item r) ++ tl) = Some r;
  decode_ver_rsp_law r tl :
    ver_rsp_ok r -> cbor_decode_ver_rsp (item_bytes (ver_rsp_item r) ++ tl) = Some r;
  decode_auth_rsp_law r tl :
    auth_rsp_ok r -> cbor_decode_auth_rsp (item_bytes (auth_rsp_item r) ++ tl) = Some r;
  decode_config_rsp_law r tl :
    config_rsp_ok r -> cbor_decode_config_rsp (item_bytes (config_rsp_item r) ++ tl) = Some r;
  decode_scan_rsp_law r tl :
    scan_rsp_ok r -> cbor_decode_scan_rsp (item_bytes (scan_rsp_item r) ++ tl) = Some r;
  decode_cred_rsp_law r tl :
    cred_rsp_ok r -> cbor_decode_cred_rsp (item_bytes (cred_rsp_item r) ++ tl) = Some r;
  decode_ctrl_rsp_law r tl :
    ctrl_rsp_ok r -> cbor_decode_ctrl_rsp (item_bytes (ctrl_rsp_item r) ++ tl) = Some r;
  decode_auth_req_sound b r : cbor_decode_auth_req b = Some r -> auth_req_ok r;
  decode_config_req_sound b r : cbor_decode_config_req b = Some r -> config_req_ok r;
  decode_scan_req_sound b r : cbor_decode_scan_req b = Some r -> scan_req_ok r;
  decode_cred_req_sound b r : cbor_decode_cred_req b = Some r -> cred_req_ok r;
}.

Create HintDb codec.
#[export] Hint Resolve encode_ver_rsp_law encode_auth_rsp_law encode_config_rsp_law
  encode_scan_rsp_law encode_cred_rsp_law encode_ctrl_rsp_law encode_ver_req_law
  encode_auth_req_law encode_config_req_law encode_scan_req_law encode_cred_req_law
  encode_ctrl_req_law : codec.

(** Size of the short replies. *)
Lemma op_status_len op s : 0 <= op < 24 -> length (item_bytes (op_status_item op s)) = 3%nat.
Proof.
  intros H. simpl. unfold cbor_head at 1. rewrite (proj2 (Z.ltb_lt _ _)) by lia.
  by destruct s.
Qed.
