(* ===== verification/CodecZcbor.v ===== *)
(** * The generated codec keeps the codec's promises

    The encoders of Encode.v and the decoders of Decode.v, on any zcbor that
    behaves as documented, form a [Codec] that obeys its laws; and each of the
    twelve messages survives encoding and decoding. *)

From S2P Require Import Prelude ProvTypes Zcbor ZcborDec Schema Codec.
From S2P Require Encode Decode EncodeProofs DecodeProofs DecodeMsgs.

Section CodecZcbor.
Context {ZE : ZcborEnc} {ZD : ZcborDec}.

#[export] Instance codec_zcbor : Codec := {|
  codec_decode := {|
    Codec.cbor_decode_ver_req := Decode.cbor_decode_ver_req;
    Codec.cbor_decode_ver_rsp := Decode.cbor_decode_ver_rsp;
    Codec.cbor_decode_auth_req := Decode.cbor_decode_auth_req;
    Codec.cbor_decode_auth_rsp := Decode.cbor_decode_auth_rsp;
    Codec.cbor_decode_config_req := Decode.cbor_decode_config_req;
    Codec.cbor_decode_config_rsp := Decode.cbor_decode_config_rsp;
    Codec.cbor_decode_scan_req := Decode.cbor_decode_scan_req;
    Codec.cbor_decode_scan_rsp := Decode.cbor_decode_scan_rsp;
    Codec.cbor_decode_cred_req := Decode.cbor_decode_cred_req;
    Codec.cbor_decode_cred_rsp := Decode.cbor_decode_cred_rsp;
    Codec.cbor_decode_ctrl_req := Decode.cbor_decode_ctrl_req;
    Codec.cbor_decode_ctrl_rsp := Decode.cbor_decode_ctrl_rsp;
  |};
  codec_encode := {|
    Codec.cbor_encode_ver_req := Encode.cbor_encode_ver_req;
    Codec.cbor_encode_ver_rsp := Encode.cbor_encode_ver_rsp;
    Codec.cbor_encode_auth_req := Encode.cbor_encode_auth_req;
    Codec.cbor_encode_auth_rsp := Encode.cbor_encode_auth_rsp;
    Codec.cbor_encode_config_req := Encode.cbor_encode_config_req;
    Codec.cbor_encode_config_rsp := Encode.cbor_encode_config_rsp;
    Codec.cbor_encode_scan_req := Encode.cbor_encode_scan_req;
    Codec.cbor_encode_scan_rsp := Encode.cbor_encode_scan_rsp;
    Codec.cbor_encode_cred_req := Encode.cbor_encode_cred_req;
    Codec.cbor_encode_cred_rsp := Encode.cbor_encode_cred_rsp;
    Codec.cbor_encode_ctrl_req := Encode.cbor_encode_ctrl_req;
    Codec.cbor_encode_ctrl_rsp := Encode.cbor_encode_ctrl_rsp;
  |};
|}.

Section Encoding.
Context {EO : ZcborEncObs ZE} {EL : ZcborEncLaws ZE EO}.

#[export] Instance codec_zcbor_enc : CodecEncLaws codec_zcbor.
Proof.
  split; intros n; try intros r; try intros Hr.
  - eapply entry_emits; [apply EncodeProofs.emits_ver_req|lia].
  - eapply entry_emits; [by apply EncodeProofs.emits_auth_req|lia].
  - eapply entry_emits; [by apply EncodeProofs.emits_config_req|lia].
  - eapply entry_emits; [by apply EncodeProofs.emits_scan_req|lia].
  - eapply entry_emits; [by apply EncodeProofs.emits_cred_req|lia].
  - eapply entry_emits; [apply EncodeProofs.emits_ctrl_req|lia].
  - eapply entry_emits; [by apply EncodeProofs.emits_ver_rsp|lia].
  - eapply entry_emits; [by apply EncodeProofs.emits_auth_rsp|lia].
  - eapply entry_emits; [by apply EncodeProofs.emits_config_rsp|lia].
  - eapply entry_emits; [by apply EncodeProofs.emits_scan_rsp|lia].
  - eapply entry_emits; [by apply EncodeProofs.emits_cred_rsp|lia].
  - eapply entry_emits; [by apply EncodeProofs.emits_ctrl_rsp|lia].
  - apply entry_refuses, refusesE_and_r, refusesE_and_l, refusesE_or, refusesE_and_l,
      refusesE_or. intros s. unfold Encode.rangeE, orE, testE.
    by rewrite (proj2 (Z.leb_gt _ _)).
Qed.
End Encoding.

Section Decoding.
Context {DO : ZcborDecObs ZD} {DL : ZcborDecLaws ZD DO}.

#[export] Instance codec_zcbor_dec : CodecDecLaws codec_zcbor.
Proof.
  split.
  - intros tl. simpl. unfold Decode.cbor_decode_ver_req.
    by rewrite (DecodeProofs.entry_reads 1 3 _ _ _ tl DecodeMsgs.reads_ver_req).
  - intros r tl Hr. by eapply DecodeProofs.entry_reads; [by apply DecodeMsgs.reads_auth_req|].
  - intros r tl Hr. by eapply DecodeProofs.entry_reads; [by apply DecodeMsgs.reads_config_req|].
  - intros r tl Hr. eapply DecodeProofs.entry_reads; [by apply DecodeMsgs.reads_scan_req|lia].
  - intros r tl Hr. eapply DecodeProofs.entry_reads; [by apply DecodeMsgs.reads_cred_req|lia].
  - intros r tl. by eapply DecodeProofs.entry_reads; [apply DecodeMsgs.reads_ctrl_req|].
  - intros r tl Hr. eapply DecodeProofs.entry_reads; [by apply DecodeMsgs.reads_ver_rsp|lia].
  - intros r tl Hr. eapply DecodeProofs.entry_reads; [by apply DecodeMsgs.reads_auth_rsp|lia].
  - intros r tl Hr. eapply DecodeProofs.entry_reads; [by apply DecodeMsgs.reads_config_rsp|lia].
  - intros r tl Hr. eapply DecodeProofs.entry_reads; [by apply DecodeMsgs.reads_scan_rsp|lia].
  - intros r tl Hr. eapply DecodeProofs.entry_reads; [by apply DecodeMsgs.reads_cred_rsp|lia].
  - intros r tl Hr. eapply DecodeProofs.entry_reads; [by apply DecodeMsgs.reads_ctrl_rsp|lia].
  - intros b r. by apply DecodeProofs.entry_yields, DecodeMsgs.yields_auth_req.
  - intros b r. by apply DecodeProofs.entry_yields, DecodeMsgs.yields_config_req.
  - intros b r. by apply DecodeProofs.entry_yields, DecodeMsgs.yields_scan_req.
  - intros b r. by apply DecodeProofs.entry_yields, DecodeMsgs.yields_cred_req.
Qed.
End Decoding.

(** ** The twelve messages together *)

Inductive message : Type :=
| VerReq
| VerRsp (m : ver_rsp)
| AuthReq (m : auth_req_r)
| AuthRsp (m : auth_rsp_r)
| ConfigReq (m : config_req_r)
| ConfigRsp (m : config_rsp_r)
| ScanReq (m : scan_req_r)
| ScanRsp (m : scan_rsp_r)
| CredReq (m : cred_req_r)
| CredRsp (m : cred_rsp_r)
| CtrlReq (m : ctrl_req_r)
| CtrlRsp (m : ctrl_rsp).

Definition message_item (m : message) : item :=
  match m with
  | VerReq => ver_req_item
  | VerRsp m => ver_rsp_item m
  | AuthReq m => auth_req_item m
  | AuthRsp m => auth_rsp_item m
  | ConfigReq m => config_req_item m
  | ConfigRsp m => config_rsp_item m
  | ScanReq m => scan_req_item m
  | ScanRsp m => scan_rsp_item m
  | CredReq m => cred_req_item m
  | CredRsp m => cred_rsp_item m
  | CtrlReq m => ctrl_req_item m
  | CtrlRsp m => ctrl_rsp_item m
  end.

Definition message_ok (m : message) : Prop :=
  match m with
  | VerReq | CtrlReq _ => True
  | VerRsp m => ver_rsp_ok m
  | AuthReq m => auth_req_ok m
  | AuthRsp m => auth_rsp_ok m
  | ConfigReq m => config_req_ok m
  | ConfigRsp m => config_rsp_ok m
  | ScanReq m => scan_req_ok m
  | ScanRsp m => scan_rsp_ok m
  | CredReq m => cred_req_ok m
  | CredRsp m => cred_rsp_ok m
  | CtrlRsp m => ctrl_rsp_ok m
  end.

(** The entry point of prov_encode.c for the message's type. *)
Definition encode_message (n : nat) (m : message) : option (list byte) :=
  match m with
  | VerReq => Encode.cbor_encode_ver_req n
  | VerRsp m => Encode.cbor_encode_ver_rsp n m
  | AuthReq m => Encode.cbor_encode_auth_req n m
  | AuthRsp m => Encode.cbor_encode_auth_rsp n m
  | ConfigReq m => Encode.cbor_encode_config_req n m
  | ConfigRsp m => Encode.cbor_encode_config_rsp n m
  | ScanReq m => Encode.cbor_encode_scan_req n m
  | ScanRsp m => Encode.cbor_encode_scan_rsp n m
  | CredReq m => Encode.cbor_encode_cred_req n m
  | CredRsp m => Encode.cbor_encode_cred_rsp n m
  | CtrlReq m => Encode.cbor_encode_ctrl_req n m
  | CtrlRsp m => Encode.cbor_encode_ctrl_rsp n m
  end.

(** The entry point of prov_decode.c for the type of [m], on a payload. *)
Definition decode_like (m : message) (b : list byte) : option message :=
  match m with
  | VerReq => if Decode.cbor_decode_ver_req b then Some VerReq else None
  | VerRsp _ => VerRsp <$> Decode.cbor_decode_ver_rsp b
  | AuthReq _ => AuthReq <$> Decode.cbor_decode_auth_req b
  | AuthRsp _ => AuthRsp <$> Decode.cbor_decode_auth_rsp b
  | ConfigReq _ => ConfigReq <$> Decode.cbor_decode_config_req b
  | ConfigRsp _ => ConfigRsp <$> Decode.cbor_decode_config_rsp b
  | ScanReq _ => ScanReq <$> Decode.cbor_decode_scan_req b
  | ScanRsp _ => ScanRsp <$> Decode.cbor_decode_scan_rsp b
  | CredReq _ => CredReq <$> Decode.cbor_decode_cred_req b
  | CredRsp _ => CredRsp <$> Decode.cbor_decode_cred_rsp b
  | CtrlReq _ => CtrlReq <$> Decode.cbor_decode_ctrl_req b
  | CtrlRsp _ => CtrlRsp <$> Decode.cbor_decode_ctrl_rsp b
  end.

Section Messages.
Context {EO : ZcborEncObs ZE} {EL : ZcborEncLaws ZE EO}.
Context {DO : ZcborDecObs ZD} {DL : ZcborDecLaws ZD DO}.

Lemma encode_message_fit n m :
  message_ok m -> encode_message n m = fit n (item_bytes (message_item m)).
Proof.
  pose proof codec_zcbor_enc as HC.
  destruct m; intros Hm.
  - apply (encode_ver_req_law (C := codec_zcbor)).
  - by apply (encode_ver_rsp_law (C := codec_zcbor)).
  - by apply (encode_auth_req_law (C := codec_zcbor)).
  - by apply (encode_auth_rsp_law (C := codec_zcbor)).
  - by apply (encode_config_req_law (C := codec_zcbor)).
  - by apply (encode_config_rsp_law (C := codec_zcbor)).
  - by apply (encode_scan_req_law (C := codec_zcbor)).
  - by apply (encode_scan_rsp_law (C := codec_zcbor)).
  - by apply (encode_cred_req_law (C := codec_zcbor)).
  - by apply (encode_cred_rsp_law (C := codec_zcbor)).
  - apply (encode_ctrl_req_law (C := codec_zcbor)).
  - by apply (encode_ctrl_rsp_law (C := codec_zcbor)).
Qed.

Lemma decode_message_item m tl :
  message_ok m -> decode_like m (item_bytes (message_item m) ++ tl) = Some m.
Proof.
  pose proof codec_zcbor_dec as HC.
  destruct m; intros Hm; cbn [decode_like message_ok message_item] in *.
  - by rewrite (decode_ver_req_law (C := codec_zcbor) tl : Decode.cbor_decode_ver_req _ = _).
  - by rewrite (decode_ver_rsp_law (C := codec_zcbor) m tl Hm : Decode.cbor_decode_ver_rsp _ = _).
  - by rewrite (decode_auth_req_law (C := codec_zcbor) m tl Hm : Decode.cbor_decode_auth_req _ = _).
  - by rewrite (decode_auth_rsp_law (C := codec_zcbor) m tl Hm : Decode.cbor_decode_auth_rsp _ = _).
  - by rewrite (decode_config_req_law (C := codec_zcbor) m tl Hm : Decode.cbor_decode_config_req _ = _).
  - by rewrite (decode_config_rsp_law (C := codec_zcbor) m tl Hm : Decode.cbor_decode_config_rsp _ = _).
  - by rewrite (decode_scan_req_law (C := codec_zcbor) m tl Hm : Decode.cbor_decode_scan_req _ = _).
  - by rewrite (decode_scan_rsp_law (C := codec_zcbor) m tl Hm : Decode.cbor_decode_scan_rsp _ = _).
  - by rewrite (decode_cred_req_law (C := codec_zcbor) m tl Hm : Decode.cbor_decode_cred_req _ = _).
  - by rewrite (decode_cred_rsp_law (C := codec_zcbor) m tl Hm : Decode.cbor_decode_cred_rsp _ = _).
  - by rewrite (decode_ctrl_req_law (C := codec_zcbor) m tl : Decode.cbor_decode_ctrl_req _ = _).
  - by rewrite (decode_ctrl_rsp_law (C := codec_zcbor) m tl Hm : Decode.cbor_decode_ctrl_rsp _ = _).
Qed.
End Messages.
End CodecZcbor.
