(* ===== verification/ZcborRef.v ===== *)
(** * A reference zcbor

    A concrete encoder and decoder with the behaviour ZcborEnc and ZcborDec
    document, used to run the codec on concrete messages: container bodies are
    gathered and their headers written when they close; the decoder keeps the
    rest of the payload, the element count and a stack of backups. *)

From S2P Require Import Prelude Zcbor ZcborDec.

(** ** Encoder *)

Record enc_state : Type := {
  es_written : list byte;
  es_room : nat;
  es_count : nat;
  es_frames : list (list byte * nat);
  es_free : nat;
}.

Definition es_emit (b : list byte) (s : enc_state) : bool * enc_state :=
  if (length b <=? es_room s)%nat then
    (true, {| es_written := es_written s ++ b; es_room := es_room s - length b;
              es_count := S (es_count s); es_frames := es_frames s; es_free := es_free s |})
  else (false, s).

Definition es_start (s : enc_state) : bool * enc_state :=
  match es_free s with
  | S k =>
      if (1 <=? es_room s)%nat then
        (true, {| es_written := []; es_room := es_room s - 1; es_count := 0;
                  es_frames := (es_written s, es_count s) :: es_frames s; es_free := k |})
      else (false, s)
  | O => (false, s)
  end.

Definition es_end (head : nat -> list byte) (max : nat) (s : enc_state) : bool * enc_state :=
  match es_frames s with
  | (w, c) :: fs =>
      if (es_count s <=? max)%nat then
        (true, {| es_written := w ++ head (es_count s) ++ es_written s; es_room := es_room s;
                  es_count := S c; es_frames := fs; es_free := S (es_free s) |})
      else (false, s)
  | [] => (false, s)
  end.

Definition list_head (n : nat) : list byte := cbor_head 4 (Z.of_nat n).
Definition map_head (n : nat) : list byte := cbor_head 5 (Z.of_nat (Nat.div2 n)).

Fixpoint es_seq {A} (f : A -> enc_state -> bool * enc_state) (l : list A) (s : enc_state)
  : bool * enc_state :=
  match l with
  | [] => (true, s)
  | x :: l' => let '(b, s') := f x s in if b then es_seq f l' s' else (false, s')
  end.

#[export] Instance ref_enc : ZcborEnc := {|
  E := enc_state;
  zcbor_uint32_put v := es_emit (item_bytes (IUint v));
  zcbor_uint32_encode v := es_emit (item_bytes (IUint v));
  zcbor_int32_encode v := es_emit (item_bytes (IInt v));
  zcbor_bool_encode b := es_emit (item_bytes (IBool b));
  zcbor_bstr_encode b := es_emit (item_bytes (IBstr b));
  zcbor_tstr_encode b := es_emit (item_bytes (ITstr b));
  zcbor_list_start_encode max s := if (max <? 24)%nat then es_start s else (false, s);
  zcbor_list_end_encode max := es_end list_head max;
  zcbor_map_start_encode max s := if (max <? 24)%nat then es_start s else (false, s);
  zcbor_map_end_encode max := es_end map_head (2 * max);
  zcbor_list_map_end_force_encode s := s;
  zcbor_error_enc s := s;
  zcbor_multi_encode_minmax _ mn mx f l s :=
    if ((mn <=? length l) && (length l <=? mx))%nat then es_seq f l s else (false, s);
  zcbor_entry_encode size f n :=
    let '(b, s') := f {| es_written := []; es_room := size; es_count := 0; es_frames := [];
                         es_free := (n - 2)%nat |} in
    if b then Some (es_written s') else None;
|}.

#[export] Instance ref_enc_obs : ZcborEncObs ref_enc := {|
  e_ok _ := True;
  e_written := es_written;
  e_room := es_room;
  e_count := es_count;
  e_frames := es_frames;
  e_depth := es_free;
|}.

#[local] Transparent emits.

Lemma es_emit_emits it : emits 0 (ZE := ref_enc) (es_emit (item_bytes it)) [it].
Proof.
  intros s _ _. unfold items_bytes, es_emit. simpl. rewrite app_nil_r.
  destruct (_ <=? _)%nat; [|eauto].
  eexists. split; [done|]. simpl. split_and!; try done. lia.
Qed.

Lemma length_cbor_head mt n : 0 <= n < 24 -> length (cbor_head mt n) = 1%nat.
Proof. intros H. unfold cbor_head. by rewrite (proj2 (Z.ltb_lt _ _)) by lia. Qed.

(** A container whose header takes one byte, and whose body is [its]. *)
Lemma es_container d f its head it max (h : enc_state -> enc_state) :
  emits (ZE := ref_enc) d f its -> (length its <= max)%nat ->
  length (head (length its)) = 1%nat ->
  item_bytes it = head (length its) ++ items_bytes its ->
  emits (ZE := ref_enc) (S d) (andE es_start (andE (orE f h) (es_end head max))) [it].
Proof.
  intros Hf Hl Hh Hit s _ Hd. unfold items_bytes at 1 2 3. simpl.
  rewrite app_nil_r, Hit, length_app, Hh. unfold andE, orE, es_start. simpl in Hd.
  destruct (es_free s) as [|k] eqn:Ek; [lia|].
  destruct (1 <=? es_room s)%nat eqn:Er; zbool.
  - specialize (Hf {| es_written := []; es_room := es_room s - 1; es_count := 0;
      es_frames := (es_written s, es_count s) :: es_frames s; es_free := k |} I).
    simpl in Hf. specialize (Hf ltac:(lia)).
    destruct (_ <=? _)%nat eqn:El in Hf; zbool.
    + destruct Hf as (s1 & -> & _ & Hw & Hr & Hc & Hfr & Hk).
      rewrite (proj2 (Nat.leb_le _ _)) by lia.
      unfold es_end. rewrite Hfr, Hc, (proj2 (Nat.leb_le _ _)) by done.
      eexists. split; [done|]. simpl. rewrite Hw, Hr, Hk. simpl.
      split_and!; try done; lia.
    + destruct Hf as (s1 & ->). rewrite (proj2 (Nat.leb_gt _ _)) by lia. by eexists.
  - rewrite (proj2 (Nat.leb_gt _ _)) by lia. by eexists.
Qed.

Lemma es_seq_seqE {A} (f : A -> enc (ZE := ref_enc)) l s : es_seq f l s = seqE (ZE := ref_enc) f l s.
Proof.
  revert s. induction l as [|x l IH]; intros s; simpl; [done|].
  unfold andE. destruct (f x s) as [[] s']; [apply IH|done].
Qed.

#[export] Instance ref_enc_laws : ZcborEncLaws ref_enc ref_enc_obs.
Proof.
  split; try (intros; apply es_emit_emits).
  - intros d f its max h Hf Hl. cbn [zcbor_list_start_encode zcbor_list_end_encode ref_enc].
    rewrite (proj2 (Nat.ltb_lt _ _)) by lia.
    apply (es_container d f its list_head (IArr its) max); [done|lia| |done].
    apply length_cbor_head. lia.
  - intros d f kvs max h Hf Hl. cbn [zcbor_map_start_encode zcbor_map_end_encode ref_enc].
    rewrite (proj2 (Nat.ltb_lt _ _)) by lia.
    assert (Hm : map_head (length (flat_pairs kvs)) = cbor_head 5 (Z.of_nat (length kvs))).
    { unfold map_head. by rewrite length_flat_pairs, Nat.div2_double. }
    apply (es_container d f (flat_pairs kvs) map_head (IMap kvs) (2 * max)); [done| | |].
    + rewrite length_flat_pairs. lia.
    + rewrite Hm. apply length_cbor_head. lia.
    + by rewrite Hm, items_bytes_flat.
  - intros A mn mx f l s _ Hl. cbn [zcbor_multi_encode_minmax ref_enc].
    rewrite !(proj2 (Nat.leb_le _ _)) by lia. simpl. apply es_seq_seqE.
  - intros size f n. eexists. split; [|split; [|split; [|split; [|done]]]]; done.
Qed.

(** ** Decoder *)

(** The argument in the [k] bytes after the initial byte; a value that a
    shorter form holds is not canonical. *)
Definition parse_arg (mt : Z) (k : nat) (least : Z) (tl : list byte) : option (Z * Z * list byte) :=
  if (k <=? length tl)%nat then
    let n := be_val (take k tl) in
    if least <=? n then Some (mt, n, drop k tl) else None
  else None.

(** Major type, argument and the bytes after the head. *)
Definition parse_head (b : list byte) : option (Z * Z * list byte) :=
  match b with
  | [] => None
  | b0 :: tl =>
      let mt := b2z b0 / 32 in
      let info := b2z b0 mod 32 in
      if info <? 24 then Some (mt, info, tl)
      else if info =? 24 then parse_arg mt 1 24 tl
      else if info =? 25 then parse_arg mt 2 256 tl
      else if info =? 26 then parse_arg mt 4 65536 tl
      else None
  end.

Lemma parse_arg_bytes mt k least n tl :
  least <= n < 256 ^ Z.of_nat k -> 0 <= n ->
  parse_arg mt k least (be_bytes k n ++ tl) = Some (mt, n, tl).
Proof.
  intros Hn H0. unfold parse_arg. rewrite length_app, length_be_bytes.
  rewrite (proj2 (Nat.leb_le _ _)) by lia.
  rewrite take_app_length', drop_app_length' by (by rewrite length_be_bytes).
  rewrite be_val_bytes, Z.mod_small by lia. by rewrite (proj2 (Z.leb_le _ _)) by lia.
Qed.

Lemma parse_head_byte mt info tl :
  0 <= mt < 8 -> 0 <= info < 32 ->
  parse_head (z2b (mt * 32 + info) :: tl) =
    (if info <? 24 then Some (mt, info, tl)
     else if info =? 24 then parse_arg mt 1 24 tl
     else if info =? 25 then parse_arg mt 2 256 tl
     else if info =? 26 then parse_arg mt 4 65536 tl
     else None).
Proof.
  intros Hm Hi. unfold parse_head. rewrite b2z_z2b, (Z.mod_small (mt * 32 + info) 256) by lia.
  assert ((mt * 32 + info) / 32 = mt) as -> by (Z.div_mod_to_equations; lia).
  by assert ((mt * 32 + info) mod 32 = info) as -> by (Z.div_mod_to_equations; lia).
Qed.

Lemma parse_cbor_head mt n tl :
  0 <= mt < 8 -> in_u32 n -> parse_head (cbor_head mt n ++ tl) = Some (mt, n, tl).
Proof.
  unfold in_u32. intros Hm Hn. unfold cbor_head.
  destruct (n <? 24) eqn:E1; [|destruct (n <? 256) eqn:E2; [|destruct (n <? 65536) eqn:E3]];
    zbool; cbn [app]; rewrite parse_head_byte by lia.
  - by rewrite (proj2 (Z.ltb_lt _ _)).
  - apply parse_arg_bytes; simpl; lia.
  - apply parse_arg_bytes; simpl; lia.
  - apply parse_arg_bytes; simpl; lia.
Qed.

Record dec_state : Type := {
  ds_rest : list byte;
  ds_count : nat;
  ds_frames : list (list byte * nat);
  ds_free : nat;
}.

Definition ds_move (rest : list byte) (count : nat) (s : dec_state) : dec_state :=
  {| ds_rest := rest; ds_count := count; ds_frames := ds_frames s; ds_free := ds_free s |}.

(** Reads the next element by [f] on the payload, if one is left. *)
Definition ds_elem {A} (f : list byte -> option (A * list byte)) (s : dec_state)
  : option A * dec_state :=
  match ds_count s with
  | O => (None, s)
  | S c =>
      match f (ds_rest s) with
      | Some (a, tl) => (Some a, ds_move tl c s)
      | None => (None, s)
      end
  end.

Definition get_head (mt : Z) (b : list byte) : option (Z * list byte) :=
  match parse_head b with
  | Some (m, n, tl) => if m =? mt then Some (n, tl) else None
  | None => None
  end.

Definition get_int (b : list byte) : option (Z * list byte) :=
  match parse_head b with
  | Some (m, n, tl) =>
      if 2147483648 <=? n then None
      else if m =? 0 then Some (n, tl) else if m =? 1 then Some (-1 - n, tl) else None
  | None => None
  end.

Definition get_bool (b : list byte) : option (bool * list byte) :=
  match b with
  | xf4 :: tl => Some (false, tl)
  | xf5 :: tl => Some (true, tl)
  | _ => None
  end.

Definition get_str (mt : Z) (b : list byte) : option (list byte * list byte) :=
  match get_head mt b with
  | Some (n, tl) =>
      if (n <=? Z.of_nat (length tl)) && (n <? 4294967296) then
        Some (take (Z.to_nat n) tl, drop (Z.to_nat n) tl)
      else None
  | None => None
  end.

(** [f], when its result is the expected one. *)
Definition get_this {A} (eqb : A -> bool) (f : list byte -> option (A * list byte))
  (b : list byte) : option (unit * list byte) :=
  match f b with
  | Some (a, tl) => if eqb a then Some (tt, tl) else None
  | None => None
  end.

Definition get_u32 (b : list byte) : option (Z * list byte) :=
  match get_head 0 b with
  | Some (n, tl) => if (0 <=? n) && (n <? 4294967296) then Some (n, tl) else None
  | None => None
  end.

Definition ds_push (s : dec_state) (frame : list byte * nat) : dec_state :=
  {| ds_rest := ds_rest s; ds_count := ds_count s; ds_frames := frame :: ds_frames s;
     ds_free := pred (ds_free s) |}.

Definition ds_open (mt : Z) (per : nat) (s : dec_state) : option unit * dec_state :=
  match ds_free s, ds_elem (get_head mt) s with
  | S _, (Some n, s') =>
      (Some tt, ds_move (ds_rest s') (per * Z.to_nat n) (ds_push s' (ds_rest s, ds_count s')))
  | _, _ => (None, s)
  end.

Definition ds_pop (s : dec_state) : dec_state :=
  match ds_frames s with
  | (_, c) :: fs =>
      {| ds_rest := ds_rest s; ds_count := c; ds_frames := fs; ds_free := S (ds_free s) |}
  | [] => s
  end.

Definition ds_close (s : dec_state) : option unit * dec_state :=
  match ds_frames s with
  | [] => (None, s)
  | _ => (if (ds_count s =? 0)%nat then Some tt else None, ds_pop s)
  end.

Fixpoint ds_multi {A} (n : nat) (f : dec_state -> option A * dec_state) (s : dec_state)
  : list A * dec_state :=
  match n with
  | O => ([], s)
  | S n' =>
      let '(o, s') := f s in
      match o with
      | Some a => let '(l, s'') := ds_multi n' f s' in (a :: l, s'')
      | None => ([], {| ds_rest := ds_rest s; ds_count := ds_count s; ds_frames := ds_frames s';
                        ds_free := ds_free s' |})
      end
  end.

#[export] Instance ref_dec : ZcborDec := {|
  D := dec_state;
  zcbor_uint32_decode := ds_elem get_u32;
  zcbor_uint_decode := ds_elem get_u32;
  zcbor_int32_decode := ds_elem get_int;
  zcbor_bool_decode := ds_elem get_bool;
  zcbor_bstr_decode := ds_elem (get_str 2);
  zcbor_tstr_decode := ds_elem (get_str 3);
  zcbor_uint32_expect n := ds_elem (get_this (Z.eqb n) get_u32);
  zcbor_tstr_expect b := ds_elem (get_this (fun c => bool_decide (c = b)) (get_str 3));
  zcbor_list_start_decode := ds_open 4 1;
  zcbor_list_end_decode := ds_close;
  zcbor_map_start_decode := ds_open 5 2;
  zcbor_map_end_decode := ds_close;
  zcbor_list_map_end_force_decode := ds_pop;
  zcbor_union_start_code s :=
    match ds_free s with
    | S _ => (Some tt, ds_push s (ds_rest s, ds_count s))
    | O => (None, s)
    end;
  zcbor_union_elem_code s :=
    match ds_frames s with
    | (r, c) :: _ => (Some tt, ds_move r c s)
    | [] => (None, s)
    end;
  zcbor_union_end_code s := ds_move (ds_rest s) (ds_count s) (ds_pop s);
  zcbor_error_dec s := s;
  zcbor_present_decode _ f s :=
    let '(o, s') := f s in
    match o with
    | Some a => (Some (Some a), s')
    | None => (Some None, {| ds_rest := ds_rest s; ds_count := ds_count s;
                             ds_frames := ds_frames s'; ds_free := ds_free s' |})
    end;
  zcbor_multi_decode _ mn mx f s :=
    let '(l, s') := ds_multi mx f s in
    (if (mn <=? length l)%nat then Some l else None, s');
  zcbor_entry_decode _ b f n :=
    (f {| ds_rest := b; ds_count := 1; ds_frames := []; ds_free := (n - 2)%nat |}).1;
|}.

#[export] Instance ref_dec_obs : ZcborDecObs ref_dec := {|
  d_rest := ds_rest; d_count := ds_count; d_frames := ds_frames; d_free := ds_free;
|}.

(** ** The decoder's laws *)

Lemma elem_reads {A} (f : list byte -> option (A * list byte)) it a :
  (forall tl, f (item_bytes it ++ tl) = Some (a, tl)) ->
  reads (ZD := ref_dec) 0 (ds_elem f) [it] a.
Proof.
  intros Hf s tl c fs k (H1 & H2 & H3 & H4) _. simpl in *.
  unfold items_bytes in H1. simpl in H1. rewrite app_nil_r in H1.
  unfold ds_elem. rewrite H2, H1, Hf. by eexists.
Qed.

Lemma elem_starves {A} (f : list byte -> option (A * list byte)) :
  starves (ZD := ref_dec) (ds_elem f).
Proof. intros s Hc. simpl in *. exists s. unfold ds_elem. by rewrite Hc. Qed.

Lemma elem_rejects {A} (f : list byte -> option (A * list byte)) it :
  (forall tl, f (item_bytes it ++ tl) = None) -> rejects (ZD := ref_dec) 0 (ds_elem f) it.
Proof.
  intros Hf s tl c H1 H2 _. simpl in *. exists s. unfold ds_elem. by rewrite H2, H1, Hf.
Qed.

Lemma get_head_item mt n tl :
  0 <= mt < 8 -> in_u32 n -> get_head mt (cbor_head mt n ++ tl) = Some (n, tl).
Proof. intros Hm Hn. unfold get_head. by rewrite parse_cbor_head, Z.eqb_refl. Qed.

Lemma get_u32_item n tl : in_u32 n -> get_u32 (item_bytes (IUint n) ++ tl) = Some (n, tl).
Proof.
  intros Hn. unfold get_u32. simpl. rewrite get_head_item by (try lia; done).
  unfold in_u32 in Hn. by rewrite (proj2 (Z.leb_le _ _)), (proj2 (Z.ltb_lt _ _)) by lia.
Qed.

Lemma get_str_item mt b tl :
  0 <= mt < 8 -> in_u32 (Z.of_nat (length b)) ->
  get_str mt (cbor_head mt (Z.of_nat (length b)) ++ b ++ tl) = Some (b, tl).
Proof.
  intros Hm Hb. unfold get_str. rewrite get_head_item by done. unfold in_u32 in Hb.
  rewrite length_app, (proj2 (Z.leb_le _ _)), (proj2 (Z.ltb_lt _ _)) by lia.
  simpl. by rewrite Nat2Z.id, take_app_length, drop_app_length.
Qed.

Lemma get_int_item z tl : in_i32 z -> get_int (item_bytes (IInt z) ++ tl) = Some (z, tl).
Proof.
  unfold in_i32. intros Hz. unfold get_int, IInt. destruct (z <? 0) eqn:E; zbool; simpl;
    rewrite parse_cbor_head by (unfold in_u32; lia);
    rewrite (proj2 (Z.leb_gt _ _)) by lia; simpl; [|done].
  by replace (-1 - (-1 - z)) with z by lia.
Qed.

Lemma open_law mt per s n tl c fs k :
  0 <= mt < 8 -> in_u32 (Z.of_nat n) ->
  dec_at (ZD := ref_dec) s (cbor_head mt (Z.of_nat n) ++ tl) (S c) fs (S k) ->
  exists s' r, ds_open mt per s = (Some tt, s') /\
    dec_at (ZD := ref_dec) s' tl (per * n) ((r, c) :: fs) k.
Proof.
  intros Hm Hn (H1 & H2 & H3 & H4). simpl in *. unfold ds_open, ds_elem.
  rewrite H4, H2, H1, get_head_item by done. eexists _, _. split; [done|].
  unfold dec_at. simpl. by rewrite H3, H4, Nat2Z.id.
Qed.

Lemma close_law s tl r c fs k :
  dec_at (ZD := ref_dec) s tl 0 ((r, c) :: fs) k ->
  exists s', ds_close s = (Some tt, s') /\ dec_at (ZD := ref_dec) s' tl c fs (S k).
Proof.
  intros (H1 & H2 & H3 & H4). simpl in *. unfold ds_close, ds_pop. rewrite H3, H2.
  eexists. split; [done|]. unfold dec_at. simpl. by rewrite H1, H4.
Qed.

Lemma multi_runs {A} (f : dec_state -> option A * dec_state) s l s1 :
  runs (ZD := ref_dec) f s l s1 -> forall n, (length l <= n)%nat ->
  ds_multi n f s = (let '(l', s2) := ds_multi (n - length l) f s1 in (l ++ l', s2)).
Proof.
  induction 1 as [s|s a s1 l s2 E _ IH]; intros n Hn; cbn [length] in *.
  - rewrite Nat.sub_0_r. by destruct (ds_multi n f s).
  - destruct n as [|n]; [lia|]. simpl. rewrite E, (IH n) by lia.
    by destruct (ds_multi (n - length l) f s2).
Qed.

Lemma ref_multi_law {A} mn mx (f : dec_state -> option A * dec_state) s l s1 s2 :
  runs (ZD := ref_dec) f s l s1 -> (mn <= length l <= mx)%nat -> f s1 = (None, s2) ->
  ds_frames s2 = ds_frames s1 -> ds_free s2 = ds_free s1 ->
  exists s', zcbor_multi_decode (ZcborDec := ref_dec) mn mx f s = (Some l, s') /\
    dec_at (ZD := ref_dec) s' (ds_rest s1) (ds_count s1) (ds_frames s1) (ds_free s1).
Proof.
  intros Hr Hl E Hf Hk. simpl. rewrite (multi_runs f s l s1 Hr mx) by lia.
  destruct (mx - length l)%nat; simpl; [|rewrite E]; rewrite app_nil_r;
    rewrite (proj2 (Nat.leb_le _ _)) by lia; eexists; (split; [done|]); [done|].
  unfold dec_at. simpl. by rewrite Hf, Hk.
Qed.

#[export] Instance ref_dec_laws : ZcborDecLaws ref_dec ref_dec_obs.
Proof.
  split.
  - intros n Hn. apply elem_reads. intros tl. by apply get_u32_item.
  - intros n Hn. apply elem_reads. intros tl. by apply get_u32_item.
  - intros z Hz. apply elem_reads. intros tl. by apply get_int_item.
  - intros []; apply elem_reads; by intros tl.
  - intros b Hb. apply elem_reads. intros tl. simpl. rewrite <- app_assoc. by apply get_str_item.
  - intros b Hb. apply elem_reads. intros tl. simpl. rewrite <- app_assoc. by apply get_str_item.
  - intros n Hn. apply elem_reads. intros tl. unfold get_this.
    by rewrite get_u32_item, Z.eqb_refl.
  - intros b Hb. apply elem_reads. intros tl. unfold get_this. simpl. rewrite <- app_assoc.
    by rewrite get_str_item, bool_decide_true.
  - intros s n s' E. cbn in E. unfold ds_elem, get_u32 in E. unfold in_u32.
    destruct (ds_count s); [done|]. destruct (get_head _ _) as [[m tl]|]; [|done].
    destruct (_ && _) eqn:F; [|done]. zbool. simplify_eq. lia.
  - intros s b s' E. cbn in E. unfold ds_elem, get_str in E. unfold in_u32.
    destruct (ds_count s); [done|]. destruct (get_head _ _) as [[m tl]|]; [|done].
    destruct (_ && _) eqn:F; [|done]. zbool. simplify_eq. rewrite length_take. lia.
  - intros n m Hm Hne. apply elem_rejects. intros tl. unfold get_this.
    rewrite get_u32_item by done. by rewrite (proj2 (Z.eqb_neq _ _)) by done.
  - intros b c Hc Hne. apply elem_rejects. intros tl. unfold get_this. simpl.
    rewrite <- app_assoc, get_str_item by done. by rewrite bool_decide_false.
  - intros l Hl. apply elem_rejects. intros tl. unfold get_u32, get_head. simpl.
    rewrite <- app_assoc. by rewrite parse_cbor_head.
  - apply elem_starves.
  - apply elem_starves.
  - intros b. apply elem_starves.
  - intros s Hc. simpl in *. exists s. split; [|done].
    unfold ds_open, ds_elem. rewrite Hc. by destruct (ds_free s).
  - intros s n tl c fs k Hn Hs.
    destruct (open_law 4 1 s n tl c fs k ltac:(lia) Hn Hs) as (s' & r & E & H).
    exists s', r. by rewrite Nat.mul_1_l in H.
  - intros s n tl c fs k Hn Hs. by apply (open_law 5 2).
  - intros s tl r c fs k. apply close_law.
  - intros s tl r c fs k. apply close_law.
  - intros s x fs k Hc Hf Hk. simpl in *. unfold ds_close, ds_pop. rewrite Hf.
    destruct x as [r c]. rewrite (proj2 (Nat.eqb_neq _ _)) by done.
    eexists. split; [done|]. simpl. by rewrite Hk.
  - intros s [r c] fs Hf. simpl in *. unfold ds_pop. by rewrite Hf.
  - done.
  - intros s rest c fs k (H1 & H2 & H3 & H4). simpl in *. rewrite H4. eexists.
    split; [done|]. unfold dec_at. simpl. by rewrite H1, H2, H3, H4.
  - intros s rest c fs Hf. simpl in *. rewrite Hf. eexists. split; [done|].
    unfold dec_at. simpl. by rewrite Hf.
  - intros s rest c [r c'] fs k (H1 & H2 & H3 & H4). simpl in *.
    unfold ds_pop, dec_at. rewrite H3. simpl. by rewrite H1, H2, H4.
  - intros A f s a s' E. simpl. by rewrite E.
  - intros A f s s' E Hf Hk. simpl in *. rewrite E. eexists. split; [done|].
    unfold dec_at. simpl. by rewrite Hf, Hk.
  - intros A f s a s' E. simpl in E. destruct (f s) as [[b|] s1] eqn:F; simplify_eq. eauto.
  - intros A mn mx f s l s1 s2. apply ref_multi_law.
  - intros A mn mx f s l s1 Hr Hl Hmn. simpl.
    rewrite (multi_runs f s l s1 Hr mx), Hl, Nat.sub_diag by lia. simpl.
    by rewrite app_nil_r, Hl, (proj2 (Nat.leb_le _ _)).
  - intros A b f n. eexists. split; [|done]. done.
Qed.
