(* ===== verification/Platform.v ===== *)
(** * The platform: Zephyr, PSA crypto, mbedTLS, pouch and the application

    Code outside the repository that the library calls.  [Kernel] has the
    kernel objects the library owns (queue, semaphore, event, delayed work),
    with their documented behaviour stated on observations; [Platform] has the
    outside world [W] and one function per service called, each taking the world
    and returning its result with the new world.  Nothing is assumed of them
    but what a theorem names. *)

From S2P Require Import Prelude.

(** ** Kernel objects *)

Class Kernel : Type := {
  (** k_fifo: an unbounded queue of pointers. *)
  k_fifo : Type -> Type;
  fifo_items : forall {A}, k_fifo A -> list A;
  fifo_empty : forall {A}, k_fifo A;
  k_fifo_put : forall {A}, A -> k_fifo A -> k_fifo A;
  k_fifo_get : forall {A}, k_fifo A -> option A * k_fifo A;
  k_fifo_is_empty : forall {A}, k_fifo A -> bool;
  fifo_items_empty : forall A, fifo_items (fifo_empty (A := A)) = [];
  fifo_items_put : forall A (x : A) q, fifo_items (k_fifo_put x q) = fifo_items q ++ [x];
  fifo_get_nil : forall A (q : k_fifo A), fifo_items q = [] -> k_fifo_get q = (None, q);
  fifo_get_cons : forall A (q : k_fifo A) x l, fifo_items q = x :: l ->
    exists q', k_fifo_get q = (Some x, q') /\ fifo_items q' = l;
  fifo_is_empty_spec : forall A (q : k_fifo A),
    k_fifo_is_empty q = true <-> fifo_items q = [];

  (** k_sem with limit 1. *)
  k_sem : Type;
  sem_count : k_sem -> nat;
  sem_init : k_sem;
  k_sem_give : k_sem -> k_sem;
  k_sem_take : k_sem -> bool * k_sem;
  k_sem_reset : k_sem -> k_sem;
  sem_count_init : sem_count sem_init = 0%nat;
  sem_count_give : forall s, sem_count (k_sem_give s) = 1%nat;
  sem_count_reset : forall s, sem_count (k_sem_reset s) = 0%nat;
  sem_take_spec : forall s,
    (k_sem_take s).1 = (0 <? sem_count s)%nat /\
    sem_count (k_sem_take s).2 = (sem_count s - 1)%nat;

  (** k_event: a set of event bits. *)
  k_event : Type;
  event_bits : k_event -> Z;
  event_init : k_event;
  k_event_post : Z -> k_event -> k_event;
  k_event_clear : Z -> k_event -> k_event;
  event_bits_init : event_bits event_init = 0;
  event_bits_post : forall b e, event_bits (k_event_post b e) = Z.lor (event_bits e) b;
  event_bits_clear : forall b e, event_bits (k_event_clear b e) = Z.ldiff (event_bits e) b;

  (** k_work_delayable: the delay in seconds it was armed with, while it is armed. *)
  k_work_delayable : Type;
  work_due : k_work_delayable -> option Z;
  work_undefined : k_work_delayable;              (**r K_WORK_DELAYABLE_DEFINE *)
  k_work_schedule : Z -> k_work_delayable -> k_work_delayable;
  k_work_reschedule : Z -> k_work_delayable -> k_work_delayable;
  k_work_cancel_delayable : k_work_delayable -> k_work_delayable;
  k_work_init_delayable : k_work_delayable -> k_work_delayable;
  k_work_taken : k_work_delayable -> k_work_delayable;  (**r the work queue starts the item *)
  work_due_undefined : work_due work_undefined = None;
  work_due_init : forall w, work_due (k_work_init_delayable w) = None;
  work_due_taken : forall w, work_due (k_work_taken w) = None;
  work_due_cancel : forall w, work_due (k_work_cancel_delayable w) = None;
  work_due_reschedule : forall d w, work_due (k_work_reschedule d w) = Some d;
  work_due_schedule : forall d w,
    work_due (k_work_schedule d w) = Some (match work_due w with Some d' => d' | None => d end);
}.

(** ** Values exchanged with the platform *)

(** Application-facing events. *)

(* C: events.h pouch_prov_fail_reason *)
Inductive pouch_prov_fail_reason : Set :=
| POUCH_PROV_FAIL_AUTH_ERROR
| POUCH_PROV_FAIL_NETWORK_NOT_FOUND.

(* C: events.h pouch_prov_event *)
Inductive pouch_prov_event : Set :=
| POUCH_PROV_EVENT_STARTED
| POUCH_PROV_EVENT_SESSION_AUTHORIZED
| POUCH_PROV_EVENT_WIFI_CRED_RECV
| POUCH_PROV_EVENT_WIFI_CONNECTED
| POUCH_PROV_EVENT_WIFI_FAIL
| POUCH_PROV_EVENT_CLOUD_CRED_STORED
| POUCH_PROV_EVENT_ENDED.

#[export] Instance pouch_prov_event_eq_dec : EqDecision pouch_prov_event.
Proof. solve_decision. Defined.

(** [enum wifi_conn_status] as far as the library reads it. *)
Definition WIFI_STATUS_CONN_SUCCESS : Z := 0.
Definition WIFI_STATUS_CONN_WRONG_PASSWORD : Z := 2.
Definition WIFI_STATUS_CONN_AP_NOT_FOUND : Z := 4.

(** [enum wifi_security_type] as far as the library writes it. *)
Definition WIFI_SECURITY_TYPE_NONE : Z := 0.
Definition WIFI_SECURITY_TYPE_PSK : Z := 1.
Definition WIFI_CHANNEL_ANY : Z := 255.
Definition WIFI_SSID_MAX_LEN : nat := 32.
Definition WIFI_MAC_ADDR_LEN : nat := 6.
Definition WIFI_CREDENTIALS_FLAG_BSSID : Z := 1.
Definition PSA_SUCCESS : Z := 0.
Definition PSA_KEY_ID_NULL : Z := 0.
Definition POUCH_CONTENT_TYPE_CBOR : Z := 60.

(** struct wifi_connect_req_params; a NULL psk is [None]. *)
Record wifi_connect_req_params : Type := {
  cp_ssid : list byte;
  cp_psk : option (list byte);
  cp_security : Z;
  cp_channel : Z;
  cp_bssid : option (list byte);
}.

(** Arguments of wifi_credentials_set_personal. *)
Record wifi_cred : Type := {
  wcr_ssid : list byte;
  wcr_security : Z;
  wcr_bssid : option (list byte);
  wcr_pass : list byte;
  wcr_flags : Z;
  wcr_channel : Z;
}.

(** struct wifi_scan_result as delivered with NET_EVENT_WIFI_SCAN_RESULT. *)
Record wifi_scan_result : Type := {
  sr_ssid : list byte;               (**r the array, with what is past the length *)
  sr_ssid_length : nat;
  sr_mac : list byte;
  sr_channel : Z;
  sr_rssi : Z;
  sr_security : Z;
}.

(** The C types of a result: an SSID array of 32 bytes or more, a 6-byte address,
    an int8_t. *)
Definition result_typed (r : wifi_scan_result) : Prop :=
  (WIFI_SSID_MAX_LEN <= length (sr_ssid r))%nat /\ length (sr_mac r) = WIFI_MAC_ADDR_LEN /\
  -128 <= sr_rssi r < 128.

(** Key attributes set before a PSA call. *)
Inductive psa_use : Set :=
| PSA_HMAC_SIGN                      (**r HMAC-SHA256 key, SIGN_MESSAGE *)
| PSA_IDENTITY_VOLATILE              (**r P-256 pair, DERIVE and SIGN *)
| PSA_IDENTITY_EXPORTABLE.           (**r the same with EXPORT *)

(** struct pouch_config: the member set depends on the build. *)
Inductive pouch_config : Type :=
| pouch_device_id (id : string)
| pouch_identity (cert : list byte) (key : Z).

(** ** The world and the services *)

Class Platform : Type := {
  W : Type;

  (** heap *)
  k_malloc : nat -> W -> bool * W;
  k_free : W -> W;

  (** pouch *)
  pouch_init : pouch_config -> W -> Z * W;
  pouch_uplink_entry_write : string -> Z -> list byte -> W -> Z * W;

  (** the application's event callback *)
  event_cb : pouch_prov_event -> option pouch_prov_fail_reason -> W -> W;

  (** randomness and PSA crypto *)
  sys_rand_get : nat -> W -> list byte * W;
  psa_mac_operation_t : Type;
  psa_crypto_init : W -> Z * W;
  psa_import_key : psa_use -> list byte -> W -> (Z * Z) * W;
  psa_generate_key : psa_use -> W -> (Z * Z) * W;
  psa_export_key : Z -> nat -> W -> (Z * list byte) * W;
  psa_destroy_key : Z -> W -> W;
  psa_mac_sign_setup : Z -> W -> (Z * psa_mac_operation_t) * W;
  psa_mac_update : psa_mac_operation_t -> list byte -> W -> (Z * psa_mac_operation_t) * W;
  psa_mac_sign_finish : psa_mac_operation_t -> nat -> W -> (Z * list byte) * W;
  psa_mac_abort : psa_mac_operation_t -> W -> W;

  (** settings *)
  settings_subsys_init : W -> Z * W;
  settings_save_one : string -> list byte -> W -> Z * W;
  settings_delete : string -> W -> Z * W;
  (** The entries under a subtree ("" for all) that are passed to the handlers,
      as full name and stored value, with the return value. *)
  settings_load_subtree : string -> W -> (Z * list (string * list byte)) * W;

  (** Wi-Fi credential store *)
  wifi_credentials_is_empty : W -> bool;
  wifi_credentials_delete_by_ssid : list byte -> W -> Z * W;
  wifi_credentials_delete_all : W -> Z * W;
  wifi_credentials_set_personal : wifi_cred -> W -> Z * W;

  (** network interfaces and requests *)
  net_if_get_wifi_sta : W -> option Z;
  net_if_get_first_wifi : W -> option Z;
  net_mgmt_add_event_callback : W -> W;
  net_mgmt_wifi_scan : Z -> W -> Z * W;
  net_mgmt_wifi_connect : Z -> wifi_connect_req_params -> W -> Z * W;
  (** ssid and rssi of the interface status, or a non-zero return *)
  net_mgmt_wifi_iface_status : Z -> W -> (Z * (list byte * Z)) * W;
  net_if_ipv4_get_global_addr : Z -> W -> option (list byte);

  (** Bluetooth *)
  bt_is_ready : W -> bool;
  bt_enable : W -> Z * W;
  bt_id_get : W -> list byte;
  bt_le_adv_start : list byte -> Z -> W -> Z * W;
  bt_le_adv_stop : W -> Z * W;
  bt_conn_set_security : W -> Z * W;

  (** mbedTLS: each X.509-writing step of the certificate, in call order *)
  mbedtls_pk_setup_opaque : Z -> W -> Z * W;
  mbedtls_x509write_crt_set_subject_name : string -> W -> Z * W;
  mbedtls_x509write_crt_set_issuer_name : string -> W -> Z * W;
  mbedtls_mpi_lset : Z -> W -> Z * W;
  mbedtls_x509write_crt_set_serial : W -> Z * W;
  mbedtls_x509write_crt_set_validity : string -> string -> W -> Z * W;
  (** the DER certificate, or a negative error *)
  mbedtls_x509write_crt_der : nat -> W -> (Z * list byte) * W;
}.

(** ** Documented behaviour of the services

    Classes of laws, each used only by the theorems that name it. *)

(** Buffers are filled, and never beyond the size passed in. *)
Class PlatformSizes (P : Platform) : Prop := {
  rand_length n w : length (sys_rand_get n w).1 = n;
  export_length id n w st raw w' :
    psa_export_key id n w = ((st, raw), w') -> (length raw <= n)%nat;
  der_length n w ret der w' :
    mbedtls_x509write_crt_der n w = ((ret, der), w') ->
    (length der <= n)%nat /\ (0 <= ret -> Z.of_nat (length der) = ret);
  bt_addr_length w : (3 <= length (bt_id_get w))%nat;
  ip4_length i w a : net_if_ipv4_get_global_addr i w = Some a -> length a = 4%nat;
}.

(** [k] is in the settings subtree [t]: [t] is everything when empty, else [k] is
    [t] or has the components of [t] in front of its own. *)
Definition in_subtree (t k : string) : bool :=
  String.eqb t "" || String.eqb k t || String.prefix (t ++ "/") k.

(** Settings: a saved value is what a later load delivers; a deleted one is
    gone; the application's callback and the other services do not touch the
    library's keys. *)
Class SettingsLaws (P : Platform) : Type := {
  settings_value : W -> string -> option (list byte);
  settings_save_law k v w w' :
    settings_save_one k v w = (0, w') ->
    settings_value w' k = Some v /\
    (forall k', k' <> k -> settings_value w' k' = settings_value w k');
  settings_delete_law k w w' :
    settings_delete k w = (0, w') ->
    settings_value w' k = None /\
    (forall k', k' <> k -> settings_value w' k' = settings_value w k');
  settings_load_law t w l w' :
    settings_load_subtree t w = ((0, l), w') ->
    NoDup (map fst l) /\
    (forall k v, ((k, v) ∈ l) <-> (in_subtree t k = true /\ settings_value w k = Some v)) /\
    (forall k, settings_value w' k = settings_value w k);
  settings_event_law ev d w k : settings_value (event_cb ev d w) k = settings_value w k;
}.

(** The Wi-Fi credential store holds at most one entry per SSID. A call that
    does not return 0 promises nothing. *)
Class WifiStoreLaws (P : Platform) : Type := {
  stored_ssids : W -> list (list byte);
  wifi_is_empty_law w : wifi_credentials_is_empty w = true <-> stored_ssids w = [];
  wifi_delete_law ssid w w' :
    wifi_credentials_delete_by_ssid ssid w = (0, w') ->
    ~ (ssid ∈ stored_ssids w') /\
    (forall x, x <> ssid -> (x ∈ stored_ssids w') <-> (x ∈ stored_ssids w));
  wifi_delete_all_law w w' :
    wifi_credentials_delete_all w = (0, w') -> stored_ssids w' = [];
  wifi_set_law c w w' :
    wifi_credentials_set_personal c w = (0, w') ->
    forall x, (x ∈ stored_ssids w') <-> (x = wcr_ssid c \/ x ∈ stored_ssids w);
  wifi_connect_law i p w r w' :
    net_mgmt_wifi_connect i p w = (r, w') -> stored_ssids w' = stored_ssids w;
  wifi_event_law ev d w : stored_ssids (event_cb ev d w) = stored_ssids w;
}.
