(* ===== verification/State.v ===== *)
(** * The device's state

    The static variables of every source file, one record per file, and the
    state every C function runs in: the library's statics with the outside
    world.  Field names are the C names. *)

From S2P Require Import Prelude ProvTypes Platform.

(** ** Build configuration (Kconfig) *)

Class Kconfig : Type := {
  CONFIG_POUCH_PROV_WIFI : bool;
  CONFIG_POUCH_PROV_CRED : bool;
  CONFIG_POUCH_PROV_AUTH : bool;
  CONFIG_POUCH_ENCRYPTION_NONE : bool;      (**r else CONFIG_POUCH_PROV_IDENTITY *)
  CONFIG_SETTINGS : bool;
  CONFIG_POUCH_BLOCK_SIZE : Z;
  CONFIG_POUCH_PROV_SCAN_CACHE : nat;
  CONFIG_POUCH_PROV_AUTOSTOP_TIMEOUT_S : Z;
  CONFIG_POUCH_PROV_RESPONSE_WAIT_MS : Z;
  CONFIG_POUCH_PROV_DEVICE_NAME_PREFIX : string;
}.

(** ** Constants (pouch_prov_internal.h) *)

(* C: pouch_prov_internal.h 16-21 POUCH_PROV_PATH_VER *)
Definition POUCH_PROV_PATH_VER : string := ".prov/ver".
Definition POUCH_PROV_PATH_AUTH : string := ".prov/auth".
Definition POUCH_PROV_PATH_CONFIG : string := ".prov/config".
Definition POUCH_PROV_PATH_SCAN : string := ".prov/scan".
Definition POUCH_PROV_PATH_CRED : string := ".prov/cred".
Definition POUCH_PROV_PATH_CTRL : string := ".prov/ctrl".

(* C: pouch_prov_internal.h 23-24 POUCH_PROV_MSG_MAX *)
Definition POUCH_PROV_MSG_MAX : nat := 384.

(* C: pouch_prov_internal.h 26-38 OP_CONFIG_STATUS *)
Definition OP_CONFIG_STATUS : Z := 0.
Definition OP_CONFIG_SET : Z := 1.
Definition OP_CONFIG_APPLY : Z := 2.
Definition OP_CTRL_RESET : Z := 0.
Definition OP_CTRL_REPROV : Z := 1.
Definition OP_CTRL_END : Z := 2.

(** What a request handler returns: 0 with the response, or a negative errno. *)
Inductive hres : Type :=
| HOk (rsp : list byte)
| HErr (err : Z).

(** [cbor_encode_x(..) == 0 ? 0 : -ENOMEM] *)
Definition enc_result (o : option (list byte)) : hres :=
  match o with Some b => HOk b | None => HErr (- ENOMEM) end.

(** ** rpc.c *)

(* C: rpc.c 26-31 rpc_rsp *)
Record rpc_rsp : Type := { rsp_path : string; rsp_msg : list byte }.

(** ** dispatch.c *)

(** The handler functions an endpoint may point to. *)
Inductive handler_id : Set :=
| pouch_prov_handle_ver_p
| pouch_prov_handle_auth_p
| pouch_prov_handle_ctrl_p
| pouch_prov_handle_config_p
| pouch_prov_handle_scan_p
| pouch_prov_handle_cred_p.

#[export] Instance handler_id_eq_dec : EqDecision handler_id.
Proof. solve_decision. Defined.

(* C: pouch_prov_internal.h pouch_prov_endpoint *)
Record pouch_prov_endpoint : Type := {
  ep_path : string;
  ep_handler : handler_id;
  ep_require_auth : bool;
}.

(* C: dispatch.c 47-52 active *)
Record active_t : Type := {
  act_endpoint : option pouch_prov_endpoint;
  act_len : nat;
  act_overflow : bool;
  act_buf : list byte;                        (**r POUCH_PROV_MSG_MAX bytes *)
}.

(** ** handlers/auth.c *)

(* C: auth.c 31 NONCE_LEN *)
Definition NONCE_LEN : nat := 16.
(* C: auth.c 32 PROOF_LEN *)
Definition PROOF_LEN : nat := 32.
(* C: auth.c 33 MAX_ATTEMPTS *)
Definition MAX_ATTEMPTS : Z := 3.

(* C: auth.c 35-40 state *)
Record auth_t : Type := {
  au_cli_nonce : list byte;
  au_dev_nonce : list byte;
  au_challenged : bool;
  au_attempts : Z;                            (**r uint8_t *)
}.

(** ** handlers/wifi_scan.c *)

(* C: wifi_scan.c ap_entry *)
Record ap_entry : Type := {
  ap_ssid : list byte;                        (**r WIFI_SSID_MAX_LEN bytes *)
  ap_ssid_len : nat;
  ap_bssid : list byte;
  ap_channel : Z;
  ap_rssi : Z;
  ap_auth : Z;
}.

(* C: wifi_scan.c 39-45 sc *)
Record scan_t : Type := {
  sc_entries : list ap_entry;                 (**r SCAN_MAX entries *)
  sc_count : nat;
  sc_finished : bool;
  sc_cb_registered : bool;
}.

(** ** handlers/wifi_config.c *)

(* C: wifi_config.c 28 SSID_MAX *)
Definition SSID_MAX : nat := 32.
(* C: wifi_config.c 29 PASS_MAX *)
Definition PASS_MAX : nat := 63.

(** The credentials of a connection attempt: used for the staged ones and for
    the snapshot of the attempt in flight. *)

(* C: wifi_config.c 31-48 wc *)
Record conn_params : Type := {
  cn_ssid : list byte;                        (**r SSID_MAX + 1 bytes *)
  cn_ssid_len : nat;
  cn_pass : list byte;                        (**r PASS_MAX + 1 bytes *)
  cn_pass_len : nat;
  cn_bssid : list byte;
  cn_has_bssid : bool;
  cn_channel : Z;                             (**r uint8_t *)
}.

(* C: auth.c 42-45 pouch_prov_auth_reset *)
Definition auth_zero : auth_t := {|
  au_cli_nonce := zeros NONCE_LEN; au_dev_nonce := zeros NONCE_LEN;
  au_challenged := false; au_attempts := 0;
|}.

(** ** cred_store.c *)

(* C: cred_store.c blob *)
Record blob : Type := {
  b_buf : list byte;
  b_cap : nat;
  b_len : nat;
  b_staged : nat;
  b_expected : nat;
}.

(** ** identity.c *)

(* C: identity.c 40-44 cert_der *)
Record ident_t : Type := {
  id_cert_der : list byte;                    (**r IDENTITY_CERT_MAX bytes *)
  id_cert_der_len : nat;
  id_priv_raw : list byte;                    (**r P256_PRIV_LEN bytes *)
  id_priv_raw_len : nat;
  id_key : Z;
}.

(** ** adv.c *)

(* C: adv.c 28-36 service_data *)
Record adv_t : Type := {
  adv_flags : Z;                              (**r service_data.payload.flags *)
  adv_device_name : list byte;
  adv_name_len : nat;                         (**r ad[2].data_len *)
  adv_enabled : bool;
}.

(** ** manager.c *)

(* C: manager.h pouch_prov_config *)
Record pouch_prov_config : Type := {
  cfg_pop : option (list byte);               (**r the C string's bytes *)
  cfg_device_id : option string;
  cfg_wifi_conn_attempts : Z;
  cfg_event_cb : bool;                        (**r a callback is set *)
}.

Section Device.
Context {K : Kernel} {P : Platform}.

(* C: wifi_config.c 31-60 wc *)
Record wifi_t : Type := {
  wc_cfg : conn_params;
  wc_inflight : conn_params;
  wc_attempts_max : Z;
  wc_attempts_completed : Z;
  wc_last_conn_status : Z;
  wc_retry_work : k_work_delayable;
  wc_sta_state : sta_state_r;
  wc_fail_reason : fail_reason_r;
  wc_cb_registered : bool;
  wc_ip4 : list byte;                         (**r fill_connected's static ip4[4] *)
}.

(* C: manager.c 27-32 config *)
Record mgr_t : Type := {
  mg_config : pouch_prov_config;
  mg_initialized : bool;
  mg_running : bool;
  mg_events : k_event;
  mg_autostop_work : k_work_delayable;
}.

(* C: rpc.c 33-34 rsp_fifo *)
Record rpc_t : Type := {
  rp_fifo : k_fifo rpc_rsp;
  rp_ready : k_sem;
}.

Record device : Type := {
  d_active : active_t;
  d_authorized : bool;
  d_rpc : rpc_t;
  d_auth : auth_t;
  d_scan : scan_t;
  d_wifi : wifi_t;
  d_blobs : list blob;
  d_ident : ident_t;
  d_adv : adv_t;
  d_mgr : mgr_t;
}.

Record st : Type := { s_dev : device; s_env : W }.

Definition C (A : Type) : Type := M st A.

(** Updates of one file's statics. *)
Definition set_active (f : active_t -> active_t) (d : device) : device :=
  {| d_active := f (d_active d); d_authorized := d_authorized d; d_rpc := d_rpc d;
     d_auth := d_auth d; d_scan := d_scan d; d_wifi := d_wifi d; d_blobs := d_blobs d;
     d_ident := d_ident d; d_adv := d_adv d; d_mgr := d_mgr d |}.
Definition set_authorized (b : bool) (d : device) : device :=
  {| d_active := d_active d; d_authorized := b; d_rpc := d_rpc d;
     d_auth := d_auth d; d_scan := d_scan d; d_wifi := d_wifi d; d_blobs := d_blobs d;
     d_ident := d_ident d; d_adv := d_adv d; d_mgr := d_mgr d |}.
Definition set_rpc (f : rpc_t -> rpc_t) (d : device) : device :=
  {| d_active := d_active d; d_authorized := d_authorized d; d_rpc := f (d_rpc d);
     d_auth := d_auth d; d_scan := d_scan d; d_wifi := d_wifi d; d_blobs := d_blobs d;
     d_ident := d_ident d; d_adv := d_adv d; d_mgr := d_mgr d |}.
Definition set_auth (f : auth_t -> auth_t) (d : device) : device :=
  {| d_active := d_active d; d_authorized := d_authorized d; d_rpc := d_rpc d;
     d_auth := f (d_auth d); d_scan := d_scan d; d_wifi := d_wifi d; d_blobs := d_blobs d;
     d_ident := d_ident d; d_adv := d_adv d; d_mgr := d_mgr d |}.
Definition set_scan (f : scan_t -> scan_t) (d : device) : device :=
  {| d_active := d_active d; d_authorized := d_authorized d; d_rpc := d_rpc d;
     d_auth := d_auth d; d_scan := f (d_scan d); d_wifi := d_wifi d; d_blobs := d_blobs d;
     d_ident := d_ident d; d_adv := d_adv d; d_mgr := d_mgr d |}.
Definition set_wifi (f : wifi_t -> wifi_t) (d : device) : device :=
  {| d_active := d_active d; d_authorized := d_authorized d; d_rpc := d_rpc d;
     d_auth := d_auth d; d_scan := d_scan d; d_wifi := f (d_wifi d); d_blobs := d_blobs d;
     d_ident := d_ident d; d_adv := d_adv d; d_mgr := d_mgr d |}.
Definition set_blobs (f : list blob -> list blob) (d : device) : device :=
  {| d_active := d_active d; d_authorized := d_authorized d; d_rpc := d_rpc d;
     d_auth := d_auth d; d_scan := d_scan d; d_wifi := d_wifi d; d_blobs := f (d_blobs d);
     d_ident := d_ident d; d_adv := d_adv d; d_mgr := d_mgr d |}.
Definition set_ident (f : ident_t -> ident_t) (d : device) : device :=
  {| d_active := d_active d; d_authorized := d_authorized d; d_rpc := d_rpc d;
     d_auth := d_auth d; d_scan := d_scan d; d_wifi := d_wifi d; d_blobs := d_blobs d;
     d_ident := f (d_ident d); d_adv := d_adv d; d_mgr := d_mgr d |}.
Definition set_adv (f : adv_t -> adv_t) (d : device) : device :=
  {| d_active := d_active d; d_authorized := d_authorized d; d_rpc := d_rpc d;
     d_auth := d_auth d; d_scan := d_scan d; d_wifi := d_wifi d; d_blobs := d_blobs d;
     d_ident := d_ident d; d_adv := f (d_adv d); d_mgr := d_mgr d |}.
Definition set_mgr (f : mgr_t -> mgr_t) (d : device) : device :=
  {| d_active := d_active d; d_authorized := d_authorized d; d_rpc := d_rpc d;
     d_auth := d_auth d; d_scan := d_scan d; d_wifi := d_wifi d; d_blobs := d_blobs d;
     d_ident := d_ident d; d_adv := d_adv d; d_mgr := f (d_mgr d) |}.

(** Reading and writing the statics, and calling the platform. *)
Definition get {A} (f : device -> A) : C A := mget (fun s => f (s_dev s)).
Definition put (f : device -> device) : C unit :=
  mmod (fun s => {| s_dev := f (s_dev s); s_env := s_env s |}).
Definition call {A} (f : W -> A * W) : C A :=
  fun s => let '(a, w) := f (s_env s) in Some (a, {| s_dev := s_dev s; s_env := w |}).
Definition call_ (f : W -> W) : C unit := call (fun w => (tt, f w)).
(** A query that leaves the world as it is. *)
Definition ask {A} (f : W -> A) : C A := mget (fun s => f (s_env s)).

Lemma wp_getd {A} (f : device -> A) (Q : A -> st -> Prop) s : Q (f (s_dev s)) s -> wp (get f) Q s.
Proof. done. Qed.

Lemma wp_put f (Q : unit -> st -> Prop) s :
  Q tt {| s_dev := f (s_dev s); s_env := s_env s |} -> wp (put f) Q s.
Proof. done. Qed.

Lemma wp_call {A} (f : W -> A * W) (Q : A -> st -> Prop) s :
  (forall a w, f (s_env s) = (a, w) -> Q a {| s_dev := s_dev s; s_env := w |}) ->
  wp (call f) Q s.
Proof. intros H. unfold wp, call. destruct (f (s_env s)) as [a w] eqn:E. by apply H. Qed.

Lemma wp_call_ f (Q : unit -> st -> Prop) s :
  Q tt {| s_dev := s_dev s; s_env := f (s_env s) |} -> wp (call_ f) Q s.
Proof. done. Qed.

Lemma wp_ask {A} (f : W -> A) (Q : A -> st -> Prop) s : Q (f (s_env s)) s -> wp (ask f) Q s.
Proof. done. Qed.
End Device.

#[export] Hint Resolve wp_getd wp_put wp_call_ wp_ask : wp.

(** Symbolic execution including the accessors of the device state. *)
Ltac dev_step :=
  match goal with
  | |- wp (get _) _ _ => apply wp_getd
  | |- wp (put _) _ _ => apply wp_put
  | |- wp (call_ _) _ _ => apply wp_call_
  | |- wp (ask _) _ _ => apply wp_ask
  | |- wp (call _) _ _ =>
      apply wp_call; let H := fresh "Hcall" in intros ? ? H; cbn [s_env s_dev] in H
  | |- _ => wp_step
  end; lazy beta iota delta [s_dev s_env].

Ltac dev_go := repeat dev_step.
