(* ===== verification/Frame.v ===== *)
(** * What a function leaves alone

    [steps R m]: whenever [m] runs to its end, the devices before and after are
    related by the preorder [R]; [keeps p m] is the case that the part [p] of
    the device is as before.  The calculus below decides it by the shape of
    [m], so that every handler's frame is one line. *)

From S2P Require Import Prelude Platform State.

Create HintDb steps.

Section Frame.
Context {K : Kernel} {P : Platform}.

Definition steps {A} (R : device -> device -> Prop) (m : C A) : Prop :=
  forall s a s', m s = Some (a, s') -> R (s_dev s) (s_dev s').

Definition same {B} (p : device -> B) (d d' : device) : Prop := p d' = p d.

Definition keeps {A B} (p : device -> B) (m : C A) : Prop := steps (same p) m.

#[export] Instance same_preorder {B} (p : device -> B) : PreOrder (same p).
Proof. split; unfold same; [done|]. intros d1 d2 d3 H1 H2. by rewrite H2. Qed.

Section Calculus.
Context (R : device -> device -> Prop) `{!PreOrder R}.

Lemma steps_ret {A} (a : A) : steps R (mret a).
Proof. intros s b s' E. by injection E as _ <-. Qed.

Lemma steps_bind {A A'} (m : C A) (k : A -> C A') :
  steps R m -> (forall a, steps R (k a)) -> steps R (mbind m k).
Proof.
  intros Hm Hk s b s'. unfold mbind. destruct (m s) as [[a s1]|] eqn:E; [|done].
  intros E'. etransitivity; [by eapply Hm|]. by eapply Hk.
Qed.

Lemma steps_get {A} (f : device -> A) : steps R (get f).
Proof. intros s b s' E. by injection E as _ <-. Qed.

Lemma steps_ask {A} (f : W -> A) : steps R (ask f).
Proof. intros s b s' E. by injection E as _ <-. Qed.

Lemma steps_put f : (forall d, R d (f d)) -> steps R (put f).
Proof. intros H s b s' E. injection E as _ <-. apply H. Qed.

Lemma steps_call {A} (f : W -> A * W) : steps R (call f).
Proof.
  intros s b s' E. unfold call in E. destruct (f (s_env s)) as [a w]. by injection E as _ <-.
Qed.

Lemma steps_call_ f : steps R (call_ f).
Proof. apply steps_call. Qed.

Lemma steps_ub {A} : steps R (mub (A := A)).
Proof. done. Qed.

Lemma steps_guard c : steps R (mguard c).
Proof. destruct c; [apply steps_ret|apply steps_ub]. Qed.

Lemma steps_when (c : bool) m : steps R m -> steps R (mwhen c m).
Proof. intros H. destruct c; [done|apply steps_ret]. Qed.

Lemma steps_for {A} (l : list A) (f : A -> C unit) :
  (forall x, steps R (f x)) -> steps R (mfor l f).
Proof.
  intros H. induction l as [|x l IH]; simpl; [apply steps_ret|]. by apply steps_bind.
Qed.
End Calculus.

Lemma steps_mono {A} (R R' : device -> device -> Prop) (m : C A) :
  steps R m -> (forall d d', R d d' -> R' d d') -> steps R' m.
Proof. intros H HR s a s' E. by eapply HR, H. Qed.

(** A total run also keeps what is kept. *)
Lemma wp_steps {A} R (m : C A) (Q : A -> st -> Prop) s :
  steps R m -> wp m Q s -> wp m (fun a s' => Q a s' /\ R (s_dev s) (s_dev s')) s.
Proof.
  intros Hk H. unfold wp in *. destruct (m s) as [[a s']|] eqn:E; [|done].
  split; [done|]. by eapply Hk.
Qed.
End Frame.

(** [R d (f d)] for a concrete [R] and an assignment [f]. *)
Ltac steps_side := intros; first [reflexivity | solve [auto with steps]].

Ltac head_of t := lazymatch t with ?f _ => head_of f | _ => t end.

Ltac steps_step :=
  lazymatch goal with
  | |- steps ?R (mbind _ _) => apply (steps_bind R); [|intros ?]
  | |- steps ?R (mret _) => apply (steps_ret R)
  | |- steps ?R (get _) => apply (steps_get R)
  | |- steps ?R (ask _) => apply (steps_ask R)
  | |- steps ?R (put _) => apply (steps_put R); steps_side
  | |- steps ?R (call _) => apply (steps_call R)
  | |- steps ?R (call_ _) => apply (steps_call_ R)
  | |- steps ?R mub => apply (steps_ub R)
  | |- steps ?R (mguard _) => apply (steps_guard R)
  | |- steps ?R (mwhen _ _) => apply (steps_when R)
  | |- steps ?R (mfor _ _) => apply (steps_for R); intros ?
  | |- steps ?R (match ?x with _ => _ end) => destruct x
  | |- steps ?R ?m => first
      [ solve [auto with steps nocore]
      | let h := head_of m in progress unfold h ]
  end.

Ltac steps_go := try unfold keeps; repeat (steps_step; cbv beta).
