(* ===== verification/Rpc.v ===== *)
(** * Response queue and uplink flushing (src/src/rpc.c)

    A queue of encoded responses, filled by the dispatcher and drained into an
    uplink pouch.  The loops run until the queue is empty; their fuel is the
    queue's length, and [drain_exhausts] shows that it is enough.  A blocking
    wait lets other threads run: what they do is the argument [others]. *)

From S2P Require Import Prelude Platform State.

(** sizeof(struct rpc_rsp) on the 32-bit targets. *)
Definition RPC_RSP_SIZE : nat := 12.

Section Rpc.
Context {KC : Kconfig} {K : Kernel} {P : Platform}.

Definition set_fifo (q : k_fifo rpc_rsp) : device -> device :=
  set_rpc (fun r => {| rp_fifo := q; rp_ready := rp_ready r |}).
Definition set_ready (f : k_sem -> k_sem) : device -> device :=
  set_rpc (fun r => {| rp_fifo := rp_fifo r; rp_ready := f (rp_ready r) |}).

(** The queued responses, oldest first. *)
Definition queued (d : device) : list rpc_rsp := fifo_items (rp_fifo (d_rpc d)).

(* C: rpc.c pouch_prov_rpc_enqueue *)
Definition pouch_prov_rpc_enqueue (path : string) (msg : list byte) : C Z :=
  if (POUCH_PROV_MSG_MAX <? length msg)%nat then mret (- EMSGSIZE) else
  ok <- call (k_malloc (RPC_RSP_SIZE + length msg)) ;;
  if negb ok then mret (- ENOMEM) else
  q <- get (fun d => rp_fifo (d_rpc d)) ;;
  put (set_fifo (k_fifo_put {| rsp_path := path; rsp_msg := msg |} q)) ;;;
  put (set_ready k_sem_give) ;;;
  mret 0.

(** [while ((rsp = k_fifo_get(&rsp_fifo, K_NO_WAIT)) != NULL) { body; k_free(rsp); }] *)
(* C: rpc.c 63-65 pouch_prov_rpc_reset *)
Fixpoint drain (fuel : nat) (body : rpc_rsp -> C unit) : C unit :=
  match fuel with
  | O => mret tt
  | S n =>
      q <- get (fun d => rp_fifo (d_rpc d)) ;;
      let '(r, q') := k_fifo_get q in
      put (set_fifo q') ;;;
      match r with
      | None => mret tt
      | Some rsp => body rsp ;;; call_ k_free ;;; drain n body
      end
  end.

(** One round more than there are responses: the last one sees the queue empty. *)
Definition drain_all (body : rpc_rsp -> C unit) : C unit :=
  n <- get (fun d => length (queued d)) ;;
  drain (S n) body.

(* C: rpc.c pouch_prov_rpc_reset *)
Definition pouch_prov_rpc_reset : C unit :=
  drain_all (fun _ => mret tt) ;;;
  put (set_ready k_sem_reset).

(** Writes one response into the open uplink pouch; a failed write is logged
    and the response dropped. *)
(* C: rpc.c 80-85 rpc_uplink_flush *)
Definition uplink_write (rsp : rpc_rsp) : C unit :=
  err <- call (pouch_uplink_entry_write (rsp_path rsp) POUCH_CONTENT_TYPE_CBOR (rsp_msg rsp)) ;;
  mret tt.

(* C: rpc.c rpc_uplink_flush *)
Definition rpc_uplink_flush (others : C unit) : C unit :=
  empty <- get (fun d => k_fifo_is_empty (rp_fifo (d_rpc d))) ;;
  mwhen empty
    (others ;;;
     s <- get (fun d => rp_ready (d_rpc d)) ;;
     put (set_ready (fun _ => (k_sem_take s).2))) ;;;
  drain_all uplink_write.

(** ** Lemmas *)

Lemma queued_set_fifo q d : queued (set_fifo q d) = fifo_items q.
Proof. done. Qed.

Lemma queued_set_ready f d : queued (set_ready f d) = queued d.
Proof. done. Qed.

(** Everything but the response queue is as before. *)
Definition same_but_rpc (d d' : device) : Prop := d' = set_rpc (fun _ => d_rpc d') d.

Lemma same_but_rpc_refl d : same_but_rpc d d.
Proof. by destruct d. Qed.

Lemma same_but_rpc_trans d1 d2 d3 :
  same_but_rpc d1 d2 -> same_but_rpc d2 d3 -> same_but_rpc d1 d3.
Proof. unfold same_but_rpc. intros H1 H2. rewrite H2, H1. by destruct d1. Qed.

Lemma same_but_rpc_set f d : same_but_rpc d (set_rpc f d).
Proof. by destruct d. Qed.

(** An enqueue appends the response and signals the flusher, or reports that
    the message is too large or memory is short and leaves the queue alone. *)
Lemma wp_enqueue path msg (Q : Z -> st -> Prop) s :
  (forall w' r d', same_but_rpc (s_dev s) d' ->
     (r = 0 /\ (length msg <= POUCH_PROV_MSG_MAX)%nat /\
        queued d' = queued (s_dev s) ++ [{| rsp_path := path; rsp_msg := msg |}] /\
        sem_count (rp_ready (d_rpc d')) = 1%nat) \/
     (r < 0 /\ d' = s_dev s) ->
     Q r {| s_dev := d'; s_env := w' |}) ->
  wp (pouch_prov_rpc_enqueue path msg) Q s.
Proof.
  intros H. unfold pouch_prov_rpc_enqueue. destruct s as [d w]. simpl in *. dev_go; simpl; zbool.
  - apply H; [apply same_but_rpc_refl|]. right. by split; [vm_compute|].
  - apply H; [apply same_but_rpc_refl|]. right. by split; [vm_compute|].
  - apply H.
    + eapply same_but_rpc_trans; apply same_but_rpc_set.
    + left. split_and!; [done|done| |apply sem_count_give].
      unfold queued. simpl. by rewrite fifo_items_put.
Qed.

(** The loop visits the queue in order and leaves it empty, when the body
    does not enqueue. *)
Lemma drain_exhausts (I : list rpc_rsp -> st -> Prop) body n s :
  (forall done_ rsp s', I done_ s' ->
     wp (body rsp) (fun _ s'' => queued (s_dev s'') = queued (s_dev s') /\
            I (done_ ++ [rsp]) {| s_dev := s_dev s''; s_env := k_free (s_env s'') |}) s') ->
  (forall l s' q, I l s' -> I l {| s_dev := set_fifo q (s_dev s'); s_env := s_env s' |}) ->
  forall done_, I done_ s -> (length (queued (s_dev s)) < n)%nat ->
  wp (drain n body)
    (fun _ s' => queued (s_dev s') = [] /\ I (done_ ++ queued (s_dev s)) s') s.
Proof.
  intros Hb Hq. revert s. induction n as [|n IH]; intros s dn Hs Hn; [lia|]. simpl.
  apply wp_bind, wp_getd. destruct (queued (s_dev s)) as [|x l] eqn:E.
  - rewrite fifo_get_nil by done. simpl. apply wp_bind, wp_put, wp_ret. simpl.
    rewrite queued_set_fifo. unfold queued in E. rewrite app_nil_r. auto.
  - destruct (fifo_get_cons _ _ _ _ E) as (q' & -> & Hq'). apply wp_bind, wp_put.
    simpl. apply wp_bind. eapply wp_mono; [apply (Hb dn), Hq, Hs|].
    intros [] s2 [Hs2 HI]. simpl in Hs2. rewrite queued_set_fifo, Hq' in Hs2.
    apply wp_bind, wp_call_. simpl in *.
    eapply wp_mono; [apply (IH _ (dn ++ [x])); [exact HI|simpl; rewrite Hs2; lia]|].
    intros _ s3 [H3 H4]. simpl in H4. rewrite Hs2, <- app_assoc in H4. auto.
Qed.

Lemma drain_all_exhausts (I : list rpc_rsp -> st -> Prop) body s :
  (forall done_ rsp s', I done_ s' ->
     wp (body rsp) (fun _ s'' => queued (s_dev s'') = queued (s_dev s') /\
            I (done_ ++ [rsp]) {| s_dev := s_dev s''; s_env := k_free (s_env s'') |}) s') ->
  (forall l s' q, I l s' -> I l {| s_dev := set_fifo q (s_dev s'); s_env := s_env s' |}) ->
  I [] s ->
  wp (drain_all body) (fun _ s' => queued (s_dev s') = [] /\ I (queued (s_dev s)) s') s.
Proof.
  intros Hb Hq Hs. unfold drain_all. apply wp_bind, wp_getd.
  apply (drain_exhausts I body _ s Hb Hq [] Hs). lia.
Qed.

(** Resetting touches only the queue, and empties it. *)
Lemma wp_rpc_reset (Q : unit -> st -> Prop) s :
  (forall d' w', same_but_rpc (s_dev s) d' -> queued d' = [] ->
     sem_count (rp_ready (d_rpc d')) = 0%nat -> Q tt {| s_dev := d'; s_env := w' |}) ->
  wp pouch_prov_rpc_reset Q s.
Proof.
  intros H. unfold pouch_prov_rpc_reset. apply wp_bind.
  eapply wp_mono.
  - apply (drain_all_exhausts (fun _ s' => same_but_rpc (s_dev s) (s_dev s'))).
    + intros _ rsp s' Hs'. by apply wp_ret.
    + intros _ s' q Hs'. simpl. eapply same_but_rpc_trans; [done|apply same_but_rpc_set].
    + apply same_but_rpc_refl.
  - intros [] s' [Hq Hs']. apply wp_put. apply H.
    + eapply same_but_rpc_trans; [done|apply same_but_rpc_set].
    + by rewrite queued_set_ready.
    + apply sem_count_reset.
Qed.
End Rpc.
