(* ===== verification/Session.v ===== *)
(** * Session state and event fan-out

    The parts of dispatch.c, handlers/auth.c and manager.c that every handler
    depends on: the authorization flag, the per-connection resets, the
    configuration, and [pouch_prov_emit] with the auto-stop timer. *)

From S2P Require Import Prelude ProvTypes Platform State.

Section Session.
Context {KC : Kconfig} {K : Kernel} {P : Platform}.

(* C: manager.c pouch_prov_config_get *)
Definition pouch_prov_config_get (d : device) : pouch_prov_config := mg_config (d_mgr d).

(** ** manager.c: auto-stop and events *)

Definition set_autostop (f : k_work_delayable -> k_work_delayable) : device -> device :=
  set_mgr (fun m => {| mg_config := mg_config m; mg_initialized := mg_initialized m;
    mg_running := mg_running m; mg_events := mg_events m;
    mg_autostop_work := f (mg_autostop_work m) |}).

(* C: manager.c autostop_arm *)
Definition autostop_arm : C unit :=
  running <- get (fun d => mg_running (d_mgr d)) ;;
  mwhen running (put (set_autostop (k_work_reschedule CONFIG_POUCH_PROV_AUTOSTOP_TIMEOUT_S))).

(* C: manager.c autostop_cancel *)
Definition autostop_cancel : C unit :=
  mwhen (0 <? CONFIG_POUCH_PROV_AUTOSTOP_TIMEOUT_S)
    (put (set_autostop k_work_cancel_delayable)).

(* C: manager.c pouch_prov_emit *)
Definition pouch_prov_emit (event : pouch_prov_event) (data : option pouch_prov_fail_reason)
  : C unit :=
  cb <- get (fun d => cfg_event_cb (pouch_prov_config_get d)) ;;
  mwhen cb (call_ (event_cb event data)) ;;;
  mwhen (0 <? CONFIG_POUCH_PROV_AUTOSTOP_TIMEOUT_S)
    (if CONFIG_POUCH_PROV_WIFI
     then mwhen (bool_decide (event = POUCH_PROV_EVENT_WIFI_CONNECTED)) autostop_arm
     else mwhen (CONFIG_POUCH_PROV_CRED &&
                 bool_decide (event = POUCH_PROV_EVENT_CLOUD_CRED_STORED)) autostop_arm).

(** ** dispatch.c and auth.c: the session *)

(* C: dispatch.c pouch_prov_session_authorized *)
Definition pouch_prov_session_authorized (d : device) : bool :=
  d_authorized d ||
  match cfg_pop (pouch_prov_config_get d) with None => true | Some _ => false end.

(* C: dispatch.c pouch_prov_session_set_authorized *)
Definition pouch_prov_session_set_authorized (b : bool) : C unit := put (set_authorized b).

(* C: auth.c pouch_prov_auth_reset *)
Definition pouch_prov_auth_reset : C unit := put (set_auth (fun _ => auth_zero)).

Definition clear_endpoint : device -> device :=
  set_active (fun a => {| act_endpoint := None; act_len := act_len a;
    act_overflow := act_overflow a; act_buf := act_buf a |}).

(* C: dispatch.c pouch_prov_dispatch_reset *)
Definition pouch_prov_dispatch_reset : C unit :=
  put clear_endpoint ;;;
  put (set_authorized false) ;;;
  mwhen CONFIG_POUCH_PROV_AUTH pouch_prov_auth_reset.

(** ** Lemmas *)

(** Emitting an event changes nothing of the device but the auto-stop timer. *)
Lemma wp_emit ev data (Q : unit -> st -> Prop) s :
  (forall f, Q tt {| s_dev := set_autostop f (s_dev s);
     s_env := if cfg_event_cb (pouch_prov_config_get (s_dev s))
              then event_cb ev data (s_env s) else s_env s |}) ->
  wp (pouch_prov_emit ev data) Q s.
Proof.
  intros H. destruct s as [d w]. simpl in *.
  assert (Hid : forall w', Q tt {| s_dev := d; s_env := w' |} =
    Q tt {| s_dev := set_autostop (fun x => x) d; s_env := w' |}).
  { intros w'. destruct d as [? ? ? ? ? ? ? ? ? m]. by destruct m. }
  unfold pouch_prov_emit, autostop_arm. apply wp_bind, wp_getd. apply wp_bind. simpl.
  destruct (cfg_event_cb _); simpl; [apply wp_call_|apply wp_ret];
    simpl; dev_go; simpl; try rewrite Hid; apply H.
Qed.

(** After a reset the session is unauthorized, no request is being assembled
    and no challenge is outstanding. *)
Definition after_dispatch_reset (d : device) : device :=
  let d' := set_authorized false (clear_endpoint d) in
  if CONFIG_POUCH_PROV_AUTH then set_auth (fun _ => auth_zero) d' else d'.

Lemma wp_dispatch_reset (Q : unit -> st -> Prop) s :
  Q tt {| s_dev := after_dispatch_reset (s_dev s); s_env := s_env s |} ->
  wp pouch_prov_dispatch_reset Q s.
Proof.
  unfold pouch_prov_dispatch_reset, after_dispatch_reset, pouch_prov_auth_reset.
  intros H. apply wp_bind, wp_put, wp_bind, wp_put. apply wp_when; intros E;
    rewrite E in H; [by apply wp_put|done].
Qed.
End Session.
