(* ===== verification/Auth.v ===== *)
(** * Proof-of-possession authorization (src/src/handlers/auth.c)

    The mutual HMAC challenge of .prov/auth.  [PsaHmac] states what the PSA
    calls compute; the theorems about proofs use it.  A null [pop] reaches
    [strlen] and is undefined behaviour. *)

From S2P Require Import Prelude ProvTypes Zcbor Schema Codec Platform State Session.

(** The documented behaviour of the PSA MAC interface, for HMAC-SHA256. *)
Class PsaHmac (P : Platform) : Type := {
  hmac_sha256 : list byte -> list byte -> list byte;    (**r key, message *)
  key_material : W -> Z -> option (list byte);
  mac_absorbed : psa_mac_operation_t -> list byte * list byte;   (**r key, message so far *)
  hmac_length k m : length (hmac_sha256 k m) = 32%nat;
  psa_import_law k w id w' :
    psa_import_key PSA_HMAC_SIGN k w = ((PSA_SUCCESS, id), w') -> key_material w' id = Some k;
  psa_setup_law id k w op w' :
    key_material w id = Some k ->
    psa_mac_sign_setup id w = ((PSA_SUCCESS, op), w') -> mac_absorbed op = (k, []);
  psa_update_law op k m x w op' w' :
    mac_absorbed op = (k, m) ->
    psa_mac_update op x w = ((PSA_SUCCESS, op'), w') -> mac_absorbed op' = (k, m ++ x);
  psa_finish_law op k m n w out w' :
    mac_absorbed op = (k, m) ->
    psa_mac_sign_finish op n w = ((PSA_SUCCESS, out), w') -> out = hmac_sha256 k m;
}.

Section Auth.
Context {KC : Kconfig} {K : Kernel} {P : Platform} {CD : Codec}.

Definition set_cli_nonce (n : list byte) : device -> device :=
  set_auth (fun a => {| au_cli_nonce := n; au_dev_nonce := au_dev_nonce a;
    au_challenged := au_challenged a; au_attempts := au_attempts a |}).
Definition set_dev_nonce (n : list byte) : device -> device :=
  set_auth (fun a => {| au_cli_nonce := au_cli_nonce a; au_dev_nonce := n;
    au_challenged := au_challenged a; au_attempts := au_attempts a |}).
Definition set_challenged : device -> device :=
  set_auth (fun a => {| au_cli_nonce := au_cli_nonce a; au_dev_nonce := au_dev_nonce a;
    au_challenged := true; au_attempts := au_attempts a |}).
Definition set_attempts (n : Z) : device -> device :=
  set_auth (fun a => {| au_cli_nonce := au_cli_nonce a; au_dev_nonce := au_dev_nonce a;
    au_challenged := au_challenged a; au_attempts := n |}).

(** The three updates of the MAC operation, up to the first failure. *)
(* C: auth.c 69-74 hmac_proof *)
Fixpoint mac_updates (op : psa_mac_operation_t) (xs : list (list byte))
  : C (bool * psa_mac_operation_t) :=
  match xs with
  | [] => mret (true, op)
  | x :: xs' =>
      let* (status, op') := call (psa_mac_update op x) in
      if status =? PSA_SUCCESS then mac_updates op' xs' else mret (false, op')
  end.

(** [Some proof] when it returns 0, [None] for -EIO. *)
(* C: auth.c hmac_proof *)
Definition hmac_proof (tag : string) (first second : list byte) : C (option (list byte)) :=
  pop <- get (fun d => cfg_pop (pouch_prov_config_get d)) ;;
  match pop with
  | None => mub                                     (* strlen(NULL) *)
  | Some pop =>
      let* (status, key) := call (psa_import_key PSA_HMAC_SIGN pop) in
      if negb (status =? PSA_SUCCESS) then mret None else
      let* (status, op) := call (psa_mac_sign_setup key) in
      if negb (status =? PSA_SUCCESS) then
        call_ (psa_destroy_key key) ;;; mret None
      else
      let* (ok, op) := mac_updates op [take 3 (str tag); first; second] in
      if negb ok then
        call_ (psa_mac_abort op) ;;; call_ (psa_destroy_key key) ;;; mret None
      else
      let* (status, out) := call (psa_mac_sign_finish op PROOF_LEN) in
      call_ (psa_destroy_key key) ;;;
      mret (if (status =? PSA_SUCCESS) && (length out =? PROOF_LEN)%nat then Some out else None)
  end.

(* C: auth.c respond_status *)
Definition respond_status (status : prov_status_r) (rsp_size : nat) : C hres :=
  mret (enc_result (cbor_encode_auth_rsp rsp_size
    (auth_rsp_auth_proof_rsp_m {| auth_proof_rsp_prov_status_m := status |}))).

(** [for (i) diff |= expected[i] ^ proof->value[i]] *)
(* C: auth.c 158-162 pouch_prov_handle_auth *)
Fixpoint ct_diff (diff : Z) (expected proof : list byte) : Z :=
  match expected, proof with
  | e :: es, p :: ps => ct_diff (Z.lor diff (Z.lxor (b2z e) (b2z p))) es ps
  | _, _ => diff
  end.

(* C: auth.c 106-136 pouch_prov_handle_auth *)
Definition handle_challenge (c : auth_challenge) (rsp_size : nat) : C hres :=
  let nonce := auth_challenge_cli_nonce c in
  if negb (length nonce =? NONCE_LEN)%nat then mret (HErr (- EBADMSG)) else
  put (set_cli_nonce nonce) ;;;
  dev_nonce <- call (sys_rand_get NONCE_LEN) ;;
  put (set_dev_nonce dev_nonce) ;;;
  put set_challenged ;;;
  a <- get d_auth ;;
  proof <- hmac_proof "dev" (au_cli_nonce a) (au_dev_nonce a) ;;
  match proof with
  | None => mret (HErr (- EIO))
  | Some proof =>
      mret (enc_result (cbor_encode_auth_rsp rsp_size
        (auth_rsp_auth_challenge_rsp_m {|
           auth_challenge_rsp_prov_status_m := prov_status_status_ok_m_c;
           auth_challenge_rsp_dev_nonce := dev_nonce;
           auth_challenge_rsp_dev_proof := proof |})))
  end.

(* C: auth.c 138-172 pouch_prov_handle_auth *)
Definition handle_proof (p : auth_proof) (rsp_size : nat) : C hres :=
  let proof := auth_proof_cli_proof p in
  challenged <- get (fun d => au_challenged (d_auth d)) ;;
  if negb challenged || negb (length proof =? PROOF_LEN)%nat then
    respond_status prov_status_status_invalid_state_m_c rsp_size
  else
  attempts <- get (fun d => u8 (au_attempts (d_auth d) + 1)) ;;
  put (set_attempts attempts) ;;;
  if MAX_ATTEMPTS <? attempts then
    respond_status prov_status_status_unauthorized_m_c rsp_size
  else
  a <- get d_auth ;;
  expected <- hmac_proof "cli" (au_dev_nonce a) (au_cli_nonce a) ;;
  match expected with
  | None => mret (HErr (- EIO))
  | Some expected =>
      if negb (ct_diff 0 expected proof =? 0) then
        respond_status prov_status_status_unauthorized_m_c rsp_size
      else
        pouch_prov_session_set_authorized true ;;;
        respond_status prov_status_status_ok_m_c rsp_size
  end.

(* C: auth.c pouch_prov_handle_auth *)
Definition pouch_prov_handle_auth (req : list byte) (rsp_size : nat) : C hres :=
  match cbor_decode_auth_req req with
  | None => mret (HErr (- EBADMSG))
  | Some (auth_req_auth_challenge_m c) => handle_challenge c rsp_size
  | Some (auth_req_auth_proof_m p) => handle_proof p rsp_size
  end.

(** ** Lemmas *)

(** The accumulated difference is zero exactly when every byte agrees. *)
Lemma ct_diff_zero diff a b :
  0 <= diff -> length a = length b -> ct_diff diff a b = 0 <-> diff = 0 /\ a = b.
Proof.
  revert diff b. induction a as [|x a IH]; intros diff [|y b] Hd Hl; simplify_eq/=; [intuition|].
  assert (Hx : 0 <= Z.lxor (b2z x) (b2z y)).
  { apply Z.lxor_nonneg. pose proof (b2z_range x). pose proof (b2z_range y).
    unfold in_u8 in *. lia. }
  rewrite IH by (try apply Z.lor_nonneg; auto).
  rewrite Z.lor_eq_0_iff, Z.lxor_eq_0_iff.
  split.
  - intros [[-> E] ->]. by apply b2z_inj in E as ->.
  - intros [-> [= -> ->]]. auto.
Qed.

Lemma wp_mac_updates_dev op xs (Q : bool * psa_mac_operation_t -> st -> Prop) s :
  (forall r w, Q r {| s_dev := s_dev s; s_env := w |}) -> wp (mac_updates op xs) Q s.
Proof.
  revert op s. induction xs as [|x xs IH]; intros op [d w] H; cbn [mac_updates] in *; [apply wp_ret, H|].
  dev_go; cbn [s_dev] in *; [apply IH; cbn [s_dev]; apply H|apply H].
Qed.

(** [hmac_proof] only calls the platform; it needs a PoP secret. *)
Lemma wp_hmac_dev tag x y (Q : option (list byte) -> st -> Prop) s :
  cfg_pop (pouch_prov_config_get (s_dev s)) <> None ->
  (forall r w, (forall out, r = Some out -> length out = PROOF_LEN) ->
     Q r {| s_dev := s_dev s; s_env := w |}) ->
  wp (hmac_proof tag x y) Q s.
Proof.
  intros Hp H. unfold hmac_proof. apply wp_bind, wp_getd. destruct s as [d w]. cbn [s_dev] in *.
  destruct (cfg_pop _) as [pop|]; [|done].
  dev_go; try (by apply H). apply wp_mac_updates_dev. intros [ok op'] w'. cbn [s_dev].
  dev_go; apply H; intros out' E; try done. destruct (_ && _) eqn:E'; [|done].
  zbool. by simplify_eq.
Qed.

Context {PH : PsaHmac P}.

Lemma wp_mac_updates op k m xs s :
  mac_absorbed op = (k, m) ->
  wp (mac_updates op xs)
    (fun r s' => s_dev s' = s_dev s /\ (r.1 = true -> mac_absorbed r.2 = (k, m ++ concat xs))) s.
Proof.
  revert op m s. induction xs as [|x xs IH]; intros op m [d w] H; cbn [mac_updates concat].
  - apply wp_ret. by rewrite app_nil_r.
  - dev_go; [|by split].
    zbool. subst. eapply wp_mono; [apply IH; by eapply psa_update_law|].
    intros r s' [H1 H2]. split; [done|]. by rewrite app_assoc.
Qed.

(** A computed proof is the HMAC of tag, first and second nonce under the PoP. *)
Lemma wp_hmac_proof tag x y pop s :
  cfg_pop (pouch_prov_config_get (s_dev s)) = Some pop ->
  wp (hmac_proof tag x y)
    (fun r s' => s_dev s' = s_dev s /\
       (forall out, r = Some out -> out = hmac_sha256 pop (take 3 (str tag) ++ x ++ y))) s.
Proof.
  intros Hp. unfold hmac_proof. apply wp_bind, wp_getd. rewrite Hp. destruct s as [d w].
  dev_go; try (by split). zbool. subst.
  eapply wp_mono.
  { apply wp_mac_updates. eapply psa_setup_law; [by eapply psa_import_law|done]. }
  intros [ok op'] [d' w'] [Hd Ho]. simpl in *. subst.
  dev_go; split; try done. intros out'.
  destruct (_ && _) eqn:E; [|done]. zbool. subst. intros [= <-].
  specialize (Ho eq_refl). rewrite app_nil_r in Ho.
  by eapply psa_finish_law in Ho.
Qed.
End Auth.
