(* ===== verification/CredStore.v ===== *)
(** * Cloud credential store (src/src/cred_store.c)

    Three blobs (device certificate, private key, CA certificate), staged in
    ordered chunks and persisted on finalize.  Indexing the blob array out of
    bounds and copying past a buffer are undefined behaviour; [store_wf] is the
    invariant that rules both out. *)

From S2P Require Import Prelude ProvTypes Platform State Session.

(* C: credentials.h pouch_prov_cred_kind *)
Definition POUCH_PROV_CRED_DEVICE_CERT : Z := 0.
Definition POUCH_PROV_CRED_PRIVATE_KEY : Z := 1.
Definition POUCH_PROV_CRED_CA_CERT : Z := 2.

(* C: cred_store.c 24-26 DEVICE_CERT_MAX *)
Definition DEVICE_CERT_MAX : nat := 2048.
Definition PRIVATE_KEY_MAX : nat := 512.
Definition CA_CERT_MAX : nat := 2048.

Definition blob_empty (cap : nat) : blob :=
  {| b_buf := zeros cap; b_cap := cap; b_len := 0; b_staged := 0; b_expected := 0 |}.

(* C: cred_store.c 36-44 blobs *)
Definition blobs_init : list blob :=
  [blob_empty DEVICE_CERT_MAX; blob_empty PRIVATE_KEY_MAX; blob_empty CA_CERT_MAX].

(* C: cred_store.c 46-50 setting_key *)
Definition setting_key : list string := ["pnp/cred/cert"; "pnp/cred/key"; "pnp/cred/ca"].

(** [setting_key[k] + strlen("pnp/cred/")] *)
Definition setting_leaf : list string := ["cert"; "key"; "ca"].

(* C: cred_store.c kind_valid *)
Definition kind_valid (kind : Z) : bool := (0 <=? kind) && (kind <? 3).

Definition byte_at (buf : list byte) (i : nat) : Z := b2z (nth i buf x00).

(** The length loop: [content = (content << 8) | buf[2 + i]]. *)
(* C: cred_store.c 76-80 der_sequence_len_ok *)
Fixpoint der_content (buf : list byte) (i n : nat) (content : Z) : Z :=
  match n with
  | O => content
  | S n' => der_content buf (S i) n' (u32 (Z.lor (Z.shiftl content 8) (byte_at buf (2 + i))))
  end.

(** Sizes are 32 bits wide on the targets. *)
(* C: cred_store.c der_sequence_len_ok *)
Definition der_sequence_len_ok (buf : list byte) (len : nat) : bool :=
  if (len <? 4)%nat || negb (byte_at buf 0 =? 48) then false else
  let lb := byte_at buf 1 in
  if Z.land lb 128 =? 0 then u32 (lb + 2) =? Z.of_nat len else
  let nbytes := Z.to_nat (Z.land lb 127) in
  if ((nbytes =? 0) || (4 <? nbytes) || (len <? 2 + nbytes))%nat then false else
  u32 (der_content buf 0 nbytes 0 + 2 + Z.of_nat nbytes) =? Z.of_nat len.

Section CredStore.
Context {KC : Kconfig} {K : Kernel} {P : Platform}.

(** [blobs[k]], read and written. *)
Definition get_blob (k : nat) : C blob :=
  bs <- get d_blobs ;;
  match bs !! k with Some b => mret b | None => mub end.
Definition set_blob (k : nat) (b : blob) : C unit := put (set_blobs (fun bs => <[k := b]> bs)).

(** The fields assigned in place. *)
Definition with_staged (n : nat) (b : blob) : blob :=
  {| b_buf := b_buf b; b_cap := b_cap b; b_len := b_len b; b_staged := n;
     b_expected := b_expected b |}.
Definition with_expected (n : nat) (b : blob) : blob :=
  {| b_buf := b_buf b; b_cap := b_cap b; b_len := b_len b; b_staged := b_staged b;
     b_expected := n |}.
Definition with_len (n : nat) (b : blob) : blob :=
  {| b_buf := b_buf b; b_cap := b_cap b; b_len := n; b_staged := b_staged b;
     b_expected := b_expected b |}.
Definition with_buf (l : list byte) (b : blob) : blob :=
  {| b_buf := l; b_cap := b_cap b; b_len := b_len b; b_staged := b_staged b;
     b_expected := b_expected b |}.

(** Settings callback; [read_cb n] reads at most [n] bytes of the stored value
    and returns their count, or a negative error. *)
(* C: cred_store.c 88-105 cred_set *)
Fixpoint cred_set_from (k : nat) (leaves : list string) (name : string) (len : nat)
    (read_cb : nat -> Z * list byte) : C Z :=
  match leaves with
  | [] => mret (- ENOENT)
  | leaf :: leaves' =>
      if negb (String.eqb name leaf) then cred_set_from (S k) leaves' name len read_cb else
      b <- get_blob k ;;
      if (b_cap b <? len)%nat then mret (- EINVAL) else
      let '(rc, data) := read_cb (b_cap b) in
      mguard (buf_fits 0 data (b_buf b)) ;;;
      set_blob k (with_buf (buf_write 0 data (b_buf b)) b) ;;;
      if rc <? 0 then mret rc else
      b' <- get_blob k ;;
      set_blob k (with_len (Z.to_nat rc) b') ;;;
      mret 0
  end.

(* C: cred_store.c cred_set *)
Definition cred_set (name : string) (len : nat) (read_cb : nat -> Z * list byte) : C Z :=
  cred_set_from 0 setting_leaf name len read_cb.

(* C: cred_store.c pouch_prov_cred_stage *)
Definition pouch_prov_cred_stage (kind offset total : Z) (data : list byte) : C Z :=
  if negb (kind_valid kind) then mret (- EINVAL) else
  let k := Z.to_nat kind in
  b <- get_blob k ;;
  if Z.of_nat (b_cap b) <? total then mret (- EMSGSIZE) else
  mwhen (offset =? 0) (set_blob k (with_expected (Z.to_nat total) (with_staged 0 b))) ;;;
  b <- get_blob k ;;
  if negb (offset =? Z.of_nat (b_staged b)) ||
     (b_expected b <? b_staged b + length data)%nat
  then mret (- EINVAL) else
  mguard (buf_fits (b_staged b) data (b_buf b)) ;;;
  set_blob k (with_staged (b_staged b + length data)
               (with_buf (buf_write (b_staged b) data (b_buf b)) b)) ;;;
  mret (Z.of_nat (b_staged b + length data)).

(** [staged != 0 && staged == expected] *)
(* C: cred_store.c 143-144 pouch_prov_cred_finalize *)
Definition blob_complete (b : blob) : bool :=
  negb (b_staged b =? 0)%nat && (b_staged b =? b_expected b)%nat.

(** The persist loop: 0, or -EIO at the first failed save. *)
(* C: cred_store.c 159-173 pouch_prov_cred_finalize *)
Fixpoint persist_from (k : nat) (keys : list string) : C Z :=
  match keys with
  | [] => mret 0
  | key :: keys' =>
      b <- get_blob k ;;
      if negb (blob_complete b) then persist_from (S k) keys' else
      err <- call (settings_save_one key (take (b_staged b) (b_buf b))) ;;
      if negb (err =? 0) then mret (- EIO) else
      set_blob k (with_len (b_staged b) b) ;;;
      persist_from (S k) keys'
  end.

(* C: cred_store.c pouch_prov_cred_finalize *)
Definition pouch_prov_cred_finalize : C Z :=
  cert <- get_blob (Z.to_nat POUCH_PROV_CRED_DEVICE_CERT) ;;
  key <- get_blob (Z.to_nat POUCH_PROV_CRED_PRIVATE_KEY) ;;
  if negb (blob_complete cert) || negb (blob_complete key) then mret (- EINVAL) else
  if negb (der_sequence_len_ok (b_buf cert) (b_staged cert)) then mret (- EBADMSG) else
  rc <- persist_from 0 setting_key ;;
  if negb (rc =? 0) then mret rc else
  pouch_prov_emit POUCH_PROV_EVENT_CLOUD_CRED_STORED None ;;;
  mret 0.

(* C: cred_store.c pouch_prov_cred_received *)
Definition pouch_prov_cred_received (kind : Z) : C nat :=
  if kind_valid kind then b <- get_blob (Z.to_nat kind) ;; mret (b_staged b) else mret 0%nat.

(* C: cred_store.c pouch_prov_cred_present *)
Definition pouch_prov_cred_present (kind : Z) : C bool :=
  if kind_valid kind then b <- get_blob (Z.to_nat kind) ;; mret (0 <? b_len b)%nat
  else mret false.

(** The bytes the returned pointer and length delimit, or NULL. *)
(* C: cred_store.c pouch_prov_cred_get *)
Definition pouch_prov_cred_get (kind : Z) : C (option (list byte)) :=
  present <- pouch_prov_cred_present kind ;;
  if negb present then mret None else
  b <- get_blob (Z.to_nat kind) ;;
  mret (Some (take (b_len b) (b_buf b))).

(* C: cred_store.c 204-209 pouch_prov_cred_delete_all *)
Fixpoint delete_from (k : nat) (keys : list string) : C unit :=
  match keys with
  | [] => mret tt
  | key :: keys' =>
      err <- call (settings_delete key) ;;
      b <- get_blob k ;;
      set_blob k (with_expected 0 (with_staged 0 (with_len 0 b))) ;;;
      delete_from (S k) keys'
  end.

(* C: cred_store.c pouch_prov_cred_delete_all *)
Definition pouch_prov_cred_delete_all : C Z := delete_from 0 setting_key ;;; mret 0.

(** ** The store's invariant *)

Definition blob_wf (b : blob) : Prop :=
  length (b_buf b) = b_cap b /\ (b_staged b <= b_expected b)%nat /\
  (b_expected b <= b_cap b)%nat /\ (b_len b <= b_cap b)%nat.

Definition store_caps : list nat := [DEVICE_CERT_MAX; PRIVATE_KEY_MAX; CA_CERT_MAX].

Definition store_wf (bs : list blob) : Prop :=
  map b_cap bs = store_caps /\ (forall k b, bs !! k = Some b -> blob_wf b).

(** Bytes received so far of a kind. *)
Definition staged_bytes (b : blob) : list byte := take (b_staged b) (b_buf b).

Lemma blob_wf_empty cap : blob_wf (blob_empty cap).
Proof. unfold blob_wf, blob_empty, zeros. simpl. rewrite length_replicate. lia. Qed.

Lemma store_wf_init : store_wf blobs_init.
Proof.
  split; [done|]. unfold blobs_init. intros k b H.
  destruct k as [|[|[|k]]]; cbn [lookup list_lookup] in H; simplify_eq; apply blob_wf_empty.
Qed.

Lemma store_wf_length bs : store_wf bs -> length bs = 3%nat.
Proof. intros [H _]. rewrite <- (length_map b_cap), H. done. Qed.

Lemma store_wf_lookup bs k :
  store_wf bs -> (k < 3)%nat -> exists b, bs !! k = Some b /\ blob_wf b.
Proof.
  intros Hw Hk. pose proof (store_wf_length bs Hw).
  destruct (lookup_lt_is_Some_2 bs k) as [b Hb]; [lia|]. exists b. split; [done|].
  by eapply Hw.
Qed.

Lemma store_wf_insert bs k b b' :
  store_wf bs -> bs !! k = Some b -> blob_wf b' -> b_cap b' = b_cap b ->
  store_wf (<[k := b']> bs).
Proof.
  intros [Hc Hw] Hk Hb' Hcap. split.
  - change (b_cap <$> <[k := b']> bs = store_caps). rewrite list_fmap_insert, Hcap.
    change (b_cap <$> bs = store_caps) in Hc. rewrite <- Hc.
    apply list_insert_id. by rewrite list_lookup_fmap, Hk.
  - intros j c Hj. destruct (decide (k = j)) as [->|Hne].
    + rewrite list_lookup_insert_eq in Hj by (by eapply lookup_lt_Some). by simplify_eq.
    + rewrite list_lookup_insert_ne in Hj by done. by eapply Hw.
Qed.

Lemma kind_valid_lt kind : kind_valid kind = true -> (Z.to_nat kind < 3)%nat /\ 0 <= kind.
Proof. unfold kind_valid. intros. zbool. lia. Qed.

Lemma wp_get_blob k b (Q : blob -> st -> Prop) s :
  d_blobs (s_dev s) !! k = Some b -> Q b s -> wp (get_blob k) Q s.
Proof. intros Hk H. unfold get_blob. apply wp_bind, wp_getd. by rewrite Hk. Qed.

Lemma set_blobs_set_blobs f g d : set_blobs f (set_blobs g d) = set_blobs (fun b => f (g b)) d.
Proof. done. Qed.

(** Everything but the blobs is as before. *)
Definition with_blobs (bs : list blob) (s : st) : st :=
  {| s_dev := set_blobs (fun _ => bs) (s_dev s); s_env := s_env s |}.
End CredStore.
