(* ===== verification/CredHandler.v ===== *)
(** * The .prov/cred endpoint (src/src/handlers/cred.c) *)

From S2P Require Import Prelude ProvTypes Zcbor Schema Codec Platform State Session CredStore.

Section CredHandler.
Context {KC : Kconfig} {K : Kernel} {P : Platform} {CD : Codec}.

(* C: cred.c status_map *)
Definition status_map (rc : Z) : prov_status_r :=
  if rc =? 0 then prov_status_status_ok_m_c
  else if (rc =? - EINVAL) || (rc =? - EMSGSIZE) || (rc =? - EBADMSG)
  then prov_status_status_invalid_argument_m_c
  else prov_status_status_internal_error_m_c.

(** The status loop over the kinds: an entry for each with bytes received. *)
(* C: cred.c 87-98 pouch_prov_handle_cred *)
Fixpoint cred_status_entries (ks : list Z) : C (list map_tstruint_r) :=
  match ks with
  | [] => mret []
  | k :: ks' =>
      got <- pouch_prov_cred_received k ;;
      rest <- cred_status_entries ks' ;;
      mret (if (got =? 0)%nat then rest else
            {| cred_status_rsp_map_tstruint_key := [z2b (48 + k)];
               map_tstruint := Z.of_nat got |} :: rest)
  end.

(* C: cred.c 50-66 pouch_prov_handle_cred *)
Definition handle_cred_write (c : cred_chunk) (rsp_size : nat) : C hres :=
  rc <- pouch_prov_cred_stage (cred_kind_val (cred_chunk_kind c)) (cred_chunk_off c)
          (cred_chunk_total c) (cred_chunk_data c) ;;
  mret (enc_result (cbor_encode_cred_rsp rsp_size
    (cred_rsp_cred_write_rsp_m {|
       cred_write_rsp_prov_status_m := status_map (if rc <? 0 then rc else 0);
       cred_write_rsp_received := if rc <? 0 then 0 else u32 rc |}))).

(* C: cred.c pouch_prov_handle_cred *)
Definition pouch_prov_handle_cred (req : list byte) (rsp_size : nat) : C hres :=
  match cbor_decode_cred_req req with
  | None => mret (HErr (- EBADMSG))
  | Some (cred_req_cred_write_m w) => handle_cred_write (cred_write_cred_chunk_m w) rsp_size
  | Some cred_req_cred_finalize_m =>
      rc <- pouch_prov_cred_finalize ;;
      mret (enc_result (cbor_encode_cred_rsp rsp_size
        (cred_rsp_cred_finalize_rsp_m {| cred_finalize_rsp_prov_status_m := status_map rc |})))
  | Some cred_req_cred_get_status_m =>
      m <- cred_status_entries [0; 1; 2] ;;
      mret (enc_result (cbor_encode_cred_rsp rsp_size
        (cred_rsp_cred_status_rsp_m {|
           cred_status_rsp_prov_status_m := prov_status_status_ok_m_c;
           cred_status_rsp_map := m |})))
  end.
End CredHandler.
