(* ===== verification/WifiScan.v ===== *)
(** * The .prov/scan endpoint (src/src/handlers/wifi_scan.c)

    A cache of scan results filled by network events and read out in pages.
    The page loop's fuel is the page bound; [page_loop_window] (ScanSpec.v) shows
    that it is enough. *)

From S2P Require Import Prelude ProvTypes Zcbor Schema Codec Platform State Session.

(* C: wifi_scan.c 26-28 PAGE_MAX *)
Definition PAGE_MAX : nat := 6.

Definition ap_zero : ap_entry :=
  {| ap_ssid := zeros WIFI_SSID_MAX_LEN; ap_ssid_len := 0; ap_bssid := zeros WIFI_MAC_ADDR_LEN;
     ap_channel := 0; ap_rssi := 0; ap_auth := 0 |}.

Section WifiScan.
Context {KC : Kconfig} {K : Kernel} {P : Platform} {CD : Codec}.

(* C: wifi_scan.c 25 SCAN_MAX *)
Definition SCAN_MAX : nat := CONFIG_POUCH_PROV_SCAN_CACHE.

Definition scan_init : scan_t :=
  {| sc_entries := replicate SCAN_MAX ap_zero; sc_count := 0; sc_finished := false;
     sc_cb_registered := false |}.

Definition set_finished (b : bool) : device -> device :=
  set_scan (fun s => {| sc_entries := sc_entries s; sc_count := sc_count s;
    sc_finished := b; sc_cb_registered := sc_cb_registered s |}).
Definition set_count (n : nat) : device -> device :=
  set_scan (fun s => {| sc_entries := sc_entries s; sc_count := n;
    sc_finished := sc_finished s; sc_cb_registered := sc_cb_registered s |}).
Definition set_entry (i : nat) (e : ap_entry) : device -> device :=
  set_scan (fun s => {| sc_entries := <[i := e]> (sc_entries s); sc_count := sc_count s;
    sc_finished := sc_finished s; sc_cb_registered := sc_cb_registered s |}).

(** The entry as rewritten by a result; bytes of the SSID array past the new
    length stay. *)
(* C: wifi_scan.c 54-61 on_result *)
Definition entry_of_result (r : wifi_scan_result) (e : ap_entry) : ap_entry :=
  let n := Nat.min (sr_ssid_length r) WIFI_SSID_MAX_LEN in
  {| ap_ssid := buf_write 0 (take n (sr_ssid r)) (ap_ssid e); ap_ssid_len := n;
     ap_bssid := sr_mac r; ap_channel := u8 (sr_channel r); ap_rssi := sr_rssi r;
     ap_auth := u32 (sr_security r) |}.

(* C: wifi_scan.c on_result *)
Definition on_result (r : wifi_scan_result) : C unit :=
  count <- get (fun d => sc_count (d_scan d)) ;;
  if (SCAN_MAX <=? count)%nat then mret tt else
  entries <- get (fun d => sc_entries (d_scan d)) ;;
  match entries !! count with
  | None => mub
  | Some e =>
      put (set_count (S count)) ;;;
      put (set_entry count (entry_of_result r e))
  end.

(** The events the callback is registered for. *)
Inductive scan_event : Type :=
| NET_EVENT_WIFI_SCAN_RESULT (r : wifi_scan_result)
| NET_EVENT_WIFI_SCAN_DONE.

(* C: wifi_scan.c mgmt_event *)
Definition scan_mgmt_event (ev : scan_event) : C unit :=
  match ev with
  | NET_EVENT_WIFI_SCAN_RESULT r => on_result r
  | NET_EVENT_WIFI_SCAN_DONE => put (set_finished true)
  end.

(* C: wifi_scan.c pouch_prov_wifi_scan_init *)
Definition pouch_prov_wifi_scan_init : C Z :=
  reg <- get (fun d => sc_cb_registered (d_scan d)) ;;
  mwhen (negb reg)
    (call_ net_mgmt_add_event_callback ;;;
     put (set_scan (fun s => {| sc_entries := sc_entries s; sc_count := sc_count s;
       sc_finished := sc_finished s; sc_cb_registered := true |}))) ;;;
  mret 0.

(** [net_if_get_wifi_sta()], or the first Wi-Fi interface. *)
(* C: wifi_scan.c 92-96 do_start *)
Definition scan_iface (w : W) : option Z :=
  match net_if_get_wifi_sta w with
  | Some i => Some i
  | None => net_if_get_first_wifi w
  end.

(* C: wifi_scan.c do_start *)
Definition do_start : C prov_status_r :=
  iface <- ask scan_iface ;;
  match iface with
  | None => mret prov_status_status_internal_error_m_c
  | Some iface =>
      put (set_count 0) ;;;
      put (set_finished false) ;;;
      err <- call (net_mgmt_wifi_scan iface) ;;
      if negb (err =? 0) then
        put (set_finished true) ;;;
        mret prov_status_status_internal_error_m_c
      else mret prov_status_status_ok_m_c
  end.

(* C: wifi_scan.c 123-132 encode_results *)
Definition scan_entry_of (e : ap_entry) : scan_entry :=
  {| scan_entry_ssid := take (ap_ssid_len e) (ap_ssid e);
     scan_entry_bssid := take WIFI_MAC_ADDR_LEN (ap_bssid e);
     scan_entry_ch := ap_channel e;
     scan_entry_rssi := ap_rssi e;
     scan_entry_auth := ap_auth e |}.

(** [for (i = start; i < sc.count && n < want && n < PAGE_MAX; i++, n++)];
    [None] is a read past the entries. *)
(* C: wifi_scan.c 120-134 encode_results *)
Fixpoint page_loop (fuel : nat) (entries : list ap_entry) (count : nat) (i want : Z) (n : nat)
  : option (list scan_entry) :=
  match fuel with
  | O => Some []
  | S fuel' =>
      if (i <? Z.of_nat count) && (Z.of_nat n <? want) && (n <? PAGE_MAX)%nat then
        match entries !! Z.to_nat i with
        | None => None
        | Some e =>
            match page_loop fuel' entries count (u32 (i + 1)) want (S n) with
            | Some l => Some (scan_entry_of e :: l)
            | None => None
            end
        end
      else Some []
  end.

(* C: wifi_scan.c encode_results *)
Definition encode_results (start want : Z) (rsp_size : nat) : C hres :=
  s <- get d_scan ;;
  match page_loop (S PAGE_MAX) (sc_entries s) (sc_count s) start want 0 with
  | None => mub
  | Some l =>
      mret (enc_result (cbor_encode_scan_rsp rsp_size
        (scan_rsp_scan_results_rsp_m {|
           scan_results_rsp_prov_status_m := prov_status_status_ok_m_c;
           scan_results_rsp_scan_entry_m_l_scan_entry_m := l |})))
  end.

(* C: wifi_scan.c pouch_prov_handle_scan *)
Definition pouch_prov_handle_scan (req : list byte) (rsp_size : nat) : C hres :=
  match cbor_decode_scan_req req with
  | None => mret (HErr (- EBADMSG))
  | Some (scan_req_scan_start_m _) =>
      status <- do_start ;;
      mret (enc_result (cbor_encode_scan_rsp rsp_size
        (scan_rsp_scan_start_rsp_m {| scan_start_rsp_prov_status_m := status |})))
  | Some scan_req_scan_get_status_m =>
      s <- get d_scan ;;
      mret (enc_result (cbor_encode_scan_rsp rsp_size
        (scan_rsp_scan_status_rsp_m {|
           scan_status_rsp_prov_status_m := prov_status_status_ok_m_c;
           scan_status_rsp_finished := sc_finished s;
           scan_status_rsp_total := u32 (Z.of_nat (sc_count s)) |})))
  | Some (scan_req_scan_get_results_m g) =>
      encode_results (scan_get_results_start g) (scan_get_results_count g) rsp_size
  end.
End WifiScan.
