(* ===== verification/WifiConfig.v ===== *)
(** * The .prov/config endpoint (src/src/handlers/wifi_config.c)

    Staging, applying and polling of the Wi-Fi configuration, with the
    asynchronous connection state machine behind it: connect results and the
    retry work item arrive as separate steps.  Reading the interface status
    through the pointer that [fill_connected] leaves behind is undefined
    behaviour. *)

From S2P Require Import Prelude ProvTypes Zcbor Schema Codec Platform State Session.

Definition RETRY_DELAY_S : Z := 1.

Definition conn_zero : conn_params :=
  {| cn_ssid := zeros (S SSID_MAX); cn_ssid_len := 0; cn_pass := zeros (S PASS_MAX);
     cn_pass_len := 0; cn_bssid := zeros WIFI_MAC_ADDR_LEN; cn_has_bssid := false;
     cn_channel := 0 |}.

(** What a reset leaves: everything cleared but the BSSID bytes. *)
Definition conn_clear (c : conn_params) : conn_params :=
  {| cn_ssid := zeros (S SSID_MAX); cn_ssid_len := 0; cn_pass := zeros (S PASS_MAX);
     cn_pass_len := 0; cn_bssid := cn_bssid c; cn_has_bssid := false; cn_channel := 0 |}.

Section WifiConfig.
Context {KC : Kconfig} {K : Kernel} {P : Platform} {CD : Codec}.

(** The static [wc] before main: every byte zero. *)
Definition wifi_boot : wifi_t :=
  {| wc_cfg := conn_zero; wc_inflight := conn_zero; wc_attempts_max := 0;
     wc_attempts_completed := 0; wc_last_conn_status := 0; wc_retry_work := work_undefined;
     wc_sta_state := sta_state_sta_connected_m_c;
     wc_fail_reason := fail_reason_fail_auth_error_m_c; wc_cb_registered := false;
     wc_ip4 := zeros 4 |}.

(** Assignments to the members of [wc]. *)
Definition wc_with (cfg inflight : conn_params) (attempts_max attempts last : Z)
    (work : k_work_delayable) (sta : sta_state_r) (reason : fail_reason_r) (cb : bool)
    (ip4 : list byte) : wifi_t :=
  {| wc_cfg := cfg; wc_inflight := inflight; wc_attempts_max := attempts_max;
     wc_attempts_completed := attempts; wc_last_conn_status := last; wc_retry_work := work;
     wc_sta_state := sta; wc_fail_reason := reason; wc_cb_registered := cb; wc_ip4 := ip4 |}.

Definition set_wc_cfg (f : conn_params -> conn_params) : device -> device :=
  set_wifi (fun w => wc_with (f (wc_cfg w)) (wc_inflight w) (wc_attempts_max w)
    (wc_attempts_completed w) (wc_last_conn_status w) (wc_retry_work w) (wc_sta_state w)
    (wc_fail_reason w) (wc_cb_registered w) (wc_ip4 w)).
Definition set_inflight (f : conn_params -> conn_params) : device -> device :=
  set_wifi (fun w => wc_with (wc_cfg w) (f (wc_inflight w)) (wc_attempts_max w)
    (wc_attempts_completed w) (wc_last_conn_status w) (wc_retry_work w) (wc_sta_state w)
    (wc_fail_reason w) (wc_cb_registered w) (wc_ip4 w)).
Definition set_attempts_max (n : Z) : device -> device :=
  set_wifi (fun w => wc_with (wc_cfg w) (wc_inflight w) n
    (wc_attempts_completed w) (wc_last_conn_status w) (wc_retry_work w) (wc_sta_state w)
    (wc_fail_reason w) (wc_cb_registered w) (wc_ip4 w)).
Definition set_attempts_completed (n : Z) : device -> device :=
  set_wifi (fun w => wc_with (wc_cfg w) (wc_inflight w) (wc_attempts_max w)
    n (wc_last_conn_status w) (wc_retry_work w) (wc_sta_state w)
    (wc_fail_reason w) (wc_cb_registered w) (wc_ip4 w)).
Definition set_last_conn_status (n : Z) : device -> device :=
  set_wifi (fun w => wc_with (wc_cfg w) (wc_inflight w) (wc_attempts_max w)
    (wc_attempts_completed w) n (wc_retry_work w) (wc_sta_state w)
    (wc_fail_reason w) (wc_cb_registered w) (wc_ip4 w)).
Definition set_retry_work (f : k_work_delayable -> k_work_delayable) : device -> device :=
  set_wifi (fun w => wc_with (wc_cfg w) (wc_inflight w) (wc_attempts_max w)
    (wc_attempts_completed w) (wc_last_conn_status w) (f (wc_retry_work w)) (wc_sta_state w)
    (wc_fail_reason w) (wc_cb_registered w) (wc_ip4 w)).
Definition set_sta_state (s : sta_state_r) : device -> device :=
  set_wifi (fun w => wc_with (wc_cfg w) (wc_inflight w) (wc_attempts_max w)
    (wc_attempts_completed w) (wc_last_conn_status w) (wc_retry_work w) s
    (wc_fail_reason w) (wc_cb_registered w) (wc_ip4 w)).
Definition set_fail_reason (r : fail_reason_r) : device -> device :=
  set_wifi (fun w => wc_with (wc_cfg w) (wc_inflight w) (wc_attempts_max w)
    (wc_attempts_completed w) (wc_last_conn_status w) (wc_retry_work w) (wc_sta_state w)
    r (wc_cb_registered w) (wc_ip4 w)).
Definition set_wc_cb_registered (b : bool) : device -> device :=
  set_wifi (fun w => wc_with (wc_cfg w) (wc_inflight w) (wc_attempts_max w)
    (wc_attempts_completed w) (wc_last_conn_status w) (wc_retry_work w) (wc_sta_state w)
    (wc_fail_reason w) b (wc_ip4 w)).
Definition set_ip4 (a : list byte) : device -> device :=
  set_wifi (fun w => wc_with (wc_cfg w) (wc_inflight w) (wc_attempts_max w)
    (wc_attempts_completed w) (wc_last_conn_status w) (wc_retry_work w) (wc_sta_state w)
    (wc_fail_reason w) (wc_cb_registered w) a).

(** The bytes a pointer and length into the structure delimit. *)
Definition ssid_bytes (c : conn_params) : list byte := take (cn_ssid_len c) (cn_ssid c).
Definition pass_bytes (c : conn_params) : list byte := take (cn_pass_len c) (cn_pass c).

(* C: wifi_config.c wifi_iface *)
Definition wifi_iface (w : W) : option Z :=
  match net_if_get_wifi_sta w with
  | Some i => Some i
  | None => net_if_get_first_wifi w
  end.

(* C: wifi_config.c clear_inflight *)
Definition clear_inflight : C unit := put (set_inflight conn_clear).

(** The request built from the snapshot. *)
(* C: wifi_config.c 87-101 connect_from_inflight *)
Definition connect_params (c : conn_params) : wifi_connect_req_params :=
  let secured := (0 <? cn_pass_len c)%nat in
  {| cp_ssid := ssid_bytes c;
     cp_psk := if secured then Some (pass_bytes c) else None;
     cp_security := if secured then WIFI_SECURITY_TYPE_PSK else WIFI_SECURITY_TYPE_NONE;
     cp_channel := if 0 <? cn_channel c then cn_channel c else WIFI_CHANNEL_ANY;
     cp_bssid := if cn_has_bssid c then Some (cn_bssid c) else None |}.

(* C: wifi_config.c connect_from_inflight *)
Definition connect_from_inflight : C Z :=
  iface <- ask wifi_iface ;;
  match iface with
  | None => mret (- ENODEV)
  | Some iface =>
      c <- get (fun d => wc_inflight (d_wifi d)) ;;
      call (net_mgmt_wifi_connect iface (connect_params c))
  end.

(* C: wifi_config.c final_failure *)
Definition final_failure : C unit :=
  put (set_sta_state sta_state_sta_failed_m_c) ;;;
  last <- get (fun d => wc_last_conn_status (d_wifi d)) ;;
  let '(code, reason) :=
    if last =? WIFI_STATUS_CONN_AP_NOT_FOUND
    then (fail_reason_fail_network_not_found_m_c, POUCH_PROV_FAIL_NETWORK_NOT_FOUND)
    else (fail_reason_fail_auth_error_m_c, POUCH_PROV_FAIL_AUTH_ERROR) in
  put (set_fail_reason code) ;;;
  c <- get (fun d => wc_inflight (d_wifi d)) ;;
  err <- call (wifi_credentials_delete_by_ssid (ssid_bytes c)) ;;
  clear_inflight ;;;
  pouch_prov_emit POUCH_PROV_EVENT_WIFI_FAIL (Some reason).

(* C: wifi_config.c retry_work_handler *)
Definition retry_work_handler : C unit :=
  n <- get (fun d => cn_ssid_len (wc_inflight (d_wifi d))) ;;
  if (n =? 0)%nat then mret tt else
  err <- connect_from_inflight ;;
  mwhen (negb (err =? 0)) final_failure.

(** [status->status] and [status->conn_status] are members of one union. *)
(* C: wifi_config.c on_connect_result *)
Definition on_connect_result (status : Z) : C unit :=
  n <- get (fun d => cn_ssid_len (wc_inflight (d_wifi d))) ;;
  if (n =? 0)%nat then mret tt else
  if status =? 0 then
    put (set_sta_state sta_state_sta_connected_m_c) ;;;
    clear_inflight ;;;
    pouch_prov_emit POUCH_PROV_EVENT_WIFI_CONNECTED None
  else
  put (set_last_conn_status status) ;;;
  w <- get d_wifi ;;
  if 0 <? wc_attempts_max w then
    let n := u32 (wc_attempts_completed w + 1) in
    put (set_attempts_completed n) ;;;
    if n <? wc_attempts_max w then
      put (set_sta_state sta_state_sta_connecting_m_c) ;;;
      put (set_retry_work (k_work_schedule RETRY_DELAY_S))
    else final_failure
  else final_failure.

(** The callback is registered for NET_EVENT_WIFI_CONNECT_RESULT. *)
(* C: wifi_config.c mgmt_event *)
Definition config_mgmt_event (is_connect_result : bool) (status : Z) : C unit :=
  mwhen is_connect_result (on_connect_result status).

(* C: wifi_config.c pouch_prov_wifi_config_init *)
Definition pouch_prov_wifi_config_init (conn_attempts : Z) : C Z :=
  put (set_sta_state sta_state_sta_disconnected_m_c) ;;;
  put (set_attempts_max conn_attempts) ;;;
  put (set_attempts_completed 0) ;;;
  put (set_retry_work k_work_init_delayable) ;;;
  reg <- get (fun d => wc_cb_registered (d_wifi d)) ;;
  mwhen (negb reg)
    (call_ net_mgmt_add_event_callback ;;; put (set_wc_cb_registered true)) ;;;
  mret 0.

(* C: wifi_config.c pouch_prov_wifi_config_reset *)
Definition pouch_prov_wifi_config_reset : C unit :=
  clear_inflight ;;;
  put (set_retry_work k_work_cancel_delayable) ;;;
  put (set_wc_cfg conn_clear) ;;;
  put (set_attempts_completed 0) ;;;
  put (set_sta_state sta_state_sta_disconnected_m_c) ;;;
  put (set_fail_reason fail_reason_fail_auth_error_m_c).

(* C: wifi_config.c pouch_prov_wifi_is_provisioned *)
Definition pouch_prov_wifi_is_provisioned : C bool :=
  empty <- ask wifi_credentials_is_empty ;; mret (negb empty).

(* C: wifi_config.c pouch_prov_wifi_reset_state *)
Definition pouch_prov_wifi_reset_state : C unit := pouch_prov_wifi_config_reset.

(* C: wifi_config.c pouch_prov_wifi_reprovision *)
Definition pouch_prov_wifi_reprovision : C unit :=
  err <- call wifi_credentials_delete_all ;;
  pouch_prov_wifi_config_reset.

(* C: wifi_config.c do_set *)
Definition do_set (cfg : wifi_config) : C prov_status_r :=
  let ssid := wifi_config_ssid cfg in
  if (length ssid =? 0)%nat || (SSID_MAX <? length ssid)%nat
  then mret prov_status_status_invalid_argument_m_c else
  if match wifi_config_pass cfg with Some p => (PASS_MAX <? length p)%nat | None => false end
  then mret prov_status_status_invalid_argument_m_c else
  mguard (buf_fits 0 ssid (zeros (S SSID_MAX))) ;;;
  put (set_wc_cfg (fun c =>
    {| cn_ssid := buf_write 0 ssid (zeros (S SSID_MAX)); cn_ssid_len := length ssid;
       cn_pass := cn_pass c; cn_pass_len := cn_pass_len c; cn_bssid := cn_bssid c;
       cn_has_bssid := cn_has_bssid c; cn_channel := cn_channel c |})) ;;;
  let pass := match wifi_config_pass cfg with Some p => p | None => [] end in
  mguard (buf_fits 0 pass (zeros (S PASS_MAX))) ;;;
  put (set_wc_cfg (fun c =>
    {| cn_ssid := cn_ssid c; cn_ssid_len := cn_ssid_len c;
       cn_pass := buf_write 0 pass (zeros (S PASS_MAX)); cn_pass_len := length pass;
       cn_bssid := cn_bssid c; cn_has_bssid := cn_has_bssid c;
       cn_channel := cn_channel c |})) ;;;
  let bssid := match wifi_config_bssid cfg with
               | Some b => if (length b =? WIFI_MAC_ADDR_LEN)%nat then Some b else None
               | None => None
               end in
  put (set_wc_cfg (fun c =>
    {| cn_ssid := cn_ssid c; cn_ssid_len := cn_ssid_len c; cn_pass := cn_pass c;
       cn_pass_len := cn_pass_len c;
       cn_bssid := match bssid with Some b => b | None => cn_bssid c end;
       cn_has_bssid := match bssid with Some _ => true | None => false end;
       cn_channel := match wifi_config_ch cfg with Some ch => u8 ch | None => 0 end |})) ;;;
  mret prov_status_status_ok_m_c.

(** The snapshot taken by an apply; unset BSSID bytes stay. *)
(* C: wifi_config.c 285-293 do_apply *)
Definition snapshot (cfg old : conn_params) : conn_params :=
  {| cn_ssid := cn_ssid cfg; cn_ssid_len := cn_ssid_len cfg; cn_pass := cn_pass cfg;
     cn_pass_len := cn_pass_len cfg;
     cn_bssid := if cn_has_bssid cfg then cn_bssid cfg else cn_bssid old;
     cn_has_bssid := cn_has_bssid cfg; cn_channel := cn_channel cfg |}.

(** The arguments of wifi_credentials_set_personal. *)
(* C: wifi_config.c 260-276 do_apply *)
Definition personal_cred (c : conn_params) : wifi_cred :=
  {| wcr_ssid := ssid_bytes c;
     wcr_security := if (0 <? cn_pass_len c)%nat
                     then WIFI_SECURITY_TYPE_PSK else WIFI_SECURITY_TYPE_NONE;
     wcr_bssid := if cn_has_bssid c then Some (cn_bssid c) else None;
     wcr_pass := pass_bytes c;
     wcr_flags := if cn_has_bssid c then WIFI_CREDENTIALS_FLAG_BSSID else 0;
     wcr_channel := cn_channel c |}.

(* C: wifi_config.c do_apply *)
Definition do_apply : C prov_status_r :=
  iface <- ask wifi_iface ;;
  c <- get (fun d => wc_cfg (d_wifi d)) ;;
  if match iface with None => true | Some _ => false end || (cn_ssid_len c =? 0)%nat
  then mret prov_status_status_invalid_state_m_c else
  err <- call (wifi_credentials_delete_by_ssid (ssid_bytes c)) ;;
  ret <- call (wifi_credentials_set_personal (personal_cred c)) ;;
  if negb (ret =? 0) then mret prov_status_status_internal_error_m_c else
  pouch_prov_emit POUCH_PROV_EVENT_WIFI_CRED_RECV None ;;;
  put (set_sta_state sta_state_sta_connecting_m_c) ;;;
  put (set_retry_work k_work_cancel_delayable) ;;;
  put (set_inflight (snapshot c)) ;;;
  put (set_attempts_completed 0) ;;;
  err <- connect_from_inflight ;;
  mwhen (negb (err =? 0))
    (put (set_last_conn_status WIFI_STATUS_CONN_WRONG_PASSWORD) ;;; final_failure) ;;;
  mret prov_status_status_ok_m_c.

(** The connected-info, and whether its SSID points into the stack frame of
    [fill_connected], which is gone when the caller reads it. *)
(* C: wifi_config.c fill_connected *)
Definition fill_connected : C (connected_info * bool) :=
  iface <- ask wifi_iface ;;
  cfg <- get (fun d => wc_cfg (d_wifi d)) ;;
  let* (ssid, rssi, dangling) :=
    match iface with
    | None => mret (ssid_bytes cfg, None, false)
    | Some i =>
        let* (err, (s, r)) := call (net_mgmt_wifi_iface_status i) in
        mret (if err =? 0 then (s, Some r, true) else (ssid_bytes cfg, None, false))
    end in
  match iface with
  | None => mret tt
  | Some i =>
      addr <- ask (net_if_ipv4_get_global_addr i) ;;
      match addr with
      | Some a => put (set_ip4 (take 4 a))
      | None => mret tt
      end
  end ;;;
  ip4 <- get (fun d => wc_ip4 (d_wifi d)) ;;
  mret ({| connected_info_ip4 := ip4; connected_info_ssid := ssid;
           connected_info_rssi := rssi |}, dangling).

(** The encoder checks the SSID's length before it reads the bytes. *)
Definition ssid_read (c : connected_info) : bool :=
  let n := length (connected_info_ssid c) in ((1 <=? n) && (n <=? SSID_MAX))%nat.

(* C: wifi_config.c 344-355 encode_status *)
Definition status_detail (w : wifi_t) : C (option config_detail_r) :=
  match wc_sta_state w with
  | sta_state_sta_connected_m_c =>
      let* (info, dangling) := fill_connected in
      mguard (negb (dangling && ssid_read info)) ;;;
      mret (Some (config_detail_connected_info_m info))
  | sta_state_sta_failed_m_c => mret (Some (config_detail_fail_reason_m (wc_fail_reason w)))
  | _ => mret None
  end.

(* C: wifi_config.c encode_status *)
Definition encode_status (rsp_size : nat) : C hres :=
  w <- get d_wifi ;;
  detail <- status_detail w ;;
  mret (enc_result (cbor_encode_config_rsp rsp_size
    (config_rsp_config_status_rsp_m {|
       config_status_rsp_prov_status_m := prov_status_status_ok_m_c;
       config_status_rsp_sta_state_m := wc_sta_state w;
       config_status_rsp_config_detail_m := detail |}))).

(* C: wifi_config.c encode_ack *)
Definition encode_ack (op : Z) (status : prov_status_r) (rsp_size : nat) : hres :=
  enc_result (cbor_encode_config_rsp rsp_size
    (if op =? OP_CONFIG_SET
     then config_rsp_config_set_rsp_m {| config_set_rsp_prov_status_m := status |}
     else config_rsp_config_apply_rsp_m {| config_apply_rsp_prov_status_m := status |})).

(* C: wifi_config.c pouch_prov_handle_config *)
Definition pouch_prov_handle_config (req : list byte) (rsp_size : nat) : C hres :=
  match cbor_decode_config_req req with
  | None => mret (HErr (- EBADMSG))
  | Some config_req_config_get_status_m => encode_status rsp_size
  | Some (config_req_config_set_m c) =>
      status <- do_set (config_set_wifi_config_m c) ;;
      mret (encode_ack OP_CONFIG_SET status rsp_size)
  | Some config_req_config_apply_m =>
      status <- do_apply ;;
      mret (encode_ack OP_CONFIG_APPLY status rsp_size)
  end.
End WifiConfig.
