(* ===== verification/Version.v ===== *)
(** * The .prov/ver endpoint (src/src/handlers/version.c) *)

From S2P Require Import Prelude ProvTypes Zcbor Schema Codec Platform State Session.

(* C: version.c 17-18 LIB_VERSION *)
Definition LIB_VERSION : string := "0.1.0".
Definition PROTO_VERSION : Z := 1.

Section Version.
Context {KC : Kconfig} {K : Kernel} {P : Platform} {CD : Codec}.

(* C: version.c 54 pouch_prov_handle_ver *)
Definition has_pop (d : device) : bool :=
  CONFIG_POUCH_PROV_AUTH &&
  match cfg_pop (pouch_prov_config_get d) with Some _ => true | None => false end.

(* C: version.c 42-60 pouch_prov_handle_ver *)
Definition capabilities (d : device) : list (list byte) :=
  (if CONFIG_POUCH_PROV_WIFI then [str "wifi"; str "scan"] else []) ++
  (if CONFIG_POUCH_PROV_CRED then [str "cred"] else []) ++
  (if has_pop d then [str "auth"] else []).

(* C: version.c 31-60 pouch_prov_handle_ver *)
Definition version_reply (d : device) : ver_rsp := {|
  ver_rsp_prov_status_m := prov_status_status_ok_m_c;
  ver_rsp_ver_info_m := {|
    ver_info_proto := PROTO_VERSION;
    ver_info_caps_tstr := capabilities d;
    ver_info_blk := CONFIG_POUCH_BLOCK_SIZE;
    ver_info_lib := str LIB_VERSION;
    ver_info_pop := Some (has_pop d) |} |}.

(* C: version.c pouch_prov_handle_ver *)
Definition pouch_prov_handle_ver (req : list byte) (rsp_size : nat) : C hres :=
  if negb (cbor_decode_ver_req req) then mret (HErr (- EBADMSG)) else
  rsp <- get version_reply ;;
  mret (enc_result (cbor_encode_ver_rsp rsp_size rsp)).
End Version.
