(* ===== verification/Adv.v ===== *)
(** * BLE advertising (src/src/adv.c) *)

From S2P Require Import Prelude Platform State.

(* C: adv.c 26 ADV_FLAG_PROVISIONING *)
Definition ADV_FLAG_PROVISIONING : Z := 2.

(** One digit of [%x]. *)
Definition hex_digit (n : Z) : byte := z2b (if n <? 10 then 48 + n else 87 + n).

(** [%02x] *)
Definition hex_byte (b : byte) : list byte :=
  [hex_digit (Z.shiftr (b2z b) 4); hex_digit (Z.land (b2z b) 15)].

Section Adv.
Context {KC : Kconfig} {K : Kernel} {P : Platform}.

Definition set_name (n : list byte) : device -> device :=
  set_adv (fun a => {| adv_flags := adv_flags a; adv_device_name := n;
    adv_name_len := length n; adv_enabled := adv_enabled a |}).
Definition set_flags (f : Z -> Z) : device -> device :=
  set_adv (fun a => {| adv_flags := f (adv_flags a); adv_device_name := adv_device_name a;
    adv_name_len := adv_name_len a; adv_enabled := adv_enabled a |}).
Definition set_enabled (b : bool) : device -> device :=
  set_adv (fun a => {| adv_flags := adv_flags a; adv_device_name := adv_device_name a;
    adv_name_len := adv_name_len a; adv_enabled := b |}).

(** The array holds the prefix, six digits and the terminator. *)
(* C: adv.c 29 device_name *)
Definition DEVICE_NAME_SIZE : nat :=
  (length (str CONFIG_POUCH_PROV_DEVICE_NAME_PREFIX) + 1 + 6)%nat.

(** [snprintf] keeps what fits before the terminator. *)
(* C: adv.c set_device_name *)
Definition set_device_name : C unit :=
  addr <- ask bt_id_get ;;
  match addr with
  | a0 :: a1 :: a2 :: _ =>
      put (set_name (take (DEVICE_NAME_SIZE - 1)
        (str CONFIG_POUCH_PROV_DEVICE_NAME_PREFIX ++ hex_byte a2 ++ hex_byte a1 ++ hex_byte a0)))
  | _ => mub
  end.

Definition adv_start_call : C Z :=
  a <- get d_adv ;;
  call (bt_le_adv_start (take (adv_name_len a) (adv_device_name a)) (adv_flags a)).

(* C: adv.c connected *)
Definition connected (err : Z) : C unit :=
  mwhen (err =? 0) (sec_err <- call bt_conn_set_security ;; mret tt).

(** It only logs. *)
(* C: adv.c security_changed *)
Definition security_changed (level err : Z) : C unit := mret tt.

(* C: adv.c recycled *)
Definition recycled : C unit :=
  enabled <- get (fun d => adv_enabled (d_adv d)) ;;
  mwhen enabled (err <- adv_start_call ;; mret tt).

(* C: adv.c pouch_prov_adv_start *)
Definition pouch_prov_adv_start : C Z :=
  put (set_flags (fun f => Z.lor f ADV_FLAG_PROVISIONING)) ;;;
  set_device_name ;;;
  err <- adv_start_call ;;
  let err := if err =? - EALREADY then 0 else err in
  mwhen (err =? 0) (put (set_enabled true)) ;;;
  mret err.

(* C: adv.c pouch_prov_adv_stop *)
Definition pouch_prov_adv_stop : C Z :=
  put (set_enabled false) ;;;
  put (set_flags (fun f => Z.ldiff f ADV_FLAG_PROVISIONING)) ;;;
  err <- call bt_le_adv_stop ;;
  mret (if err =? - EALREADY then 0 else err).
End Adv.
