(* ===== verification/Identity.v ===== *)
(** * The device's pouch identity (src/src/identity.c)

    A P-256 key pair and a self-signed certificate, generated on the first
    boot and restored from settings afterwards. *)

From S2P Require Import Prelude Platform State.

(* C: identity.c 35-38 CERT_SETTINGS_KEY *)
Definition CERT_SETTINGS_KEY : string := "pnp/id/cert".
Definition KEY_SETTINGS_KEY : string := "pnp/id/key".
Definition IDENTITY_CERT_MAX : nat := 640.
Definition P256_PRIV_LEN : nat := 32.

(* C: identity.c 40-44 cert_der *)
Definition ident_boot : ident_t :=
  {| id_cert_der := zeros IDENTITY_CERT_MAX; id_cert_der_len := 0;
     id_priv_raw := zeros P256_PRIV_LEN; id_priv_raw_len := 0; id_key := PSA_KEY_ID_NULL |}.

Section Identity.
Context {KC : Kconfig} {K : Kernel} {P : Platform}.

Definition set_cert_der (b : list byte) : device -> device :=
  set_ident (fun i => {| id_cert_der := b; id_cert_der_len := id_cert_der_len i;
    id_priv_raw := id_priv_raw i; id_priv_raw_len := id_priv_raw_len i; id_key := id_key i |}).
Definition set_cert_der_len (n : nat) : device -> device :=
  set_ident (fun i => {| id_cert_der := id_cert_der i; id_cert_der_len := n;
    id_priv_raw := id_priv_raw i; id_priv_raw_len := id_priv_raw_len i; id_key := id_key i |}).
Definition set_priv_raw (b : list byte) : device -> device :=
  set_ident (fun i => {| id_cert_der := id_cert_der i; id_cert_der_len := id_cert_der_len i;
    id_priv_raw := b; id_priv_raw_len := id_priv_raw_len i; id_key := id_key i |}).
Definition set_priv_raw_len (n : nat) : device -> device :=
  set_ident (fun i => {| id_cert_der := id_cert_der i; id_cert_der_len := id_cert_der_len i;
    id_priv_raw := id_priv_raw i; id_priv_raw_len := n; id_key := id_key i |}).
Definition set_identity_key (k : Z) : device -> device :=
  set_ident (fun i => {| id_cert_der := id_cert_der i; id_cert_der_len := id_cert_der_len i;
    id_priv_raw := id_priv_raw i; id_priv_raw_len := id_priv_raw_len i; id_key := k |}).

(** The bytes in use. *)
Definition cert_bytes (i : ident_t) : list byte := take (id_cert_der_len i) (id_cert_der i).
Definition priv_bytes (i : ident_t) : list byte := take (id_priv_raw_len i) (id_priv_raw i).

(* C: identity.c id_set *)
Definition id_set (name : string) (len : nat) (read_cb : nat -> Z * list byte) : C Z :=
  if String.eqb name "cert" then
    if (IDENTITY_CERT_MAX <? len)%nat then mret (- EINVAL) else
    let '(rc, data) := read_cb IDENTITY_CERT_MAX in
    i <- get d_ident ;;
    mguard (buf_fits 0 data (id_cert_der i)) ;;;
    put (set_cert_der (buf_write 0 data (id_cert_der i))) ;;;
    if rc <? 0 then mret rc else
    put (set_cert_der_len (Z.to_nat rc)) ;;;
    mret 0
  else if String.eqb name "key" then
    if (P256_PRIV_LEN <? len)%nat then mret (- EINVAL) else
    let '(rc, data) := read_cb P256_PRIV_LEN in
    i <- get d_ident ;;
    mguard (buf_fits 0 data (id_priv_raw i)) ;;;
    put (set_priv_raw (buf_write 0 data (id_priv_raw i))) ;;;
    if rc <? 0 then mret rc else
    put (set_priv_raw_len (Z.to_nat rc)) ;;;
    mret 0
  else mret (- ENOENT).

(* C: identity.c import_key *)
Definition import_key (raw : list byte) : C Z :=
  let* (status, id) := call (psa_import_key PSA_IDENTITY_VOLATILE raw) in
  mret (if status =? PSA_SUCCESS then id else PSA_KEY_ID_NULL).

(** The part of [generate_key] before the label [out]: the temporary key's id
    and whether the raw key was stored.  An export writes what it returns
    and sets the length, also when it fails. *)
(* C: identity.c 121-130 generate_key *)
Definition generate_and_store : C (Z * bool) :=
  let* (status, tmp) := call (psa_generate_key PSA_IDENTITY_EXPORTABLE) in
  if negb (status =? PSA_SUCCESS) then mret (tmp, false) else
  let* (status, raw) := call (psa_export_key tmp P256_PRIV_LEN) in
  i <- get d_ident ;;
  mguard (buf_fits 0 raw (id_priv_raw i)) ;;;
  put (set_priv_raw (buf_write 0 raw (id_priv_raw i))) ;;;
  put (set_priv_raw_len (length raw)) ;;;
  if negb (status =? PSA_SUCCESS) then mret (tmp, false) else
  i <- get d_ident ;;
  err <- call (settings_save_one KEY_SETTINGS_KEY (priv_bytes i)) ;;
  mret (tmp, err =? 0).

(* C: identity.c generate_key *)
Definition generate_key : C Z :=
  let* (tmp, stored) := generate_and_store in
  mwhen (negb (tmp =? PSA_KEY_ID_NULL)) (call_ (psa_destroy_key tmp)) ;;;
  if negb stored then mret (- EIO) else
  i <- get d_ident ;;
  id <- import_key (priv_bytes i) ;;
  put (set_identity_key id) ;;;
  mret (if id =? PSA_KEY_ID_NULL then - EIO else 0).

(** [if (ret == 0) { ret = f(); }] *)
Definition and_then (ret : Z) (f : W -> Z * W) : C Z :=
  if ret =? 0 then call f else mret ret.

(** [ret] at the label [out]. *)
(* C: identity.c 158-202 build_self_signed_cert *)
Definition cert_steps : C Z :=
  i <- get d_ident ;;
  ret <- call (mbedtls_pk_setup_opaque (id_key i)) ;;
  if negb (ret =? 0) then mret ret else
  ret <- call (mbedtls_x509write_crt_set_subject_name "CN=pouch-prov-device") ;;
  ret <- and_then ret (mbedtls_x509write_crt_set_issuer_name "CN=pouch-prov-device") ;;
  ret <- and_then ret (mbedtls_mpi_lset 1) ;;
  ret <- and_then ret mbedtls_x509write_crt_set_serial ;;
  ret <- and_then ret (mbedtls_x509write_crt_set_validity "20260101000000" "20360101000000") ;;
  if negb (ret =? 0) then mret ret else
  let* (ret, der) := call (mbedtls_x509write_crt_der IDENTITY_CERT_MAX) in
  if ret <? 0 then mret ret else
  put (set_cert_der_len (Z.to_nat ret)) ;;;
  i <- get d_ident ;;
  mguard (buf_fits 0 der (id_cert_der i)) ;;;
  put (set_cert_der (buf_write 0 der (id_cert_der i))) ;;;
  i <- get d_ident ;;
  call (settings_save_one CERT_SETTINGS_KEY (cert_bytes i)).

(* C: identity.c build_self_signed_cert *)
Definition build_self_signed_cert : C Z :=
  ret <- cert_steps ;;
  mret (if ret <? 0 then - EIO else 0).

(** 0 with the certificate and the key handed out, or an error. *)
(* C: identity.c pouch_prov_identity_ensure *)
Definition pouch_prov_identity_ensure : C (Z + (list byte * Z)) :=
  status <- call psa_crypto_init ;;
  if negb (status =? PSA_SUCCESS) then mret (inl (- EIO)) else
  i <- get d_ident ;;
  err <-
    (if (0 <? id_priv_raw_len i)%nat then
       id <- import_key (priv_bytes i) ;;
       put (set_identity_key id) ;;;
       mret (if id =? PSA_KEY_ID_NULL then - EIO else 0)
     else
       err <- generate_key ;;
       mwhen (err =? 0) (put (set_cert_der_len 0)) ;;;
       mret err) ;;
  if negb (err =? 0) then mret (inl err) else
  i <- get d_ident ;;
  err <- (if (id_cert_der_len i =? 0)%nat then build_self_signed_cert else mret 0) ;;
  if negb (err =? 0) then mret (inl err) else
  i <- get d_ident ;;
  mret (inr (cert_bytes i, id_key i)).
End Identity.
