(* ===== verification/Manager.v ===== *)
(** * The provisioning manager (src/src/manager.c)

    Initialisation, start, stop and reset, the wait for the end of
    provisioning, the auto-stop timer and the settings handlers' loading. *)

From S2P Require Import Prelude ProvTypes Codec Platform State Rpc Session CredStore WifiScan.
From S2P Require Import WifiConfig Adv Identity.

(* C: manager.c 32 MGR_EVENT_ENDED *)
Definition MGR_EVENT_ENDED : Z := 1.

Definition strip_prefix (p s : string) : option string :=
  if String.prefix p s
  then Some (String.substring (String.length p) (String.length s - String.length p) s)
  else None.

(** The settings backend's read callback on a stored value. *)
Definition settings_read_cb (v : list byte) (n : nat) : Z * list byte :=
  (Z.of_nat (length (take n v)), take n v).

Section Manager.
Context {KC : Kconfig} {K : Kernel} {P : Platform}.

Definition set_config (c : pouch_prov_config) : device -> device :=
  set_mgr (fun m => {| mg_config := c; mg_initialized := mg_initialized m;
    mg_running := mg_running m; mg_events := mg_events m;
    mg_autostop_work := mg_autostop_work m |}).
Definition set_initialized (b : bool) : device -> device :=
  set_mgr (fun m => {| mg_config := mg_config m; mg_initialized := b;
    mg_running := mg_running m; mg_events := mg_events m;
    mg_autostop_work := mg_autostop_work m |}).
Definition set_running (b : bool) : device -> device :=
  set_mgr (fun m => {| mg_config := mg_config m; mg_initialized := mg_initialized m;
    mg_running := b; mg_events := mg_events m; mg_autostop_work := mg_autostop_work m |}).
Definition set_events (f : k_event -> k_event) : device -> device :=
  set_mgr (fun m => {| mg_config := mg_config m; mg_initialized := mg_initialized m;
    mg_running := mg_running m; mg_events := f (mg_events m);
    mg_autostop_work := mg_autostop_work m |}).

(** A loaded setting goes to the handler registered for its prefix; what a
    handler returns is only logged. *)
(* C: cred_store.c 108 pouch_prov_cred *)
Definition deliver (e : string * list byte) : C unit :=
  let '(name, v) := e in
  match strip_prefix "pnp/cred/" name, strip_prefix "pnp/id/" name with
  | Some leaf, _ =>
      mwhen CONFIG_POUCH_PROV_CRED
        (rc <- cred_set leaf (length v) (settings_read_cb v) ;; mret tt)
  | None, Some leaf =>
      mwhen (negb CONFIG_POUCH_ENCRYPTION_NONE)
        (rc <- id_set leaf (length v) (settings_read_cb v) ;; mret tt)
  | None, None => mret tt
  end.

Definition settings_load (subtree : string) : C Z :=
  let* (err, entries) := call (settings_load_subtree subtree) in
  mfor entries deliver ;;;
  mret err.

(* C: manager.c pouch_prov_mgr_session_ended *)
Definition pouch_prov_mgr_session_ended : C unit :=
  pouch_prov_dispatch_reset ;;;
  pouch_prov_rpc_reset.

(** The identity handed to pouch_init, or an error. *)
(* C: manager.c 125-144 pouch_prov_mgr_init *)
Definition pouch_cfg (device_id : string) : C (Z + pouch_config) :=
  if CONFIG_POUCH_ENCRYPTION_NONE then mret (inr (pouch_device_id device_id)) else
  mwhen CONFIG_SETTINGS
    (err <- call settings_subsys_init ;; err <- settings_load "pnp" ;; mret tt) ;;;
  r <- pouch_prov_identity_ensure ;;
  mret (match r with
        | inl err => inl err
        | inr (cert, key) => inr (pouch_identity cert key)
        end).

(** A null [cfg] is [None]. *)
(* C: manager.c pouch_prov_mgr_init *)
Definition pouch_prov_mgr_init (cfg : option pouch_prov_config) : C Z :=
  initialized <- get (fun d => mg_initialized (d_mgr d)) ;;
  if initialized then mret (- EALREADY) else
  match cfg with
  | None => mret (- EINVAL)
  | Some cfg =>
      match cfg_device_id cfg with
      | None => mret (- EINVAL)
      | Some device_id =>
          put (set_config cfg) ;;;
          c <- pouch_cfg device_id ;;
          match c with
          | inl err => mret err
          | inr c =>
              err <- call (pouch_init c) ;;
              if negb (err =? 0) then mret err else
              mwhen CONFIG_POUCH_PROV_WIFI
                (r <- pouch_prov_wifi_config_init (cfg_wifi_conn_attempts cfg) ;;
                 r <- pouch_prov_wifi_scan_init ;;
                 mret tt) ;;;
              put (set_initialized true) ;;;
              mret 0
          end
      end
  end.

(** [bt_enable] unless the stack is ready; -EALREADY is no error. *)
(* C: manager.c 173-179 pouch_prov_mgr_start *)
Definition bt_up : C Z :=
  ready <- ask bt_is_ready ;;
  if ready then mret 0 else
  err <- call bt_enable ;;
  mret (if err =? - EALREADY then 0 else err).

(* C: manager.c pouch_prov_mgr_start *)
Definition pouch_prov_mgr_start : C Z :=
  m <- get d_mgr ;;
  if negb (mg_initialized m) then mret (- EINVAL) else
  if mg_running m then mret (- EALREADY) else
  err <- bt_up ;;
  if negb (err =? 0) then mret err else
  mwhen CONFIG_SETTINGS (err <- settings_load "" ;; mret tt) ;;;
  pouch_prov_dispatch_reset ;;;
  pouch_prov_rpc_reset ;;;
  autostop_cancel ;;;
  put (set_events (k_event_clear MGR_EVENT_ENDED)) ;;;
  err <- pouch_prov_adv_start ;;
  if negb (err =? 0) then mret err else
  put (set_running true) ;;;
  pouch_prov_emit POUCH_PROV_EVENT_STARTED None ;;;
  mret 0.

(* C: manager.c pouch_prov_mgr_stop *)
Definition pouch_prov_mgr_stop : C Z :=
  running <- get (fun d => mg_running (d_mgr d)) ;;
  if negb running then mret (- EALREADY) else
  put (set_running false) ;;;
  autostop_cancel ;;;
  err <- pouch_prov_adv_stop ;;
  pouch_prov_dispatch_reset ;;;
  pouch_prov_rpc_reset ;;;
  put (set_events (k_event_post MGR_EVENT_ENDED)) ;;;
  pouch_prov_emit POUCH_PROV_EVENT_ENDED None ;;;
  mret 0.

(* C: manager.c autostop_handler *)
Definition autostop_handler : C unit :=
  r <- pouch_prov_mgr_stop ;; mret tt.

(* C: manager.c pouch_prov_mgr_is_provisioned *)
Definition pouch_prov_mgr_is_provisioned : C bool :=
  if CONFIG_POUCH_PROV_WIFI then pouch_prov_wifi_is_provisioned
  else if CONFIG_POUCH_PROV_CRED then pouch_prov_cred_present POUCH_PROV_CRED_DEVICE_CERT
  else mret false.

(* C: manager.c pouch_prov_ctrl_end_requested *)
Definition pouch_prov_ctrl_end_requested : C unit :=
  r <- pouch_prov_mgr_stop ;; mret tt.

(** The wait returns at once when the event is set; otherwise [others] runs
    until it is posted or the timeout expires. *)
(* C: manager.c pouch_prov_mgr_wait *)
Definition pouch_prov_mgr_wait (others : C unit) : C Z :=
  e <- get (fun d => event_bits (mg_events (d_mgr d))) ;;
  mwhen (Z.land e MGR_EVENT_ENDED =? 0) others ;;;
  e <- get (fun d => event_bits (mg_events (d_mgr d))) ;;
  mret (if negb (Z.land e MGR_EVENT_ENDED =? 0) then 0 else - EAGAIN).

(* C: manager.c pouch_prov_mgr_reset *)
Definition pouch_prov_mgr_reset : C Z :=
  mwhen CONFIG_POUCH_PROV_WIFI pouch_prov_wifi_reprovision ;;;
  mwhen CONFIG_POUCH_PROV_CRED (r <- pouch_prov_cred_delete_all ;; mret tt) ;;;
  pouch_prov_dispatch_reset ;;;
  pouch_prov_rpc_reset ;;;
  mret 0.

(** ** The Bluetooth connection callback that ends a session *)

(* C: adv.c disconnected *)
Definition disconnected (reason : Z) : C unit := pouch_prov_mgr_session_ended.

(** struct bt_conn_cb, the members the library sets. *)
Record bt_conn_cb : Type := {
  cb_connected : Z -> C unit;
  cb_disconnected : Z -> C unit;
  cb_security_changed : Z -> Z -> C unit;
  cb_recycled : C unit;
}.

(* C: adv.c 93-98 prov_conn_callbacks *)
Definition prov_conn_callbacks : bt_conn_cb :=
  {| cb_connected := connected; cb_disconnected := disconnected;
     cb_security_changed := security_changed; cb_recycled := recycled |}.

(** ** Pouch's own events *)

Inductive pouch_event : Set := POUCH_EVENT_SESSION_START | POUCH_EVENT_SESSION_END.

(** It only logs. *)
(* C: manager.c pouch_event_handler *)
Definition pouch_event_handler (event : pouch_event) : C unit := mret tt.
End Manager.
