(* ===== verification/Ctrl.v ===== *)
(** * The .prov/ctrl endpoint (src/src/handlers/ctrl.c) *)

From S2P Require Import Prelude ProvTypes Zcbor Schema Codec Platform State CredStore WifiConfig.
From S2P Require Import Manager.

Section Ctrl.
Context {KC : Kconfig} {K : Kernel} {P : Platform} {CD : Codec}.

(** What the operation does before the reply is encoded, and its op code. *)
(* C: ctrl.c 34-59 pouch_prov_handle_ctrl *)
Definition ctrl_action (req : ctrl_req_r) : C Z :=
  match req with
  | ctrl_req_ctrl_reset_m =>
      mwhen CONFIG_POUCH_PROV_WIFI pouch_prov_wifi_reset_state ;;;
      mret OP_CTRL_RESET
  | ctrl_req_ctrl_reprovision_m =>
      mwhen CONFIG_POUCH_PROV_WIFI pouch_prov_wifi_reprovision ;;;
      mwhen CONFIG_POUCH_PROV_CRED (r <- pouch_prov_cred_delete_all ;; mret tt) ;;;
      mret OP_CTRL_REPROV
  | ctrl_req_ctrl_end_m => mret OP_CTRL_END
  end.

(* C: ctrl.c pouch_prov_handle_ctrl *)
Definition pouch_prov_handle_ctrl (req : list byte) (rsp_size : nat) : C hres :=
  match cbor_decode_ctrl_req req with
  | None => mret (HErr (- EBADMSG))
  | Some r =>
      op <- ctrl_action r ;;
      let rsp := cbor_encode_ctrl_rsp rsp_size
        {| ctrl_rsp_ctrl_op_m := op;
           ctrl_rsp_prov_status_m := prov_status_status_ok_m_c |} in
      mwhen ((op =? OP_CTRL_END) && match rsp with Some _ => true | None => false end)
        pouch_prov_ctrl_end_requested ;;;
      mret (enc_result rsp)
  end.
End Ctrl.
