(* ===== verification/FakeWifi.v ===== *)
(** * The simulated Wi-Fi driver (src/sim/wifi/fake_wifi.c)

    The test driver behind Zephyr's wifi_mgmt: canned scan results, programmed
    or credential-derived connect outcomes, and the two work items that report
    them later.  Its state is the static [fw_data]; [None] is undefined
    behaviour.  The work items are Zephyr's [k_work], of which [KWork] states the
    documented behaviour. *)

From S2P Require Import Prelude Platform.

(* C: fake_wifi.h fake_wifi_ap *)
Record fake_wifi_ap : Type := {
  fa_ssid : list byte;               (**r WIFI_SSID_MAX_LEN + 1 bytes *)
  fa_ssid_len : nat;
  fa_bssid : list byte;
  fa_channel : Z;
  fa_rssi : Z;
  fa_security : Z;
}.

Definition WIFI_PSK_MAX_LEN : nat := 64.

(** Zephyr's values of the enumerations in a status. *)
Definition WIFI_STATE_DISCONNECTED : Z := 0.
Definition WIFI_STATE_COMPLETED : Z := 9.
Definition WIFI_FREQ_BAND_2_4_GHZ : Z := 0.
Definition WIFI_MODE_INFRA : Z := 0.
Definition WIFI_4 : Z := 4.
Definition WIFI_MFP_OPTIONAL : Z := 1.

(** struct wifi_iface_status, the members the driver or the library uses. *)
Record wifi_iface_status : Type := {
  is_state : Z;
  is_ssid_len : nat;
  is_ssid : list byte;               (**r WIFI_SSID_MAX_LEN + 1 bytes *)
  is_bssid : list byte;
  is_band : Z;
  is_channel : Z;
  is_iface_mode : Z;
  is_link_mode : Z;
  is_security : Z;
  is_mfp : Z;
  is_rssi : Z;
}.

(** [struct wifi_iface_status status = {0};] *)
Definition status_zero : wifi_iface_status :=
  {| is_state := 0; is_ssid_len := 0; is_ssid := zeros (S WIFI_SSID_MAX_LEN);
     is_bssid := zeros WIFI_MAC_ADDR_LEN; is_band := 0; is_channel := 0; is_iface_mode := 0;
     is_link_mode := 0; is_security := 0; is_mfp := 0; is_rssi := 0 |}.

(** Work items: submitting one that is queued has no further effect. *)
Class KWork : Type := {
  k_work : Type;
  work_pending : k_work -> bool;
  k_work_init : k_work -> k_work;
  k_work_submit : k_work -> k_work;
  k_work_start : k_work -> k_work;      (**r the work queue takes the item *)
  work_zero : k_work;
  work_pending_zero : work_pending work_zero = false;
  work_pending_init : forall w, work_pending (k_work_init w) = false;
  work_pending_submit : forall w, work_pending (k_work_submit w) = true;
  work_pending_start : forall w, work_pending (k_work_start w) = false;
}.

(** The driver's build option. *)
Class FakeConfig : Type := { CONFIG_POUCH_PROV_FAKE_WIFI_MAX_AP : nat }.

Section FakeWifi.
Context {FC : FakeConfig} {KW : KWork}.

(* C: fake_wifi.c 39-39 MAX_AP *)
Definition MAX_AP : nat := CONFIG_POUCH_PROV_FAKE_WIFI_MAX_AP.

(* C: fake_wifi.c fake_wifi_data *)
Record fake_wifi_data : Type := {
  fd_iface : option Z;
  fd_aps : list fake_wifi_ap;  (**r MAX_AP entries *)
  fd_ap_count : nat;
  fd_next_conn : Z;
  fd_next_sync_err : Z;
  fd_creds_mode : bool;
  fd_exp_ssid : list byte;  (**r WIFI_SSID_MAX_LEN + 1 bytes *)
  fd_exp_ssid_len : nat;
  fd_exp_pass : list byte;  (**r WIFI_PSK_MAX_LEN + 1 bytes *)
  fd_exp_pass_len : nat;
  fd_conn_ssid : list byte;  (**r WIFI_SSID_MAX_LEN + 1 bytes *)
  fd_conn_ssid_len : nat;
  fd_conn_channel : Z;
  fd_connected : bool;
  fd_scan_cb : bool;  (**r whether the callback is set *)
  fd_scan_work : k_work;
  fd_connect_work : k_work;
}.

Definition ap_none : fake_wifi_ap :=
  {| fa_ssid := zeros (S WIFI_SSID_MAX_LEN); fa_ssid_len := 0; fa_bssid := zeros WIFI_MAC_ADDR_LEN;
     fa_channel := 0; fa_rssi := 0; fa_security := 0 |}.

(* C: fake_wifi.c 76-78 fw_data *)
Definition fw_data : fake_wifi_data :=
  {| fd_iface := None; fd_aps := replicate MAX_AP ap_none; fd_ap_count := 0;
     fd_next_conn := WIFI_STATUS_CONN_SUCCESS; fd_next_sync_err := 0; fd_creds_mode := false;
     fd_exp_ssid := zeros (S WIFI_SSID_MAX_LEN); fd_exp_ssid_len := 0;
     fd_exp_pass := zeros (S WIFI_PSK_MAX_LEN); fd_exp_pass_len := 0;
     fd_conn_ssid := zeros (S WIFI_SSID_MAX_LEN); fd_conn_ssid_len := 0; fd_conn_channel := 0;
     fd_connected := false; fd_scan_cb := false; fd_scan_work := work_zero;
     fd_connect_work := work_zero |}.

(** Assignments to the members of [fw_data]. *)
Definition fset_iface (i : Z) (d : fake_wifi_data) : fake_wifi_data :=
  {|
     fd_iface := Some i; fd_aps := fd_aps d; fd_ap_count := fd_ap_count d; fd_next_conn :=
     fd_next_conn d; fd_next_sync_err := fd_next_sync_err d; fd_creds_mode := fd_creds_mode
     d; fd_exp_ssid := fd_exp_ssid d; fd_exp_ssid_len := fd_exp_ssid_len d; fd_exp_pass :=
     fd_exp_pass d; fd_exp_pass_len := fd_exp_pass_len d; fd_conn_ssid := fd_conn_ssid d;
     fd_conn_ssid_len := fd_conn_ssid_len d; fd_conn_channel := fd_conn_channel d;
     fd_connected := fd_connected d; fd_scan_cb := fd_scan_cb d; fd_scan_work :=
     fd_scan_work d; fd_connect_work := fd_connect_work d |}.
Definition fset_aps (l : list fake_wifi_ap) (d : fake_wifi_data) : fake_wifi_data :=
  {|
     fd_iface := fd_iface d; fd_aps := l; fd_ap_count := fd_ap_count d; fd_next_conn :=
     fd_next_conn d; fd_next_sync_err := fd_next_sync_err d; fd_creds_mode := fd_creds_mode
     d; fd_exp_ssid := fd_exp_ssid d; fd_exp_ssid_len := fd_exp_ssid_len d; fd_exp_pass :=
     fd_exp_pass d; fd_exp_pass_len := fd_exp_pass_len d; fd_conn_ssid := fd_conn_ssid d;
     fd_conn_ssid_len := fd_conn_ssid_len d; fd_conn_channel := fd_conn_channel d;
     fd_connected := fd_connected d; fd_scan_cb := fd_scan_cb d; fd_scan_work :=
     fd_scan_work d; fd_connect_work := fd_connect_work d |}.
Definition fset_ap_count (n : nat) (d : fake_wifi_data) : fake_wifi_data :=
  {|
     fd_iface := fd_iface d; fd_aps := fd_aps d; fd_ap_count := n; fd_next_conn :=
     fd_next_conn d; fd_next_sync_err := fd_next_sync_err d; fd_creds_mode := fd_creds_mode
     d; fd_exp_ssid := fd_exp_ssid d; fd_exp_ssid_len := fd_exp_ssid_len d; fd_exp_pass :=
     fd_exp_pass d; fd_exp_pass_len := fd_exp_pass_len d; fd_conn_ssid := fd_conn_ssid d;
     fd_conn_ssid_len := fd_conn_ssid_len d; fd_conn_channel := fd_conn_channel d;
     fd_connected := fd_connected d; fd_scan_cb := fd_scan_cb d; fd_scan_work :=
     fd_scan_work d; fd_connect_work := fd_connect_work d |}.
Definition fset_next_conn (z : Z) (d : fake_wifi_data) : fake_wifi_data :=
  {|
     fd_iface := fd_iface d; fd_aps := fd_aps d; fd_ap_count := fd_ap_count d; fd_next_conn
     := z; fd_next_sync_err := fd_next_sync_err d; fd_creds_mode := fd_creds_mode d;
     fd_exp_ssid := fd_exp_ssid d; fd_exp_ssid_len := fd_exp_ssid_len d; fd_exp_pass :=
     fd_exp_pass d; fd_exp_pass_len := fd_exp_pass_len d; fd_conn_ssid := fd_conn_ssid d;
     fd_conn_ssid_len := fd_conn_ssid_len d; fd_conn_channel := fd_conn_channel d;
     fd_connected := fd_connected d; fd_scan_cb := fd_scan_cb d; fd_scan_work :=
     fd_scan_work d; fd_connect_work := fd_connect_work d |}.
Definition fset_next_sync_err (z : Z) (d : fake_wifi_data) : fake_wifi_data :=
  {|
     fd_iface := fd_iface d; fd_aps := fd_aps d; fd_ap_count := fd_ap_count d; fd_next_conn
     := fd_next_conn d; fd_next_sync_err := z; fd_creds_mode := fd_creds_mode d; fd_exp_ssid
     := fd_exp_ssid d; fd_exp_ssid_len := fd_exp_ssid_len d; fd_exp_pass := fd_exp_pass d;
     fd_exp_pass_len := fd_exp_pass_len d; fd_conn_ssid := fd_conn_ssid d; fd_conn_ssid_len
     := fd_conn_ssid_len d; fd_conn_channel := fd_conn_channel d; fd_connected :=
     fd_connected d; fd_scan_cb := fd_scan_cb d; fd_scan_work := fd_scan_work d;
     fd_connect_work := fd_connect_work d |}.
Definition fset_creds_mode (b : bool) (d : fake_wifi_data) : fake_wifi_data :=
  {|
     fd_iface := fd_iface d; fd_aps := fd_aps d; fd_ap_count := fd_ap_count d; fd_next_conn
     := fd_next_conn d; fd_next_sync_err := fd_next_sync_err d; fd_creds_mode := b;
     fd_exp_ssid := fd_exp_ssid d; fd_exp_ssid_len := fd_exp_ssid_len d; fd_exp_pass :=
     fd_exp_pass d; fd_exp_pass_len := fd_exp_pass_len d; fd_conn_ssid := fd_conn_ssid d;
     fd_conn_ssid_len := fd_conn_ssid_len d; fd_conn_channel := fd_conn_channel d;
     fd_connected := fd_connected d; fd_scan_cb := fd_scan_cb d; fd_scan_work :=
     fd_scan_work d; fd_connect_work := fd_connect_work d |}.
Definition fset_exp_ssid (l : list byte) (n : nat) (d : fake_wifi_data) : fake_wifi_data :=
  {|
     fd_iface := fd_iface d; fd_aps := fd_aps d; fd_ap_count := fd_ap_count d; fd_next_conn
     := fd_next_conn d; fd_next_sync_err := fd_next_sync_err d; fd_creds_mode :=
     fd_creds_mode d; fd_exp_ssid := l; fd_exp_ssid_len := n; fd_exp_pass := fd_exp_pass d;
     fd_exp_pass_len := fd_exp_pass_len d; fd_conn_ssid := fd_conn_ssid d; fd_conn_ssid_len
     := fd_conn_ssid_len d; fd_conn_channel := fd_conn_channel d; fd_connected :=
     fd_connected d; fd_scan_cb := fd_scan_cb d; fd_scan_work := fd_scan_work d;
     fd_connect_work := fd_connect_work d |}.
Definition fset_exp_pass (l : list byte) (n : nat) (d : fake_wifi_data) : fake_wifi_data :=
  {|
     fd_iface := fd_iface d; fd_aps := fd_aps d; fd_ap_count := fd_ap_count d; fd_next_conn
     := fd_next_conn d; fd_next_sync_err := fd_next_sync_err d; fd_creds_mode :=
     fd_creds_mode d; fd_exp_ssid := fd_exp_ssid d; fd_exp_ssid_len := fd_exp_ssid_len d;
     fd_exp_pass := l; fd_exp_pass_len := n; fd_conn_ssid := fd_conn_ssid d;
     fd_conn_ssid_len := fd_conn_ssid_len d; fd_conn_channel := fd_conn_channel d;
     fd_connected := fd_connected d; fd_scan_cb := fd_scan_cb d; fd_scan_work :=
     fd_scan_work d; fd_connect_work := fd_connect_work d |}.
Definition fset_conn_ssid (l : list byte) (n : nat) (d : fake_wifi_data) : fake_wifi_data :=
  {|
     fd_iface := fd_iface d; fd_aps := fd_aps d; fd_ap_count := fd_ap_count d; fd_next_conn
     := fd_next_conn d; fd_next_sync_err := fd_next_sync_err d; fd_creds_mode :=
     fd_creds_mode d; fd_exp_ssid := fd_exp_ssid d; fd_exp_ssid_len := fd_exp_ssid_len d;
     fd_exp_pass := fd_exp_pass d; fd_exp_pass_len := fd_exp_pass_len d; fd_conn_ssid := l;
     fd_conn_ssid_len := n; fd_conn_channel := fd_conn_channel d; fd_connected :=
     fd_connected d; fd_scan_cb := fd_scan_cb d; fd_scan_work := fd_scan_work d;
     fd_connect_work := fd_connect_work d |}.
Definition fset_conn_channel (z : Z) (d : fake_wifi_data) : fake_wifi_data :=
  {|
     fd_iface := fd_iface d; fd_aps := fd_aps d; fd_ap_count := fd_ap_count d; fd_next_conn
     := fd_next_conn d; fd_next_sync_err := fd_next_sync_err d; fd_creds_mode :=
     fd_creds_mode d; fd_exp_ssid := fd_exp_ssid d; fd_exp_ssid_len := fd_exp_ssid_len d;
     fd_exp_pass := fd_exp_pass d; fd_exp_pass_len := fd_exp_pass_len d; fd_conn_ssid :=
     fd_conn_ssid d; fd_conn_ssid_len := fd_conn_ssid_len d; fd_conn_channel := z;
     fd_connected := fd_connected d; fd_scan_cb := fd_scan_cb d; fd_scan_work :=
     fd_scan_work d; fd_connect_work := fd_connect_work d |}.
Definition fset_connected (b : bool) (d : fake_wifi_data) : fake_wifi_data :=
  {|
     fd_iface := fd_iface d; fd_aps := fd_aps d; fd_ap_count := fd_ap_count d; fd_next_conn
     := fd_next_conn d; fd_next_sync_err := fd_next_sync_err d; fd_creds_mode :=
     fd_creds_mode d; fd_exp_ssid := fd_exp_ssid d; fd_exp_ssid_len := fd_exp_ssid_len d;
     fd_exp_pass := fd_exp_pass d; fd_exp_pass_len := fd_exp_pass_len d; fd_conn_ssid :=
     fd_conn_ssid d; fd_conn_ssid_len := fd_conn_ssid_len d; fd_conn_channel :=
     fd_conn_channel d; fd_connected := b; fd_scan_cb := fd_scan_cb d; fd_scan_work :=
     fd_scan_work d; fd_connect_work := fd_connect_work d |}.
Definition fset_scan_cb (b : bool) (d : fake_wifi_data) : fake_wifi_data :=
  {|
     fd_iface := fd_iface d; fd_aps := fd_aps d; fd_ap_count := fd_ap_count d; fd_next_conn
     := fd_next_conn d; fd_next_sync_err := fd_next_sync_err d; fd_creds_mode :=
     fd_creds_mode d; fd_exp_ssid := fd_exp_ssid d; fd_exp_ssid_len := fd_exp_ssid_len d;
     fd_exp_pass := fd_exp_pass d; fd_exp_pass_len := fd_exp_pass_len d; fd_conn_ssid :=
     fd_conn_ssid d; fd_conn_ssid_len := fd_conn_ssid_len d; fd_conn_channel :=
     fd_conn_channel d; fd_connected := fd_connected d; fd_scan_cb := b; fd_scan_work :=
     fd_scan_work d; fd_connect_work := fd_connect_work d |}.
Definition fset_scan_work (f : k_work -> k_work) (d : fake_wifi_data) : fake_wifi_data :=
  {|
     fd_iface := fd_iface d; fd_aps := fd_aps d; fd_ap_count := fd_ap_count d; fd_next_conn
     := fd_next_conn d; fd_next_sync_err := fd_next_sync_err d; fd_creds_mode :=
     fd_creds_mode d; fd_exp_ssid := fd_exp_ssid d; fd_exp_ssid_len := fd_exp_ssid_len d;
     fd_exp_pass := fd_exp_pass d; fd_exp_pass_len := fd_exp_pass_len d; fd_conn_ssid :=
     fd_conn_ssid d; fd_conn_ssid_len := fd_conn_ssid_len d; fd_conn_channel :=
     fd_conn_channel d; fd_connected := fd_connected d; fd_scan_cb := fd_scan_cb d;
     fd_scan_work := f (fd_scan_work d); fd_connect_work := fd_connect_work d |}.
Definition fset_connect_work (f : k_work -> k_work) (d : fake_wifi_data) : fake_wifi_data :=
  {|
     fd_iface := fd_iface d; fd_aps := fd_aps d; fd_ap_count := fd_ap_count d; fd_next_conn
     := fd_next_conn d; fd_next_sync_err := fd_next_sync_err d; fd_creds_mode :=
     fd_creds_mode d; fd_exp_ssid := fd_exp_ssid d; fd_exp_ssid_len := fd_exp_ssid_len d;
     fd_exp_pass := fd_exp_pass d; fd_exp_pass_len := fd_exp_pass_len d; fd_conn_ssid :=
     fd_conn_ssid d; fd_conn_ssid_len := fd_conn_ssid_len d; fd_conn_channel :=
     fd_conn_channel d; fd_connected := fd_connected d; fd_scan_cb := fd_scan_cb d;
     fd_scan_work := fd_scan_work d; fd_connect_work := f (fd_connect_work d) |}.

(** A function of the driver. *)
Definition D (A : Type) : Type := M fake_wifi_data A.

(** ** The control interface of the tests *)

(* C: fake_wifi.c fake_wifi_set_scan_aps *)
Definition fake_wifi_set_scan_aps (aps : list fake_wifi_ap) (count : nat) : D unit :=
  let count := if (MAX_AP <? count)%nat then MAX_AP else count in
  mmod (fset_ap_count count) ;;;
  mwhen (0 <? count)%nat
    (mguard (count <=? length aps)%nat ;;;
     old <- mget fd_aps ;;
     mguard (count <=? length old)%nat ;;;
     mmod (fset_aps (take count aps ++ drop count old))).

(* C: fake_wifi.c fake_wifi_set_next_connect_result *)
Definition fake_wifi_set_next_connect_result (status : Z) : D unit := mmod (fset_next_conn status).

(* C: fake_wifi.c fake_wifi_set_next_connect_sync_error *)
Definition fake_wifi_set_next_connect_sync_error (errnum : Z) : D unit :=
  mmod (fset_next_sync_err errnum).

(** C strings are lists without a terminator; a null pointer is [None]. *)
(* C: fake_wifi.c fake_wifi_set_expected_credentials *)
Definition fake_wifi_set_expected_credentials (ssid pass : option (list byte)) : D unit :=
  match ssid with
  | None | Some [] => mmod (fset_creds_mode false)
  | Some ssid =>
      mmod (fset_creds_mode true) ;;;
      let n := Nat.min (length ssid) WIFI_SSID_MAX_LEN in
      old <- mget fd_exp_ssid ;;
      mguard (buf_fits 0 (take n ssid) old) ;;;
      mmod (fset_exp_ssid (buf_write 0 (take n ssid) old) n) ;;;
      let n := match pass with Some p => Nat.min (length p) WIFI_PSK_MAX_LEN | None => 0%nat end in
      old <- mget fd_exp_pass ;;
      mmod (fset_exp_pass old n) ;;;
      match pass with
      | Some p =>
          mwhen (0 <? n)%nat
            (mguard (buf_fits 0 (take n p) old) ;;;
             mmod (fset_exp_pass (buf_write 0 (take n p) old) n))
      | None => mret tt
      end
  end.

(* C: fake_wifi.c fake_wifi_reset *)
Definition fake_wifi_reset : D unit :=
  mmod (fset_ap_count 0) ;;;
  mmod (fset_next_conn WIFI_STATUS_CONN_SUCCESS) ;;;
  mmod (fset_next_sync_err 0) ;;;
  mmod (fset_creds_mode false) ;;;
  mmod (fun d => fset_exp_ssid (fd_exp_ssid d) 0 d) ;;;
  mmod (fun d => fset_exp_pass (fd_exp_pass d) 0 d) ;;;
  mmod (fset_connected false) ;;;
  mmod (fun d => fset_conn_ssid (fd_conn_ssid d) 0 d).

(** ** Connect outcomes *)

(** [memcmp(a, b, n) == 0] *)
Definition mem_eq (a b : list byte) (n : nat) : D bool :=
  mguard ((n <=? length a) && (n <=? length b))%nat ;;; mret (bool_decide (take n a = take n b)).

(** The loop from index [i] over the [n] entries left. *)
(* C: fake_wifi.c 135-140 ssid_in_scan_list *)
Fixpoint ssid_in_from (aps : list fake_wifi_ap) (i n : nat) (ssid : list byte) : D bool :=
  match n with
  | O => mret false
  | S n' =>
      match aps !! i with
      | None => mub
      | Some ap =>
          hit <- (if (fa_ssid_len ap =? length ssid)%nat
                  then mem_eq (fa_ssid ap) ssid (length ssid) else mret false) ;;
          if hit then mret true else ssid_in_from aps (S i) n' ssid
      end
  end.

(* C: fake_wifi.c ssid_in_scan_list *)
Definition ssid_in_scan_list (ssid : list byte) : D bool :=
  aps <- mget fd_aps ;;
  n <- mget fd_ap_count ;;
  ssid_in_from aps 0 n ssid.

(** [p->psk] and [p->psk_length] *)
Definition psk_bytes (p : wifi_connect_req_params) : list byte :=
  match cp_psk p with Some k => k | None => [] end.

(* C: fake_wifi.c creds_outcome *)
Definition creds_outcome (p : wifi_connect_req_params) : D Z :=
  known <- ssid_in_scan_list (cp_ssid p) ;;
  if negb known then mret WIFI_STATUS_CONN_AP_NOT_FOUND else
  d <- mget (fun d => d) ;;
  if negb (length (cp_ssid p) =? fd_exp_ssid_len d)%nat then mret WIFI_STATUS_CONN_WRONG_PASSWORD else
  same <- mem_eq (cp_ssid p) (fd_exp_ssid d) (fd_exp_ssid_len d) ;;
  if negb same || negb (length (psk_bytes p) =? fd_exp_pass_len d)%nat
  then mret WIFI_STATUS_CONN_WRONG_PASSWORD else
  same <- (if (0 <? fd_exp_pass_len d)%nat
           then mem_eq (psk_bytes p) (fd_exp_pass d) (fd_exp_pass_len d) else mret true) ;;
  mret (if same then WIFI_STATUS_CONN_SUCCESS else WIFI_STATUS_CONN_WRONG_PASSWORD).

(** ** The work items *)

(** The result reported for an entry; the members that the library does not
    read are left out. *)
(* C: fake_wifi.c 167-178 scan_work_fn *)
Definition scan_result_of (ap : fake_wifi_ap) : D wifi_scan_result :=
  let n := Nat.min (fa_ssid_len ap) WIFI_SSID_MAX_LEN in
  mguard (n <=? length (fa_ssid ap))%nat ;;;
  mret {| sr_ssid := buf_write 0 (take n (fa_ssid ap)) (zeros (S WIFI_SSID_MAX_LEN));
          sr_ssid_length := n; sr_mac := take WIFI_MAC_ADDR_LEN (fa_bssid ap);
          sr_channel := fa_channel ap; sr_rssi := fa_rssi ap; sr_security := fa_security ap |}.

(* C: fake_wifi.c 166-181 scan_work_fn *)
Fixpoint scan_results_from (aps : list fake_wifi_ap) (i n : nat) : D (list wifi_scan_result) :=
  match n with
  | O => mret []
  | S n' =>
      match aps !! i with
      | None => mub
      | Some ap =>
          r <- scan_result_of ap ;;
          rs <- scan_results_from aps (S i) n' ;;
          mret (r :: rs)
      end
  end.

(** The calls of the scan callback, in order; [None] is its null entry. *)
(* C: fake_wifi.c scan_work_fn *)
Definition scan_work_fn : D (list (option wifi_scan_result)) :=
  cb <- mget fd_scan_cb ;;
  mguard cb ;;;
  aps <- mget fd_aps ;;
  n <- mget fd_ap_count ;;
  rs <- scan_results_from aps 0 n ;;
  mret (map Some rs ++ [None]).

(** The status of the connect-result event it raises. *)
(* C: fake_wifi.c connect_work_fn *)
Definition connect_work_fn : D Z :=
  status <- mget fd_next_conn ;;
  mmod (fset_connected (status =? WIFI_STATUS_CONN_SUCCESS)) ;;;
  mret status.

(** ** The wifi_mgmt operations *)

(* C: fake_wifi.c fake_scan *)
Definition fake_scan : D Z :=
  mmod (fset_scan_cb true) ;;;
  mmod (fset_scan_work k_work_submit) ;;;
  mret 0.

(* C: fake_wifi.c fake_connect *)
Definition fake_connect (params : wifi_connect_req_params) : D Z :=
  err <- mget fd_next_sync_err ;;
  if negb (err =? 0) then
    mmod (fset_next_sync_err 0) ;;;
    mret (- err)
  else
  creds <- mget fd_creds_mode ;;
  mwhen creds
    (status <- creds_outcome params ;;
     mmod (fset_next_conn status)) ;;;
  let n := Nat.min (length (cp_ssid params)) WIFI_SSID_MAX_LEN in
  old <- mget fd_conn_ssid ;;
  mguard (buf_fits 0 (take n (cp_ssid params)) old) ;;;
  mmod (fset_conn_ssid (buf_write 0 (take n (cp_ssid params)) old) n) ;;;
  mmod (fset_conn_channel (if cp_channel params =? WIFI_CHANNEL_ANY then 1 else cp_channel params)) ;;;
  mmod (fset_connect_work k_work_submit) ;;;
  mret 0.

(** Its return value and the status of the disconnect event it raises. *)
(* C: fake_wifi.c fake_disconnect *)
Definition fake_disconnect : D (Z * Z) :=
  mmod (fset_connected false) ;;;
  mret (0, 0).

(* C: fake_wifi.c fake_ap_enable *)
Definition fake_ap_enable (params : wifi_connect_req_params) : D Z := mret 0.

(* C: fake_wifi.c fake_ap_disable *)
Definition fake_ap_disable : D Z := mret 0.

(* C: fake_wifi.c fake_iface_status *)
Definition fake_iface_status (status : wifi_iface_status) : D (Z * wifi_iface_status) :=
  d <- mget (fun d => d) ;;
  if negb (fd_connected d) then
    mret (0, {| is_state := WIFI_STATE_DISCONNECTED; is_ssid_len := is_ssid_len status;
                is_ssid := is_ssid status; is_bssid := is_bssid status; is_band := is_band status;
                is_channel := is_channel status; is_iface_mode := is_iface_mode status;
                is_link_mode := is_link_mode status; is_security := is_security status;
                is_mfp := is_mfp status; is_rssi := is_rssi status |})
  else
  let n := fd_conn_ssid_len d in
  mguard ((n <=? length (fd_conn_ssid d))%nat && buf_fits 0 (take n (fd_conn_ssid d)) (is_ssid status)) ;;;
  mret (0, {| is_state := WIFI_STATE_COMPLETED; is_ssid_len := n;
              is_ssid := buf_write 0 (take n (fd_conn_ssid d)) (is_ssid status);
              is_bssid := replicate WIFI_MAC_ADDR_LEN xab; is_band := WIFI_FREQ_BAND_2_4_GHZ;
              is_channel := fd_conn_channel d; is_iface_mode := WIFI_MODE_INFRA;
              is_link_mode := WIFI_4; is_security := WIFI_SECURITY_TYPE_PSK;
              is_mfp := WIFI_MFP_OPTIONAL; is_rssi := is_rssi status |}).

(** struct wifi_mgmt_ops, the members the driver sets. *)
Record wifi_mgmt_ops : Type := {
  op_scan : D Z;
  op_connect : wifi_connect_req_params -> D Z;
  op_disconnect : D (Z * Z);
  op_ap_enable : wifi_connect_req_params -> D Z;
  op_ap_disable : D Z;
  op_iface_status : wifi_iface_status -> D (Z * wifi_iface_status);
}.

(** How Zephyr calls the driver. *)
(* C: fake_wifi.c 280-287 fake_mgmt_ops *)
Definition fake_mgmt_ops : wifi_mgmt_ops := {|
  op_scan := fake_scan;
  op_connect := fake_connect;
  op_disconnect := fake_disconnect;
  op_ap_enable := fake_ap_enable;
  op_ap_disable := fake_ap_disable;
  op_iface_status := fake_iface_status;
|}.

(** ** Registration *)

(** What the interface hands Zephyr: its address and that it is a Wi-Fi one. *)
(* C: fake_wifi.c 298-298 fake_mac *)
Definition fake_mac : list byte := [x02; x00; x5e; x00; x53; x01].

(* C: fake_wifi.c fake_iface_init *)
Definition fake_iface_init (iface : Z) : D (list byte) :=
  mmod (fset_iface iface) ;;;
  mret fake_mac.

(* C: fake_wifi.c fake_get_caps *)
Definition fake_get_caps : Z := 0.

(* C: fake_wifi.c fake_send *)
Definition fake_send (pkt : list byte) : D Z := mret 0.

(** struct net_wifi_mgmt_offload, the members the driver sets. *)
Record net_wifi_mgmt_offload : Type := {
  wifi_iface_init : Z -> D (list byte);
  wifi_get_capabilities : Z;
  wifi_send : list byte -> D Z;
  wifi_mgmt_api : wifi_mgmt_ops;
}.

(** The interface the driver registers. *)
(* C: fake_wifi.c 332-337 fake_wifi_api *)
Definition fake_wifi_api : net_wifi_mgmt_offload := {|
  wifi_iface_init := fake_iface_init;
  wifi_get_capabilities := fake_get_caps;
  wifi_send := fake_send;
  wifi_mgmt_api := fake_mgmt_ops;
|}.

(* C: fake_wifi.c fake_wifi_init *)
Definition fake_wifi_init : D Z :=
  mmod (fset_scan_work k_work_init) ;;;
  mmod (fset_connect_work k_work_init) ;;;
  mret 0.
End FakeWifi.
