(* ===== verification/Dispatch.v ===== *)
(** * The downlink dispatcher (src/src/dispatch.c)

    Reassembly of a request from the downlink entries, the authorization gate,
    the call of the endpoint's handler and the queueing of the reply. *)

From S2P Require Import Prelude ProvTypes Zcbor Schema Codec Platform State Rpc Session Auth.
From S2P Require Import CredHandler WifiScan WifiConfig Version Manager Ctrl.

Section Dispatch.
Context {KC : Kconfig} {K : Kernel} {P : Platform} {CD : Codec}.

(* C: dispatch.c 29-45 endpoints *)
Definition endpoints : list pouch_prov_endpoint :=
  [{| ep_path := POUCH_PROV_PATH_VER; ep_handler := pouch_prov_handle_ver_p;
      ep_require_auth := false |}] ++
  (if CONFIG_POUCH_PROV_AUTH then
     [{| ep_path := POUCH_PROV_PATH_AUTH; ep_handler := pouch_prov_handle_auth_p;
         ep_require_auth := false |}] else []) ++
  [{| ep_path := POUCH_PROV_PATH_CTRL; ep_handler := pouch_prov_handle_ctrl_p;
      ep_require_auth := true |}] ++
  (if CONFIG_POUCH_PROV_WIFI then
     [{| ep_path := POUCH_PROV_PATH_CONFIG; ep_handler := pouch_prov_handle_config_p;
         ep_require_auth := true |};
      {| ep_path := POUCH_PROV_PATH_SCAN; ep_handler := pouch_prov_handle_scan_p;
         ep_require_auth := true |}] else []) ++
  (if CONFIG_POUCH_PROV_CRED then
     [{| ep_path := POUCH_PROV_PATH_CRED; ep_handler := pouch_prov_handle_cred_p;
         ep_require_auth := true |}] else []).

(* C: pouch_prov_internal.h 49-50 pouch_prov_handler_t *)
Definition run_handler (h : handler_id) : list byte -> nat -> C hres :=
  match h with
  | pouch_prov_handle_ver_p => pouch_prov_handle_ver
  | pouch_prov_handle_auth_p => pouch_prov_handle_auth
  | pouch_prov_handle_ctrl_p => pouch_prov_handle_ctrl
  | pouch_prov_handle_config_p => pouch_prov_handle_config
  | pouch_prov_handle_scan_p => pouch_prov_handle_scan
  | pouch_prov_handle_cred_p => pouch_prov_handle_cred
  end.

(* C: dispatch.c respond_status *)
Definition respond_status (path : string) (op : Z) (status : prov_status_r) : C unit :=
  match cbor_encode_ctrl_rsp 16
          {| ctrl_rsp_ctrl_op_m := op; ctrl_rsp_prov_status_m := status |} with
  | Some buf => err <- pouch_prov_rpc_enqueue path buf ;; mret tt
  | None => mret tt
  end.

(* C: dispatch.c peek_op *)
Definition peek_op (msg : list byte) : Z :=
  match msg with
  | b0 :: b1 :: _ =>
      if (129 <=? b2z b0) && (b2z b0 <=? 132) && (b2z b1 <=? 23) then b2z b1 else 0
  | _ => 0
  end.

(** [for (i) if (strcmp(endpoints[i].path, path) == 0)] *)
(* C: dispatch.c 118-123 downlink_start *)
Fixpoint find_endpoint (path : string) (l : list pouch_prov_endpoint)
  : option pouch_prov_endpoint :=
  match l with
  | [] => None
  | e :: l' => if String.eqb (ep_path e) path then Some e else find_endpoint path l'
  end.

Definition set_endpoint (e : option pouch_prov_endpoint) : device -> device :=
  set_active (fun a => {| act_endpoint := e; act_len := act_len a;
    act_overflow := act_overflow a; act_buf := act_buf a |}).
Definition set_overflow (b : bool) : device -> device :=
  set_active (fun a => {| act_endpoint := act_endpoint a; act_len := act_len a;
    act_overflow := b; act_buf := act_buf a |}).
Definition set_act_len (n : nat) : device -> device :=
  set_active (fun a => {| act_endpoint := act_endpoint a; act_len := n;
    act_overflow := act_overflow a; act_buf := act_buf a |}).
Definition set_act_buf (b : list byte) : device -> device :=
  set_active (fun a => {| act_endpoint := act_endpoint a; act_len := act_len a;
    act_overflow := act_overflow a; act_buf := b |}).

(* C: dispatch.c downlink_start *)
Definition downlink_start (stream_id : Z) (path : string) (content_type : Z) : C unit :=
  put (set_endpoint None) ;;;
  put (set_act_len 0) ;;;
  put (set_overflow false) ;;;
  if negb (stream_id =? 0) || negb (String.prefix ".prov/" path) then mret tt else
  if negb (content_type =? POUCH_CONTENT_TYPE_CBOR) then mret tt else
  match find_endpoint path endpoints with
  | Some e => put (set_endpoint (Some e))
  | None => mret tt
  end.

(** The chunk is appended, or the overflow noted. *)
(* C: dispatch.c 136-141 downlink_data *)
Definition append_chunk (data : list byte) : C unit :=
  a <- get d_active ;;
  if (POUCH_PROV_MSG_MAX <? act_len a + length data)%nat then put (set_overflow true) else
  mguard (buf_fits (act_len a) data (act_buf a)) ;;;
  put (set_act_buf (buf_write (act_len a) data (act_buf a))) ;;;
  put (set_act_len (act_len a + length data)%nat).

(** The request as the handler sees it: [active.buf] and [active.len]. *)
Definition request (d : device) : list byte := take (act_len (d_active d)) (act_buf (d_active d)).

(** The complete request is answered. *)
(* C: dispatch.c 149-182 downlink_data *)
Definition process (ep : pouch_prov_endpoint) : C unit :=
  overflow <- get (fun d => act_overflow (d_active d)) ;;
  if overflow then respond_status (ep_path ep) 0 prov_status_status_invalid_argument_m_c else
  authorized <- get pouch_prov_session_authorized ;;
  req <- get request ;;
  if ep_require_auth ep && negb authorized then
    respond_status (ep_path ep) (peek_op req) prov_status_status_unauthorized_m_c
  else
  r <- run_handler (ep_handler ep) req POUCH_PROV_MSG_MAX ;;
  match r with
  | HErr err =>
      req <- get request ;;
      respond_status (ep_path ep) (peek_op req)
        (if err =? - EBADMSG then prov_status_status_invalid_argument_m_c
         else prov_status_status_internal_error_m_c)
  | HOk rsp =>
      mwhen (0 <? length rsp)%nat (err <- pouch_prov_rpc_enqueue (ep_path ep) rsp ;; mret tt)
  end.

(* C: dispatch.c downlink_data *)
Definition downlink_data (stream_id : Z) (data : list byte) (is_last : bool) : C unit :=
  ep <- get (fun d => act_endpoint (d_active d)) ;;
  match ep with
  | None => mret tt
  | Some ep =>
      if negb (stream_id =? 0) then mret tt else
      append_chunk data ;;;
      if negb is_last then mret tt else
      put (set_endpoint None) ;;;
      process ep
  end.
End Dispatch.
