(* ===== verification/System.v ===== *)
(** * The whole device

    The state before main, the entry points the platform calls as events, and
    the transitions of the device: one event at a time, since every handler
    runs to its end on its work queue, with arbitrary changes of the world in
    between.  Blocking waits are given the events that run meanwhile. *)

From S2P Require Import Prelude ProvTypes Codec Platform State Rpc Session Auth CredStore.
From S2P Require Import WifiScan WifiConfig Adv Identity Manager Dispatch.

Section System.
Context {KC : Kconfig} {K : Kernel} {P : Platform} {CD : Codec}.

Definition active_boot : active_t :=
  {| act_endpoint := None; act_len := 0; act_overflow := false;
     act_buf := zeros POUCH_PROV_MSG_MAX |}.

Definition config_boot : pouch_prov_config :=
  {| cfg_pop := None; cfg_device_id := None; cfg_wifi_conn_attempts := 0;
     cfg_event_cb := false |}.

(** [flags] is the initial value of the service data's flags, which pouch's
    initialiser macro sets. *)
Definition device_boot (flags : Z) : device :=
  {| d_active := active_boot;
     d_authorized := false;
     d_rpc := {| rp_fifo := fifo_empty; rp_ready := sem_init |};
     d_auth := auth_zero;
     d_scan := scan_init;
     d_wifi := wifi_boot;
     d_blobs := blobs_init;
     d_ident := ident_boot;
     d_adv := {| adv_flags := flags; adv_device_name := []; adv_name_len := 0;
                 adv_enabled := false |};
     d_mgr := {| mg_config := config_boot; mg_initialized := false; mg_running := false;
                 mg_events := event_init; mg_autostop_work := work_undefined |} |}.

(** Calls into the library: by pouch, Bluetooth, the network stack, the work
    queue and the application. *)
Inductive event : Type :=
| EvDownlinkStart (stream_id : Z) (path : string) (content_type : Z)
| EvDownlinkData (stream_id : Z) (data : list byte) (is_last : bool)
| EvUplink
| EvConnected (err : Z)
| EvDisconnected (reason : Z)
| EvRecycled
| EvScan (ev : scan_event)
| EvConnectResult (status : Z)
| EvRetryWork
| EvAutostopWork
| EvInit (cfg : option pouch_prov_config)
| EvStart
| EvStop
| EvReset
| EvSecurityChanged (level err : Z)
| EvPouch (ev : pouch_event).

(** The work queue starts an item only while it is armed; pouch calls its
    handlers only after [pouch_init], which [pouch_prov_mgr_init] calls; a scan
    result is a value of its C type. *)
Definition enabled (e : event) (d : device) : Prop :=
  match e with
  | EvDownlinkStart _ _ _ | EvDownlinkData _ _ _ | EvUplink => mg_initialized (d_mgr d) = true
  | EvScan (NET_EVENT_WIFI_SCAN_RESULT r) => result_typed r
  | EvRetryWork => work_due (wc_retry_work (d_wifi d)) <> None
  | EvAutostopWork => work_due (mg_autostop_work (d_mgr d)) <> None
  | _ => True
  end.

Definition ignore {A} (m : C A) : C unit := r <- m ;; mret tt.

Definition handle (e : event) : C unit :=
  match e with
  | EvDownlinkStart sid path ct => downlink_start sid path ct
  | EvDownlinkData sid data last => downlink_data sid data last
  | EvUplink => rpc_uplink_flush (mret tt)
  | EvConnected err => cb_connected prov_conn_callbacks err
  | EvDisconnected reason => cb_disconnected prov_conn_callbacks reason
  | EvRecycled => cb_recycled prov_conn_callbacks
  | EvScan ev => scan_mgmt_event ev
  | EvConnectResult status => config_mgmt_event true status
  | EvRetryWork => put (set_retry_work k_work_taken) ;;; retry_work_handler
  | EvAutostopWork => put (set_autostop k_work_taken) ;;; autostop_handler
  | EvInit cfg => ignore (pouch_prov_mgr_init cfg)
  | EvStart => ignore pouch_prov_mgr_start
  | EvStop => ignore pouch_prov_mgr_stop
  | EvReset => ignore pouch_prov_mgr_reset
  | EvSecurityChanged level err => cb_security_changed prov_conn_callbacks level err
  | EvPouch ev => pouch_event_handler ev
  end.

(** One transition of device and world. *)
Inductive step : st -> st -> Prop :=
| step_event e s s' : enabled e (s_dev s) -> handle e s = Some (tt, s') -> step s s'
| step_world s w : step s {| s_dev := s_dev s; s_env := w |}.

Inductive reachable (flags : Z) : st -> Prop :=
| reach_boot w : reachable flags {| s_dev := device_boot flags; s_env := w |}
| reach_step s s' : reachable flags s -> step s s' -> reachable flags s'.

(** A run of events, the world changing only through them. *)
Fixpoint run_events (es : list event) : C unit :=
  match es with
  | [] => mret tt
  | e :: es' => handle e ;;; run_events es'
  end.
End System.

(** The function an event calls. *)
Ltac handle_cbn :=
  cbn [handle prov_conn_callbacks cb_connected cb_disconnected cb_security_changed cb_recycled
       enabled] in *.
