(* ===== verification/Samples.v ===== *)
(** * The sample applications (src/samples)

    What an application does with the library: initialise, start and wait, or
    skip provisioning when the credentials are there.  Logging is left out.  A
    main function returns [None] while it still waits for provisioning to end;
    what the other threads do meanwhile is the argument [others]. *)

From S2P Require Import Prelude ProvTypes Codec Platform State Rpc Session CredStore WifiConfig.
From S2P Require Import Manager.

Definition ETIMEDOUT : Z := 116.

(** The samples' build option. *)
Class SampleConfig : Type := { CONFIG_SAMPLE_POP : list byte }.

(** The credentials handed to the Golioth client; a null pointer is [None], and
    the length that goes with it is left out (of the certificate and the key it
    is whatever the stack held). *)
Record golioth_client_config : Type := {
  gc_public_cert : option (list byte);
  gc_private_key : option (list byte);
  gc_ca_cert : option (list byte);
}.

(** The Golioth SDK and the stored-credential connect request. *)
Class GoliothSdk (P : Platform) : Type := {
  golioth_client_create : golioth_client_config -> W -> bool * W;   (**r whether not NULL *)
  golioth_client_wait_for_connect : Z -> W -> bool * W;
  net_mgmt_wifi_connect_stored : Z -> W -> Z * W;
}.

Section Samples.
Context {KC : Kconfig} {K : Kernel} {P : Platform} {CD : Codec} {SC : SampleConfig}.

(** [pouch_prov_mgr_wait(K_FOREVER)]: whether it has returned. *)
Definition wait_forever (others : C unit) : C bool :=
  r <- pouch_prov_mgr_wait others ;; mret (r =? 0).

(** ** src/samples/basic *)

(* C: basic.c 23-27 main *)
Definition basic_config : pouch_prov_config :=
  {| cfg_pop := match CONFIG_SAMPLE_POP with [] => None | p => Some p end;
     cfg_device_id := Some "pouch-prov-basic"%string; cfg_wifi_conn_attempts := 0;
     cfg_event_cb := true |}.

(* C: basic.c main *)
Definition basic_main (others : C unit) : C (option Z) :=
  err <- pouch_prov_mgr_init (Some basic_config) ;;
  if negb (err =? 0) then mret (Some err) else
  err <- pouch_prov_mgr_start ;;
  if negb (err =? 0) then mret (Some err) else
  ended <- wait_forever others ;;
  if negb ended then mret None else mret (Some 0).

(** ** src/samples/cred_only *)

(* C: cred_only.c credentials_ready *)
Definition cred_only_credentials_ready : C bool :=
  cert <- pouch_prov_cred_present POUCH_PROV_CRED_DEVICE_CERT ;;
  if negb cert then mret false else
  pouch_prov_cred_present POUCH_PROV_CRED_PRIVATE_KEY.

(* C: cred_only.c 35-39 main *)
Definition cred_only_config : pouch_prov_config :=
  {| cfg_pop := Some CONFIG_SAMPLE_POP; cfg_device_id := Some "cred-only"%string;
     cfg_wifi_conn_attempts := 0; cfg_event_cb := true |}.

(* C: cred_only.c main *)
Definition cred_only_main (others : C unit) : C (option Z) :=
  err <- pouch_prov_mgr_init (Some cred_only_config) ;;
  if negb (err =? 0) then mret (Some err) else
  ready <- cred_only_credentials_ready ;;
  let finish :=
    provisioned <- pouch_prov_mgr_is_provisioned ;;
    mwhen provisioned (cert <- pouch_prov_cred_get POUCH_PROV_CRED_DEVICE_CERT ;; mret tt) ;;;
    mret (Some 0) in
  if ready then finish else
  err <- pouch_prov_mgr_start ;;
  if negb (err =? 0) then mret (Some err) else
  ended <- wait_forever others ;;
  if negb ended then mret None else finish.

(** ** src/samples/golioth_bootstrap *)

Context {GS : GoliothSdk P}.

(** The semaphore [wifi_up] after an event. *)
(* C: golioth.c net_event *)
Definition net_event (l4_connected : bool) (wifi_up : k_sem) : k_sem :=
  if l4_connected then k_sem_give wifi_up else wifi_up.

(* C: golioth.c credentials_ready *)
Definition golioth_credentials_ready : C bool :=
  provisioned <- pouch_prov_mgr_is_provisioned ;;
  if negb provisioned then mret false else
  cert <- pouch_prov_cred_present POUCH_PROV_CRED_DEVICE_CERT ;;
  if negb cert then mret false else
  pouch_prov_cred_present POUCH_PROV_CRED_PRIVATE_KEY.

(* C: golioth.c connect_to_golioth *)
Definition connect_to_golioth : C Z :=
  cert <- pouch_prov_cred_get POUCH_PROV_CRED_DEVICE_CERT ;;
  key <- pouch_prov_cred_get POUCH_PROV_CRED_PRIVATE_KEY ;;
  ca <- pouch_prov_cred_get POUCH_PROV_CRED_CA_CERT ;;
  created <- call (golioth_client_create
    {| gc_public_cert := cert; gc_private_key := key; gc_ca_cert := ca |}) ;;
  if negb created then mret (- ENOMEM) else
  up <- call (golioth_client_wait_for_connect 30000) ;;
  if negb up then mret (- ETIMEDOUT) else
  mret 0.

(* C: golioth.c 90-95 main *)
Definition golioth_config : pouch_prov_config :=
  {| cfg_pop := Some CONFIG_SAMPLE_POP; cfg_device_id := Some "golioth-bootstrap"%string;
     cfg_wifi_conn_attempts := 3; cfg_event_cb := true |}.

(** [wifi_up] is the semaphore when the wait for it ends. *)
(* C: golioth.c 127-132 main *)
Definition await_l4 (wifi_up : k_sem) : C (option Z) :=
  if negb (k_sem_take wifi_up).1 then mret (Some (- ETIMEDOUT)) else
  r <- connect_to_golioth ;; mret (Some r).

(* C: golioth.c main *)
Definition golioth_main (others : C unit) (wifi_up : k_sem) : C (option Z) :=
  call_ net_mgmt_add_event_callback ;;;
  err <- pouch_prov_mgr_init (Some golioth_config) ;;
  if negb (err =? 0) then mret (Some err) else
  ready <- golioth_credentials_ready ;;
  if negb ready then
    err <- pouch_prov_mgr_start ;;
    if negb (err =? 0) then mret (Some err) else
    ended <- wait_forever others ;;
    if negb ended then mret None else await_l4 wifi_up
  else
    iface <- ask net_if_get_first_wifi ;;
    match iface with
    | Some i => r <- call (net_mgmt_wifi_connect_stored i) ;; mret tt
    | None => mret tt
    end ;;;
    await_l4 wifi_up.
End Samples.
