(* ===== verification/Frames.v ===== *)
(** * The frames of the library's functions

    What each recursive function and each handler leaves as it was. *)

From S2P Require Import Prelude ProvTypes Codec Platform State Frame Rpc Session Auth CredStore.
From S2P Require Import CredHandler WifiScan WifiConfig Version Adv Identity Manager Ctrl.
From S2P Require Import Dispatch System.

Section Frames.
Context {KC : Kconfig} {K : Kernel} {P : Platform} {CD : Codec}.

(** ** Recursive functions *)

Lemma steps_drain (R : device -> device -> Prop) `{!PreOrder R} n body :
  (forall f d, R d (set_rpc f d)) -> (forall r, steps R (body r)) -> steps R (drain n body).
Proof.
  intros Hp Hb. induction n as [|n IH]; simpl; [apply (steps_ret R)|].
  apply (steps_bind R); [apply (steps_get R)|]. intros q. destruct (k_fifo_get q) as [[r|] q'].
  - apply (steps_bind R); [apply (steps_put R); intros d; apply Hp|]. intros _.
    apply (steps_bind R); [apply Hb|]. intros _. apply (steps_bind R); [apply (steps_call_ R)|done].
  - apply (steps_bind R); [apply (steps_put R); intros d; apply Hp|]. intros _. apply (steps_ret R).
Qed.

Lemma steps_rpc_reset (R : device -> device -> Prop) `{!PreOrder R} :
  (forall f d, R d (set_rpc f d)) -> steps R pouch_prov_rpc_reset.
Proof.
  intros Hp. apply (steps_bind R); [|intros _; apply (steps_put R); intros d; apply Hp].
  apply (steps_bind R); [apply (steps_get R)|]. intros n.
  apply (steps_drain R); [done|]. intros r. apply (steps_ret R).
Qed.

Lemma steps_drain_all (R : device -> device -> Prop) `{!PreOrder R} body :
  (forall f d, R d (set_rpc f d)) -> (forall r, steps R (body r)) -> steps R (drain_all body).
Proof.
  intros Hp Hb. apply (steps_bind R); [apply (steps_get R)|]. intros n. by apply (steps_drain R).
Qed.

Lemma steps_mac_updates (R : device -> device -> Prop) `{!PreOrder R} op xs : steps R (mac_updates op xs).
Proof.
  revert op. induction xs as [|x xs IH]; intros op; simpl; [apply (steps_ret R)|].
  apply (steps_bind R); [apply (steps_call R)|]. intros [status op'].
  destruct (status =? PSA_SUCCESS); [apply IH|apply (steps_ret R)].
Qed.

Lemma steps_hmac (R : device -> device -> Prop) `{!PreOrder R} tag x y : steps R (hmac_proof tag x y).
Proof.
  unfold hmac_proof. apply (steps_bind R); [apply (steps_get R)|]. intros [pop|]; [|apply (steps_ub R)].
  apply (steps_bind R); [apply (steps_call R)|]. intros [status key].
  destruct (negb _); [apply (steps_ret R)|].
  apply (steps_bind R); [apply (steps_call R)|]. intros [status' op].
  destruct (negb _); [steps_go|].
  apply (steps_bind R); [apply (steps_mac_updates R)|]. intros [ok op']. steps_go.
Qed.

Lemma steps_persist (R : device -> device -> Prop) `{!PreOrder R} k keys :
  (forall f d, R d (set_blobs f d)) -> steps R (persist_from k keys).
Proof.
  intros Hp. revert k. induction keys as [|key keys IH]; intros k; simpl; [apply (steps_ret R)|].
  unfold get_blob, set_blob. apply (steps_bind R); [steps_go|]. intros b.
  destruct (negb (blob_complete b)); [done|].
  apply (steps_bind R); [apply (steps_call R)|]. intros err. destruct (negb _); [apply (steps_ret R)|].
  apply (steps_bind R); [apply (steps_put R); intros d; apply Hp|]. intros _. apply IH.
Qed.

Lemma steps_delete (R : device -> device -> Prop) `{!PreOrder R} k keys :
  (forall f d, R d (set_blobs f d)) -> steps R (delete_from k keys).
Proof.
  intros Hp. revert k. induction keys as [|key keys IH]; intros k; simpl; [apply (steps_ret R)|].
  unfold get_blob, set_blob. apply (steps_bind R); [apply (steps_call R)|]. intros err.
  apply (steps_bind R); [steps_go|]. intros b.
  apply (steps_bind R); [apply (steps_put R); intros d; apply Hp|]. intros _. apply IH.
Qed.

Lemma steps_cred_set (R : device -> device -> Prop) `{!PreOrder R} k leaves name len cb :
  (forall f d, R d (set_blobs f d)) -> steps R (cred_set_from k leaves name len cb).
Proof.
  intros Hp. revert k. induction leaves as [|leaf leaves IH]; intros k; simpl; [apply (steps_ret R)|].
  destruct (negb _); [apply IH|]. unfold get_blob, set_blob.
  apply (steps_bind R); [steps_go|]. intros b. destruct (_ <? _)%nat; [apply (steps_ret R)|].
  destruct (cb _) as [rc data]. apply (steps_bind R); [apply (steps_guard R)|]. intros _.
  apply (steps_bind R); [apply (steps_put R); intros d; apply Hp|]. intros _.
  destruct (rc <? 0); [apply (steps_ret R)|].
  apply (steps_bind R); [steps_go|]. intros b'.
  apply (steps_bind R); [apply (steps_put R); intros d; apply Hp|]. intros _. apply (steps_ret R).
Qed.

Lemma steps_status_entries (R : device -> device -> Prop) `{!PreOrder R} ks : steps R (cred_status_entries ks).
Proof.
  induction ks as [|k ks IH]; simpl; [apply (steps_ret R)|].
  apply (steps_bind R); [unfold pouch_prov_cred_received, get_blob; steps_go|]. intros n.
  apply (steps_bind R); [done|]. intros l. apply (steps_ret R).
Qed.
End Frames.

(** Their side conditions hold by computation for a concrete part. *)
#[export] Hint Extern 1 (steps ?R (drain _ _)) =>
  apply (steps_drain R); [steps_side|intros ?; steps_go] : steps.
#[export] Hint Extern 1 (steps ?R (drain_all _)) =>
  apply (steps_drain_all R); [steps_side|intros ?; steps_go] : steps.
#[export] Hint Extern 1 (steps ?R pouch_prov_rpc_reset) =>
  apply (steps_rpc_reset R); steps_side : steps.
#[export] Hint Extern 1 (steps ?R (hmac_proof _ _ _)) => apply (steps_hmac R) : steps.
#[export] Hint Extern 1 (steps ?R (persist_from _ _)) =>
  apply (steps_persist R); [steps_side] : steps.
#[export] Hint Extern 1 (steps ?R (delete_from _ _)) =>
  apply (steps_delete R); [steps_side] : steps.
#[export] Hint Extern 1 (steps ?R (cred_set_from _ _ _ _ _)) =>
  apply (steps_cred_set R); [steps_side] : steps.
#[export] Hint Extern 1 (steps ?R (cred_status_entries _)) => apply (steps_status_entries R) : steps.

(** ** Handlers *)

Section Handlers.
Context {KC : Kconfig} {K : Kernel} {P : Platform} {CD : Codec}.

(** The parts of the device outside one component, and outside the response
    queue. *)
Definition not_wifi (d : device) :=
  (d_active d, d_authorized d, d_rpc d, d_auth d, d_scan d, d_blobs d, d_ident d, d_adv d,
   mg_config (d_mgr d), mg_initialized (d_mgr d), mg_running (d_mgr d), mg_events (d_mgr d)).
Definition not_scan (d : device) :=
  (d_active d, d_authorized d, d_rpc d, d_auth d, d_wifi d, d_blobs d, d_ident d, d_adv d, d_mgr d).
Definition not_blobs (d : device) :=
  (d_active d, d_authorized d, d_rpc d, d_auth d, d_scan d, d_wifi d, d_ident d, d_adv d,
   mg_config (d_mgr d), mg_initialized (d_mgr d), mg_running (d_mgr d), mg_events (d_mgr d)).
Definition not_auth (d : device) :=
  (d_active d, d_rpc d, d_scan d, d_wifi d, d_blobs d, d_ident d, d_adv d, d_mgr d).
Definition not_ident (d : device) :=
  (d_active d, d_authorized d, d_rpc d, d_auth d, d_scan d, d_wifi d, d_blobs d, d_adv d, d_mgr d).

Lemma config_frame req n : keeps not_wifi (pouch_prov_handle_config req n).
Proof. steps_go. Qed.

Lemma scan_frame req n : keeps not_scan (pouch_prov_handle_scan req n).
Proof. steps_go. Qed.

Lemma cred_frame req n : keeps not_blobs (pouch_prov_handle_cred req n).
Proof. steps_go. Qed.

Lemma auth_frame req n : keeps not_auth (pouch_prov_handle_auth req n).
Proof. steps_go. Qed.

Lemma ver_frame req n : keeps (fun d => d) (pouch_prov_handle_ver req n).
Proof. steps_go. Qed.

(** The dispatcher's buffer and the response queue. *)
Definition io (d : device) := (d_active d, d_rpc d).

(** Only a control request touches them. *)
Lemma handler_io_frame h req n :
  h <> pouch_prov_handle_ctrl_p -> keeps io (run_handler h req n).
Proof.
  intros Hh. unfold keeps. destruct h; cbn [run_handler]; [| |done|..].
  - eapply (steps_mono (same (fun d => d))); [apply ver_frame|]. unfold same, io. by intros d d' ->.
  - eapply (steps_mono (same not_auth)); [apply auth_frame|]. unfold same, io. by intros d d' [= -> ->].
  - eapply (steps_mono (same not_wifi)); [apply config_frame|]. unfold same, io. by intros d d' [= -> _ ->].
  - eapply (steps_mono (same not_scan)); [apply scan_frame|]. unfold same, io. by intros d d' [= -> _ ->].
  - eapply (steps_mono (same not_blobs)); [apply cred_frame|]. unfold same, io. by intros d d' [= -> _ ->].
Qed.

Lemma identity_frame : keeps not_ident pouch_prov_identity_ensure.
Proof. steps_go. Qed.
End Handlers.
