(* ===== verification/Instances.v ===== *)
(** * A concrete platform

    Kernel objects, a world and a build configuration that obey every law the
    theorems assume, on which their witnesses run the model. *)

From stdpp Require Import gmap.
From S2P Require Import Prelude ProvTypes Zcbor ZcborDec Schema Codec CodecZcbor ZcborRef.
From S2P Require Import Platform State Auth System.

(** ** Kernel objects *)

Definition q_get {A} (q : list A) : option A * list A :=
  match q with [] => (None, []) | x :: l => (Some x, l) end.
Definition q_empty {A} (q : list A) : bool := match q with [] => true | _ => false end.

Lemma q_get_nil A (q : list A) : q = [] -> q_get q = (None, q).
Proof. by intros ->. Qed.

Lemma q_get_cons A (q : list A) x l :
  q = x :: l -> exists q', q_get q = (Some x, q') /\ q' = l.
Proof. intros ->. by exists l. Qed.

Lemma q_empty_spec A (q : list A) : q_empty q = true <-> q = [].
Proof. by destruct q. Qed.

#[export] Instance sim_kernel : Kernel := {|
  k_fifo := list;
  fifo_items _ q := q;
  fifo_empty _ := [];
  k_fifo_put _ x q := q ++ [x];
  k_fifo_get _ q := q_get q;
  k_fifo_is_empty _ q := q_empty q;
  fifo_items_empty _ := eq_refl;
  fifo_items_put _ _ _ := eq_refl;
  fifo_get_nil := q_get_nil;
  fifo_get_cons := q_get_cons;
  fifo_is_empty_spec := q_empty_spec;
  k_sem := nat;
  sem_count s := s;
  sem_init := 0%nat;
  k_sem_give _ := 1%nat;
  k_sem_take s := ((0 <? s)%nat, (s - 1)%nat);
  k_sem_reset _ := 0%nat;
  sem_count_init := eq_refl;
  sem_count_give _ := eq_refl;
  sem_count_reset _ := eq_refl;
  sem_take_spec _ := conj eq_refl eq_refl;
  k_event := Z;
  event_bits e := e;
  event_init := 0;
  k_event_post b e := Z.lor e b;
  k_event_clear b e := Z.ldiff e b;
  event_bits_init := eq_refl;
  event_bits_post _ _ := eq_refl;
  event_bits_clear _ _ := eq_refl;
  k_work_delayable := option Z;
  work_due w := w;
  work_undefined := None;
  k_work_schedule d w := Some (match w with Some d' => d' | None => d end);
  k_work_reschedule d _ := Some d;
  k_work_cancel_delayable _ := None;
  k_work_init_delayable _ := None;
  k_work_taken _ := None;
  work_due_undefined := eq_refl;
  work_due_init _ := eq_refl;
  work_due_taken _ := eq_refl;
  work_due_cancel _ := eq_refl;
  work_due_reschedule _ _ := eq_refl;
  work_due_schedule _ _ := eq_refl;
|}.

(** ** A world *)

Record sim_world : Type := {
  w_settings : gmap string (list byte);
  w_wifi : list wifi_cred;
  w_uplink : list (string * list byte);        (**r entries written, oldest first *)
  w_events : list pouch_prov_event;
  w_keys : list (list byte);                   (**r key material, by id *)
  w_connects : list wifi_connect_req_params;
  w_heap : bool;                               (**r whether an allocation succeeds *)
  w_status : option (list byte * Z);           (**r interface status, if it can be read *)
  w_save_fails : option string;                (**r the key whose save fails *)
}.

Definition sim_start : sim_world :=
  {| w_settings := ∅; w_wifi := []; w_uplink := []; w_events := []; w_keys := [];
     w_connects := []; w_heap := true; w_status := None;
     w_save_fails := None |}.

Definition with_settings (l : gmap string (list byte)) (w : sim_world) : sim_world :=
  {| w_settings := l; w_wifi := w_wifi w; w_uplink := w_uplink w; w_events := w_events w;
     w_keys := w_keys w; w_connects := w_connects w; w_heap := w_heap w;
     w_status := w_status w;
     w_save_fails := w_save_fails w |}.
Definition with_wifi (l : list wifi_cred) (w : sim_world) : sim_world :=
  {| w_settings := w_settings w; w_wifi := l; w_uplink := w_uplink w; w_events := w_events w;
     w_keys := w_keys w; w_connects := w_connects w; w_heap := w_heap w;
     w_status := w_status w;
     w_save_fails := w_save_fails w |}.
Definition with_uplink (e : string * list byte) (w : sim_world) : sim_world :=
  {| w_settings := w_settings w; w_wifi := w_wifi w; w_uplink := w_uplink w ++ [e];
     w_events := w_events w; w_keys := w_keys w; w_connects := w_connects w; w_heap := w_heap w;
     w_status := w_status w;
     w_save_fails := w_save_fails w |}.
Definition with_event (e : pouch_prov_event) (w : sim_world) : sim_world :=
  {| w_settings := w_settings w; w_wifi := w_wifi w; w_uplink := w_uplink w;
     w_events := w_events w ++ [e]; w_keys := w_keys w; w_connects := w_connects w;
     w_heap := w_heap w; w_status := w_status w;
     w_save_fails := w_save_fails w |}.
Definition with_key (k : list byte) (w : sim_world) : sim_world :=
  {| w_settings := w_settings w; w_wifi := w_wifi w; w_uplink := w_uplink w;
     w_events := w_events w; w_keys := w_keys w ++ [k]; w_connects := w_connects w;
     w_heap := w_heap w; w_status := w_status w;
     w_save_fails := w_save_fails w |}.
Definition with_connect (p : wifi_connect_req_params) (w : sim_world) : sim_world :=
  {| w_settings := w_settings w; w_wifi := w_wifi w; w_uplink := w_uplink w;
     w_events := w_events w; w_keys := w_keys w; w_connects := w_connects w ++ [p];
     w_heap := w_heap w; w_status := w_status w;
     w_save_fails := w_save_fails w |}.

(** A stand-in for the PSA functions: the keyed hash is not meant to be secure,
    only to be a function of key and message with 32 bytes of output. *)
Definition sim_hmac (k m : list byte) : list byte := take 32 (k ++ m ++ zeros 32).

Definition sim_rand (n : nat) : list byte := replicate n x2a.

Definition sim_save (k : string) (v : list byte) (w : sim_world) : Z * sim_world :=
  if bool_decide (w_save_fails w = Some k) then (- EIO, w)
  else (0, with_settings (<[k := v]> (w_settings w)) w).

Definition under (t : string) (e : string * list byte) : Prop := in_subtree t e.1 = true.

#[export] Instance under_dec t e : Decision (under t e).
Proof. unfold under. apply _. Defined.

Definition sim_load (t : string) (w : sim_world) : (Z * list (string * list byte)) * sim_world :=
  ((0, filter (under t) (map_to_list (w_settings w))), w).

Definition sim_delete_ssid (ssid : list byte) (w : sim_world) : Z * sim_world :=
  (0, with_wifi (filter (fun c => wcr_ssid c <> ssid) (w_wifi w)) w).

#[export] Instance sim_platform : Platform := {|
  W := sim_world;
  k_malloc _ w := (w_heap w, w);
  k_free w := w;
  pouch_init _ w := (0, w);
  pouch_uplink_entry_write path _ msg w := (0, with_uplink (path, msg) w);
  event_cb ev _ w := with_event ev w;
  sys_rand_get n w := (sim_rand n, w);
  psa_mac_operation_t := (list byte * list byte)%type;
  psa_crypto_init w := (PSA_SUCCESS, w);
  psa_import_key _ k w := ((PSA_SUCCESS, Z.of_nat (S (length (w_keys w)))), with_key k w);
  psa_generate_key _ w := ((PSA_SUCCESS, Z.of_nat (S (length (w_keys w)))), with_key (sim_rand 32) w);
  psa_export_key _ n w := ((PSA_SUCCESS, sim_rand n), w);
  psa_destroy_key _ w := w;
  psa_mac_sign_setup id w :=
    match w_keys w !! pred (Z.to_nat id) with
    | Some k => ((PSA_SUCCESS, (k, [])), w)
    | None => ((-1, ([], [])), w)
    end;
  psa_mac_update op x w := ((PSA_SUCCESS, (op.1, op.2 ++ x)), w);
  psa_mac_sign_finish op n w := ((PSA_SUCCESS, sim_hmac op.1 op.2), w);
  psa_mac_abort _ w := w;
  settings_subsys_init w := (0, w);
  settings_save_one := sim_save;
  settings_delete k w := (0, with_settings (delete k (w_settings w)) w);
  settings_load_subtree := sim_load;
  wifi_credentials_is_empty w := bool_decide (w_wifi w = []);
  wifi_credentials_delete_by_ssid := sim_delete_ssid;
  wifi_credentials_delete_all w := (0, with_wifi [] w);
  wifi_credentials_set_personal c w := (0, with_wifi (w_wifi w ++ [c]) w);
  net_if_get_wifi_sta w := Some 1;
  net_if_get_first_wifi w := Some 1;
  net_mgmt_add_event_callback w := w;
  net_mgmt_wifi_scan _ w := (0, w);
  net_mgmt_wifi_connect _ p w := (0, with_connect p w);
  net_mgmt_wifi_iface_status _ w :=
    match w_status w with Some x => ((0, x), w) | None => ((- EIO, ([], 0)), w) end;
  net_if_ipv4_get_global_addr _ w := Some [xc0; xa8; x01; x02];
  bt_is_ready w := true;
  bt_enable w := (0, w);
  bt_id_get w := [x11; x22; x33; x44; x55; x66];
  bt_le_adv_start _ _ w := (0, w);
  bt_le_adv_stop w := (0, w);
  bt_conn_set_security w := (0, w);
  mbedtls_pk_setup_opaque _ w := (0, w);
  mbedtls_x509write_crt_set_subject_name _ w := (0, w);
  mbedtls_x509write_crt_set_issuer_name _ w := (0, w);
  mbedtls_mpi_lset _ w := (0, w);
  mbedtls_x509write_crt_set_serial w := (0, w);
  mbedtls_x509write_crt_set_validity _ _ w := (0, w);
  mbedtls_x509write_crt_der n w := ((Z.of_nat (Nat.min n 4), take n [x30; x02; x05; x00]), w);
|}.

#[export] Instance sim_hmac_laws : PsaHmac sim_platform.
Proof.
  refine {| hmac_sha256 := sim_hmac;
            key_material (w : W) id := w_keys w !! pred (Z.to_nat id);
            mac_absorbed (op : psa_mac_operation_t) := op |}.
  - intros k m. unfold sim_hmac, zeros. rewrite length_take, !length_app, length_replicate. lia.
  - intros k w id w' [= <- <-]. simpl. rewrite Nat2Z.id || rewrite SuccNat2Pos.id_succ.
    simpl. by apply list_lookup_middle.
  - intros id k w op w' Hk E. simpl in *. rewrite Hk in E. by simplify_eq.
  - intros [k0 m0] k m x w op' w' [= -> ->] [= <- _]. done.
  - intros [k0 m0] k m n w out w' [= -> ->] [= <- _]. done.
Defined.

#[export] Instance sim_sizes : PlatformSizes sim_platform.
Proof.
  split.
  - intros n w. apply length_replicate.
  - intros id n w st raw w' [= _ <- _]. unfold sim_rand. by rewrite length_replicate.
  - intros n w ret der w' [= <- <- _]. rewrite length_take. simpl. lia.
  - intros w. simpl. lia.
  - intros i w a [= <-]. done.
Qed.

#[export] Instance sim_settings : SettingsLaws sim_platform.
Proof.
  refine {| settings_value (w : W) k := w_settings w !! k |}.
  - intros k v w w' E. simpl in E. unfold sim_save in E. destruct (bool_decide _); [done|].
    simplify_eq. simpl. split; [apply lookup_insert_eq|]. intros k' Hk. by apply lookup_insert_ne.
  - intros k w w' [= <-]. simpl. split; [apply lookup_delete_eq|].
    intros k' Hk. by apply lookup_delete_ne.
  - intros t w l w' [= <- <-]. split; [|split; [|done]].
    + eapply sublist_NoDup; [apply (NoDup_fst_map_to_list (w_settings w))|].
      apply (fmap_sublist fst), sublist_filter.
    + intros k v. rewrite list_elem_of_filter, elem_of_map_to_list. done.
  - done.
Defined.

#[export] Instance sim_wifi_store : WifiStoreLaws sim_platform.
Proof.
  refine {| stored_ssids (w : W) := map wcr_ssid (w_wifi w) |}.
  - intros w. simpl. rewrite bool_decide_eq_true. by destruct (w_wifi w).
  - intros ssid w w' [= <-]. simpl. split.
    + intros (c & -> & H)%list_elem_of_fmap. by apply list_elem_of_filter in H as [? _].
    + intros x Hx. split.
      * intros (c & -> & H)%list_elem_of_fmap. apply list_elem_of_filter in H as [_ ?].
        by apply (list_elem_of_fmap_2 wcr_ssid).
      * intros (c & -> & H)%list_elem_of_fmap. apply (list_elem_of_fmap_2 wcr_ssid).
        by apply list_elem_of_filter.
  - by intros w w' [= <-].
  - intros c w w' [= <-] x. simpl. rewrite map_app, elem_of_app. simpl.
    rewrite list_elem_of_singleton. tauto.
  - by intros i p w r w' [= <- <-].
  - done.
Defined.

(** ** A build with every feature *)

#[export] Instance sim_config : Kconfig := {|
  CONFIG_POUCH_PROV_WIFI := true;
  CONFIG_POUCH_PROV_CRED := true;
  CONFIG_POUCH_PROV_AUTH := true;
  CONFIG_POUCH_ENCRYPTION_NONE := true;
  CONFIG_SETTINGS := true;
  CONFIG_POUCH_BLOCK_SIZE := 512;
  CONFIG_POUCH_PROV_SCAN_CACHE := 16;
  CONFIG_POUCH_PROV_AUTOSTOP_TIMEOUT_S := 30;
  CONFIG_POUCH_PROV_RESPONSE_WAIT_MS := 1000;
  CONFIG_POUCH_PROV_DEVICE_NAME_PREFIX := "PNP-";
|}.

(** The generated codec on the reference zcbor. *)
#[export] Instance sim_codec : Codec := codec_zcbor (ZE := ref_enc) (ZD := ref_dec).

#[export] Instance sim_codec_enc : CodecEncLaws sim_codec :=
  codec_zcbor_enc (ZE := ref_enc) (ZD := ref_dec).
#[export] Instance sim_codec_dec : CodecDecLaws sim_codec :=
  codec_zcbor_dec (ZE := ref_enc) (ZD := ref_dec).

Definition sim_pop : list byte := str "proto-pop".

Definition sim_app : pouch_prov_config :=
  {| cfg_pop := Some sim_pop; cfg_device_id := Some "device-1"%string;
     cfg_wifi_conn_attempts := 3; cfg_event_cb := true |}.

Definition sim_boot : st := {| s_dev := device_boot 0; s_env := sim_start |}.

(** What a run of the model ends in. *)
Definition run_state (m : C unit) (s : st) : st :=
  match m s with Some (_, s') => s' | None => s end.

(** The device after init and start. *)
Definition sim_ready : st := Eval vm_compute in run_state (run_events [EvInit (Some sim_app); EvStart]) sim_boot.
