(* ===== verification/DispatchSpec.v ===== *)
(** * The dispatcher's contract

    Reassembly of requests, the authorization gate, and what a request may put
    into the response queue. *)

From S2P Require Import Prelude ProvTypes Zcbor Schema Codec Platform State Frame Rpc Session.
From S2P Require Import Auth CredStore CredHandler WifiScan WifiConfig Version Manager Ctrl.
From S2P Require Import Dispatch System Frames Instances.

Section Dispatch.
Context {KC : Kconfig} {K : Kernel} {P : Platform} {CD : Codec}.

(** ** Reassembly *)

Definition buffer_wf (d : device) : Prop :=
  length (act_buf (d_active d)) = POUCH_PROV_MSG_MAX /\
  (act_len (d_active d) <= POUCH_PROV_MSG_MAX)%nat.

(** The device with the dispatcher's statics as given. *)
Definition with_active (ep : option pouch_prov_endpoint) (n : nat) (over : bool)
    (buf : list byte) (d : device) : device :=
  set_active (fun _ => {| act_endpoint := ep; act_len := n; act_overflow := over;
                          act_buf := buf |}) d.

Definition at_dev (d : device) (s : st) : st := {| s_dev := d; s_env := s_env s |}.

(** A request's chunks, one entry delivered in several calls. *)
Fixpoint send (chunks : list (list byte)) : C unit :=
  match chunks with
  | [] => mret tt
  | [c] => downlink_data 0 c true
  | c :: cs => downlink_data 0 c false ;;; send cs
  end.

Definition request_on (path : string) (chunks : list (list byte)) : C unit :=
  downlink_start 0 path POUCH_CONTENT_TYPE_CBOR ;;; send chunks.

Lemma append_fits ep n over buf data d w :
  length buf = POUCH_PROV_MSG_MAX -> (n + length data <= POUCH_PROV_MSG_MAX)%nat ->
  append_chunk data {| s_dev := with_active ep n over buf d; s_env := w |} =
  Some (tt, {| s_dev := with_active ep (n + length data) over (buf_write n data buf) d;
               s_env := w |}).
Proof.
  intros Hb Hn. unfold append_chunk, mbind, get, mget. cbn [s_dev d_active with_active set_active
    act_len act_buf].
  rewrite (proj2 (Nat.ltb_ge _ _)) by lia. unfold mguard, buf_fits.
  by rewrite (proj2 (Nat.leb_le _ _)) by lia.
Qed.

Lemma append_over ep n over buf data d w :
  (POUCH_PROV_MSG_MAX < n + length data)%nat ->
  append_chunk data {| s_dev := with_active ep n over buf d; s_env := w |} =
  Some (tt, {| s_dev := with_active ep n true buf d; s_env := w |}).
Proof.
  intros Hn. unfold append_chunk, mbind, get, mget. cbn [s_dev d_active with_active set_active
    act_len act_buf]. by rewrite (proj2 (Nat.ltb_lt _ _)).
Qed.

Lemma take_write n data buf :
  (n + length data <= length buf)%nat ->
  take (n + length data) (buf_write n data buf) = take n buf ++ data.
Proof. apply take_buf_write. Qed.

Definition total (chunks : list (list byte)) : nat := length (concat chunks).

(** A chunk goes to the request being assembled; the last one has it processed. *)
Lemma data_step ep c (last : bool) n over buf n' over' buf' d w :
  append_chunk c {| s_dev := with_active (Some ep) n over buf d; s_env := w |} =
    Some (tt, {| s_dev := with_active (Some ep) n' over' buf' d; s_env := w |}) ->
  downlink_data 0 c last {| s_dev := with_active (Some ep) n over buf d; s_env := w |} =
  (if last then process ep {| s_dev := with_active None n' over' buf' d; s_env := w |}
   else Some (tt, {| s_dev := with_active (Some ep) n' over' buf' d; s_env := w |})).
Proof.
  remember {| s_dev := with_active (Some ep) n over buf d; s_env := w |} as s0 eqn:Hs0.
  intros E. assert (He : act_endpoint (d_active (s_dev s0)) = Some ep) by by subst.
  clear Hs0. unfold downlink_data, mbind, get, mget. rewrite He.
  change (negb (0 =? 0)) with false. lazy beta iota. rewrite E. by destruct last.
Qed.

Lemma send_cons c c' cs s :
  send (c :: c' :: cs) s =
  match downlink_data 0 c false s with
  | Some (_, s') => send (c' :: cs) s'
  | None => None
  end.
Proof. done. Qed.

(** Chunks that fit are appended and the request processed. *)
Lemma send_fits ep chunks : chunks <> [] -> forall n buf d w,
  length buf = POUCH_PROV_MSG_MAX -> (n + total chunks <= POUCH_PROV_MSG_MAX)%nat ->
  exists buf', length buf' = POUCH_PROV_MSG_MAX /\
    take (n + total chunks) buf' = take n buf ++ concat chunks /\
    send chunks {| s_dev := with_active (Some ep) n false buf d; s_env := w |} =
    process ep {| s_dev := with_active None (n + total chunks) false buf' d; s_env := w |}.
Proof.
  unfold total. induction chunks as [|c cs IH]; intros Hne n buf d w Hb Hn; [done|].
  cbn [concat] in *. rewrite length_app in *. set (data := c) in *.
  assert (Hlen : length (buf_write n data buf) = POUCH_PROV_MSG_MAX)
    by (rewrite length_buf_write; lia).
  assert (Htake : take (n + length data) (buf_write n data buf) = take n buf ++ data)
    by (apply take_write; lia).
  destruct cs as [|c' cs].
  - exists (buf_write n data buf). rewrite Nat.add_0_r, app_nil_r. split_and!; [done..|].
    cbn [send]. erewrite data_step; [|by apply append_fits; lia]. done.
  - destruct (IH ltac:(done) (n + length data)%nat (buf_write n data buf) d w Hlen)
      as (buf' & H1 & H2 & H3); [cbn in *; lia|].
    exists buf'. rewrite Nat.add_assoc. split_and!; [done| |].
    { by rewrite H2, Htake, app_assoc. }
    rewrite <- H3, send_cons. erewrite data_step; [|by apply append_fits; lia]. done.
Qed.

(** Chunks that do not fit set the overflow flag for the whole request. *)
Lemma send_over ep chunks : chunks <> [] -> forall n over buf d w,
  length buf = POUCH_PROV_MSG_MAX -> (n <= POUCH_PROV_MSG_MAX)%nat ->
  over = true \/ (POUCH_PROV_MSG_MAX < n + total chunks)%nat ->
  exists n' buf',
    send chunks {| s_dev := with_active (Some ep) n over buf d; s_env := w |} =
    process ep {| s_dev := with_active None n' true buf' d; s_env := w |}.
Proof.
  unfold total. induction chunks as [|c cs IH]; intros Hne n over buf d w Hb Hn Ho; [done|].
  cbn [concat] in *. rewrite length_app in *.
  assert (Hstep : exists n' over' buf',
    append_chunk c {| s_dev := with_active (Some ep) n over buf d; s_env := w |} =
      Some (tt, {| s_dev := with_active (Some ep) n' over' buf' d; s_env := w |}) /\
    length buf' = POUCH_PROV_MSG_MAX /\ (n' <= POUCH_PROV_MSG_MAX)%nat /\
    (over' = true \/ (POUCH_PROV_MSG_MAX < n' + length (concat cs))%nat)).
  { destruct (decide (n + length c <= POUCH_PROV_MSG_MAX)%nat) as [Hf|Hf].
    - exists (n + length c)%nat, over, (buf_write n c buf).
      rewrite append_fits, length_buf_write by lia. split_and!; try done; try lia.
      destruct Ho; [by left|right; lia].
    - exists n, true, buf. rewrite append_over by lia. split_and!; try done. by left. }
  destruct Hstep as (n' & over' & buf' & E & H1 & H2 & H3).
  destruct cs as [|c' cs].
  - exists n', buf'. cbn in H3. replace over' with true in E
      by (destruct H3 as [->|?]; [done|lia]).
    cbn [send]. by erewrite data_step.
  - destruct (IH ltac:(done) n' over' buf' d w H1 H2 H3) as (n2 & buf2 & H4).
    exists n2, buf2. rewrite <- H4, send_cons. by erewrite data_step.
Qed.

Lemma start_found path ep s :
  String.prefix ".prov/" path = true -> find_endpoint path endpoints = Some ep ->
  downlink_start 0 path POUCH_CONTENT_TYPE_CBOR s =
  Some (tt, at_dev (with_active (Some ep) 0 false (act_buf (d_active (s_dev s))) (s_dev s)) s).
Proof.
  intros Hp Hf. unfold downlink_start, mbind, put, mmod. rewrite Hp, Hf. done.
Qed.

(** ** Replies *)

Lemma respond_status_eq {CL : CodecEncLaws CD} path op stt s :
  0 <= op ->
  respond_status path op stt s =
  (if op <=? 2
   then (err <- pouch_prov_rpc_enqueue path (item_bytes (op_status_item op stt)) ;; mret tt) s
   else Some (tt, s)).
Proof.
  intros Ho. unfold respond_status. destruct (op <=? 2) eqn:E; zbool.
  - rewrite encode_ctrl_rsp_law by (unfold ctrl_rsp_ok; simpl; lia).
    unfold ctrl_rsp_item. cbn [ctrl_rsp_ctrl_op_m ctrl_rsp_prov_status_m].
    rewrite fit_some; [done|]. rewrite op_status_len by lia. lia.
  - rewrite encode_ctrl_rsp_range by (simpl; lia). done.
Qed.

Lemma peek_op_range msg : 0 <= peek_op msg <= 23.
Proof.
  unfold peek_op. destruct msg as [|b0 [|b1 l]]; [lia..|].
  destruct (_ && _) eqn:E; [|lia]. zbool. pose proof (b2z_range b1). unfold in_u8 in *. lia.
Qed.

(** An enqueue of a message that fits, as a function of the allocator. *)
Lemma wp_enqueue_fits path msg (Q : Z -> st -> Prop) s :
  (length msg <= POUCH_PROV_MSG_MAX)%nat ->
  (forall r d' w', same_but_rpc (s_dev s) d' ->
     queued d' = queued (s_dev s) ++
       (if (k_malloc (RPC_RSP_SIZE + length msg) (s_env s)).1
        then [{| rsp_path := path; rsp_msg := msg |}] else []) ->
     Q r {| s_dev := d'; s_env := w' |}) ->
  wp (pouch_prov_rpc_enqueue path msg) Q s.
Proof.
  intros Hl HQ. unfold pouch_prov_rpc_enqueue. rewrite (proj2 (Nat.ltb_ge _ _)) by lia.
  destruct s as [d w]. cbn [s_dev s_env] in *. apply wp_bind, wp_call. cbn [s_env s_dev].
  intros ok w1 E. rewrite E in HQ. destruct ok; cbn [negb fst] in *.
  - dev_go. eapply HQ.
    + eapply same_but_rpc_trans; apply same_but_rpc_set.
    + unfold queued. simpl. by rewrite fifo_items_put.
  - apply wp_ret, HQ; [apply same_but_rpc_refl|by rewrite app_nil_r].
Qed.

(** The queue after a status reply, which memory or an unknown operation may
    suppress. *)
Definition status_queued (path : string) (op : Z) (stt : prov_status_r) (s : st) : list rpc_rsp :=
  if (op <=? 2) && (k_malloc (RPC_RSP_SIZE + 3) (s_env s)).1
  then [{| rsp_path := path; rsp_msg := item_bytes (op_status_item op stt) |}] else [].

Lemma wp_respond_status {CL : CodecEncLaws CD} path op stt (Q : unit -> st -> Prop) s :
  0 <= op ->
  (forall d' w', same_but_rpc (s_dev s) d' ->
     queued d' = queued (s_dev s) ++ status_queued path op stt s ->
     Q tt {| s_dev := d'; s_env := w' |}) ->
  wp (respond_status path op stt) Q s.
Proof.
  intros Ho HQ. unfold wp. rewrite respond_status_eq by done. unfold status_queued in HQ.
  destruct (op <=? 2) eqn:E; zbool; cbn [andb] in HQ.
  - assert (Hl : length (item_bytes (op_status_item op stt)) = 3%nat) by (apply op_status_len; lia).
    change (wp (err <- pouch_prov_rpc_enqueue path (item_bytes (op_status_item op stt)) ;;
                mret tt) Q s).
    apply wp_bind, wp_enqueue_fits; [rewrite Hl; unfold POUCH_PROV_MSG_MAX; lia|].
    intros r d' w' H1 H2. apply wp_ret, HQ; [done|]. by rewrite Hl in H2.
  - destruct s as [d w]. apply HQ; [apply same_but_rpc_refl|by rewrite app_nil_r].
Qed.

(** ** The properties *)

(** C13: A request delivered in any number of chunks to a known endpoint is
    processed as the concatenation of its chunks, when that fits the request
    buffer: the handler sees exactly the bytes sent, and no other part of the
    device has changed before it runs. *)
Theorem request_reassembled path ep chunks s :
  find_endpoint path endpoints = Some ep -> String.prefix ".prov/" path = true ->
  chunks <> [] -> (total chunks <= POUCH_PROV_MSG_MAX)%nat -> buffer_wf (s_dev s) ->
  exists buf, length buf = POUCH_PROV_MSG_MAX /\
    request (with_active None (total chunks) false buf (s_dev s)) = concat chunks /\
    request_on path chunks s =
    process ep (at_dev (with_active None (total chunks) false buf (s_dev s)) s).
Proof.
  intros Hf Hp Hne Hn [Hb _].
  destruct (send_fits ep chunks Hne 0 (act_buf (d_active (s_dev s))) (s_dev s) (s_env s) Hb Hn)
    as (buf & H1 & H2 & H3).
  exists buf. split_and!; [done|exact H2|]. unfold request_on, mbind.
  by rewrite (start_found path ep s Hp Hf).
Qed.

(** C17: A request longer than the request buffer never reaches the endpoint's
    handler, however it is chunked: the device only queues one
    invalid-argument reply with operation code 0. *)
Theorem oversized_request_refused {CL : CodecEncLaws CD} path ep chunks s :
  find_endpoint path endpoints = Some ep -> String.prefix ".prov/" path = true ->
  (POUCH_PROV_MSG_MAX < total chunks)%nat -> buffer_wf (s_dev s) ->
  exists n buf,
    let d := with_active None n true buf (s_dev s) in
    wp (request_on path chunks) (fun _ s' =>
      same_but_rpc d (s_dev s') /\
      queued (s_dev s') = queued (s_dev s) ++
        status_queued (ep_path ep) 0 prov_status_status_invalid_argument_m_c s) s.
Proof.
  intros Hf Hp Hn [Hb _].
  assert (Hne : chunks <> []) by (intros ->; cbn in Hn; lia).
  destruct (send_over ep chunks Hne 0 false (act_buf (d_active (s_dev s)))
    (s_dev s) (s_env s) Hb ltac:(lia) ltac:(by right)) as (n & buf & H).
  exists n, buf. cbn zeta. unfold wp, request_on, mbind.
  rewrite (start_found path ep s Hp Hf). unfold at_dev. rewrite H.
  change (wp (process ep) (fun (_ : unit) s' =>
    same_but_rpc (with_active None n true buf (s_dev s)) (s_dev s') /\
    queued (s_dev s') = queued (s_dev s) ++
      status_queued (ep_path ep) 0 prov_status_status_invalid_argument_m_c s)
    {| s_dev := with_active None n true buf (s_dev s); s_env := s_env s |}).
  unfold process. apply wp_bind, wp_getd. cbn. apply wp_respond_status; [lia|].
  intros d' w' H1 H2. split; [exact H1|exact H2].
Qed.

(** C16: Until the session is authorized, a complete request to an endpoint that
    requires it changes nothing but the dispatcher's buffer and the response
    queue, whatever its bytes: the handler is not run and the only possible
    reply is [[op, unauthorized]]. *)
Theorem unauthorized_rejected {CL : CodecEncLaws CD} ep data s :
  act_endpoint (d_active (s_dev s)) = Some ep -> ep_require_auth ep = true ->
  pouch_prov_session_authorized (s_dev s) = false ->
  act_overflow (d_active (s_dev s)) = false -> buffer_wf (s_dev s) ->
  (act_len (d_active (s_dev s)) + length data <= POUCH_PROV_MSG_MAX)%nat ->
  let d := s_dev s in
  let a := d_active d in
  let d1 := with_active None (act_len a + length data) false
              (buf_write (act_len a) data (act_buf a)) d in
  wp (downlink_data 0 data true) (fun _ s' =>
    same_but_rpc d1 (s_dev s') /\
    queued (s_dev s') = queued d ++
      status_queued (ep_path ep) (peek_op (request d1)) prov_status_status_unauthorized_m_c s) s.
Proof.
  intros He Hreq Hun Hov [Hb _] Hn. cbn zeta. destruct s as [d w]. cbn [s_dev s_env] in *.
  unfold downlink_data. apply wp_bind, wp_getd. cbn [s_dev]. rewrite He, Z.eqb_refl.
  cbn [negb]. apply wp_bind. unfold wp at 1.
  assert (E : {| s_dev := d; s_env := w |} =
    {| s_dev := with_active (Some ep) (act_len (d_active d)) false (act_buf (d_active d)) d;
       s_env := w |}).
  { unfold with_active, set_active. destruct d as [[e n o b] ? ? ? ? ? ? ? ? ?]. cbn in *.
    by subst. }
  rewrite E, append_fits by lia. apply wp_bind, wp_put. unfold process.
  apply wp_bind, wp_getd. cbn [s_dev set_endpoint set_active with_active d_active act_overflow].
  apply wp_bind, wp_getd, wp_bind, wp_getd.
  change (pouch_prov_session_authorized (s_dev _)) with (pouch_prov_session_authorized d).
  rewrite Hreq, Hun. cbn [andb negb].
  apply wp_respond_status; [apply peek_op_range|]. intros d' w' H1 H2. done.
Qed.
End Dispatch.

(** ** The properties at concrete inputs *)

Definition ver_ep : pouch_prov_endpoint :=
  {| ep_path := POUCH_PROV_PATH_VER; ep_handler := pouch_prov_handle_ver_p;
     ep_require_auth := false |}.
Definition cred_ep : pouch_prov_endpoint :=
  {| ep_path := POUCH_PROV_PATH_CRED; ep_handler := pouch_prov_handle_cred_p;
     ep_require_auth := true |}.

Lemma sim_buffer_wf : buffer_wf (s_dev sim_ready).
Proof. split; [reflexivity|]. apply Nat.leb_le. reflexivity. Qed.

Lemma request_reassembled_witness :
  exists buf, length buf = POUCH_PROV_MSG_MAX /\
    request (with_active None 2 false buf (s_dev sim_ready)) = [x81; x00] /\
    request_on ".prov/ver" [[x81]; []; [x00]] sim_ready =
    process ver_ep (at_dev (with_active None 2 false buf (s_dev sim_ready)) sim_ready).
Proof.
  apply (request_reassembled ".prov/ver" ver_ep [[x81]; []; [x00]] sim_ready).
  - reflexivity.
  - reflexivity.
  - discriminate.
  - apply Nat.leb_le. reflexivity.
  - apply sim_buffer_wf.
Defined.

Lemma oversized_request_refused_witness :
  exists n buf,
    let d := with_active None n true buf (s_dev sim_ready) in
    wp (request_on ".prov/cred" [zeros 200; zeros 200]) (fun _ s' =>
      same_but_rpc d (s_dev s') /\
      queued (s_dev s') = queued (s_dev sim_ready) ++
        status_queued ".prov/cred" 0 prov_status_status_invalid_argument_m_c sim_ready) sim_ready.
Proof.
  apply (oversized_request_refused ".prov/cred" cred_ep [zeros 200; zeros 200] sim_ready).
  - reflexivity.
  - reflexivity.
  - apply Nat.ltb_lt. reflexivity.
  - apply sim_buffer_wf.
Defined.

(** A credential request has been announced on the freshly started device. *)
Definition sim_cred_pending : st :=
  Eval vm_compute in run_state (handle (EvDownlinkStart 0 ".prov/cred" 60)) sim_ready.

Lemma unauthorized_rejected_witness :
  let d := s_dev sim_cred_pending in
  let a := d_active d in
  let d1 := with_active None (act_len a + 2) false (buf_write (act_len a) [x81; x01] (act_buf a)) d in
  wp (downlink_data 0 [x81; x01] true) (fun _ s' =>
    same_but_rpc d1 (s_dev s') /\
    queued (s_dev s') = queued d ++
      status_queued ".prov/cred" (peek_op (request d1)) prov_status_status_unauthorized_m_c
        sim_cred_pending) sim_cred_pending.
Proof.
  apply (unauthorized_rejected cred_ep [x81; x01] sim_cred_pending).
  - reflexivity.
  - reflexivity.
  - reflexivity.
  - reflexivity.
  - apply sim_buffer_wf.
  - apply Nat.leb_le. reflexivity.
Defined.
