(* ===== verification/AuthSpec.v ===== *)
(** * Proof-of-possession: soundness, completeness, lockout

    The session becomes authorized only by a proof computed from the shared
    secret, an honest client always gets through, and the attempt counter's
    bounds. *)

From S2P Require Import Prelude ProvTypes Zcbor Schema Codec Platform State Frame Rpc Session.
From S2P Require Import Auth CredStore CredHandler WifiScan WifiConfig Version Adv Identity.
From S2P Require Import Manager Ctrl Dispatch System Frames Instances DispatchSpec.

(** The PSA calls of the HMAC succeed (enough key slots and memory). *)
Class PsaAvailable (P : Platform) : Prop := {
  psa_import_ok k w : (psa_import_key PSA_HMAC_SIGN k w).1.1 = PSA_SUCCESS;
  psa_setup_ok k w id w' :
    psa_import_key PSA_HMAC_SIGN k w = ((PSA_SUCCESS, id), w') ->
    (psa_mac_sign_setup id w').1.1 = PSA_SUCCESS;
  psa_update_ok op x w : (psa_mac_update op x w).1.1 = PSA_SUCCESS;
  psa_finish_ok op w : (psa_mac_sign_finish op PROOF_LEN w).1.1 = PSA_SUCCESS;
}.

(** A session that is not authorized stays so. *)
Definition stays_unauthorized {K : Kernel} {P : Platform} (d d' : device) : Prop :=
  d_authorized d = false -> d_authorized d' = false.

#[export] Instance stays_unauthorized_preorder {K : Kernel} {P : Platform} :
  PreOrder stays_unauthorized.
Proof. split; [by intros d H|]. intros d1 d2 d3 H1 H2 H. by apply H2, H1. Qed.

#[export] Hint Extern 2 (stays_unauthorized _ _) =>
  let H := fresh in intros H; first [exact H | reflexivity] : steps.

Section AuthSpec.
Context {KC : Kconfig} {K : Kernel} {P : Platform} {CD : Codec}.

(** ** Which functions cannot authorize *)

Lemma steps_respond R `{!PreOrder R} path op stt :
  (forall f d, R d (set_rpc f d)) -> steps R (respond_status path op stt).
Proof.
  intros Hr. unfold respond_status. destruct (cbor_encode_ctrl_rsp _ _); [|apply (steps_ret R)].
  apply (steps_bind R); [|intros ?; apply (steps_ret R)].
  unfold pouch_prov_rpc_enqueue. destruct (_ <? _)%nat; [apply (steps_ret R)|].
  apply (steps_bind R); [apply (steps_call R)|]. intros ok. destruct (negb ok); [apply (steps_ret R)|].
  apply (steps_bind R); [apply (steps_get R)|]. intros q.
  apply (steps_bind R); [apply (steps_put R); intros d; apply Hr|]. intros _.
  apply (steps_bind R); [apply (steps_put R); intros d; apply Hr|]. intros _. apply (steps_ret R).
Qed.

Lemma other_handlers_unauthorized h req n :
  h <> pouch_prov_handle_auth_p -> steps stays_unauthorized (run_handler h req n).
Proof. intros Hh. destruct h; try done; cbn [run_handler]; steps_go. Qed.

Lemma start_unauthorized sid path ct : steps stays_unauthorized (downlink_start sid path ct).
Proof. steps_go. Qed.

(** Events other than request data. *)
Lemma other_events_unauthorized e :
  (forall sid data last, e <> EvDownlinkData sid data last) ->
  steps stays_unauthorized (handle e).
Proof.
  intros He. destruct e; handle_cbn; try (by edestruct He); unfold ignore; steps_go.
Qed.

(** ** What a successful proof is *)

Context {PH : PsaHmac P}.

(** The proof the client owes for the session's nonces. *)
Definition expected_proof (pop : list byte) (a : auth_t) : list byte :=
  hmac_sha256 pop (take 3 (str "cli") ++ au_dev_nonce a ++ au_cli_nonce a).

(** The facts under which a proof is accepted. *)
Definition proof_accepted (d : device) (p : auth_proof) : Prop :=
  au_challenged (d_auth d) = true /\ u8 (au_attempts (d_auth d) + 1) <= MAX_ATTEMPTS /\
  exists pop, cfg_pop (pouch_prov_config_get d) = Some pop /\
    auth_proof_cli_proof p = expected_proof pop (d_auth d).

Lemma hmac_run tag x y s r s' :
  hmac_proof tag x y s = Some (r, s') ->
  exists pop, cfg_pop (pouch_prov_config_get (s_dev s)) = Some pop /\ s_dev s' = s_dev s /\
    (forall out, r = Some out -> out = hmac_sha256 pop (take 3 (str tag) ++ x ++ y)).
Proof.
  intros E. destruct (cfg_pop (pouch_prov_config_get (s_dev s))) as [pop|] eqn:Hp.
  - exists pop. split; [done|]. by apply (wp_run _ _ _ _ _ E (wp_hmac_proof tag x y pop s Hp)).
  - unfold hmac_proof, mbind, get, mget in E. by rewrite Hp in E.
Qed.

Lemma handle_proof_authorizes p n s r s' :
  handle_proof p n s = Some (r, s') ->
  d_authorized (s_dev s) = false -> d_authorized (s_dev s') = true ->
  proof_accepted (s_dev s) p.
Proof.
  intros E Hf Ht. unfold handle_proof in E.
  apply mbind_inv in E as (c & s1 & [= <- <-] & E). cbv zeta in E.
  destruct (negb _ || negb _) eqn:Eg; [injection E as _ <-; congruence|]. zbool.
  apply mbind_inv in E as (n' & s1 & [= <- <-] & E).
  apply mbind_inv in E as (? & s1 & [= _ <-] & E).
  destruct (MAX_ATTEMPTS <? _) eqn:Ea; [injection E as _ <-; cbn in Ht; congruence|]. zbool.
  apply mbind_inv in E as (a & s2 & [= <- <-] & E). cbn [s_dev] in E.
  apply mbind_inv in E as (ex & s2 & E1 & E).
  destruct (hmac_run _ _ _ _ _ _ E1) as (pop & Hp & Hd & Hout). cbn [s_dev] in Hd.
  destruct ex as [out|]; [|injection E as _ <-; rewrite Hd in Ht; cbn in Ht; congruence].
  specialize (Hout out eq_refl).
  destruct (negb _) eqn:Ed; [injection E as _ <-; rewrite Hd in Ht; cbn in Ht; congruence|].
  zbool. split; [done|]. split; [done|]. exists pop. split; [done|].
  apply ct_diff_zero in Ed as [_ Ed]; [|lia|rewrite Hout, hmac_length; by symmetry].
  rewrite <- Ed, Hout. done.
Qed.

Lemma handle_auth_authorizes req n s r s' :
  pouch_prov_handle_auth req n s = Some (r, s') ->
  d_authorized (s_dev s) = false -> d_authorized (s_dev s') = true ->
  exists p, cbor_decode_auth_req req = Some (auth_req_auth_proof_m p) /\
    proof_accepted (s_dev s) p.
Proof.
  intros E Hf Ht. unfold pouch_prov_handle_auth in E.
  destruct (cbor_decode_auth_req req) as [[c|p]|].
  - assert (steps stays_unauthorized (handle_challenge c n)) as Hs by steps_go.
    by rewrite (Hs _ _ _ E Hf) in Ht.
  - exists p. split; [done|]. by eapply handle_proof_authorizes.
  - injection E as _ <-. congruence.
Qed.

(** ** Downlink data, run backwards *)

(** The request's bytes once the chunk is appended. *)
Definition request_with (data : list byte) (d : device) : list byte :=
  let a := d_active d in
  take (act_len a + length data) (buf_write (act_len a) data (act_buf a)).

(** Everything but the dispatcher's statics is as before. *)
Definition same_but_active (d d' : device) : Prop := d' = set_active (fun _ => d_active d') d.

Lemma same_but_active_refl d : same_but_active d d.
Proof. by destruct d. Qed.

(** A completed append either notes the overflow or extends the request. *)
Lemma append_inv data s s1 :
  append_chunk data s = Some (tt, s1) ->
  s_env s1 = s_env s /\ same_but_active (s_dev s) (s_dev s1) /\
  (act_overflow (d_active (s_dev s1)) = true \/
   request (s_dev s1) = request_with data (s_dev s)).
Proof.
  unfold append_chunk, mbind, get, mget. destruct (_ <? _)%nat eqn:E; zbool.
  - intros [= <-]. split_and!; [done|by destruct s as [[] ?]|by left].
  - unfold mguard. destruct (buf_fits _ _ _); [|done]. intros [= <-].
    split_and!; [done|by destruct s as [[] ?]|by right].
Qed.

Lemma data_inv sid data last s s' :
  downlink_data sid data last s = Some (tt, s') ->
  same_but_active (s_dev s) (s_dev s') \/
  (exists ep s1, sid = 0 /\ last = true /\ act_endpoint (d_active (s_dev s)) = Some ep /\
     s_env s1 = s_env s /\ same_but_active (s_dev s) (s_dev s1) /\
     (act_overflow (d_active (s_dev s1)) = true \/
      request (s_dev s1) = request_with data (s_dev s)) /\
     process ep s1 = Some (tt, s')).
Proof.
  unfold downlink_data. unfold mbind at 1. cbn [get mget].
  destruct (act_endpoint (d_active (s_dev s))) as [ep|] eqn:He.
  2: { intros [= <-]. left. apply same_but_active_refl. }
  destruct (sid =? 0) eqn:Es; cbn [negb]; zbool.
  2: { intros [= <-]. left. apply same_but_active_refl. }
  intros E. apply mbind_inv in E as ([] & s1 & E1 & E).
  destruct (append_inv _ _ _ E1) as (Hw & Hd & Hr).
  destruct last; cbn [negb] in E.
  2: { injection E as <-. by left. }
  apply mbind_inv in E as ([] & s2 & [= <-] & E). right.
  exists ep, {| s_dev := set_endpoint None (s_dev s1); s_env := s_env s1 |}.
  split_and!; try done. unfold same_but_active in *. cbn [s_dev]. by rewrite Hd.
Qed.

Lemma process_inv ep s s' :
  process ep s = Some (tt, s') ->
  (exists op stt, respond_status (ep_path ep) op stt s = Some (tt, s') /\
     (act_overflow (d_active (s_dev s)) = true \/
      ep_require_auth ep = true /\ pouch_prov_session_authorized (s_dev s) = false)) \/
  (act_overflow (d_active (s_dev s)) = false /\
   (ep_require_auth ep = true -> pouch_prov_session_authorized (s_dev s) = true) /\
   exists r s1,
     run_handler (ep_handler ep) (request (s_dev s)) POUCH_PROV_MSG_MAX s = Some (r, s1) /\
     ((exists op stt, respond_status (ep_path ep) op stt s1 = Some (tt, s')) \/
      (exists msg err, r = HOk msg /\
         pouch_prov_rpc_enqueue (ep_path ep) msg s1 = Some (err, s')) \/ s1 = s')).
Proof.
  unfold process. unfold mbind at 1. cbn [get mget].
  destruct (act_overflow _) eqn:Eo; [intros E; left; eauto|].
  unfold mbind at 1. cbn [get mget]. unfold mbind at 1. cbn [get mget].
  destruct (ep_require_auth ep && negb _) eqn:Eg; zbool.
  { intros E. left. do 2 eexists. split; [exact E|]. by right. }
  intros E. right. split; [done|]. split.
  { intros Hr. rewrite Hr in Eg. by destruct (pouch_prov_session_authorized _). }
  apply mbind_inv in E as (r & s1 & E1 & E). exists r, s1. split; [done|].
  destruct r as [msg|err].
  - unfold mwhen in E. destruct (0 <? length msg)%nat; [|right; right; by injection E].
    apply mbind_inv in E as (err & s2 & E2 & [= <-]). right. left. eauto.
  - apply mbind_inv in E as (q & s2 & [= <- <-] & E). left. eauto.
Qed.

Lemma enqueue_unauthorized path msg : steps stays_unauthorized (pouch_prov_rpc_enqueue path msg).
Proof. steps_go. Qed.

Lemma respond_unauthorized path op stt : steps stays_unauthorized (respond_status path op stt).
Proof. apply (steps_respond stays_unauthorized). by intros f d H. Qed.

(** C1: The session becomes authorized only when a complete request on the auth
    endpoint carries a proof that equals HMAC-SHA256 of "cli", the device's
    nonce and the client's nonce under the device's proof-of-possession secret,
    after a challenge and within the attempt limit; no other event, request or
    world can do it. *)
Theorem authorization_needs_proof s s' :
  step s s' -> d_authorized (s_dev s) = false -> d_authorized (s_dev s') = true ->
  exists ep data p,
    act_endpoint (d_active (s_dev s)) = Some ep /\
    ep_handler ep = pouch_prov_handle_auth_p /\
    handle (EvDownlinkData 0 data true) s = Some (tt, s') /\
    cbor_decode_auth_req (request_with data (s_dev s)) = Some (auth_req_auth_proof_m p) /\
    proof_accepted (s_dev s) p.
Proof.
  intros Hstep Hf Ht. destruct Hstep as [e s s' _ E|s w]; [|cbn in *; congruence].
  assert (Hcase : (exists sid data last, e = EvDownlinkData sid data last) \/
    ~ (exists sid data last, e = EvDownlinkData sid data last)).
  { destruct e; [right; by intros (? & ? & ? & ?)|left; eauto|right; by intros (? & ? & ? & ?)..]. }
  destruct Hcase as [(sid & data & last & ->)|Hne].
  2: { assert (Hs : steps stays_unauthorized (handle e)).
       { apply other_events_unauthorized. intros sid data last ->. apply Hne. eauto. }
       by rewrite (Hs _ _ _ E Hf) in Ht. }
  destruct (data_inv _ _ _ _ _ E) as [H|H]; [rewrite H in Ht; cbn in Ht; congruence|].
  destruct H as (ep & s1 & -> & -> & He & _ & Hd & Hr & Hp).
  assert (Hf1 : d_authorized (s_dev s1) = false) by (by rewrite Hd).
  destruct (process_inv _ _ _ Hp) as [(op & stt & E1 & _)|(Ho & _ & r & s2 & E1 & E2)].
  { by rewrite (respond_unauthorized _ _ _ _ _ _ E1 Hf1) in Ht. }
  assert (Ht2 : d_authorized (s_dev s2) = true).
  { destruct (d_authorized (s_dev s2)) eqn:Ef2; [done|].
    destruct E2 as [(op & stt & E2)|[(msg & err & -> & E2)| ->]]; [| |congruence].
    - by rewrite (respond_unauthorized _ _ _ _ _ _ E2 Ef2) in Ht.
    - by rewrite (enqueue_unauthorized _ _ _ _ _ E2 Ef2) in Ht. }
  destruct (decide (ep_handler ep = pouch_prov_handle_auth_p)) as [Hh|Hh].
  2: { by rewrite (other_handlers_unauthorized _ _ _ Hh _ _ _ E1 Hf1) in Ht2. }
  rewrite Hh in E1. destruct (handle_auth_authorizes _ _ _ _ _ E1 Hf1 Ht2) as (p & Hdec & Hacc).
  destruct Hr as [Hr|Hr]; [congruence|]. rewrite Hr in Hdec.
  exists ep, data, p. split_and!; try done. by rewrite Hd in Hacc.
Qed.

(** ** Gating *)

(** What the gated endpoints act on. *)
Definition protected (d : device) :=
  (d_scan d, d_wifi d, d_blobs d, d_ident d, d_adv d, d_mgr d).

Lemma ungated_endpoints :
  Forall (fun ep => ep_require_auth ep = false ->
    ep_handler ep = pouch_prov_handle_ver_p \/ ep_handler ep = pouch_prov_handle_auth_p) endpoints.
Proof.
  unfold endpoints.
  destruct CONFIG_POUCH_PROV_AUTH, CONFIG_POUCH_PROV_WIFI, CONFIG_POUCH_PROV_CRED;
    repeat (apply Forall_cons; split; [intros [=]; first [by left|by right]|]); apply Forall_nil_2.
Qed.

Lemma ungated_protected ep req n :
  ep ∈ endpoints -> ep_require_auth ep = false ->
  keeps protected (run_handler (ep_handler ep) req n).
Proof.
  intros Hin Hreq. pose proof ungated_endpoints as Hall. rewrite Forall_forall in Hall.
  destruct (Hall ep Hin Hreq) as [-> | ->].
  - cbn [run_handler]. steps_go.
  - cbn [run_handler]. steps_go.
Qed.

Lemma respond_protected path op stt : keeps protected (respond_status path op stt).
Proof. apply (steps_respond (same protected)). done. Qed.

Lemma enqueue_protected path msg : keeps protected (pouch_prov_rpc_enqueue path msg).
Proof. steps_go. Qed.

(** C2: While the session is not authorized, no downlink data of any kind
    changes the Wi-Fi configuration and connection, the scan cache, the
    credential store, the identity, the advertising or the manager's state. *)
Theorem protected_until_authorized sid data last s s' :
  (forall ep, act_endpoint (d_active (s_dev s)) = Some ep -> ep ∈ endpoints) ->
  pouch_prov_session_authorized (s_dev s) = false ->
  handle (EvDownlinkData sid data last) s = Some (tt, s') ->
  protected (s_dev s') = protected (s_dev s).
Proof.
  intros Hep Hun E. cbn [handle] in E.
  destruct (data_inv _ _ _ _ _ E) as [H|(ep & s1 & -> & -> & He & _ & Hd & _ & Hp)].
  { by rewrite H. }
  assert (Hpr : protected (s_dev s1) = protected (s_dev s)) by (by rewrite Hd).
  rewrite <- Hpr.
  destruct (process_inv _ _ _ Hp) as [(op & stt & E1 & _)|(_ & Hgate & r & s2 & E1 & E2)].
  { apply (respond_protected _ _ _ _ _ _ E1). }
  assert (Hreq : ep_require_auth ep = false).
  { destruct (ep_require_auth ep); [|done]. specialize (Hgate eq_refl).
    rewrite Hd in Hgate. change (pouch_prov_session_authorized (s_dev s) = true) in Hgate.
    congruence. }
  assert (H2 : protected (s_dev s2) = protected (s_dev s1))
    by (by apply (ungated_protected ep _ _ (Hep ep He) Hreq _ _ _ E1)).
  rewrite <- H2. destruct E2 as [(op & stt & E2)|[(msg & err & -> & E2)| ->]]; [| |done].
  - apply (respond_protected _ _ _ _ _ _ E2).
  - apply (enqueue_protected _ _ _ _ _ E2).
Qed.
End AuthSpec.

Section Handshake.
Context {KC : Kconfig} {K : Kernel} {P : Platform} {CD : Codec}.
Context {CL : CodecEncLaws CD} {DL : CodecDecLaws CD}.
Context {PH : PsaHmac P} {PS : PlatformSizes P}.

(** The device's half: HMAC of "dev", client nonce, device nonce. *)
Definition device_proof (pop cli dev : list byte) : list byte :=
  hmac_sha256 pop (take 3 (str "dev") ++ cli ++ dev).

(** The reply to a challenge. *)
Definition challenge_reply (pop cli dev : list byte) : list byte :=
  item_bytes (auth_rsp_item (auth_rsp_auth_challenge_rsp_m {|
    auth_challenge_rsp_prov_status_m := prov_status_status_ok_m_c;
    auth_challenge_rsp_dev_nonce := dev;
    auth_challenge_rsp_dev_proof := device_proof pop cli dev |})).

Definition proof_reply (stt : prov_status_r) : list byte := item_bytes (op_status_item 1 stt).

Lemma encode_proof_reply stt n :
  (3 <= n)%nat ->
  enc_result (cbor_encode_auth_rsp n
    (auth_rsp_auth_proof_rsp_m {| auth_proof_rsp_prov_status_m := stt |})) = HOk (proof_reply stt).
Proof.
  intros Hn. rewrite encode_auth_rsp_law by done. cbn [auth_rsp_item auth_proof_rsp_prov_status_m].
  rewrite fit_some; [done|]. rewrite op_status_len; lia.
Qed.

Lemma challenge_reply_len pop cli dev :
  length dev = 16%nat -> length (challenge_reply pop cli dev) = 54%nat.
Proof.
  intros Hd. unfold challenge_reply. cbn [auth_rsp_item auth_challenge_rsp_prov_status_m
    auth_challenge_rsp_dev_nonce auth_challenge_rsp_dev_proof item_bytes map concat].
  unfold device_proof. rewrite !length_app, hmac_length, Hd. done.
Qed.

(** The nonces and the flag a challenge leaves. *)
Definition after_challenge (cli dev : list byte) (d : device) : device :=
  set_auth (fun a => {| au_cli_nonce := cli; au_dev_nonce := dev; au_challenged := true;
                        au_attempts := au_attempts a |}) d.

(** A challenge is answered with a fresh device nonce and the HMAC of "dev",
    the client's nonce and that nonce under the secret, or with an internal
    error if the crypto library fails; either way the attempt count is kept. *)
Theorem challenge_answered c pop tl n s :
  length (auth_challenge_cli_nonce c) = NONCE_LEN ->
  cfg_pop (pouch_prov_config_get (s_dev s)) = Some pop -> (54 <= n)%nat ->
  let cli := auth_challenge_cli_nonce c in
  let dev := (sys_rand_get NONCE_LEN (s_env s)).1 in
  wp (pouch_prov_handle_auth
        (item_bytes (auth_req_item (auth_req_auth_challenge_m c)) ++ tl) n)
    (fun r s' => s_dev s' = after_challenge cli dev (s_dev s) /\
       (r = HOk (challenge_reply pop cli dev) \/ r = HErr (- EIO))) s.
Proof.
  intros Hc Hp Hn. cbn zeta. unfold pouch_prov_handle_auth.
  rewrite decode_auth_req_law by exact Hc. unfold handle_challenge.
  rewrite (proj2 (Nat.eqb_eq _ _)) by done. cbn [negb]. destruct s as [d w].
  apply wp_bind, wp_put, wp_bind, wp_call. cbn [s_dev s_env]. intros dev w1 Er.
  pose proof (rand_length NONCE_LEN w) as Hl. rewrite Er in Hl |- *. cbn [fst] in *.
  apply wp_bind, wp_put, wp_bind, wp_put, wp_bind, wp_getd. apply wp_bind.
  eapply wp_mono; [apply (wp_hmac_proof "dev" _ _ pop); exact Hp|].
  intros r s' [Hd Hr]. cbn [s_dev] in *. destruct r as [out|]; apply wp_ret.
  - rewrite (Hr out eq_refl), encode_auth_rsp_law
      by (cbn; split; [exact Hl|apply hmac_length]).
    split; [by rewrite Hd|]. left. cbn [s_dev d_auth set_challenged set_dev_nonce set_cli_nonce
      set_auth au_cli_nonce au_dev_nonce]. rewrite fit_some; [done|].
    fold (device_proof pop (auth_challenge_cli_nonce c) dev).
    fold (challenge_reply pop (auth_challenge_cli_nonce c) dev).
    by rewrite challenge_reply_len.
  - split; [by rewrite Hd|by right].
Qed.

Lemma wp_mac_updates_ok {PA : PsaAvailable P} op k m xs s :
  mac_absorbed op = (k, m) ->
  wp (mac_updates op xs)
    (fun r s' => s_dev s' = s_dev s /\ r.1 = true /\ mac_absorbed r.2 = (k, m ++ concat xs)) s.
Proof.
  revert op m s. induction xs as [|x xs IH]; intros op m [d w] H; cbn [mac_updates concat].
  - apply wp_ret. by rewrite app_nil_r.
  - apply wp_bind, wp_call. cbn [s_env s_dev]. intros [stt op'] w' E.
    pose proof (psa_update_ok op x w) as Hok. rewrite E in Hok. cbn in Hok. subst.
    cbn [Z.eqb PSA_SUCCESS]. eapply wp_mono; [apply IH; by eapply psa_update_law|].
    intros r s' (H1 & H2 & H3). split_and!; [done..|]. by rewrite app_assoc.
Qed.

(** With a working crypto library the proof is always computed. *)
Lemma wp_hmac_ok {PA : PsaAvailable P} tag x y pop s :
  cfg_pop (pouch_prov_config_get (s_dev s)) = Some pop ->
  wp (hmac_proof tag x y)
    (fun r s' => s_dev s' = s_dev s /\
       r = Some (hmac_sha256 pop (take 3 (str tag) ++ x ++ y))) s.
Proof.
  intros Hp. unfold hmac_proof. apply wp_bind, wp_getd. rewrite Hp. destruct s as [d w].
  apply wp_bind, wp_call. cbn [s_env s_dev]. intros [st0 key] w1 E1.
  pose proof (psa_import_ok pop w) as H1. rewrite E1 in H1. cbn in H1. subst.
  cbn [Z.eqb PSA_SUCCESS negb]. apply wp_bind, wp_call. cbn [s_env s_dev]. intros [st1 op] w2 E2.
  pose proof (psa_setup_ok pop w key w1 E1) as H2. rewrite E2 in H2. cbn in H2. subst.
  cbn [Z.eqb PSA_SUCCESS negb]. apply wp_bind. eapply wp_mono.
  { apply wp_mac_updates_ok. eapply psa_setup_law; [by eapply psa_import_law|done]. }
  intros [ok op2] [d2 w3] (Hd & Hok & Habs). cbn [fst snd s_dev] in *. subst. cbn [negb].
  apply wp_bind, wp_call. cbn [s_env s_dev]. intros [st2 out] w4 E4.
  pose proof (psa_finish_ok op2 w3) as H4. rewrite E4 in H4. cbn in H4. subst.
  pose proof (psa_finish_law _ _ _ _ _ _ _ Habs E4) as ->.
  apply wp_bind, wp_call_, wp_ret. rewrite hmac_length. cbn [concat app s_dev] in *.
  by rewrite app_nil_r.
Qed.

(** A proof within the attempt limit, checked by a working crypto library. *)
Lemma wp_proof_checked {PA : PsaAvailable P} p pop n s :
  au_challenged (d_auth (s_dev s)) = true ->
  u8 (au_attempts (d_auth (s_dev s)) + 1) <= MAX_ATTEMPTS ->
  cfg_pop (pouch_prov_config_get (s_dev s)) = Some pop -> (3 <= n)%nat ->
  auth_proof_cli_proof p = expected_proof pop (d_auth (s_dev s)) ->
  wp (handle_proof p n) (fun r s' =>
    r = HOk (proof_reply prov_status_status_ok_m_c) /\
    s_dev s' = set_authorized true
      (set_attempts (u8 (au_attempts (d_auth (s_dev s)) + 1)) (s_dev s))) s.
Proof.
  intros Hc Ha Hp Hn Hproof. destruct s as [d w]. cbn [s_dev s_env] in *.
  unfold handle_proof. apply wp_bind, wp_getd. cbn [s_dev]. rewrite Hc, Hproof.
  assert (Hl : length (expected_proof pop (d_auth d)) = 32%nat) by apply hmac_length.
  rewrite Hl. cbn [negb orb Nat.eqb PROOF_LEN]. apply wp_bind, wp_getd, wp_bind, wp_put.
  cbn [s_dev s_env]. rewrite (proj2 (Z.ltb_ge _ _)) by exact Ha.
  apply wp_bind, wp_getd. apply wp_bind. eapply wp_mono; [apply (wp_hmac_ok "cli" _ _ pop); exact Hp|].
  intros r [d1 w1] [Hd ->]. cbn [s_dev] in Hd. subst.
  fold (expected_proof pop (d_auth d)). cbn [d_auth set_attempts set_auth au_dev_nonce au_cli_nonce
    s_dev].
  rewrite (proj2 (Z.eqb_eq _ _)) by (by apply ct_diff_zero).
  cbn [negb]. apply wp_bind, wp_put. unfold respond_status. apply wp_ret.
  by rewrite encode_proof_reply.
Qed.

(** A challenge answered by a working crypto library. *)
Lemma wp_challenge_ok {PA : PsaAvailable P} c pop n s :
  length (auth_challenge_cli_nonce c) = NONCE_LEN ->
  cfg_pop (pouch_prov_config_get (s_dev s)) = Some pop -> (54 <= n)%nat ->
  let cli := auth_challenge_cli_nonce c in
  let dev := (sys_rand_get NONCE_LEN (s_env s)).1 in
  wp (handle_challenge c n) (fun r s' =>
    r = HOk (challenge_reply pop cli dev) /\ s_dev s' = after_challenge cli dev (s_dev s)) s.
Proof.
  intros Hc Hp Hn. cbn zeta. destruct s as [d w]. cbn [s_dev s_env] in *.
  unfold handle_challenge. rewrite (proj2 (Nat.eqb_eq _ _)) by done. cbn [negb].
  apply wp_bind, wp_put, wp_bind, wp_call. cbn [s_dev s_env]. intros dev w1 Er.
  pose proof (rand_length NONCE_LEN w) as Hl. rewrite Er in *. cbn [fst] in *.
  apply wp_bind, wp_put, wp_bind, wp_put, wp_bind, wp_getd. apply wp_bind.
  eapply wp_mono; [apply (wp_hmac_ok "dev" _ _ pop); exact Hp|].
  intros r [d1 w2] [Hd ->]. cbn [s_dev] in *. apply wp_ret.
  rewrite encode_auth_rsp_law by (cbn; split; [exact Hl|apply hmac_length]).
  split; [|exact Hd].
  cbn [d_auth set_challenged set_dev_nonce set_cli_nonce set_auth au_cli_nonce au_dev_nonce].
  fold (device_proof pop (auth_challenge_cli_nonce c) dev).
  fold (challenge_reply pop (auth_challenge_cli_nonce c) dev).
  by rewrite fit_some by (by rewrite challenge_reply_len).
Qed.

(** ** The attempt limit *)

(** A run of proof requests and their replies. *)
Fixpoint proofs (ps : list auth_proof) (n : nat) : C (list hres) :=
  match ps with
  | [] => mret []
  | p :: ps' => r <- handle_proof p n ;; rs <- proofs ps' n ;; mret (r :: rs)
  end.

Lemma wp_proof_locked p n s :
  au_challenged (d_auth (s_dev s)) = true -> length (auth_proof_cli_proof p) = PROOF_LEN ->
  MAX_ATTEMPTS <= au_attempts (d_auth (s_dev s)) < 255 -> (3 <= n)%nat ->
  wp (handle_proof p n) (fun r s' =>
    r = HOk (proof_reply prov_status_status_unauthorized_m_c) /\
    s_dev s' = set_attempts (au_attempts (d_auth (s_dev s)) + 1) (s_dev s)) s.
Proof.
  intros Hc Hl Ha Hn. unfold MAX_ATTEMPTS in *. unfold handle_proof.
  apply wp_bind, wp_getd. rewrite Hc, Hl. cbn [negb orb Nat.eqb PROOF_LEN].
  apply wp_bind, wp_getd, wp_bind, wp_put.
  rewrite u8_small by (unfold in_u8; lia). unfold MAX_ATTEMPTS.
  rewrite (proj2 (Z.ltb_lt _ _)) by lia. unfold respond_status. apply wp_ret.
  by rewrite encode_proof_reply.
Qed.

Lemma wp_proofs_locked ps n : (3 <= n)%nat ->
  (forall p, p ∈ ps -> length (auth_proof_cli_proof p) = PROOF_LEN) ->
  forall s, au_challenged (d_auth (s_dev s)) = true ->
  MAX_ATTEMPTS <= au_attempts (d_auth (s_dev s)) ->
  au_attempts (d_auth (s_dev s)) + Z.of_nat (length ps) <= 255 ->
  wp (proofs ps n) (fun rs s' =>
    rs = map (fun _ => HOk (proof_reply prov_status_status_unauthorized_m_c)) ps /\
    s_dev s' = set_attempts (au_attempts (d_auth (s_dev s)) + Z.of_nat (length ps)) (s_dev s)) s.
Proof.
  intros Hn. induction ps as [|p ps IH]; intros Hl s Hc Ha Hb; cbn [proofs].
  - apply wp_ret. split; [done|]. cbn [length]. rewrite Z.add_0_r.
    by destruct s as [[? ? ? [] ? ? ? ? ? ?] ?].
  - cbn [length] in Hb. apply wp_bind. eapply wp_mono; [apply wp_proof_locked; auto|].
    { apply Hl. left. }
    { lia. }
    intros r s1 [-> H1]. apply wp_bind. eapply wp_mono; [apply IH|].
    + intros q Hq. apply Hl. by right.
    + by rewrite H1.
    + rewrite H1. cbn. lia.
    + rewrite H1. cbn. lia.
    + intros rs s2 [-> H2]. apply wp_ret. split; [done|]. rewrite H2, H1. cbn [length].
      unfold set_attempts, set_auth. cbn. f_equal. f_equal. lia.
Qed.

(** C21: After three proofs in a session every further one is refused unread, and
    the session stays as it is, for as long as the 8-bit counter does not wrap. *)
Theorem attempts_exhausted ps n s :
  au_challenged (d_auth (s_dev s)) = true -> (3 <= n)%nat ->
  (forall p, p ∈ ps -> length (auth_proof_cli_proof p) = PROOF_LEN) ->
  MAX_ATTEMPTS <= au_attempts (d_auth (s_dev s)) ->
  au_attempts (d_auth (s_dev s)) + Z.of_nat (length ps) <= 255 ->
  wp (proofs ps n) (fun rs s' =>
    (forall r, r ∈ rs -> r = HOk (proof_reply prov_status_status_unauthorized_m_c)) /\
    d_authorized (s_dev s') = d_authorized (s_dev s)) s.
Proof.
  intros Hc Hn Hl Ha Hb. eapply wp_mono; [by apply wp_proofs_locked|].
  intros rs s' [-> ->]. split; [|done]. by intros r (p & -> & _)%list_elem_of_fmap.
Qed.

(** The lockout expires: the attempt counter is a [uint8_t], so after 252 more
    refused proofs it wraps and the next proof is checked again and, when it is
    right, authorizes the session that had used up its attempts. *)
Theorem lockout_expires {PA : PsaAvailable P} ps p pop n s :
  au_challenged (d_auth (s_dev s)) = true -> (3 <= n)%nat ->
  au_attempts (d_auth (s_dev s)) = MAX_ATTEMPTS ->
  (forall q, q ∈ ps -> length (auth_proof_cli_proof q) = PROOF_LEN) -> length ps = 252%nat ->
  cfg_pop (pouch_prov_config_get (s_dev s)) = Some pop ->
  auth_proof_cli_proof p = expected_proof pop (d_auth (s_dev s)) ->
  wp (rs <- proofs ps n ;; r <- handle_proof p n ;; mret r) (fun r s' =>
    r = HOk (proof_reply prov_status_status_ok_m_c) /\ d_authorized (s_dev s') = true) s.
Proof.
  intros Hc Hn Ha Hl Hps Hp Hproof. apply wp_bind. eapply wp_mono.
  { apply wp_proofs_locked; rewrite ?Ha, ?Hps; auto; vm_compute; congruence. }
  intros rs s1 [_ H1]. rewrite Ha, Hps in H1. apply wp_bind.
  eapply wp_mono; [apply (wp_proof_checked p pop); rewrite ?H1; try done|].
  intros r s2 [-> H2]. apply wp_ret. split; [done|]. by rewrite H2.
Qed.

Lemma challenge_without_secret c n s :
  length (auth_challenge_cli_nonce c) = NONCE_LEN ->
  cfg_pop (pouch_prov_config_get (s_dev s)) = None -> handle_challenge c n s = None.
Proof.
  intros Hc Hp. unfold handle_challenge. rewrite (proj2 (Nat.eqb_eq _ _)) by exact Hc.
  unfold mbind, put, mmod, call. cbn [negb s_env s_dev].
  destruct (sys_rand_get NONCE_LEN (s_env s)) as [dev w1].
  unfold hmac_proof, mbind, get, mget. cbn [s_dev].
  change (pouch_prov_config_get _) with (pouch_prov_config_get (s_dev s)). by rewrite Hp.
Qed.

Lemma process_handler_undefined ep s :
  act_overflow (d_active (s_dev s)) = false -> ep_require_auth ep = false ->
  run_handler (ep_handler ep) (request (s_dev s)) POUCH_PROV_MSG_MAX s = None ->
  process ep s = None.
Proof.
  intros Ho Hr E. unfold process, mbind, get, mget. rewrite Ho, Hr. cbn [andb].
  lazy beta iota. by rewrite E.
Qed.

(** In a build with the auth endpoint and no secret configured, a well-formed
    challenge makes the device call [strlen(NULL)]: the auth endpoint is not
    gated and hands out no proof, it crashes. *)
Theorem challenge_without_secret_undefined c s :
  CONFIG_POUCH_PROV_AUTH = true -> buffer_wf (s_dev s) ->
  length (auth_challenge_cli_nonce c) = NONCE_LEN ->
  cfg_pop (pouch_prov_config_get (s_dev s)) = None ->
  request_on POUCH_PROV_PATH_AUTH
    [item_bytes (auth_req_item (auth_req_auth_challenge_m c))] s = None.
Proof.
  intros Hcfg [Hb _] Hc Hp. set (b := item_bytes _).
  assert (Hlen : length b = 19%nat).
  { subst b. cbn [auth_req_item item_bytes map concat]. rewrite !length_app, Hc. done. }
  set (ep := {| ep_path := POUCH_PROV_PATH_AUTH; ep_handler := pouch_prov_handle_auth_p;
                ep_require_auth := false |}).
  assert (Hf : find_endpoint POUCH_PROV_PATH_AUTH endpoints = Some ep)
    by (unfold endpoints; by rewrite Hcfg).
  destruct (send_fits ep [b] ltac:(done) 0 (act_buf (d_active (s_dev s))) (s_dev s) (s_env s) Hb)
    as (buf & H1 & H2 & H3).
  { unfold total. cbn [concat]. rewrite length_app, Hlen. unfold POUCH_PROV_MSG_MAX. cbn. lia. }
  unfold request_on, mbind. rewrite (start_found POUCH_PROV_PATH_AUTH ep s eq_refl Hf).
  unfold at_dev. rewrite H3.
  apply process_handler_undefined; [done|done|].
  change (request _) with (take (0 + total [b]) buf). rewrite H2.
  change (take 0 _ ++ concat [b]) with (b ++ []). change (ep_handler ep) with pouch_prov_handle_auth_p.
  cbn [run_handler]. unfold pouch_prov_handle_auth, b. rewrite decode_auth_req_law by exact Hc.
  by apply challenge_without_secret.
Qed.
End Handshake.

(** ** The properties at concrete inputs *)

#[export] Instance sim_psa_available : PsaAvailable sim_platform.
Proof.
  split.
  - done.
  - intros k w id w' E. cbn in E. injection E as <- <-. cbn.
    by rewrite list_lookup_middle by lia.
  - done.
  - done.
Qed.

Definition sim_cli : list byte := zeros 16.
Definition sim_challenge : auth_challenge := {| auth_challenge_cli_nonce := sim_cli |}.
Definition sim_proof : auth_proof :=
  {| auth_proof_cli_proof := sim_hmac sim_pop (str "cli" ++ sim_rand 16 ++ sim_cli) |}.
Definition sim_bad_proof : auth_proof := {| auth_proof_cli_proof := zeros 32 |}.

Definition proof_bytes (p : auth_proof) : list byte :=
  item_bytes (auth_req_item (auth_req_auth_proof_m p)).
Definition challenge_bytes (c : auth_challenge) : list byte :=
  item_bytes (auth_req_item (auth_req_auth_challenge_m c)).

(** Challenged, with the proof request announced. *)
Definition sim_proof_pending : st := Eval vm_compute in
  run_state (run_events [EvDownlinkStart 0 ".prov/auth" 60;
                         EvDownlinkData 0 (challenge_bytes sim_challenge) true;
                         EvDownlinkStart 0 ".prov/auth" 60]) sim_ready.

Definition sim_proved : st := Eval vm_compute in
  run_state (handle (EvDownlinkData 0 (proof_bytes sim_proof) true)) sim_proof_pending.

Lemma authorization_needs_proof_witness :
  exists ep data p,
    act_endpoint (d_active (s_dev sim_proof_pending)) = Some ep /\
    ep_handler ep = pouch_prov_handle_auth_p /\
    handle (EvDownlinkData 0 data true) sim_proof_pending = Some (tt, sim_proved) /\
    cbor_decode_auth_req (request_with data (s_dev sim_proof_pending)) =
      Some (auth_req_auth_proof_m p) /\
    proof_accepted (s_dev sim_proof_pending) p.
Proof.
  apply (authorization_needs_proof sim_proof_pending sim_proved).
  - apply (step_event (EvDownlinkData 0 (proof_bytes sim_proof) true)); [reflexivity|].
    vm_compute. reflexivity.
  - reflexivity.
  - reflexivity.
Defined.

Lemma protected_until_authorized_witness :
  protected (s_dev (run_state (handle (EvDownlinkData 0 [x81; x01] true)) sim_cred_pending)) =
  protected (s_dev sim_cred_pending).
Proof.
  apply (protected_until_authorized 0 [x81; x01] true).
  - intros ep [= <-]. by repeat first [left | right].
  - reflexivity.
  - vm_compute. reflexivity.
Defined.

Lemma challenge_answered_witness :
  wp (pouch_prov_handle_auth (challenge_bytes sim_challenge ++ []) 384)
    (fun r s' => s_dev s' = after_challenge sim_cli (sim_rand 16) (s_dev sim_ready) /\
       (r = HOk (challenge_reply sim_pop sim_cli (sim_rand 16)) \/ r = HErr (- EIO))) sim_ready.
Proof.
  apply (challenge_answered sim_challenge sim_pop [] 384 sim_ready).
  - reflexivity.
  - reflexivity.
  - apply Nat.leb_le. reflexivity.
Defined.

(** A challenged session that has used its three attempts. *)
Definition sim_locked : st := at_dev (set_attempts 3 (s_dev sim_proof_pending)) sim_proof_pending.

Lemma attempts_exhausted_witness :
  wp (proofs [sim_bad_proof; sim_proof] 384) (fun rs s' =>
    (forall r, r ∈ rs -> r = HOk (proof_reply prov_status_status_unauthorized_m_c)) /\
    d_authorized (s_dev s') = d_authorized (s_dev sim_locked)) sim_locked.
Proof.
  apply (attempts_exhausted [sim_bad_proof; sim_proof] 384 sim_locked).
  - reflexivity.
  - apply Nat.leb_le. reflexivity.
  - intros p [-> |[-> |[]%elem_of_nil]%elem_of_cons]%elem_of_cons; reflexivity.
  - discriminate.
  - discriminate.
Defined.

Lemma lockout_expires_witness :
  wp (rs <- proofs (replicate 252 sim_bad_proof) 384 ;; r <- handle_proof sim_proof 384 ;; mret r)
    (fun r s' => r = HOk (proof_reply prov_status_status_ok_m_c) /\
       d_authorized (s_dev s') = true) sim_locked.
Proof.
  apply (lockout_expires (replicate 252 sim_bad_proof) sim_proof sim_pop 384 sim_locked).
  - reflexivity.
  - apply Nat.leb_le. reflexivity.
  - reflexivity.
  - intros q [-> _]%elem_of_replicate. reflexivity.
  - reflexivity.
  - reflexivity.
  - reflexivity.
Defined.

(** The same application without a secret. *)
Definition sim_open : st := Eval vm_compute in
  run_state (run_events [EvInit (Some {| cfg_pop := None; cfg_device_id := Some "device-1"%string;
                                         cfg_wifi_conn_attempts := 3; cfg_event_cb := true |});
                         EvStart]) sim_boot.

Lemma challenge_without_secret_undefined_witness :
  request_on POUCH_PROV_PATH_AUTH [challenge_bytes sim_challenge] sim_open = None.
Proof.
  apply (challenge_without_secret_undefined sim_challenge sim_open).
  - reflexivity.
  - split; [reflexivity|]. apply Nat.leb_le. reflexivity.
  - reflexivity.
  - reflexivity.
Defined.
