(* ===== verification/CredSpec.v ===== *)
(** * The credential store's contract

    An upload machine that the staging functions refine, and a whole upload in
    chunks.  Finalizing, persistence and deletion are in CredPersist.v. *)

From S2P Require Import Prelude ProvTypes Zcbor Schema Codec Platform State Frame Rpc Session.
From S2P Require Import CredStore Identity Manager System Frames Instances.

(** ** Abstract specification: an ordered, bounded upload *)

Record upload : Type := { up_received : list byte; up_announced : nat }.

(** A write at an offset: the new total, or a negative errno.  A write at
    offset 0 starts over, also when it is then refused. *)
Definition upload_write (cap : nat) (u : upload) (off total : Z) (data : list byte)
  : Z * upload :=
  if Z.of_nat cap <? total then (- EMSGSIZE, u) else
  let u1 := if off =? 0 then {| up_received := []; up_announced := Z.to_nat total |} else u in
  if (off =? Z.of_nat (length (up_received u1))) &&
     (length (up_received u1) + length data <=? up_announced u1)%nat
  then (Z.of_nat (length (up_received u1 ++ data)),
        {| up_received := up_received u1 ++ data; up_announced := up_announced u1 |})
  else (- EINVAL, u1).

(** The upload a blob holds. *)
Definition upload_of (b : blob) : upload :=
  {| up_received := staged_bytes b; up_announced := b_expected b |}.

(** Chunks with the offsets at which they have to be written. *)
Fixpoint offsets (off : nat) (cs : list (list byte)) : list (Z * list byte) :=
  match cs with
  | [] => []
  | c :: cs' => (Z.of_nat off, c) :: offsets (off + length c) cs'
  end.

Section CredSpec.
Context {KC : Kconfig} {K : Kernel} {P : Platform} {CD : Codec}.

Lemma length_staged b : blob_wf b -> length (staged_bytes b) = b_staged b.
Proof.
  intros (H1 & H2 & H3 & H4). unfold staged_bytes. rewrite length_take. lia.
Qed.

(** The store with one blob replaced. *)
Definition blob_set (k : nat) (b : blob) (s : st) : st :=
  with_blobs (<[k := b]> (d_blobs (s_dev s))) s.

Lemma blob_set_set k b b' s : blob_set k b' (blob_set k b s) = blob_set k b' s.
Proof. unfold blob_set, with_blobs, set_blobs. simpl. by rewrite list_insert_insert_eq. Qed.

Lemma blob_set_lookup k b b0 s :
  d_blobs (s_dev s) !! k = Some b0 -> d_blobs (s_dev (blob_set k b s)) !! k = Some b.
Proof. intros H. apply list_lookup_insert_eq. by eapply lookup_lt_Some. Qed.

Lemma wp_set_blob k b (Q : unit -> st -> Prop) s : Q tt (blob_set k b s) -> wp (set_blob k b) Q s.
Proof. intros H. apply wp_put. exact H. Qed.

(** The second half of a staging call, with the blob as it then is. *)
Lemma stage_tail k off (data : list byte) b s :
  0 <= off -> d_blobs (s_dev s) !! k = Some b -> blob_wf b ->
  wp (if negb (off =? Z.of_nat (b_staged b)) || (b_expected b <? b_staged b + length data)%nat
      then mret (- EINVAL) else
      mguard (buf_fits (b_staged b) data (b_buf b)) ;;;
      set_blob k (with_staged (b_staged b + length data)
                   (with_buf (buf_write (b_staged b) data (b_buf b)) b)) ;;;
      mret (Z.of_nat (b_staged b + length data)))
    (fun rc s' => exists b', s' = blob_set k b' s /\ blob_wf b' /\ b_cap b' = b_cap b /\
       b_len b' = b_len b /\
       (rc, upload_of b') =
       (if (off =? Z.of_nat (b_staged b)) && (b_staged b + length data <=? b_expected b)%nat
        then (Z.of_nat (b_staged b + length data),
              {| up_received := staged_bytes b ++ data; up_announced := b_expected b |})
        else (- EINVAL, upload_of b))) s.
Proof.
  intros Ho Hk Hw. pose proof Hw as (H1 & H2 & H3 & H4).
  destruct (off =? Z.of_nat (b_staged b)) eqn:E1; cbn [negb orb andb];
    [destruct (b_expected b <? b_staged b + length data)%nat eqn:E2|]; zbool.
  - rewrite (proj2 (Nat.leb_gt _ _)) by lia. apply wp_ret. exists b.
    split_and!; try done. unfold blob_set, with_blobs. rewrite list_insert_id by done.
    by destruct s as [[] ?].
  - rewrite (proj2 (Nat.leb_le _ _)) by lia.
    apply wp_bind, wp_guard; [unfold buf_fits; apply Nat.leb_le; lia|].
    apply wp_bind, wp_set_blob, wp_ret. eexists. split; [done|].
    assert (Hl : length (buf_write (b_staged b) data (b_buf b)) = length (b_buf b))
      by (apply length_buf_write; lia).
    split_and!; try done.
    + unfold blob_wf. cbn. lia.
    + f_equal. unfold upload_of, staged_bytes. cbn. f_equal.
      rewrite take_buf_write by lia. done.
  - apply wp_ret. exists b. split_and!; try done. unfold blob_set, with_blobs.
    rewrite list_insert_id by done. by destruct s as [[] ?].
Qed.

(** A staging call is the upload machine's write. *)
Lemma wp_stage kind off total data s b :
  store_wf (d_blobs (s_dev s)) -> kind_valid kind = true -> 0 <= off -> 0 <= total ->
  d_blobs (s_dev s) !! Z.to_nat kind = Some b ->
  wp (pouch_prov_cred_stage kind off total data)
    (fun rc s' => exists b',
       (rc, upload_of b') = upload_write (b_cap b) (upload_of b) off total data /\
       s' = blob_set (Z.to_nat kind) b' s /\ b_len b' = b_len b /\
       store_wf (d_blobs (s_dev s'))) s.
Proof.
  intros Hs Hk Ho Ht Hb. pose proof Hs as [Hcap Hall]. pose proof (Hall _ _ Hb) as Hw.
  pose proof Hw as (H1 & H2 & H3 & H4).
  unfold pouch_prov_cred_stage. rewrite Hk. cbn [negb].
  apply wp_bind, (wp_get_blob _ b); [done|]. unfold upload_write.
  destruct (Z.of_nat (b_cap b) <? total) eqn:Et; zbool.
  { apply wp_ret. exists b. split_and!; try done. unfold blob_set, with_blobs.
    rewrite list_insert_id by done. by destruct s as [[] ?]. }
  set (b1 := if off =? 0 then with_expected (Z.to_nat total) (with_staged 0 b) else b).
  set (s1 := if off =? 0 then blob_set (Z.to_nat kind) b1 s else s).
  assert (Hb1 : d_blobs (s_dev s1) !! Z.to_nat kind = Some b1).
  { unfold s1, b1. destruct (off =? 0); [by eapply blob_set_lookup|done]. }
  assert (Hw1 : blob_wf b1).
  { unfold b1. destruct (off =? 0); [|done]. unfold blob_wf. cbn. lia. }
  assert (Hc1 : b_cap b1 = b_cap b /\ b_len b1 = b_len b) by (unfold b1; by destruct (off =? 0)).
  apply wp_bind. assert (Hwhen : wp (mwhen (off =? 0)
      (set_blob (Z.to_nat kind) (with_expected (Z.to_nat total) (with_staged 0 b))))
      (fun _ s' => s' = s1) s).
  { unfold s1, b1. destruct (off =? 0); [by apply wp_set_blob|by apply wp_ret]. }
  eapply wp_mono; [exact Hwhen|]. intros [] s' ->. clear Hwhen.
  apply wp_bind, (wp_get_blob _ b1); [done|].
  eapply wp_mono; [apply (stage_tail (Z.to_nat kind) off data b1 s1); done|].
  intros rc s' (b' & -> & Hw' & Hc' & Hl' & Hr). exists b'.
  assert (Hs1 : blob_set (Z.to_nat kind) b' s1 = blob_set (Z.to_nat kind) b' s).
  { unfold s1. destruct (off =? 0); [apply blob_set_set|done]. }
  split_and!.
  - rewrite Hr. rewrite <- (length_staged b1 Hw1).
    assert (Hu : (if off =? 0 then {| up_received := []; up_announced := Z.to_nat total |}
                  else upload_of b) = upload_of b1).
    { unfold b1. destruct (off =? 0); [|done]. unfold upload_of, staged_bytes. done. }
    rewrite Hu. cbn [up_received up_announced upload_of]. by rewrite length_app.
  - done.
  - rewrite Hl'. apply Hc1.
  - rewrite Hs1. cbn. eapply store_wf_insert; [done..|]. rewrite Hc'. apply Hc1.
Qed.

(** ** Uploading in chunks *)

Fixpoint stage_all (kind total : Z) (cs : list (Z * list byte)) : C (list Z) :=
  match cs with
  | [] => mret []
  | (off, c) :: cs' =>
      rc <- pouch_prov_cred_stage kind off total c ;;
      rest <- stage_all kind total cs' ;;
      mret (rc :: rest)
  end.

(** The totals reported along the way. *)
Fixpoint totals (off : nat) (cs : list (list byte)) : list Z :=
  match cs with
  | [] => []
  | c :: cs' => Z.of_nat (off + length c) :: totals (off + length c) cs'
  end.

(** The next chunk in order is appended. *)
Lemma upload_write_next off total (c : list byte) b :
  blob_wf b -> (total <= b_cap b)%nat -> (off + length c <= total)%nat ->
  off = 0%nat \/ (off = b_staged b /\ b_expected b = total) ->
  upload_write (b_cap b) (upload_of b) (Z.of_nat off) (Z.of_nat total) c =
  (Z.of_nat (off + length c),
   {| up_received := take off (staged_bytes b) ++ c; up_announced := total |}).
Proof.
  intros Hw Hcap Htot Hoff. unfold upload_write. rewrite (proj2 (Z.ltb_ge _ _)) by lia.
  assert (Hlen : length (take off (staged_bytes b)) = off)
    by (rewrite length_take, length_staged by done; lia).
  assert (Hu : eq (if Z.of_nat off =? 0
                then {| up_received := []; up_announced := Z.to_nat (Z.of_nat total) |}
                else upload_of b) (
               {| up_received := take off (staged_bytes b); up_announced := total |})).
  { rewrite Nat2Z.id. destruct (Z.of_nat off =? 0) eqn:E; zbool.
    - by replace off with 0%nat by lia.
    - destruct Hoff as [?|[H1 H2]]; [lia|]. unfold upload_of. rewrite H2. f_equal.
      rewrite take_ge; [done|]. rewrite length_staged by done. lia. }
  rewrite Hu. cbn [up_received up_announced]. rewrite Hlen, Z.eqb_refl.
  rewrite (proj2 (Nat.leb_le _ _)) by lia. cbn [andb]. by rewrite length_app, Hlen.
Qed.

Lemma wp_stage_all kind total cs : kind_valid kind = true -> forall off s b,
  store_wf (d_blobs (s_dev s)) -> d_blobs (s_dev s) !! Z.to_nat kind = Some b ->
  (total <= b_cap b)%nat -> (off + length (concat cs) <= total)%nat ->
  (off = 0%nat /\ cs <> []) \/ (off = b_staged b /\ b_expected b = total) ->
  wp (stage_all kind (Z.of_nat total) (offsets off cs))
    (fun rcs s' => exists b', rcs = totals off cs /\ s' = blob_set (Z.to_nat kind) b' s /\
       staged_bytes b' = take off (staged_bytes b) ++ concat cs /\
       b_expected b' = total /\ b_staged b' = (off + length (concat cs))%nat /\
       b_len b' = b_len b /\ blob_wf b') s.
Proof.
  intros Hk. induction cs as [|c cs IH]; intros off s b Hs Hb Hcap Htot Hoff.
  - destruct Hoff as [[_ ?]|[Hne Hex]]; [done|]. apply wp_ret. exists b. cbn [totals concat].
    pose proof (proj2 Hs _ _ Hb) as Hw. split_and!; try done.
    + unfold blob_set, with_blobs. rewrite list_insert_id by done. by destruct s as [[] ?].
    + rewrite app_nil_r, take_ge; [done|]. rewrite length_staged by done. lia.
    + cbn. lia.
  - cbn [stage_all offsets concat] in *. rewrite length_app in Htot.
    apply wp_bind. pose proof (proj2 Hs _ _ Hb) as Hw.
    eapply wp_mono; [apply (wp_stage kind (Z.of_nat off) (Z.of_nat total) c s b);
      [done|done|lia|lia|done]|].
    intros rc s1 (b1 & Hr & -> & Hl1 & Hs1).
    rewrite upload_write_next in Hr by (done || tauto || lia). injection Hr as -> Hst Hex.
    apply wp_bind.
    assert (Hb1 : d_blobs (s_dev (blob_set (Z.to_nat kind) b1 s)) !! Z.to_nat kind = Some b1)
      by (by eapply blob_set_lookup).
    assert (Hw1 : blob_wf b1) by (eapply Hs1; done).
    assert (Hn1 : b_staged b1 = (off + length c)%nat).
    { rewrite <- (length_staged b1 Hw1), Hst, length_app, length_take, length_staged by done. lia. }
    eapply wp_mono; [apply (IH (off + length c)%nat _ b1); try done|].
    + destruct Hw1 as (? & ? & ? & ?). lia.
    + lia.
    + right. lia.
    + intros rcs s2 (b2 & -> & -> & H1 & H2 & H3 & H4 & H5). apply wp_ret. exists b2.
      split_and!; try done.
      * by rewrite blob_set_set.
      * rewrite H1, Hst, take_ge, app_assoc; [done|].
        rewrite length_app, length_take, length_staged by done. lia.
      * rewrite length_app. lia.
      * congruence.
Qed.

(** ** The properties *)

(** C10: Staging a chunk refines the upload machine, on every outcome: too large an
    announcement and out-of-order or overlong chunks are refused with the errno
    of the code, an accepted chunk is appended; the other blobs and everything
    else stay as they are and the store stays well formed. *)
Theorem stage_refines_upload kind off total data s b :
  store_wf (d_blobs (s_dev s)) -> kind_valid kind = true -> 0 <= off -> 0 <= total ->
  d_blobs (s_dev s) !! Z.to_nat kind = Some b ->
  wp (pouch_prov_cred_stage kind off total data)
    (fun rc s' => exists b',
       (rc, upload_of b') = upload_write (b_cap b) (upload_of b) off total data /\
       s' = blob_set (Z.to_nat kind) b' s /\ b_len b' = b_len b /\
       store_wf (d_blobs (s_dev s'))) s.
Proof. apply wp_stage. Qed.

(** A credential sent in any number of chunks at the offsets of the bytes
    before them is accepted chunk by chunk, whatever was staged before: every
    call returns the bytes received so far, and at the end the staging area
    holds the concatenation, complete when it is not empty; the length of the
    persisted credential and everything else are as before. *)
Theorem upload_completes kind cs s b :
  store_wf (d_blobs (s_dev s)) -> kind_valid kind = true ->
  d_blobs (s_dev s) !! Z.to_nat kind = Some b ->
  cs <> [] -> (length (concat cs) <= b_cap b)%nat ->
  wp (stage_all kind (Z.of_nat (length (concat cs))) (offsets 0 cs))
    (fun rcs s' => exists b', rcs = totals 0 cs /\ s' = blob_set (Z.to_nat kind) b' s /\
       staged_bytes b' = concat cs /\ b_len b' = b_len b /\ blob_wf b' /\
       (concat cs <> [] -> blob_complete b' = true)) s.
Proof.
  intros Hs Hk Hb Hne Hl. eapply wp_mono; [eapply wp_stage_all; try done; by left|].
  intros rcs s' (b' & H1 & H2 & H3 & H4 & H5 & H6 & H7). exists b'. split_and!; try done.
  intros Hc. unfold blob_complete. rewrite H4, H5, Nat.eqb_refl, andb_true_r.
  apply negb_true_iff, Nat.eqb_neq. by destruct (concat cs).
Qed.
End CredSpec.

(** ** The properties at concrete inputs *)

Lemma sim_store_wf : store_wf (d_blobs (s_dev sim_ready)).
Proof. apply store_wf_init. Qed.

Lemma stage_refines_upload_witness :
  wp (pouch_prov_cred_stage 1 0 5 (str "abc"))
    (fun rc s' => exists b',
       (rc, upload_of b') =
         upload_write 512 (upload_of (blob_empty PRIVATE_KEY_MAX)) 0 5 (str "abc") /\
       s' = blob_set 1 b' sim_ready /\ b_len b' = 0%nat /\
       store_wf (d_blobs (s_dev s'))) sim_ready.
Proof.
  apply (stage_refines_upload 1 0 5 (str "abc") sim_ready (blob_empty PRIVATE_KEY_MAX)).
  - apply sim_store_wf.
  - reflexivity.
  - lia.
  - lia.
  - reflexivity.
Defined.

Lemma upload_completes_witness :
  wp (stage_all 1 5 [(0, str "abc"); (3, str "de")])
    (fun rcs s' => exists b', rcs = [3; 5] /\ s' = blob_set 1 b' sim_ready /\
       staged_bytes b' = str "abcde" /\ b_len b' = 0%nat /\ blob_wf b' /\
       (str "abcde" <> [] -> blob_complete b' = true)) sim_ready.
Proof.
  apply (upload_completes 1 [str "abc"; str "de"] sim_ready (blob_empty PRIVATE_KEY_MAX)).
  - apply sim_store_wf.
  - reflexivity.
  - reflexivity.
  - discriminate.
  - apply Nat.leb_le. reflexivity.
Defined.
