(* ===== verification/CredPersist.v ===== *)
(** * Finalizing and keeping credentials

    The DER header check against an independent definition, what a finalize
    stores and when it refuses, and that stored credentials survive a reboot. *)

From S2P Require Import Prelude ProvTypes Platform State Frame Session CredStore Identity Manager.
From S2P Require Import System Instances CredSpec.

(** ** The DER header check *)

(** A DER SEQUENCE that takes up all of the bytes: a definite length in short
    form, or in long form with one to four length bytes. *)
Inductive der_sequence : list byte -> Prop :=
| der_short n c : b2z n < 128 -> length c = Z.to_nat (b2z n) -> der_sequence (x30 :: n :: c)
| der_long n lb c :
    (1 <= length lb <= 4)%nat -> b2z n = 128 + Z.of_nat (length lb) ->
    Z.of_nat (length c) = be_val lb -> der_sequence (x30 :: n :: lb ++ c).

Lemma byte_at_ge_0 buf i : 0 <= byte_at buf i < 256.
Proof. apply b2z_range. Qed.

(** The length loop computes the big-endian value. *)
Lemma der_content_val buf i n content :
  (i + n <= 4)%nat -> 0 <= content < 256 ^ Z.of_nat i -> (2 + i + n <= length buf)%nat ->
  der_content buf i n content =
  content * 256 ^ Z.of_nat n + be_val (take n (drop (2 + i) buf)).
Proof.
  revert i content. induction n as [|n IH]; intros i content Hi Hc Hl.
  - rewrite take_0. cbn [der_content be_val]. rewrite Z.pow_0_r. lia.
  - cbn [der_content]. pose proof (byte_at_ge_0 buf (2 + i)) as Hb.
    rewrite shift_in_byte by done.
    assert (Hs : 256 ^ Z.of_nat (S i) <= 256 ^ 4) by (apply Z.pow_le_mono_r; lia).
    rewrite Nat2Z.inj_succ, Z.pow_succ_r in Hs by lia. change (256 ^ 4) with 4294967296 in Hs.
    rewrite u32_small by (unfold in_u32; lia).
    rewrite IH; [|lia|rewrite Nat2Z.inj_succ, Z.pow_succ_r by lia; lia|lia].
    destruct (drop (2 + i) buf) as [|b l] eqn:E.
    { apply (f_equal length) in E. rewrite length_drop in E. cbn in E. lia. }
    assert (Hbi : byte_at buf (2 + i) = b2z b).
    { unfold byte_at. rewrite <- (Nat.add_0_r (2 + i)), <- nth_skipn. fold (@drop byte).
      by rewrite E. }
    replace (2 + S i)%nat with (2 + i + 1)%nat by lia.
    rewrite <- drop_drop, E. cbn [drop take be_val].
    rewrite Hbi, Nat2Z.inj_succ, Z.pow_succ_r by lia.
    assert (Hlt : length (take n l) = n).
    { apply (f_equal length) in E. rewrite length_drop in E. cbn in E. rewrite length_take. lia. }
    rewrite Hlt. change (drop 0 l) with l. ring.
Qed.

Lemma byte_at_nth buf i : byte_at buf i = b2z (nth i buf x00).
Proof. done. Qed.

Lemma be_val_bound lb : (length lb <= 4)%nat -> be_val lb < 4294967296.
Proof.
  intros H. pose proof (be_val_range lb). change 4294967296 with (256 ^ 4).
  eapply Z.lt_le_trans; [apply be_val_range|]. apply Z.pow_le_mono_r; lia.
Qed.

(** The high bit of a byte and its other seven. *)
Lemma high_bit b : (Z.land (b2z b) 128 =? 0) = (b2z b <? 128) /\
  (128 <= b2z b -> Z.land (b2z b) 127 = b2z b - 128).
Proof. by destruct b. Qed.

(** The long form's decision, with the length bytes cut out. *)
Lemma der_long_val (n : byte) (l : list byte) :
  128 <= b2z n -> let nb := Z.to_nat (b2z n - 128) in
  (1 <= nb <= 4)%nat -> (nb <= length l)%nat -> Z.of_nat (2 + length l) < 4294967296 ->
  (u32 (der_content (x30 :: n :: l) 0 nb 0 + 2 + Z.of_nat nb) =? Z.of_nat (2 + length l)) =
  (be_val (take nb l) =? Z.of_nat (length (drop nb l))).
Proof.
  intros Hn nb Hnb Hl H32. rewrite der_content_val by (simpl; lia). rewrite Z.mul_0_l, Z.add_0_l.
  change (drop (2 + 0) (x30 :: n :: l)) with l. rewrite length_drop.
  assert (Hlen : length (take nb l) = nb) by (rewrite length_take; lia).
  pose proof (be_val_bound (take nb l) ltac:(lia)) as Hb.
  pose proof (be_val_range (take nb l)) as Hr. unfold u32, uwrap.
  change (2 ^ 32) with 4294967296.
  destruct (Z.eqb_spec (be_val (take nb l)) (Z.of_nat (length l - nb))) as [E|E].
  - apply Z.eqb_eq. rewrite Z.mod_small by lia. lia.
  - apply Z.eqb_neq. intros Hm. apply E.
    destruct (Z.ltb_spec (be_val (take nb l) + 2 + Z.of_nat nb) 4294967296).
    + rewrite Z.mod_small in Hm by lia. lia.
    + rewrite <- (Z.mod_add _ (-1)), Z.mod_small in Hm by lia. lia.
Qed.

(** A sequence takes up at least its two header bytes. *)
Lemma der_sequence_cons b l : der_sequence (b :: l) -> b = x30 /\ exists n c, l = n :: c.
Proof. inversion 1; subst; eauto. Qed.

Lemma der_check_list l :
  Z.of_nat (length l) < 4294967296 ->
  der_sequence_len_ok l (length l) = true <-> (4 <= length l)%nat /\ der_sequence l.
Proof.
  intros H32. destruct l as [|b [|n l]]; [split; [done|intros [? _]; simpl in *; lia]..|].
  unfold der_sequence_len_ok.
  change (byte_at (b :: n :: l) 0) with (b2z b). change (byte_at (b :: n :: l) 1) with (b2z n).
  destruct (length (b :: n :: l) <? 4)%nat eqn:E4; zbool; cbn [orb].
  { split; [done|]. intros [? _]. lia. }
  destruct (b2z b =? 48) eqn:E0; cbn [negb]; zbool; cycle 1.
  { split; [done|]. intros [_ H]. apply der_sequence_cons in H as [-> _]. done. }
  change 48 with (b2z x30) in E0. apply b2z_inj in E0 as ->.
  destruct (high_bit n) as [Hh Hlow]. rewrite Hh. destruct (b2z n <? 128) eqn:En; zbool.
  - pose proof (b2z_range n) as Hr. unfold in_u8 in Hr.
    rewrite u32_small by (unfold in_u32; lia). rewrite Z.eqb_eq. cbn [length]. split.
    + intros H. split; [cbn in *; lia|]. apply der_short; [done|]. lia.
    + intros [_ H]. inversion H; subst; lia.
  - rewrite Hlow by lia. set (nb := Z.to_nat (b2z n - 128)).
    destruct ((nb =? 0) || (4 <? nb) || (length (x30 :: n :: l) <? 2 + nb))%nat eqn:Eg.
    + split; [done|]. intros [_ H]. inversion H as [|? lb c H1 H2 H3]; subst; [lia|].
      assert (nb = length lb) by lia. cbn [length] in Eg. rewrite length_app in Eg.
      apply orb_true_iff in Eg as [[Eg|Eg]%orb_true_iff|Eg]; zbool; lia.
    + zbool. cbn [length] in *. rewrite der_long_val by (cbn [length] in *; lia).
      fold nb. rewrite Z.eqb_eq. split.
      * intros Hv. split; [lia|]. rewrite <- (take_drop nb l).
        apply der_long; rewrite ?length_take; lia.
      * intros [_ Hd]. inversion Hd as [|? lb c G1 G2 G3]; subst; [lia|].
        assert (Hnb : nb = length lb) by lia. rewrite Hnb, take_app_length, drop_app_length. done.
Qed.

(** The check looks at the staged bytes only. *)
Lemma byte_at_take n buf i : (i < n)%nat -> byte_at (take n buf) i = byte_at buf i.
Proof.
  intros H. unfold byte_at. rewrite nth_firstn. by rewrite (proj2 (Nat.ltb_lt _ _)) by done.
Qed.

Lemma der_content_take len buf n : forall i c, (2 + i + n <= len)%nat ->
  der_content (take len buf) i n c = der_content buf i n c.
Proof.
  induction n as [|n IH]; intros i c H; [done|]. cbn [der_content].
  rewrite byte_at_take, IH by lia. done.
Qed.

Lemma der_check_take len buf : der_sequence_len_ok (take len buf) len = der_sequence_len_ok buf len.
Proof.
  unfold der_sequence_len_ok. destruct (len <? 4)%nat eqn:E4; zbool; [done|]. cbn [orb].
  rewrite !byte_at_take by lia. destruct (negb _); [done|]. destruct (_ =? 0); [done|].
  destruct (_ || _ || _)%nat eqn:E; [done|]. zbool. by rewrite der_content_take by lia.
Qed.

(** C24: The finalize step's DER check accepts exactly the buffers whose staged
    bytes are one DER SEQUENCE of definite length, short form or long form with
    one to four length bytes, taking up all of the staged bytes, and at least
    four bytes long; the 32-bit length arithmetic lets no other buffer pass. *)
Theorem der_check_exact buf len :
  (len <= length buf)%nat -> Z.of_nat len < 4294967296 ->
  der_sequence_len_ok buf len = true <-> (4 <= len)%nat /\ der_sequence (take len buf).
Proof.
  intros Hl H32. rewrite <- der_check_take.
  pose proof (der_check_list (take len buf)) as H. rewrite length_take_le in H by done.
  by apply H.
Qed.

Lemma der_check_exact_witness :
  der_sequence_len_ok [x30; x02; x05; x00; xff] 4 = true <->
  (4 <= 4)%nat /\ der_sequence [x30; x02; x05; x00].
Proof.
  apply (der_check_exact [x30; x02; x05; x00; xff] 4); [apply Nat.leb_le; reflexivity|lia].
Defined.

(** ** Finalizing *)

(** A blob once it is persisted, when it was complete. *)
Definition finalized (b : blob) : blob := if blob_complete b then with_len (b_staged b) b else b.

Section CredPersist.
Context {KC : Kconfig} {K : Kernel} {P : Platform}.

Definition finalize_ok (cert key : blob) : bool :=
  blob_complete cert && blob_complete key && der_sequence_len_ok (b_buf cert) (b_staged cert).

Lemma finalize_eq s cert key :
  d_blobs (s_dev s) !! 0%nat = Some cert -> d_blobs (s_dev s) !! 1%nat = Some key ->
  pouch_prov_cred_finalize s =
    (if finalize_ok cert key then
       (rc <- persist_from 0 setting_key ;;
        if negb (rc =? 0) then mret rc else
        pouch_prov_emit POUCH_PROV_EVENT_CLOUD_CRED_STORED None ;;; mret 0) s
     else Some (if blob_complete cert && blob_complete key then - EBADMSG else - EINVAL, s)).
Proof.
  intros Hc Hk. unfold pouch_prov_cred_finalize, finalize_ok, get_blob.
  change (Z.to_nat POUCH_PROV_CRED_DEVICE_CERT) with 0%nat.
  change (Z.to_nat POUCH_PROV_CRED_PRIVATE_KEY) with 1%nat.
  unfold mbind at 1 2 3 4, get, mget. rewrite Hc. unfold mret at 1. rewrite Hk.
  unfold mret at 1. rewrite <- negb_andb. destruct (_ && blob_complete key); [|done].
  cbn [negb andb]. destruct (der_sequence_len_ok _ _); done.
Qed.

Lemma insert_split (bs : list blob) k x :
  (k < length bs)%nat ->
  take (S k) (<[k := x]> bs) ++ map finalized (drop (S k) (<[k := x]> bs)) =
  take k bs ++ x :: map finalized (drop (S k) bs).
Proof.
  intros H. rewrite drop_insert_lt by lia. rewrite (take_S_r _ _ x) by (by apply list_lookup_insert_eq).
  rewrite take_insert_ge by lia. by rewrite <- app_assoc.
Qed.

Context {SL : SettingsLaws P}.

(** A finished persist loop has stored and marked every complete blob. *)
Lemma wp_persist keys : NoDup keys -> forall k s,
  length (d_blobs (s_dev s)) = (k + length keys)%nat ->
  wp (persist_from k keys) (fun rc s' => (rc = 0 \/ rc = - EIO) /\ (rc = 0 ->
    s_dev s' = set_blobs (fun bs => take k bs ++ map finalized (drop k bs)) (s_dev s) /\
    (forall i key b, keys !! i = Some key -> d_blobs (s_dev s) !! (k + i)%nat = Some b ->
       settings_value (s_env s') key =
       if blob_complete b then Some (staged_bytes b) else settings_value (s_env s) key) /\
    (forall key, key ∉ keys -> settings_value (s_env s') key = settings_value (s_env s) key))) s.
Proof.
  induction 1 as [|key keys Hnin Hnd IH]; intros k s Hlen.
  - apply wp_ret. split; [by left|]. intros _. cbn in Hlen. split_and!; [|done|done].
    unfold set_blobs. rewrite drop_ge, take_ge by lia. cbn. rewrite app_nil_r. by destruct (s_dev s).
  - cbn [persist_from length] in *.
    destruct (lookup_lt_is_Some_2 (d_blobs (s_dev s)) k) as [b Hb]; [lia|].
    assert (Hdrop : drop k (d_blobs (s_dev s)) = b :: drop (S k) (d_blobs (s_dev s)))
      by (by apply drop_S).
    apply wp_bind, (wp_get_blob _ b); [done|]. destruct (blob_complete b) eqn:Ec; cbn [negb].
    + apply wp_bind, wp_call. intros err w E. destruct (err =? 0) eqn:Ee; cbn [negb]; zbool.
      2:{ apply wp_ret. split; [by right|done]. }
      subst err. destruct (settings_save_law _ _ _ _ E) as [Hv Hother].
      apply wp_bind, wp_set_blob. eapply wp_mono; [apply (IH (S k)); cbn; rewrite length_insert; lia|].
      intros rc s' [Hrc H]. split; [done|]. intros Hz. destruct (H Hz) as (Hd & H1 & H2).
      cbn [s_env blob_set with_blobs s_dev] in *. split_and!.
      * rewrite Hd. unfold set_blobs. cbn. rewrite insert_split, Hdrop by lia.
        cbn [map]. unfold finalized at 2. by rewrite Ec.
      * intros [|i] key' b'; cbn [lookup list_lookup]; intros Hk Hb'.
        -- rewrite Nat.add_0_r, Hb in Hb'. simplify_eq. rewrite Ec, H2 by done. done.
        -- rewrite (H1 i key' b' Hk).
           ++ rewrite Hother; [done|]. intros ->. apply Hnin. by eapply list_elem_of_lookup_2.
           ++ rewrite Nat.add_succ_r in Hb'. cbn. by rewrite list_lookup_insert_ne by lia.
      * intros key' [Hk1 Hk2]%not_elem_of_cons. rewrite H2, Hother by done. done.
    + eapply wp_mono; [apply (IH (S k)); lia|]. intros rc s' [Hrc H]. split; [done|].
      intros Hz. destruct (H Hz) as (Hd & H1 & H2). split_and!.
      * rewrite Hd. unfold set_blobs. rewrite Hdrop. cbn [map]. unfold finalized at 2. rewrite Ec.
        by rewrite (take_S_r _ _ b), <- app_assoc.
      * intros [|i] key' b'; cbn [lookup list_lookup]; intros Hk Hb'.
        -- rewrite Nat.add_0_r, Hb in Hb'. simplify_eq. rewrite Ec, H2 by done. done.
        -- apply (H1 i); [done|]. by rewrite Nat.add_succ_r in Hb'.
      * intros key' [Hk1 Hk2]%not_elem_of_cons. by apply H2.
Qed.

(** C23: A finalize without a complete certificate and a complete private key is
    refused as invalid, one whose certificate is no DER SEQUENCE as a bad
    message, and neither changes anything. *)
Theorem finalize_refused s cert key :
  d_blobs (s_dev s) !! 0%nat = Some cert -> d_blobs (s_dev s) !! 1%nat = Some key ->
  finalize_ok cert key = false ->
  pouch_prov_cred_finalize s =
    Some (if blob_complete cert && blob_complete key then - EBADMSG else - EINVAL, s).
Proof. intros Hc Hk H. by rewrite (finalize_eq _ _ _ Hc Hk), H. Qed.

(** What an accepted finalize does. *)
Lemma wp_finalize s cert key :
  store_wf (d_blobs (s_dev s)) ->
  d_blobs (s_dev s) !! 0%nat = Some cert -> d_blobs (s_dev s) !! 1%nat = Some key ->
  finalize_ok cert key = true ->
  wp pouch_prov_cred_finalize (fun rc s' => (rc = 0 \/ rc = - EIO) /\ (rc = 0 ->
    d_blobs (s_dev s') = map finalized (d_blobs (s_dev s)) /\
    (forall k name b, setting_key !! k = Some name -> d_blobs (s_dev s) !! k = Some b ->
       settings_value (s_env s') name =
       if blob_complete b then Some (staged_bytes b) else settings_value (s_env s) name) /\
    (forall name, name ∉ setting_key ->
       settings_value (s_env s') name = settings_value (s_env s) name) /\
    (cfg_event_cb (pouch_prov_config_get (s_dev s)) = true ->
       exists w, s_env s' = event_cb POUCH_PROV_EVENT_CLOUD_CRED_STORED None w))) s.
Proof.
  intros Hs Hc Hk Hok. pose proof (store_wf_length _ Hs) as H3.
  eapply wp_eq; [by rewrite (finalize_eq _ _ _ Hc Hk), Hok|].
  apply wp_bind. eapply wp_mono.
  { apply (wp_persist setting_key); [|by rewrite H3].
    by apply (bool_decide_unpack _). }
  intros rc s1 [Hrc H]. destruct Hrc as [->| ->].
  2:{ apply wp_ret. split; [by right|done]. }
  destruct (H eq_refl) as (Hd & H1 & H2). cbn [negb].
  change (negb (0 =? 0)) with false. lazy iota. apply wp_bind, wp_emit. intros f.
  apply wp_ret. split; [by left|]. intros _. cbn [s_dev s_env].
  assert (Hcfg : pouch_prov_config_get (s_dev s1) = pouch_prov_config_get (s_dev s))
    by (by rewrite Hd). rewrite Hcfg.
  assert (Hev : forall name, settings_value
    (if cfg_event_cb (pouch_prov_config_get (s_dev s))
     then event_cb POUCH_PROV_EVENT_CLOUD_CRED_STORED None (s_env s1) else s_env s1) name =
    settings_value (s_env s1) name).
  { intros name. destruct (cfg_event_cb _); [apply settings_event_law|done]. }
  split_and!.
  - rewrite Hd. cbn. by rewrite drop_0, take_0.
  - intros k name b Hn Hb. rewrite Hev. by apply (H1 k).
  - intros name Hn. rewrite Hev. by apply H2.
  - intros ->. by eexists.
Qed.

(** C22: A finalize of a complete certificate with a DER header and a complete
    private key runs to its end; if it returns 0, the settings hold the staged
    bytes of every complete credential under its key and every other setting is
    as before, the credentials read back from then on are those bytes, and the
    application has been told; otherwise it reports an I/O error. *)
Theorem finalize_persists s cert key :
  store_wf (d_blobs (s_dev s)) ->
  d_blobs (s_dev s) !! 0%nat = Some cert -> d_blobs (s_dev s) !! 1%nat = Some key ->
  finalize_ok cert key = true ->
  wp pouch_prov_cred_finalize (fun rc s' => (rc = 0 \/ rc = - EIO) /\ (rc = 0 ->
    (forall k name b, setting_key !! k = Some name -> d_blobs (s_dev s) !! k = Some b ->
       blob_complete b = true ->
       settings_value (s_env s') name = Some (staged_bytes b) /\
       pouch_prov_cred_get (Z.of_nat k) s' = Some (Some (staged_bytes b), s')) /\
    (forall k name b, setting_key !! k = Some name -> d_blobs (s_dev s) !! k = Some b ->
       blob_complete b = false ->
       settings_value (s_env s') name = settings_value (s_env s) name) /\
    (forall name, name ∉ setting_key ->
       settings_value (s_env s') name = settings_value (s_env s) name) /\
    (cfg_event_cb (pouch_prov_config_get (s_dev s)) = true ->
       exists w, s_env s' = event_cb POUCH_PROV_EVENT_CLOUD_CRED_STORED None w))) s.
Proof.
  intros Hs Hc Hk Hok. eapply wp_mono; [by eapply wp_finalize|].
  intros rc s' [Hrc H]. split; [done|]. intros Hz. destruct (H Hz) as (Hd & H1 & H2 & H3).
  split_and!; [|intros k name b Hn Hb E; by rewrite (H1 k name b), E|done|done].
  intros k name b Hn Hb E. split; [by rewrite (H1 k name b), E|].
  assert (Hk3 : (k < 3)%nat) by (by apply lookup_lt_Some in Hn).
  assert (Hv : kind_valid (Z.of_nat k) = true) by (unfold kind_valid; rewrite andb_true_iff; lia).
  assert (Hb' : d_blobs (s_dev s') !! k = Some (with_len (b_staged b) b)).
  { rewrite Hd. change (map finalized) with (fmap (M := list) finalized).
    rewrite list_lookup_fmap, Hb. cbn. unfold finalized. by rewrite E. }
  unfold pouch_prov_cred_get, pouch_prov_cred_present. rewrite Hv. unfold get_blob, mbind, get, mget.
  rewrite Nat2Z.id, Hb'. unfold mret. cbn [b_len with_len b_buf].
  unfold blob_complete in E. zbool. rewrite (proj2 (Nat.ltb_lt _ _)) by lia. cbn [negb].
  rewrite Hb'. done.
Qed.

(** A finalize is not atomic: when saving the certificate succeeds and saving
    the private key fails, the reply is an I/O error, but the new certificate
    is stored and reported as present, beside the private key of before. *)
Theorem finalize_not_atomic s cert key w1 w2 err :
  d_blobs (s_dev s) !! 0%nat = Some cert -> d_blobs (s_dev s) !! 1%nat = Some key ->
  finalize_ok cert key = true ->
  settings_save_one "pnp/cred/cert" (staged_bytes cert) (s_env s) = (0, w1) ->
  settings_save_one "pnp/cred/key" (staged_bytes key) w1 = (err, w2) -> err <> 0 ->
  pouch_prov_cred_finalize s =
    Some (- EIO, {| s_dev := s_dev (blob_set 0 (with_len (b_staged cert) cert) s); s_env := w2 |}) /\
  settings_value w1 "pnp/cred/cert" = Some (staged_bytes cert).
Proof.
  intros Hc Hk Hok E1 E2 Herr. split; [|by eapply settings_save_law].
  rewrite (finalize_eq _ _ _ Hc Hk), Hok. unfold finalize_ok in Hok.
  apply andb_prop in Hok as [[H1 H2]%andb_prop _].
  unfold mbind at 1. cbn [persist_from setting_key]. unfold get_blob, mbind, get, mget, mret.
  rewrite Hc. rewrite H1. cbn [negb]. unfold call, staged_bytes in *. rewrite E1.
  cbn [negb]. change (negb (0 =? 0)) with false. lazy iota.
  unfold set_blob, put, mmod. cbn [s_dev s_env set_blobs d_blobs].
  rewrite list_lookup_insert_ne, Hk by done. rewrite H2. cbn [negb s_env]. rewrite E2.
  rewrite (proj2 (Z.eqb_neq err 0)) by done. cbn [negb]. done.
Qed.

(** ** Loading at boot *)

(** The pouch identity's buffers. *)
Definition ident_wf (i : ident_t) : Prop :=
  length (id_cert_der i) = IDENTITY_CERT_MAX /\ length (id_priv_raw i) = P256_PRIV_LEN /\
  (id_cert_der_len i <= IDENTITY_CERT_MAX)%nat /\ (id_priv_raw_len i <= P256_PRIV_LEN)%nat.

Definition boot_wf (d : device) : Prop := store_wf (d_blobs d) /\ ident_wf (d_ident d).

(** The value of a buffer with room for [max] bytes after the setting [n] with
    value [v] is passed to the handler of the setting [name]. *)
Definition load_slot (name : string) (max : nat) (e : string * list byte) (x : list byte)
  : list byte :=
  if decide (e.1 = name) then if (length e.2 <=? max)%nat then e.2 else x else x.

Lemma wp_id_set leaf v (Q : Z -> st -> Prop) s :
  let i0 := d_ident (s_dev s) in
  ident_wf i0 ->
  (forall rc i, ident_wf i ->
     cert_bytes i = load_slot "cert" IDENTITY_CERT_MAX (leaf, v) (cert_bytes i0) ->
     priv_bytes i = load_slot "key" P256_PRIV_LEN (leaf, v) (priv_bytes i0) ->
     Q rc {| s_dev := set_ident (fun _ => i) (s_dev s); s_env := s_env s |}) ->
  wp (id_set leaf (length v) (settings_read_cb v)) Q s.
Proof.
  cbn zeta. intros Hwf HQ. pose proof Hwf as (H1 & H2 & H3 & H4).
  destruct s as [d w]. cbn [s_dev s_env] in *. unfold load_slot in HQ. cbn [fst snd] in HQ.
  unfold id_set, settings_read_cb.
  destruct (String.eqb_spec leaf "cert") as [->|Hn1];
    [|destruct (String.eqb_spec leaf "key") as [->|Hn2]].
  3:{ apply wp_ret. specialize (HQ (- ENOENT) (d_ident d) Hwf). rewrite !decide_False in HQ by done.
      destruct d. by apply HQ. }
  1: rewrite (decide_True _ _ (P := "cert"%string = "cert"%string)), decide_False in HQ by done.
  2: rewrite decide_False, decide_True in HQ by done.
  all: destruct (_ <? _)%nat eqn:E; zbool.
  1,3: apply wp_ret; specialize (HQ (- EINVAL) (d_ident d) Hwf); rewrite (proj2 (Nat.leb_gt _ _)) in HQ by lia;
    destruct d; apply HQ; reflexivity.
  all: rewrite take_ge by lia; apply wp_bind, wp_getd, wp_bind, wp_guard;
    [unfold buf_fits; apply Nat.leb_le; cbn; lia|].
  all: apply wp_bind, wp_put; rewrite (proj2 (Z.ltb_ge _ _)) by lia;
    apply wp_bind, wp_put, wp_ret.
  all: cbn [s_dev s_env].
  all: match goal with |- _ _ {| s_dev := ?x; s_env := _ |} =>
    replace x with (set_ident (fun _ => d_ident x) d) by (by destruct d) end.
  all: apply HQ; [unfold ident_wf; cbn; rewrite Nat2Z.id, length_buf_write by (cbn; lia);
    split_and!; lia| |].
  all: rewrite ?(proj2 (Nat.leb_le _ _)) by lia; try reflexivity.
  all: unfold cert_bytes, priv_bytes; cbn -[buf_write]; rewrite Nat2Z.id; apply take_buf_write_0; lia.
Qed.

(** A loaded value is copied into a blob, if it fits. *)
Definition load_blob (v : list byte) (b : blob) : blob :=
  if (b_cap b <? length v)%nat then b
  else with_len (length v) (with_buf (buf_write 0 v (b_buf b)) b).

Lemma load_blob_wf v b : blob_wf b -> blob_wf (load_blob v b).
Proof.
  intros (H1 & H2 & H3 & H4). unfold load_blob. destruct (_ <? _)%nat eqn:E; zbool; [done|].
  unfold blob_wf. cbn. rewrite length_buf_write by lia. lia.
Qed.

Lemma load_blob_cap v b : b_cap (load_blob v b) = b_cap b.
Proof. unfold load_blob. by destruct (_ <? _)%nat. Qed.

Lemma load_blob_bytes v b :
  blob_wf b -> (length v <= b_cap b)%nat ->
  b_len (load_blob v b) = length v /\ take (length v) (b_buf (load_blob v b)) = v.
Proof.
  intros (H1 & _) H. unfold load_blob. rewrite (proj2 (Nat.ltb_ge _ _)) by done.
  split; [done|]. apply take_buf_write_0. lia.
Qed.

Lemma store_wf_alter bs k v : store_wf bs -> store_wf (alter (load_blob v) k bs).
Proof.
  intros Hs. destruct (bs !! k) as [b|] eqn:Hb; [|by rewrite alter_none].
  rewrite (alter_insert _ _ _ _ Hb).
  eapply store_wf_insert; [done..|apply load_blob_wf; by eapply Hs|apply load_blob_cap].
Qed.

Lemma with_blobs_id bs s : bs = d_blobs (s_dev s) -> with_blobs bs s = s.
Proof. intros ->. by destruct s as [[] ?]. Qed.

(** One pass of the settings callback's loop, at the blob that matches. *)
Lemma wp_load_at k v (Q : Z -> st -> Prop) s :
  store_wf (d_blobs (s_dev s)) -> (k < 3)%nat ->
  (forall rc, Q rc (with_blobs (alter (load_blob v) k (d_blobs (s_dev s))) s)) ->
  wp (b <- get_blob k ;;
      if (b_cap b <? length v)%nat then mret (- EINVAL) else
      let '(rc, data) := settings_read_cb v (b_cap b) in
      mguard (buf_fits 0 data (b_buf b)) ;;;
      set_blob k (with_buf (buf_write 0 data (b_buf b)) b) ;;;
      if rc <? 0 then mret rc else
      b' <- get_blob k ;;
      set_blob k (with_len (Z.to_nat rc) b') ;;;
      mret 0) Q s.
Proof.
  intros Hs Hk HQ. destruct (store_wf_lookup _ k Hs Hk) as (b & Hb & W1 & W2 & W3 & W4).
  rewrite (alter_insert _ _ _ _ Hb) in HQ. unfold load_blob in HQ. apply wp_bind, (wp_get_blob _ b); [done|].
  destruct (_ <? _)%nat eqn:E; zbool.
  - apply wp_ret. specialize (HQ (- EINVAL)). rewrite with_blobs_id in HQ; [done|].
    by apply list_insert_id.
  - unfold settings_read_cb. rewrite take_ge by done.
    apply wp_bind, wp_guard; [unfold buf_fits; apply Nat.leb_le; lia|].
    apply wp_bind, wp_set_blob. rewrite (proj2 (Z.ltb_ge _ _)) by lia.
    eapply wp_bind, wp_get_blob; [by eapply blob_set_lookup|].
    apply wp_bind, wp_set_blob, wp_ret. rewrite blob_set_set, Nat2Z.id. apply HQ.
Qed.

(** The store after the settings callback. *)
Definition load_setting (leaf : string) (v : list byte) (bs : list blob) : list blob :=
  if String.eqb leaf "cert" then alter (load_blob v) 0%nat bs
  else if String.eqb leaf "key" then alter (load_blob v) 1%nat bs
  else if String.eqb leaf "ca" then alter (load_blob v) 2%nat bs
  else bs.

Lemma wp_cred_set leaf v (Q : Z -> st -> Prop) s :
  store_wf (d_blobs (s_dev s)) ->
  (forall rc, Q rc (with_blobs (load_setting leaf v (d_blobs (s_dev s))) s)) ->
  wp (cred_set leaf (length v) (settings_read_cb v)) Q s.
Proof.
  intros Hs HQ. unfold cred_set, load_setting in *. cbn [cred_set_from setting_leaf].
  destruct (String.eqb leaf "cert"); cbn [negb]; [apply wp_load_at; auto|].
  destruct (String.eqb leaf "key"); cbn [negb]; [apply wp_load_at; auto|].
  destruct (String.eqb leaf "ca"); cbn [negb]; [apply wp_load_at; auto|].
  apply wp_ret. specialize (HQ (- ENOENT)). by rewrite with_blobs_id in HQ.
Qed.

(** The store after an entry is passed to the handlers. *)
Definition deliver_blobs (bs : list blob) (e : string * list byte) : list blob :=
  match strip_prefix "pnp/cred/" e.1 with
  | Some leaf => if CONFIG_POUCH_PROV_CRED then load_setting leaf e.2 bs else bs
  | None => bs
  end.

Lemma load_setting_wf leaf v bs : store_wf bs -> store_wf (load_setting leaf v bs).
Proof.
  intros H. unfold load_setting. repeat (destruct (String.eqb _ _); [by apply store_wf_alter|]).
  done.
Qed.

Lemma wp_deliver e (Q : unit -> st -> Prop) s :
  boot_wf (s_dev s) ->
  (forall d', boot_wf d' -> d_blobs d' = deliver_blobs (d_blobs (s_dev s)) e ->
     Q tt {| s_dev := d'; s_env := s_env s |}) ->
  wp (deliver e) Q s.
Proof.
  intros [Hs Hi] HQ. destruct e as [name v], s as [d w]. cbn [s_dev s_env] in *.
  unfold deliver, deliver_blobs in *. cbn [fst snd] in HQ.
  destruct (strip_prefix "pnp/cred/" name) as [leaf|].
  - apply wp_when; intros Ec; rewrite Ec in HQ; [|by apply HQ].
    apply wp_bind, wp_cred_set; [done|]. intros rc. apply wp_ret, HQ; [|done].
    split; [by apply load_setting_wf|done].
  - destruct (strip_prefix "pnp/id/" name) as [leaf|]; [|by apply wp_ret, HQ].
    apply wp_when; intros Ec; [|by apply HQ].
    apply wp_bind, wp_id_set; [done|]. intros rc i Hi' _ _. by apply wp_ret, HQ.
Qed.

Lemma wp_deliver_all l : forall (Q : unit -> st -> Prop) s,
  boot_wf (s_dev s) ->
  (forall d', boot_wf d' -> d_blobs d' = fold_left deliver_blobs l (d_blobs (s_dev s)) ->
     Q tt {| s_dev := d'; s_env := s_env s |}) ->
  wp (mfor l deliver) Q s.
Proof.
  induction l as [|e l IH]; intros Q s Hb HQ; cbn [mfor fold_left] in *.
  - destruct s as [d w]. by apply wp_ret, HQ.
  - apply wp_bind, wp_deliver; [done|]. intros d1 Hb1 H1. apply IH; [done|].
    intros d2 Hb2 H2. cbn [s_dev s_env] in *. apply HQ; [done|]. by rewrite H2, H1.
Qed.

Lemma prefix_app p s : String.prefix p s = true -> exists l, s = (p ++ l)%string.
Proof.
  revert s. induction p as [|a p IH]; intros s H; [by exists s|].
  destruct s as [|b s]; cbn in H; [done|]. destruct (Ascii.ascii_dec a b) as [->|]; [|done].
  destruct (IH s H) as [l ->]. by exists l.
Qed.

Lemma substring_app p l : String.substring (String.length p) (String.length l) (p ++ l) = l.
Proof.
  induction p as [|a p IH]; cbn [String.append String.length String.substring]; [|done].
  induction l as [|b l IHl]; [done|].
  change (String b (String.substring 0 (String.length l) l) = String b l). f_equal. exact IHl.
Qed.

Lemma strip_prefix_inv p s l : strip_prefix p s = Some l -> s = (p ++ l)%string.
Proof.
  unfold strip_prefix. destruct (String.prefix p s) eqn:E; [|done]. intros [= <-].
  destruct (prefix_app p s E) as [l ->]. f_equal.
  assert (Hl : String.length (p ++ l) = (String.length p + String.length l)%nat).
  { clear E. induction p as [|a p IH]; [done|]. apply (f_equal S IH). }
  replace (String.length (p ++ l) - String.length p)%nat with (String.length l) by lia.
  by rewrite substring_app.
Qed.

(** An entry changes the blob of its own key only. *)
Lemma deliver_blobs_lookup bs k name e :
  CONFIG_POUCH_PROV_CRED = true -> setting_key !! k = Some name ->
  deliver_blobs bs e !! k =
    (if decide (e.1 = name) then load_blob e.2 <$> bs !! k else bs !! k).
Proof.
  intros Hc Hk. destruct e as [n v]. unfold deliver_blobs. cbn [fst snd]. rewrite Hc.
  destruct k as [|[|[|k]]]; cbn [lookup list_lookup setting_key] in Hk; simplify_eq.
  all: destruct (strip_prefix "pnp/cred/" n) as [leaf|] eqn:E; [apply strip_prefix_inv in E as ->|].
  all: destruct (decide _) as [Ee|Ee]; try (by subst n).
  all: unfold load_setting.
  all: try (lazy beta iota delta [String.append] in Ee; injection Ee as ->; apply list_lookup_alter_eq).
  all: try done.
  all: destruct (String.eqb_spec leaf "cert") as [->|_];
    [first [by destruct Ee | by apply list_lookup_alter_ne]|].
  all: destruct (String.eqb_spec leaf "key") as [->|_];
    [first [by destruct Ee | by apply list_lookup_alter_ne]|].
  all: destruct (String.eqb_spec leaf "ca") as [->|_];
    [first [by destruct Ee | by apply list_lookup_alter_ne]|done].
Qed.

(** With one entry per name, what is loaded is what was stored. *)
Lemma deliver_all_lookup l k name v : forall bs,
  CONFIG_POUCH_PROV_CRED = true -> setting_key !! k = Some name ->
  NoDup (map fst l) -> (name, v) ∈ l ->
  fold_left deliver_blobs l bs !! k = load_blob v <$> bs !! k.
Proof.
  intros bs Hc Hk.
  assert (Hout : forall l bs, name ∉ map fst l -> fold_left deliver_blobs l bs !! k = bs !! k).
  { clear l bs. induction l as [|e l IH]; intros bs Hn; [done|]. cbn [fold_left map] in *.
    apply not_elem_of_cons in Hn as [H1 H2]. rewrite IH by done.
    rewrite (deliver_blobs_lookup _ _ _ _ Hc Hk). by rewrite decide_False. }
  revert bs. induction l as [|e l IH]; intros bs Hnd Hin; [by apply not_elem_of_nil in Hin|].
  cbn [fold_left map] in *. apply NoDup_cons in Hnd as [Hn Hnd].
  apply elem_of_cons in Hin as [<-|Hin].
  - rewrite Hout by done. rewrite (deliver_blobs_lookup _ _ _ _ Hc Hk). by rewrite decide_True.
  - rewrite IH by done. rewrite (deliver_blobs_lookup _ _ _ _ Hc Hk), decide_False; [done|].
    intros He. apply Hn. rewrite He. by apply (list_elem_of_fmap_2 fst l (name, v)).
Qed.

Lemma cred_get_eq k b s :
  (k < 3)%nat -> d_blobs (s_dev s) !! k = Some b -> (0 < b_len b)%nat ->
  pouch_prov_cred_get (Z.of_nat k) s = Some (Some (take (b_len b) (b_buf b)), s).
Proof.
  intros Hk Hb Hl. unfold pouch_prov_cred_get, pouch_prov_cred_present.
  assert (Hv : kind_valid (Z.of_nat k) = true) by (unfold kind_valid; rewrite andb_true_iff; lia).
  rewrite Hv. unfold get_blob, mbind, get, mget. rewrite Nat2Z.id, Hb. unfold mret.
  rewrite (proj2 (Nat.ltb_lt _ _)) by done. cbn [negb]. by rewrite Hb.
Qed.

Lemma boot_wf_boot flags : boot_wf (device_boot flags).
Proof.
  split; [apply store_wf_init|]. unfold ident_wf, device_boot, ident_boot. cbn [d_ident
    id_cert_der id_priv_raw id_cert_der_len id_priv_raw_len].
  unfold zeros. rewrite !length_replicate. split_and!; try done; apply Nat.leb_le; done.
Qed.

Lemma store_cap_nth bs k b : store_wf bs -> bs !! k = Some b -> nth k store_caps 0%nat = b_cap b.
Proof.
  intros [H _] Hb. rewrite <- H. change (map b_cap) with (fmap (M := list) b_cap).
  apply nth_lookup_Some. by rewrite list_lookup_fmap, Hb.
Qed.

(** A stored credential is there again once the settings are loaded. *)
Lemma wp_load_stored flags w l w' k name v :
  CONFIG_POUCH_PROV_CRED = true -> setting_key !! k = Some name ->
  settings_value w name = Some v -> (0 < length v <= nth k store_caps 0)%nat ->
  settings_load_subtree "" w = ((0, l), w') ->
  wp (settings_load "") (fun err t =>
    err = 0 /\ pouch_prov_cred_get (Z.of_nat k) t = Some (Some v, t))
    {| s_dev := device_boot flags; s_env := w |}.
Proof.
  intros Hcfg Hname Hv Hlen Hload.
  assert (Hk : (k < 3)%nat) by by apply lookup_lt_Some in Hname.
  destruct (settings_load_law _ _ _ _ Hload) as (Hnd & Hin & _).
  assert (Hel : (name, v) ∈ l) by (apply Hin; split; [by destruct name|done]).
  unfold settings_load. apply wp_bind, wp_call. cbn [s_env s_dev]. intros a w1 E.
  rewrite Hload in E. simplify_eq. apply wp_bind, wp_deliver_all; [apply boot_wf_boot|].
  intros d' [Hwf _] Hd. apply wp_ret. split; [done|].
  destruct (store_wf_lookup _ k store_wf_init Hk) as (b0 & Hb0 & Hw0).
  change (d_blobs (s_dev _)) with blobs_init in Hd.
  assert (Hb' : d_blobs d' !! k = Some (load_blob v b0)).
  { rewrite Hd, (deliver_all_lookup _ _ _ _ _ Hcfg Hname Hnd Hel), Hb0. done. }
  rewrite (store_cap_nth _ _ _ store_wf_init Hb0) in Hlen.
  destruct (load_blob_bytes v b0 Hw0 ltac:(lia)) as [Hl Ht].
  erewrite cred_get_eq; [|exact Hk|exact Hb'|lia]. by rewrite Hl, Ht.
Qed.

(** C9: After an accepted finalize that returned 0, a reboot at any time while the
    settings keep what they hold, followed by loading the settings, brings every
    complete credential back byte for byte: whatever other entries are stored,
    the load runs to its end and reading the credential gives the bytes staged
    before. *)
Theorem credentials_survive_reboot flags s s' cert key w w' l k b :
  store_wf (d_blobs (s_dev s)) -> CONFIG_POUCH_PROV_CRED = true ->
  d_blobs (s_dev s) !! 0%nat = Some cert -> d_blobs (s_dev s) !! 1%nat = Some key ->
  finalize_ok cert key = true -> pouch_prov_cred_finalize s = Some (0, s') ->
  (forall name, settings_value w name = settings_value (s_env s') name) ->
  settings_load_subtree "" w = ((0, l), w') ->
  d_blobs (s_dev s) !! k = Some b -> blob_complete b = true ->
  wp (settings_load "") (fun err t =>
    err = 0 /\ pouch_prov_cred_get (Z.of_nat k) t = Some (Some (staged_bytes b), t))
    {| s_dev := device_boot flags; s_env := w |}.
Proof.
  intros Hs Hcfg Hc Hkey Hok Hf Hw Hload Hb Hcomp.
  destruct (wp_run _ _ _ _ _ Hf (wp_finalize _ _ _ Hs Hc Hkey Hok)) as [_ H].
  destruct (H eq_refl) as (_ & Hset & _). clear H.
  assert (Hk : (k < 3)%nat) by (rewrite <- (store_wf_length _ Hs); by eapply lookup_lt_Some).
  destruct (lookup_lt_is_Some_2 setting_key k Hk) as [name Hname].
  pose proof (Hset k name b Hname Hb) as Hv. rewrite Hcomp, <- Hw in Hv.
  assert (Hlen : (0 < length (staged_bytes b) <= nth k store_caps 0)%nat).
  { pose proof (proj2 Hs _ _ Hb) as Hwb. rewrite length_staged, (store_cap_nth _ _ _ Hs Hb) by done.
    destruct Hwb as (? & ? & ? & ?). unfold blob_complete in Hcomp. zbool. lia. }
  by eapply wp_load_stored.
Qed.

(** Staging works in the buffer of the persisted credential: once the first
    chunk of a replacement is accepted, reading the persisted credential gives
    that chunk followed by the rest of the old bytes, though nothing was
    finalized. *)
Theorem staging_overwrites_persisted k total data s b :
  store_wf (d_blobs (s_dev s)) -> (k < 3)%nat -> d_blobs (s_dev s) !! k = Some b ->
  (0 < b_len b)%nat -> (length data <= b_len b)%nat -> (length data <= total <= b_cap b)%nat ->
  wp (pouch_prov_cred_stage (Z.of_nat k) 0 (Z.of_nat total) data) (fun rc s' =>
    rc = Z.of_nat (length data) /\
    pouch_prov_cred_get (Z.of_nat k) s' =
      Some (Some (data ++ drop (length data) (take (b_len b) (b_buf b))), s')) s.
Proof.
  intros Hs Hk Hb Hl Hd Ht. pose proof (proj2 Hs _ _ Hb) as (W1 & W2 & W3 & W4).
  assert (Hv : kind_valid (Z.of_nat k) = true) by (unfold kind_valid; rewrite andb_true_iff; lia).
  unfold pouch_prov_cred_stage. rewrite Hv, Nat2Z.id. cbn [negb].
  apply wp_bind, (wp_get_blob _ b); [done|]. rewrite (proj2 (Z.ltb_ge _ _)) by lia.
  cbn [mwhen Z.eqb]. apply wp_bind, wp_set_blob.
  set (b1 := with_expected (Z.to_nat (Z.of_nat total)) (with_staged 0 b)).
  apply wp_bind, (wp_get_blob _ b1); [by eapply blob_set_lookup|].
  cbn [b_staged with_staged with_expected b_expected b1 Z.of_nat Z.eqb negb orb].
  rewrite (proj2 (Nat.ltb_ge _ _)) by lia.
  apply wp_bind, wp_guard; [unfold buf_fits; cbn; apply Nat.leb_le; lia|].
  apply wp_bind, wp_set_blob, wp_ret. rewrite blob_set_set. split; [done|].
  erewrite cred_get_eq; [|done|by eapply blob_set_lookup|done]. cbn [b_len b_buf with_buf with_staged].
  cbn. unfold buf_write. rewrite take_0. cbn [app Nat.add].
  rewrite take_app, take_ge by lia. do 4 f_equal.
  by rewrite skipn_firstn_comm.
Qed.

Definition cleared (b : blob) : blob := with_expected 0 (with_staged 0 (with_len 0 b)).

Lemma wp_delete keys : NoDup keys -> forall k s,
  length (d_blobs (s_dev s)) = (k + length keys)%nat ->
  wp (delete_from k keys) (fun _ s' =>
    s_dev s' = set_blobs (fun bs => take k bs ++ map cleared (drop k bs)) (s_dev s) /\
    (forall key, key ∉ keys -> (forall name w, (settings_delete name w).1 = 0) ->
       settings_value (s_env s') key = settings_value (s_env s) key) /\
    ((forall name w, (settings_delete name w).1 = 0) ->
       forall key, key ∈ keys -> settings_value (s_env s') key = None)) s.
Proof.
  induction 1 as [|key keys Hnin Hnd IH]; intros k s Hlen.
  - apply wp_ret. cbn in Hlen. split_and!; [|done|by intros _ key ?%not_elem_of_nil].
    unfold set_blobs. rewrite drop_ge, take_ge by lia. cbn. rewrite app_nil_r. by destruct (s_dev s).
  - cbn [delete_from length] in *. apply wp_bind, wp_call. intros err w E.
    destruct (lookup_lt_is_Some_2 (d_blobs (s_dev s)) k) as [b Hb]; [lia|].
    apply wp_bind, (wp_get_blob _ b); [done|]. apply wp_bind, wp_set_blob.
    eapply wp_mono; [apply (IH (S k)); cbn; rewrite length_insert; lia|].
    intros [] s' (Hd & H1 & H2). cbn [s_env s_dev blob_set with_blobs] in *. split_and!.
    + rewrite Hd. unfold set_blobs. cbn. f_equal.
      rewrite drop_insert_lt by lia. rewrite (drop_S (d_blobs (s_dev s)) b k) by done. cbn [map].
      rewrite (take_S_r _ _ (cleared b)) by (apply list_lookup_insert_eq; lia).
      rewrite take_insert_ge by lia. by rewrite <- app_assoc.
    + intros key' [Hk1 Hk2]%not_elem_of_cons Hok. rewrite H1 by done.
      pose proof (Hok key (s_env s)) as Hz. rewrite E in Hz. cbn in Hz. subst err.
      by apply (settings_delete_law _ _ _ E).
    + intros Hok key' [->|Hin]%elem_of_cons; [|by apply H2].
      rewrite H1 by done. pose proof (Hok key (s_env s)) as Hz. rewrite E in Hz. cbn in Hz.
      subst err. by apply (settings_delete_law _ _ _ E).
Qed.

(** Afterwards nothing is present or staged. *)
Lemma wp_delete_all s :
  store_wf (d_blobs (s_dev s)) ->
  wp pouch_prov_cred_delete_all (fun rc s' => rc = 0 /\ store_wf (d_blobs (s_dev s')) /\
    (forall kind, pouch_prov_cred_present kind s' = Some (false, s') /\
                  pouch_prov_cred_received kind s' = Some (0%nat, s')) /\
    ((forall name w, (settings_delete name w).1 = 0) -> forall name,
       settings_value (s_env s') name =
       if decide (name ∈ setting_key) then None else settings_value (s_env s) name)) s.
Proof.
  intros Hs. pose proof (store_wf_length _ Hs) as H3. unfold pouch_prov_cred_delete_all.
  apply wp_bind. eapply wp_mono.
  { apply (wp_delete setting_key); [by apply (bool_decide_unpack _)|by rewrite H3]. }
  intros [] s' (Hd & H1 & H2). apply wp_ret. split; [done|].
  assert (Hb : d_blobs (s_dev s') = cleared <$> d_blobs (s_dev s)) by (by rewrite Hd).
  assert (Hw : store_wf (d_blobs (s_dev s'))).
  { rewrite Hb. destruct Hs as [Hc Hall]. split.
    - rewrite <- Hc. change (map b_cap (map cleared (d_blobs (s_dev s))) = map b_cap (d_blobs (s_dev s))).
      by rewrite map_map.
    - intros k b Hk. rewrite list_lookup_fmap in Hk.
      destruct (d_blobs (s_dev s) !! k) as [b0|] eqn:E; [|done]. cbn in Hk. simplify_eq.
      destruct (Hall _ _ E) as (? & ? & ? & ?). unfold blob_wf. cbn. lia. }
  split_and!; [done| |].
  - intros kind. unfold pouch_prov_cred_present, pouch_prov_cred_received.
    destruct (kind_valid kind) eqn:Ek; [|done]. apply kind_valid_lt in Ek as [Ek _].
    destruct (store_wf_lookup _ _ Hw Ek) as (b & Hbk & _).
    unfold get_blob, mbind, get, mget. rewrite Hbk.
    rewrite Hb, list_lookup_fmap in Hbk.
    destruct (d_blobs (s_dev s) !! _) as [b0|]; [|done]. cbn in Hbk. by simplify_eq.
  - intros Hok name. destruct (decide _); [by apply H2|by apply H1].
Qed.

(** Deleting the credentials clears every staging area and every persisted
    length: afterwards no kind is present and none has bytes received, whether
    or not the settings could be deleted; where they could, no credential key
    has a value and all other settings are as before. *)
Theorem delete_all_clears s :
  store_wf (d_blobs (s_dev s)) ->
  wp pouch_prov_cred_delete_all (fun rc s' => rc = 0 /\ store_wf (d_blobs (s_dev s')) /\
    (forall kind, pouch_prov_cred_present kind s' = Some (false, s') /\
                  pouch_prov_cred_received kind s' = Some (0%nat, s')) /\
    ((forall name w, (settings_delete name w).1 = 0) -> forall name,
       settings_value (s_env s') name =
       if decide (name ∈ setting_key) then None else settings_value (s_env s) name)) s.
Proof. apply wp_delete_all. Qed.
End CredPersist.

(** ** The properties at concrete inputs *)

Definition sim_cert : list byte := [x30; x02; x05; x00].
Definition sim_key : list byte := str "key".

(** A certificate and a private key staged on the started device. *)
Definition sim_staged : st := Eval vm_compute in
  run_state (ignore (stage_all 0 4 [(0, sim_cert)]) ;;; ignore (stage_all 1 3 [(0, sim_key)]))
    sim_ready.

Definition sim_blob (k : nat) (s : st) : blob :=
  match d_blobs (s_dev s) !! k with Some b => b | None => blob_empty 0 end.

Definition sim_cert_blob : blob := Eval vm_compute in sim_blob 0 sim_staged.
Definition sim_key_blob : blob := Eval vm_compute in sim_blob 1 sim_staged.

Definition sim_finalized : st := Eval vm_compute in
  run_state (ignore pouch_prov_cred_finalize) sim_staged.

(** The invariant of a concrete store, decided. *)
Definition blob_wf_b (b : blob) : bool :=
  ((length (b_buf b) =? b_cap b) && (b_staged b <=? b_expected b) &&
   (b_expected b <=? b_cap b) && (b_len b <=? b_cap b))%nat.

Lemma store_wf_b bs : map b_cap bs = store_caps -> forallb blob_wf_b bs = true -> store_wf bs.
Proof.
  intros Hc Hb. split; [done|]. intros k b Hk. rewrite forallb_forall in Hb.
  specialize (Hb b). apply list_elem_of_lookup_2, list_elem_of_In in Hk.
  specialize (Hb Hk). unfold blob_wf_b in Hb. zbool. by split_and!.
Qed.

Lemma sim_staged_wf : store_wf (d_blobs (s_dev sim_staged)).
Proof. apply store_wf_b; vm_compute; reflexivity. Qed.

Lemma sim_finalized_wf : store_wf (d_blobs (s_dev sim_finalized)).
Proof. apply store_wf_b; vm_compute; reflexivity. Qed.

Lemma finalize_refused_witness :
  pouch_prov_cred_finalize sim_ready = Some (- EINVAL, sim_ready).
Proof.
  apply (finalize_refused sim_ready (blob_empty DEVICE_CERT_MAX) (blob_empty PRIVATE_KEY_MAX));
    reflexivity.
Defined.

Lemma finalize_persists_witness :
  wp pouch_prov_cred_finalize (fun rc s' => (rc = 0 \/ rc = - EIO) /\ (rc = 0 ->
    (forall k name b, setting_key !! k = Some name -> d_blobs (s_dev sim_staged) !! k = Some b ->
       blob_complete b = true ->
       settings_value (s_env s') name = Some (staged_bytes b) /\
       pouch_prov_cred_get (Z.of_nat k) s' = Some (Some (staged_bytes b), s')) /\
    (forall k name b, setting_key !! k = Some name -> d_blobs (s_dev sim_staged) !! k = Some b ->
       blob_complete b = false ->
       settings_value (s_env s') name = settings_value (s_env sim_staged) name) /\
    (forall name, name ∉ setting_key ->
       settings_value (s_env s') name = settings_value (s_env sim_staged) name) /\
    (cfg_event_cb (pouch_prov_config_get (s_dev sim_staged)) = true ->
       exists w, s_env s' = event_cb POUCH_PROV_EVENT_CLOUD_CRED_STORED None w))) sim_staged.
Proof.
  apply (finalize_persists sim_staged sim_cert_blob sim_key_blob).
  - apply sim_staged_wf.
  - vm_compute. reflexivity.
  - vm_compute. reflexivity.
  - vm_compute. reflexivity.
Defined.

(** The same with a flash that cannot store the private key. *)
Definition sim_no_key : sim_world := Eval vm_compute in
  {| w_settings := w_settings (s_env sim_staged); w_wifi := []; w_uplink := []; w_events := [];
     w_keys := []; w_connects := []; w_heap := true; w_status := None;
     w_save_fails := Some "pnp/cred/key"%string |}.
Definition sim_key_fails : st := {| s_dev := s_dev sim_staged; s_env := sim_no_key |}.
Definition sim_cert_saved : sim_world := Eval vm_compute in
  (sim_save "pnp/cred/cert" sim_cert sim_no_key).2.

Lemma finalize_not_atomic_witness :
  pouch_prov_cred_finalize sim_key_fails =
    Some (- EIO, {| s_dev := s_dev (blob_set 0 (with_len 4 sim_cert_blob) sim_key_fails);
                    s_env := sim_cert_saved |}) /\
  settings_value sim_cert_saved "pnp/cred/cert" = Some (staged_bytes sim_cert_blob).
Proof.
  apply (finalize_not_atomic sim_key_fails sim_cert_blob sim_key_blob
           sim_cert_saved sim_cert_saved (- EIO)).
  - vm_compute. reflexivity.
  - vm_compute. reflexivity.
  - vm_compute. reflexivity.
  - vm_compute. reflexivity.
  - vm_compute. reflexivity.
  - discriminate.
Defined.

Lemma credentials_survive_reboot_witness :
  wp (settings_load "") (fun err t =>
    err = 0 /\ pouch_prov_cred_get (Z.of_nat 1) t = Some (Some (staged_bytes sim_key_blob), t))
    {| s_dev := device_boot 0; s_env := s_env sim_finalized |}.
Proof.
  apply (credentials_survive_reboot 0 sim_staged sim_finalized sim_cert_blob sim_key_blob
    (s_env sim_finalized) (s_env sim_finalized) (sim_load "" (s_env sim_finalized)).1.2 1
    sim_key_blob).
  - apply sim_staged_wf.
  - reflexivity.
  - vm_compute. reflexivity.
  - vm_compute. reflexivity.
  - vm_compute. reflexivity.
  - vm_compute. reflexivity.
  - intros name. reflexivity.
  - vm_compute. reflexivity.
  - vm_compute. reflexivity.
  - vm_compute. reflexivity.
Defined.

Lemma staging_overwrites_persisted_witness :
  wp (pouch_prov_cred_stage (Z.of_nat 0) 0 (Z.of_nat 100) [x31]) (fun rc s' =>
    rc = 1 /\
    pouch_prov_cred_get (Z.of_nat 0) s' =
      Some (Some ([x31] ++ drop 1 (take 4 (b_buf (sim_blob 0 sim_finalized)))), s')) sim_finalized.
Proof.
  apply (staging_overwrites_persisted 0 100 [x31] sim_finalized (sim_blob 0 sim_finalized)).
  - apply sim_finalized_wf.
  - lia.
  - vm_compute. reflexivity.
  - apply Nat.ltb_lt. vm_compute. reflexivity.
  - apply Nat.leb_le. vm_compute. reflexivity.
  - split; apply Nat.leb_le; vm_compute; reflexivity.
Defined.

Lemma delete_all_clears_witness :
  wp pouch_prov_cred_delete_all (fun rc s' => rc = 0 /\ store_wf (d_blobs (s_dev s')) /\
    (forall kind, pouch_prov_cred_present kind s' = Some (false, s') /\
                  pouch_prov_cred_received kind s' = Some (0%nat, s')) /\
    ((forall name w, (settings_delete name w).1 = 0) -> forall name,
       settings_value (s_env s') name =
       if decide (name ∈ setting_key) then None
       else settings_value (s_env sim_finalized) name)) sim_finalized.
Proof. apply (delete_all_clears sim_finalized). apply sim_finalized_wf. Defined.
