(* ===== verification/WifiSpec.v ===== *)
(** * The Wi-Fi configuration's contract

    What a set stages, what an apply connects to, and every step of the
    connection state machine with its retries, as equations the invariant of
    WifiInv.v and the simulated network of FakeNet.v build on. *)

From S2P Require Import Prelude ProvTypes Zcbor Schema Codec Platform State Frame Rpc Session.
From S2P Require Import CredStore WifiScan WifiConfig Adv Identity Manager Ctrl Dispatch System.
From S2P Require Import Frames Instances DispatchSpec AuthSpec.

(** ** Abstract view of a configuration *)

Record wifi_request : Type := {
  wr_ssid : list byte;
  wr_pass : list byte;                        (**r empty for an open network *)
  wr_bssid : option (list byte);
  wr_channel : Z;                             (**r 0 for any *)
}.

(** What a [wifi_config] message asks for. *)
Definition requested (c : wifi_config) : wifi_request :=
  {| wr_ssid := wifi_config_ssid c;
     wr_pass := match wifi_config_pass c with Some p => p | None => [] end;
     wr_bssid := wifi_config_bssid c;
     wr_channel := match wifi_config_ch c with Some ch => ch | None => 0 end |}.

(** What the device makes of it: the channel is cut to 8 bits, and a BSSID that
    is not one is ignored. *)
Definition staged_request (c : wifi_config) : wifi_request :=
  {| wr_ssid := wr_ssid (requested c);
     wr_pass := wr_pass (requested c);
     wr_bssid := match wr_bssid (requested c) with
                 | Some b => if (length b =? WIFI_MAC_ADDR_LEN)%nat then Some b else None
                 | None => None
                 end;
     wr_channel := wr_channel (requested c) mod 256 |}.

(** The requests that the statics can hold. *)
Definition representable (r : wifi_request) : Prop :=
  0 <= wr_channel r < 256 /\
  (forall b, wr_bssid r = Some b -> length b = WIFI_MAC_ADDR_LEN).

Lemma staged_representable c : representable (requested c) -> staged_request c = requested c.
Proof.
  intros [Hc Hb]. unfold staged_request. rewrite Z.mod_small by done.
  destruct (requested c) as [ssid pass [b|] ch]; [|done]. cbn in *. by rewrite Hb.
Qed.

(** The values a set accepts. *)
Definition set_accepts (c : wifi_config) : bool :=
  ((1 <=? length (wifi_config_ssid c)) && (length (wifi_config_ssid c) <=? SSID_MAX) &&
   (length (wr_pass (requested c)) <=? PASS_MAX))%nat.

(** The connect request and the stored credential of a configuration. *)
Definition request_params (r : wifi_request) : wifi_connect_req_params :=
  {| cp_ssid := wr_ssid r;
     cp_psk := match wr_pass r with [] => None | p => Some p end;
     cp_security := match wr_pass r with [] => WIFI_SECURITY_TYPE_NONE | _ => WIFI_SECURITY_TYPE_PSK end;
     cp_channel := if 0 <? wr_channel r then wr_channel r else WIFI_CHANNEL_ANY;
     cp_bssid := wr_bssid r |}.

Definition request_cred (r : wifi_request) : wifi_cred :=
  {| wcr_ssid := wr_ssid r;
     wcr_security := match wr_pass r with [] => WIFI_SECURITY_TYPE_NONE | _ => WIFI_SECURITY_TYPE_PSK end;
     wcr_bssid := wr_bssid r;
     wcr_pass := wr_pass r;
     wcr_flags := match wr_bssid r with Some _ => WIFI_CREDENTIALS_FLAG_BSSID | None => 0 end;
     wcr_channel := wr_channel r |}.

Section WifiSpec.
Context {KC : Kconfig} {K : Kernel} {P : Platform} {CD : Codec}.

(** What the C members hold. *)
Definition view (c : conn_params) : wifi_request :=
  {| wr_ssid := ssid_bytes c; wr_pass := pass_bytes c;
     wr_bssid := if cn_has_bssid c then Some (cn_bssid c) else None; wr_channel := cn_channel c |}.

(** The lengths never exceed the arrays, and a pinned BSSID is one. *)
Definition conn_wf (c : conn_params) : Prop :=
  length (cn_ssid c) = S SSID_MAX /\ length (cn_pass c) = S PASS_MAX /\
  (cn_ssid_len c <= SSID_MAX)%nat /\ (cn_pass_len c <= PASS_MAX)%nat /\
  length (cn_bssid c) = WIFI_MAC_ADDR_LEN.

Lemma pass_nil c : conn_wf c -> pass_bytes c = [] <-> cn_pass_len c = 0%nat.
Proof.
  intros (H1 & H2 & H3 & H4 & H5). unfold pass_bytes. split.
  - intros H. apply (f_equal length) in H. rewrite length_take in H. cbn in H. lia.
  - by intros ->.
Qed.

Lemma length_ssid c : conn_wf c -> length (ssid_bytes c) = cn_ssid_len c.
Proof. intros (H1 & H2 & H3 & H4 & H5). unfold ssid_bytes. rewrite length_take. lia. Qed.

Lemma secured_view c :
  conn_wf c -> (0 <? cn_pass_len c)%nat = match pass_bytes c with [] => false | _ => true end.
Proof.
  intros Hw. pose proof (pass_nil c Hw) as H. destruct (pass_bytes c) as [|b l].
  - rewrite (proj1 H) by done. done.
  - apply Nat.ltb_lt. destruct (cn_pass_len c); [|lia]. by discriminate (proj2 H eq_refl).
Qed.

Lemma connect_params_view c : conn_wf c -> connect_params c = request_params (view c).
Proof.
  intros Hw. unfold connect_params, request_params, view. cbv zeta. rewrite secured_view by done.
  cbn. by destruct (pass_bytes c).
Qed.

Lemma personal_cred_view c : conn_wf c -> personal_cred c = request_cred (view c).
Proof.
  intros Hw. unfold personal_cred, request_cred, view. rewrite secured_view by done.
  cbn. destruct (pass_bytes c); by destruct (cn_has_bssid c).
Qed.

(** ** Set *)

Definition with_cfg (c : conn_params) (s : st) : st :=
  {| s_dev := set_wc_cfg (fun _ => c) (s_dev s); s_env := s_env s |}.

Lemma set_accepts_spec c :
  set_accepts c = negb ((length (wifi_config_ssid c) =? 0)%nat ||
                        (SSID_MAX <? length (wifi_config_ssid c))%nat) &&
                  negb match wifi_config_pass c with
                       | Some p => (PASS_MAX <? length p)%nat | None => false end.
Proof.
  unfold set_accepts, requested. cbn [wr_pass]. rewrite negb_orb, !Nat.ltb_antisym, negb_involutive.
  f_equal.
  - f_equal. by destruct (length (wifi_config_ssid c)).
  - destruct (wifi_config_pass c); [|done]. by rewrite Nat.ltb_antisym, negb_involutive.
Qed.

Lemma wp_do_set c (Q : prov_status_r -> st -> Prop) s :
  conn_wf (wc_cfg (d_wifi (s_dev s))) ->
  (if set_accepts c
   then forall c', conn_wf c' -> view c' = staged_request c -> Q prov_status_status_ok_m_c (with_cfg c' s)
   else Q prov_status_status_invalid_argument_m_c s) ->
  wp (do_set c) Q s.
Proof.
  intros Hw HQ. rewrite set_accepts_spec in HQ. unfold do_set.
  destruct ((length (wifi_config_ssid c) =? 0)%nat || (SSID_MAX <? length (wifi_config_ssid c))%nat)
    eqn:Es; cbn [negb andb] in HQ; [by apply wp_ret|]. zbool.
  destruct (match wifi_config_pass c with Some p => _ | None => false end) eqn:Ep;
    cbn [negb] in HQ; [by apply wp_ret|].
  assert (Hp : (length (wr_pass (requested c)) <= PASS_MAX)%nat).
  { unfold requested. cbn. destruct (wifi_config_pass c); cbn; zbool; lia. }
  change (match wifi_config_pass c with Some p => p | None => [] end)
    with (wr_pass (requested c)).
  change (match wifi_config_bssid c with
          | Some b => if (length b =? WIFI_MAC_ADDR_LEN)%nat then Some b else None
          | None => None end) with (wr_bssid (staged_request c)).
  apply wp_bind, wp_guard; [unfold buf_fits, zeros; rewrite length_replicate; apply Nat.leb_le; lia|].
  apply wp_bind, wp_put, wp_bind, wp_guard.
  { unfold buf_fits, zeros. rewrite length_replicate. apply Nat.leb_le. lia. }
  apply wp_bind, wp_put, wp_bind, wp_put, wp_ret. cbn [s_dev s_env].
  destruct Hw as (H1 & H2 & H3 & H4 & H5). destruct s as [d w]. cbn [s_dev s_env] in *.
  match goal with |- Q _ {| s_dev := ?x; s_env := _ |} =>
    change (Q prov_status_status_ok_m_c (with_cfg (wc_cfg (d_wifi x)) {| s_dev := d; s_env := w |}))
  end.
  apply HQ.
  - unfold conn_wf. cbn -[buf_write zeros]. rewrite !length_buf_write
      by (unfold zeros; rewrite length_replicate; cbn in *; lia).
    unfold zeros. rewrite !length_replicate. split_and!; try done.
    unfold staged_request. cbn. destruct (wifi_config_bssid c) as [b|]; [|done].
    destruct (_ =? _)%nat eqn:E; [|done]. by zbool.
  - unfold view, ssid_bytes, pass_bytes. cbn -[buf_write zeros]. rewrite !take_buf_write_0
      by (unfold zeros; rewrite length_replicate; cbn in *; lia).
    unfold staged_request, requested. cbn. f_equal; [|by destruct (wifi_config_ch c)].
    destruct (wifi_config_bssid c) as [b|]; [|done]. by destruct (_ =? _)%nat.
Qed.

(** ** The connection state machine, as pure functions of the statics *)

(** The reason reported for the last connect status. *)
Definition fail_code (last : Z) : fail_reason_r :=
  if last =? WIFI_STATUS_CONN_AP_NOT_FOUND
  then fail_reason_fail_network_not_found_m_c else fail_reason_fail_auth_error_m_c.

Definition fail_event (last : Z) : pouch_prov_fail_reason :=
  if last =? WIFI_STATUS_CONN_AP_NOT_FOUND
  then POUCH_PROV_FAIL_NETWORK_NOT_FOUND else POUCH_PROV_FAIL_AUTH_ERROR.

Definition wifi_failed (w : wifi_t) : wifi_t :=
  wc_with (wc_cfg w) (conn_clear (wc_inflight w)) (wc_attempts_max w) (wc_attempts_completed w)
    (wc_last_conn_status w) (wc_retry_work w) sta_state_sta_failed_m_c
    (fail_code (wc_last_conn_status w)) (wc_cb_registered w) (wc_ip4 w).

Definition wifi_connected (w : wifi_t) : wifi_t :=
  wc_with (wc_cfg w) (conn_clear (wc_inflight w)) (wc_attempts_max w) (wc_attempts_completed w)
    (wc_last_conn_status w) (wc_retry_work w) sta_state_sta_connected_m_c
    (wc_fail_reason w) (wc_cb_registered w) (wc_ip4 w).

(** The state in which an apply tries to connect. *)
Definition wifi_applied (w : wifi_t) : wifi_t :=
  wc_with (wc_cfg w) (snapshot (wc_cfg w) (wc_inflight w)) (wc_attempts_max w) 0
    (wc_last_conn_status w) (k_work_cancel_delayable (wc_retry_work w))
    sta_state_sta_connecting_m_c (wc_fail_reason w) (wc_cb_registered w) (wc_ip4 w).

(** A failure is counted, and a retry scheduled. *)
Definition wifi_retry (last n : Z) (w : wifi_t) : wifi_t :=
  wc_with (wc_cfg w) (wc_inflight w) (wc_attempts_max w) n last
    (k_work_schedule RETRY_DELAY_S (wc_retry_work w))
    sta_state_sta_connecting_m_c (wc_fail_reason w) (wc_cb_registered w) (wc_ip4 w).

Definition wifi_counted (last n : Z) (w : wifi_t) : wifi_t :=
  wc_with (wc_cfg w) (wc_inflight w) (wc_attempts_max w) n last (wc_retry_work w)
    (wc_sta_state w) (wc_fail_reason w) (wc_cb_registered w) (wc_ip4 w).

(** The statics after a failed attempt with status [last], and whether it was
    the final one. *)
Definition after_failure (last : Z) (w : wifi_t) : wifi_t * bool :=
  if 0 <? wc_attempts_max w then
    let n := u32 (wc_attempts_completed w + 1) in
    if n <? wc_attempts_max w then (wifi_retry last n w, false)
    else (wifi_failed (wifi_counted last n w), true)
  else (wifi_failed (wifi_counted last (wc_attempts_completed w) w), true).

(** The device with other Wi-Fi statics, and the auto-stop timer perhaps rearmed. *)
Definition with_wifi_st (w : wifi_t) (f : k_work_delayable -> k_work_delayable) (d : device)
  : device := set_autostop f (set_wifi (fun _ => w) d).

Lemma wp_emit_wifi w1 ev data (Q : unit -> st -> Prop) d w :
  (forall f, Q tt {| s_dev := with_wifi_st w1 f d;
     s_env := if cfg_event_cb (pouch_prov_config_get d) then event_cb ev data w else w |}) ->
  wp (pouch_prov_emit ev data) Q {| s_dev := set_wifi (fun _ => w1) d; s_env := w |}.
Proof. intros H. apply wp_emit. exact H. Qed.

(** The world after the application has been told, if it asked to be. *)
Definition emitted (d : device) (ev : pouch_prov_event) (data : option pouch_prov_fail_reason)
    (w : W) : W :=
  if cfg_event_cb (pouch_prov_config_get d) then event_cb ev data w else w.

Definition told (d : device) (ev : pouch_prov_event) (data : option pouch_prov_fail_reason)
  (w' : W) : Prop :=
  cfg_event_cb (pouch_prov_config_get d) = true -> exists w, w' = event_cb ev data w.

Lemma emitted_told d ev data w : told d ev data (emitted d ev data w).
Proof. intros H. unfold emitted. rewrite H. by exists w. Qed.

Context {WL : WifiStoreLaws P}.

Lemma emitted_store d ev data w : stored_ssids (emitted d ev data w) = stored_ssids w.
Proof. unfold emitted. destruct (cfg_event_cb _); [apply wifi_event_law|done]. Qed.

(** Only the SSID is gone from the credential store. *)
Definition ssid_deleted (ssid : list byte) (w w' : W) : Prop :=
  ~ (ssid ∈ stored_ssids w') /\
  (forall x, x <> ssid -> (x ∈ stored_ssids w') <-> (x ∈ stored_ssids w)).

(** A final failure: the store is asked to delete the SSID and the application
    is told.  The result of the deletion is not looked at: the SSID is gone when
    it is 0. *)
Definition given_up (d : device) (ssid : list byte) (reason : pouch_prov_fail_reason)
    (w w' : W) : Prop :=
  exists err w1, wifi_credentials_delete_by_ssid ssid w = (err, w1) /\
    w' = emitted d POUCH_PROV_EVENT_WIFI_FAIL (Some reason) w1 /\
    (err = 0 -> ssid_deleted ssid w w').

Lemma given_up_told d ssid reason w w' :
  given_up d ssid reason w w' -> told d POUCH_PROV_EVENT_WIFI_FAIL (Some reason) w'.
Proof. intros (err & w1 & _ & -> & _). apply emitted_told. Qed.

Lemma wp_final_failure (Q : unit -> st -> Prop) d w :
  (forall f w', given_up d (ssid_bytes (wc_inflight (d_wifi d)))
       (fail_event (wc_last_conn_status (d_wifi d))) w w' ->
     Q tt {| s_dev := with_wifi_st (wifi_failed (d_wifi d)) f d; s_env := w' |}) ->
  wp final_failure Q {| s_dev := d; s_env := w |}.
Proof.
  intros H. unfold final_failure. apply wp_bind, wp_put, wp_bind, wp_getd. cbn [s_dev s_env].
  change (wc_last_conn_status (d_wifi (set_sta_state sta_state_sta_failed_m_c d)))
    with (wc_last_conn_status (d_wifi d)).
  unfold wifi_failed, fail_code, fail_event in H. set (last := wc_last_conn_status (d_wifi d)) in *.
  destruct (last =? WIFI_STATUS_CONN_AP_NOT_FOUND).
  all: apply wp_bind, wp_put, wp_bind, wp_getd, wp_bind, wp_call; cbn [s_dev s_env]; intros err w1 E.
  all: apply wp_bind, wp_put; cbn [s_dev s_env].
  all: apply (wp_emit_wifi _ _ _ _ d); intros f; apply H.
  all: exists err, w1; split; [exact E|]; split; [done|]; intros ->.
  all: unfold ssid_deleted; change (if cfg_event_cb _ then event_cb ?ev ?x w1 else w1) with (emitted d ev x w1).
  all: rewrite emitted_store; exact (wifi_delete_law _ _ _ E).
Qed.

Definition with_wifi (w : wifi_t) (d : device) : device := set_wifi (fun _ => w) d.

Definition wifi_idle (d : device) : Prop := cn_ssid_len (wc_inflight (d_wifi d)) = 0%nat.

Lemma connect_result_idle status s : wifi_idle (s_dev s) -> on_connect_result status s = Some (tt, s).
Proof. intros H. unfold on_connect_result, mbind, get, mget. by rewrite H. Qed.

Lemma retry_idle s : wifi_idle (s_dev s) -> retry_work_handler s = Some (tt, s).
Proof. intros H. unfold retry_work_handler, mbind, get, mget. by rewrite H. Qed.

Lemma idle_test d : ~ wifi_idle d -> (cn_ssid_len (wc_inflight (d_wifi d)) =? 0)%nat = false.
Proof. intros H. by apply Nat.eqb_neq. Qed.

(** A successful attempt in flight. *)
Lemma wp_connect_success (Q : unit -> st -> Prop) d w :
  ~ wifi_idle d ->
  (forall f w', stored_ssids w' = stored_ssids w ->
     told d POUCH_PROV_EVENT_WIFI_CONNECTED None w' ->
     Q tt {| s_dev := with_wifi_st (wifi_connected (d_wifi d)) f d; s_env := w' |}) ->
  wp (on_connect_result 0) Q {| s_dev := d; s_env := w |}.
Proof.
  intros Hi H. unfold on_connect_result. apply wp_bind, wp_getd. cbn [s_dev].
  rewrite idle_test by done. rewrite Z.eqb_refl. apply wp_bind, wp_put, wp_bind, wp_put.
  apply (wp_emit_wifi _ _ _ _ d). intros f. apply H.
  - by destruct (cfg_event_cb _); rewrite ?wifi_event_law.
  - intros ->. by eexists.
Qed.

(** A failed one: a retry, or the final failure. *)
Lemma wp_connect_failure status (Q : unit -> st -> Prop) d w :
  ~ wifi_idle d -> status <> 0 ->
  ((after_failure status (d_wifi d)).2 = false ->
     Q tt {| s_dev := with_wifi (after_failure status (d_wifi d)).1 d; s_env := w |}) ->
  ((after_failure status (d_wifi d)).2 = true ->
     forall f w', given_up d (ssid_bytes (wc_inflight (d_wifi d))) (fail_event status) w w' ->
       Q tt {| s_dev := with_wifi_st (after_failure status (d_wifi d)).1 f d; s_env := w' |}) ->
  wp (on_connect_result status) Q {| s_dev := d; s_env := w |}.
Proof.
  intros Hi Hs H1 H2. unfold on_connect_result. apply wp_bind, wp_getd. cbn [s_dev].
  rewrite idle_test by done. rewrite (proj2 (Z.eqb_neq status 0)) by done.
  apply wp_bind, wp_put, wp_bind, wp_getd. cbn [s_dev s_env].
  change (wc_attempts_max (d_wifi (set_last_conn_status status d)))
    with (wc_attempts_max (d_wifi d)).
  unfold after_failure in H1, H2. destruct (0 <? wc_attempts_max (d_wifi d)).
  - cbv zeta in *. apply wp_bind, wp_put. cbn [s_dev s_env].
    change (wc_attempts_completed (d_wifi (set_last_conn_status status d)))
      with (wc_attempts_completed (d_wifi d)).
    set (n := u32 (wc_attempts_completed (d_wifi d) + 1)) in *.
    destruct (n <? wc_attempts_max (d_wifi d)); cbn [fst snd] in *.
    + apply wp_bind, wp_put, wp_put. by apply H1.
    + apply wp_final_failure. intros f w' Hd. by apply (H2 eq_refl f w').
  - apply wp_final_failure. intros f w' Hd. by apply (H2 eq_refl f w').
Qed.

(** A connect request for the parameters in flight. *)
Lemma wp_connect_from_inflight (Q : Z -> st -> Prop) d w :
  conn_wf (wc_inflight (d_wifi d)) ->
  (wifi_iface w = None -> Q (- ENODEV) {| s_dev := d; s_env := w |}) ->
  (forall i err w', wifi_iface w = Some i ->
     net_mgmt_wifi_connect i (request_params (view (wc_inflight (d_wifi d)))) w = (err, w') ->
     Q err {| s_dev := d; s_env := w' |}) ->
  wp connect_from_inflight Q {| s_dev := d; s_env := w |}.
Proof.
  intros Hw H1 H2. unfold connect_from_inflight. apply wp_bind, wp_ask. cbn [s_env].
  destruct (wifi_iface w) as [i|]; [|apply wp_ret; by apply H1].
  apply wp_bind, wp_getd, wp_call. cbn [s_dev s_env]. intros err w' E.
  apply (H2 i); [done|]. by rewrite <- connect_params_view.
Qed.

(** There is no interface, or it refuses the connect request. *)
Definition refused_at_once (r : wifi_request) (w w' : W) : Prop :=
  (wifi_iface w = None /\ w' = w) \/
  exists i err, wifi_iface w = Some i /\
    net_mgmt_wifi_connect i (request_params r) w = (err, w') /\ err <> 0.

(** The retry work item: another request, or the final failure when it is
    refused at once. *)
Lemma wp_retry (Q : unit -> st -> Prop) d w :
  ~ wifi_idle d -> conn_wf (wc_inflight (d_wifi d)) ->
  (forall i w', wifi_iface w = Some i ->
     net_mgmt_wifi_connect i (request_params (view (wc_inflight (d_wifi d)))) w = (0, w') ->
     Q tt {| s_dev := d; s_env := w' |}) ->
  (forall w1, refused_at_once (view (wc_inflight (d_wifi d))) w w1 ->
     forall f w', given_up d (ssid_bytes (wc_inflight (d_wifi d)))
         (fail_event (wc_last_conn_status (d_wifi d))) w1 w' ->
     Q tt {| s_dev := with_wifi_st (wifi_failed (d_wifi d)) f d; s_env := w' |}) ->
  wp retry_work_handler Q {| s_dev := d; s_env := w |}.
Proof.
  intros Hi Hw H1 H2. unfold retry_work_handler. apply wp_bind, wp_getd. cbn [s_dev].
  rewrite idle_test by done. apply wp_bind, wp_connect_from_inflight; [done| |].
  - intros Hn. apply wp_when; intros E; [|done].
    apply wp_final_failure. intros f w' Hd. apply (H2 w); [by left|done].
  - intros i err w' Hif Hc. apply wp_when; intros E; zbool.
    + apply wp_final_failure. intros f w2 Hd. apply (H2 w'); [|done].
      right. by exists i, err.
    + subst err. by eapply H1.
Qed.

(** ** Apply *)

Lemma view_snapshot c old : conn_wf c -> view (snapshot c old) = view c.
Proof. intros _. unfold view, snapshot, ssid_bytes, pass_bytes. cbn. by destruct (cn_has_bssid c). Qed.

Lemma conn_wf_snapshot c old : conn_wf c -> conn_wf old -> conn_wf (snapshot c old).
Proof.
  intros (H1 & H2 & H3 & H4 & H5) (G1 & G2 & G3 & G4 & G5). unfold conn_wf, snapshot. cbn.
  split_and!; try done. by destruct (cn_has_bssid c).
Qed.

(** The entry stored for the SSID is deleted, with a result that is not looked
    at, and the configuration stored instead, with the result [ret]. *)
Definition replaced (r : wifi_request) (w : W) (ret : Z) (w' : W) : Prop :=
  exists i err w1, wifi_iface w = Some i /\ wr_ssid r <> [] /\
    wifi_credentials_delete_by_ssid (wr_ssid r) w = (err, w1) /\
    wifi_credentials_set_personal (request_cred r) w1 = (ret, w').

(** Where an apply ends up. *)
Inductive apply_outcome (d : device) (w : W) : prov_status_r -> device -> W -> Prop :=
| apply_refused :
    wifi_iface w = None \/ wr_ssid (view (wc_cfg (d_wifi d))) = [] ->
    apply_outcome d w prov_status_status_invalid_state_m_c d w
| apply_not_stored w1 err :
    replaced (view (wc_cfg (d_wifi d))) w err w1 -> err <> 0 ->
    apply_outcome d w prov_status_status_internal_error_m_c d w1
| apply_connecting f w1 i w2 :
    replaced (view (wc_cfg (d_wifi d))) w 0 w1 ->
    wifi_iface (emitted d POUCH_PROV_EVENT_WIFI_CRED_RECV None w1) = Some i ->
    net_mgmt_wifi_connect i (request_params (view (wc_cfg (d_wifi d))))
      (emitted d POUCH_PROV_EVENT_WIFI_CRED_RECV None w1) = (0, w2) ->
    wr_ssid (view (wc_cfg (d_wifi d))) ∈ stored_ssids w2 ->
    apply_outcome d w prov_status_status_ok_m_c (with_wifi_st (wifi_applied (d_wifi d)) f d) w2
| apply_failed_at_once f g w1 w2 w3 :
    replaced (view (wc_cfg (d_wifi d))) w 0 w1 ->
    refused_at_once (view (wc_cfg (d_wifi d)))
      (emitted d POUCH_PROV_EVENT_WIFI_CRED_RECV None w1) w2 ->
    given_up d (wr_ssid (view (wc_cfg (d_wifi d)))) POUCH_PROV_FAIL_AUTH_ERROR w2 w3 ->
    apply_outcome d w prov_status_status_ok_m_c
      (with_wifi_st (wifi_failed (wifi_counted WIFI_STATUS_CONN_WRONG_PASSWORD 0
                                    (wifi_applied (d_wifi d)))) g (set_autostop f d)) w3.

Lemma wp_do_apply d w :
  conn_wf (wc_cfg (d_wifi d)) -> conn_wf (wc_inflight (d_wifi d)) ->
  wp do_apply (fun r s' => apply_outcome d w r (s_dev s') (s_env s')) {| s_dev := d; s_env := w |}.
Proof.
  intros Hc Hi. unfold do_apply. apply wp_bind, wp_ask, wp_bind, wp_getd. cbn [s_dev s_env].
  destruct (match wifi_iface w with None => true | Some _ => false end ||
            (cn_ssid_len (wc_cfg (d_wifi d)) =? 0)%nat) eqn:E0.
  { apply wp_ret, apply_refused. cbn [s_dev s_env]. destruct (wifi_iface w); [|by left]. cbn [orb] in E0. zbool.
    right. apply nil_length_inv. change (length (ssid_bytes (wc_cfg (d_wifi d))) = 0%nat).
    by rewrite length_ssid. }
  destruct (wifi_iface w) as [i0|] eqn:Ei0; [|done]. cbn [orb] in E0.
  assert (Hne : wr_ssid (view (wc_cfg (d_wifi d))) <> []).
  { intros H. apply (f_equal length) in H. cbn [view wr_ssid] in H. rewrite length_ssid in H by done.
    cbn in H. by rewrite H in E0. }
  apply wp_bind, wp_call. intros err0 w1 E1. apply wp_bind, wp_call. cbn [s_env s_dev].
  intros ret w2 E2. rewrite personal_cred_view in E2 by done.
  assert (Hrep : replaced (view (wc_cfg (d_wifi d))) w ret w2) by by exists i0, err0, w1.
  destruct (ret =? 0) eqn:Er; cbn [negb]; zbool; [|by apply wp_ret; eapply apply_not_stored].
  subst ret. apply wp_bind, wp_emit. intros f. cbn [s_dev s_env].
  change (if cfg_event_cb _ then _ else w2)
    with (emitted d POUCH_PROV_EVENT_WIFI_CRED_RECV None w2).
  set (w3 := emitted d POUCH_PROV_EVENT_WIFI_CRED_RECV None w2).
  assert (Hin : wr_ssid (view (wc_cfg (d_wifi d))) ∈ stored_ssids w3).
  { unfold w3. rewrite emitted_store. apply (wifi_set_law _ _ _ E2). by left. }
  do 4 (apply wp_bind, wp_put). cbn [s_dev s_env]. apply wp_bind.
  match goal with |- wp _ _ {| s_dev := ?x; s_env := _ |} =>
    change x with (with_wifi_st (wifi_applied (d_wifi d)) f d) end.
  assert (Hw' : conn_wf (wc_inflight (d_wifi (with_wifi_st (wifi_applied (d_wifi d)) f d))))
    by (by apply conn_wf_snapshot).
  assert (Hv : view (wc_inflight (d_wifi (with_wifi_st (wifi_applied (d_wifi d)) f d))) =
               view (wc_cfg (d_wifi d))) by (by apply view_snapshot).
  assert (Hbad : forall w4, refused_at_once (view (wc_cfg (d_wifi d))) w3 w4 ->
    wp (put (set_last_conn_status WIFI_STATUS_CONN_WRONG_PASSWORD) ;;;
      final_failure) (fun _ s' => wp (mret prov_status_status_ok_m_c)
        (fun r s' => apply_outcome d w r (s_dev s') (s_env s')) s')
      {| s_dev := with_wifi_st (wifi_applied (d_wifi d)) f d; s_env := w4 |}).
  { intros w4 Href. apply wp_bind, wp_put. cbn [s_dev s_env]. apply wp_final_failure.
    intros g w5 Hd. apply wp_ret. eapply (apply_failed_at_once d w f g _ w4 w5); [done|done|].
    rewrite <- Hv. exact Hd. }
  apply wp_connect_from_inflight; [done| |].
  - intros Hno. apply wp_bind, wp_when; intros E; [apply Hbad; by left|done].
  - intros i err w4 Hif Hcon. rewrite Hv in Hcon. apply wp_bind, wp_when; intros E; zbool.
    { apply Hbad. right. by exists i, err. }
    subst err. apply wp_ret. eapply apply_connecting; [done..|].
    by rewrite (wifi_connect_law _ _ _ _ _ Hcon).
Qed.
End WifiSpec.
