(* ===== verification/WifiInv.v ===== *)
(** * The Wi-Fi invariant

    In every reachable state the reported station state is "connecting" exactly
    while an attempt is in flight, the attempt count is below the budget, and
    the staged and in-flight parameters fit their arrays.  Results, and the
    retry work item, that come while nothing is in flight change nothing; others
    count for the attempt in flight. *)

From S2P Require Import Prelude ProvTypes Zcbor Schema Codec Platform State Frame Rpc Session.
From S2P Require Import CredStore WifiScan WifiConfig Adv Identity Manager Ctrl Dispatch System.
From S2P Require Import Frames Instances DispatchSpec AuthSpec WifiSpec.

Section WifiInv.
Context {KC : Kconfig} {K : Kernel} {P : Platform} {CD : Codec}.

Definition connecting (w : wifi_t) : Prop := wc_sta_state w = sta_state_sta_connecting_m_c.

Definition in_flight (w : wifi_t) : Prop := cn_ssid_len (wc_inflight w) <> 0%nat.

(** Failures counted so far, against the budget. *)
Definition within_budget (w : wifi_t) : Prop :=
  wc_attempts_completed w = 0 \/ 0 < wc_attempts_completed w < wc_attempts_max w.

Definition wifi_wf (w : wifi_t) : Prop :=
  conn_wf (wc_cfg w) /\ conn_wf (wc_inflight w) /\ (connecting w <-> in_flight w) /\
  (connecting w -> within_budget w).

Definition wifi_inv (d : device) : Prop :=
  wifi_wf (d_wifi d) /\ (mg_initialized (d_mgr d) = false -> wifi_idle d).

(** The relations that preserving the invariant is. *)
Definition wifi_kept (d d' : device) : Prop := wifi_inv d -> wifi_inv d'.

Definition wifi_idle_kept (d d' : device) : Prop :=
  wifi_inv d /\ wifi_idle d -> wifi_inv d' /\ wifi_idle d'.

#[export] Instance wifi_kept_preorder : PreOrder wifi_kept.
Proof. split; unfold wifi_kept; [by intros d|]. intros d1 d2 d3 H1 H2 H. auto. Qed.

#[export] Instance wifi_idle_kept_preorder : PreOrder wifi_idle_kept.
Proof. split; unfold wifi_idle_kept; [by intros d|]. intros d1 d2 d3 H1 H2 H. auto. Qed.

Lemma conn_wf_zero : conn_wf conn_zero.
Proof. unfold conn_wf. split_and!; try done; apply Nat.leb_le; done. Qed.

Lemma conn_wf_clear c : conn_wf c -> conn_wf (conn_clear c).
Proof.
  intros (H1 & H2 & H3 & H4 & H5). unfold conn_wf. split_and!; try done; apply Nat.leb_le; done.
Qed.

Lemma wifi_inv_boot flags : wifi_inv (device_boot flags).
Proof.
  split; [|done]. split_and!; [apply conn_wf_zero..| |].
  - split; [done|]. intros H. by destruct H.
  - by intros H.
Qed.

(** ** The functions of wifi_config.c *)

Lemma in_flight_applied w :
  conn_wf (wc_cfg w) -> wr_ssid (view (wc_cfg w)) <> [] -> in_flight (wifi_applied w).
Proof.
  intros Hc Hn H0. apply Hn, nil_length_inv.
  change (length (ssid_bytes (wc_cfg w)) = 0%nat). by rewrite length_ssid.
Qed.

Lemma wifi_wf_failed w : conn_wf (wc_cfg w) -> conn_wf (wc_inflight w) -> wifi_wf (wifi_failed w).
Proof.
  intros H1 H2. split_and!; [done|by apply conn_wf_clear| |done].
  split; [done|]. intros H. by destruct H.
Qed.

Lemma wifi_wf_connected w :
  conn_wf (wc_cfg w) -> conn_wf (wc_inflight w) -> wifi_wf (wifi_connected w).
Proof.
  intros H1 H2. split_and!; [done|by apply conn_wf_clear| |done].
  split; [done|]. intros H. by destruct H.
Qed.

Lemma wifi_wf_after_failure last w :
  wifi_wf w -> connecting w -> wifi_wf (after_failure last w).1.
Proof.
  intros (H1 & H2 & H3 & H4) Hc. unfold after_failure.
  destruct (0 <? wc_attempts_max w) eqn:E0; [|by apply wifi_wf_failed].
  cbv zeta. set (n := u32 (wc_attempts_completed w + 1)).
  assert (Hn : 0 <= n) by (unfold n, u32, uwrap; apply Z.mod_pos_bound; lia).
  destruct (n <? wc_attempts_max w) eqn:E; [|by apply wifi_wf_failed]. zbool.
  split_and!; [done|done| |].
  - split; [|done]. intros _. by apply H3.
  - intros _. unfold within_budget. cbn. lia.
Qed.

Lemma keep_wifi_st w f d :
  wifi_wf w -> (mg_initialized (d_mgr d) = false -> cn_ssid_len (wc_inflight w) = 0%nat) ->
  wifi_inv (with_wifi_st w f d).
Proof. intros H1 H2. by split. Qed.

Lemma steps_do_set c : steps wifi_kept (do_set c).
Proof.
  intros s r s' E [(H1 & H2 & H3 & H4) Hi].
  refine (wp_run _ (fun _ s' => wifi_inv (s_dev s')) _ _ _ E _).
  apply wp_do_set; [done|]. destruct (set_accepts c).
  - intros c' Hc' _. by split.
  - by split.
Qed.

Context {WL : WifiStoreLaws P}.

Lemma steps_connect_result status : steps wifi_kept (on_connect_result status).
Proof.
  intros s r s' E [Hw Hi]. pose proof Hw as (H1 & H2 & H3 & H4).
  refine (wp_run _ (fun _ s' => wifi_inv (s_dev s')) _ _ _ E _).
  destruct (decide (cn_ssid_len (wc_inflight (d_wifi (s_dev s))) = 0%nat)) as [E0|E0].
  { unfold wp. rewrite connect_result_idle by done. by split. }
  destruct s as [d w]. destruct (decide (status = 0)) as [->|Hs].
  - apply wp_connect_success; [done|]. intros f w' _ _.
    apply keep_wifi_st; [by apply wifi_wf_connected|done].
  - assert (Hwf : wifi_wf (after_failure status (d_wifi d)).1)
      by (apply wifi_wf_after_failure; [done|by apply H3]).
    apply wp_connect_failure; [done|done| |].
    + intros _. split; [done|]. intros Hm. destruct E0. by apply Hi.
    + intros _ f w' _. apply keep_wifi_st; [done|]. intros Hm. destruct E0. by apply Hi.
Qed.

Lemma steps_retry : steps wifi_kept retry_work_handler.
Proof.
  intros s r s' E [Hw Hi]. pose proof Hw as (H1 & H2 & H3 & H4).
  refine (wp_run _ (fun _ s' => wifi_inv (s_dev s')) _ _ _ E _).
  destruct (decide (cn_ssid_len (wc_inflight (d_wifi (s_dev s))) = 0%nat)) as [E0|E0].
  { unfold wp. rewrite retry_idle by done. by split. }
  destruct s as [d w]. apply wp_retry; [done..| |].
  - intros i w' _ _. by split.
  - intros w1 _ f w' _. apply keep_wifi_st; [by apply wifi_wf_failed|done].
Qed.

(** An apply is a downlink request, so the device is initialised. *)
Definition applied_kept (d d' : device) : Prop :=
  mg_initialized (d_mgr d) = true -> wifi_inv d ->
  mg_initialized (d_mgr d') = true /\ wifi_inv d'.

#[export] Instance applied_kept_preorder : PreOrder applied_kept.
Proof.
  split; unfold applied_kept; [by intros d|]. intros d1 d2 d3 H1 H2 Hm Hi.
  destruct (H1 Hm Hi) as [Hm' Hi']. auto.
Qed.

Lemma steps_do_apply : steps applied_kept do_apply.
Proof.
  intros s r s' E Hm [Hw Hi]. pose proof Hw as (H1 & H2 & H3 & H4).
  refine (wp_run _ (fun _ s' => mg_initialized (d_mgr (s_dev s')) = true /\ wifi_inv (s_dev s'))
            _ _ _ E _).
  destruct s as [d w]. eapply wp_mono; [by apply wp_do_apply|]. cbn [s_dev] in *.
  intros r' [d' w'] Ho. cbn [s_dev s_env] in *.
  inversion Ho as [|?? (?&?&?&_&?&_) |???? (?&?&?&_&?&_) |????? (?&?&?&_&?&_)]; subst.
  - by split.
  - by split.
  - split; [done|]. apply keep_wifi_st; [|intros Hx; change (mg_initialized (d_mgr d) = false) in Hx; congruence].
    split_and!; [done|by apply conn_wf_snapshot| |by left].
    split; [|done]. intros _. by apply in_flight_applied.
  - split; [done|]. apply keep_wifi_st; [|intros Hx; change (mg_initialized (d_mgr d) = false) in Hx; congruence].
    apply wifi_wf_failed; [done|by apply conn_wf_snapshot].
Qed.

(** Everything forgotten but the attempt budget, the last status and the bytes
    that a reset leaves. *)
Definition wifi_reset (w : wifi_t) : wifi_t :=
  wc_with (conn_clear (wc_cfg w)) (conn_clear (wc_inflight w)) (wc_attempts_max w) 0
    (wc_last_conn_status w) (k_work_cancel_delayable (wc_retry_work w))
    sta_state_sta_disconnected_m_c fail_reason_fail_auth_error_m_c (wc_cb_registered w) (wc_ip4 w).

Lemma config_reset_eq d w :
  pouch_prov_wifi_config_reset {| s_dev := d; s_env := w |} =
  Some (tt, {| s_dev := with_wifi (wifi_reset (d_wifi d)) d; s_env := w |}).
Proof. done. Qed.

Lemma steps_config_reset : steps wifi_kept pouch_prov_wifi_config_reset.
Proof.
  intros [d w] r s' E [(H1 & H2 & H3 & H4) Hi]. rewrite config_reset_eq in E. simplify_eq.
  split; [|done]. split_and!; [by apply conn_wf_clear..| |done].
  split; [done|]. intros H. by destruct H.
Qed.

(** Initialisation sets the state while nothing is in flight. *)
Lemma steps_config_init n : steps wifi_idle_kept (pouch_prov_wifi_config_init n).
Proof.
  intros [d w] r s' E [[(H1 & H2 & H3 & H4) Hi] H0].
  assert (Hx : d_wifi (s_dev s') = wc_with (wc_cfg (d_wifi d)) (wc_inflight (d_wifi d)) n 0
      (wc_last_conn_status (d_wifi d)) (k_work_init_delayable (wc_retry_work (d_wifi d)))
      sta_state_sta_disconnected_m_c (wc_fail_reason (d_wifi d)) true (wc_ip4 (d_wifi d))).
  { refine (wp_run _ (fun _ s' => d_wifi (s_dev s') = _) _ _ _ E _).
    unfold pouch_prov_wifi_config_init. do 4 (apply wp_bind, wp_put). apply wp_bind, wp_getd.
    apply wp_bind, wp_when; intros Er; cbn in Er.
    - by apply wp_bind, wp_call_, wp_put, wp_ret.
    - apply negb_false_iff in Er. apply wp_ret. cbn. by rewrite Er. }
  unfold wifi_inv, wifi_idle in *. rewrite Hx. cbn.
  split; [|done]. split; [|done]. split_and!; [done|done| |done].
  split; [done|]. intros H. by destruct H.
Qed.

Lemma steps_applied {A} (m : C A) :
  steps wifi_kept m -> keeps (fun d => mg_initialized (d_mgr d)) m -> steps applied_kept m.
Proof.
  intros H1 H2 s r s' E Hm Hi. split; [|by eapply H1].
  pose proof (H2 _ _ _ E) as Hs. unfold same in Hs. congruence.
Qed.
End WifiInv.

#[export] Hint Resolve steps_do_set steps_connect_result steps_retry steps_config_reset
  steps_config_init steps_do_apply : steps.
#[export] Hint Extern 2 (wifi_kept _ _) =>
  let H := fresh in intros H; exact H : steps.
#[export] Hint Extern 2 (wifi_idle_kept _ _) =>
  let H := fresh in intros H; exact H : steps.
#[export] Hint Extern 2 (applied_kept _ _) =>
  let Hm := fresh in let Hi := fresh in intros Hm Hi; exact (conj Hm Hi) : steps.
#[export] Hint Extern 1 (steps applied_kept (do_set _)) =>
  apply steps_applied; [apply steps_do_set | steps_go] : steps.
#[export] Hint Extern 1 (steps applied_kept pouch_prov_wifi_config_reset) =>
  apply steps_applied; [apply steps_config_reset | steps_go] : steps.

Section WifiReach.
Context {KC : Kconfig} {K : Kernel} {P : Platform} {CD : Codec} {WL : WifiStoreLaws P}.

Lemma steps_handle_config req n : steps applied_kept (pouch_prov_handle_config req n).
Proof. steps_go. Qed.

Lemma steps_run_handler h req n : steps applied_kept (run_handler h req n).
Proof. destruct h; cbn [run_handler]; steps_go. Qed.

Lemma steps_respond_status R `{!PreOrder R} path op stt :
  (forall f d, R d (set_rpc f d)) -> steps R (respond_status path op stt).
Proof. apply steps_respond. done. Qed.

Lemma steps_downlink_data sid data last : steps applied_kept (downlink_data sid data last).
Proof.
  unfold downlink_data. apply (steps_bind applied_kept); [apply (steps_get applied_kept)|].
  intros [ep|]; [|apply (steps_ret applied_kept)].
  destruct (negb _); [apply (steps_ret applied_kept)|].
  apply (steps_bind applied_kept); [steps_go|]. intros _.
  destruct (negb _); [apply (steps_ret applied_kept)|].
  apply (steps_bind applied_kept); [steps_go|]. intros _. unfold process.
  assert (Hr : forall f d, applied_kept d (set_rpc f d)) by (intros f d Hm Hi; exact (conj Hm Hi)).
  apply (steps_bind applied_kept); [apply (steps_get applied_kept)|].
  intros [|]; [by apply (steps_respond applied_kept)|].
  apply (steps_bind applied_kept); [apply (steps_get applied_kept)|]. intros auth.
  apply (steps_bind applied_kept); [apply (steps_get applied_kept)|]. intros req.
  destruct (_ && _); [by apply (steps_respond applied_kept)|].
  apply (steps_bind applied_kept); [apply steps_run_handler|]. intros [rsp|err]; [steps_go|].
  apply (steps_bind applied_kept); [apply (steps_get applied_kept)|]. intros req'.
  by apply (steps_respond applied_kept).
Qed.

Lemma idle_initialized d : wifi_idle_kept d (set_initialized true d).
Proof. intros [[H _] Hi]. by split. Qed.
#[local] Hint Resolve idle_initialized : steps.

Lemma steps_mgr_init cfg s r s' :
  pouch_prov_mgr_init cfg s = Some (r, s') -> wifi_kept (s_dev s) (s_dev s').
Proof.
  intros E Hi. unfold pouch_prov_mgr_init in E.
  apply mbind_inv in E as (ini & s1 & [= <- <-] & E).
  destruct (mg_initialized (d_mgr (s_dev s))) eqn:Em; [by injection E as _ <-|].
  set (rest := match cfg with None => _ | Some _ => _ end) in E.
  assert (Hs : steps wifi_idle_kept rest).
  { unfold rest. clear E rest. destruct cfg as [cfg|]; [|steps_go].
    destruct (cfg_device_id cfg); steps_go. }
  apply (Hs _ _ _ E). split; [done|]. by apply Hi.
Qed.

Lemma wifi_inv_handle e s s' :
  enabled e (s_dev s) -> handle e s = Some (tt, s') -> wifi_inv (s_dev s) -> wifi_inv (s_dev s').
Proof.
  intros He E Hi. destruct e; handle_cbn.
  3-10, 12-16: refine ((_ : steps wifi_kept _) _ _ _ E Hi); unfold ignore; steps_go.
  - refine ((_ : steps wifi_kept _) _ _ _ E Hi). steps_go.
  - by apply (steps_downlink_data _ _ _ _ _ _ E).
  - unfold ignore in E. apply mbind_inv in E as (r & s1 & E & [= <-]). by eapply steps_mgr_init.
Qed.

Lemma wifi_inv_reachable flags s : reachable flags s -> wifi_inv (s_dev s).
Proof.
  induction 1 as [w|s s' Hr IH Hs]; [apply wifi_inv_boot|].
  destruct Hs as [e s s' He E|s w]; [by eapply wifi_inv_handle|done].
Qed.

(** ** The properties *)

(** C8: In every reachable state the station state reported to the client is
    "connecting" exactly while an attempt is in flight, fewer failures have been
    counted than the budget allows, and the staged and in-flight credentials fit
    their arrays, whatever requests, connect results, retries and resets came in
    whatever order. *)
Theorem connecting_iff_in_flight flags s :
  reachable flags s -> wifi_wf (d_wifi (s_dev s)).
Proof. intros H. by apply (wifi_inv_reachable flags). Qed.

(** C29: What a connect result does in a reachable state depends on the reported
    station state and on the result's status, not on which connection it is the
    result of.  While the device does not report "connecting" a result of any
    status, and a late retry work item, change nothing.  While it does, every
    result counts for the attempt in flight: status 0 connects it, any other is
    one of its failures.  So a result that is late by a reset and a new apply is
    taken for the new network's. *)
Theorem connect_result_effect flags s status :
  reachable flags s ->
  (wc_sta_state (d_wifi (s_dev s)) <> sta_state_sta_connecting_m_c ->
   handle (EvConnectResult status) s = Some (tt, s) /\ retry_work_handler s = Some (tt, s)) /\
  (wc_sta_state (d_wifi (s_dev s)) = sta_state_sta_connecting_m_c ->
   wp (handle (EvConnectResult status)) (fun _ s' =>
     d_wifi (s_dev s') = if status =? 0 then wifi_connected (d_wifi (s_dev s))
                         else (after_failure status (d_wifi (s_dev s))).1) s).
Proof.
  intros Hr. destruct (wifi_inv_reachable _ _ Hr) as [(_ & _ & Hiff & _) _]. split.
  - intros Hn. assert (Hi : wifi_idle (s_dev s)).
    { destruct (decide (cn_ssid_len (wc_inflight (d_wifi (s_dev s))) = 0%nat)) as [E|E]; [done|].
      destruct Hn. by apply Hiff. }
    split; [by apply connect_result_idle|by apply retry_idle].
  - intros Hc. apply Hiff in Hc. destruct s as [d w]. cbn [s_dev handle config_mgmt_event mwhen] in *.
    destruct (status =? 0) eqn:E; zbool.
    + subst. by apply wp_connect_success.
    + by apply wp_connect_failure.
Qed.

(** C12: An apply in a reachable state does one of four things, each with its reply.
    It does nothing when there is no interface or no SSID is staged.  Otherwise it
    first deletes the entry stored for the SSID, whatever that returns, and stores
    exactly the staged credential.  When the store refuses, that is all, and the
    device's own state is as before.  Else it asks for exactly the staged network,
    and either the attempt is in flight with its count at zero and the SSID
    stored, or the request was refused at once and the device gives up: the state
    is "failed", the store is asked to delete the SSID, which is gone if that
    returns 0, and the application is told. *)
Theorem apply_connects_to_staged flags s :
  reachable flags s ->
  wp do_apply (fun r s' => apply_outcome (s_dev s) (s_env s) r (s_dev s') (s_env s')) s.
Proof.
  intros Hr. destruct (wifi_inv_reachable _ _ Hr) as [(Hc & Hi & _) _].
  destruct s as [d w]. by apply wp_do_apply.
Qed.

(** C28: A set in a reachable state replaces the staged network and changes nothing
    else when the SSID has 1 to 32 bytes and the passphrase at most 63; any other
    is refused as invalid and changes nothing.  The network staged is exactly the
    one asked for when the channel is below 256 and the BSSID, if any, has 6 bytes,
    which the decoder sees to.  A greater channel is cut to its low 8 bits: the
    device then connects on another channel than the one asked for, or on any
    channel, and reports "ok" all the same. *)
Theorem set_stages_exactly flags c s :
  reachable flags s ->
  wp (do_set c) (fun r s' =>
    if set_accepts c
    then r = prov_status_status_ok_m_c /\
         exists c', s' = {| s_dev := set_wc_cfg (fun _ => c') (s_dev s); s_env := s_env s |} /\
           (representable (requested c) -> view c' = requested c) /\
           wr_ssid (view c') = wr_ssid (requested c) /\
           wr_pass (view c') = wr_pass (requested c) /\
           wr_channel (view c') = wr_channel (requested c) mod 256
    else r = prov_status_status_invalid_argument_m_c /\ s' = s) s.
Proof.
  intros Hr. destruct (wifi_inv_reachable _ _ Hr) as [(Hc & _) _].
  apply wp_do_set; [done|]. destruct (set_accepts c); [|done]. intros c' _ Hv.
  split; [done|]. exists c'. rewrite Hv. split; [done|]. split; [|done].
  apply staged_representable.
Qed.

(** ** Retries *)

(** A network stack with an interface, which accepts connect requests. *)
Class WifiUp (P : Platform) : Prop := {
  wifi_up_iface w : wifi_iface w <> None;
  wifi_up_connect i p w : (net_mgmt_wifi_connect i p w).1 = 0;
}.

(** A failed attempt, and the retry work item it arms. *)
Definition failed_round (status : Z) : C unit :=
  handle (EvConnectResult status) ;;; handle EvRetryWork.

(** An attempt in flight after [k] failures. *)
Definition flying (max k : Z) (ssid : list byte) (d : device) : Prop :=
  in_flight (d_wifi d) /\ conn_wf (wc_inflight (d_wifi d)) /\ connecting (d_wifi d) /\
  wc_attempts_max (d_wifi d) = max /\ wc_attempts_completed (d_wifi d) = k /\
  ssid_bytes (wc_inflight (d_wifi d)) = ssid.

Lemma wp_failed_round {WU : WifiUp P} max k ssid status s :
  flying max k ssid (s_dev s) -> status <> 0 -> 0 <= k -> k + 1 < max -> in_u32 max ->
  wp (failed_round status) (fun _ s' => flying max (k + 1) ssid (s_dev s')) s.
Proof.
  intros (H1 & H2 & H3 & H4 & H5 & H6) Hs Hk Hm H32. destruct s as [d w]. cbn [s_dev] in *.
  assert (Ha : after_failure status (d_wifi d) = (wifi_retry status (k + 1) (d_wifi d), false)).
  { unfold after_failure. rewrite H4, H5. rewrite (proj2 (Z.ltb_lt 0 max)) by lia. cbv zeta.
    rewrite u32_small by (unfold in_u32 in *; lia). by rewrite (proj2 (Z.ltb_lt (k + 1) max)). }
  apply wp_bind. cbn [handle config_mgmt_event mwhen]. apply wp_connect_failure; [done|done| |].
  2:{ by rewrite Ha. }
  intros _. rewrite Ha. cbn [fst handle]. apply wp_bind, wp_put. cbn [s_dev s_env].
  apply wp_retry; [done|done|by intros i w' _ _|].
  intros w1 [[Hno _]|(i & err & _ & E & Hno)]; exfalso; [by apply (wifi_up_iface w)|].
  apply Hno. change err with (err, w1).1. rewrite <- E. apply wifi_up_connect.
Qed.

Lemma wp_failed_rounds {WU : WifiUp P} max ssid pre : in_u32 max -> forall k s,
  flying max k ssid (s_dev s) -> (forall x, x ∈ pre -> x <> 0) -> 0 <= k ->
  k + Z.of_nat (length pre) < Z.max 1 max ->
  wp (mfor pre failed_round)
    (fun _ s' => flying max (k + Z.of_nat (length pre)) ssid (s_dev s')) s.
Proof.
  intros H32. induction pre as [|x pre IH]; intros k s Hf Hx Hk Hl; cbn [mfor length] in *.
  - apply wp_ret. by rewrite Z.add_0_r.
  - apply wp_bind. eapply wp_mono; [apply (wp_failed_round max k ssid); try done; try lia|].
    + apply Hx. by left.
    + intros [] s1 Hs1. replace (k + Z.of_nat (S (length pre)))
        with (k + 1 + Z.of_nat (length pre)) by lia.
      apply IH; [done| |lia|lia]. intros y Hy. apply Hx. by right.
Qed.

End WifiReach.

(** ** The properties at concrete inputs *)

#[export] Instance sim_wifi_up : WifiUp sim_platform.
Proof. by split. Qed.

(** A network is set and applied on the started device. *)
Definition sim_home : wifi_config :=
  {| wifi_config_ssid := str "home"; wifi_config_pass := Some (str "secret");
     wifi_config_bssid := None; wifi_config_ch := Some 6 |}.

Definition sim_staged_wifi : st := Eval vm_compute in run_state (ignore (do_set sim_home)) sim_ready.
Definition sim_flying : st := Eval vm_compute in run_state (ignore do_apply) sim_staged_wifi.

Lemma reachable_event flags e s s' :
  reachable flags s -> enabled e (s_dev s) -> handle e s = Some (tt, s') -> reachable flags s'.
Proof. intros Hr He E. eapply reach_step; [exact Hr|]. by eapply step_event. Qed.

Definition sim_inited : st := Eval vm_compute in
  run_state (handle (EvInit (Some sim_app))) sim_boot.

Lemma sim_inited_eq : handle (EvInit (Some sim_app)) sim_boot = Some (tt, sim_inited).
Proof. vm_cast_no_check (eq_refl (Some (tt, sim_inited))). Qed.

Lemma sim_ready_eq : handle EvStart sim_inited = Some (tt, sim_ready).
Proof. vm_cast_no_check (eq_refl (Some (tt, sim_ready))). Qed.

Lemma sim_ready_reachable : reachable 0 sim_ready.
Proof.
  apply (reachable_event 0 EvStart sim_inited sim_ready); [|exact I|exact sim_ready_eq].
  apply (reachable_event 0 (EvInit (Some sim_app)) sim_boot); [|exact I|exact sim_inited_eq].
  apply reach_boot.
Qed.

(** Every event of the list can happen when its turn comes. *)
Fixpoint run_enabled (es : list event) (s : st) : Prop :=
  match es with
  | [] => True
  | e :: es' => enabled e (s_dev s) /\
      match handle e s with Some (_, s') => run_enabled es' s' | None => True end
  end.

Lemma reachable_run flags es : forall s s',
  reachable flags s -> run_enabled es s -> run_events es s = Some (tt, s') -> reachable flags s'.
Proof.
  induction es as [|e es IH]; intros s s' Hr He E; cbn [run_events run_enabled] in *.
  - by injection E as <-.
  - destruct He as [He Hes]. apply mbind_inv in E as ([] & s1 & E1 & E). rewrite E1 in Hes.
    by apply (IH s1); [eapply reachable_event|..].
Qed.

(** A complete request on a path. *)
Definition sends (path : string) (r : item) : list event :=
  [EvDownlinkStart 0 path POUCH_CONTENT_TYPE_CBOR; EvDownlinkData 0 (item_bytes r) true].

(** A device without a secret is sent a set, then an apply. *)
Definition sim_set_events : list event :=
  [EvInit (Some {| cfg_pop := None; cfg_device_id := Some "device-1"%string;
                   cfg_wifi_conn_attempts := 3; cfg_event_cb := true |}); EvStart] ++
  sends POUCH_PROV_PATH_CONFIG
    (config_req_item (config_req_config_set_m {| config_set_wifi_config_m := sim_home |})).
Definition sim_set : st := Eval vm_compute in run_state (run_events sim_set_events) sim_boot.

Definition sim_apply_events : list event :=
  sends POUCH_PROV_PATH_CONFIG (config_req_item config_req_config_apply_m).
Definition sim_applied : st := Eval vm_compute in run_state (run_events sim_apply_events) sim_set.

Lemma sim_set_reachable : reachable 0 sim_set.
Proof.
  apply (reachable_run 0 sim_set_events sim_boot).
  - apply reach_boot.
  - vm_compute. repeat split.
  - vm_cast_no_check (eq_refl (Some (tt, sim_set))).
Qed.

Lemma sim_applied_reachable : reachable 0 sim_applied.
Proof.
  apply (reachable_run 0 sim_apply_events sim_set).
  - apply sim_set_reachable.
  - vm_compute. repeat split.
  - vm_cast_no_check (eq_refl (Some (tt, sim_applied))).
Qed.

(** The attempt is in flight. *)
Lemma connecting_iff_in_flight_witness :
  wifi_wf (d_wifi (s_dev sim_applied)) /\ connecting (d_wifi (s_dev sim_applied)).
Proof.
  split; [|reflexivity].
  apply (connecting_iff_in_flight 0 sim_applied). apply sim_applied_reachable.
Defined.

(** A device that is idle, and one that is connecting. *)
Lemma connect_result_effect_witness :
  (handle (EvConnectResult 0) sim_set = Some (tt, sim_set) /\
   retry_work_handler sim_set = Some (tt, sim_set)) /\
  wp (handle (EvConnectResult 0)) (fun _ s' =>
    d_wifi (s_dev s') = wifi_connected (d_wifi (s_dev sim_applied))) sim_applied.
Proof.
  split.
  - apply (connect_result_effect 0 sim_set 0); [apply sim_set_reachable|discriminate].
  - apply (connect_result_effect 0 sim_applied 0); [apply sim_applied_reachable|reflexivity].
Defined.

(** A late result: the attempt for one network is reset and another applied, then
    the first connection succeeds. *)
Definition sim_away : wifi_config :=
  {| wifi_config_ssid := str "away"; wifi_config_pass := None;
     wifi_config_bssid := None; wifi_config_ch := None |}.

Lemma sim_stale_result_taken :
  let s := run_state (pouch_prov_wifi_config_reset ;;; ignore (do_set sim_away) ;;;
                      ignore do_apply) sim_applied in
  ssid_bytes (wc_inflight (d_wifi (s_dev s))) = str "away" /\
  wc_sta_state (d_wifi (s_dev (run_state (handle (EvConnectResult 0)) s))) =
    sta_state_sta_connected_m_c.
Proof. vm_compute. by split. Qed.

(** The staged network is applied: the attempt is in flight. *)
Lemma apply_connects_to_staged_witness :
  wp do_apply (fun r s' =>
    apply_outcome (s_dev sim_set) (s_env sim_set) r (s_dev s') (s_env s')) sim_set /\
  match do_apply sim_set with
  | Some (r, s') => (r, wc_sta_state (d_wifi (s_dev s')), stored_ssids (s_env s'))
  | None => (prov_status_status_busy_m_c, sta_state_sta_failed_m_c, [])
  end = (prov_status_status_ok_m_c, sta_state_sta_connecting_m_c, [str "home"]).
Proof.
  split; [|vm_compute; reflexivity].
  apply (apply_connects_to_staged 0 sim_set). apply sim_set_reachable.
Defined.

Lemma set_stages_exactly_witness :
  wp (do_set sim_home) (fun r s' =>
    if set_accepts sim_home
    then r = prov_status_status_ok_m_c /\
         exists c', s' = {| s_dev := set_wc_cfg (fun _ => c') (s_dev sim_ready);
                            s_env := s_env sim_ready |} /\
           (representable (requested sim_home) -> view c' = requested sim_home) /\
           wr_ssid (view c') = wr_ssid (requested sim_home) /\
           wr_pass (view c') = wr_pass (requested sim_home) /\
           wr_channel (view c') = wr_channel (requested sim_home) mod 256
    else r = prov_status_status_invalid_argument_m_c /\ s' = sim_ready) sim_ready.
Proof. apply (set_stages_exactly 0 sim_home sim_ready). apply sim_ready_reachable. Defined.

(** Channel 300 is staged as 44, and 256 as any channel. *)
Definition sim_channel (ch : Z) : wifi_config :=
  {| wifi_config_ssid := str "home"; wifi_config_pass := None;
     wifi_config_bssid := None; wifi_config_ch := Some ch |}.

Lemma sim_channel_cut :
  map (fun ch => cp_channel (connect_params (wc_cfg (d_wifi (s_dev
         (run_state (ignore (do_set (sim_channel ch))) sim_set)))))) [6; 300; 256] =
  [6; 44; WIFI_CHANNEL_ANY].
Proof. vm_compute. reflexivity. Qed.

Lemma sim_flying_flying : flying 3 0 (str "home") (s_dev sim_flying).
Proof.
  unfold flying. split; [discriminate|]. split; [|done].
  unfold conn_wf. split_and!; try done; apply Nat.leb_le; done.
Qed.

