(* ===== verification/WifiStatus.v ===== *)
(** * Polling the Wi-Fi status

    What the status reply reports, and exactly when building it reads through
    the pointer that [fill_connected] leaves to a dead stack frame. *)

From S2P Require Import Prelude ProvTypes Zcbor Schema Codec Platform State Session WifiConfig.
From S2P Require Import System Instances WifiSpec WifiInv.

Section WifiStatus.
Context {KC : Kconfig} {K : Kernel} {P : Platform} {CD : Codec}.

(** The interface status names the network the station is on. *)
Definition status_readable (w : W) : Prop :=
  exists i ssid rssi w', wifi_iface w = Some i /\
    net_mgmt_wifi_iface_status i w = ((0, (ssid, rssi)), w') /\ (1 <= length ssid <= SSID_MAX)%nat.

Lemma ssid_read_spec info :
  ssid_read info = true <-> (1 <= length (connected_info_ssid info) <= SSID_MAX)%nat.
Proof. unfold ssid_read. rewrite andb_true_iff, !Nat.leb_le. done. Qed.

(** What [fill_connected] does to the pointer it returns. *)
Lemma wp_fill_connected (Q : connected_info * bool -> st -> Prop) s :
  (forall info s', status_readable (s_env s) ->
     (1 <= length (connected_info_ssid info) <= SSID_MAX)%nat -> Q (info, true) s') ->
  (forall info dangling s', ~ status_readable (s_env s) ->
     (dangling = true -> ~ (1 <= length (connected_info_ssid info) <= SSID_MAX)%nat) ->
     Q (info, dangling) s') ->
  wp fill_connected Q s.
Proof.
  intros Hbad Hok. unfold fill_connected. apply wp_bind, wp_ask, wp_bind, wp_getd.
  set (cfg := wc_cfg (d_wifi (s_dev s))).
  destruct (wifi_iface (s_env s)) as [i|] eqn:Ei.
  2:{ apply wp_bind, wp_ret. apply wp_bind, wp_ret, wp_bind, wp_getd, wp_ret. apply Hok; [|done].
      intros (j & ? & ? & ? & H & _). congruence. }
  assert (Htail : forall ssid rssi dangling s1,
    (status_readable (s_env s) -> dangling = true /\ (1 <= length ssid <= SSID_MAX)%nat) ->
    (~ status_readable (s_env s) -> dangling = true -> ~ (1 <= length ssid <= SSID_MAX)%nat) ->
    wp (addr <- ask (net_if_ipv4_get_global_addr i) ;;
        match addr with Some a => put (set_ip4 (take 4 a)) | None => mret tt end)
      (fun _ => wp (ip4 <- get (fun d => wc_ip4 (d_wifi d)) ;;
        mret ({| connected_info_ip4 := ip4; connected_info_ssid := ssid;
                 connected_info_rssi := rssi |}, dangling)) Q) s1).
  { intros ssid rssi dangling s1 H1 H2. apply wp_bind, wp_ask.
    assert (Hend : forall s2, wp (ip4 <- get (fun d => wc_ip4 (d_wifi d)) ;;
        mret ({| connected_info_ip4 := ip4; connected_info_ssid := ssid;
                 connected_info_rssi := rssi |}, dangling)) Q s2).
    { intros s2. apply wp_bind, wp_getd, wp_ret.
      assert (Hdec : status_readable (s_env s) \/ ~ status_readable (s_env s)).
      { unfold status_readable. rewrite Ei.
        destruct (net_mgmt_wifi_iface_status i (s_env s)) as [[e [x r]] w'] eqn:E.
        destruct (decide (e = 0 /\ (1 <= length x <= SSID_MAX)%nat)) as [[-> Hl]|Hn].
        - left. by exists i, x, r, w'.
        - right. intros (j & x' & r' & w2 & [= <-] & E2 & Hl). rewrite E in E2. simplify_eq.
          by destruct Hn. }
      destruct Hdec as [Hr|Hr].
      - destruct (H1 Hr) as [-> Hl]. by apply Hbad.
      - apply Hok; [done|]. cbn. by apply H2. }
    destruct (net_if_ipv4_get_global_addr i (s_env s1)); [by apply wp_put|by apply wp_ret]. }
  apply wp_bind, wp_bind, wp_call. intros [err [x r]] w1 E. apply wp_ret.
  destruct (err =? 0) eqn:Ee; zbool; apply wp_bind.
  - subst err. apply Htail.
    + intros (j & x' & r' & w2 & Hj & E2 & Hl). rewrite Ei in Hj. simplify_eq. rewrite E in E2.
      by simplify_eq.
    + intros Hn _ Hl. apply Hn. by exists i, x, r, w1.
  - apply Htail; [|done]. intros (j & x' & r' & w2 & Hj & E2 & Hl). rewrite Ei in Hj. simplify_eq.
    rewrite E in E2. by simplify_eq.
Qed.

(** A connected station whose interface status can be read: the encoder follows
    the dead pointer. *)
Lemma status_undefined n s :
  wc_sta_state (d_wifi (s_dev s)) = sta_state_sta_connected_m_c -> status_readable (s_env s) ->
  encode_status n s = None.
Proof.
  intros Hst Hr. unfold encode_status, mbind, get, mget, status_detail. rewrite Hst.
  assert (Hw : wp fill_connected (fun p _ => p.2 = true /\ ssid_read p.1 = true) s).
  { apply wp_fill_connected; [|done]. intros info s' _ Hl. split; [done|]. by apply ssid_read_spec. }
  unfold wp in Hw. unfold mbind. destruct (fill_connected s) as [[[info dangling] s1]|]; [|done].
  cbn [fst snd] in Hw. by destruct Hw as [-> ->].
Qed.

(** C30: Building the status reply is undefined exactly when the station is reported
    connected and the interface status can be read and names an SSID of 1 to 32
    bytes: the SSID pointer in the reply then points into the frame of
    [fill_connected], which has returned when the encoder reads it.  In every
    other state the reply is built without undefined behaviour. *)
Theorem status_undefined_iff n s :
  encode_status n s = None <->
  wc_sta_state (d_wifi (s_dev s)) = sta_state_sta_connected_m_c /\ status_readable (s_env s).
Proof.
  split.
  - intros E. unfold encode_status, mbind, get, mget, status_detail in E.
    destruct (wc_sta_state (d_wifi (s_dev s))); [|done..]. split; [done|].
    unfold mbind at 1 in E.
    destruct (fill_connected s) as [[[info dangling] s1]|] eqn:Ef.
    + pose proof (wp_run _ (fun p _ => status_readable (s_env s) \/
        (p.2 = true -> ~ (1 <= length (connected_info_ssid p.1) <= SSID_MAX)%nat)) _ _ _ Ef) as H.
      destruct H as [H|H]; [|done|].
      { apply wp_fill_connected; [by left|by right]. }
      destruct dangling; [|done]. cbn [fst snd andb] in *.
      assert (ssid_read info = false) as Hs.
      { apply not_true_iff_false. rewrite ssid_read_spec. by apply H. }
      rewrite Hs in E. done.
    + assert (Hw : wp fill_connected (fun _ _ => True) s) by (by apply wp_fill_connected).
      unfold wp in Hw. by rewrite Ef in Hw.
  - intros [Hst Hr]. by apply status_undefined.
Qed.

(** While the station is not reported connected, a status request changes
    nothing and its reply is the schema's status message: the state, with the
    reason of the last final failure when it is "failed". *)
Theorem status_reports_state {CL : CodecEncLaws CD} n s :
  wc_sta_state (d_wifi (s_dev s)) <> sta_state_sta_connected_m_c -> (5 <= n)%nat ->
  let w := d_wifi (s_dev s) in
  encode_status n s =
    Some (HOk (item_bytes (IArr ([IUint 0; IUint 0; IUint (sta_state_val (wc_sta_state w))] ++
            match wc_sta_state w with
            | sta_state_sta_failed_m_c => [IUint (fail_reason_val (wc_fail_reason w))]
            | _ => []
            end))), s).
Proof.
  intros Hn H5. cbn zeta. unfold encode_status, mbind, get, mget, status_detail.
  destruct (wc_sta_state (d_wifi (s_dev s))) eqn:E; try done; unfold mret;
    rewrite encode_config_rsp_law by (intros d [= <-] || intros d; done);
    do 2 f_equal; cbn -[item_bytes]; rewrite fit_some; try done.
  all: destruct (wc_fail_reason (d_wifi (s_dev s))); vm_compute; lia.
Qed.
End WifiStatus.

(** ** The properties at concrete inputs *)

Lemma status_reports_state_witness :
  let w := d_wifi (s_dev sim_flying) in
  encode_status 384 sim_flying =
    Some (HOk (item_bytes (IArr ([IUint 0; IUint 0; IUint (sta_state_val (wc_sta_state w))] ++
            match wc_sta_state w with
            | sta_state_sta_failed_m_c => [IUint (fail_reason_val (wc_fail_reason w))]
            | _ => []
            end))), sim_flying).
Proof.
  apply (status_reports_state 384 sim_flying); [discriminate|]. apply Nat.leb_le. reflexivity.
Defined.
