(* ===== verification/ScanSpec.v ===== *)
(** * The scan endpoint's contract

    The cache holds the first results of a scan in the order they came, a page
    is a window of the cache, and how many entries of a page fit a reply. *)

From S2P Require Import Prelude ProvTypes Zcbor Schema Codec Platform State Session WifiScan.
From S2P Require Import System Instances.

(** ** Abstract view *)

(** What a scan result is reported as. *)
Definition result_view (r : wifi_scan_result) : scan_entry :=
  {| scan_entry_ssid := take (Nat.min (sr_ssid_length r) WIFI_SSID_MAX_LEN) (sr_ssid r);
     scan_entry_bssid := sr_mac r;
     scan_entry_ch := u8 (sr_channel r);
     scan_entry_rssi := sr_rssi r;
     scan_entry_auth := u32 (sr_security r) |}.

(** The window a page request asks for. *)
Definition page {A} (start want : Z) (l : list A) : list A :=
  take (Z.to_nat (Z.min want (Z.of_nat PAGE_MAX))) (drop (Z.to_nat start) l).

Lemma take_app_take {A} n (a b : list A) : take n (take n a ++ b) = take n (a ++ b).
Proof.
  rewrite !take_app, take_take, Nat.min_id, length_take. f_equal.
  destruct (decide (length a <= n)%nat).
  - by replace (n - n `min` length a)%nat with (n - length a)%nat by lia.
  - replace (n - n `min` length a)%nat with 0%nat by lia.
    by replace (n - length a)%nat with 0%nat by lia.
Qed.

Section ScanSpec.
Context {KC : Kconfig} {K : Kernel} {P : Platform} {CD : Codec}.

Definition entry_wf (e : ap_entry) : Prop :=
  length (ap_ssid e) = WIFI_SSID_MAX_LEN /\ (ap_ssid_len e <= WIFI_SSID_MAX_LEN)%nat /\
  length (ap_bssid e) = WIFI_MAC_ADDR_LEN /\ in_u8 (ap_channel e) /\
  -128 <= ap_rssi e < 128 /\ in_u32 (ap_auth e).

Definition scan_wf (s : scan_t) : Prop :=
  length (sc_entries s) = SCAN_MAX /\ (sc_count s <= SCAN_MAX)%nat /\
  (forall e, e ∈ sc_entries s -> entry_wf e).

(** The entries reported, in the order of the results. *)
Definition cached (s : scan_t) : list scan_entry :=
  map scan_entry_of (take (sc_count s) (sc_entries s)).

Lemma scan_wf_init : scan_wf scan_init.
Proof.
  split_and!; [apply length_replicate|cbn; lia|].
  intros e [-> _]%elem_of_replicate. unfold entry_wf. split_and!; try done; cbn;
    unfold in_u8, in_u32; try lia; apply Nat.leb_le; done.
Qed.

Lemma u32_range z : in_u32 (u32 z).
Proof. unfold in_u32, u32, uwrap. pose proof (Z.mod_pos_bound z (2 ^ 32)). lia. Qed.

Lemma entry_of_result_wf r e : result_typed r -> entry_wf e -> entry_wf (entry_of_result r e).
Proof.
  intros (H1 & H2 & H3) (G1 & G2 & G3 & G4 & G5 & G6). unfold entry_wf, entry_of_result.
  cbn [ap_ssid ap_ssid_len ap_bssid ap_channel ap_rssi ap_auth].
  rewrite length_buf_write by (rewrite length_take; lia).
  pose proof (u8_range (sr_channel r)). pose proof (u32_range (sr_security r)).
  unfold in_u8, in_u32 in *. split_and!; try done; lia.
Qed.

Lemma entry_of_result_view r e :
  result_typed r -> entry_wf e -> scan_entry_of (entry_of_result r e) = result_view r.
Proof.
  intros (H1 & H2 & H3) (G1 & _). unfold scan_entry_of, result_view, entry_of_result.
  cbn [ap_ssid ap_ssid_len ap_bssid ap_channel ap_rssi ap_auth]. f_equal.
  - set (n := Nat.min (sr_ssid_length r) WIFI_SSID_MAX_LEN).
    assert (Hn : length (take n (sr_ssid r)) = n) by (rewrite length_take; unfold n; lia).
    rewrite <- Hn at 1. apply take_buf_write_0. rewrite Hn. unfold n. lia.
  - apply take_ge. lia.
Qed.

(** ** Collecting *)

Definition with_scan (sc : scan_t) (s : st) : st :=
  {| s_dev := set_scan (fun _ => sc) (s_dev s); s_env := s_env s |}.

Lemma wp_on_result r (Q : unit -> st -> Prop) s :
  scan_wf (d_scan (s_dev s)) -> result_typed r ->
  (forall sc, scan_wf sc -> sc_finished sc = sc_finished (d_scan (s_dev s)) ->
     cached sc = take SCAN_MAX (cached (d_scan (s_dev s)) ++ [result_view r]) ->
     Q tt (with_scan sc s)) ->
  wp (on_result r) Q s.
Proof.
  intros (H1 & H2 & H3) Hr HQ. unfold on_result. apply wp_bind, wp_getd.
  set (sc := d_scan (s_dev s)) in *.
  assert (Hlen : length (cached sc) = sc_count sc).
  { unfold cached. rewrite length_map, length_take. lia. }
  destruct (SCAN_MAX <=? sc_count sc)%nat eqn:E; zbool.
  - apply wp_ret. replace s with (with_scan sc s) by (by destruct s as [[] ?]). apply HQ; [done|done|].
    rewrite take_app_le by lia. rewrite take_ge by lia. done.
  - apply wp_bind, wp_getd. fold sc.
    destruct (lookup_lt_is_Some_2 (sc_entries sc) (sc_count sc)) as [e He]; [lia|]. rewrite He.
    assert (Hwe : entry_wf e) by (apply H3; by eapply list_elem_of_lookup_2).
    apply wp_bind, wp_put, wp_put. cbn [s_dev s_env].
    apply (HQ {| sc_entries := <[sc_count sc := entry_of_result r e]> (sc_entries sc);
                 sc_count := S (sc_count sc); sc_finished := sc_finished sc;
                 sc_cb_registered := sc_cb_registered sc |}); [|done|].
    + split_and!; cbn; [by rewrite length_insert|lia|].
      intros x Hx. apply list_elem_of_lookup in Hx as [j Hj].
      destruct (decide (sc_count sc = j)) as [<-|Hne].
      * rewrite list_lookup_insert_eq in Hj by lia. simplify_eq. by apply entry_of_result_wf.
      * rewrite list_lookup_insert_ne in Hj by done. apply H3. by eapply list_elem_of_lookup_2.
    + unfold cached. cbn [sc_count sc_entries].
      rewrite (take_S_r _ _ (entry_of_result r e)) by (apply list_lookup_insert_eq; lia).
      rewrite take_insert_ge, map_app by lia. cbn [map]. rewrite entry_of_result_view by done.
      fold (cached sc). rewrite take_ge; [done|]. rewrite length_app, Hlen. cbn. lia.
Qed.

Lemma wp_results rs : forall (Q : unit -> st -> Prop) s,
  scan_wf (d_scan (s_dev s)) -> (forall r, r ∈ rs -> result_typed r) ->
  (forall sc, scan_wf sc -> sc_finished sc = sc_finished (d_scan (s_dev s)) ->
     cached sc = take SCAN_MAX (cached (d_scan (s_dev s)) ++ map result_view rs) ->
     Q tt (with_scan sc s)) ->
  wp (mfor rs on_result) Q s.
Proof.
  induction rs as [|r rs IH]; intros Q s Hs Ht HQ; cbn [mfor map] in *.
  - apply wp_ret. replace s with (with_scan (d_scan (s_dev s)) s) by (by destruct s as [[] ?]).
    apply HQ; [done|done|]. rewrite app_nil_r, take_ge; [done|].
    destruct Hs as (H1 & H2 & _). unfold cached. rewrite length_map, length_take. lia.
  - apply wp_bind, wp_on_result; [done|apply Ht; by left|]. intros sc Hsc Hf Hc.
    apply IH; [done|intros r' Hr'; apply Ht; by right|]. intros sc' Hsc' Hf' Hc'.
    apply (HQ sc'); [done|by rewrite Hf'|].
    rewrite Hc'. cbn [s_dev with_scan set_scan d_scan]. rewrite Hc.
    rewrite (app_assoc _ [result_view r] (map result_view rs)). apply take_app_take.
Qed.

(** ** Paging *)

(** The loop copies the window that is left. *)
Lemma page_loop_window fuel entries count want : forall i n,
  (count <= length entries)%nat -> Z.of_nat count < 4294967296 -> in_u32 i ->
  (PAGE_MAX < fuel + n)%nat ->
  page_loop fuel entries count i want n =
  Some (map scan_entry_of
    (take (Z.to_nat (Z.min want (Z.of_nat PAGE_MAX)) - n) (drop (Z.to_nat i) (take count entries)))).
Proof.
  induction fuel as [|fuel IH]; intros i n Hc H32 Hi Hf; cbn [page_loop].
  - replace (Z.to_nat (Z.min want (Z.of_nat PAGE_MAX)) - n)%nat with 0%nat by lia. done.
  - unfold in_u32 in Hi.
    destruct ((i <? Z.of_nat count) && (Z.of_nat n <? want) && (n <? PAGE_MAX)%nat) eqn:E.
    + zbool. destruct (lookup_lt_is_Some_2 entries (Z.to_nat i)) as [e He]; [lia|]. rewrite He.
      rewrite u32_small by (unfold in_u32; lia).
      rewrite IH by (unfold in_u32; lia).
      assert (Hd : drop (Z.to_nat i) (take count entries) =
                   e :: drop (S (Z.to_nat i)) (take count entries)).
      { apply drop_S. rewrite lookup_take_lt by lia. done. }
      rewrite Hd. replace (Z.to_nat (i + 1)) with (S (Z.to_nat i)) by lia.
      destruct (Z.to_nat (Z.min want (Z.of_nat PAGE_MAX)) - n)%nat as [|m] eqn:Em; [lia|].
      replace (Z.to_nat (Z.min want (Z.of_nat PAGE_MAX)) - S n)%nat with m by lia. done.
    + do 2 f_equal. rewrite !andb_false_iff in E. destruct E as [[E|E]|E]; zbool.
      * rewrite drop_ge by (rewrite length_take; lia). by rewrite take_nil.
      * replace (Z.to_nat (Z.min want (Z.of_nat PAGE_MAX)) - n)%nat with 0%nat by lia. done.
      * replace (Z.to_nat (Z.min want (Z.of_nat PAGE_MAX)) - n)%nat with 0%nat by lia. done.
Qed.

(** The results reply as the schema has it. *)
Definition page_rsp (l : list scan_entry) : item :=
  IArr [IUint 2; IUint 0; IArr (map scan_entry_item l)].

(** What is cached is a valid entry of the reply. *)
Lemma cached_entry_ok s e : scan_wf s -> e ∈ cached s -> scan_entry_ok e.
Proof.
  intros (H1 & H2 & H3) (x & -> & Hx)%list_elem_of_fmap.
  assert (He : x ∈ sc_entries s) by by apply (subseteq_take (sc_count s)).
  destruct (H3 x He) as (G1 & G2 & G3 & G4 & G5 & G6). unfold in_u8, in_u32 in G4, G6.
  unfold scan_entry_ok, scan_entry_of, in_u32, in_i32. cbn.
  rewrite !length_take. unfold WIFI_MAC_ADDR_LEN, WIFI_SSID_MAX_LEN in *.
  split_and!; try done; lia.
Qed.

Lemma page_elem (start want : Z) l (e : scan_entry) : e ∈ page start want l -> e ∈ l.
Proof.
  unfold page. intros (j & Hj & _)%elem_of_take. rewrite lookup_drop in Hj.
  by eapply list_elem_of_lookup_2.
Qed.

Definition page_msg (l : list scan_entry) : scan_rsp_r :=
  scan_rsp_scan_results_rsp_m {|
    scan_results_rsp_prov_status_m := prov_status_status_ok_m_c;
    scan_results_rsp_scan_entry_m_l_scan_entry_m := l |}.

Lemma page_msg_ok start want s :
  scan_wf s -> scan_rsp_ok (page_msg (page start want (cached s))).
Proof.
  intros Hs. cbn. split.
  - unfold page. rewrite length_take. unfold PAGE_MAX. lia.
  - intros e He. eapply cached_entry_ok; [done|]. by eapply page_elem.
Qed.

Lemma encode_results_msg start want n s :
  scan_wf (d_scan (s_dev s)) -> Z.of_nat SCAN_MAX < 4294967296 -> in_u32 start ->
  encode_results start want n s =
  Some (enc_result (cbor_encode_scan_rsp n (page_msg (page start want (cached (d_scan (s_dev s)))))), s).
Proof.
  intros (H1 & H2 & H3) H32 Hi. unfold encode_results, mbind, get, mget.
  rewrite page_loop_window by (try done; unfold PAGE_MAX; lia).
  rewrite Nat.sub_0_r. unfold mret. do 3 f_equal. unfold page, cached, page_msg.
  by rewrite skipn_map, firstn_map.
Qed.

Lemma encode_results_eq {CL : CodecEncLaws CD} start want n s :
  scan_wf (d_scan (s_dev s)) -> Z.of_nat SCAN_MAX < 4294967296 -> in_u32 start ->
  encode_results start want n s =
  Some (enc_result (fit n (item_bytes (page_rsp (page start want (cached (d_scan (s_dev s))))))), s).
Proof.
  intros Hs H32 Hi. rewrite encode_results_msg by done.
  by rewrite encode_scan_rsp_law by by apply page_msg_ok.
Qed.

(** ** How much fits a reply *)

Lemma length_head_small mt n : n < 256 -> (length (cbor_head mt n) <= 2)%nat.
Proof.
  intros H. unfold cbor_head. rewrite (proj2 (Z.ltb_lt n 256)) by done.
  destruct (_ <? _); cbn; lia.
Qed.

(** The part of an entry whose size does not vary. *)
Lemma entry_len e :
  length (item_bytes (scan_entry_item e)) =
  (25 + length (item_bytes (IBstr (scan_entry_ssid e))) +
   length (item_bytes (IBstr (scan_entry_bssid e))) + length (item_bytes (IUint (scan_entry_ch e))) +
   length (item_bytes (IInt (scan_entry_rssi e))) + length (item_bytes (IUint (scan_entry_auth e))))%nat.
Proof.
  unfold scan_entry_item, kv. cbn -[cbor_head Z.of_nat IInt Nat.add]. rewrite !length_app.
  change (length (cbor_head 5 (Z.of_nat 5))) with 1%nat.
  change (length (cbor_head 3 (Z.of_nat 4))) with 1%nat.
  change (length (cbor_head 3 (Z.of_nat 5))) with 1%nat.
  change (length (cbor_head 3 (Z.of_nat 2))) with 1%nat.
  cbn [length]. lia.
Qed.

Lemma bstr_len b : (length b <= 32)%nat ->
  (1 + length b <= length (item_bytes (IBstr b)) <= 2 + length b)%nat.
Proof.
  intros H. cbn [item_bytes]. rewrite length_app. pose proof (length_head 2 (Z.of_nat (length b))).
  pose proof (length_head_small 2 (Z.of_nat (length b)) ltac:(lia)). lia.
Qed.

Lemma rssi_len z : -128 <= z < 128 -> (1 <= length (item_bytes (IInt z)) <= 2)%nat.
Proof.
  intros H. unfold IInt. destruct (z <? 0) eqn:E; zbool; cbn [item_bytes].
  - pose proof (length_head 1 (-1 - z)). pose proof (length_head_small 1 (-1 - z) ltac:(lia)). lia.
  - pose proof (length_head 0 z). pose proof (length_head_small 0 z ltac:(lia)). lia.
Qed.

Lemma bstr_len_short b : (length b < 24)%nat -> length (item_bytes (IBstr b)) = (1 + length b)%nat.
Proof.
  intros H. cbn [item_bytes]. rewrite length_app. unfold cbor_head.
  by rewrite (proj2 (Z.ltb_lt _ 24)) by lia.
Qed.

(** A reported entry's types. *)
Definition view_ok (e : scan_entry) : Prop :=
  (length (scan_entry_ssid e) <= 32)%nat /\ length (scan_entry_bssid e) = 6%nat /\
  in_u8 (scan_entry_ch e) /\ -128 <= scan_entry_rssi e < 128.

Lemma cached_ok s e : scan_wf s -> e ∈ cached s -> view_ok e.
Proof.
  intros (H1 & H2 & H3) (x & -> & Hx)%list_elem_of_fmap.
  assert (He : x ∈ sc_entries s) by by apply (subseteq_take (sc_count s)).
  destruct (H3 x He) as (G1 & G2 & G3 & G4 & G5 & G6).
  unfold view_ok, scan_entry_of, WIFI_MAC_ADDR_LEN, WIFI_SSID_MAX_LEN in *. cbn.
  rewrite !length_take. split_and!; try done; try lia; apply G4.
Qed.

(** An entry takes up to 41 bytes besides its SSID. *)
Lemma entry_bounds e :
  view_ok e ->
  (length (item_bytes (scan_entry_item e)) <= 75)%nat /\
  (length (scan_entry_ssid e) = 32%nat -> (69 <= length (item_bytes (scan_entry_item e)))%nat) /\
  ((length (scan_entry_ssid e) <= 21)%nat -> (length (item_bytes (scan_entry_item e)) <= 63)%nat).
Proof.
  intros (H1 & H2 & H3 & H4). rewrite entry_len. unfold in_u8 in H3.
  pose proof (bstr_len (scan_entry_ssid e) H1) as B1.
  pose proof (bstr_len_short (scan_entry_ssid e)) as B1'.
  pose proof (rssi_len _ H4) as B3.
  assert (B2 : length (item_bytes (IBstr (scan_entry_bssid e))) = 7%nat)
    by (cbn [item_bytes]; rewrite length_app, H2; done).
  cbn [item_bytes] in *. pose proof (length_head 0 (scan_entry_auth e)).
  pose proof (length_head 0 (scan_entry_ch e)).
  pose proof (length_head_small 0 (scan_entry_ch e) ltac:(lia)).
  rewrite B2. split; [lia|]. split; [|intros H21; specialize (B1' ltac:(lia)); lia].
  intros H32. rewrite length_app, H32.
  change (length (cbor_head 2 (Z.of_nat 32))) with 2%nat. lia.
Qed.

Lemma page_rsp_len l : (length l <= 6)%nat ->
  length (item_bytes (page_rsp l)) =
  (4 + sum_list (map (fun e => length (item_bytes (scan_entry_item e))) l))%nat.
Proof.
  intros Hl.
  assert (Hc : length (concat (map item_bytes (map scan_entry_item l))) =
               sum_list (map (fun e => length (item_bytes (scan_entry_item e))) l)).
  { clear. induction l as [|e l IH]; [done|]. cbn -[scan_entry_item item_bytes].
    by rewrite length_app, IH. }
  assert (H1 : length (cbor_head 4 (Z.of_nat (length l))) = 1%nat)
    by (unfold cbor_head; by rewrite (proj2 (Z.ltb_lt _ _)) by lia).
  change (item_bytes (page_rsp l)) with
    (cbor_head 4 3 ++ cbor_head 0 2 ++ cbor_head 0 0 ++
     (cbor_head 4 (Z.of_nat (length (map scan_entry_item l))) ++
      concat (map item_bytes (map scan_entry_item l))) ++ []).
  rewrite !length_app, length_map, H1, Hc. cbn [length].
  change (length (cbor_head 4 3)) with 1%nat. change (length (cbor_head 0 2)) with 1%nat.
  change (length (cbor_head 0 0)) with 1%nat. lia.
Qed.

Lemma sum_bounds (f : scan_entry -> nat) l lo hi :
  (forall e, e ∈ l -> (lo <= f e <= hi)%nat) ->
  (lo * length l <= sum_list (map f l) <= hi * length l)%nat.
Proof.
  induction l as [|e l IH]; intros H; cbn; [lia|].
  pose proof (H e ltac:(left)). specialize (IH ltac:(intros x Hx; apply H; by right)). lia.
Qed.

(** A page of up to five entries fits a reply, and one of six when no SSID has
    more than 21 bytes. *)
Lemma page_fits l :
  (forall e, e ∈ l -> view_ok e) -> (length l <= 6)%nat ->
  (length l <= 5)%nat \/ (forall e, e ∈ l -> (length (scan_entry_ssid e) <= 21)%nat) ->
  (length (item_bytes (page_rsp l)) <= POUCH_PROV_MSG_MAX)%nat.
Proof.
  intros Hv Hl Hs. rewrite page_rsp_len by done. unfold POUCH_PROV_MSG_MAX.
  set (f := fun e => length (item_bytes (scan_entry_item e))).
  destruct Hs as [Hs|Hs].
  - pose proof (sum_bounds f l 0 75) as Hb. enough (sum_list (map f l) <= 75 * length l)%nat by lia.
    apply Hb. intros e He. split; [lia|]. by apply entry_bounds, Hv.
  - pose proof (sum_bounds f l 0 63) as Hb. enough (sum_list (map f l) <= 63 * length l)%nat by lia.
    apply Hb. intros e He. split; [lia|]. apply entry_bounds; auto.
Qed.

(** Six entries with 32-byte SSIDs do not. *)
Lemma page_too_big l :
  (forall e, e ∈ l -> view_ok e) -> length l = 6%nat ->
  (forall e, e ∈ l -> length (scan_entry_ssid e) = 32%nat) ->
  (POUCH_PROV_MSG_MAX < length (item_bytes (page_rsp l)))%nat.
Proof.
  intros Hv Hl Hs. rewrite page_rsp_len by lia. unfold POUCH_PROV_MSG_MAX.
  set (f := fun e => length (item_bytes (scan_entry_item e))).
  pose proof (sum_bounds f l 69 75) as Hb. rewrite Hl in Hb.
  enough (69 * 6 <= sum_list (map f l))%nat by lia. apply Hb.
  intros e He. destruct (entry_bounds e) as (B1 & B2 & _); [by apply Hv|]. split; [by apply B2, Hs|done].
Qed.

Lemma page_views start want s e : scan_wf s -> e ∈ page start want (cached s) -> view_ok e.
Proof. intros Hs He. eapply cached_ok; [done|]. by eapply page_elem. Qed.

(** C34: A page request returns the window of the cache that starts at [start] and
    has at most [count] and at most six entries, in the order the results came,
    encoded as the schema's results message, whenever that fits the reply, as a
    page of up to five entries always does.  It changes nothing, for every 32-bit
    [start] and [count]. *)
Theorem page_returns_window {CL : CodecEncLaws CD} start want s :
  scan_wf (d_scan (s_dev s)) -> Z.of_nat SCAN_MAX < 4294967296 -> in_u32 start ->
  let l := page start want (cached (d_scan (s_dev s))) in
  (length l <= 5 \/ length (item_bytes (page_rsp l)) <= POUCH_PROV_MSG_MAX)%nat ->
  encode_results start want POUCH_PROV_MSG_MAX s = Some (HOk (item_bytes (page_rsp l)), s).
Proof.
  intros Hs H32 Hi l Hl. rewrite encode_results_eq by done. fold l. rewrite fit_some; [done|].
  destruct Hl as [Hl|Hl]; [|done]. apply page_fits; [intros e; by apply page_views|lia|by left].
Qed.

(** The page limit of six does not keep a reply within the message size, as its
    comment says: a page of six entries with 32-byte SSIDs takes more than 384
    bytes, so the encoder fails and the client gets an internal error for as long
    as it asks for such a page. *)
Theorem full_page_overflows {CL : CodecEncLaws CD} start want s :
  scan_wf (d_scan (s_dev s)) -> Z.of_nat SCAN_MAX < 4294967296 -> in_u32 start ->
  let l := page start want (cached (d_scan (s_dev s))) in
  length l = PAGE_MAX -> (forall e, e ∈ l -> length (scan_entry_ssid e) = 32%nat) ->
  encode_results start want POUCH_PROV_MSG_MAX s = Some (HErr (- ENOMEM), s).
Proof.
  intros Hs H32 Hi l Hl Hss. rewrite encode_results_eq by done. fold l. rewrite fit_none; [done|].
  apply page_too_big; [intros e; by apply page_views|done|done].
Qed.

(** A scan that starts collects the first results, in the order they come, up to
    the size of the cache, whatever was cached before and however long the SSIDs
    say they are; the "done" event alone finishes it. *)
Theorem scan_collects rs s :
  scan_wf (d_scan (s_dev s)) -> (forall r, r ∈ rs -> result_typed r) ->
  wp do_start (fun r s1 => r = prov_status_status_ok_m_c ->
    wp (mfor rs (fun r => scan_mgmt_event (NET_EVENT_WIFI_SCAN_RESULT r))) (fun _ s2 =>
      scan_wf (d_scan (s_dev s2)) /\ sc_finished (d_scan (s_dev s2)) = false /\
      cached (d_scan (s_dev s2)) = take SCAN_MAX (map result_view rs) /\
      wp (scan_mgmt_event NET_EVENT_WIFI_SCAN_DONE) (fun _ s3 =>
        sc_finished (d_scan (s_dev s3)) = true /\
        cached (d_scan (s_dev s3)) = take SCAN_MAX (map result_view rs)) s2) s1) s.
Proof.
  intros Hs Hr. unfold do_start. apply wp_bind, wp_ask.
  destruct (scan_iface (s_env s)) as [i|]; [|by apply wp_ret].
  apply wp_bind, wp_put, wp_bind, wp_put, wp_bind, wp_call. cbn [s_dev s_env]. intros err w E.
  destruct (negb (err =? 0)); [by apply wp_bind, wp_put, wp_ret|]. apply wp_ret. intros _.
  destruct Hs as (H1 & H2 & H3). apply (wp_results rs).
  - split_and!; [exact H1|cbn; lia|exact H3].
  - done.
  - intros sc Hsc Hf Hc. cbn [with_scan s_dev s_env d_scan set_scan].
    split; [done|]. split; [exact Hf|]. split; [exact Hc|]. apply wp_put. split; [done|]. exact Hc.
Qed.
End ScanSpec.

(** ** The properties at concrete inputs *)

Definition sim_ap : wifi_scan_result :=
  {| sr_ssid := replicate 32 x61; sr_ssid_length := 32; sr_mac := replicate 6 x0a;
     sr_channel := 11; sr_rssi := -60; sr_security := 1 |}.

Lemma sim_ap_typed r : r ∈ replicate 6 sim_ap -> result_typed r.
Proof. intros [-> _]%elem_of_replicate. by split_and!. Qed.

(** Six networks with full SSIDs are in the cache. *)
Definition sim_scanned : st := Eval vm_compute in
  run_state (ignore do_start ;;;
             mfor (replicate 6 sim_ap) (fun r => scan_mgmt_event (NET_EVENT_WIFI_SCAN_RESULT r)))
    sim_ready.

Lemma sim_ready_scan_wf : scan_wf (d_scan (s_dev sim_ready)).
Proof.
  destruct (scan_wf_init) as (H1 & H2 & H3). split_and!; [done|cbn; lia|exact H3].
Qed.

(** The invariant of a concrete cache, decided. *)
Definition entry_wf_b (e : ap_entry) : bool :=
  (length (ap_ssid e) =? WIFI_SSID_MAX_LEN)%nat && (ap_ssid_len e <=? WIFI_SSID_MAX_LEN)%nat &&
  (length (ap_bssid e) =? WIFI_MAC_ADDR_LEN)%nat &&
  (0 <=? ap_channel e) && (ap_channel e <? 256) &&
  (-128 <=? ap_rssi e) && (ap_rssi e <? 128) && (0 <=? ap_auth e) && (ap_auth e <? 4294967296).

Lemma entry_wf_dec l : forallb entry_wf_b l = true -> forall e, e ∈ l -> entry_wf e.
Proof.
  intros H e He. rewrite forallb_forall in H. specialize (H e (proj1 (list_elem_of_In _ _) He)).
  unfold entry_wf_b in H. zbool. unfold entry_wf, in_u8, in_u32. by split_and!.
Qed.

Lemma sim_scanned_wf : scan_wf (d_scan (s_dev sim_scanned)).
Proof.
  split; [reflexivity|]. split; [apply Nat.leb_le; reflexivity|].
  apply entry_wf_dec. vm_compute. reflexivity.
Qed.

Lemma page_returns_window_witness :
  let l := page 4 10 (cached (d_scan (s_dev sim_scanned))) in
  encode_results 4 10 POUCH_PROV_MSG_MAX sim_scanned = Some (HOk (item_bytes (page_rsp l)), sim_scanned).
Proof.
  apply (page_returns_window 4 10 sim_scanned).
  - apply sim_scanned_wf.
  - reflexivity.
  - unfold in_u32. lia.
  - left. apply Nat.leb_le. vm_compute. reflexivity.
Defined.

Lemma full_page_overflows_witness :
  encode_results 0 6 POUCH_PROV_MSG_MAX sim_scanned = Some (HErr (- ENOMEM), sim_scanned).
Proof.
  apply (full_page_overflows 0 6 sim_scanned).
  - apply sim_scanned_wf.
  - reflexivity.
  - unfold in_u32. lia.
  - vm_compute. reflexivity.
  - intros e He.
    assert (Hall : forallb (fun e => length (scan_entry_ssid e) =? 32)%nat
      (page 0 6 (cached (d_scan (s_dev sim_scanned)))) = true) by (vm_compute; reflexivity).
    rewrite forallb_forall in Hall. apply Nat.eqb_eq, Hall. by apply list_elem_of_In.
Defined.

Lemma scan_collects_witness :
  wp do_start (fun r s1 => r = prov_status_status_ok_m_c ->
    wp (mfor (replicate 6 sim_ap) (fun r => scan_mgmt_event (NET_EVENT_WIFI_SCAN_RESULT r)))
      (fun _ s2 =>
      scan_wf (d_scan (s_dev s2)) /\ sc_finished (d_scan (s_dev s2)) = false /\
      cached (d_scan (s_dev s2)) = take SCAN_MAX (map result_view (replicate 6 sim_ap)) /\
      wp (scan_mgmt_event NET_EVENT_WIFI_SCAN_DONE) (fun _ s3 =>
        sc_finished (d_scan (s_dev s3)) = true /\
        cached (d_scan (s_dev s3)) = take SCAN_MAX (map result_view (replicate 6 sim_ap))) s2) s1)
    sim_ready.
Proof.
  apply (scan_collects (replicate 6 sim_ap) sim_ready).
  - apply sim_ready_scan_wf.
  - apply sim_ap_typed.
Defined.
