(* ===== verification/CodecSpec.v ===== *)
(** * The codec against its schema

    The generated encoders write exactly what the schema says, the generated
    decoders read it back whatever follows, and both agree with the golden
    vectors of src/tests/vectors/prov_messages.json. *)

From S2P Require Import Prelude ProvTypes Zcbor ZcborDec Schema Codec CodecZcbor ZcborRef.
From S2P Require Decode.

(** ** Golden vectors *)

Definition hex_digit (a : Ascii.ascii) : Z :=
  let n := Z.of_nat (Ascii.nat_of_ascii a) in if n <? 58 then n - 48 else n - 87.

Fixpoint hex (s : string) : list byte :=
  match s with
  | String a (String b s') => z2b (hex_digit a * 16 + hex_digit b) :: hex s'
  | _ => []
  end.

Definition ok := prov_status_status_ok_m_c.

(** [n] bytes counting up from [a]. *)
Definition count_up (a : Z) (n : nat) : list byte := map (fun i => z2b (a + Z.of_nat i)) (seq 0 n).

Definition golden_requests : list (message * string) := [
  (VerReq, "8100");
  (AuthReq (auth_req_auth_challenge_m {| auth_challenge_cli_nonce := count_up 0 16 |}),
   "820050000102030405060708090a0b0c0d0e0f");
  (AuthReq (auth_req_auth_proof_m {| auth_proof_cli_proof := count_up 0 32 |}),
   "82015820000102030405060708090a0b0c0d0e0f101112131415161718191a1b1c1d1e1f");
  (ConfigReq config_req_config_get_status_m, "8100");
  (ConfigReq (config_req_config_set_m {| config_set_wifi_config_m :=
     {| wifi_config_ssid := str "myssid"; wifi_config_pass := Some (str "hunter22");
        wifi_config_bssid := Some (hex "a1b2c3d4e5f6"); wifi_config_ch := Some 11 |} |}),
   "8201a46473736964466d797373696464706173734868756e746572323265627373696446a1b2c3d4e5f66263680b");
  (ConfigReq (config_req_config_set_m {| config_set_wifi_config_m :=
     {| wifi_config_ssid := str "open-net"; wifi_config_pass := None;
        wifi_config_bssid := None; wifi_config_ch := None |} |}),
   "8201a16473736964486f70656e2d6e6574");
  (ConfigReq config_req_config_apply_m, "8102");
  (ScanReq (scan_req_scan_start_m {| scan_start_scan_params_m :=
     {| scan_params_passive := None; scan_params_period_ms := None |} |}), "8200a0");
  (ScanReq (scan_req_scan_start_m {| scan_start_scan_params_m :=
     {| scan_params_passive := Some true; scan_params_period_ms := Some 120 |} |}),
   "8200a26770617373697665f569706572696f642d6d731878");
  (ScanReq scan_req_scan_get_status_m, "8101");
  (ScanReq (scan_req_scan_get_results_m
     {| scan_get_results_start := 4; scan_get_results_count := 6 |}), "83020406");
  (CredReq (cred_req_cred_write_m {| cred_write_cred_chunk_m :=
     {| cred_chunk_kind := cred_kind_cred_device_cert_m_c; cred_chunk_off := 0;
        cred_chunk_total := 6; cred_chunk_data := hex "30820102aabb" |} |}),
   "8200a4646b696e6400636f66660065746f74616c0664646174614630820102aabb");
  (CredReq cred_req_cred_finalize_m, "8101");
  (CredReq cred_req_cred_get_status_m, "8102");
  (CtrlReq ctrl_req_ctrl_reset_m, "8100");
  (CtrlReq ctrl_req_ctrl_reprovision_m, "8101");
  (CtrlReq ctrl_req_ctrl_end_m, "8102")]%string.

Definition golden_responses : list (message * string) := [
  (VerRsp {| ver_rsp_prov_status_m := ok; ver_rsp_ver_info_m :=
     {| ver_info_proto := 1; ver_info_caps_tstr := map str ["wifi"; "scan"; "cred"; "auth"]%string;
        ver_info_blk := 512; ver_info_lib := str "0.1.0"; ver_info_pop := Some true |} |},
   "830000a56570726f746f016463617073846477696669647363616e6463726564646175746863626c6b190200636c696265302e312e3063706f70f5");
  (AuthRsp (auth_rsp_auth_challenge_rsp_m {| auth_challenge_rsp_prov_status_m := ok;
     auth_challenge_rsp_dev_nonce := count_up 16 16; auth_challenge_rsp_dev_proof := count_up 32 32 |}),
   "84000050101112131415161718191a1b1c1d1e1f5820202122232425262728292a2b2c2d2e2f303132333435363738393a3b3c3d3e3f");
  (AuthRsp (auth_rsp_auth_proof_rsp_m {| auth_proof_rsp_prov_status_m := ok |}), "820100");
  (AuthRsp (auth_rsp_auth_proof_rsp_m
     {| auth_proof_rsp_prov_status_m := prov_status_status_unauthorized_m_c |}), "820104");
  (ConfigRsp (config_rsp_config_status_rsp_m {| config_status_rsp_prov_status_m := ok;
     config_status_rsp_sta_state_m := sta_state_sta_connecting_m_c;
     config_status_rsp_config_detail_m := None |}), "83000001");
  (ConfigRsp (config_rsp_config_status_rsp_m {| config_status_rsp_prov_status_m := ok;
     config_status_rsp_sta_state_m := sta_state_sta_failed_m_c;
     config_status_rsp_config_detail_m :=
       Some (config_detail_fail_reason_m fail_reason_fail_auth_error_m_c) |}), "8400000300");
  (ConfigRsp (config_rsp_config_status_rsp_m {| config_status_rsp_prov_status_m := ok;
     config_status_rsp_sta_state_m := sta_state_sta_connected_m_c;
     config_status_rsp_config_detail_m := Some (config_detail_connected_info_m
       {| connected_info_ip4 := hex "c0a80107"; connected_info_ssid := str "myssid";
          connected_info_rssi := Some (-41) |}) |}),
   "84000000a36369703444c0a801076473736964466d797373696464727373693828");
  (ConfigRsp (config_rsp_config_set_rsp_m {| config_set_rsp_prov_status_m := ok |}), "820100");
  (ConfigRsp (config_rsp_config_apply_rsp_m {| config_apply_rsp_prov_status_m := ok |}), "820200");
  (ScanRsp (scan_rsp_scan_start_rsp_m {| scan_start_rsp_prov_status_m := ok |}), "820000");
  (ScanRsp (scan_rsp_scan_status_rsp_m {| scan_status_rsp_prov_status_m := ok;
     scan_status_rsp_finished := true; scan_status_rsp_total := 9 |}), "840100f509");
  (ScanRsp (scan_rsp_scan_results_rsp_m {| scan_results_rsp_prov_status_m := ok;
     scan_results_rsp_scan_entry_m_l_scan_entry_m := [
       {| scan_entry_ssid := str "myssid"; scan_entry_bssid := hex "a1b2c3d4e5f6";
          scan_entry_ch := 11; scan_entry_rssi := -41; scan_entry_auth := 1 |};
       {| scan_entry_ssid := str "guest"; scan_entry_bssid := hex "0611223344ff";
          scan_entry_ch := 1; scan_entry_rssi := -73; scan_entry_auth := 0 |}] |}),
   "83020082a56473736964466d797373696465627373696446a1b2c3d4e5f66263680b64727373693828646175746801a56473736964456775657374656273736964460611223344ff6263680164727373693848646175746800");
  (CredRsp (cred_rsp_cred_write_rsp_m {| cred_write_rsp_prov_status_m := ok;
     cred_write_rsp_received := 6 |}), "83000006");
  (CredRsp (cred_rsp_cred_finalize_rsp_m {| cred_finalize_rsp_prov_status_m := ok |}), "820100");
  (CredRsp (cred_rsp_cred_status_rsp_m {| cred_status_rsp_prov_status_m := ok;
     cred_status_rsp_map := [
       {| cred_status_rsp_map_tstruint_key := str "0"; map_tstruint := 1042 |};
       {| cred_status_rsp_map_tstruint_key := str "1"; map_tstruint := 121 |}] |}),
   "830200a2613019041261311879");
  (CtrlRsp {| ctrl_rsp_ctrl_op_m := 2; ctrl_rsp_prov_status_m := ok |}, "820200")]%string.

Definition golden : list (message * string) := golden_requests ++ golden_responses.

Lemma golden_items m s : (m, s) ∈ golden -> item_bytes (message_item m) = hex s.
Proof.
  intros H. assert (Hall : Forall (fun p => item_bytes (message_item p.1) = hex p.2) golden).
  { repeat (apply Forall_cons_2; [vm_compute; reflexivity|]). apply Forall_nil_2. }
  rewrite Forall_forall in Hall. exact (Hall (m, s) H).
Qed.

(** The range conditions of a concrete message. *)
Ltac by_elements :=
  match goal with
  | H : _ ∈ _ :: _ |- _ => apply elem_of_cons in H as [->|H]
  | H : _ ∈ [] |- _ => by apply not_elem_of_nil in H
  end.

Ltac message_ranges :=
  cbn [message_ok fst];
  repeat first
    [ progress intros | progress simplify_eq | by_elements
    | match goal with |- _ /\ _ => split end
    | progress (unfold ver_rsp_ok, connected_info_ok, wifi_config_ok, scan_entry_ok,
        cred_chunk_ok, ctrl_rsp_ok, str_ok, in_u32, in_i32)
    | progress cbn [auth_req_ok auth_rsp_ok config_req_ok config_rsp_ok config_detail_ok
        scan_req_ok scan_rsp_ok cred_req_ok cred_rsp_ok config_status_rsp_config_detail_m] ];
  cbn in *; simplify_eq; repeat by_elements; cbn; first [done | lia].

Lemma golden_ok m s : (m, s) ∈ golden -> message_ok m.
Proof.
  intros H. assert (Hall : Forall (fun p => message_ok p.1) golden).
  { repeat (apply Forall_cons_2; [message_ranges|]). apply Forall_nil_2. }
  rewrite Forall_forall in Hall. exact (Hall (m, s) H).
Qed.

Section CodecSpec.
Context {ZE : ZcborEnc} {EO : ZcborEncObs ZE} {EL : ZcborEncLaws ZE EO}.
Context {ZD : ZcborDec} {DO : ZcborDecObs ZD} {DL : ZcborDecLaws ZD DO}.

(** C26: Each of the twelve generated encoders writes exactly the data item that the
    schema gives its message, with the keys in the schema's order, when that fits
    the buffer, and fails without writing past it when it does not; for every
    message within the schema's ranges. *)
Theorem encoders_implement_schema n m :
  message_ok m ->
  encode_message n m =
    (if (length (item_bytes (message_item m)) <=? n)%nat
     then Some (item_bytes (message_item m)) else None).
Proof. apply encode_message_fit. Qed.

(** C25: What an encoder wrote, the decoder of the same message reads back unchanged,
    whatever bytes follow in the payload; for all twelve messages. *)
Theorem messages_roundtrip n m b tl :
  message_ok m -> encode_message n m = Some b -> decode_like m (b ++ tl) = Some m.
Proof.
  intros Hm E. rewrite (encode_message_fit n m Hm) in E. apply fit_inv in E as [-> _].
  by apply decode_message_item.
Qed.

(** Every message of the repository's golden vectors is encoded to its vector and
    the vector decoded to the message. *)
Theorem golden_vectors m s :
  (m, s) ∈ golden ->
  encode_message 384 m = Some (hex s) /\ decode_like m (hex s) = Some m.
Proof.
  intros H. pose proof (golden_ok m s H) as Hm. rewrite <- (golden_items m s H). split.
  - rewrite encode_message_fit by done. apply fit_some. rewrite (golden_items m s H).
    assert (Hall : Forall (fun p => (length (hex p.2) <=? 384)%nat = true) golden)
      by (repeat (apply Forall_cons_2; [vm_compute; reflexivity|]); apply Forall_nil_2).
    rewrite Forall_forall in Hall. apply Nat.leb_le. exact (Hall (m, s) H).
  - rewrite <- (app_nil_r (item_bytes (message_item m))). by apply decode_message_item.
Qed.

(** C27: Whatever bytes arrive, a request that a decoder accepts is within the
    schema's ranges: nonces and proofs of 16 and 32 bytes, SSIDs of 1 to 32,
    passphrases of at most 64, BSSIDs of 6 bytes and 32-bit integers. *)
Theorem accepted_requests_in_range b :
  (forall r, Decode.cbor_decode_auth_req b = Some r -> auth_req_ok r) /\
  (forall r, Decode.cbor_decode_config_req b = Some r -> config_req_ok r) /\
  (forall r, Decode.cbor_decode_scan_req b = Some r -> scan_req_ok r) /\
  (forall r, Decode.cbor_decode_cred_req b = Some r -> cred_req_ok r).
Proof.
  pose proof (codec_zcbor_dec (ZE := ZE) (ZD := ZD)) as HC. split_and!; intros r E.
  - by apply (decode_auth_req_sound (CodecDecLaws := HC) b).
  - by apply (decode_config_req_sound (CodecDecLaws := HC) b).
  - by apply (decode_scan_req_sound (CodecDecLaws := HC) b).
  - by apply (decode_cred_req_sound (CodecDecLaws := HC) b).
Qed.
End CodecSpec.

(** ** The properties at concrete inputs, on the reference zcbor *)

Definition sim_msg : message :=
  ConfigReq (config_req_config_set_m {| config_set_wifi_config_m :=
     {| wifi_config_ssid := str "open-net"; wifi_config_pass := None;
        wifi_config_bssid := None; wifi_config_ch := None |} |}).

Lemma sim_msg_golden : (sim_msg, "8201a16473736964486f70656e2d6e6574"%string) ∈ golden.
Proof. unfold golden, golden_requests. do 5 right. left. Qed.

Lemma encoders_implement_schema_witness :
  encode_message (ZE := ref_enc) 384 sim_msg =
    (if (length (item_bytes (message_item sim_msg)) <=? 384)%nat
     then Some (item_bytes (message_item sim_msg)) else None).
Proof.
  apply (encoders_implement_schema (ZE := ref_enc) 384 sim_msg).
  exact (golden_ok _ _ sim_msg_golden).
Defined.

Lemma messages_roundtrip_witness :
  decode_like (ZD := ref_dec) sim_msg (hex "8201a16473736964486f70656e2d6e6574" ++ [xff]) =
    Some sim_msg.
Proof.
  apply (messages_roundtrip (ZE := ref_enc) (ZD := ref_dec) 384 sim_msg).
  - exact (golden_ok _ _ sim_msg_golden).
  - vm_compute. reflexivity.
Defined.

Lemma golden_vectors_witness :
  encode_message (ZE := ref_enc) 384 sim_msg =
    Some (hex "8201a16473736964486f70656e2d6e6574") /\
  decode_like (ZD := ref_dec) sim_msg (hex "8201a16473736964486f70656e2d6e6574") = Some sim_msg.
Proof. apply (golden_vectors (ZE := ref_enc) (ZD := ref_dec)). exact sim_msg_golden. Defined.

Lemma accepted_requests_in_range_witness :
  let b := hex "8201a16473736964486f70656e2d6e6574" in
  (forall r, Decode.cbor_decode_auth_req (ZD := ref_dec) b = Some r -> auth_req_ok r) /\
  (forall r, Decode.cbor_decode_config_req (ZD := ref_dec) b = Some r -> config_req_ok r) /\
  (forall r, Decode.cbor_decode_scan_req (ZD := ref_dec) b = Some r -> scan_req_ok r) /\
  (forall r, Decode.cbor_decode_cred_req (ZD := ref_dec) b = Some r -> cred_req_ok r).
Proof.
  apply (accepted_requests_in_range (ZE := ref_enc) (ZD := ref_dec)
           (hex "8201a16473736964486f70656e2d6e6574")).
Defined.

(** The generated decoders refuse a map with a key the schema does not name:
    [{"ssid": 'a'}] is accepted, [{"ssid": 'a', "x": 0}] is not. *)
Example unknown_key_refused :
  Decode.cbor_decode_config_req (ZD := ref_dec) (hex "8201a164737369644161") =
    Some (config_req_config_set_m {| config_set_wifi_config_m :=
      {| wifi_config_ssid := str "a"; wifi_config_pass := None; wifi_config_bssid := None;
         wifi_config_ch := None |} |}) /\
  Decode.cbor_decode_config_req (ZD := ref_dec) (hex "8201a264737369644161617800") = None.
Proof. split; vm_compute; reflexivity. Qed.
