(* ===== verification/Lifecycle.v ===== *)
(** * Sessions from start to stop

    The response queue's flush, what start, stop, disconnect and the end request
    leave, and the wait for the end of provisioning. *)

From S2P Require Import Prelude ProvTypes Zcbor Schema Codec Platform State Frame Rpc Session.
From S2P Require Import Auth CredStore CredHandler WifiScan WifiConfig Version Adv Identity Manager.
From S2P Require Import Ctrl Dispatch System Frames Instances DispatchSpec AuthSpec CredSpec.
From S2P Require Import CredPersist WifiSpec WifiInv.

Section Lifecycle.
Context {KC : Kconfig} {K : Kernel} {P : Platform} {CD : Codec}.

(** ** Flushing *)

(** The uplink entries of the responses, written in order, each freed. *)
Definition write_all (l : list rpc_rsp) (w : W) : W :=
  fold_left (fun w r =>
    k_free (pouch_uplink_entry_write (rsp_path r) POUCH_CONTENT_TYPE_CBOR (rsp_msg r) w).2) l w.

Lemma write_all_snoc l r w :
  write_all (l ++ [r]) w =
  k_free (pouch_uplink_entry_write (rsp_path r) POUCH_CONTENT_TYPE_CBOR (rsp_msg r)
            (write_all l w)).2.
Proof. unfold write_all. by rewrite fold_left_app. Qed.

Lemma wp_drain_writes (Q : unit -> st -> Prop) s :
  (forall d', same_but_rpc (s_dev s) d' -> queued d' = [] ->
     Q tt {| s_dev := d'; s_env := write_all (queued (s_dev s)) (s_env s) |}) ->
  wp (drain_all uplink_write) Q s.
Proof.
  intros HQ. eapply wp_mono.
  - apply (drain_all_exhausts (fun l s' => same_but_rpc (s_dev s) (s_dev s') /\
                                 s_env s' = write_all l (s_env s))).
    + intros l rsp s' [H1 H2]. unfold uplink_write. apply wp_bind, wp_call. intros err w E.
      apply wp_ret. cbn [s_dev s_env]. split; [done|]. split; [done|].
      by rewrite write_all_snoc, <- H2, E.
    + intros l s' q [H1 H2]. cbn. split; [|done].
      eapply same_but_rpc_trans; [done|apply same_but_rpc_set].
    + split; [apply same_but_rpc_refl|done].
  - intros [] [d' w'] [Hq [Hs Hw]]. cbn [s_dev s_env] in *. rewrite Hw. by apply HQ.
Qed.

(** C18: Flushing into an uplink pouch writes every queued response as one entry on
    its path, oldest first, frees it and leaves the queue empty, a failed write
    notwithstanding; on an empty queue it first waits, and then writes all that
    other threads have queued meanwhile. *)
Theorem flush_writes_all others s s0 :
  (if decide (queued (s_dev s) = []) then others s = Some (tt, s0) else s0 = s) ->
  wp (rpc_uplink_flush others) (fun _ s' =>
    s_env s' = write_all (queued (s_dev s0)) (s_env s0) /\
    queued (s_dev s') = [] /\ same_but_rpc (s_dev s0) (s_dev s')) s.
Proof.
  intros H. unfold rpc_uplink_flush. apply wp_bind, wp_getd.
  destruct (k_fifo_is_empty (rp_fifo (d_rpc (s_dev s)))) eqn:E.
  - apply fifo_is_empty_spec in E. rewrite decide_True in H by done.
    apply wp_bind. cbn [mwhen]. apply wp_bind. unfold wp at 1. rewrite H.
    apply wp_bind, wp_getd, wp_put. apply wp_drain_writes.
    intros d' Hd Hq. cbn [s_dev s_env] in *. split_and!; [done|done|].
    eapply same_but_rpc_trans; [apply same_but_rpc_set|exact Hd].
  - rewrite decide_False in H.
    2:{ intros Hq. apply fifo_is_empty_spec in Hq. congruence. }
    subst s0. apply wp_bind, wp_ret, wp_drain_writes. intros d' Hd Hq. by split_and!.
Qed.

(** ** The session *)

(** No request is being assembled, nothing is authorized, no challenge is
    outstanding and no response is queued. *)
Definition session_closed (d : device) : Prop :=
  act_endpoint (d_active d) = None /\ d_authorized d = false /\ queued d = [] /\
  (CONFIG_POUCH_PROV_AUTH = true -> d_auth d = auth_zero).

(** Everything but the session. *)
Definition not_session (d : device) :=
  (d_scan d, d_wifi d, d_blobs d, d_ident d, d_adv d, d_mgr d).

Lemma wp_end_session (Q : unit -> st -> Prop) s :
  (forall d' w', session_closed d' -> not_session d' = not_session (s_dev s) ->
     Q tt {| s_dev := d'; s_env := w' |}) ->
  wp (pouch_prov_dispatch_reset ;;; pouch_prov_rpc_reset) Q s.
Proof.
  intros H. apply wp_bind, wp_dispatch_reset, wp_rpc_reset. cbn [s_dev s_env].
  intros d' w' Hs Hq _. apply H.
  - rewrite Hs. unfold session_closed, after_dispatch_reset. cbn.
    destruct CONFIG_POUCH_PROV_AUTH; split_and!; done.
  - rewrite Hs. unfold after_dispatch_reset. by destruct CONFIG_POUCH_PROV_AUTH.
Qed.

(** When the Bluetooth connection ends, for whatever reason, the session is over:
    authorization, challenge, the request being assembled and the queued
    responses are gone, and nothing else of the device changes, staged
    credentials and the Wi-Fi configuration included. *)
Theorem disconnect_closes_session reason s :
  wp (handle (EvDisconnected reason)) (fun _ s' =>
    session_closed (s_dev s') /\ not_session (s_dev s') = not_session (s_dev s)) s.
Proof. apply wp_end_session. by intros d' w' H1 H2. Qed.

(** ** Start and stop *)

(** Everything but the session, the advertising and the manager. *)
Definition kept_by_stop (d : device) :=
  (d_scan d, d_wifi d, d_blobs d, d_ident d, mg_config (d_mgr d), mg_initialized (d_mgr d)).

Definition ended (d : device) : bool := negb (Z.land (event_bits (mg_events (d_mgr d))) MGR_EVENT_ENDED =? 0).

Lemma wait_ended others s : ended (s_dev s) = true -> pouch_prov_mgr_wait others s = Some (0, s).
Proof.
  unfold ended. intros H. unfold pouch_prov_mgr_wait, mbind, get, mget. apply negb_true_iff in H.
  rewrite H. cbn [mwhen]. unfold mret. by rewrite H.
Qed.

Lemma land_lor_bits z b : Z.land (Z.lor z b) b = b.
Proof.
  apply Z.bits_inj'. intros n Hn. rewrite Z.land_spec, Z.lor_spec.
  by destruct (Z.testbit z n), (Z.testbit b n).
Qed.

Lemma land_ldiff_bits z b : Z.land (Z.ldiff z b) b = 0.
Proof.
  apply Z.bits_inj'. intros n Hn. rewrite Z.land_spec, Z.ldiff_spec, Z.bits_0.
  by destruct (Z.testbit z n), (Z.testbit b n).
Qed.

(** What a stop leaves. *)
Definition stopped (d : device) : Prop :=
  mg_running (d_mgr d) = false /\ session_closed d /\ ended d = true /\
  adv_enabled (d_adv d) = false /\ Z.land (adv_flags (d_adv d)) ADV_FLAG_PROVISIONING = 0.

Lemma wp_autostop_cancel (Q : unit -> st -> Prop) s :
  (forall f, Q tt {| s_dev := set_autostop f (s_dev s); s_env := s_env s |}) ->
  wp autostop_cancel Q s.
Proof.
  intros H. unfold autostop_cancel. apply wp_when; intros E; [by apply wp_put|].
  destruct s as [d w]. specialize (H (fun x => x)). cbn in H.
  replace (set_autostop (fun x => x) d) with d in H; [done|].
  by destruct d as [? ? ? ? ? ? ? ? ? []].
Qed.

Lemma wp_mgr_stop (Q : Z -> st -> Prop) s :
  mg_running (d_mgr (s_dev s)) = true ->
  (forall d' w', stopped d' -> kept_by_stop d' = kept_by_stop (s_dev s) ->
     told (s_dev s) POUCH_PROV_EVENT_ENDED None w' -> Q 0 {| s_dev := d'; s_env := w' |}) ->
  wp pouch_prov_mgr_stop Q s.
Proof.
  intros Hr HQ. unfold pouch_prov_mgr_stop. apply wp_bind, wp_getd. rewrite Hr. cbn [negb].
  apply wp_bind, wp_put, wp_bind, wp_autostop_cancel. intros f. cbn [s_dev s_env].
  apply wp_bind. unfold pouch_prov_adv_stop. apply wp_bind, wp_put, wp_bind, wp_put.
  apply wp_bind, wp_call. cbn [s_dev s_env]. intros err w1 E. apply wp_ret.
  apply wp_bind, wp_dispatch_reset, wp_bind, wp_rpc_reset. cbn [s_dev s_env].
  intros d' w' Hs Hq _. apply wp_bind, wp_put, wp_bind, wp_emit. cbn [s_dev s_env].
  intros g. apply wp_ret, HQ.
  - rewrite Hs. unfold after_dispatch_reset, stopped, session_closed, ended.
    destruct CONFIG_POUCH_PROV_AUTH eqn:Ea; cbn; rewrite event_bits_post; unfold MGR_EVENT_ENDED;
      rewrite land_lor_bits, land_ldiff_bits; split_and!; done.
  - rewrite Hs. unfold after_dispatch_reset. by destruct CONFIG_POUCH_PROV_AUTH.
  - assert (Hc : pouch_prov_config_get (set_events (k_event_post MGR_EVENT_ENDED) d') =
                 pouch_prov_config_get (s_dev s)).
    { rewrite Hs. unfold after_dispatch_reset. by destruct CONFIG_POUCH_PROV_AUTH. }
    rewrite Hc. intros ->. by eexists.
Qed.

(** C36: Stopping a running session closes it, stops advertising and clears the
    provisioning flag, tells the application and wakes whoever waits for the end,
    now or later; the Wi-Fi and credential state stays.  A second stop is refused
    and changes nothing. *)
Theorem stop_ends_provisioning s :
  mg_running (d_mgr (s_dev s)) = true ->
  wp pouch_prov_mgr_stop (fun rc s' => rc = 0 /\ stopped (s_dev s') /\
    kept_by_stop (s_dev s') = kept_by_stop (s_dev s) /\
    told (s_dev s) POUCH_PROV_EVENT_ENDED None (s_env s') /\
    (forall others, pouch_prov_mgr_wait others s' = Some (0, s')) /\
    pouch_prov_mgr_stop s' = Some (- EALREADY, s')) s.
Proof.
  intros Hr. apply wp_mgr_stop; [done|]. intros d' w' Hst Hk Ht. split_and!; try done.
  - intros others. apply wait_ended. apply Hst.
  - destruct Hst as [Hrun _]. unfold pouch_prov_mgr_stop, mbind, get, mget. cbn [s_dev].
    by rewrite Hrun.
Qed.

Context {PS : PlatformSizes P}.

Lemma wp_bt_up (Q : Z -> st -> Prop) s :
  (forall r w', Q r {| s_dev := s_dev s; s_env := w' |}) -> wp bt_up Q s.
Proof.
  intros H. destruct s as [d w]. unfold bt_up. apply wp_bind, wp_ask. destruct (bt_is_ready _).
  - apply wp_ret, H.
  - apply wp_bind, wp_call. intros err w' E. apply wp_ret, H.
Qed.

(** Loading keeps everything but the credential store and the identity. *)
Definition not_loaded (d : device) :=
  (d_active d, d_authorized d, d_rpc d, d_auth d, d_scan d, d_wifi d, d_adv d, d_mgr d).

Lemma load_frame l : keeps not_loaded (mfor l deliver).
Proof. steps_go. Qed.

Lemma wp_settings_load t (Q : Z -> st -> Prop) s :
  boot_wf (s_dev s) ->
  (forall r d' w', boot_wf d' -> not_loaded d' = not_loaded (s_dev s) ->
     Q r {| s_dev := d'; s_env := w' |}) ->
  wp (settings_load t) Q s.
Proof.
  intros Hb HQ. unfold settings_load. apply wp_bind, wp_call. intros [err l] w E. cbn [s_dev s_env].
  apply wp_bind. eapply wp_mono.
  - apply (wp_steps (same not_loaded)); [apply load_frame|].
    apply (wp_deliver_all _ (fun _ s' => boot_wf (s_dev s'))); [done|]. by intros d' Hd' _.
  - intros [] [d' w'] [Hd' Hs]. apply wp_ret, HQ; done.
Qed.

Lemma wp_set_device_name (Q : unit -> st -> Prop) s :
  (forall n, Q tt {| s_dev := set_name n (s_dev s); s_env := s_env s |}) -> wp set_device_name Q s.
Proof.
  intros H. unfold set_device_name. apply wp_bind, wp_ask. pose proof (bt_addr_length (s_env s)) as Hl.
  destruct (bt_id_get (s_env s)) as [|a0 [|a1 [|a2 l]]]; cbn in Hl; try lia. by apply wp_put.
Qed.

Lemma wp_adv_start (Q : Z -> st -> Prop) s :
  (forall r n f, (r = 0 -> adv_enabled n = true /\
       adv_flags n = Z.lor (adv_flags (d_adv (s_dev s))) ADV_FLAG_PROVISIONING) ->
     Q r {| s_dev := set_adv (fun _ => n) (s_dev s); s_env := f |}) ->
  wp pouch_prov_adv_start Q s.
Proof.
  intros H. destruct s as [d w]. unfold pouch_prov_adv_start, adv_start_call.
  apply wp_bind, wp_put, wp_bind, wp_set_device_name. intros n. cbn [s_dev s_env].
  apply wp_bind, wp_bind, wp_getd, wp_call. cbn [s_dev s_env]. intros err w' E. apply wp_bind.
  set (r := if err =? - EALREADY then 0 else err). apply wp_when; intros Er; zbool.
  - apply wp_put, wp_ret. cbn [s_dev s_env].
    match goal with |- Q _ {| s_dev := ?x; s_env := _ |} =>
      change x with (set_adv (fun _ => d_adv x) d) end.
    by apply H.
  - apply wp_ret.
    match goal with |- Q _ {| s_dev := ?x; s_env := _ |} =>
      change x with (set_adv (fun _ => d_adv x) d) end.
    by apply H.
Qed.

(** C35: A successful start opens a fresh session: running and advertising with the
    provisioning flag, nothing authorized, assembled or queued from before, and
    a wait for the end blocks until a stop; a start that fails is not running.
    Loading the settings on the way never fails the start or runs into
    undefined behaviour, whatever is stored. *)
Theorem start_opens_session s :
  boot_wf (s_dev s) -> mg_initialized (d_mgr (s_dev s)) = true ->
  mg_running (d_mgr (s_dev s)) = false ->
  wp pouch_prov_mgr_start (fun rc s' =>
    (rc = 0 -> mg_running (d_mgr (s_dev s')) = true /\ session_closed (s_dev s') /\
       ended (s_dev s') = false /\ adv_enabled (d_adv (s_dev s')) = true /\
       Z.land (adv_flags (d_adv (s_dev s'))) ADV_FLAG_PROVISIONING <> 0 /\
       told (s_dev s) POUCH_PROV_EVENT_STARTED None (s_env s')) /\
    (rc <> 0 -> mg_running (d_mgr (s_dev s')) = false)) s.
Proof.
  intros Hb Hi Hr. destruct s as [d w]. cbn [s_dev] in *. unfold pouch_prov_mgr_start.
  apply wp_bind, wp_getd. cbn [s_dev]. rewrite Hi, Hr. cbn [negb].
  apply wp_bind, wp_bt_up. intros r w1. cbn [s_dev s_env].
  destruct (r =? 0) eqn:Er; cbn [negb]; zbool; [|by apply wp_ret].
  assert (Hrest : forall d1 w2, not_loaded d1 = not_loaded d ->
    wp (pouch_prov_dispatch_reset ;;; pouch_prov_rpc_reset ;;; autostop_cancel ;;;
        put (set_events (k_event_clear MGR_EVENT_ENDED)) ;;;
        err <- pouch_prov_adv_start ;;
        if negb (err =? 0) then mret err else
        put (set_running true) ;;; pouch_prov_emit POUCH_PROV_EVENT_STARTED None ;;; mret 0)
      (fun rc s' =>
        (rc = 0 -> mg_running (d_mgr (s_dev s')) = true /\ session_closed (s_dev s') /\
           ended (s_dev s') = false /\ adv_enabled (d_adv (s_dev s')) = true /\
           Z.land (adv_flags (d_adv (s_dev s'))) ADV_FLAG_PROVISIONING <> 0 /\
           told d POUCH_PROV_EVENT_STARTED None (s_env s')) /\
        (rc <> 0 -> mg_running (d_mgr (s_dev s')) = false)) {| s_dev := d1; s_env := w2 |}).
  { intros d1 w2 Hl. unfold not_loaded in Hl. simplify_eq.
    apply wp_bind, wp_dispatch_reset, wp_bind, wp_rpc_reset. cbn [s_dev s_env].
    intros d2 w3 Hs Hq _. apply wp_bind, wp_autostop_cancel. intros f. cbn [s_dev s_env].
    apply wp_bind, wp_put, wp_bind, wp_adv_start. cbn [s_dev s_env]. intros rc a w4 Ha.
    assert (Hm : d_mgr d2 = d_mgr d).
    { rewrite Hs. unfold after_dispatch_reset. by destruct CONFIG_POUCH_PROV_AUTH; cbn. }
    destruct (rc =? 0) eqn:Erc; cbn [negb]; zbool.
    - destruct (Ha Erc) as [Hen Hfl]. apply wp_bind, wp_put, wp_bind, wp_emit. intros g.
      apply wp_ret. split; [|done]. intros _. cbn [s_dev s_env].
      assert (Hc : session_closed d2).
      { split_and!; rewrite ?Hq; try done; rewrite Hs; unfold after_dispatch_reset;
          destruct CONFIG_POUCH_PROV_AUTH; done. }
      split_and!; [done|exact Hc| |exact Hen| |].
      + unfold ended. cbn. rewrite event_bits_clear. unfold MGR_EVENT_ENDED.
        by rewrite land_ldiff_bits.
      + cbn. rewrite Hfl. cbn. rewrite land_lor_bits. done.
      + unfold told. change (pouch_prov_config_get (set_running true (set_adv (fun _ => a)
          (set_events (k_event_clear MGR_EVENT_ENDED) (set_autostop f d2)))))
          with (mg_config (d_mgr d2)). rewrite Hm. unfold pouch_prov_config_get. intros ->. by eexists.
    - apply wp_ret. split; [done|]. intros _. cbn. by rewrite Hm. }
  unfold mwhen. destruct CONFIG_SETTINGS.
  - apply wp_bind, wp_bind, wp_settings_load; [done|]. intros r2 d1 w2 _ Hl. apply wp_ret.
    by apply Hrest.
  - apply wp_bind, wp_ret. by apply Hrest.
Qed.

(** ** The end request *)

Definition end_reply : list byte := item_bytes (op_status_item OP_CTRL_END prov_status_status_ok_m_c).

(** C37: The end request of an authorized client stops the session before it is
    answered: the responses queued until then are dropped with the session, and
    the acknowledgement is the one response queued after the stop, which the
    client can still fetch; it is missing only when there is no memory for it.
    The requests that came before the end in the same pouch are thereby left
    without the matching entries that docs/protocol.md promises. *)
Theorem end_request_answered {CE : CodecEncLaws CD} {CX : CodecDecLaws CD} ep tl s :
  ep_handler ep = pouch_prov_handle_ctrl_p ->
  act_overflow (d_active (s_dev s)) = false ->
  pouch_prov_session_authorized (s_dev s) = true ->
  request (s_dev s) = item_bytes (ctrl_req_item ctrl_req_ctrl_end_m) ++ tl ->
  mg_running (d_mgr (s_dev s)) = true ->
  wp (process ep) (fun _ s' =>
    mg_running (d_mgr (s_dev s')) = false /\ ended (s_dev s') = true /\
    d_authorized (s_dev s') = false /\ kept_by_stop (s_dev s') = kept_by_stop (s_dev s) /\
    exists w, queued (s_dev s') =
      if (k_malloc (RPC_RSP_SIZE + length end_reply) w).1
      then [{| rsp_path := ep_path ep; rsp_msg := end_reply |}] else []) s.
Proof.
  intros Hh Hov Hau Hreq Hrun. unfold process. apply wp_bind, wp_getd. rewrite Hov.
  apply wp_bind, wp_getd, wp_bind, wp_getd. rewrite Hau, Hreq, andb_false_r, Hh.
  cbn [run_handler]. apply wp_bind. unfold pouch_prov_handle_ctrl. rewrite decode_ctrl_req_law.
  cbn [ctrl_action]. apply wp_bind, wp_ret.
  rewrite encode_ctrl_rsp_law by (unfold ctrl_rsp_ok; cbn; unfold OP_CTRL_END; lia).
  assert (Hlen : length end_reply = 3%nat) by (apply op_status_len; unfold OP_CTRL_END; lia).
  rewrite fit_some by (change (item_bytes _) with end_reply; rewrite Hlen; unfold POUCH_PROV_MSG_MAX; lia).
  change (item_bytes (ctrl_rsp_item _)) with end_reply. cbn [andb Z.eqb mwhen enc_result].
  change ((OP_CTRL_END =? OP_CTRL_END) && true) with true. cbn [mwhen].
  apply wp_bind. unfold pouch_prov_ctrl_end_requested. apply wp_bind, wp_mgr_stop; [done|].
  intros d' w' Hst Hk _. apply wp_ret, wp_ret. rewrite Hlen. cbn [mwhen Nat.ltb Nat.leb].
  apply wp_bind, wp_enqueue_fits; [rewrite Hlen; unfold POUCH_PROV_MSG_MAX; lia|].
  cbn [s_dev s_env]. intros r d2 w2 Hs Hq. apply wp_ret. cbn [s_dev].
  destruct Hst as (H1 & (_ & Hauth & Hq0 & _) & H3 & _). rewrite Hs. split_and!; try done.
  exists w'. rewrite Hs in Hq. rewrite Hq, Hq0, Hlen. by destruct (k_malloc _ _).1.
Qed.

(** ** Auto-stop *)

(** C38: In a Wi-Fi build with the auto-stop timer configured, a running device that
    connects to the network arms the timer with the configured delay, and when
    the timer fires the session ends as by a stop. *)
Theorem autostop_after_connect {WL : WifiStoreLaws P} s :
  CONFIG_POUCH_PROV_WIFI = true -> 0 < CONFIG_POUCH_PROV_AUTOSTOP_TIMEOUT_S ->
  mg_running (d_mgr (s_dev s)) = true -> in_flight (d_wifi (s_dev s)) ->
  wp (handle (EvConnectResult 0)) (fun _ s1 =>
    work_due (mg_autostop_work (d_mgr (s_dev s1))) = Some CONFIG_POUCH_PROV_AUTOSTOP_TIMEOUT_S /\
    enabled EvAutostopWork (s_dev s1) /\
    wp (handle EvAutostopWork) (fun _ s2 => stopped (s_dev s2)) s1) s.
Proof.
  intros Hw Ht Hrun Hfl. destruct s as [d w]. cbn [s_dev] in *. cbn [handle config_mgmt_event mwhen].
  unfold on_connect_result. apply wp_bind, wp_getd. cbn [s_dev]. rewrite idle_test by done.
  rewrite Z.eqb_refl. apply wp_bind, wp_put, wp_bind, wp_put. cbn [s_dev s_env].
  assert (Hemit : forall d1 w1, mg_running (d_mgr d1) = true ->
    wp (pouch_prov_emit POUCH_PROV_EVENT_WIFI_CONNECTED None) (fun _ s1 =>
      mg_running (d_mgr (s_dev s1)) = true /\
      work_due (mg_autostop_work (d_mgr (s_dev s1))) = Some CONFIG_POUCH_PROV_AUTOSTOP_TIMEOUT_S)
      {| s_dev := d1; s_env := w1 |}).
  { intros d1 w1 H1. unfold pouch_prov_emit. apply wp_bind, wp_getd, wp_bind.
    assert (Ha : forall w2, wp (mwhen (0 <? CONFIG_POUCH_PROV_AUTOSTOP_TIMEOUT_S)
        (if CONFIG_POUCH_PROV_WIFI
         then mwhen (bool_decide (POUCH_PROV_EVENT_WIFI_CONNECTED = POUCH_PROV_EVENT_WIFI_CONNECTED))
                autostop_arm
         else mwhen (CONFIG_POUCH_PROV_CRED && bool_decide
                (POUCH_PROV_EVENT_WIFI_CONNECTED = POUCH_PROV_EVENT_CLOUD_CRED_STORED)) autostop_arm))
      (fun _ s1 => mg_running (d_mgr (s_dev s1)) = true /\
         work_due (mg_autostop_work (d_mgr (s_dev s1))) = Some CONFIG_POUCH_PROV_AUTOSTOP_TIMEOUT_S)
      {| s_dev := d1; s_env := w2 |}).
    { intros w2. rewrite (proj2 (Z.ltb_lt _ _)) by done. rewrite Hw. cbn [mwhen].
      unfold autostop_arm. apply wp_bind, wp_getd. cbn [s_dev]. rewrite H1. apply wp_put.
      split; [done|]. cbn. apply work_due_reschedule. }
    destruct (cfg_event_cb _); [by apply wp_call_|by apply wp_ret]. }
  eapply wp_mono; [by apply Hemit|]. intros [] s1 [Hr1 Hd1]. split_and!; [done|cbn; congruence|].
  cbn [handle]. apply wp_bind, wp_put. unfold autostop_handler. apply wp_bind, wp_mgr_stop; [done|].
  intros d' w' Hst _ _. by apply wp_ret.
Qed.
End Lifecycle.

(** ** The properties at concrete inputs *)

(** A version request has been answered into the queue. *)
Definition sim_queued : st := Eval vm_compute in
  run_state (request_on ".prov/ver" [[x81; x00]]) sim_ready.

Lemma flush_writes_all_witness :
  wp (rpc_uplink_flush (mret tt)) (fun _ s' =>
    s_env s' = write_all (queued (s_dev sim_queued)) (s_env sim_queued) /\
    queued (s_dev s') = [] /\ same_but_rpc (s_dev sim_queued) (s_dev s')) sim_queued.
Proof. apply (flush_writes_all (mret tt) sim_queued sim_queued). reflexivity. Defined.

Lemma stop_ends_provisioning_witness :
  wp pouch_prov_mgr_stop (fun rc s' => rc = 0 /\ stopped (s_dev s') /\
    kept_by_stop (s_dev s') = kept_by_stop (s_dev sim_ready) /\
    told (s_dev sim_ready) POUCH_PROV_EVENT_ENDED None (s_env s') /\
    (forall others, pouch_prov_mgr_wait others s' = Some (0, s')) /\
    pouch_prov_mgr_stop s' = Some (- EALREADY, s')) sim_ready.
Proof. apply (stop_ends_provisioning sim_ready). reflexivity. Defined.

Lemma sim_inited_wf : boot_wf (s_dev sim_inited).
Proof. exact (boot_wf_boot 0). Qed.

Lemma start_opens_session_witness :
  wp pouch_prov_mgr_start (fun rc s' =>
    (rc = 0 -> mg_running (d_mgr (s_dev s')) = true /\ session_closed (s_dev s') /\
       ended (s_dev s') = false /\ adv_enabled (d_adv (s_dev s')) = true /\
       Z.land (adv_flags (d_adv (s_dev s'))) ADV_FLAG_PROVISIONING <> 0 /\
       told (s_dev sim_inited) POUCH_PROV_EVENT_STARTED None (s_env s')) /\
    (rc <> 0 -> mg_running (d_mgr (s_dev s')) = false)) sim_inited.
Proof.
  apply (start_opens_session sim_inited); [apply sim_inited_wf|reflexivity|reflexivity].
Defined.

Definition ctrl_ep : pouch_prov_endpoint :=
  {| ep_path := POUCH_PROV_PATH_CTRL; ep_handler := pouch_prov_handle_ctrl_p;
     ep_require_auth := true |}.

(** An authorized session with an end request assembled. *)
Definition sim_ending : st := Eval vm_compute in
  {| s_dev := set_authorized true (with_active None 2 false (buf_write 0 [x81; x02]
       (zeros POUCH_PROV_MSG_MAX)) (s_dev sim_queued));
     s_env := s_env sim_queued |}.

Lemma end_request_answered_witness :
  wp (process ctrl_ep) (fun _ s' =>
    mg_running (d_mgr (s_dev s')) = false /\ ended (s_dev s') = true /\
    d_authorized (s_dev s') = false /\ kept_by_stop (s_dev s') = kept_by_stop (s_dev sim_ending) /\
    exists w, queued (s_dev s') =
      if (k_malloc (RPC_RSP_SIZE + length end_reply) w).1
      then [{| rsp_path := ep_path ctrl_ep; rsp_msg := end_reply |}] else []) sim_ending.
Proof. apply (end_request_answered ctrl_ep [] sim_ending); reflexivity. Defined.

Lemma autostop_after_connect_witness :
  wp (handle (EvConnectResult 0)) (fun _ s1 =>
    work_due (mg_autostop_work (d_mgr (s_dev s1))) = Some CONFIG_POUCH_PROV_AUTOSTOP_TIMEOUT_S /\
    enabled EvAutostopWork (s_dev s1) /\
    wp (handle EvAutostopWork) (fun _ s2 => stopped (s_dev s2)) s1) sim_flying.
Proof.
  apply (autostop_after_connect sim_flying); [reflexivity|reflexivity|reflexivity|discriminate].
Defined.
