(* ===== verification/Safety.v ===== *)
(** * Freedom from undefined behaviour

    The invariant of the whole device's buffers, that every event keeps it, and
    that an event runs into undefined behaviour in two situations only: a proof
    of possession without a secret, and a status read while connected. *)

From S2P Require Import Prelude ProvTypes Zcbor Schema Codec Platform State Frame Rpc Session.
From S2P Require Import Auth CredStore CredHandler WifiScan WifiConfig Version Adv Identity Manager.
From S2P Require Import Ctrl Dispatch System Frames Instances DispatchSpec AuthSpec CredSpec.
From S2P Require Import CredPersist WifiSpec WifiInv WifiStatus ScanSpec Lifecycle.

Create HintDb safe.

(** ** A calculus of preservation *)

Section Calculus.
Context {K : Kernel} {P : Platform}.

(** From a device in [I], [m] ends in one, or is undefined and then [ub]. *)
Definition safe {A} (I : device -> Prop) (ub : Prop) (m : C A) : Prop :=
  forall s, I (s_dev s) -> match m s with Some (_, s') => I (s_dev s') | None => ub end.

Context (I : device -> Prop) (ub : Prop).

Lemma safe_ret {A} (a : A) : safe I ub (mret a).
Proof. by intros s H. Qed.

Lemma safe_bind {A B} (m : C A) (k : A -> C B) :
  safe I ub m -> (forall a, safe I ub (k a)) -> safe I ub (mbind m k).
Proof.
  intros Hm Hk s Hs. unfold mbind. specialize (Hm s Hs).
  destruct (m s) as [[a s1]|]; [by apply Hk|done].
Qed.

Lemma safe_get {A} (f : device -> A) : safe I ub (get f).
Proof. by intros s H. Qed.

Lemma safe_ask {A} (f : W -> A) : safe I ub (ask f).
Proof. by intros s H. Qed.

Lemma safe_put f : (forall d, I d -> I (f d)) -> safe I ub (put f).
Proof. intros H s Hs. by apply H. Qed.

Lemma safe_call {A} (f : W -> A * W) : safe I ub (call f).
Proof. intros s Hs. unfold call. by destruct (f (s_env s)). Qed.

Lemma safe_call_ f : safe I ub (call_ f).
Proof. apply safe_call. Qed.

Lemma safe_when (c : bool) m : safe I ub m -> safe I ub (mwhen c m).
Proof. intros H. destruct c; [done|apply safe_ret]. Qed.

Lemma safe_for {A} (l : list A) (f : A -> C unit) :
  (forall x, safe I ub (f x)) -> safe I ub (mfor l f).
Proof. intros H. induction l as [|x l IH]; simpl; [apply safe_ret|]. by apply safe_bind. Qed.

Lemma safe_drain n body :
  (forall f d, I d -> I (set_rpc f d)) -> (forall r, safe I ub (body r)) -> safe I ub (drain n body).
Proof.
  intros Hp Hb. induction n as [|n IH]; simpl; [apply safe_ret|].
  apply safe_bind; [apply safe_get|]. intros q. destruct (k_fifo_get q) as [[r|] q'].
  - apply safe_bind; [apply safe_put; intros d; apply Hp|]. intros _.
    apply safe_bind; [apply Hb|]. intros _. apply safe_bind; [apply safe_call_|done].
  - apply safe_bind; [apply safe_put; intros d; apply Hp|]. intros _. apply safe_ret.
Qed.

Lemma safe_drain_all body :
  (forall f d, I d -> I (set_rpc f d)) -> (forall r, safe I ub (body r)) -> safe I ub (drain_all body).
Proof. intros Hp Hb. apply safe_bind; [apply safe_get|]. intros n. by apply safe_drain. Qed.

(** A total run that ends in [I]. *)
Lemma safe_wp {A} (m : C A) :
  (forall s, I (s_dev s) -> wp m (fun _ s' => I (s_dev s')) s) -> safe I ub m.
Proof. intros H s Hs. specialize (H s Hs). unfold wp in H. by destruct (m s) as [[a s']|]. Qed.
End Calculus.

Lemma safe_total {K : Kernel} {P : Platform} {A} I (m : C A) (Q : A -> st -> Prop) s :
  safe I False m -> I (s_dev s) ->
  (forall a s', m s = Some (a, s') -> I (s_dev s') -> Q a s') -> wp m Q s.
Proof.
  intros H Hs HQ. specialize (H s Hs). unfold wp. destruct (m s) as [[a s']|]; [|done]. by apply HQ.
Qed.

Lemma safe_weaken {K : Kernel} {P : Platform} {A} I (ub : Prop) (m : C A) :
  safe I False m -> safe I ub m.
Proof. intros H s Hs. specialize (H s Hs). by destruct (m s) as [[a s']|]. Qed.

(** [I d -> I (f d)] for an assignment that [I] does not depend on. *)
Ltac safe_side :=
  let H := fresh in intros ? H; first [exact H | solve [auto with safe]].

Ltac safe_step :=
  lazymatch goal with
  | |- safe ?I ?u (mbind _ _) => apply (safe_bind I u); [|intros ?]
  | |- safe ?I ?u (mret _) => apply (safe_ret I u)
  | |- safe ?I ?u (get _) => apply (safe_get I u)
  | |- safe ?I ?u (ask _) => apply (safe_ask I u)
  | |- safe ?I ?u (put _) => apply (safe_put I u); safe_side
  | |- safe ?I ?u (call _) => apply (safe_call I u)
  | |- safe ?I ?u (call_ _) => apply (safe_call_ I u)
  | |- safe ?I ?u (mwhen _ _) => apply (safe_when I u)
  | |- safe ?I ?u (mfor _ _) => apply (safe_for I u); intros ?
  | |- safe ?I ?u (drain_all _) => apply (safe_drain_all I u); [intros ?; safe_side|intros ?]
  | |- safe ?I ?u (match ?x with _ => _ end) => destruct x
  | |- safe ?I ?u ?m => first
      [ solve [auto with safe nocore]
      | let h := head_of m in progress unfold h ]
  end.

Ltac safe_go := repeat (safe_step; cbv beta).

Section Invariant.
Context {KC : Kconfig} {K : Kernel} {P : Platform} {CD : Codec}.

(** ** The invariant *)

(** The buffers of every file. *)
Definition device_wf (d : device) : Prop :=
  buffer_wf d /\ store_wf (d_blobs d) /\ ident_wf (d_ident d) /\
  conn_wf (wc_cfg (d_wifi d)) /\ conn_wf (wc_inflight (d_wifi d)) /\ scan_wf (d_scan d).

Lemma device_wf_boot flags : device_wf (device_boot flags).
Proof.
  destruct (boot_wf_boot flags) as [Hs Hi]. split_and!; try done.
  - split; [reflexivity|]. apply Nat.leb_le. reflexivity.
  - apply conn_wf_zero.
  - apply conn_wf_zero.
  - apply scan_wf_init.
Qed.

(** What the invariant looks at. *)
Definition core (d : device) :=
  (d_active d, d_blobs d, d_ident d, wc_cfg (d_wifi d), wc_inflight (d_wifi d), d_scan d).

Lemma device_wf_core d d' : core d' = core d -> device_wf d -> device_wf d'.
Proof. unfold core, device_wf, buffer_wf. intros [= -> -> -> -> -> ->]. done. Qed.

(** ** The credential store *)

(** Replacing the blobs, and nothing else. *)
Lemma device_wf_blobs bs d : device_wf d -> store_wf bs -> device_wf (set_blobs (fun _ => bs) d).
Proof. intros (H1 & H2 & H3 & H4 & H5 & H6) Hb. by split_and!. Qed.

Lemma device_wf_set_blob k b b' d :
  device_wf d -> d_blobs d !! k = Some b -> blob_wf b' -> b_cap b' = b_cap b ->
  device_wf (set_blobs (fun bs => <[k := b']> bs) d).
Proof.
  intros Hd Hk Hw Hc. apply (device_wf_blobs (<[k := b']> (d_blobs d)) d Hd).
  eapply store_wf_insert; try done. apply Hd.
Qed.

Lemma safe_get_blob k (Q : blob -> st -> Prop) s :
  (k < 3)%nat -> device_wf (s_dev s) ->
  (forall b, d_blobs (s_dev s) !! k = Some b -> blob_wf b -> Q b s) -> wp (get_blob k) Q s.
Proof.
  intros Hk Hd HQ. assert (Hs : store_wf (d_blobs (s_dev s))) by apply Hd.
  destruct (store_wf_lookup _ k Hs Hk) as (b & Hb & Hw). apply (wp_get_blob _ b); [done|]. by apply HQ.
Qed.

Lemma safe_stage ub kind off total data :
  safe device_wf ub (pouch_prov_cred_stage kind off total data).
Proof.
  apply safe_wp. intros s Hd. unfold pouch_prov_cred_stage.
  destruct (kind_valid kind) eqn:Ek; cbn [negb]; [|by apply wp_ret].
  destruct (kind_valid_lt kind Ek) as [Hk _]. set (k := Z.to_nat kind) in *.
  apply wp_bind, safe_get_blob; [done|done|]. intros b Hb Hw.
  destruct (Z.of_nat (b_cap b) <? total) eqn:Et; zbool; [by apply wp_ret|].
  assert (Htail : forall s1, device_wf (s_dev s1) ->
    wp (b <- get_blob k ;;
        if negb (off =? Z.of_nat (b_staged b)) || (b_expected b <? b_staged b + length data)%nat
        then mret (- EINVAL) else
        mguard (buf_fits (b_staged b) data (b_buf b)) ;;;
        set_blob k (with_staged (b_staged b + length data)
                      (with_buf (buf_write (b_staged b) data (b_buf b)) b)) ;;;
        mret (Z.of_nat (b_staged b + length data))) (fun _ s' => device_wf (s_dev s')) s1).
  { intros s1 H1. apply wp_bind, safe_get_blob; [done|done|]. intros b1 Hb1 (W1 & W2 & W3 & W4).
    destruct (_ || _) eqn:E; [by apply wp_ret|]. zbool.
    apply wp_bind, wp_guard; [unfold buf_fits; apply Nat.leb_le; lia|].
    apply wp_bind, wp_put, wp_ret. apply (device_wf_set_blob k b1); [done..| |done].
    unfold blob_wf. cbn -[buf_write]. rewrite length_buf_write by lia. lia. }
  apply wp_bind, wp_when; intros E0; [|by apply Htail].
  apply wp_put, Htail. cbn [s_dev]. destruct Hw as (W1 & W2 & W3 & W4).
  apply (device_wf_set_blob k b); [done..| |done]. unfold blob_wf. cbn. lia.
Qed.

Lemma safe_persist ub keys : forall k, (k + length keys = 3)%nat ->
  safe device_wf ub (persist_from k keys).
Proof.
  intros k Hk. apply safe_weaken. revert k Hk.
  induction keys as [|key keys IH]; intros k Hk; cbn [persist_from length] in *; [apply safe_ret|].
  apply safe_wp. intros s Hd. apply wp_bind, safe_get_blob; [lia|done|]. intros b Hb Hw.
  assert (Hrest : forall s1, device_wf (s_dev s1) ->
    wp (persist_from (S k) keys) (fun _ s' => device_wf (s_dev s')) s1).
  { intros s1 H1. eapply safe_total; [apply (IH (S k)); lia|done|done]. }
  destruct (negb (blob_complete b)); [by apply Hrest|].
  apply wp_bind, wp_call. intros err w E. destruct (negb (err =? 0)); [by apply wp_ret|].
  apply wp_bind, wp_put, Hrest. cbn [s_dev]. destruct Hw as (W1 & W2 & W3 & W4).
  apply (device_wf_set_blob k b); [done|done| |done]. unfold blob_wf. cbn. lia.
Qed.

Lemma safe_delete ub keys : forall k, (k + length keys = 3)%nat ->
  safe device_wf ub (delete_from k keys).
Proof.
  intros k Hk. apply safe_weaken. revert k Hk.
  induction keys as [|key keys IH]; intros k Hk; cbn [delete_from length] in *; [apply safe_ret|].
  apply safe_wp. intros s Hd. apply wp_bind, wp_call. intros err w E.
  apply wp_bind, safe_get_blob; [lia|exact Hd|]. cbn [s_dev]. intros b Hb (W1 & W2 & W3 & W4).
  apply wp_bind, wp_put. cbn [s_dev s_env].
  eapply safe_total; [apply (IH (S k)); lia| |done]. cbn [s_dev].
  apply (device_wf_set_blob k b); [done|done| |done]. unfold blob_wf. cbn. lia.
Qed.

Lemma safe_blob_at ub (k : nat) : (k < 3)%nat -> safe device_wf ub (get_blob k).
Proof. intros Hk. apply safe_wp. intros s Hd. by apply safe_get_blob. Qed.

Lemma safe_received ub kind : safe device_wf ub (pouch_prov_cred_received kind).
Proof.
  unfold pouch_prov_cred_received. destruct (kind_valid kind) eqn:E; [|apply safe_ret].
  apply safe_bind; [apply safe_blob_at; by destruct (kind_valid_lt kind E)|].
  intros b. apply safe_ret.
Qed.

Lemma safe_status_entries ub ks : safe device_wf ub (cred_status_entries ks).
Proof.
  induction ks as [|k ks IH]; cbn [cred_status_entries]; [apply safe_ret|].
  apply safe_bind; [apply safe_received|]. intros n. apply safe_bind; [done|]. intros l.
  apply safe_ret.
Qed.

Lemma safe_emit ub ev data : safe device_wf ub (pouch_prov_emit ev data).
Proof. safe_go. Qed.

Lemma safe_finalize ub : safe device_wf ub pouch_prov_cred_finalize.
Proof.
  unfold pouch_prov_cred_finalize. apply safe_bind; [apply safe_blob_at; vm_compute; lia|].
  intros cert. apply safe_bind; [apply safe_blob_at; vm_compute; lia|]. intros key.
  destruct (_ || _); [apply safe_ret|]. destruct (negb _); [apply safe_ret|].
  apply safe_bind; [by apply safe_persist|]. intros rc. destruct (negb _); [apply safe_ret|].
  apply safe_bind; [apply safe_emit|]. intros _. apply safe_ret.
Qed.

Lemma safe_delete_all ub : safe device_wf ub pouch_prov_cred_delete_all.
Proof. apply safe_bind; [by apply safe_delete|]. intros _. apply safe_ret. Qed.

Lemma safe_load ub t : safe device_wf ub (settings_load t).
Proof.
  apply safe_wp. intros s (H1 & H2 & H3 & H4 & H5 & H6).
  apply wp_settings_load; [by split|]. intros r d' w' [G1 G2] Hn. cbn [s_dev].
  unfold not_loaded in Hn. injection Hn as Ha _ _ _ Hs Hw _ _. unfold device_wf, buffer_wf in *.
  rewrite Ha, Hs, Hw. by destruct H1; split_and!.
Qed.

(** ** Scanning *)

Lemma device_wf_scan sc d : device_wf d -> scan_wf sc -> device_wf (set_scan (fun _ => sc) d).
Proof. intros (H1 & H2 & H3 & H4 & H5 & H6) Hs. by split_and!. Qed.

Lemma safe_on_result ub r : result_typed r -> safe device_wf ub (on_result r).
Proof.
  intros Hr. apply safe_wp. intros s Hd. apply wp_on_result; [apply Hd|done|].
  intros sc Hsc _ _. by apply device_wf_scan.
Qed.

Lemma safe_results ub start want n :
  Z.of_nat SCAN_MAX < 4294967296 -> in_u32 start -> safe device_wf ub (encode_results start want n).
Proof.
  intros H32 Hi. apply safe_wp. intros s Hd. unfold encode_results. apply wp_bind, wp_getd.
  destruct Hd as (H1 & H2 & H3 & H4 & H5 & G1 & G2 & G3).
  rewrite page_loop_window by (try done; unfold PAGE_MAX; lia). by apply wp_ret.
Qed.

Lemma device_wf_count d : device_wf d -> device_wf (set_count 0 d).
Proof.
  intros (H1 & H2 & H3 & H4 & H5 & G1 & G2 & G3). split_and!; try done. split_and!; [done|apply Nat.le_0_l|done].
Qed.


(** ** Wi-Fi configuration *)

Lemma safe_getd {A B} I ub (f : device -> A) (k : A -> C B) :
  (forall d, I d -> safe I ub (k (f d))) -> safe I ub (x <- get f ;; k x).
Proof. intros H s Hs. by apply (H (s_dev s) Hs). Qed.

Lemma device_wf_inflight f d :
  device_wf d -> (forall c, conn_wf c -> conn_wf (f c)) -> device_wf (set_inflight f d).
Proof. intros (H1 & H2 & H3 & H4 & H5 & H6) Hf. split_and!; try done. by apply Hf. Qed.

Lemma device_wf_cfg f d :
  device_wf d -> (forall c, conn_wf c -> conn_wf (f c)) -> device_wf (set_wc_cfg f d).
Proof. intros (H1 & H2 & H3 & H4 & H5 & H6) Hf. split_and!; try done. by apply Hf. Qed.

Lemma safe_clear_inflight ub : safe device_wf ub clear_inflight.
Proof. apply safe_put. intros d Hd. apply device_wf_inflight; [done|apply conn_wf_clear]. Qed.

Lemma safe_config_reset ub : safe device_wf ub pouch_prov_wifi_config_reset.
Proof.
  unfold pouch_prov_wifi_config_reset. pose proof (safe_clear_inflight ub). safe_go.
  intros d Hd. apply device_wf_cfg; [done|apply conn_wf_clear].
Qed.

Lemma safe_do_set ub c : safe device_wf ub (do_set c).
Proof.
  apply safe_wp. intros s Hd. apply wp_do_set; [apply Hd|]. destruct (set_accepts c); [|done].
  intros c' Hc _. by apply device_wf_cfg.
Qed.

Hint Resolve safe_emit safe_clear_inflight safe_config_reset safe_do_set safe_stage safe_received
  safe_finalize safe_delete_all safe_load safe_status_entries : safe.

Lemma safe_final_failure ub : safe device_wf ub final_failure.
Proof. safe_go. Qed.
Hint Resolve safe_final_failure : safe.

Lemma safe_connect_from_inflight ub : safe device_wf ub connect_from_inflight.
Proof. safe_go. Qed.
Hint Resolve safe_connect_from_inflight : safe.

Lemma safe_connect_result ub status : safe device_wf ub (on_connect_result status).
Proof. safe_go. Qed.

Lemma safe_retry ub : safe device_wf ub retry_work_handler.
Proof. safe_go. Qed.

Lemma safe_do_apply ub : safe device_wf ub do_apply.
Proof.
  unfold do_apply. apply safe_bind; [apply safe_ask|]. intros iface. apply safe_getd. intros d Hd.
  assert (Hc : conn_wf (wc_cfg (d_wifi d))) by apply Hd. safe_go.
  intros d' Hd'. apply device_wf_inflight; [done|]. intros c'. by apply conn_wf_snapshot.
Qed.

(** The state in which a status poll is undefined. *)
Definition status_hazard (s : st) : Prop :=
  wc_sta_state (d_wifi (s_dev s)) = sta_state_sta_connected_m_c /\ status_readable (s_env s).

Lemma status_frame n : keeps core (encode_status n).
Proof. steps_go. Qed.

(** ** Identity, advertising and the manager *)

Context {PS : PlatformSizes P}.

Lemma device_wf_ident f d :
  device_wf d -> (forall i, ident_wf i -> ident_wf (f i)) -> device_wf (set_ident f d).
Proof. intros (H1 & H2 & H3 & H4 & H5 & H6) Hf. split_and!; try done. by apply Hf. Qed.

Lemma safe_generate_and_store ub : safe device_wf ub generate_and_store.
Proof.
  unfold generate_and_store. apply safe_bind; [apply safe_call|]. intros [status tmp].
  destruct (negb _); [apply safe_ret|]. apply safe_wp. intros s Hd.
  apply wp_bind, wp_call. intros [st raw] w E. cbn [s_dev s_env].
  pose proof (export_length _ _ _ _ _ _ E) as Hl.
  assert (Hi : ident_wf (d_ident (s_dev s))) by apply Hd. destruct Hi as (I1 & I2 & I3 & I4).
  apply wp_bind, wp_getd, wp_bind, wp_guard; [unfold buf_fits; apply Nat.leb_le; cbn [s_dev]; lia|].
  apply wp_bind, wp_put, wp_bind, wp_put. cbn [s_dev s_env].
  eapply safe_total; [|apply device_wf_ident; [apply device_wf_ident; [exact Hd|]|] |done].
  - safe_go.
  - intros i (J1 & J2 & J3 & J4). unfold ident_wf. cbn -[buf_write].
    rewrite length_buf_write by lia. lia.
  - intros i (J1 & J2 & J3 & J4). unfold ident_wf. cbn. lia.
Qed.

Hint Resolve safe_generate_and_store : safe.

Lemma safe_generate_key ub : safe device_wf ub generate_key.
Proof. safe_go. Qed.

Lemma device_wf_cert n der d :
  device_wf d -> (n <= IDENTITY_CERT_MAX)%nat -> (length der <= IDENTITY_CERT_MAX)%nat ->
  device_wf (set_cert_der (buf_write 0 der (id_cert_der (d_ident d))) (set_cert_der_len n d)).
Proof.
  intros Hd Hn Hl. apply (device_wf_ident (fun i =>
    {| id_cert_der := buf_write 0 der (id_cert_der (d_ident d)); id_cert_der_len := n;
       id_priv_raw := id_priv_raw i; id_priv_raw_len := id_priv_raw_len i; id_key := id_key i |}) d Hd).
  assert (Hc : length (id_cert_der (d_ident d)) = IDENTITY_CERT_MAX) by apply Hd.
  intros i (J1 & J2 & J3 & J4). unfold ident_wf. cbn -[buf_write].
  rewrite length_buf_write by lia. lia.
Qed.

Lemma safe_cert_steps ub : safe device_wf ub cert_steps.
Proof.
  unfold cert_steps. do 2 (apply safe_bind; [safe_go|intros ?]).
  destruct (negb _); [apply safe_ret|]. do 5 (apply safe_bind; [safe_go|intros ?]).
  destruct (negb _); [apply safe_ret|]. apply safe_wp. intros s Hd.
  apply wp_bind, wp_call. intros [ret der] w E. cbn [s_dev s_env].
  destruct (der_length _ _ _ _ _ E) as [Hl Hr].
  destruct (ret <? 0) eqn:E0; [by apply wp_ret|]. zbool.
  apply wp_bind, wp_put, wp_bind, wp_getd, wp_bind, wp_guard.
  { assert (length (id_cert_der (d_ident (s_dev s))) = IDENTITY_CERT_MAX) by apply Hd.
    unfold buf_fits. apply Nat.leb_le. cbn [s_dev]. cbn. lia. }
  apply wp_bind, wp_put, wp_bind, wp_getd, wp_call. cbn [s_dev s_env]. intros err w2 _.
  by apply (device_wf_cert (Z.to_nat ret) der (s_dev s)); [|lia|].
Qed.

Lemma device_wf_cert_reset d : device_wf d -> device_wf (set_cert_der_len 0 d).
Proof.
  intros Hd. apply device_wf_ident; [done|]. intros i (J1 & J2 & J3 & J4). unfold ident_wf.
  cbn. lia.
Qed.

Hint Resolve safe_generate_key safe_cert_steps device_wf_cert_reset : safe.

Lemma safe_identity ub : safe device_wf ub pouch_prov_identity_ensure.
Proof. safe_go. Qed.

Lemma safe_set_device_name ub : safe device_wf ub set_device_name.
Proof. apply safe_wp. intros s Hd. by apply wp_set_device_name. Qed.

Hint Resolve safe_identity safe_set_device_name : safe.

Lemma safe_mgr_start ub : safe device_wf ub pouch_prov_mgr_start.
Proof. safe_go. Qed.

Lemma safe_mgr_stop ub : safe device_wf ub pouch_prov_mgr_stop.
Proof. safe_go. Qed.

Lemma safe_mgr_reset ub : safe device_wf ub pouch_prov_mgr_reset.
Proof. safe_go. Qed.

Lemma safe_mgr_init ub cfg : safe device_wf ub (pouch_prov_mgr_init cfg).
Proof. safe_go. Qed.

Hint Resolve safe_mgr_start safe_mgr_stop safe_mgr_reset safe_mgr_init : safe.

(** ** The handlers *)

(** The secret is not set while a request is handled, or the run is undefined. *)
Definition with_pop (p : option (list byte)) (d : device) : Prop :=
  device_wf d /\ cfg_pop (pouch_prov_config_get d) = p.

Lemma safe_hmac p tag x y : safe (with_pop p) (p = None) (hmac_proof tag x y).
Proof.
  intros s [Hd Hp]. destruct p as [k|].
  - assert (H : wp (hmac_proof tag x y) (fun _ s' => with_pop (Some k) (s_dev s')) s).
    { apply wp_hmac_dev; [by rewrite Hp|]. by intros r w _. }
    unfold wp in H. by destruct (hmac_proof tag x y s) as [[a s']|].
  - unfold hmac_proof, mbind, get, mget. by rewrite Hp.
Qed.

Hint Resolve safe_hmac : safe.

Lemma safe_handle_auth p req n :
  safe (with_pop p) (p = None) (pouch_prov_handle_auth req n).
Proof. safe_go. Qed.

Hint Resolve safe_do_apply : safe.

Lemma safe_handle_ctrl ub req n : safe device_wf ub (pouch_prov_handle_ctrl req n).
Proof. safe_go. Qed.

Lemma safe_handle_cred ub req n : safe device_wf ub (pouch_prov_handle_cred req n).
Proof. safe_go. Qed.

Lemma safe_handle_ver ub req n : safe device_wf ub (pouch_prov_handle_ver req n).
Proof. safe_go. Qed.

Hint Resolve device_wf_count : safe.

Lemma safe_do_start ub : safe device_wf ub do_start.
Proof. safe_go. Qed.

Context {CX : CodecDecLaws CD}.
Hypothesis scan_32 : Z.of_nat SCAN_MAX < 4294967296.

Lemma safe_handle_scan ub req n : safe device_wf ub (pouch_prov_handle_scan req n).
Proof.
  unfold pouch_prov_handle_scan. destruct (cbor_decode_scan_req req) as [r|] eqn:E; [|safe_go].
  pose proof (decode_scan_req_sound _ _ E) as Hr. destruct r as [| |g]; [|safe_go|].
  - apply safe_bind; [apply safe_do_start|]. intros rc. apply safe_ret.
  - apply safe_results; [done|]. apply Hr.
Qed.

(** What a handler of the device runs into. *)
Definition hazard (h : handler_id) (s : st) : Prop :=
  match h with
  | pouch_prov_handle_auth_p => cfg_pop (pouch_prov_config_get (s_dev s)) = None
  | pouch_prov_handle_config_p => status_hazard s
  | _ => False
  end.

(** The end of a run from one state. *)
Definition ends_safe {A} (ub : Prop) (m : C A) (s : st) : Prop :=
  match m s with Some (_, s') => device_wf (s_dev s') | None => ub end.

Lemma ends_safe_of {A} ub (m : C A) s :
  safe device_wf ub m -> device_wf (s_dev s) -> ends_safe ub m s.
Proof. intros H. apply H. Qed.

Lemma ends_safe_bind {A B} ub (m : C A) (k : A -> C B) s :
  ends_safe ub m s -> (forall a, safe device_wf ub (k a)) -> ends_safe ub (mbind m k) s.
Proof.
  unfold ends_safe, mbind. intros H Hk. destruct (m s) as [[a s']|]; [|done]. by apply Hk.
Qed.

Lemma ends_safe_get {A B} ub (f : device -> A) (k : A -> C B) s :
  ends_safe ub (k (f (s_dev s))) s -> ends_safe ub (x <- get f ;; k x) s.
Proof. done. Qed.

Lemma handle_config_safe req n s :
  device_wf (s_dev s) -> ends_safe (status_hazard s) (pouch_prov_handle_config req n) s.
Proof.
  intros Hd. unfold pouch_prov_handle_config. destruct (cbor_decode_config_req req) as [[| |]|].
  - unfold ends_safe. destruct (encode_status n s) as [[r s']|] eqn:E.
    + eapply device_wf_core; [|done]. by apply (status_frame n _ _ _ E).
    + by apply status_undefined_iff in E.
  - apply ends_safe_of; [|done]. safe_go.
  - apply ends_safe_of; [|done]. safe_go.
  - apply ends_safe_of; [apply safe_ret|done].
Qed.

Lemma run_handler_safe h req n s :
  device_wf (s_dev s) -> ends_safe (hazard h s) (run_handler h req n) s.
Proof.
  intros Hd. destruct h; cbn [run_handler hazard].
  - apply ends_safe_of; [apply safe_handle_ver|done].
  - pose proof (safe_handle_auth _ req n s (conj Hd eq_refl)) as H. unfold ends_safe.
    destruct (pouch_prov_handle_auth req n s) as [[r s']|]; [apply H|done].
  - apply ends_safe_of; [apply safe_handle_ctrl|done].
  - by apply handle_config_safe.
  - apply ends_safe_of; [apply safe_handle_scan|done].
  - apply ends_safe_of; [apply safe_handle_cred|done].
Qed.

(** ** Events *)

Lemma safe_respond_status ub path op stt : safe device_wf ub (respond_status path op stt).
Proof. safe_go. Qed.

Lemma process_safe ep s :
  device_wf (s_dev s) -> ends_safe (hazard (ep_handler ep) s) (process ep) s.
Proof.
  intros Hd. unfold process. apply ends_safe_get. destruct (act_overflow (d_active (s_dev s))).
  { apply ends_safe_of; [apply safe_respond_status|done]. }
  do 2 apply ends_safe_get. destruct (_ && _).
  { apply ends_safe_of; [apply safe_respond_status|done]. }
  apply ends_safe_bind; [by apply run_handler_safe|]. intros [|]; safe_go.
Qed.

(** A chunk is appended, or the overflow noted, and nothing else happens. *)
Lemma append_chunk_ends data s :
  device_wf (s_dev s) ->
  exists a, append_chunk data s = Some (tt, at_dev (set_active (fun _ => a) (s_dev s)) s) /\
    device_wf (set_active (fun _ => a) (s_dev s)).
Proof.
  destruct s as [d w]. intros Hd. cbn [s_dev] in *.
  destruct Hd as ((B1 & B2) & H2 & H3 & H4 & H5 & H6).
  unfold append_chunk, mbind, get, mget. cbn [s_dev].
  destruct (_ <? _)%nat eqn:E; zbool.
  - eexists. split; [reflexivity|]. by split_and!.
  - unfold mguard, buf_fits. rewrite (proj2 (Nat.leb_le _ _)) by lia.
    eexists. split; [reflexivity|]. split_and!; try done. split; cbn -[buf_write].
    + rewrite length_buf_write; lia.
    + lia.
Qed.

(** The one event that can be undefined is the last piece of a request whose
    handler is. *)
Definition event_hazard (e : event) (s : st) : Prop :=
  match e with
  | EvDownlinkData sid data last =>
      sid = 0 /\ last = true /\
      exists ep, act_endpoint (d_active (s_dev s)) = Some ep /\ hazard (ep_handler ep) s
  | _ => False
  end.

Lemma downlink_data_safe sid data last s :
  device_wf (s_dev s) ->
  ends_safe (event_hazard (EvDownlinkData sid data last) s) (downlink_data sid data last) s.
Proof.
  intros Hd. unfold downlink_data. apply ends_safe_get.
  destruct (act_endpoint (d_active (s_dev s))) as [ep|] eqn:Eep; [|done].
  destruct (sid =? 0) eqn:Es; cbn [negb]; [|done]. zbool.
  destruct (append_chunk_ends data s Hd) as (a & Ea & Ha). unfold ends_safe, mbind at 1. rewrite Ea.
  destruct last; cbn [negb]; [|done].
  unfold mbind. cbn [put mmod]. set (s1 := {| s_dev := _; s_env := _ |}).
  assert (H1 : device_wf (s_dev s1)) by exact Ha.
  pose proof (process_safe ep s1 H1) as Hp. unfold ends_safe in Hp.
  destruct (process ep s1) as [[[] s2]|]; [done|]. split_and!; [done|done|]. by exists ep.
Qed.

Lemma device_wf_len d : device_wf d -> device_wf (set_act_len 0 d).
Proof.
  intros ((B1 & B2) & H2 & H3 & H4 & H5 & H6). split_and!; try done.
  split; [done|apply Nat.le_0_l].
Qed.

Hint Resolve device_wf_len safe_respond_status : safe.

Lemma safe_downlink_start ub sid path ct : safe device_wf ub (downlink_start sid path ct).
Proof. safe_go. Qed.

Hint Resolve safe_downlink_start safe_connect_result safe_retry : safe.

Lemma handle_safe e s :
  enabled e (s_dev s) -> device_wf (s_dev s) -> ends_safe (event_hazard e s) (handle e) s.
Proof.
  intros He Hd. destruct e as [| | | | | |[r|]| | | | | | | | |]; handle_cbn.
  2: by apply downlink_data_safe.
  6: apply ends_safe_of; [by apply safe_on_result|done].
  all: apply ends_safe_of; [unfold ignore; safe_go|done].
Qed.

Lemma device_wf_reachable flags s : reachable flags s -> device_wf (s_dev s).
Proof.
  induction 1 as [w|s s' Hr IH Hs]; [apply device_wf_boot|]. destruct Hs as [e s s' He E|s w]; [|done].
  pose proof (handle_safe e s He IH) as H. unfold ends_safe in H. by rewrite E in H.
Qed.

(** C7: In every reachable state every call into the library runs to its end and
    leaves every buffer, length and index within its array, whatever the
    clients, the network stack and the services do and in whatever order. The
    two exceptions are the last piece of a request to .prov/auth on a device
    without a secret, and of one to .prov/config while the device reports
    "connected" and the interface status names a network. *)
Theorem events_run_safely flags e s :
  reachable flags s -> enabled e (s_dev s) -> ~ event_hazard e s ->
  exists s', handle e s = Some (tt, s') /\ reachable flags s' /\ device_wf (s_dev s').
Proof.
  intros Hr He Hn. pose proof (handle_safe e s He (device_wf_reachable flags s Hr)) as H.
  unfold ends_safe in H. destruct (handle e s) as [[[] s']|] eqn:E; [|done].
  exists s'. split_and!; [done| |done]. by eapply reach_step; [|eapply step_event].
Qed.
End Invariant.

(** ** At concrete inputs *)

(** A status poll on the running device, which is not connected. *)
Definition sim_poll : st := Eval vm_compute in
  run_state (handle (EvDownlinkStart 0 ".prov/config" 60)) sim_ready.

Lemma sim_poll_eq : handle (EvDownlinkStart 0 ".prov/config" 60) sim_ready = Some (tt, sim_poll).
Proof. vm_cast_no_check (eq_refl (Some (tt, sim_poll))). Qed.

Lemma sim_poll_reachable : reachable 0 sim_poll.
Proof.
  apply (reachable_event 0 (EvDownlinkStart 0 ".prov/config" 60) sim_ready);
    [exact sim_ready_reachable|reflexivity|exact sim_poll_eq].
Qed.

Lemma events_run_safely_witness :
  exists s', handle (EvDownlinkData 0 [x81; x00] true) sim_poll = Some (tt, s') /\
    reachable 0 s' /\ device_wf (s_dev s').
Proof.
  assert (H32 : Z.of_nat SCAN_MAX < 4294967296) by reflexivity.
  apply (events_run_safely H32 0 (EvDownlinkData 0 [x81; x00] true) sim_poll).
  - exact sim_poll_reachable.
  - reflexivity.
  - intros (_ & _ & ep & [= <-] & Hst & _). discriminate Hst.
Defined.
