(* ===== verification/Replies.v ===== *)
(** * What a request is answered with

    A request leaves at most one response in the queue, the others stay as
    they are unless the session ends, and a request that is not understood gets
    a status reply only when the operation code read from it can be encoded. *)

From S2P Require Import Prelude ProvTypes Zcbor Schema Codec Platform State Frame Rpc Session.
From S2P Require Import Auth CredStore CredHandler WifiScan WifiConfig Version Adv Identity Manager.
From S2P Require Import Ctrl Dispatch System Frames Instances DispatchSpec Lifecycle.

Section Replies.
Context {KC : Kconfig} {K : Kernel} {P : Platform} {CD : Codec}.

(** ** The queue across a handler *)

Definition same_queue : device -> device -> Prop := same queued.

Lemma steps_other_queue h req n :
  h <> pouch_prov_handle_ctrl_p -> steps same_queue (run_handler h req n).
Proof.
  intros Hh. eapply (steps_mono (same io)); [by apply handler_io_frame|].
  unfold same_queue, same, queued. by intros d d' [= _ ->].
Qed.

(** ** The response *)

(** What the device may answer: nothing, or one message that fits the buffers. *)
Definition reply_to (path : string) (l : list rpc_rsp) : Prop :=
  l = [] \/ exists msg, l = [{| rsp_path := path; rsp_msg := msg |}] /\
              (length msg <= POUCH_PROV_MSG_MAX)%nat.

(** The queue after a function that queues at most one response. *)
Definition adds_reply (path : string) (d d' : device) : Prop :=
  exists l, queued d' = queued d ++ l /\ reply_to path l.

Lemma adds_nothing path d d' : queued d' = queued d -> adds_reply path d d'.
Proof. intros H. exists []. rewrite app_nil_r. split; [done|by left]. Qed.

Lemma enqueue_adds path msg s r s' :
  pouch_prov_rpc_enqueue path msg s = Some (r, s') -> adds_reply path (s_dev s) (s_dev s').
Proof.
  intros E. refine (wp_run _ (fun _ s' => adds_reply path (s_dev s) (s_dev s')) _ _ _ E _).
  apply wp_enqueue. intros w' rc d' _ [(_ & Hl & Hq & _)|[_ ->]]; [|by apply adds_nothing].
  eexists. split; [exact Hq|]. right. by exists msg.
Qed.

Lemma respond_adds path op stt s s' :
  respond_status path op stt s = Some (tt, s') -> adds_reply path (s_dev s) (s_dev s').
Proof.
  unfold respond_status. destruct (cbor_encode_ctrl_rsp _ _) as [buf|].
  - intros (r & s1 & E & [= <-])%mbind_inv. by eapply enqueue_adds.
  - intros [= <-]. by apply adds_nothing.
Qed.

(** ** The end of the session *)

(** The bytes the handler is given once the last chunk has come, unless the
    request is longer than the buffer. *)
Definition received (data : list byte) (d : device) : option (list byte) :=
  if act_overflow (d_active d) || (POUCH_PROV_MSG_MAX <? act_len (d_active d) + length data)%nat
  then None else Some (request d ++ data).

(** The request is an end request that the running device serves. *)
Definition ends_session (ep : pouch_prov_endpoint) (o : option (list byte)) (d : device) : bool :=
  match o with
  | Some req =>
      bool_decide (ep_handler ep = pouch_prov_handle_ctrl_p) &&
      (negb (ep_require_auth ep) || pouch_prov_session_authorized d) &&
      match cbor_decode_ctrl_req req with Some ctrl_req_ctrl_end_m => true | _ => false end &&
      mg_running (d_mgr d)
  | None => false
  end.

(** The queue a request leaves behind: the responses that waited, dropped only
    with the session, and at most one more. *)
Definition answered (ep : pouch_prov_endpoint) (o : option (list byte)) (d d' : device) : Prop :=
  exists l, queued d' = (if ends_session ep o d then [] else queued d) ++ l /\
    reply_to (ep_path ep) l.

Lemma adds_answered ep o d d1 d2 :
  queued d1 = (if ends_session ep o d then [] else queued d) ->
  adds_reply (ep_path ep) d1 d2 -> answered ep o d d2.
Proof. intros H (l & Hq & Hl). exists l. by rewrite <- H. Qed.

Lemma steps_ctrl_action_queue r : steps same_queue (ctrl_action r).
Proof. steps_go. Qed.

Context {CL : CodecEncLaws CD}.

Lemma ctrl_queue req n s r s' :
  (3 <= n)%nat -> pouch_prov_handle_ctrl req n s = Some (r, s') ->
  queued (s_dev s') =
    if match cbor_decode_ctrl_req req with Some ctrl_req_ctrl_end_m => true | _ => false end &&
       mg_running (d_mgr (s_dev s)) then [] else queued (s_dev s).
Proof.
  intros Hn E. unfold pouch_prov_handle_ctrl in E.
  destruct (cbor_decode_ctrl_req req) as [[]|] eqn:Ed; [| | |by injection E as _ <-].
  1, 2: apply mbind_inv in E as (op & s1 & E1 & E); pose proof (steps_ctrl_action_queue _ _ _ _ E1) as H1;
    cbn [ctrl_action] in E1; repeat (apply mbind_inv in E1 as (? & ? & _ & E1));
    injection E1 as <- <-; injection E as _ <-; exact H1.
  apply mbind_inv in E as (op & s1 & [= <- <-] & E).
  rewrite encode_ctrl_rsp_law in E by (unfold ctrl_rsp_ok; cbn; unfold OP_CTRL_END; lia).
  change (ctrl_rsp_item _) with (op_status_item OP_CTRL_END prov_status_status_ok_m_c) in E.
  rewrite fit_some in E by (rewrite op_status_len by (unfold OP_CTRL_END; lia); done).
  cbn [andb Z.eqb] in E. change ((OP_CTRL_END =? OP_CTRL_END) && true) with true in E.
  cbn [mwhen] in E. apply mbind_inv in E as ([] & s2 & E1 & [= _ <-]).
  apply mbind_inv in E1 as (rc & s3 & E1 & [= <-]).
  destruct (mg_running (d_mgr (s_dev s))) eqn:Er.
  - refine (wp_run _ (fun _ s' => queued (s_dev s') = []) _ _ _ E1 _).
    apply wp_mgr_stop; [done|]. intros d' w' (_ & (_ & _ & Hq & _) & _) _ _. exact Hq.
  - unfold pouch_prov_mgr_stop in E1. apply mbind_inv in E1 as (run & s4 & [= <- <-] & E1).
    rewrite Er in E1. by injection E1 as _ <-.
Qed.

Lemma run_handler_queue ep s r s' :
  run_handler (ep_handler ep) (request (s_dev s)) POUCH_PROV_MSG_MAX s = Some (r, s') ->
  ep_require_auth ep && negb (pouch_prov_session_authorized (s_dev s)) = false ->
  queued (s_dev s') =
    if ends_session ep (Some (request (s_dev s))) (s_dev s) then [] else queued (s_dev s).
Proof.
  intros E Ha. unfold ends_session.
  assert (Ha' : negb (ep_require_auth ep) || pouch_prov_session_authorized (s_dev s) = true)
    by (destruct (ep_require_auth ep), (pouch_prov_session_authorized (s_dev s)); done).
  rewrite Ha', andb_true_r. case_bool_decide as Hc.
  - rewrite Hc in E. apply ctrl_queue in E; [exact E|]. unfold POUCH_PROV_MSG_MAX. lia.
  - exact (steps_other_queue _ _ _ Hc _ _ _ E).
Qed.

Lemma process_answered ep s s' :
  process ep s = Some (tt, s') ->
  answered ep (if act_overflow (d_active (s_dev s)) then None else Some (request (s_dev s)))
    (s_dev s) (s_dev s').
Proof.
  intros (over & s1 & [= <- <-] & E)%mbind_inv.
  destruct (act_overflow (d_active (s_dev s))).
  { eapply adds_answered; [reflexivity|by eapply respond_adds]. }
  apply mbind_inv in E as (auth & s1 & [= <- <-] & E).
  apply mbind_inv in E as (req & s1 & [= <- <-] & E). destruct (_ && _) eqn:Ha.
  { eapply (adds_answered _ _ _ (s_dev s)); [|by eapply respond_adds]. unfold ends_session.
    apply andb_true_iff in Ha as [-> Ha]. apply negb_true_iff in Ha as ->.
    by rewrite andb_false_r. }
  apply mbind_inv in E as (r & s1 & E1 & E). apply run_handler_queue in E1; [|done].
  apply (adds_answered ep _ _ (s_dev s1)); [exact E1|]. destruct r as [rsp|err].
  - destruct (0 <? length rsp)%nat; cbn [mwhen] in E.
    + apply mbind_inv in E as (r & s2 & E & [= <-]). by eapply enqueue_adds.
    + injection E as <-. by apply adds_nothing.
  - apply mbind_inv in E as (req & s2 & [= <- <-] & E). by eapply respond_adds.
Qed.

Lemma append_chunk_received data s s1 :
  append_chunk data s = Some (tt, s1) ->
  (exists f, s_dev s1 = set_active f (s_dev s)) /\ 
  (if act_overflow (d_active (s_dev s1)) then None else Some (request (s_dev s1))) =
    received data (s_dev s).
Proof.
  intros E. apply mbind_inv in E as (a & s2 & [= <- <-] & E). unfold received.
  destruct (_ <? _)%nat eqn:El in E.
  - rewrite El, orb_true_r. injection E as <-. split; [by eexists|done].
  - rewrite El, orb_false_r. apply mbind_inv in E as (u & s2 & Eg & E).
    unfold mguard in Eg. destruct (buf_fits _ _ _) eqn:Ef; [|done]. injection Eg as _ <-.
    apply mbind_inv in E as (v & s3 & [= _ <-] & E). injection E as <-. split.
    { cbn [s_dev]. by exists (fun a => {| act_endpoint := act_endpoint a;
        act_len := act_len a + length data; act_overflow := act_overflow a;
        act_buf := buf_write (act_len (d_active (s_dev s))) data (act_buf (d_active (s_dev s))) |}). }
    cbn [s_dev]. unfold request. cbn -[buf_write].
    destruct (act_overflow (d_active (s_dev s))); [done|]. f_equal. apply take_buf_write.
    unfold buf_fits in Ef. by zbool.
Qed.

(** C14: A complete request, whatever its bytes and however its handler fares,
    adds at most one response to the queue: it carries the endpoint's path and
    fits the message buffers. The responses that waited stay in front of it in
    their order, whatever the request, with one exception: an end request to
    .prov/ctrl that the running device serves drops them with the session, so
    of the requests of one pouch those before an "end" go unanswered. *)
Theorem one_reply_per_request ep data s s' :
  act_endpoint (d_active (s_dev s)) = Some ep ->
  downlink_data 0 data true s = Some (tt, s') ->
  answered ep (received data (s_dev s)) (s_dev s) (s_dev s').
Proof.
  intros He (ep' & s0 & [= <- <-] & E)%mbind_inv. rewrite He in E.
  change (negb (0 =? 0)) with false in E. cbv beta iota in E.
  apply mbind_inv in E as ([] & s1 & E1 & E). cbn [negb] in E.
  apply mbind_inv in E as (v & s2 & [= _ <-] & E).
  apply append_chunk_received in E1 as ([f Hd] & <-).
  apply process_answered in E. cbn [s_dev] in E. unfold answered in *. rewrite Hd in *. exact E.
Qed.

(** ** Requests that are not understood *)

(** The endpoint's decoder refuses the bytes. *)
Definition malformed (h : handler_id) (req : list byte) : bool :=
  match h with
  | pouch_prov_handle_ver_p => negb (cbor_decode_ver_req req)
  | pouch_prov_handle_auth_p => match cbor_decode_auth_req req with None => true | _ => false end
  | pouch_prov_handle_ctrl_p => match cbor_decode_ctrl_req req with None => true | _ => false end
  | pouch_prov_handle_config_p => match cbor_decode_config_req req with None => true | _ => false end
  | pouch_prov_handle_scan_p => match cbor_decode_scan_req req with None => true | _ => false end
  | pouch_prov_handle_cred_p => match cbor_decode_cred_req req with None => true | _ => false end
  end.

Lemma malformed_refused h req n s :
  malformed h req = true -> run_handler h req n s = Some (HErr (- EBADMSG), s).
Proof.
  destruct h; cbn [malformed run_handler]; intros H.
  - unfold pouch_prov_handle_ver. by rewrite H.
  - unfold pouch_prov_handle_auth. by destruct (cbor_decode_auth_req req).
  - unfold pouch_prov_handle_ctrl. by destruct (cbor_decode_ctrl_req req).
  - unfold pouch_prov_handle_config. by destruct (cbor_decode_config_req req).
  - unfold pouch_prov_handle_scan. by destruct (cbor_decode_scan_req req).
  - unfold pouch_prov_handle_cred. by destruct (cbor_decode_cred_req req).
Qed.

(** C15: A request that its decoder refuses changes nothing but the response
    queue. The handler returns -EBADMSG, and the dispatcher answers with
    [[op, invalid-argument]] for the operation code it reads from the request's
    first two bytes when that is 0, 1 or 2; it reads 0 where it finds no small
    code, so codes of 24 and more are answered as operation 0. For the codes 3 to
    23 the error reply cannot be encoded and the client gets no answer at all. *)
Theorem malformed_request_answered ep s :
  act_overflow (d_active (s_dev s)) = false ->
  (ep_require_auth ep = true -> pouch_prov_session_authorized (s_dev s) = true) ->
  malformed (ep_handler ep) (request (s_dev s)) = true ->
  wp (process ep) (fun _ s' =>
    same_but_rpc (s_dev s) (s_dev s') /\
    queued (s_dev s') = queued (s_dev s) ++
      status_queued (ep_path ep) (peek_op (request (s_dev s)))
        prov_status_status_invalid_argument_m_c s /\
    (2 < peek_op (request (s_dev s)) -> queued (s_dev s') = queued (s_dev s))) s.
Proof.
  intros Hov Hau Hm. unfold process. apply wp_bind, wp_getd. rewrite Hov.
  apply wp_bind, wp_getd, wp_bind, wp_getd.
  assert (Hg : ep_require_auth ep && negb (pouch_prov_session_authorized (s_dev s)) = false).
  { destruct (ep_require_auth ep); [by rewrite Hau|done]. }
  rewrite Hg. apply wp_bind. unfold wp at 1. rewrite malformed_refused by done.
  apply wp_bind, wp_getd. rewrite Z.eqb_refl. apply wp_respond_status; [apply peek_op_range|].
  intros d' w' H1 H2. split_and!; [done|done|]. intros H. cbn [s_dev]. rewrite H2. unfold status_queued.
  rewrite (proj2 (Z.leb_gt _ _)) by done. by rewrite app_nil_r.
Qed.
End Replies.

(** ** At concrete inputs *)

(** A version request pending on the running device. *)
Definition sim_ver_pending : st := Eval vm_compute in
  run_state (handle (EvDownlinkStart 0 ".prov/ver" 60)) sim_ready.
Definition sim_ver_done : st := Eval vm_compute in
  run_state (handle (EvDownlinkData 0 [x81; x00] true)) sim_ver_pending.

(** An end request pending, behind a reply that waits. *)
Definition sim_end_pending : st := Eval vm_compute in
  run_state (downlink_start 0 ".prov/ctrl" POUCH_CONTENT_TYPE_CBOR)
    {| s_dev := set_authorized true (s_dev sim_queued); s_env := s_env sim_queued |}.
Definition sim_end_done : st := Eval vm_compute in
  run_state (downlink_data 0 [x81; x02] true) sim_end_pending.

Lemma sim_end_drops :
  map (fun s => length (queued (s_dev s))) [sim_end_pending; sim_end_done] = [1; 1]%nat /\
  map rsp_msg (queued (s_dev sim_end_done)) = [end_reply].
Proof. split; vm_compute; reflexivity. Qed.

Lemma one_reply_per_request_witness :
  answered ver_ep (Some [x81; x00]) (s_dev sim_ver_pending) (s_dev sim_ver_done) /\
  answered ctrl_ep (Some [x81; x02]) (s_dev sim_end_pending) (s_dev sim_end_done).
Proof.
  split.
  - apply (one_reply_per_request ver_ep [x81; x00] sim_ver_pending).
    + reflexivity.
    + vm_cast_no_check (eq_refl (Some (tt, sim_ver_done))).
  - apply (one_reply_per_request ctrl_ep [x81; x02] sim_end_pending).
    + reflexivity.
    + vm_cast_no_check (eq_refl (Some (tt, sim_end_done))).
Defined.

(** A request with the unknown operation 7. *)
Definition sim_ver_bad : st := Eval vm_compute in
  run_state (handle (EvDownlinkData 0 [x81; x07] false)) sim_ver_pending.

Lemma malformed_request_answered_witness :
  wp (process ver_ep) (fun _ s' =>
    same_but_rpc (s_dev sim_ver_bad) (s_dev s') /\
    queued (s_dev s') = queued (s_dev sim_ver_bad) ++
      status_queued (ep_path ver_ep) (peek_op (request (s_dev sim_ver_bad)))
        prov_status_status_invalid_argument_m_c sim_ver_bad /\
    (2 < peek_op (request (s_dev sim_ver_bad)) ->
       queued (s_dev s') = queued (s_dev sim_ver_bad))) sim_ver_bad.
Proof.
  apply (malformed_request_answered ver_ep sim_ver_bad).
  - reflexivity.
  - discriminate.
  - vm_compute. reflexivity.
Defined.
