(* ===== verification/WorldFrame.v ===== *)
(** * What a function leaves alone of the outside world

    [off obs m]: a run of [m] leaves the observation [obs] of the world as it
    was.  [MessageServices obs] says so of the services that handling a request
    needs (memory, uplink entries, randomness, MACs), and the calculus extends
    it to the functions built on them. *)

From S2P Require Import Prelude ProvTypes Codec Platform State Frame Rpc Session Auth WifiConfig.
From S2P Require Import Version Dispatch.

Create HintDb off.

Section WorldFrame.
Context {K : Kernel} {P : Platform} {T : Type} (obs : W -> T).

Definition off {A} (m : C A) : Prop :=
  forall s a s', m s = Some (a, s') -> obs (s_env s') = obs (s_env s).

Lemma off_ret {A} (a : A) : off (mret a).
Proof. by intros s b s' [= _ <-]. Qed.

Lemma off_ub {A} : off (mub (A := A)).
Proof. done. Qed.

Lemma off_guard c : off (mguard c).
Proof. destruct c; [apply off_ret|apply off_ub]. Qed.

Lemma off_bind {A B} (m : C A) (k : A -> C B) : off m -> (forall a, off (k a)) -> off (mbind m k).
Proof.
  intros Hm Hk s b s' (a & s1 & E1 & E2)%mbind_inv. by rewrite (Hk _ _ _ _ E2), (Hm _ _ _ E1).
Qed.

Lemma off_get {A} (f : device -> A) : off (get f).
Proof. by intros s b s' [= _ <-]. Qed.

Lemma off_ask {A} (f : W -> A) : off (ask f).
Proof. by intros s b s' [= _ <-]. Qed.

Lemma off_put f : off (put f).
Proof. by intros s b s' [= _ <-]. Qed.

Lemma off_call {A} (f : W -> A * W) :
  (forall w a w', f w = (a, w') -> obs w' = obs w) -> off (call f).
Proof. intros H s a s'. unfold call. destruct (f (s_env s)) eqn:E. intros [= _ <-]. by eapply H. Qed.

Lemma off_call_ f : (forall w, obs (f w) = obs w) -> off (call_ f).
Proof. intros H. apply off_call. by intros w a w' [= _ <-]. Qed.

Lemma off_when (c : bool) m : off m -> off (mwhen c m).
Proof. intros H. destruct c; [done|apply off_ret]. Qed.

(** A run with the observation as before. *)
Lemma wp_off {A} (m : C A) (Q : A -> st -> Prop) s :
  off m -> wp m (fun a s' => obs (s_env s') = obs (s_env s) -> Q a s') s -> wp m Q s.
Proof.
  intros Hm. unfold wp. destruct (m s) as [[a s']|] eqn:E; [|done]. intros H. by apply H, (Hm _ _ _ E).
Qed.

Lemma off_drain n body : (forall r, off (body r)) -> (forall w, obs (k_free w) = obs w) ->
  off (drain n body).
Proof.
  intros Hb Hf. induction n as [|n IH]; simpl; [apply off_ret|].
  apply off_bind; [apply off_get|]. intros q. destruct (k_fifo_get q) as [[r|] q'].
  - apply off_bind; [apply off_put|]. intros _. apply off_bind; [apply Hb|]. intros _.
    apply off_bind; [by apply off_call_|done].
  - apply off_bind; [apply off_put|]. intros _. apply off_ret.
Qed.
End WorldFrame.

(** The services of the message path do not touch what [obs] sees. *)
Class MessageServices (P : Platform) {T : Type} (obs : W -> T) : Prop := {
  obs_malloc n w r w' : k_malloc n w = (r, w') -> obs w' = obs w;
  obs_free w : obs (k_free w) = obs w;
  obs_uplink p c m w r w' : pouch_uplink_entry_write p c m w = (r, w') -> obs w' = obs w;
  obs_rand n w r w' : sys_rand_get n w = (r, w') -> obs w' = obs w;
  obs_import u k w r w' : psa_import_key u k w = (r, w') -> obs w' = obs w;
  obs_setup id w r w' : psa_mac_sign_setup id w = (r, w') -> obs w' = obs w;
  obs_update op x w r w' : psa_mac_update op x w = (r, w') -> obs w' = obs w;
  obs_finish op n w r w' : psa_mac_sign_finish op n w = (r, w') -> obs w' = obs w;
  obs_abort op w : obs (psa_mac_abort op w) = obs w;
  obs_destroy id w : obs (psa_destroy_key id w) = obs w;
}.

#[export] Hint Resolve obs_malloc obs_free obs_uplink obs_rand obs_import obs_setup obs_update
  obs_finish obs_abort obs_destroy : off.

Ltac off_step :=
  lazymatch goal with
  | |- off _ (mbind _ _) => apply off_bind; [|intros ?]
  | |- off _ (mret _) => apply off_ret
  | |- off _ mub => apply off_ub
  | |- off _ (mguard _) => apply off_guard
  | |- off _ (get _) => apply off_get
  | |- off _ (ask _) => apply off_ask
  | |- off _ (put _) => apply off_put
  | |- off _ (mwhen _ _) => apply off_when
  | |- off _ (call_ _) => apply off_call_; solve [eauto with off]
  | |- off _ (call _) => apply off_call; solve [eauto with off]
  | |- off _ (match ?x with _ => _ end) => destruct x
  | |- off ?o ?m => first
      [ solve [auto with off nocore]
      | let h := head_of m in progress unfold h ]
  end.

Ltac off_go := repeat (off_step; cbv beta).

Section Message.
Context {KC : Kconfig} {K : Kernel} {P : Platform} {CD : Codec}.
Context {T : Type} (obs : W -> T) {MS : MessageServices P obs}.

Lemma off_enqueue path msg : off obs (pouch_prov_rpc_enqueue path msg).
Proof. off_go. Qed.

Lemma off_drain_all_writes : off obs (drain_all uplink_write).
Proof.
  apply off_bind; [apply off_get|]. intros n. apply off_drain; [intros r; off_go|apply obs_free].
Qed.

Lemma off_mac_updates op xs : off obs (mac_updates op xs).
Proof.
  revert op. induction xs as [|x xs IH]; intros op; cbn [mac_updates]; [apply off_ret|].
  apply off_bind; [off_go|]. intros [status op']. destruct (_ =? _); [apply IH|apply off_ret].
Qed.
Hint Resolve off_enqueue off_drain_all_writes off_mac_updates : off.

Lemma off_flush : off obs (rpc_uplink_flush (mret tt)).
Proof. off_go. Qed.

Lemma off_hmac tag x y : off obs (hmac_proof tag x y).
Proof. off_go. Qed.
Hint Resolve off_hmac : off.

Lemma off_handle_ver req n : off obs (pouch_prov_handle_ver req n).
Proof. off_go. Qed.

Lemma off_handle_auth req n : off obs (pouch_prov_handle_auth req n).
Proof. off_go. Qed.

Lemma off_do_set c : off obs (do_set c).
Proof. off_go. Qed.
End Message.
#[export] Hint Resolve off_enqueue off_drain_all_writes off_mac_updates off_flush off_hmac
  off_handle_ver off_handle_auth off_do_set : off.
