(* ===== verification/FactoryReset.v ===== *)
(** * Factory reset

    [pouch_prov_mgr_reset] forgets what is in RAM whatever the platform returns,
    and empties the stores as far as their deletions succeed: their results are
    ignored. *)

From S2P Require Import Prelude ProvTypes Codec Platform State Frame Rpc Session CredStore.
From S2P Require Import WifiConfig Adv Identity Manager Dispatch System Frames Instances.
From S2P Require Import DispatchSpec AuthSpec CredSpec CredPersist WifiSpec WifiInv Lifecycle WorldFrame.

Section FactoryReset.
Context {KC : Kconfig} {K : Kernel} {P : Platform} {CD : Codec}.
Context {WL : WifiStoreLaws P} {SL : SettingsLaws P}.

(** What is stored of the networks and the credentials. *)
Definition wipe_obs (w : W) : list (list byte) * list (option (list byte)) :=
  (stored_ssids w, map (settings_value w) setting_key).

(** Freeing memory leaves the stores alone, and deleting a credential's setting
    the Wi-Fi credentials. *)
Class WipeServices : Prop := {
  wipe_free w : wipe_obs (k_free w) = wipe_obs w;
  wipe_ssids k w r w' :
    k ∈ setting_key -> settings_delete k w = (r, w') -> stored_ssids w' = stored_ssids w;
}.

Context {WS : WipeServices}.

Lemma off_delete_from keys : (forall key, key ∈ keys -> key ∈ setting_key) -> forall k,
  off stored_ssids (delete_from k keys).
Proof.
  induction keys as [|key keys IH]; intros Hk k; cbn [delete_from]; [apply off_ret|].
  apply off_bind.
  - apply off_call. intros w r w'. apply wipe_ssids, Hk. by left.
  - intros _. unfold get_blob, set_blob. apply off_bind; [off_go|]. intros b.
    apply off_bind; [off_go|]. intros _. apply IH. intros key' H. apply Hk. by right.
Qed.

Lemma off_wipe : off stored_ssids pouch_prov_cred_delete_all.
Proof. apply off_bind; [by apply off_delete_from|]. intros _. apply off_ret. Qed.

Lemma off_rpc_reset : off wipe_obs pouch_prov_rpc_reset.
Proof.
  apply off_bind; [|intros _; apply off_put]. apply off_bind; [apply off_get|]. intros n.
  apply off_drain; [intros r; apply off_ret|apply wipe_free].
Qed.

Lemma wipe_settings w name : name ∈ setting_key ->
  map (settings_value w) setting_key = map (fun _ => None) setting_key ->
  settings_value w name = None.
Proof.
  intros Hin H. assert (Hf : Forall (fun k => settings_value w k = None) setting_key).
  { revert H. generalize setting_key. induction l as [|k l IH]; [done|]. cbn. intros [= H1 H2].
    constructor; auto. }
  by apply (proj1 (Forall_forall _ _) Hf).
Qed.

(** The Wi-Fi half: everything is forgotten in RAM and the store is asked to
    delete every network. *)
Lemma wp_wifi_reprovision (Q : unit -> st -> Prop) d w :
  (forall err w1, wifi_credentials_delete_all w = (err, w1) ->
     Q tt {| s_dev := with_wifi (wifi_reset (d_wifi d)) d; s_env := w1 |}) ->
  wp pouch_prov_wifi_reprovision Q {| s_dev := d; s_env := w |}.
Proof.
  intros HQ. unfold pouch_prov_wifi_reprovision. apply wp_bind, wp_call. intros err w1 E.
  cbn [s_dev s_env]. unfold wp. rewrite config_reset_eq. by eapply HQ.
Qed.

(** The session's half: it is closed, and the stores are left as they are. *)
Lemma wp_session_reset (Q : Z -> st -> Prop) d w :
  (forall d' w', session_closed d' -> d_wifi d' = d_wifi d -> d_blobs d' = d_blobs d ->
     wipe_obs w' = wipe_obs w -> Q 0 {| s_dev := d'; s_env := w' |}) ->
  wp (pouch_prov_dispatch_reset ;;; pouch_prov_rpc_reset ;;; mret 0) Q {| s_dev := d; s_env := w |}.
Proof.
  intros HQ. apply wp_bind, wp_dispatch_reset, wp_bind, (wp_off wipe_obs); [apply off_rpc_reset|].
  apply wp_rpc_reset. cbn [s_dev s_env]. intros d3 w3 Hd3 Hq _ Ho. apply wp_ret, HQ; [|..|exact Ho].
  all: rewrite Hd3; unfold session_closed, after_dispatch_reset.
  all: destruct CONFIG_POUCH_PROV_AUTH; cbn; split_and?; done.
Qed.

(** C39: A factory reset forgets everything provisioned, whatever was going on. In
    RAM no Wi-Fi configuration is staged or in flight and the state is
    "disconnected", no credential is present or partly received, and the session
    is closed. The Wi-Fi credential store is asked to delete every network, and
    when that returns 0 none is stored; the device reports itself provisioned
    exactly when one is left. When deleting the credentials' settings returns 0, none of the
    three has a value, so that no reboot brings one back. The results are ignored:
    the reset returns 0 also when a deletion fails. *)
Theorem factory_reset_forgets s :
  store_wf (d_blobs (s_dev s)) ->
  CONFIG_POUCH_PROV_WIFI = true -> CONFIG_POUCH_PROV_CRED = true ->
  wp pouch_prov_mgr_reset (fun rc s' => rc = 0 /\ session_closed (s_dev s') /\
    wifi_idle (s_dev s') /\ ssid_bytes (wc_cfg (d_wifi (s_dev s'))) = [] /\
    wc_sta_state (d_wifi (s_dev s')) = sta_state_sta_disconnected_m_c /\
    (forall kind, pouch_prov_cred_present kind s' = Some (false, s') /\
                  pouch_prov_cred_received kind s' = Some (0%nat, s')) /\
    (exists err w1, wifi_credentials_delete_all (s_env s) = (err, w1) /\
       stored_ssids (s_env s') = stored_ssids w1 /\
       (err = 0 -> stored_ssids (s_env s') = []) /\
       pouch_prov_mgr_is_provisioned s' = Some (bool_decide (stored_ssids w1 <> []), s')) /\
    ((forall name w, (settings_delete name w).1 = 0) ->
       forall name, name ∈ setting_key -> settings_value (s_env s') name = None)) s.
Proof.
  intros Hs Hw Hc. destruct s as [d w]. unfold pouch_prov_mgr_reset. rewrite Hw, Hc. cbn [mwhen].
  apply wp_bind, wp_wifi_reprovision. intros err w1 E.
  set (d1 := with_wifi (wifi_reset (d_wifi d)) d). apply wp_bind, wp_bind.
  apply (wp_off stored_ssids); [apply off_wipe|]. eapply wp_mono.
  { apply (wp_steps (same (fun d => d_wifi d))); [steps_go|]. apply wp_delete_all. exact Hs. }
  intros rc [d2 w2] [(-> & Hwf & Hnone & Hset) Hk] Ho2. cbn [s_dev s_env] in *. unfold same in Hk.
  apply wp_ret, wp_session_reset. intros d3 w3 H1 H2 H3 Ho3. cbn [s_dev s_env].
  pose proof (f_equal snd Ho3) as Hv3. apply (f_equal fst) in Ho3. cbn [wipe_obs fst snd] in *.
  unfold wifi_idle. rewrite H2, Hk.
  split_and!; try done.
  - intros kind. destruct (Hnone kind) as [G1 G2]. unfold pouch_prov_cred_present,
      pouch_prov_cred_received, get_blob, mbind, get, mget in *.
    destruct (kind_valid kind); [|done]. cbn [s_dev] in *. rewrite H3.
    destruct (d_blobs d2 !! Z.to_nat kind) as [b|]; [|done]. unfold mret in *. simplify_eq.
    split; congruence.
  - exists err, w1. assert (Hst : stored_ssids w3 = stored_ssids w1) by congruence.
    split; [done|]. split; [exact Hst|]. split.
    + intros ->. rewrite Hst. by apply (wifi_delete_all_law _ _ E).
    + unfold pouch_prov_mgr_is_provisioned, pouch_prov_wifi_is_provisioned. rewrite Hw, <- Hst.
      unfold mbind, ask, mget, mret. cbn [s_env]. do 2 f_equal.
      pose proof (wifi_is_empty_law w3) as He. destruct (wifi_credentials_is_empty w3).
      * rewrite bool_decide_eq_false_2; [done|]. intros H. by apply H, He.
      * rewrite bool_decide_eq_true_2; [done|]. intros H. by apply He in H.
  - intros Hok name Hin. apply wipe_settings; [done|]. etransitivity; [exact Hv3|].
    apply map_ext_in. intros k Hk'%list_elem_of_In. rewrite Hset by done. by rewrite decide_True.
Qed.
End FactoryReset.

(** ** At a concrete input: networks and credentials stored *)

#[export] Instance sim_wipe : WipeServices (P := sim_platform).
Proof. split; [done|]. by intros k w r w' _ [= _ <-]. Qed.

(** A device with credentials finalized and an attempt in flight. *)
Definition sim_provisioned : st := Eval vm_compute in
  run_state (ignore (do_set sim_home) ;;; ignore do_apply) sim_finalized.

Lemma sim_provisioned_stores :
  stored_ssids (s_env sim_provisioned) = [str "home"] /\
  settings_value (s_env sim_provisioned) "pnp/cred/key" <> None.
Proof. by vm_compute. Qed.

Lemma sim_provisioned_wf : store_wf (d_blobs (s_dev sim_provisioned)).
Proof. exact sim_finalized_wf. Qed.

Lemma factory_reset_forgets_witness :
  wp pouch_prov_mgr_reset (fun rc s' => rc = 0 /\ session_closed (s_dev s') /\
    wifi_idle (s_dev s') /\ ssid_bytes (wc_cfg (d_wifi (s_dev s'))) = [] /\
    wc_sta_state (d_wifi (s_dev s')) = sta_state_sta_disconnected_m_c /\
    (forall kind, pouch_prov_cred_present kind s' = Some (false, s') /\
                  pouch_prov_cred_received kind s' = Some (0%nat, s')) /\
    (exists err w1, wifi_credentials_delete_all (s_env sim_provisioned) = (err, w1) /\
       stored_ssids (s_env s') = stored_ssids w1 /\
       (err = 0 -> stored_ssids (s_env s') = []) /\
       pouch_prov_mgr_is_provisioned s' = Some (bool_decide (stored_ssids w1 <> []), s')) /\
    ((forall name w, (settings_delete name w).1 = 0) ->
       forall name, name ∈ setting_key -> settings_value (s_env s') name = None)) sim_provisioned.
Proof.
  apply (factory_reset_forgets sim_provisioned); [apply sim_provisioned_wf|reflexivity|reflexivity].
Defined.
