(* ===== verification/Client.v ===== *)
(** * A client of the protocol (docs/protocol.md)

    The provisioning client's side of "Client flow", in lockstep with the
    device: one request pouch, one response pouch.  It calls the codec through
    the same headers as the device, checks the device's proof before it shows
    its own, and gives up at the first reply that is not what it asked for.
    Nothing here is code of the repository; Hello.v, Bootstrap.v, Provision.v and
    Survey.v run it against the model of the device. *)

From S2P Require Import Prelude ProvTypes Zcbor Schema Codec Platform State Rpc Session Auth.
From S2P Require Import Version Manager Dispatch System Frame Frames DispatchSpec AuthSpec.
From S2P Require Import Lifecycle WorldFrame.

Section Client.
Context {KC : Kconfig} {K : Kernel} {P : Platform} {CD : Codec} {PH : PsaHmac P}.

(** The entry of a response pouch that answers a request on [path]. *)
Definition reply_on (path : string) (rs : list rpc_rsp) : option (list byte) :=
  match rs with
  | [r] => if String.eqb (rsp_path r) path then Some (rsp_msg r) else None
  | _ => None
  end.

(** One request and the response pouch that follows it. *)
Definition exchange (path : string) (req : list byte) : C (option (list byte)) :=
  request_on path [req] ;;;
  rs <- get queued ;;
  handle EvUplink ;;;
  mret (reply_on path rs).

Definition decoded {A} (dec : list byte -> option A) (rsp : option (list byte)) : option A :=
  match rsp with Some b => dec b | None => None end.

(** An exchange of messages. *)
Definition ask_device {A} (path : string) (req : option (list byte)) (dec : list byte -> option A)
  : C (option A) :=
  match req with
  | Some b => rsp <- exchange path b ;; mret (decoded dec rsp)
  | None => mret None
  end.

(** [.prov/ver]: the device's information, if it speaks this protocol. *)
Definition version_accepted (r : option ver_rsp) : option ver_info :=
  match r with
  | Some r => if bool_decide (ver_rsp_prov_status_m r = prov_status_status_ok_m_c) &&
                 (ver_info_proto (ver_rsp_ver_info_m r) =? PROTO_VERSION)
              then Some (ver_rsp_ver_info_m r) else None
  | None => None
  end.

Definition client_version : C (option ver_info) :=
  rsp <- ask_device POUCH_PROV_PATH_VER (cbor_encode_ver_req POUCH_PROV_MSG_MAX)
           cbor_decode_ver_rsp ;;
  mret (version_accepted rsp).

(** [.prov/auth]: the challenge, and the proof if the device's own proof is right. *)
Definition auth_ask (r : auth_req_r) : C (option auth_rsp_r) :=
  ask_device POUCH_PROV_PATH_AUTH (cbor_encode_auth_req POUCH_PROV_MSG_MAX r) cbor_decode_auth_rsp.

Definition client_proof (pop cli dev : list byte) : auth_req_r :=
  auth_req_auth_proof_m
    {| auth_proof_cli_proof := hmac_sha256 pop (take 3 (str "cli") ++ dev ++ cli) |}.

Definition client_auth (pop nonce : list byte) : C bool :=
  rsp <- auth_ask (auth_req_auth_challenge_m {| auth_challenge_cli_nonce := nonce |}) ;;
  match rsp with
  | Some (auth_rsp_auth_challenge_rsp_m c) =>
      let dev := auth_challenge_rsp_dev_nonce c in
      if bool_decide (auth_challenge_rsp_prov_status_m c = prov_status_status_ok_m_c) &&
         bool_decide (auth_challenge_rsp_dev_proof c = device_proof pop nonce dev) then
        rsp <- auth_ask (client_proof pop nonce dev) ;;
        mret match rsp with
             | Some (auth_rsp_auth_proof_rsp_m p) =>
                 bool_decide (auth_proof_rsp_prov_status_m p = prov_status_status_ok_m_c)
             | _ => false
             end
      else mret false
  | _ => mret false
  end.

(** The version query, and the handshake where the device asks for it. *)
Definition client_hello (pop nonce : list byte) : C bool :=
  info <- client_version ;;
  match info with
  | None => mret false
  | Some i =>
      match ver_info_pop i with
      | Some true => client_auth pop nonce
      | _ => mret true
      end
  end.

(** [.prov/config] *)
Definition config_ask (r : config_req_r) : C (option config_rsp_r) :=
  ask_device POUCH_PROV_PATH_CONFIG (cbor_encode_config_req POUCH_PROV_MSG_MAX r)
    cbor_decode_config_rsp.

Definition client_set (c : wifi_config) : C bool :=
  rsp <- config_ask (config_req_config_set_m {| config_set_wifi_config_m := c |}) ;;
  mret match rsp with
       | Some (config_rsp_config_set_rsp_m r) =>
           bool_decide (config_set_rsp_prov_status_m r = prov_status_status_ok_m_c)
       | _ => false
       end.

Definition client_apply : C bool :=
  rsp <- config_ask config_req_config_apply_m ;;
  mret match rsp with
       | Some (config_rsp_config_apply_rsp_m r) =>
           bool_decide (config_apply_rsp_prov_status_m r = prov_status_status_ok_m_c)
       | _ => false
       end.

(** A poll: the station's state with its detail. *)
Definition client_status : C (option (sta_state_r * option config_detail_r)) :=
  rsp <- config_ask config_req_config_get_status_m ;;
  mret match rsp with
       | Some (config_rsp_config_status_rsp_m r) =>
           Some (config_status_rsp_sta_state_m r, config_status_rsp_config_detail_m r)
       | _ => None
       end.

(** Steps up to the first that fails. *)
Definition and_also (m m' : C bool) : C bool := ok <- m ;; if ok then m' else mret false.

Definition client_wifi (pop nonce : list byte) (c : wifi_config) : C bool :=
  and_also (client_hello pop nonce) (and_also (client_set c) client_apply).

(** [.prov/cred]: a credential in chunks, each with the offset of the bytes before
    it, and the finalize. *)
Definition cred_ask (r : cred_req_r) : C (option cred_rsp_r) :=
  ask_device POUCH_PROV_PATH_CRED (cbor_encode_cred_req POUCH_PROV_MSG_MAX r) cbor_decode_cred_rsp.

Definition client_write (kind : cred_kind_r) (total off : nat) (data : list byte) : C bool :=
  rsp <- cred_ask (cred_req_cred_write_m {| cred_write_cred_chunk_m := {|
           cred_chunk_kind := kind; cred_chunk_off := Z.of_nat off;
           cred_chunk_total := Z.of_nat total; cred_chunk_data := data |} |}) ;;
  mret match rsp with
       | Some (cred_rsp_cred_write_rsp_m r) =>
           bool_decide (cred_write_rsp_prov_status_m r = prov_status_status_ok_m_c) &&
           (cred_write_rsp_received r =? Z.of_nat (off + length data))
       | _ => false
       end.

Fixpoint client_chunks (kind : cred_kind_r) (total off : nat) (cs : list (list byte)) : C bool :=
  match cs with
  | [] => mret true
  | c :: cs' =>
      and_also (client_write kind total off c) (client_chunks kind total (off + length c) cs')
  end.

Definition client_upload (kind : cred_kind_r) (cs : list (list byte)) : C bool :=
  client_chunks kind (length (concat cs)) 0 cs.

Definition client_finalize : C bool :=
  rsp <- cred_ask cred_req_cred_finalize_m ;;
  mret match rsp with
       | Some (cred_rsp_cred_finalize_rsp_m r) =>
           bool_decide (cred_finalize_rsp_prov_status_m r = prov_status_status_ok_m_c)
       | _ => false
       end.

(** [.prov/ctrl]: the end of the session. *)
Definition client_end : C bool :=
  rsp <- ask_device POUCH_PROV_PATH_CTRL (cbor_encode_ctrl_req POUCH_PROV_MSG_MAX ctrl_req_ctrl_end_m)
           cbor_decode_ctrl_rsp ;;
  mret match rsp with
       | Some r => (ctrl_rsp_ctrl_op_m r =? OP_CTRL_END) &&
                   bool_decide (ctrl_rsp_prov_status_m r = prov_status_status_ok_m_c)
       | None => false
       end.

Definition client_bootstrap (pop nonce : list byte) (cert key : list (list byte)) : C bool :=
  and_also (client_hello pop nonce)
    (and_also (client_upload cred_kind_cred_device_cert_m_c cert)
      (and_also (client_upload cred_kind_cred_private_key_m_c key) client_finalize)).

(** [.prov/scan]: start, poll, and pages of [size] entries until the total is
    reached or a page is empty. *)
Definition scan_ask (r : scan_req_r) : C (option scan_rsp_r) :=
  ask_device POUCH_PROV_PATH_SCAN (cbor_encode_scan_req POUCH_PROV_MSG_MAX r) cbor_decode_scan_rsp.

Definition scan_start_req : scan_req_r :=
  scan_req_scan_start_m {| scan_start_scan_params_m :=
    {| scan_params_passive := None; scan_params_period_ms := None |} |}.

Definition client_scan_start : C bool :=
  rsp <- scan_ask scan_start_req ;;
  mret match rsp with
       | Some (scan_rsp_scan_start_rsp_m r) =>
           bool_decide (scan_start_rsp_prov_status_m r = prov_status_status_ok_m_c)
       | _ => false
       end.

(** Whether the scan has finished, and how many networks it found. *)
Definition client_scan_status : C (option (bool * Z)) :=
  rsp <- scan_ask scan_req_scan_get_status_m ;;
  mret match rsp with
       | Some (scan_rsp_scan_status_rsp_m r) =>
           Some (scan_status_rsp_finished r, scan_status_rsp_total r)
       | _ => None
       end.

Definition page_req (start size : Z) : scan_req_r :=
  scan_req_scan_get_results_m {| scan_get_results_start := start; scan_get_results_count := size |}.

Definition client_page (start size : Z) : C (option (list scan_entry)) :=
  rsp <- scan_ask (page_req start size) ;;
  mret match rsp with
       | Some (scan_rsp_scan_results_rsp_m r) => Some (scan_results_rsp_scan_entry_m_l_scan_entry_m r)
       | _ => None
       end.

(** A page brings an entry or ends the loop, so [total] rounds are enough. *)
Fixpoint client_pages (fuel : nat) (size total : Z) (got : list scan_entry)
  : C (option (list scan_entry)) :=
  match fuel with
  | O => mret (Some got)
  | S n =>
      if Z.of_nat (length got) <? total then
        page <- client_page (Z.of_nat (length got)) size ;;
        match page with
        | None => mret None
        | Some [] => mret (Some got)
        | Some l => client_pages n size total (got ++ l)
        end
      else mret (Some got)
  end.

Definition client_networks (size : Z) : C (option (list scan_entry)) :=
  status <- client_scan_status ;;
  match status with
  | Some (true, total) => client_pages (Z.to_nat total) size total []
  | _ => mret None
  end.
End Client.

(** ** An exchange with the device *)

(** Every allocation of a response succeeds. *)
Class MemoryAvailable (P : Platform) : Prop := {
  malloc_ok n w : (k_malloc n w).1 = true;
}.

Section Exchange.
Context {KC : Kconfig} {K : Kernel} {P : Platform} {CD : Codec}.

Lemma find_endpoint_path path l ep : find_endpoint path l = Some ep -> ep_path ep = path.
Proof.
  induction l as [|e l IH]; cbn; [done|]. destruct (String.eqb (ep_path e) path) eqn:E; [|done].
  intros [= <-]. by apply String.eqb_eq.
Qed.

(** A request in one piece is processed. *)
Lemma request_on_run path ep req d w :
  find_endpoint path endpoints = Some ep -> String.prefix ".prov/" path = true ->
  buffer_wf d -> (length req <= POUCH_PROV_MSG_MAX)%nat ->
  exists buf, length buf = POUCH_PROV_MSG_MAX /\ take (length req) buf = req /\
    request_on path [req] {| s_dev := d; s_env := w |} =
    process ep {| s_dev := with_active None (length req) false buf d; s_env := w |}.
Proof.
  intros Hf Hp [Hb _] Hn.
  destruct (send_fits ep [req] ltac:(done) 0 (act_buf (d_active d)) d w Hb) as (buf & H1 & H2 & H3).
  { unfold total. cbn. by rewrite app_nil_r. }
  unfold total in *. cbn [concat Nat.add take app] in *. rewrite app_nil_r in *.
  exists buf. split_and!; [done|done|]. unfold request_on, mbind.
  by rewrite (start_found path ep _ Hp Hf).
Qed.

(** The gate is open and the request whole: the handler runs. *)
Lemma process_runs ep d w :
  act_overflow (d_active d) = false ->
  (ep_require_auth ep = true -> pouch_prov_session_authorized d = true) ->
  process ep {| s_dev := d; s_env := w |} =
  (r <- run_handler (ep_handler ep) (request d) POUCH_PROV_MSG_MAX ;;
   match r with
   | HErr err =>
       req <- get request ;;
       respond_status (ep_path ep) (peek_op req)
         (if err =? - EBADMSG then prov_status_status_invalid_argument_m_c
          else prov_status_status_internal_error_m_c)
   | HOk rsp =>
       mwhen (0 <? length rsp)%nat (err <- pouch_prov_rpc_enqueue (ep_path ep) rsp ;; mret tt)
   end) {| s_dev := d; s_env := w |}.
Proof.
  intros Ho Hg. unfold process, mbind at 1, get at 1, mget. cbn [s_dev]. rewrite Ho.
  unfold mbind at 1 2, get at 1 2, mget. cbn [s_dev].
  assert (E : ep_require_auth ep && negb (pouch_prov_session_authorized d) = false).
  { destruct (ep_require_auth ep); [by rewrite Hg|done]. }
  by rewrite E.
Qed.

(** Everything but the dispatcher's buffer and the response queue. *)
Definition not_io (d : device) :=
  (d_authorized d, d_auth d, d_scan d, d_wifi d, d_blobs d, d_ident d, d_adv d, d_mgr d).

(** The device is ready for a request: the buffer is whole and no response waits. *)
Definition clear (d : device) : Prop := buffer_wf d /\ queued d = [].

Lemma clear_io d d' : io d' = io d -> clear d -> clear d'.
Proof. unfold io, clear, buffer_wf, queued. by intros [= -> ->]. Qed.

Lemma same_but_rpc_io d d' : same_but_rpc d d' -> not_io d' = not_io d /\ d_active d' = d_active d.
Proof. by intros ->. Qed.

Context {T : Type} (obs : W -> T) {MS : MessageServices P obs} {MA : MemoryAvailable P}.

(** The single response is collected. *)
Lemma wp_collect path msg (Q : option (list byte) -> st -> Prop) d w :
  buffer_wf d -> queued d = [{| rsp_path := path; rsp_msg := msg |}] ->
  (forall d' w', clear d' -> not_io d' = not_io d -> obs w' = obs w ->
     Q (Some msg) {| s_dev := d'; s_env := w' |}) ->
  wp (rs <- get queued ;; handle EvUplink ;;; mret (reply_on path rs)) Q {| s_dev := d; s_env := w |}.
Proof.
  intros Hb Hq HQ. apply wp_bind, wp_getd. cbn [s_dev]. rewrite Hq. apply wp_bind.
  cbn [handle]. apply (wp_off obs); [apply off_flush, MS|]. unfold rpc_uplink_flush.
  apply wp_bind, wp_getd. destruct (k_fifo_is_empty _) eqn:E.
  { apply fifo_is_empty_spec in E. unfold queued in Hq. cbn [s_dev] in E. congruence. }
  apply wp_bind, wp_ret, wp_drain_writes. cbn [s_dev s_env]. intros d' Hs Hq' Hobs.
  apply wp_ret. unfold reply_on. rewrite String.eqb_refl.
  destruct (same_but_rpc_io _ _ Hs) as [Hio Ha]. apply HQ; [|done|done].
  split; [|done]. unfold buffer_wf. by rewrite Ha.
Qed.

(** What the dispatcher answers when the handler has returned [h]. *)
Definition answer (req : list byte) (h : hres) : option (list byte) :=
  match h with
  | HOk msg => Some msg
  | HErr err => cbor_encode_ctrl_rsp 16
      {| ctrl_rsp_ctrl_op_m := peek_op req;
         ctrl_rsp_prov_status_m := if err =? - EBADMSG then prov_status_status_invalid_argument_m_c
                                   else prov_status_status_internal_error_m_c |}
  end.

(** The answer is queued and collected. *)
Lemma wp_enqueue_collect path msg (Q : option (list byte) -> st -> Prop) d w :
  buffer_wf d -> queued d = [] -> (length msg <= POUCH_PROV_MSG_MAX)%nat ->
  (forall d' w', clear d' -> not_io d' = not_io d -> obs w' = obs w ->
     Q (Some msg) {| s_dev := d'; s_env := w' |}) ->
  wp ((err <- pouch_prov_rpc_enqueue path msg ;; mret tt) ;;;
      rs <- get queued ;; handle EvUplink ;;; mret (reply_on path rs)) Q {| s_dev := d; s_env := w |}.
Proof.
  intros Hb Hq Hm HQ. apply wp_bind, wp_bind.
  apply (wp_off obs); [apply off_enqueue, MS|]. apply wp_enqueue_fits; [done|]. cbn [s_dev s_env].
  intros rc d1 w1 Hs Hq1 Ho1. rewrite malloc_ok in Hq1. apply wp_ret.
  destruct (same_but_rpc_io _ _ Hs) as [Hn1 Ha1]. apply (wp_collect path msg).
  - unfold buffer_wf. by rewrite Ha1.
  - by rewrite Hq1, Hq.
  - intros d2 w2 H1 H2 H3. apply HQ; [done|congruence|congruence].
Qed.

(** A request whose handler leads to the answer [msg] brings exactly that back,
    when the handler leaves no response of its own and, on an error, the request
    in the buffer. *)
Lemma wp_exchange_clear path ep req (Q : option (list byte) -> st -> Prop) d w :
  find_endpoint path endpoints = Some ep -> String.prefix ".prov/" path = true ->
  clear d -> (length req <= POUCH_PROV_MSG_MAX)%nat ->
  (ep_require_auth ep = true -> pouch_prov_session_authorized d = true) ->
  (forall d1, not_io d1 = not_io d -> clear d1 -> request d1 = req ->
     wp (run_handler (ep_handler ep) req POUCH_PROV_MSG_MAX) (fun r s1 => exists msg,
       answer req r = Some msg /\ (0 < length msg <= POUCH_PROV_MSG_MAX)%nat /\
       clear (s_dev s1) /\ (r = HOk msg \/ request (s_dev s1) = req) /\
       forall d2 w2, clear d2 -> not_io d2 = not_io (s_dev s1) -> obs w2 = obs (s_env s1) ->
         Q (Some msg) {| s_dev := d2; s_env := w2 |}) {| s_dev := d1; s_env := w |}) ->
  wp (exchange path req) Q {| s_dev := d; s_env := w |}.
Proof.
  intros Hf Hp [Hb Hq] Hn Hau HQ. unfold exchange. apply wp_bind.
  destruct (request_on_run path ep req d w Hf Hp Hb Hn) as (buf & Hl & Ht & E).
  eapply wp_eq; [etransitivity; [exact E|exact (process_runs ep (with_active _ _ _ _ d) w eq_refl Hau)]|].
  cbn beta.
  change (request _) with (take (length req) buf). rewrite Ht. apply wp_bind. eapply wp_mono.
  { apply HQ; [done|by split; [split|]|exact Ht]. }
  intros r [d2 w2] (msg & Hans & Hm & [Hb2 Hq2] & Hr & HQ2). cbn [s_dev s_env] in *.
  pose proof (wp_enqueue_collect path msg Q d2 w2 Hb2 Hq2 ltac:(lia) HQ2) as Hk.
  apply wp_bind_inv in Hk. destruct r as [m|err].
  - cbn [answer] in Hans. injection Hans as ->. rewrite (proj2 (Nat.ltb_lt _ _)) by lia.
    by rewrite (find_endpoint_path _ _ _ Hf).
  - destruct Hr as [Hr|Hreq]; [done|]. apply wp_bind, wp_getd. cbn [s_dev].
    rewrite Hreq. unfold respond_status. cbn [answer] in Hans. rewrite Hans.
    by rewrite (find_endpoint_path _ _ _ Hf).
Qed.

(** Every handler but the control request's does so; besides its own effect only
    the dispatcher's buffer has changed. *)
Lemma wp_exchange_answer path ep req (Q : option (list byte) -> st -> Prop) d w :
  find_endpoint path endpoints = Some ep -> String.prefix ".prov/" path = true ->
  ep_handler ep <> pouch_prov_handle_ctrl_p -> clear d ->
  (length req <= POUCH_PROV_MSG_MAX)%nat ->
  (ep_require_auth ep = true -> pouch_prov_session_authorized d = true) ->
  (forall d1, not_io d1 = not_io d ->
     wp (run_handler (ep_handler ep) req POUCH_PROV_MSG_MAX) (fun r s1 => exists msg,
       answer req r = Some msg /\ (0 < length msg <= POUCH_PROV_MSG_MAX)%nat /\
       forall d2 w2, clear d2 -> not_io d2 = not_io (s_dev s1) -> obs w2 = obs (s_env s1) ->
         Q (Some msg) {| s_dev := d2; s_env := w2 |}) {| s_dev := d1; s_env := w |}) ->
  wp (exchange path req) Q {| s_dev := d; s_env := w |}.
Proof.
  intros Hf Hp Hc Hcl Hn Hau HQ. eapply wp_exchange_clear; [done..|]. intros d1 Hd1 Hc1 Hr1.
  eapply wp_mono.
  { apply wp_steps; [by apply (handler_io_frame _ req POUCH_PROV_MSG_MAX)|by apply HQ]. }
  intros r s1 [(msg & Hans & Hm & HQ2) Hio]. exists msg. unfold same in Hio. cbn [s_dev] in Hio.
  split; [done|]. split; [done|]. split; [by eapply clear_io|]. split; [|done].
  right. rewrite <- Hr1. unfold request. unfold io in Hio. by injection Hio as -> _.
Qed.

Lemma wp_exchange path ep req (Q : option (list byte) -> st -> Prop) d w :
  find_endpoint path endpoints = Some ep -> String.prefix ".prov/" path = true ->
  ep_handler ep <> pouch_prov_handle_ctrl_p -> clear d ->
  (length req <= POUCH_PROV_MSG_MAX)%nat ->
  (ep_require_auth ep = true -> pouch_prov_session_authorized d = true) ->
  (forall d1, not_io d1 = not_io d ->
     wp (run_handler (ep_handler ep) req POUCH_PROV_MSG_MAX) (fun r s1 => exists msg,
       r = HOk msg /\ (0 < length msg <= POUCH_PROV_MSG_MAX)%nat /\
       forall d2 w2, clear d2 -> not_io d2 = not_io (s_dev s1) -> obs w2 = obs (s_env s1) ->
         Q (Some msg) {| s_dev := d2; s_env := w2 |}) {| s_dev := d1; s_env := w |}) ->
  wp (exchange path req) Q {| s_dev := d; s_env := w |}.
Proof.
  intros Hf Hp Hc Hcl Hn Hau HQ. eapply wp_exchange_answer; [done..|]. intros d1 Hd1.
  eapply wp_mono; [by apply HQ|]. intros r s1 (msg & -> & H). by exists msg.
Qed.

(** A request whose handler is undefined. *)
Lemma exchange_undefined path ep req d w :
  find_endpoint path endpoints = Some ep -> String.prefix ".prov/" path = true ->
  buffer_wf d -> (length req <= POUCH_PROV_MSG_MAX)%nat ->
  (ep_require_auth ep = true -> pouch_prov_session_authorized d = true) ->
  (forall d1, not_io d1 = not_io d ->
     run_handler (ep_handler ep) req POUCH_PROV_MSG_MAX {| s_dev := d1; s_env := w |} = None) ->
  exchange path req {| s_dev := d; s_env := w |} = None.
Proof.
  intros Hf Hp Hb Hn Hau HQ. destruct (request_on_run path ep req d w Hf Hp Hb Hn) as (buf & Hl & Ht & E).
  unfold exchange, mbind at 1. rewrite E, (process_runs ep (with_active _ _ _ _ d) w eq_refl Hau). unfold mbind at 1.
  change (request _) with (take (length req) buf). by rewrite Ht, HQ.
Qed.

(** Messages fit the buffers when their bound does. *)
Lemma fits i : (item_bound i <= POUCH_PROV_MSG_MAX)%nat ->
  (0 < length (item_bytes i) <= POUCH_PROV_MSG_MAX)%nat.
Proof. pose proof (item_bounds i). lia. Qed.

Lemma fit_item i : (item_bound i <= POUCH_PROV_MSG_MAX)%nat ->
  fit POUCH_PROV_MSG_MAX (item_bytes i) = Some (item_bytes i).
Proof. intros H. apply fit_some, fits, H. Qed.

(** A message's round trip: the request [i] is answered with [o], which the
    client reads as [rsp]. *)
Lemma wp_round_len {A} path ep i o (enc : option (list byte)) (dec : list byte -> option A) rsp
    (Q : option A -> st -> Prop) d w :
  find_endpoint path endpoints = Some ep -> String.prefix ".prov/" path = true ->
  ep_handler ep <> pouch_prov_handle_ctrl_p -> clear d ->
  (ep_require_auth ep = true -> pouch_prov_session_authorized d = true) ->
  enc = fit POUCH_PROV_MSG_MAX (item_bytes i) -> (forall tl, dec (item_bytes o ++ tl) = Some rsp) ->
  (item_bound i <= POUCH_PROV_MSG_MAX)%nat -> (0 < length (item_bytes o) <= POUCH_PROV_MSG_MAX)%nat ->
  (forall d1, not_io d1 = not_io d ->
     wp (run_handler (ep_handler ep) (item_bytes i ++ []) POUCH_PROV_MSG_MAX) (fun h s1 =>
       h = enc_result (fit POUCH_PROV_MSG_MAX (item_bytes o)) /\
       forall d2 w2, clear d2 -> not_io d2 = not_io (s_dev s1) -> obs w2 = obs (s_env s1) ->
         Q (Some rsp) {| s_dev := d2; s_env := w2 |}) {| s_dev := d1; s_env := w |}) ->
  wp (ask_device path enc dec) Q {| s_dev := d; s_env := w |}.
Proof.
  intros Hf Hp Hh Hc Hg -> Hdec Hi Ho HQ. rewrite fit_item by done. unfold ask_device. apply wp_bind.
  eapply (wp_exchange path ep); try done; [by apply fits|]. intros d1 Hd1.
  specialize (HQ d1 Hd1). rewrite app_nil_r, fit_some in HQ by apply Ho.
  eapply wp_mono; [exact HQ|]. intros h s1 [-> H]. exists (item_bytes o). split; [done|].
  split; [done|]. intros d2 w2 H1 H2 H3. apply wp_ret. unfold decoded.
  rewrite <- (app_nil_r (item_bytes o)), Hdec. by apply H.
Qed.

Lemma wp_round {A} path ep i o (enc : option (list byte)) (dec : list byte -> option A) rsp
    (Q : option A -> st -> Prop) d w :
  find_endpoint path endpoints = Some ep -> String.prefix ".prov/" path = true ->
  ep_handler ep <> pouch_prov_handle_ctrl_p -> clear d ->
  (ep_require_auth ep = true -> pouch_prov_session_authorized d = true) ->
  enc = fit POUCH_PROV_MSG_MAX (item_bytes i) -> (forall tl, dec (item_bytes o ++ tl) = Some rsp) ->
  (item_bound i <= POUCH_PROV_MSG_MAX)%nat -> (item_bound o <= POUCH_PROV_MSG_MAX)%nat ->
  (forall d1, not_io d1 = not_io d ->
     wp (run_handler (ep_handler ep) (item_bytes i ++ []) POUCH_PROV_MSG_MAX) (fun h s1 =>
       h = enc_result (fit POUCH_PROV_MSG_MAX (item_bytes o)) /\
       forall d2 w2, clear d2 -> not_io d2 = not_io (s_dev s1) -> obs w2 = obs (s_env s1) ->
         Q (Some rsp) {| s_dev := d2; s_env := w2 |}) {| s_dev := d1; s_env := w |}) ->
  wp (ask_device path enc dec) Q {| s_dev := d; s_env := w |}.
Proof. intros Hf Hp Hh Hc Hg He Hdec Hi Ho HQ. eapply wp_round_len; try done. by apply fits. Qed.
End Exchange.
