(* ===== verification/Hello.v ===== *)
(** * Version and handshake over the wire

    The client's first two steps against the device: the version query, which
    is never gated, and the proof-of-possession handshake. *)

From S2P Require Import Prelude ProvTypes Zcbor Schema Codec Platform State Frame Rpc Session.
From S2P Require Import Auth CredStore WifiScan WifiConfig Version Adv Identity Manager Ctrl Dispatch.
From S2P Require Import System Frames DispatchSpec AuthSpec Lifecycle WorldFrame Client.

Section Hello.
Context {KC : Kconfig} {K : Kernel} {P : Platform} {CD : Codec}.
Context {CL : CodecEncLaws CD} {DL : CodecDecLaws CD}.
Context {T : Type} (obs : W -> T) {MS : MessageServices P obs} {MA : MemoryAvailable P}.

(** ** The version *)

Lemma version_reply_ok d : in_u32 CONFIG_POUCH_BLOCK_SIZE -> ver_rsp_ok (version_reply d).
Proof.
  intros Hb. unfold ver_rsp_ok, version_reply, capabilities, str_ok. cbn.
  split_and!; try done; [by destruct CONFIG_POUCH_PROV_WIFI, CONFIG_POUCH_PROV_CRED, (has_pop d);
    cbn; lia|].
  intros t Ht. repeat (apply elem_of_app in Ht as [Ht|Ht]);
    repeat match goal with H : _ ∈ (if ?c then _ else _) |- _ => destruct c end.
  all: repeat (apply elem_of_cons in Ht as [->|Ht]); try done; by apply elem_of_nil in Ht.
Qed.

Lemma version_reply_fits d : (item_bound (ver_rsp_item (version_reply d)) <= POUCH_PROV_MSG_MAX)%nat.
Proof.
  apply Nat.leb_le. cbn -[has_pop]. unfold capabilities.
  by destruct CONFIG_POUCH_PROV_WIFI, CONFIG_POUCH_PROV_CRED, (has_pop d).
Qed.

Lemma find_ver : exists ep, find_endpoint POUCH_PROV_PATH_VER endpoints = Some ep /\
  ep_handler ep = pouch_prov_handle_ver_p /\ ep_require_auth ep = false.
Proof. by eexists. Qed.

Lemma has_pop_io d d' : not_io d' = not_io d -> has_pop d' = has_pop d.
Proof. unfold not_io, has_pop, pouch_prov_config_get. by intros [= _ _ _ _ _ _ _ ->]. Qed.

Lemma wp_client_version (Q : option ver_info -> st -> Prop) d w :
  in_u32 CONFIG_POUCH_BLOCK_SIZE -> clear d ->
  (forall d' w', clear d' -> not_io d' = not_io d -> obs w' = obs w ->
     Q (Some (ver_rsp_ver_info_m (version_reply d))) {| s_dev := d'; s_env := w' |}) ->
  wp client_version Q {| s_dev := d; s_env := w |}.
Proof.
  intros Hb Hc HQ. unfold client_version. apply wp_bind. destruct find_ver as (ep & Hf & Hh & Hr).
  apply (wp_round obs _ ep ver_req_item (ver_rsp_item (version_reply d)) _ _ (version_reply d));
    rewrite ?Hh, ?Hr; try done.
  - apply encode_ver_req_law.
  - intros tl. by apply decode_ver_rsp_law, version_reply_ok.
  - by apply Nat.leb_le.
  - apply version_reply_fits.
  - intros d1 Hd1. cbn [run_handler]. unfold pouch_prov_handle_ver. rewrite decode_ver_req_law.
    cbn [negb]. apply wp_bind, wp_getd, wp_ret. cbn [s_dev s_env].
    assert (Hv : version_reply d1 = version_reply d).
    { unfold version_reply, capabilities. by rewrite (has_pop_io _ _ Hd1). }
    rewrite Hv, encode_ver_rsp_law by by apply version_reply_ok. split; [done|].
    intros d2 w2 H1 H2 H3. apply wp_ret. apply HQ; [done|congruence|done].
Qed.

(** C32: The version query tells a client what it may ask for: it is answered in
    every state and changes nothing, the protocol is 1, a capability is listed
    exactly when its endpoints exist, and the proof of possession is announced
    exactly when the build has it and a secret is configured. *)
Theorem version_reported s :
  in_u32 CONFIG_POUCH_BLOCK_SIZE -> clear (s_dev s) ->
  wp client_version (fun r s' => not_io (s_dev s') = not_io (s_dev s) /\
    exists i, r = Some i /\ ver_info_proto i = 1 /\ ver_info_blk i = CONFIG_POUCH_BLOCK_SIZE /\
      (str "wifi" ∈ ver_info_caps_tstr i <-> find_endpoint POUCH_PROV_PATH_CONFIG endpoints <> None) /\
      (str "scan" ∈ ver_info_caps_tstr i <-> find_endpoint POUCH_PROV_PATH_SCAN endpoints <> None) /\
      (str "cred" ∈ ver_info_caps_tstr i <-> find_endpoint POUCH_PROV_PATH_CRED endpoints <> None) /\
      (ver_info_pop i = Some true <-> CONFIG_POUCH_PROV_AUTH = true /\
         cfg_pop (pouch_prov_config_get (s_dev s)) <> None)) s.
Proof.
  destruct s as [d w]. cbn [s_dev]. intros Hb Hc. apply wp_client_version; [done..|].
  intros d' w' _ Hio _. cbn [s_dev]. split; [done|]. eexists. split; [done|]. split; [done|].
  split; [done|]. cbn [version_reply ver_rsp_ver_info_m ver_info_caps_tstr ver_info_pop].
  unfold capabilities, endpoints, has_pop.
  destruct CONFIG_POUCH_PROV_WIFI, CONFIG_POUCH_PROV_CRED, CONFIG_POUCH_PROV_AUTH,
    (cfg_pop (pouch_prov_config_get d)); cbn -[str];
    split_and!; (rewrite ?list_elem_of_In; cbn; intuition congruence) || naive_solver.
Qed.

(** ** The handshake *)

Context {PH : PsaHmac P} {PS : PlatformSizes P} {PA : PsaAvailable P}.

Lemma find_auth : CONFIG_POUCH_PROV_AUTH = true -> exists ep,
  find_endpoint POUCH_PROV_PATH_AUTH endpoints = Some ep /\
  ep_handler ep = pouch_prov_handle_auth_p /\ ep_require_auth ep = false.
Proof. intros H. unfold endpoints. rewrite H. by eexists. Qed.

(** What the auth handler leaves alone. *)
Definition not_login (d : device) :=
  (d_scan d, d_wifi d, d_blobs d, d_ident d, d_adv d, d_mgr d).

Lemma not_login_io d d' : not_io d' = not_io d -> not_login d' = not_login d.
Proof. unfold not_io, not_login. by intros [= _ _ -> -> -> -> -> ->]. Qed.

Lemma config_io d d' : not_io d' = not_io d -> pouch_prov_config_get d' = pouch_prov_config_get d.
Proof. unfold not_io, pouch_prov_config_get. by intros [= _ _ _ _ _ _ _ ->]. Qed.

Lemma auth_io d d' : not_io d' = not_io d -> d_auth d' = d_auth d.
Proof. unfold not_io. by intros [= _ -> _ _ _ _ _ _]. Qed.

(** A request of the auth endpoint that the handler answers with [rsp]. *)
Lemma wp_auth_ask r rsp (Q : option auth_rsp_r -> st -> Prop) d w :
  CONFIG_POUCH_PROV_AUTH = true -> clear d -> auth_req_ok r -> auth_rsp_ok rsp ->
  (item_bound (auth_req_item r) <= POUCH_PROV_MSG_MAX)%nat ->
  (item_bound (auth_rsp_item rsp) <= POUCH_PROV_MSG_MAX)%nat ->
  (forall d1, not_io d1 = not_io d ->
     wp (match r with
         | auth_req_auth_challenge_m c => handle_challenge c POUCH_PROV_MSG_MAX
         | auth_req_auth_proof_m p => handle_proof p POUCH_PROV_MSG_MAX
         end) (fun h s1 => h = HOk (item_bytes (auth_rsp_item rsp)) /\
       forall d2 w2, clear d2 -> not_io d2 = not_io (s_dev s1) -> obs w2 = obs (s_env s1) ->
         Q (Some rsp) {| s_dev := d2; s_env := w2 |}) {| s_dev := d1; s_env := w |}) ->
  wp (auth_ask r) Q {| s_dev := d; s_env := w |}.
Proof.
  intros Ha Hc Hr Hs Hb Hb' HQ. destruct (find_auth Ha) as (ep & Hf & Hh & Hg).
  apply (wp_round obs _ ep (auth_req_item r) (auth_rsp_item rsp) _ _ rsp); rewrite ?Hh, ?Hg; try done.
  - by apply encode_auth_req_law.
  - intros tl. by apply decode_auth_rsp_law.
  - intros d1 Hd1. cbn [run_handler]. unfold pouch_prov_handle_auth.
    rewrite decode_auth_req_law, fit_item by done. specialize (HQ d1 Hd1). by destruct r.
Qed.

Definition challenge_rsp (pop cli dev : list byte) : auth_rsp_r :=
  auth_rsp_auth_challenge_rsp_m {|
    auth_challenge_rsp_prov_status_m := prov_status_status_ok_m_c;
    auth_challenge_rsp_dev_nonce := dev;
    auth_challenge_rsp_dev_proof := device_proof pop cli dev |}.

(** The challenge's round trip. *)
Lemma wp_ask_challenge pop cli (Q : option auth_rsp_r -> st -> Prop) d w :
  CONFIG_POUCH_PROV_AUTH = true -> clear d -> length cli = NONCE_LEN ->
  cfg_pop (pouch_prov_config_get d) = Some pop ->
  let dev := (sys_rand_get NONCE_LEN w).1 in
  (forall d' w', clear d' -> not_io d' = not_io (after_challenge cli dev d) -> obs w' = obs w ->
     Q (Some (challenge_rsp pop cli dev)) {| s_dev := d'; s_env := w' |}) ->
  wp (auth_ask (auth_req_auth_challenge_m {| auth_challenge_cli_nonce := cli |})) Q
    {| s_dev := d; s_env := w |}.
Proof.
  intros Ha Hc Hl Hp dev HQ. assert (Hdev : length dev = 16%nat) by apply rand_length.
  apply (wp_auth_ask _ (challenge_rsp pop cli dev)); try done.
  - cbn. split; [done|apply hmac_length].
  - cbn. rewrite Hl. by apply Nat.leb_le.
  - cbn -[device_proof]. unfold device_proof. rewrite hmac_length, Hdev. by apply Nat.leb_le.
  - intros d1 Hd1. apply (wp_off obs); [off_go; by apply off_hmac|].
    eapply wp_mono; [apply (wp_challenge_ok _ pop)|]; [done|cbn [s_dev]; by rewrite (config_io _ _ Hd1)|by apply Nat.leb_le|].
    cbn [s_dev s_env auth_challenge_cli_nonce]. fold dev. intros r [d2 w2] [-> Hd2] Ho.
    cbn [s_dev s_env] in *. split; [done|]. intros d3 w3 H1 H2 H3. apply HQ; [done| |congruence].
    rewrite H2, Hd2. unfold not_io, after_challenge in *. cbn in *.
    by injection Hd1 as -> -> -> -> -> -> -> ->.
Qed.

(** The proof's round trip. *)
Lemma wp_ask_proof pop p (Q : option auth_rsp_r -> st -> Prop) d w :
  CONFIG_POUCH_PROV_AUTH = true -> clear d -> au_challenged (d_auth d) = true ->
  0 <= au_attempts (d_auth d) < MAX_ATTEMPTS -> cfg_pop (pouch_prov_config_get d) = Some pop ->
  auth_proof_cli_proof p = expected_proof pop (d_auth d) ->
  (forall d' w', clear d' -> d_authorized d' = true -> not_login d' = not_login d -> obs w' = obs w ->
     Q (Some (auth_rsp_auth_proof_rsp_m {| auth_proof_rsp_prov_status_m := prov_status_status_ok_m_c |}))
       {| s_dev := d'; s_env := w' |}) ->
  wp (auth_ask (auth_req_auth_proof_m p)) Q {| s_dev := d; s_env := w |}.
Proof.
  intros Ha Hc Hch Hat Hp Hpr HQ. assert (Hl : length (auth_proof_cli_proof p) = 32%nat).
  { rewrite Hpr. apply hmac_length. }
  apply (wp_auth_ask _ (auth_rsp_auth_proof_rsp_m
    {| auth_proof_rsp_prov_status_m := prov_status_status_ok_m_c |})); try done.
  - cbn -[auth_proof_cli_proof]. rewrite Hl. by apply Nat.leb_le.
  - by apply Nat.leb_le.
  - intros d1 Hd1. apply (wp_off obs); [off_go; by apply off_hmac|].
    eapply wp_mono; [apply (wp_proof_checked _ pop)|]; cbn [s_dev s_env];
      rewrite ?(auth_io _ _ Hd1), ?(config_io _ _ Hd1); try done.
    { rewrite u8_small; unfold in_u8, MAX_ATTEMPTS in *; lia. }
    { by apply Nat.leb_le. }
    intros r [d2 w2] [-> Hd2] Ho. cbn [s_dev s_env] in *. split; [done|].
    intros d3 w3 H1 H2 H3. apply HQ; [done| | |congruence].
    + rewrite Hd2 in H2. unfold not_io in H2. injection H2 as ->. reflexivity.
    + rewrite (not_login_io _ _ H2), Hd2. exact (not_login_io _ _ Hd1).
Qed.

Lemma wp_client_auth pop nonce (Q : bool -> st -> Prop) d w :
  CONFIG_POUCH_PROV_AUTH = true -> clear d -> length nonce = NONCE_LEN ->
  0 <= au_attempts (d_auth d) < MAX_ATTEMPTS -> cfg_pop (pouch_prov_config_get d) = Some pop ->
  (forall d' w', clear d' -> d_authorized d' = true -> not_login d' = not_login d -> obs w' = obs w ->
     Q true {| s_dev := d'; s_env := w' |}) ->
  wp (client_auth pop nonce) Q {| s_dev := d; s_env := w |}.
Proof.
  intros Ha Hc Hl Hat Hp HQ. unfold client_auth. apply wp_bind, (wp_ask_challenge pop); [done..|].
  intros d1 w1 H1 H2 H3. cbn [challenge_rsp auth_challenge_rsp_prov_status_m
    auth_challenge_rsp_dev_proof auth_challenge_rsp_dev_nonce].
  rewrite !bool_decide_eq_true_2 by done. cbn [andb]. apply wp_bind.
  assert (Hau : d_auth d1 = d_auth (after_challenge nonce (sys_rand_get NONCE_LEN w).1 d))
    by by apply auth_io.
  assert (Hcf : pouch_prov_config_get d1 = pouch_prov_config_get d) by by apply config_io in H2.
  apply (wp_ask_proof pop); rewrite ?Hau, ?Hcf; try done.
  intros d2 w2 G1 G2 G3 G4. apply wp_ret. apply HQ; [done|done| |congruence].
  rewrite G3. by apply not_login_io in H2.
Qed.

(** C19: An honest client that knows the secret completes the handshake in every
    session with an attempt left: it can check the device's proof, its own is
    accepted, and the session is authorized; nothing else of the device changes. *)
Theorem handshake_completes pop nonce s :
  CONFIG_POUCH_PROV_AUTH = true -> clear (s_dev s) -> length nonce = NONCE_LEN ->
  0 <= au_attempts (d_auth (s_dev s)) < MAX_ATTEMPTS ->
  cfg_pop (pouch_prov_config_get (s_dev s)) = Some pop ->
  wp (client_auth pop nonce) (fun ok s' => ok = true /\ d_authorized (s_dev s') = true /\
    not_login (s_dev s') = not_login (s_dev s)) s.
Proof. destruct s as [d w]. intros. by apply wp_client_auth. Qed.

(** The application and the session. *)
Definition session_of (d : device) :=
  (pouch_prov_config_get d, d_authorized d, mg_running (d_mgr d)).

Lemma session_authorized_of d d' : session_of d' = session_of d ->
  pouch_prov_session_authorized d' = pouch_prov_session_authorized d.
Proof. unfold session_of, pouch_prov_session_authorized. by intros [= -> -> _]. Qed.

Lemma session_io d d' : not_io d' = not_io d -> session_of d' = session_of d.
Proof. unfold not_io, session_of, pouch_prov_config_get. by intros [= -> _ _ _ _ _ _ ->]. Qed.

(** The device accepts a client with the secret [pop]: it has that secret and an
    attempt left, or it asks for none. *)
Definition secret_ok (pop : list byte) (d : device) : Prop :=
  match cfg_pop (pouch_prov_config_get d) with
  | None => True
  | Some p => p = pop /\ CONFIG_POUCH_PROV_AUTH = true /\ 0 <= au_attempts (d_auth d) < MAX_ATTEMPTS
  end.

Lemma wp_client_hello pop nonce (Q : bool -> st -> Prop) d w :
  in_u32 CONFIG_POUCH_BLOCK_SIZE -> clear d -> length nonce = NONCE_LEN -> secret_ok pop d ->
  (forall d' w', clear d' -> pouch_prov_session_authorized d' = true ->
     not_login d' = not_login d -> obs w' = obs w -> Q true {| s_dev := d'; s_env := w' |}) ->
  wp (client_hello pop nonce) Q {| s_dev := d; s_env := w |}.
Proof.
  intros Hb Hc Hl Hs HQ. unfold client_hello. apply wp_bind, wp_client_version; [done..|].
  intros d1 w1 H1 H2 H3. cbn [version_reply ver_rsp_ver_info_m ver_info_pop].
  pose proof (not_login_io _ _ H2) as Hn. unfold has_pop. unfold secret_ok in Hs.
  destruct (cfg_pop (pouch_prov_config_get d)) as [p|] eqn:Ep.
  - destruct Hs as (-> & Ha & Hat). rewrite Ha. cbn [andb].
    apply wp_client_auth; rewrite ?(auth_io _ _ H2), ?(config_io _ _ H2); try done.
    intros d2 w2 G1 G2 G3 G4. apply HQ; [done| |congruence|congruence].
    unfold pouch_prov_session_authorized. by rewrite G2.
  - rewrite andb_false_r. apply wp_ret, HQ; [done| |done|done].
    unfold pouch_prov_session_authorized. rewrite (config_io _ _ H2), Ep. apply orb_true_r.
Qed.
End Hello.
