(* ===== verification/Bootstrap.v ===== *)
(** * Credential bootstrap end to end

    The client of Client.v uploads a certificate and a key in chunks and
    finalizes; the credentials are then on the device, in its settings, and
    there again after a reboot. *)

From S2P Require Import Prelude ProvTypes Zcbor Schema Codec Platform State Frame Rpc Session.
From S2P Require Import Auth CredStore CredHandler WifiScan WifiConfig Version Adv Identity Manager.
From S2P Require Import Ctrl Dispatch System Frames DispatchSpec AuthSpec Instances CredSpec CredPersist.
From S2P Require Import Lifecycle WorldFrame Client Hello.

(** Saving a setting succeeds. *)
Class SettingsWritable (P : Platform) : Prop := {
  settings_save_ok k v w : (settings_save_one k v w).1 = 0;
}.

Section Bootstrap.
Context {KC : Kconfig} {K : Kernel} {P : Platform} {CD : Codec}.
Context {CL : CodecEncLaws CD} {DL : CodecDecLaws CD}.
Context {PH : PsaHmac P} {PS : PlatformSizes P} {PA : PsaAvailable P} {MA : MemoryAvailable P}.
Context {SL : SettingsLaws P} {SW : SettingsWritable P}.

(** The stored certificate and key. *)
Definition cred_obs (w : W) : option (list byte) * option (list byte) :=
  (settings_value w "pnp/cred/cert", settings_value w "pnp/cred/key").

Context {MS : MessageServices P cred_obs}.

Lemma find_cred : CONFIG_POUCH_PROV_CRED = true -> exists ep,
  find_endpoint POUCH_PROV_PATH_CRED endpoints = Some ep /\
  ep_handler ep = pouch_prov_handle_cred_p /\ ep_require_auth ep = true.
Proof.
  intros H. unfold endpoints. rewrite H.
  by destruct CONFIG_POUCH_PROV_AUTH, CONFIG_POUCH_PROV_WIFI; eexists.
Qed.

Lemma blobs_io d d' : not_io d' = not_io d -> d_blobs d' = d_blobs d.
Proof. unfold not_io. by intros [= _ _ _ _ -> _ _ _]. Qed.

(** A request of the cred endpoint that the handler answers with [rsp]. *)
Lemma wp_cred_ask r rsp (Q : option cred_rsp_r -> st -> Prop) d w :
  CONFIG_POUCH_PROV_CRED = true -> clear d -> pouch_prov_session_authorized d = true ->
  cred_req_ok r -> cred_rsp_ok rsp ->
  (item_bound (cred_req_item r) <= POUCH_PROV_MSG_MAX)%nat ->
  (item_bound (cred_rsp_item rsp) <= POUCH_PROV_MSG_MAX)%nat ->
  (forall d1, not_io d1 = not_io d ->
     wp (pouch_prov_handle_cred (item_bytes (cred_req_item r) ++ []) POUCH_PROV_MSG_MAX)
       (fun h s1 => h = enc_result (cbor_encode_cred_rsp POUCH_PROV_MSG_MAX rsp) /\
          forall d2 w2, clear d2 -> not_io d2 = not_io (s_dev s1) ->
            cred_obs w2 = cred_obs (s_env s1) -> Q (Some rsp) {| s_dev := d2; s_env := w2 |})
       {| s_dev := d1; s_env := w |}) ->
  wp (cred_ask r) Q {| s_dev := d; s_env := w |}.
Proof.
  intros Hw Hc Hau Hr Hs Hb Hb' HQ. destruct (find_cred Hw) as (ep & Hf & Hh & Hg).
  apply (wp_round cred_obs _ ep (cred_req_item r) (cred_rsp_item rsp) _ _ rsp);
    rewrite ?Hh, ?Hg; try done.
  - by apply encode_cred_req_law.
  - intros tl. by apply decode_cred_rsp_law.
  - intros d1 Hd1. cbn [run_handler]. specialize (HQ d1 Hd1).
    rewrite encode_cred_rsp_law in HQ by done. exact HQ.
Qed.

(** ** Chunks *)

(** The largest chunk whose request is sure to fit a message. *)
Definition CHUNK_MAX : nat := 300.

Definition kind_index (kind : cred_kind_r) : nat := Z.to_nat (cred_kind_val kind).

Lemma kind_index_valid kind : kind_valid (cred_kind_val kind) = true.
Proof. by destruct kind. Qed.

Lemma write_req_bound c : (length (cred_chunk_data c) <= CHUNK_MAX)%nat ->
  (item_bound (cred_req_item (cred_req_cred_write_m {| cred_write_cred_chunk_m := c |})) <=
   POUCH_PROV_MSG_MAX)%nat.
Proof. unfold CHUNK_MAX, POUCH_PROV_MSG_MAX. cbn. lia. Qed.

Definition write_rsp (n : nat) : cred_rsp_r := cred_rsp_cred_write_rsp_m
  {| cred_write_rsp_prov_status_m := prov_status_status_ok_m_c;
     cred_write_rsp_received := Z.of_nat n |}.

(** The next chunk in order is accepted. *)
Lemma wp_client_write kind total off c (Q : bool -> st -> Prop) d w b :
  CONFIG_POUCH_PROV_CRED = true -> clear d -> pouch_prov_session_authorized d = true ->
  store_wf (d_blobs d) -> d_blobs d !! kind_index kind = Some b ->
  (total <= b_cap b)%nat -> (b_cap b <= 2048)%nat -> (off + length c <= total)%nat ->
  (length c <= CHUNK_MAX)%nat -> off = 0%nat \/ (off = b_staged b /\ b_expected b = total) ->
  (forall d' w' b', clear d' -> session_of d' = session_of d ->
     d_blobs d' = <[kind_index kind := b']> (d_blobs d) -> store_wf (d_blobs d') ->
     staged_bytes b' = take off (staged_bytes b) ++ c -> b_expected b' = total ->
     b_cap b' = b_cap b -> Q true {| s_dev := d'; s_env := w' |}) ->
  wp (client_write kind total off c) Q {| s_dev := d; s_env := w |}.
Proof.
  intros Hcfg Hc Hau Hs Hb Hcap Hmax Hlen Hchunk Hoff HQ. unfold client_write. apply wp_bind.
  apply (wp_cred_ask _ (write_rsp (off + length c))); try done.
  - unfold CHUNK_MAX in *. cbn. unfold cred_chunk_ok, str_ok, in_u32. cbn. lia.
  - cbn. unfold in_u32. lia.
  - by apply write_req_bound.
  - by apply Nat.leb_le.
  - intros d1 Hd1. unfold pouch_prov_handle_cred. rewrite decode_cred_req_law
      by (unfold CHUNK_MAX in *; cbn; unfold cred_chunk_ok, str_ok, in_u32; cbn; lia).
    unfold handle_cred_write. cbn [cred_write_cred_chunk_m cred_chunk_kind cred_chunk_off
      cred_chunk_total cred_chunk_data]. apply wp_bind. pose proof (proj2 Hs _ _ Hb) as Hwb.
    eapply wp_mono; [apply (wp_stage _ _ _ _ _ b); cbn [s_dev]; rewrite ?(blobs_io _ _ Hd1);
      [done|apply kind_index_valid|lia|lia|exact Hb]|].
    intros rc s1 (b' & Hr & -> & Hl & Hs1). rewrite upload_write_next in Hr by done.
    injection Hr as -> Hst Hex. apply wp_ret. rewrite (proj2 (Z.ltb_ge _ 0)) by lia.
    rewrite u32_small by (unfold in_u32; lia). split; [done|].
    intros d2 w2 H1 H2 H3. apply wp_ret. cbn [write_rsp cred_write_rsp_prov_status_m
      cred_write_rsp_received]. rewrite bool_decide_eq_true_2, Z.eqb_refl by done. cbn [andb].
    assert (Hb2 : d_blobs d2 = <[kind_index kind := b']> (d_blobs d)).
    { rewrite (blobs_io _ _ H2). cbn. by rewrite (blobs_io _ _ Hd1). }
    apply (HQ _ _ b'); try done.
    + rewrite (session_io _ _ H2). exact (session_io _ _ Hd1).
    + rewrite (blobs_io _ _ H2). exact Hs1.
    + destruct Hs as [Hcaps _], Hs1 as [Hcaps1 _].
      rewrite <- Hcaps in Hcaps1. cbn in Hcaps1. rewrite (blobs_io _ _ Hd1) in Hcaps1.
      apply (f_equal (fun l => l !! kind_index kind)) in Hcaps1.
      change (map b_cap) with (fmap (M := list) b_cap) in Hcaps1.
      rewrite !list_lookup_fmap, list_lookup_insert_eq, Hb in Hcaps1 by by eapply lookup_lt_Some.
      by injection Hcaps1.
Qed.

Lemma chunk_offset off (x c : list byte) b' :
  length x = off -> staged_bytes b' = x ++ c -> blob_wf b' -> b_staged b' = (off + length c)%nat.
Proof. intros Hx Hs Hw. rewrite <- (length_staged b' Hw), Hs, length_app. lia. Qed.

Lemma wp_client_chunks kind total cs : forall off (Q : bool -> st -> Prop) d w b,
  CONFIG_POUCH_PROV_CRED = true -> clear d -> pouch_prov_session_authorized d = true ->
  store_wf (d_blobs d) -> d_blobs d !! kind_index kind = Some b ->
  (total <= b_cap b)%nat -> (b_cap b <= 2048)%nat -> (off + length (concat cs) <= total)%nat ->
  (forall c, c ∈ cs -> (length c <= CHUNK_MAX)%nat) ->
  (off = 0%nat /\ cs <> []) \/ (off = b_staged b /\ b_expected b = total) ->
  (forall d' w' b', clear d' -> session_of d' = session_of d ->
     d_blobs d' = <[kind_index kind := b']> (d_blobs d) -> store_wf (d_blobs d') ->
     staged_bytes b' = take off (staged_bytes b) ++ concat cs -> b_expected b' = total ->
     Q true {| s_dev := d'; s_env := w' |}) ->
  wp (client_chunks kind total off cs) Q {| s_dev := d; s_env := w |}.
Proof.
  induction cs as [|c cs IH]; intros off Q d w b Hcfg Hc Hau Hs Hb Hcap Hmax Hlen Hch Hoff HQ.
  - destruct Hoff as [[_ ?]|[Hst Hex]]; [done|]. apply wp_ret. apply (HQ d w b); try done.
    + by rewrite list_insert_id.
    + cbn [concat]. rewrite app_nil_r, take_ge; [done|].
      rewrite length_staged by (by eapply Hs). lia.
  - cbn [client_chunks concat] in *. rewrite length_app in Hlen. unfold and_also. apply wp_bind.
    apply (wp_client_write _ _ _ _ _ _ _ b); try done; try lia.
    { apply Hch. by left. }
    intros d1 w1 b1 C1 S1 B1 W1 T1 E1 K1.
    assert (Hb1 : d_blobs d1 !! kind_index kind = Some b1).
    { rewrite B1. apply list_lookup_insert_eq. by eapply lookup_lt_Some. }
    assert (Hl1 : length (take off (staged_bytes b)) = off).
    { rewrite length_take, length_staged by (by eapply Hs). lia. }
    assert (Hst1 : b_staged b1 = (off + length c)%nat)
      by (eapply chunk_offset; [exact Hl1|exact T1|by eapply W1]).
    apply (IH _ _ _ _ b1); try done; try lia.
    + by rewrite (session_authorized_of _ _ S1).
    + intros c' Hc'. apply Hch. by right.
    + intros d2 w2 b2 C2 S2 B2 W2 T2 E2. apply (HQ d2 w2 b2); try done; [congruence| |].
      * by rewrite B2, B1, list_insert_insert_eq.
      * rewrite T2, T1, app_assoc. f_equal. rewrite take_ge; [done|]. rewrite length_app. lia.
Qed.

Lemma wp_client_upload kind cs (Q : bool -> st -> Prop) d w :
  CONFIG_POUCH_PROV_CRED = true -> clear d -> pouch_prov_session_authorized d = true ->
  store_wf (d_blobs d) -> concat cs <> [] ->
  (length (concat cs) <= nth (kind_index kind) store_caps 0)%nat ->
  (forall c, c ∈ cs -> (length c <= CHUNK_MAX)%nat) ->
  (forall d' w' b', clear d' -> session_of d' = session_of d ->
     d_blobs d' = <[kind_index kind := b']> (d_blobs d) -> store_wf (d_blobs d') ->
     staged_bytes b' = concat cs -> blob_complete b' = true ->
     Q true {| s_dev := d'; s_env := w' |}) ->
  wp (client_upload kind cs) Q {| s_dev := d; s_env := w |}.
Proof.
  intros Hcfg Hc Hau Hs Hne Hlen Hch HQ.
  destruct (store_wf_lookup _ (kind_index kind) Hs) as (b & Hb & Hw); [apply Nat.ltb_lt; by destruct kind|].
  rewrite (store_cap_nth _ _ _ Hs Hb) in Hlen.
  assert (Hmax : (b_cap b <= 2048)%nat).
  { rewrite <- (store_cap_nth _ _ _ Hs Hb). apply Nat.leb_le. by destruct kind. }
  apply (wp_client_chunks _ _ _ _ _ _ _ b); try done.
  { left. split; [done|]. by intros ->. }
  intros d1 w1 b1 C1 S1 B1 W1 T1 E1. apply (HQ d1 w1 b1); try done.
  assert (Hb1 : d_blobs d1 !! kind_index kind = Some b1).
  { rewrite B1. apply list_lookup_insert_eq. by eapply lookup_lt_Some. }
  assert (Hst : b_staged b1 = length (concat cs)).
  { rewrite <- (length_staged b1) by (by eapply W1). by rewrite T1. }
  unfold blob_complete. rewrite E1, Hst, Nat.eqb_refl, andb_true_r.
  apply negb_true_iff, Nat.eqb_neq. by destruct (concat cs).
Qed.

(** ** Finalize *)

Lemma wp_persist_ok keys : forall k s, length (d_blobs (s_dev s)) = (k + length keys)%nat ->
  wp (persist_from k keys) (fun rc _ => rc = 0) s.
Proof.
  induction keys as [|key keys IH]; intros k s Hl; cbn [persist_from length] in *; [by apply wp_ret|].
  destruct (lookup_lt_is_Some_2 (d_blobs (s_dev s)) k) as [b Hb]; [lia|].
  apply wp_bind, (wp_get_blob _ b); [done|]. destruct (negb (blob_complete b)); [apply IH; lia|].
  apply wp_bind, wp_call. intros err w' E.
  pose proof (settings_save_ok key (take (b_staged b) (b_buf b)) (s_env s)) as H0.
  rewrite E in H0. cbn in H0. subst. cbn [negb Z.eqb]. apply wp_bind, wp_set_blob, IH.
  cbn. rewrite length_insert. lia.
Qed.

Lemma wp_finalize_ok s cert key :
  store_wf (d_blobs (s_dev s)) ->
  d_blobs (s_dev s) !! 0%nat = Some cert -> d_blobs (s_dev s) !! 1%nat = Some key ->
  finalize_ok cert key = true -> wp pouch_prov_cred_finalize (fun rc _ => rc = 0) s.
Proof.
  intros Hs Hc Hk Hok. pose proof (store_wf_length _ Hs) as H3.
  eapply wp_eq; [by rewrite (finalize_eq _ _ _ Hc Hk), Hok|]. apply wp_bind.
  eapply wp_mono; [by apply wp_persist_ok; rewrite H3|]. intros rc s1 ->. cbn [negb Z.eqb].
  apply wp_bind, wp_emit. intros f. by apply wp_ret.
Qed.

Lemma complete_in_use b : blob_complete b = true ->
  (0 < b_len (finalized b))%nat /\ take (b_len (finalized b)) (b_buf (finalized b)) = staged_bytes b.
Proof. intros H. unfold finalized. rewrite H. unfold blob_complete in H. zbool. cbn. split; [lia|done]. Qed.

Definition finalize_rsp : cred_rsp_r := cred_rsp_cred_finalize_rsp_m
  {| cred_finalize_rsp_prov_status_m := prov_status_status_ok_m_c |}.

Lemma finalize_frame : keeps session_of pouch_prov_cred_finalize.
Proof. steps_go. Qed.

Lemma wp_client_finalize (Q : bool -> st -> Prop) d w cert key :
  CONFIG_POUCH_PROV_CRED = true -> clear d -> pouch_prov_session_authorized d = true ->
  store_wf (d_blobs d) -> d_blobs d !! 0%nat = Some cert -> d_blobs d !! 1%nat = Some key ->
  finalize_ok cert key = true ->
  (forall d' w', clear d' -> session_of d' = session_of d ->
     d_blobs d' = map finalized (d_blobs d) ->
     cred_obs w' = (Some (staged_bytes cert), Some (staged_bytes key)) ->
     Q true {| s_dev := d'; s_env := w' |}) ->
  wp client_finalize Q {| s_dev := d; s_env := w |}.
Proof.
  intros Hcfg Hc Hau Hs Hce Hke Hok HQ. unfold client_finalize. apply wp_bind.
  apply (wp_cred_ask _ finalize_rsp); try done.
  - by apply Nat.leb_le.
  - by apply Nat.leb_le.
  - intros d1 Hd1. unfold pouch_prov_handle_cred. rewrite decode_cred_req_law by done.
    apply wp_bind. pose proof (blobs_io _ _ Hd1) as Hbl. rewrite <- Hbl in Hs, Hce, Hke.
    eapply wp_mono.
    { apply wp_steps; [apply finalize_frame|].
      apply wp_and; [by eapply wp_finalize_ok|by eapply wp_finalize]. }
    intros rc [d2 w2] [[-> [_ H]] Hk]. destruct (H eq_refl) as (Hd & Hset & _). clear H.
    cbn [s_dev s_env] in *. apply wp_ret. split; [done|]. intros d3 w3 H1 H2 H3. apply wp_ret.
    cbn [finalize_rsp cred_finalize_rsp_prov_status_m]. rewrite bool_decide_eq_true_2 by done.
    apply HQ; [done| |rewrite (blobs_io _ _ H2); cbn [s_dev]; by rewrite Hd, Hbl|].
    { rewrite (session_io _ _ H2). unfold same in Hk. cbn [s_dev] in *. rewrite Hk. by apply session_io. }
    unfold finalize_ok in Hok. apply andb_prop in Hok as [[K1 K2]%andb_prop _].
    rewrite H3. unfold cred_obs. cbn [s_env]. rewrite (Hset 0%nat _ _ eq_refl Hce), K1.
    by rewrite (Hset 1%nat _ _ eq_refl Hke), K2.
Qed.

(** ** The whole run *)

(** A device on which the client can store a credential: the build has the
    endpoint, no request is pending, the client knows the secret if there is one. *)
Record can_bootstrap (pop : list byte) (d : device) : Prop := {
  cb_cred : CONFIG_POUCH_PROV_CRED = true;
  cb_block : in_u32 CONFIG_POUCH_BLOCK_SIZE;
  cb_clear : clear d;
  cb_secret : secret_ok pop d;
  cb_store : store_wf (d_blobs d);
}.

(** A credential that can be sent: not empty, within the store's bound, in
    chunks that fit a message. *)
Definition sendable (kind : cred_kind_r) (cs : list (list byte)) : Prop :=
  concat cs <> [] /\ (length (concat cs) <= nth (kind_index kind) store_caps 0)%nat /\
  (forall c, c ∈ cs -> (length c <= CHUNK_MAX)%nat).

(** The application reads the credentials, now and after every reboot that finds
    the same settings. *)
Definition in_place (cert key : list byte) (s : st) : Prop :=
  pouch_prov_cred_get POUCH_PROV_CRED_DEVICE_CERT s = Some (Some cert, s) /\
  pouch_prov_cred_get POUCH_PROV_CRED_PRIVATE_KEY s = Some (Some key, s) /\
  forall flags w l w', cred_obs w = cred_obs (s_env s) ->
    settings_load_subtree "" w = ((0, l), w') ->
    wp (settings_load "") (fun _ t =>
      pouch_prov_cred_get POUCH_PROV_CRED_DEVICE_CERT t = Some (Some cert, t) /\
      pouch_prov_cred_get POUCH_PROV_CRED_PRIVATE_KEY t = Some (Some key, t))
      {| s_dev := device_boot flags; s_env := w |}.

(** Reading depends on the blobs alone. *)
Lemma cred_get_blobs k d w d' w' b :
  d_blobs d' = d_blobs d ->
  pouch_prov_cred_get k {| s_dev := d; s_env := w |} = Some (Some b, {| s_dev := d; s_env := w |}) ->
  pouch_prov_cred_get k {| s_dev := d'; s_env := w' |} = Some (Some b, {| s_dev := d'; s_env := w' |}).
Proof.
  intros Hd. unfold pouch_prov_cred_get, pouch_prov_cred_present, get_blob, mbind, get, mget, mret, mub.
  destruct (kind_valid k); [|by intros [=]]. cbn [s_dev]. rewrite Hd.
  destruct (d_blobs d !! _) as [x|] eqn:E; [|done].
  destruct (0 <? b_len x)%nat; cbn [negb s_dev]; [|by intros [=]]. rewrite Hd, E. by intros [= <-].
Qed.

Lemma in_place_obs cert key d w d' w' :
  d_blobs d' = d_blobs d -> cred_obs w' = cred_obs w ->
  in_place cert key {| s_dev := d; s_env := w |} -> in_place cert key {| s_dev := d'; s_env := w' |}.
Proof.
  intros Hd Hw (H1 & H2 & H3).
  split_and!; [by eapply cred_get_blobs|by eapply cred_get_blobs|]. intros flags w1 l w2 E. cbn [s_env] in E. rewrite Hw in E.
  by apply H3.
Qed.

(** Complete blobs, finalized and saved, are credentials in place. *)
Lemma in_place_finalized bs cert key d w :
  store_wf bs -> bs !! 0%nat = Some cert -> bs !! 1%nat = Some key ->
  blob_complete cert = true -> blob_complete key = true ->
  CONFIG_POUCH_PROV_CRED = true -> d_blobs d = map finalized bs ->
  cred_obs w = (Some (staged_bytes cert), Some (staged_bytes key)) ->
  in_place (staged_bytes cert) (staged_bytes key) {| s_dev := d; s_env := w |}.
Proof.
  intros Hs G0 G1 K0 K1 Hcfg B O.
  assert (Hget : forall k b, (k < 3)%nat -> bs !! k = Some b -> blob_complete b = true ->
    pouch_prov_cred_get (Z.of_nat k) {| s_dev := d; s_env := w |} =
    Some (Some (staged_bytes b), {| s_dev := d; s_env := w |})).
  { intros k b Hk Hb Hcomp. destruct (complete_in_use b Hcomp) as [Hpos <-].
    apply cred_get_eq; [done| |done]. cbn [s_dev]. rewrite B.
    change (map finalized) with (fmap (M := list) finalized). by rewrite list_lookup_fmap, Hb. }
  split; [apply (Hget 0%nat); [lia|done|done]|]. split; [apply (Hget 1%nat); [lia|done|done]|].
  intros flags w5 l w6 Ho Hload. cbn [s_env] in Ho. rewrite O in Ho. injection Ho as Hv0 Hv1.
  assert (Hlen : forall k b, bs !! k = Some b -> blob_complete b = true ->
    (0 < length (staged_bytes b) <= nth k store_caps 0)%nat).
  { intros k b Hb Hcomp. rewrite (store_cap_nth _ _ _ Hs Hb).
    pose proof (proj2 Hs _ _ Hb) as Hw. rewrite length_staged by done.
    unfold blob_complete in Hcomp. zbool. destruct Hw as (? & ? & ? & ?). lia. }
  eapply wp_mono; [apply wp_and;
    [apply (wp_load_stored flags w5 l w6 0 "pnp/cred/cert" (staged_bytes cert))
    |apply (wp_load_stored flags w5 l w6 1 "pnp/cred/key" (staged_bytes key))];
    try done; [by apply (Hlen 0%nat)|by apply (Hlen 1%nat)]|].
  intros err t [[_ H1] [_ H2]]. by split.
Qed.

Lemma wp_client_bootstrap pop nonce certs keys (Q : bool -> st -> Prop) d w :
  length nonce = NONCE_LEN -> can_bootstrap pop d ->
  sendable cred_kind_cred_device_cert_m_c certs -> sendable cred_kind_cred_private_key_m_c keys ->
  der_sequence_len_ok (concat certs) (length (concat certs)) = true ->
  (forall d' w', clear d' -> pouch_prov_session_authorized d' = true ->
     mg_running (d_mgr d') = mg_running (d_mgr d) ->
     in_place (concat certs) (concat keys) {| s_dev := d'; s_env := w' |} ->
     Q true {| s_dev := d'; s_env := w' |}) ->
  wp (client_bootstrap pop nonce certs keys) Q {| s_dev := d; s_env := w |}.
Proof.
  intros Hl [Hcfg Hblk Hc Hsec Hs] (N1 & L1 & C1) (N2 & L2 & C2) Hder HQ.
  unfold client_bootstrap, and_also. apply wp_bind, (wp_client_hello cred_obs); [done..|].
  intros d1 w1 Hc1 Ha1 Hn1 _. unfold not_login in Hn1. injection Hn1 as _ _ Hb1 _ _ Hm1.
  rewrite <- Hb1 in Hs. apply wp_bind, wp_client_upload; [done..|].
  intros d2 w2 cert Hc2 S2 B2 W2 T2 K2. apply wp_bind, wp_client_upload; [done|done| |done..|].
  { by rewrite (session_authorized_of _ _ S2). }
  intros d3 w3 key Hc3 S3 B3 W3 T3 K3.
  change (kind_index cred_kind_cred_device_cert_m_c) with 0%nat in *.
  change (kind_index cred_kind_cred_private_key_m_c) with 1%nat in *.
  pose proof (store_wf_length _ Hs) as Hl3.
  assert (G0 : d_blobs d3 !! 0%nat = Some cert).
  { rewrite B3, list_lookup_insert_ne, B2 by done. apply list_lookup_insert_eq. lia. }
  assert (G1 : d_blobs d3 !! 1%nat = Some key).
  { rewrite B3. apply list_lookup_insert_eq. rewrite B2, length_insert. lia. }
  assert (Hfin : finalize_ok cert key = true).
  { unfold finalize_ok. rewrite K2, K3. cbn [andb].
    assert (Hlen : length (concat certs) = b_staged cert).
    { rewrite <- T2. apply length_staged. by eapply W3. }
    rewrite <- der_check_take. change (take (b_staged cert) (b_buf cert)) with (staged_bytes cert).
    by rewrite T2, <- Hlen. }
  assert (Hau : forall d', session_of d' = session_of d3 -> pouch_prov_session_authorized d' = true).
  { intros d' Hd'. by rewrite (session_authorized_of d3 d' Hd'), (session_authorized_of _ _ S3),
      (session_authorized_of _ _ S2). }
  apply (wp_client_finalize _ _ _ cert key); [done|done|by apply Hau|done..|].
  intros d4 w4 C4 S4 B4 O4. apply HQ; [done|by apply Hau| |].
  - unfold session_of in *. congruence.
  - rewrite <- T2, <- T3. by eapply in_place_finalized.
Qed.

(** A client that follows the protocol bootstraps the device's cloud identity:
    the handshake, every chunk of the certificate and of the key and the finalize
    are answered "ok", the application reads back exactly the bytes sent, and so
    it does after every reboot that finds the same settings. *)
Theorem client_bootstraps pop nonce certs keys s :
  length nonce = NONCE_LEN -> can_bootstrap pop (s_dev s) ->
  sendable cred_kind_cred_device_cert_m_c certs -> sendable cred_kind_cred_private_key_m_c keys ->
  der_sequence_len_ok (concat certs) (length (concat certs)) = true ->
  wp (client_bootstrap pop nonce certs keys) (fun ok s' =>
    ok = true /\ in_place (concat certs) (concat keys) s') s.
Proof. destruct s as [d w]. cbn [s_dev]. intros. by apply wp_client_bootstrap. Qed.
End Bootstrap.
