(* ===== verification/Complete.v ===== *)
(** * A whole provisioning session

    The client's upload followed by its end request, and the application that
    waits for it: the session closes, the application is woken, and the
    credentials are in place. *)

From S2P Require Import Prelude ProvTypes Zcbor Schema Codec Platform State Frame Rpc Session.
From S2P Require Import Auth CredStore CredHandler WifiScan WifiConfig Version Adv Identity Manager.
From S2P Require Import Ctrl Dispatch System Frames DispatchSpec AuthSpec CredSpec CredPersist.
From S2P Require Import Lifecycle WorldFrame Client Hello Bootstrap.

(** Stopping does not touch what [obs] sees. *)
Class StopServices (P : Platform) {T : Type} (obs : W -> T) : Prop := {
  obs_adv_stop w r w' : bt_le_adv_stop w = (r, w') -> obs w' = obs w;
  obs_event ev data w : obs (event_cb ev data w) = obs w;
}.

#[export] Hint Resolve obs_adv_stop obs_event : off.

Section End.
Context {KC : Kconfig} {K : Kernel} {P : Platform} {CD : Codec}.
Context {CL : CodecEncLaws CD} {DL : CodecDecLaws CD} {MA : MemoryAvailable P}.
Context {T : Type} (obs : W -> T) {MS : MessageServices P obs} {SS : StopServices P obs}.

Lemma off_reset : off obs (drain_all (fun _ => mret tt)).
Proof.
  apply off_bind; [apply off_get|]. intros n. apply off_drain; [intros r; apply off_ret|apply obs_free].
Qed.
Hint Resolve off_reset : off.

Lemma off_mgr_stop : off obs pouch_prov_mgr_stop.
Proof. off_go. Qed.

(** The request buffer across a stop. *)
Definition act_kept (d : device) := (act_len (d_active d), act_buf (d_active d)).

Lemma stop_frame : keeps act_kept pouch_prov_mgr_stop.
Proof. steps_go. Qed.

(** The session is over and the application told so. *)
Definition session_over (d : device) : Prop :=
  mg_running (d_mgr d) = false /\ d_authorized d = false /\ ended d = true /\
  adv_enabled (d_adv d) = false.

Lemma over_io d d' : not_io d' = not_io d -> session_over d -> session_over d'.
Proof. unfold not_io, session_over, ended. by intros [= -> _ _ _ _ _ -> ->]. Qed.

Lemma find_ctrl : exists ep, find_endpoint POUCH_PROV_PATH_CTRL endpoints = Some ep /\
  ep_handler ep = pouch_prov_handle_ctrl_p /\ ep_require_auth ep = true.
Proof. unfold endpoints. by destruct CONFIG_POUCH_PROV_AUTH; eexists. Qed.

Lemma end_reply_len : length end_reply = 3%nat.
Proof. apply op_status_len. unfold OP_CTRL_END. lia. Qed.

(** The control handler stops the session and acknowledges. *)
Lemma wp_handle_end tl (Q : hres -> st -> Prop) d w :
  mg_running (d_mgr d) = true ->
  (forall d' w', session_over d' -> queued d' = [] -> act_kept d' = act_kept d ->
     d_blobs d' = d_blobs d -> obs w' = obs w ->
     Q (HOk end_reply) {| s_dev := d'; s_env := w' |}) ->
  wp (pouch_prov_handle_ctrl (item_bytes (ctrl_req_item ctrl_req_ctrl_end_m) ++ tl) POUCH_PROV_MSG_MAX)
    Q {| s_dev := d; s_env := w |}.
Proof.
  intros Hrun HQ. unfold pouch_prov_handle_ctrl. rewrite decode_ctrl_req_law.
  cbn [ctrl_action]. apply wp_bind, wp_ret.
  rewrite encode_ctrl_rsp_law by (unfold ctrl_rsp_ok; cbn; unfold OP_CTRL_END; lia).
  change (item_bytes (ctrl_rsp_item _)) with end_reply.
  rewrite fit_some by (rewrite end_reply_len; unfold POUCH_PROV_MSG_MAX; lia).
  change ((OP_CTRL_END =? OP_CTRL_END) && true) with true. cbn [mwhen enc_result].
  apply wp_bind. unfold pouch_prov_ctrl_end_requested. apply wp_bind.
  apply (wp_off obs); [apply off_mgr_stop|].
  eapply wp_mono.
  { apply wp_steps; [apply stop_frame|]. apply (wp_mgr_stop (fun r s' => stopped (s_dev s') /\
      kept_by_stop (s_dev s') = kept_by_stop d)); [done|]. by intros d' w' H1 H2 _. }
  intros r [d1 w1] [[Hst Hk] Ha] Ho. cbn [s_dev s_env] in *. apply wp_ret, wp_ret.
  destruct Hst as (H1 & (_ & H2 & H3 & _) & H4 & H5 & _). unfold kept_by_stop in Hk.
  apply HQ; try done. by injection Hk.
Qed.

(** The end request over the wire. *)
Lemma wp_client_end (Q : bool -> st -> Prop) d w :
  clear d -> pouch_prov_session_authorized d = true -> mg_running (d_mgr d) = true ->
  (forall d' w', clear d' -> session_over d' -> d_blobs d' = d_blobs d -> obs w' = obs w ->
     Q true {| s_dev := d'; s_env := w' |}) ->
  wp client_end Q {| s_dev := d; s_env := w |}.
Proof.
  intros Hc Hau Hrun HQ. destruct find_ctrl as (ep & Hf & Hh & Hg). unfold client_end.
  rewrite encode_ctrl_req_law, fit_item by by apply Nat.leb_le. unfold ask_device.
  apply wp_bind, wp_bind. apply (wp_exchange_clear obs _ ep); rewrite ?Hg; try done.
  { apply fits, Nat.leb_le. reflexivity. }
  intros d1 Hd1 [Hb1 Hq1] Hr1. rewrite Hh. cbn [run_handler].
  rewrite <- (app_nil_r (item_bytes _)). apply wp_handle_end.
  { unfold not_io in Hd1. by injection Hd1 as _ _ _ _ _ _ _ ->. }
  intros d2 w2 H2 Q2 A2 B2 O2. exists end_reply. cbn [s_dev s_env]. split; [done|].
  split; [rewrite end_reply_len; unfold POUCH_PROV_MSG_MAX; lia|].
  split; [split; [|done]|split; [by left|]].
  { unfold buffer_wf in *. unfold act_kept in A2. by injection A2 as -> ->. }
  intros d3 w3 C3 N3 O3. apply wp_ret. unfold decoded.
  rewrite <- (app_nil_r end_reply). apply wp_ret.
  change end_reply with (item_bytes (ctrl_rsp_item {| ctrl_rsp_ctrl_op_m := OP_CTRL_END;
    ctrl_rsp_prov_status_m := prov_status_status_ok_m_c |})).
  rewrite decode_ctrl_rsp_law by (unfold ctrl_rsp_ok; cbn; unfold OP_CTRL_END; lia).
  cbn [ctrl_rsp_ctrl_op_m ctrl_rsp_prov_status_m]. rewrite Z.eqb_refl, bool_decide_eq_true_2 by done.
  apply HQ; [done|by eapply over_io| |congruence].
  rewrite (blobs_io _ _ N3), B2. by apply blobs_io.
Qed.
End End.

Section Complete.
Context {KC : Kconfig} {K : Kernel} {P : Platform} {CD : Codec}.
Context {CL : CodecEncLaws CD} {DL : CodecDecLaws CD}.
Context {PH : PsaHmac P} {PS : PlatformSizes P} {PA : PsaAvailable P} {MA : MemoryAvailable P}.
Context {SL : SettingsLaws P} {SW : SettingsWritable P}.
Context {MS : MessageServices P cred_obs} {SS : StopServices P cred_obs}.

(** "Client flow" of docs/protocol.md for a device that only takes credentials. *)
Definition client_session (pop nonce : list byte) (certs keys : list (list byte)) : C bool :=
  and_also (client_bootstrap pop nonce certs keys) client_end.

(** What the session leaves. *)
Definition completed (cert key : list byte) (s : st) : Prop :=
  session_over (s_dev s) /\ in_place cert key s.

Lemma wp_client_session pop nonce certs keys (Q : bool -> st -> Prop) d w :
  length nonce = NONCE_LEN -> can_bootstrap pop d -> mg_running (d_mgr d) = true ->
  sendable cred_kind_cred_device_cert_m_c certs -> sendable cred_kind_cred_private_key_m_c keys ->
  der_sequence_len_ok (concat certs) (length (concat certs)) = true ->
  (forall s', completed (concat certs) (concat keys) s' -> Q true s') ->
  wp (client_session pop nonce certs keys) Q {| s_dev := d; s_env := w |}.
Proof.
  intros Hl Hb Hrun Hc Hk Hder HQ. unfold client_session, and_also at 1.
  apply wp_bind, wp_client_bootstrap; [done..|]. intros d1 w1 C1 A1 R1 I1.
  apply (wp_client_end cred_obs); [done|done|congruence|]. intros d2 w2 C2 O2 B2 W2.
  apply HQ. split; [done|]. by eapply in_place_obs.
Qed.

(** C4: A provisioning session runs to completion on both sides: while the
    application waits for the end of provisioning, a client that follows the
    protocol (version, handshake, certificate and key in chunks, finalize, end)
    has every request answered "ok"; the wait then returns 0 with the session
    closed and advertising off, and the application reads exactly the bytes the
    client sent, now and after every reboot that finds the same settings. *)
Theorem session_completes pop nonce certs keys s :
  length nonce = NONCE_LEN -> can_bootstrap pop (s_dev s) ->
  mg_running (d_mgr (s_dev s)) = true -> ended (s_dev s) = false ->
  sendable cred_kind_cred_device_cert_m_c certs -> sendable cred_kind_cred_private_key_m_c keys ->
  der_sequence_len_ok (concat certs) (length (concat certs)) = true ->
  let session := client_session pop nonce certs keys in
  wp session (fun ok s' => ok = true /\ completed (concat certs) (concat keys) s') s /\
  wp (pouch_prov_mgr_wait (ok <- session ;; mret tt)) (fun rc s' =>
    rc = 0 /\ completed (concat certs) (concat keys) s') s.
Proof.
  destruct s as [d w]. cbn [s_dev]. intros Hl Hb Hrun Hend Hc Hk Hder.
  split; [by apply wp_client_session|]. unfold pouch_prov_mgr_wait. apply wp_bind, wp_getd.
  unfold ended in Hend. apply negb_false_iff in Hend. cbn [s_dev]. rewrite Hend. cbn [mwhen].
  apply wp_bind, wp_bind, wp_client_session; [done..|]. intros s' Hs'. apply wp_ret.
  apply wp_bind, wp_getd, wp_ret. split; [|done]. destruct Hs' as [(_ & _ & He & _) _].
  unfold ended in He. by rewrite He.
Qed.
End Complete.
