(* ===== verification/IdentitySpec.v ===== *)
(** * The device's identity across reboots

    The key pair and certificate in RAM are those in settings once pouch has
    been given an identity, a reboot brings the same identity back, and what a
    failed save leaves behind. *)

From S2P Require Import Prelude ProvTypes Codec Platform State Frame Session CredStore Adv Identity.
From S2P Require Import Manager System Instances CredPersist WorldFrame.

(** ** What the theorems rely on *)

(** The services of the identity do not touch what [obs] sees. *)
Class IdentityServices (P : Platform) {T : Type} (obs : W -> T) : Prop := {
  obs_crypto_init w r w' : psa_crypto_init w = (r, w') -> obs w' = obs w;
  obs_import_id u k w r w' : psa_import_key u k w = (r, w') -> obs w' = obs w;
  obs_generate u w r w' : psa_generate_key u w = (r, w') -> obs w' = obs w;
  obs_export id n w r w' : psa_export_key id n w = (r, w') -> obs w' = obs w;
  obs_destroy_id id w : obs (psa_destroy_key id w) = obs w;
  obs_pk_setup id w r w' : mbedtls_pk_setup_opaque id w = (r, w') -> obs w' = obs w;
  obs_subject n w r w' : mbedtls_x509write_crt_set_subject_name n w = (r, w') -> obs w' = obs w;
  obs_issuer n w r w' : mbedtls_x509write_crt_set_issuer_name n w = (r, w') -> obs w' = obs w;
  obs_mpi n w r w' : mbedtls_mpi_lset n w = (r, w') -> obs w' = obs w;
  obs_serial w r w' : mbedtls_x509write_crt_set_serial w = (r, w') -> obs w' = obs w;
  obs_validity a b w r w' : mbedtls_x509write_crt_set_validity a b w = (r, w') -> obs w' = obs w;
  obs_der n w r w' : mbedtls_x509write_crt_der n w = (r, w') -> obs w' = obs w;
  obs_subsys w r w' : settings_subsys_init w = (r, w') -> obs w' = obs w;
}.

#[export] Hint Resolve obs_crypto_init obs_import_id obs_generate obs_export obs_destroy_id
  obs_pk_setup obs_subject obs_issuer obs_mpi obs_serial obs_validity obs_der obs_subsys : off.

(** Documented results: settings and mbedTLS return 0 or a negative error, and
    settings can be read; an import accepts the key material that is a key; a
    key and a certificate are not empty. *)
Class IdentityResults (P : Platform) : Type := {
  valid_key : list byte -> Prop;
  settings_save_le k v w : (settings_save_one k v w).1 <= 0;
  settings_load_ok t w : (settings_load_subtree t w).1.1 = 0;
  crypto_init_ok w : (psa_crypto_init w).1 = PSA_SUCCESS;
  psa_import_valid raw w :
    let r := (psa_import_key PSA_IDENTITY_VOLATILE raw w).1 in
    r.1 = PSA_SUCCESS /\ r.2 <> PSA_KEY_ID_NULL <-> valid_key raw;
  export_nonempty id w raw w' :
    psa_export_key id P256_PRIV_LEN w = ((PSA_SUCCESS, raw), w') -> raw <> [];
  pk_setup_le id w : (mbedtls_pk_setup_opaque id w).1 <= 0;
  subject_le n w : (mbedtls_x509write_crt_set_subject_name n w).1 <= 0;
  issuer_le n w : (mbedtls_x509write_crt_set_issuer_name n w).1 <= 0;
  mpi_le n w : (mbedtls_mpi_lset n w).1 <= 0;
  serial_le w : (mbedtls_x509write_crt_set_serial w).1 <= 0;
  validity_le a b w : (mbedtls_x509write_crt_set_validity a b w).1 <= 0;
  der_nonempty w ret der w' :
    mbedtls_x509write_crt_der IDENTITY_CERT_MAX w = ((ret, der), w') -> 0 <= ret -> der <> [];
}.

Section IdentitySpec.
Context {KC : Kconfig} {K : Kernel} {P : Platform} {SL : SettingsLaws P} {PS : PlatformSizes P}.

(** What settings hold of the identity. *)
Definition id_obs (w : W) : option (list byte) * option (list byte) :=
  (settings_value w CERT_SETTINGS_KEY, settings_value w KEY_SETTINGS_KEY).

Context {IS : IdentityServices P id_obs} {IR : IdentityResults P}.

(** A buffer is empty or holds what is stored. *)
Definition stored (o : option (list byte)) (x : list byte) : Prop := x = [] \/ o = Some x.

Definition in_sync (d : device) (w : W) : Prop :=
  ident_wf (d_ident d) /\ stored (id_obs w).1 (cert_bytes (d_ident d)) /\
  stored (id_obs w).2 (priv_bytes (d_ident d)).

(** A key that an import of the raw private key gave. *)
Definition imported (raw : list byte) (id : Z) : Prop :=
  id <> PSA_KEY_ID_NULL /\
  exists w w', psa_import_key PSA_IDENTITY_VOLATILE raw w = ((PSA_SUCCESS, id), w').

Lemma imported_valid raw id : imported raw id -> valid_key raw.
Proof.
  intros (Hid & w & w' & E). apply (psa_import_valid raw w). cbn zeta. rewrite E. by split.
Qed.

(** The identity is complete and stored, and the key is the stored one. *)
Definition established (d : device) (w : W) : Prop :=
  ident_wf (d_ident d) /\ cert_bytes (d_ident d) <> [] /\
  imported (priv_bytes (d_ident d)) (id_key (d_ident d)) /\
  priv_bytes (d_ident d) <> [] /\
  id_obs w = (Some (cert_bytes (d_ident d)), Some (priv_bytes (d_ident d))).

(** ** Loading *)

Lemma load_slot_names p name leaf v max x :
  load_slot (p ++ name) max ((p ++ leaf)%string, v) x = load_slot name max (leaf, v) x.
Proof.
  unfold load_slot. cbn [fst snd]. destruct (decide (leaf = name)) as [->|Hn].
  - by rewrite decide_True.
  - rewrite decide_False; [done|]. intros H. apply Hn. clear -H.
    induction p as [|a p IH]; cbn in H; [done|]. by injection H.
Qed.

Lemma load_slot_other name max e x : e.1 <> name -> load_slot name max e x = x.
Proof. intros H. unfold load_slot. by rewrite decide_False. Qed.

Lemma wp_deliver_id e (Q : unit -> st -> Prop) s :
  CONFIG_POUCH_ENCRYPTION_NONE = false -> boot_wf (s_dev s) ->
  (forall d', boot_wf d' ->
     cert_bytes (d_ident d') = load_slot CERT_SETTINGS_KEY IDENTITY_CERT_MAX e (cert_bytes (d_ident (s_dev s))) ->
     priv_bytes (d_ident d') = load_slot KEY_SETTINGS_KEY P256_PRIV_LEN e (priv_bytes (d_ident (s_dev s))) ->
     Q tt {| s_dev := d'; s_env := s_env s |}) ->
  wp (deliver e) Q s.
Proof.
  intros Hc [Hs Hi] HQ. destruct e as [name v], s as [d w]. cbn [s_dev s_env] in *.
  assert (Hskip : name <> CERT_SETTINGS_KEY -> name <> KEY_SETTINGS_KEY -> forall d', boot_wf d' ->
    d_ident d' = d_ident d -> Q tt {| s_dev := d'; s_env := w |}).
  { intros H1 H2 d' Hb Hd. apply HQ; [done|by rewrite load_slot_other, Hd..]. }
  unfold deliver. destruct (strip_prefix "pnp/cred/" name) as [leaf|] eqn:E1.
  - apply strip_prefix_inv in E1 as ->. apply wp_when; intros _; [|by apply Hskip].
    apply wp_bind, wp_cred_set; [done|]. intros rc. apply wp_ret, Hskip; try done.
    split; [by apply load_setting_wf|done].
  - destruct (strip_prefix "pnp/id/" name) as [leaf|] eqn:E2.
    + apply strip_prefix_inv in E2 as ->. rewrite Hc. cbn [negb mwhen].
      apply wp_bind, wp_id_set; [done|]. intros rc i Hi' H1 H2. apply wp_ret, HQ; [done| |].
      * change CERT_SETTINGS_KEY with ("pnp/id/" ++ "cert")%string. by rewrite load_slot_names.
      * change KEY_SETTINGS_KEY with ("pnp/id/" ++ "key")%string. by rewrite load_slot_names.
    + apply wp_ret, Hskip; try done; intros ->; by vm_compute in E2.
Qed.

Lemma wp_deliver_all_id l : CONFIG_POUCH_ENCRYPTION_NONE = false ->
  forall (Q : unit -> st -> Prop) s, boot_wf (s_dev s) ->
  (forall d', boot_wf d' ->
     cert_bytes (d_ident d') =
       fold_left (fun x e => load_slot CERT_SETTINGS_KEY IDENTITY_CERT_MAX e x) l (cert_bytes (d_ident (s_dev s))) ->
     priv_bytes (d_ident d') =
       fold_left (fun x e => load_slot KEY_SETTINGS_KEY P256_PRIV_LEN e x) l (priv_bytes (d_ident (s_dev s))) ->
     Q tt {| s_dev := d'; s_env := s_env s |}) ->
  wp (mfor l deliver) Q s.
Proof.
  intros Hc. induction l as [|e l IH]; intros Q s Hb HQ; cbn [mfor fold_left] in *.
  - destruct s as [d w]. by apply wp_ret, HQ.
  - apply wp_bind, wp_deliver_id; [done..|]. intros d1 Hb1 H1 H2. apply IH; [done|].
    intros d2 Hb2 H3 H4. cbn [s_dev s_env] in *. rewrite H1 in H3. rewrite H2 in H4. by apply HQ.
Qed.

(** With one entry per name a slot holds what is stored, or what it held. *)
Lemma fold_slot name max l o : NoDup (map fst l) ->
  (forall v, ((name, v) ∈ l) <-> o = Some v) -> forall x,
  fold_left (fun x e => load_slot name max e x) l x =
  match o with Some v => if (length v <=? max)%nat then v else x | None => x end.
Proof.
  intros Hnd Ho x.
  assert (Hout : forall l x, name ∉ map fst l ->
    fold_left (fun x e => load_slot name max e x) l x = x).
  { clear. induction l as [|e l IH]; intros x Hn; [done|]. cbn [fold_left map] in *.
    apply not_elem_of_cons in Hn as [H1 H2]. rewrite IH by done. by apply load_slot_other. }
  destruct o as [v|].
  - assert (Hin : (name, v) ∈ l) by by apply Ho. clear Ho. revert x.
    induction l as [|e l IH]; intros x; [by apply not_elem_of_nil in Hin|].
    cbn [fold_left map] in *. apply NoDup_cons in Hnd as [Hn Hnd].
    apply elem_of_cons in Hin as [<-|Hin].
    + rewrite Hout by done. unfold load_slot. cbn [fst snd]. by rewrite decide_True.
    + rewrite IH by done. rewrite load_slot_other; [done|].
      intros He. apply Hn. rewrite He. by apply (list_elem_of_fmap_2 fst l (name, v)).
  - apply Hout. intros ([n v] & Hn & Hin)%list_elem_of_fmap. cbn in Hn. subst.
    by apply Ho in Hin.
Qed.

(** A slot as the boot leaves it. *)
Definition boot_slot (max : nat) (o : option (list byte)) : list byte :=
  match o with Some v => if (length v <=? max)%nat then v else [] | None => [] end.

Lemma boot_slot_stored max o : stored o (boot_slot max o).
Proof. unfold boot_slot, stored. destruct o as [v|]; [destruct (_ <=? _)%nat|]; auto. Qed.

Lemma wp_boot_load (Q : Z -> st -> Prop) flags w :
  CONFIG_POUCH_ENCRYPTION_NONE = false ->
  (forall d' w', boot_wf d' -> id_obs w' = id_obs w ->
     cert_bytes (d_ident d') = boot_slot IDENTITY_CERT_MAX (id_obs w).1 ->
     priv_bytes (d_ident d') = boot_slot P256_PRIV_LEN (id_obs w).2 ->
     Q 0 {| s_dev := d'; s_env := w' |}) ->
  wp (settings_load "pnp") Q {| s_dev := device_boot flags; s_env := w |}.
Proof.
  intros Hc HQ. unfold settings_load. apply wp_bind, wp_call. cbn [s_env s_dev].
  intros [err l] w1 E. pose proof (settings_load_ok "pnp" w) as H0. rewrite E in H0. cbn in H0. subst.
  destruct (settings_load_law _ _ _ _ E) as (Hnd & Hin & Hv).
  apply wp_bind, wp_deliver_all_id; [done|apply boot_wf_boot|]. cbn [s_dev s_env].
  intros d' Hb H1 H2. apply wp_ret, HQ; [done|unfold id_obs; by rewrite !Hv| |].
  - rewrite H1, (fold_slot _ _ _ (settings_value w CERT_SETTINGS_KEY)); [done..|].
    intros v. rewrite Hin. intuition.
  - rewrite H2, (fold_slot _ _ _ (settings_value w KEY_SETTINGS_KEY)); [done..|].
    intros v. rewrite Hin. intuition.
Qed.

(** ** Generating *)

Lemma wp_import raw (Q : Z -> st -> Prop) d w :
  (forall id w', id_obs w' = id_obs w -> (id <> PSA_KEY_ID_NULL <-> valid_key raw) ->
     (id <> PSA_KEY_ID_NULL -> imported raw id) -> Q id {| s_dev := d; s_env := w' |}) ->
  wp (import_key raw) Q {| s_dev := d; s_env := w |}.
Proof.
  intros HQ. unfold import_key. apply wp_bind, wp_call. cbn [s_dev s_env]. intros [status id] w' E.
  pose proof (psa_import_valid raw w) as Hv. rewrite E in Hv. cbn in Hv. apply wp_ret, HQ.
  - by eapply obs_import_id.
  - rewrite <- Hv. destruct (status =? PSA_SUCCESS) eqn:Es; zbool; intuition.
  - destruct (status =? PSA_SUCCESS) eqn:Es; zbool; [|done]. subst status.
    intros Hid. split; [done|]. by exists w, w'.
Qed.

(** The device with another identity. *)
Definition with_ident (i : ident_t) (d : device) : device := set_ident (fun _ => i) d.

(** A generated key is stored and imported, or there is an error. *)
Lemma wp_generate_key (Q : Z -> st -> Prop) d w :
  ident_wf (d_ident d) ->
  (forall rc d' w', rc <> 0 -> Q rc {| s_dev := d'; s_env := w' |}) ->
  (forall i w', ident_wf i -> cert_bytes i = cert_bytes (d_ident d) ->
     priv_bytes i <> [] -> imported (priv_bytes i) (id_key i) ->
     (id_obs w').2 = Some (priv_bytes i) -> Q 0 {| s_dev := with_ident i d; s_env := w' |}) ->
  wp generate_key Q {| s_dev := d; s_env := w |}.
Proof.
  intros (H1 & H2 & H3 & H4) Herr HQ. unfold generate_key. apply wp_bind.
  assert (Hfail : forall tmp d' w', wp (mwhen (negb (tmp =? PSA_KEY_ID_NULL)) (call_ (psa_destroy_key tmp)) ;;;
    mret (- EIO)) Q {| s_dev := d'; s_env := w' |}).
  { intros tmp d' w'. apply wp_bind, wp_when; intros _; [apply wp_call_|]; apply wp_ret, Herr; done. }
  unfold generate_and_store. apply wp_bind, wp_call. cbn [s_dev s_env]. intros [stt tmp] w1 E1.
  destruct (negb (stt =? PSA_SUCCESS)); [by apply wp_ret, Hfail|].
  apply wp_bind, wp_call. cbn [s_dev s_env]. intros [stt2 raw] w2 E2.
  pose proof (export_length _ _ _ _ _ _ E2) as Hl. unfold P256_PRIV_LEN in *.
  apply wp_bind, wp_getd, wp_bind, wp_guard; [unfold buf_fits; apply Nat.leb_le; cbn; lia|].
  apply wp_bind, wp_put, wp_bind, wp_put. cbn [s_dev s_env].
  destruct (negb (stt2 =? PSA_SUCCESS)) eqn:Es; zbool; [by apply wp_ret, Hfail|]. subst stt2.
  apply wp_bind, wp_getd, wp_bind, wp_call. cbn [s_dev s_env]. intros err w3 E3.
  match type of E3 with settings_save_one _ (priv_bytes (d_ident ?x)) _ = _ => set (d1 := x) in * end.
  assert (Hraw : priv_bytes (d_ident d1) = raw).
  { unfold priv_bytes, d1. cbn -[buf_write]. apply take_buf_write_0. lia. }
  apply wp_ret. destruct (err =? 0) eqn:Ee; zbool; [|by apply Hfail]. subst err. cbn [negb].
  apply wp_bind.
  assert (Hgo : forall w4, id_obs w4 = id_obs w3 ->
    wp (i <- get d_ident ;; id <- import_key (priv_bytes i) ;; put (set_identity_key id) ;;;
        mret (if id =? PSA_KEY_ID_NULL then - EIO else 0)) Q {| s_dev := d1; s_env := w4 |}).
  { intros w4 Ho. apply wp_bind, wp_getd, wp_bind, wp_import. intros id w5 Ho5 Hv Himp.
    apply wp_bind, wp_put, wp_ret. cbn [s_dev s_env].
    destruct (id =? PSA_KEY_ID_NULL) eqn:Eid; zbool; [by apply Herr|].
    destruct (settings_save_law _ _ _ _ E3) as [Hset _].
    change (set_identity_key id d1) with (with_ident (d_ident (set_identity_key id d1)) d).
    assert (Hp : priv_bytes (d_ident (set_identity_key id d1)) = raw) by exact Hraw.
    apply HQ; rewrite ?Hp.
    - unfold ident_wf, d1, P256_PRIV_LEN. cbn -[buf_write IDENTITY_CERT_MAX].
      rewrite length_buf_write by lia. split_and!; lia.
    - done.
    - by eapply export_nonempty.
    - rewrite <- Hraw. by apply Himp.
    - rewrite Ho5, Ho. cbn [id_obs snd]. by rewrite Hset, Hraw. }
  apply wp_when; intros _; [apply wp_call_|]; apply Hgo; [by rewrite obs_destroy_id|done].
Qed.

(** One step of the certificate's chain. *)
Lemma wp_cert_call f (Q : Z -> st -> Prop) ret d w :
  ret <= 0 -> (forall w, (f w).1 <= 0) -> (forall w r w', f w = (r, w') -> id_obs w' = id_obs w) ->
  (forall r w', r <= 0 -> id_obs w' = id_obs w -> Q r {| s_dev := d; s_env := w' |}) ->
  wp (Identity.and_then ret f) Q {| s_dev := d; s_env := w |}.
Proof.
  intros Hr Hle Ho HQ. unfold Identity.and_then. destruct (ret =? 0); [|by apply wp_ret, HQ].
  apply wp_call. cbn [s_dev s_env]. intros r w' E. apply HQ; [|by eapply Ho].
  pose proof (Hle w) as H. by rewrite E in H.
Qed.

(** A certificate is built and stored, or there is an error. *)
Lemma wp_build_cert (Q : Z -> st -> Prop) d w :
  ident_wf (d_ident d) ->
  (forall rc d' w', rc <> 0 -> Q rc {| s_dev := d'; s_env := w' |}) ->
  (forall i w', ident_wf i -> priv_bytes i = priv_bytes (d_ident d) ->
     id_key i = id_key (d_ident d) -> cert_bytes i <> [] ->
     id_obs w' = (Some (cert_bytes i), (id_obs w).2) ->
     Q 0 {| s_dev := with_ident i d; s_env := w' |}) ->
  wp build_self_signed_cert Q {| s_dev := d; s_env := w |}.
Proof.
  intros (H1 & H2 & H3 & H4) Herr HQ. unfold build_self_signed_cert. apply wp_bind.
  assert (Hneg : forall ret s, ret < 0 -> wp (mret (if ret <? 0 then - EIO else 0)) Q s).
  { intros ret s Hr. rewrite (proj2 (Z.ltb_lt _ _)) by done. apply wp_ret. destruct s. by apply Herr. }
  assert (Hstop : forall ret s, ret <= 0 -> negb (ret =? 0) = true ->
    wp (mret ret) (fun ret => wp (mret (if ret <? 0 then - EIO else 0)) Q) s).
  { intros ret s Hr Hz. zbool. apply wp_ret, Hneg. lia. }
  unfold cert_steps. apply wp_bind, wp_getd, wp_bind, wp_call. cbn [s_dev s_env]. intros r0 w0 E0.
  pose proof (pk_setup_le (id_key (d_ident d)) w) as L0. rewrite E0 in L0. cbn [fst] in L0.
  destruct (negb (r0 =? 0)) eqn:Z0; [by apply Hstop|].
  assert (O0 : id_obs w0 = id_obs w) by by eapply obs_pk_setup. clear E0.
  apply wp_bind, wp_call. cbn [s_dev s_env]. intros r1 w1 E1.
  pose proof (subject_le "CN=pouch-prov-device" w0) as L1. rewrite E1 in L1. cbn [fst] in L1.
  assert (O1 : id_obs w1 = id_obs w) by (rewrite <- O0; by eapply obs_subject). clear E1.
  apply wp_bind, wp_cert_call; [done|apply issuer_le|apply obs_issuer|]. intros r2 w2 L2 O2.
  apply wp_bind, wp_cert_call; [done|apply mpi_le|apply obs_mpi|]. intros r3 w3 L3 O3.
  apply wp_bind, wp_cert_call; [done|apply serial_le|apply obs_serial|]. intros r4 w4 L4 O4.
  apply wp_bind, wp_cert_call; [done|apply validity_le|apply obs_validity|]. intros r5 w5 L5 O5.
  destruct (negb (r5 =? 0)) eqn:Z5; [by apply Hstop|].
  apply wp_bind, wp_call. cbn [s_dev s_env]. intros [r6 der] w6 E6.
  assert (O6 : id_obs w6 = id_obs w) by (transitivity (id_obs w5); [by eapply obs_der|congruence]).
  destruct (r6 <? 0) eqn:Z6; zbool; [by apply wp_ret, Hneg|].
  destruct (der_length _ _ _ _ _ E6) as [Hl Hl6]. specialize (Hl6 ltac:(lia)).
  apply wp_bind, wp_put, wp_bind, wp_getd, wp_bind, wp_guard; [unfold buf_fits; apply Nat.leb_le; cbn -[IDENTITY_CERT_MAX]; lia|].
  apply wp_bind, wp_put, wp_bind, wp_getd, wp_call. cbn [s_dev s_env]. intros r7 w7 E7.
  match type of E7 with settings_save_one _ (cert_bytes (d_ident ?x)) _ = _ => set (d1 := x) in * end.
  assert (Hder : cert_bytes (d_ident d1) = der).
  { unfold cert_bytes, d1. cbn -[buf_write]. replace (Z.to_nat r6) with (length der) by lia.
    apply take_buf_write_0. lia. }
  pose proof (settings_save_le CERT_SETTINGS_KEY (cert_bytes (d_ident d1)) w6) as L7.
  rewrite E7 in L7. cbn [fst] in L7. destruct (decide (r7 < 0)) as [Hr|Hr]; [by apply Hneg|].
  replace r7 with 0 in * by lia. apply wp_ret.
  destruct (settings_save_law _ _ _ _ E7) as [Hset Hoth].
  change d1 with (with_ident (d_ident d1) d). apply HQ.
  - unfold ident_wf, d1. cbn -[buf_write IDENTITY_CERT_MAX]. rewrite length_buf_write by lia.
    split_and!; lia.
  - done.
  - done.
  - rewrite Hder. eapply der_nonempty; [exact E6|lia].
  - unfold id_obs. rewrite Hset, (Hoth KEY_SETTINGS_KEY) by done. f_equal.
    exact (f_equal snd O6).
Qed.

(** ** Ensuring *)

Lemma take_nonempty n (l : list byte) : (0 < n <= length l)%nat -> take n l <> [].
Proof. intros H Hnil. apply (f_equal length) in Hnil. rewrite length_take in Hnil. cbn in Hnil. lia. Qed.

(** The certificate, once there is a key. *)
Lemma wp_ensure_cert (Q : Z + (list byte * Z) -> st -> Prop) d i w :
  ident_wf i -> priv_bytes i <> [] -> imported (priv_bytes i) (id_key i) ->
  (id_obs w).2 = Some (priv_bytes i) -> stored (id_obs w).1 (cert_bytes i) ->
  (forall err d' w', Q (inl err) {| s_dev := d'; s_env := w' |}) ->
  (forall i w', established (with_ident i d) w' ->
     Q (inr (cert_bytes i, id_key i)) {| s_dev := with_ident i d; s_env := w' |}) ->
  wp (i <- get d_ident ;;
      err <- (if (id_cert_der_len i =? 0)%nat then build_self_signed_cert else mret 0) ;;
      if negb (err =? 0) then mret (inl err) else
      i <- get d_ident ;; mret (inr (cert_bytes i, id_key i))) Q
    {| s_dev := with_ident i d; s_env := w |}.
Proof.
  intros Hi Hp Hv Ho Hs Herr HQ. apply wp_bind, wp_getd, wp_bind. cbn [s_dev].
  change (d_ident (with_ident i d)) with i. destruct (id_cert_der_len i =? 0)%nat eqn:El; zbool.
  - apply wp_build_cert; [exact Hi| |].
    { intros rc d' w' Hrc. rewrite (proj2 (Z.eqb_neq _ _)) by done. apply wp_ret, Herr. }
    intros i' w' Hi' Hp' Hk' Hc' Ho'. apply wp_bind, wp_getd, wp_ret, (HQ i').
    change (d_ident (with_ident i d)) with i in *. unfold established.
    change (d_ident (with_ident i' d)) with i'. rewrite Hp', Hk', Ho', Ho. by split_and!.
  - apply wp_ret. apply wp_bind, wp_getd, wp_ret, HQ. unfold established.
    change (d_ident (with_ident i d)) with i.
    assert (Hne : cert_bytes i <> [])
      by (destruct Hi as (G1 & G2 & G3 & G4); apply take_nonempty; lia).
    destruct Hs as [Hs|Hs]; [done|]. split_and!; try done.
    destruct (id_obs w) as [a b]. cbn in *. by subst.
Qed.

Lemma wp_ensure (Q : Z + (list byte * Z) -> st -> Prop) d w :
  in_sync d w ->
  (forall err d' w', Q (inl err) {| s_dev := d'; s_env := w' |}) ->
  (forall i w', established (with_ident i d) w' ->
     Q (inr (cert_bytes i, id_key i)) {| s_dev := with_ident i d; s_env := w' |}) ->
  wp pouch_prov_identity_ensure Q {| s_dev := d; s_env := w |}.
Proof.
  intros (Hwf & Hc & Hk) Herr HQ. unfold pouch_prov_identity_ensure.
  apply wp_bind, wp_call. cbn [s_dev s_env]. intros stt w1 E1.
  assert (O1 : id_obs w1 = id_obs w) by by eapply obs_crypto_init.
  destruct (negb (stt =? PSA_SUCCESS)); [by apply wp_ret|].
  apply wp_bind, wp_getd, wp_bind. cbn [s_dev].
  destruct (0 <? id_priv_raw_len (d_ident d))%nat eqn:Ek; zbool.
  - apply wp_bind, wp_import. intros id w2 O2 Hv Himp. apply wp_bind, wp_put, wp_ret. cbn [s_dev s_env].
    destruct (id =? PSA_KEY_ID_NULL) eqn:Eid; zbool; [by apply wp_ret|].
    change (set_identity_key id d) with (with_ident (d_ident (set_identity_key id d)) d).
    assert (Hne : priv_bytes (d_ident d) <> [])
      by (destruct Hwf as (G1 & G2 & G3 & G4); apply take_nonempty; lia).
    assert (O : id_obs w2 = id_obs w) by congruence. rewrite <- O in Hc, Hk.
    apply wp_ensure_cert; [exact Hwf|exact Hne|by apply Himp| |exact Hc|exact Herr|exact HQ].
    destruct Hk as [Hk|Hk]; [done|exact Hk].
  - apply wp_bind, wp_generate_key; [exact Hwf| |].
    { intros rc d' w' Hrc. apply wp_bind, wp_when; intros Ez; zbool; [done|].
      apply wp_ret, wp_ret. rewrite (proj2 (Z.eqb_neq _ _)) by done. apply wp_ret, Herr. }
    intros i w2 Hi Hc2 Hp Hv Ho. apply wp_bind, wp_put, wp_ret. cbn [s_dev s_env].
    change (set_cert_der_len 0 (with_ident i d)) with
      (with_ident (d_ident (set_cert_der_len 0 (with_ident i d))) d).
    apply wp_ensure_cert; [|exact Hp|exact Hv|exact Ho|by left|exact Herr|exact HQ].
    destruct Hi as (G1 & G2 & G3 & G4). unfold ident_wf. cbn -[IDENTITY_CERT_MAX P256_PRIV_LEN].
    split_and!; try done. lia.
Qed.

Lemma bytes_nonempty n (l : list byte) : take n l <> [] -> (0 < n)%nat.
Proof. by destruct n; [|lia]. Qed.

(** An identity in RAM is used as it is. *)
Lemma wp_ensure_loaded d w :
  cert_bytes (d_ident d) <> [] -> priv_bytes (d_ident d) <> [] -> valid_key (priv_bytes (d_ident d)) ->
  wp pouch_prov_identity_ensure (fun r s' =>
    exists id, r = inr (cert_bytes (d_ident d), id) /\ imported (priv_bytes (d_ident d)) id)
    {| s_dev := d; s_env := w |}.
Proof.
  intros Hc Hp Hv. unfold pouch_prov_identity_ensure.
  apply wp_bind, wp_call. cbn [s_dev s_env]. intros stt w1 E1.
  pose proof (crypto_init_ok w) as H1. rewrite E1 in H1. cbn in H1. subst. cbn [negb Z.eqb PSA_SUCCESS].
  apply wp_bind, wp_getd, wp_bind. cbn [s_dev].
  rewrite (proj2 (Nat.ltb_lt _ _)) by by eapply bytes_nonempty.
  apply wp_bind, wp_import. intros id w2 _ Hid Himp. apply wp_bind, wp_put, wp_ret. cbn [s_dev s_env].
  assert (En : (id =? PSA_KEY_ID_NULL) = false) by (apply Z.eqb_neq; by apply Hid).
  rewrite En. cbn [negb Z.eqb].
  apply wp_bind, wp_getd, wp_bind. cbn [s_dev]. change (id_cert_der_len (d_ident (set_identity_key id d)))
    with (id_cert_der_len (d_ident d)).
  rewrite (proj2 (Nat.eqb_neq _ _)) by (pose proof (bytes_nonempty _ _ Hc); lia).
  apply wp_ret. cbn [negb Z.eqb]. apply wp_bind, wp_getd, wp_ret. eexists. split; [done|by apply Himp, Hid].
Qed.

Lemma wp_pouch_cfg id (Q : Z + pouch_config -> st -> Prop) flags w :
  CONFIG_POUCH_ENCRYPTION_NONE = false -> CONFIG_SETTINGS = true ->
  (forall d' w', boot_wf d' -> id_obs w' = id_obs w ->
     cert_bytes (d_ident d') = boot_slot IDENTITY_CERT_MAX (id_obs w).1 ->
     priv_bytes (d_ident d') = boot_slot P256_PRIV_LEN (id_obs w).2 ->
     wp pouch_prov_identity_ensure (fun r => Q match r with
       | inl err => inl err | inr (cert, key) => inr (pouch_identity cert key) end)
       {| s_dev := d'; s_env := w' |}) ->
  wp (pouch_cfg id) Q {| s_dev := device_boot flags; s_env := w |}.
Proof.
  intros He Hs HQ. unfold pouch_cfg. rewrite He, Hs. cbn [mwhen]. apply wp_bind, wp_bind, wp_call.
  cbn [s_dev s_env]. intros r w1 E1. assert (O1 : id_obs w1 = id_obs w) by by eapply obs_subsys.
  apply wp_bind, wp_boot_load; [done|]. intros d' w2 Hb O2 Hc Hp. apply wp_ret, wp_bind.
  rewrite O1 in Hc, Hp. eapply wp_mono; [apply HQ; [done|congruence|done|done]|].
  intros rr s' H. by apply wp_ret.
Qed.

(** C33: The device keeps its identity: when the first initialisation after a boot
    gives pouch a certificate and a key, whatever was stored before and whether
    the identity was generated or loaded, settings hold that certificate and the
    raw private key that the key was imported from. Every later boot that finds
    the same settings succeeds, and its first initialisation gives pouch the same
    certificate and a valid key imported from the same private bytes. *)
Theorem identity_survives_reboot flags id w0 cert key s1 :
  CONFIG_POUCH_ENCRYPTION_NONE = false -> CONFIG_SETTINGS = true ->
  pouch_cfg id {| s_dev := device_boot flags; s_env := w0 |} =
    Some (inr (pouch_identity cert key), s1) ->
  exists priv, id_obs (s_env s1) = (Some cert, Some priv) /\ imported priv key /\
    forall flags' id' w1, id_obs w1 = id_obs (s_env s1) ->
      wp (pouch_cfg id') (fun r _ =>
        exists key', r = inr (pouch_identity cert key') /\ imported priv key')
        {| s_dev := device_boot flags'; s_env := w1 |}.
Proof.
  intros He Hs E.
  assert (H : established (s_dev s1) (s_env s1) /\ cert = cert_bytes (d_ident (s_dev s1)) /\
              key = id_key (d_ident (s_dev s1))).
  { refine (wp_run _ (fun r s1 => forall cert key, r = inr (pouch_identity cert key) ->
      established (s_dev s1) (s_env s1) /\ cert = cert_bytes (d_ident (s_dev s1)) /\
      key = id_key (d_ident (s_dev s1))) _ _ _ E _ _ _ eq_refl).
    apply wp_pouch_cfg; [done|done|]. intros d' w' Hb O Hc Hp. apply wp_ensure.
    - split; [apply Hb|]. rewrite Hc, Hp, O. split; apply boot_slot_stored.
    - done.
    - intros i w2 H c k [= <- <-]. by split. }
  destruct H as [((G1 & G2 & G3 & G4) & Hc & Hv & Hp & Hob) [-> ->]]. clear E.
  exists (priv_bytes (d_ident (s_dev s1))). split; [done|]. split; [done|]. intros flags' id' w1 Ho.
  apply wp_pouch_cfg; [done|done|]. intros d' w' Hb _ Hc' Hp'.
  rewrite Ho, Hob in Hc', Hp'. cbn [fst snd boot_slot] in *.
  rewrite (proj2 (Nat.leb_le _ _)) in Hc' by (unfold cert_bytes; rewrite length_take; lia).
  rewrite (proj2 (Nat.leb_le _ _)) in Hp' by (unfold priv_bytes; rewrite length_take; lia).
  apply imported_valid in Hv. rewrite <- Hc', <- Hp' in *.
  eapply wp_mono; [by apply (wp_ensure_loaded d' w')|].
  intros r s2 [k [-> H2]]. by exists k.
Qed.

(** C20: A key that could not be saved is used all the same at the next attempt: when
    settings hold a certificate but no key and saving the new key fails, the
    first call reports the error, and the second hands pouch the old certificate
    with a key imported from the new, unsaved bytes. *)
Theorem unsaved_key_reused s w1 w2 w3 w4 tmp raw err :
  ident_wf (d_ident (s_dev s)) -> cert_bytes (d_ident (s_dev s)) <> [] ->
  priv_bytes (d_ident (s_dev s)) = [] ->
  psa_crypto_init (s_env s) = (PSA_SUCCESS, w1) ->
  psa_generate_key PSA_IDENTITY_EXPORTABLE w1 = ((PSA_SUCCESS, tmp), w2) ->
  psa_export_key tmp P256_PRIV_LEN w2 = ((PSA_SUCCESS, raw), w3) ->
  settings_save_one KEY_SETTINGS_KEY raw w3 = (err, w4) -> err <> 0 -> valid_key raw ->
  wp pouch_prov_identity_ensure (fun r s1 => r = inl (- EIO) /\
    forall w, wp pouch_prov_identity_ensure (fun r _ =>
      exists id, r = inr (cert_bytes (d_ident (s_dev s)), id) /\ imported raw id)
      {| s_dev := s_dev s1; s_env := w |}) s.
Proof.
  destruct s as [d w]. cbn [s_dev s_env]. intros (H1 & H2 & H3 & H4) Hc Hp E1 E2 E3 E4 Herr Hv.
  pose proof (export_length _ _ _ _ _ _ E3) as Hl. pose proof (export_nonempty _ _ _ _ E3) as Hne.
  assert (Hz : id_priv_raw_len (d_ident d) = 0%nat).
  { apply (f_equal length) in Hp. unfold priv_bytes in Hp. rewrite length_take in Hp. cbn in Hp.
    unfold P256_PRIV_LEN in *. lia. }
  unfold pouch_prov_identity_ensure at 1. apply wp_bind. unfold wp at 1, call. cbn [s_env s_dev].
  rewrite E1. cbn [negb Z.eqb PSA_SUCCESS]. apply wp_bind, wp_getd, wp_bind. cbn [s_dev]. rewrite Hz.
  cbn [Nat.ltb Nat.leb]. apply wp_bind. unfold generate_key, generate_and_store.
  apply wp_bind, wp_bind. unfold wp at 1, call. cbn [s_env s_dev]. rewrite E2.
  cbn [negb Z.eqb PSA_SUCCESS]. apply wp_bind. unfold wp at 1, call. cbn [s_env s_dev]. rewrite E3.
  cbn [negb Z.eqb PSA_SUCCESS].
  apply wp_bind, wp_getd, wp_bind, wp_guard; [unfold buf_fits; apply Nat.leb_le; cbn -[P256_PRIV_LEN]; lia|].
  apply wp_bind, wp_put, wp_bind, wp_put, wp_bind, wp_getd. cbn [s_dev s_env].
  set (d1 := set_priv_raw_len _ _).
  assert (Hraw : priv_bytes (d_ident d1) = raw).
  { unfold priv_bytes, d1. cbn -[buf_write]. apply take_buf_write_0. lia. }
  assert (Hcert : cert_bytes (d_ident d1) = cert_bytes (d_ident d)) by done.
  apply wp_bind. unfold wp at 1, call. cbn [s_env s_dev]. rewrite Hraw, E4. apply wp_ret.
  rewrite (proj2 (Z.eqb_neq err 0) Herr). cbn [negb]. apply wp_bind.
  apply wp_when; intros _; [apply wp_call_|]; apply wp_ret, wp_bind, wp_ret, wp_ret, wp_ret;
    (split; [done|]); intros w5; cbn [s_dev]; rewrite <- Hcert, <- Hraw in *; by apply wp_ensure_loaded.
Qed.
End IdentitySpec.

(** ** The properties at concrete inputs *)

(** The build that encrypts. *)
Definition sim_secure : Kconfig := {|
  CONFIG_POUCH_PROV_WIFI := true;
  CONFIG_POUCH_PROV_CRED := true;
  CONFIG_POUCH_PROV_AUTH := true;
  CONFIG_POUCH_ENCRYPTION_NONE := false;
  CONFIG_SETTINGS := true;
  CONFIG_POUCH_BLOCK_SIZE := 512;
  CONFIG_POUCH_PROV_SCAN_CACHE := 16;
  CONFIG_POUCH_PROV_AUTOSTOP_TIMEOUT_S := 30;
  CONFIG_POUCH_PROV_RESPONSE_WAIT_MS := 1000;
  CONFIG_POUCH_PROV_DEVICE_NAME_PREFIX := "PNP-";
|}.

Lemma sim_identity_services : IdentityServices sim_platform id_obs.
Proof. split; try done; intros; by simplify_eq/=. Qed.

Definition sim_identity_results : IdentityResults sim_platform.
Proof.
  refine {| valid_key _ := True |}; try done.
  - intros k v w. cbn. unfold sim_save. destruct (bool_decide _); cbn; [|lia].
    apply Z.leb_le. reflexivity.
  - by intros id w raw w' [= <- _].
  - by intros w ret der w' [= _ <- _].
Defined.

#[local] Existing Instance sim_identity_services.
#[local] Existing Instance sim_identity_results.

(** The first boot of a new device. *)
Definition sim_first : (Z + pouch_config) * st := Eval vm_compute in
  match pouch_cfg (KC := sim_secure) (P := sim_platform) "device-1" sim_boot with
  | Some x => x
  | None => (inl 0, sim_boot)
  end.

Lemma identity_survives_reboot_witness :
  exists priv, id_obs (s_env sim_first.2) = (Some [x30; x02; x05; x00], Some priv) /\
    imported priv 2 /\
    forall flags' id' w1, id_obs w1 = id_obs (s_env sim_first.2) ->
      wp (pouch_cfg (KC := sim_secure) id') (fun r _ =>
        exists key', r = inr (pouch_identity [x30; x02; x05; x00] key') /\ imported priv key')
        {| s_dev := device_boot flags'; s_env := w1 |}.
Proof.
  apply (identity_survives_reboot (KC := sim_secure) (P := sim_platform) 0 "device-1" (s_env sim_boot)
    [x30; x02; x05; x00] 2 sim_first.2).
  - reflexivity.
  - reflexivity.
  - vm_compute. reflexivity.
Defined.

(** A certificate that cannot be saved: the first call reports the error, the
    second hands pouch the certificate, and settings hold none. *)
Definition sim_cert_unsaved : st (P := sim_platform) := Eval vm_compute in
  {| s_dev := device_boot 0;
     s_env := {| w_settings := w_settings sim_start; w_wifi := []; w_uplink := []; w_events := [];
                 w_keys := []; w_connects := []; w_heap := true; w_status := None;
                 w_save_fails := Some CERT_SETTINGS_KEY |} |}.

Lemma sim_unsaved_cert_reused :
  match pouch_prov_identity_ensure sim_cert_unsaved with
  | Some (r1, s1) => match pouch_prov_identity_ensure s1 with
    | Some (r2, s2) => (r1, r2, settings_value (s_env s2) CERT_SETTINGS_KEY)
    | None => (inl 0, inl 0, None)
    end
  | None => (inl 0, inl 0, None)
  end = (inl (- EIO), inr ([x30; x02; x05; x00], 3), None).
Proof. vm_compute. reflexivity. Qed.

(** Settings hold a certificate and no key, and the key cannot be saved. *)
Definition sim_half : st (P := sim_platform) := Eval vm_compute in
  {| s_dev := with_ident {| id_cert_der := buf_write 0 [x30; x02; x05; x00] (zeros IDENTITY_CERT_MAX);
                            id_cert_der_len := 4; id_priv_raw := zeros P256_PRIV_LEN;
                            id_priv_raw_len := 0; id_key := 0 |} (device_boot 0);
     s_env := {| w_settings := w_settings sim_start; w_wifi := []; w_uplink := []; w_events := [];
                 w_keys := []; w_connects := []; w_heap := true; w_status := None;
                 w_save_fails := Some KEY_SETTINGS_KEY |} |}.

Lemma unsaved_key_reused_witness :
  wp pouch_prov_identity_ensure (fun r s1 => r = inl (- EIO) /\
    forall w, wp pouch_prov_identity_ensure (fun r _ =>
      exists id, r = inr (cert_bytes (d_ident (s_dev sim_half)), id) /\ imported (sim_rand 32) id)
      {| s_dev := s_dev s1; s_env := w |}) sim_half.
Proof.
  apply (unsaved_key_reused (P := sim_platform) sim_half (s_env sim_half) (with_key (sim_rand 32) (s_env sim_half))
    (with_key (sim_rand 32) (s_env sim_half)) (with_key (sim_rand 32) (s_env sim_half)) 1
    (sim_rand 32) (- EIO)).
  - split_and!; [reflexivity|reflexivity|apply Nat.leb_le; reflexivity|apply Nat.leb_le; reflexivity].
  - discriminate.
  - reflexivity.
  - reflexivity.
  - reflexivity.
  - reflexivity.
  - reflexivity.
  - discriminate.
  - exact I.
Defined.
