(* ===== verification/SamplesSpec.v ===== *)
(** * What the sample applications do after a reboot

    The credentials loaded by [pouch_prov_mgr_init], and the main function of
    src/samples/cred_only on a device that has them. *)

From S2P Require Import Prelude ProvTypes Codec Platform State Frame Rpc Session CredStore WifiConfig.
From S2P Require Import Adv Identity Manager System Samples Frames Instances CredSpec CredPersist.
From S2P Require Import DispatchSpec Lifecycle Safety.

Section SamplesSpec.
Context {KC : Kconfig} {K : Kernel} {P : Platform} {CD : Codec} {SC : SampleConfig}.
Context {SL : SettingsLaws P} {PS : PlatformSizes P}.

(** What initialisation leaves alone once the settings are loaded. *)
Definition quiet (d : device) :=
  (d_blobs d, mg_running (d_mgr d), adv_enabled (d_adv d), mg_events (d_mgr d)).

Lemma steps_quiet_identity : keeps quiet pouch_prov_identity_ensure.
Proof. steps_go. Qed.

(** The rest of the initialisation, from the loaded settings on. *)
Definition init_tail (attempts : Z) : C Z :=
  c <- (r <- pouch_prov_identity_ensure ;;
        mret (match r with
              | inl err => inl err
              | inr (cert, key) => inr (pouch_identity cert key)
              end)) ;;
  match c with
  | inl err => mret err
  | inr c =>
      err <- call (pouch_init c) ;;
      if negb (err =? 0) then mret err else
      mwhen CONFIG_POUCH_PROV_WIFI
        (r <- pouch_prov_wifi_config_init attempts ;;
         r <- WifiScan.pouch_prov_wifi_scan_init ;;
         mret tt) ;;;
      put (set_initialized true) ;;;
      mret 0
  end.

Lemma init_tail_frame attempts : keeps quiet (init_tail attempts).
Proof. pose proof steps_quiet_identity. steps_go. Qed.

Lemma safe_init_tail attempts : safe device_wf False (init_tail attempts).
Proof. pose proof (safe_identity False). safe_go. Qed.

(** The settings as they are after the subsystem has been set up. *)
Record booted (w w2 : W) (l : list (string * list byte)) : Prop := {
  bt_identity : CONFIG_POUCH_ENCRYPTION_NONE = false;
  bt_settings : CONFIG_SETTINGS = true;
  bt_load : settings_load_subtree "pnp" (settings_subsys_init w).2 = ((0, l), w2);
}.

Lemma wp_init_boot flags cfg id w w2 l :
  booted w w2 l -> cfg_device_id cfg = Some id ->
  wp (pouch_prov_mgr_init (Some cfg)) (fun _ s' =>
    quiet (s_dev s') = (fold_left deliver_blobs l blobs_init, false, false, event_init))
    {| s_dev := device_boot flags; s_env := w |}.
Proof.
  intros [He Hs Hl] Hid.
  assert (Hrest : forall d w', device_wf d ->
    quiet d = (fold_left deliver_blobs l blobs_init, false, false, event_init) ->
    wp (init_tail (cfg_wifi_conn_attempts cfg)) (fun _ s' =>
      quiet (s_dev s') = (fold_left deliver_blobs l blobs_init, false, false, event_init))
      {| s_dev := d; s_env := w' |}).
  { intros d w' Hd Hq. eapply safe_total; [apply safe_init_tail|exact Hd|].
    intros a s' E _. by rewrite (init_tail_frame _ _ _ _ E). }
  unfold pouch_prov_mgr_init, pouch_cfg. rewrite Hid, He, Hs.
  apply wp_bind, wp_getd. cbn [s_dev device_boot d_mgr mg_initialized].
  apply wp_bind, wp_put. cbn [mwhen].
  do 3 apply wp_bind. apply wp_call. cbn [s_dev s_env]. intros e w1 E1. rewrite E1 in Hl.
  unfold settings_load. do 2 apply wp_bind. apply wp_call. cbn [s_dev s_env]. intros a w3 E3.
  cbn [snd] in Hl. rewrite Hl in E3. injection E3 as <- <-. apply wp_bind.
  pose proof (device_wf_boot flags) as (B1 & B2 & B3 & B4 & B5 & B6).
  eapply wp_mono.
  - apply (wp_steps (same not_loaded)); [apply load_frame|].
    apply (wp_deliver_all _ (fun _ s' => boot_wf (s_dev s') /\
      d_blobs (s_dev s') = fold_left deliver_blobs l blobs_init)); [by split|].
    intros d' Hd' Hb. by split.
  - intros [] [d' w'] [[[G1 G2] Hd] Hn]. do 2 apply wp_ret. apply wp_bind_inv.
    unfold same, not_loaded in Hn. cbn in Hn. injection Hn as Ha _ _ _ Hsc Hw Had Hm.
    apply (Hrest d' w').
    + unfold device_wf, buffer_wf. rewrite Ha, Hsc, Hw. by destruct B1; split_and!.
    + unfold quiet. cbn in Hd. by rewrite Hd, Hm, Had.
Qed.

(** A blob that holds [v]. *)
Definition holds (v : list byte) (k : nat) (d : device) : Prop :=
  exists b, d_blobs d !! k = Some b /\ (0 < b_len b)%nat /\ take (b_len b) (b_buf b) = v.

Lemma holds_get v k s :
  (k < 3)%nat -> holds v k (s_dev s) ->
  pouch_prov_cred_get (Z.of_nat k) s = Some (Some v, s) /\
  pouch_prov_cred_present (Z.of_nat k) s = Some (true, s).
Proof.
  intros Hk (b & Hb & Hl & <-). split; [by apply cred_get_eq|].
  unfold pouch_prov_cred_present, kind_valid. rewrite (proj2 (andb_true_iff _ _)) by lia.
  unfold get_blob, mbind, get, mget. rewrite Nat2Z.id, Hb. unfold mret.
  by rewrite (proj2 (Nat.ltb_lt _ _)).
Qed.

(** A stored credential is in its blob once the settings are loaded. *)
Lemma loaded_holds w w2 l k name cap v d :
  CONFIG_POUCH_PROV_CRED = true -> booted w w2 l ->
  setting_key !! k = Some name -> store_caps !! k = Some cap ->
  settings_value (settings_subsys_init w).2 name = Some v ->
  (0 < length v <= cap)%nat -> d_blobs d = fold_left deliver_blobs l blobs_init ->
  holds v k d.
Proof.
  intros Hc [_ _ Hl] Hk Hcap Hv Hlen Hd.
  assert (Hk3 : (k < 3)%nat) by (change 3%nat with (length setting_key); by eapply lookup_lt_Some).
  destruct (settings_load_law _ _ _ _ Hl) as (Hnd & Hin & _).
  assert (Hel : (name, v) ∈ l).
  { apply Hin. split; [|done]. by destruct k as [|[|[|k]]]; [injection Hk as <-..|]. }
  destruct (store_wf_lookup _ k store_wf_init Hk3) as (b0 & Hb0 & Hw0).
  assert (Hcap0 : b_cap b0 = cap).
  { destruct k as [|[|[|k]]]; cbn in Hb0, Hcap; simplify_eq; done. }
  destruct (load_blob_bytes v b0 Hw0 ltac:(lia)) as [H1 H2].
  exists (load_blob v b0). rewrite Hd, (deliver_all_lookup _ _ _ _ _ Hc Hk Hnd Hel), Hb0, H1.
  split_and!; [done|lia|done].
Qed.

(** C40: A device whose settings hold a certificate and a key that fit their
    buffers does not provision again: after a reboot the main function of
    src/samples/cred_only returns without waiting, whatever the other threads
    would do and whatever initialisation meets after the settings are loaded;
    the session was never opened, nothing advertises, and the credentials the
    application reads are the stored ones byte for byte. *)
Theorem reboot_skips_provisioning flags w w2 l others cert key :
  CONFIG_POUCH_PROV_CRED = true -> booted w w2 l ->
  settings_value (settings_subsys_init w).2 "pnp/cred/cert" = Some cert ->
  settings_value (settings_subsys_init w).2 "pnp/cred/key" = Some key ->
  (0 < length cert <= DEVICE_CERT_MAX)%nat -> (0 < length key <= PRIVATE_KEY_MAX)%nat ->
  wp (cred_only_main others) (fun r s' =>
    is_Some r /\ mg_running (d_mgr (s_dev s')) = false /\ adv_enabled (d_adv (s_dev s')) = false /\
    pouch_prov_cred_get POUCH_PROV_CRED_DEVICE_CERT s' = Some (Some cert, s') /\
    pouch_prov_cred_get POUCH_PROV_CRED_PRIVATE_KEY s' = Some (Some key, s'))
    {| s_dev := device_boot flags; s_env := w |}.
Proof.
  intros Hc Hbt Hcert Hkey Hlc Hlk. unfold cred_only_main.
  match goal with |- wp _ ?Q _ => set (R := Q) end.
  apply wp_bind. eapply wp_mono; [by eapply (wp_init_boot flags cred_only_config)|].
  intros err s1 Hq. cbv beta in Hq. injection Hq as Hb Hr Ha _.
  pose proof (loaded_holds _ _ _ 0 _ _ _ _ Hc Hbt eq_refl eq_refl Hcert Hlc Hb) as H0.
  pose proof (loaded_holds _ _ _ 1 _ _ _ _ Hc Hbt eq_refl eq_refl Hkey Hlk Hb) as H1.
  apply holds_get in H0 as [G0 P0]; [|lia]. apply holds_get in H1 as [G1 P1]; [|lia].
  change (Z.of_nat 0) with POUCH_PROV_CRED_DEVICE_CERT in *.
  change (Z.of_nat 1) with POUCH_PROV_CRED_PRIVATE_KEY in *.
  assert (Hend : forall rc : Z, R (Some rc) s1) by (intros rc; by split_and!).
  destruct (negb (err =? 0)); [apply wp_ret, Hend|].
  assert (Hlast : forall b : bool,
    wp (mwhen b (cert0 <- pouch_prov_cred_get POUCH_PROV_CRED_DEVICE_CERT ;; mret tt) ;;;
        mret (Some 0)) R s1).
  { intros b. apply wp_bind. destruct b; cbn [mwhen]; [|apply wp_ret, wp_ret, Hend].
    apply wp_bind. unfold wp at 1. rewrite G0. apply wp_ret, wp_ret, Hend. }
  apply wp_bind. unfold cred_only_credentials_ready. apply wp_bind.
  unfold wp at 1. rewrite P0. cbn [negb]. unfold wp at 1. rewrite P1.
  apply wp_bind. unfold pouch_prov_mgr_is_provisioned, pouch_prov_wifi_is_provisioned.
  rewrite Hc. destruct CONFIG_POUCH_PROV_WIFI.
  - apply wp_bind, wp_ask, wp_ret, Hlast.
  - unfold wp at 1. rewrite P0. apply Hlast.
Qed.
End SamplesSpec.

(** ** At concrete inputs *)

(** The build of the sample: no Wi-Fi, an identity of its own. *)
Definition cred_only_build : Kconfig := {|
  CONFIG_POUCH_PROV_WIFI := false;
  CONFIG_POUCH_PROV_CRED := true;
  CONFIG_POUCH_PROV_AUTH := true;
  CONFIG_POUCH_ENCRYPTION_NONE := false;
  CONFIG_SETTINGS := true;
  CONFIG_POUCH_BLOCK_SIZE := 512;
  CONFIG_POUCH_PROV_SCAN_CACHE := 16;
  CONFIG_POUCH_PROV_AUTOSTOP_TIMEOUT_S := 30;
  CONFIG_POUCH_PROV_RESPONSE_WAIT_MS := 1000;
  CONFIG_POUCH_PROV_DEVICE_NAME_PREFIX := "PNP-";
|}.

Definition cred_only_sample : SampleConfig := {| CONFIG_SAMPLE_POP := sim_pop |}.

(** The settings after an earlier session. *)
Definition sim_provisioned : sim_world := Eval vm_compute in
  (sim_save "pnp/cred/key" sim_key (sim_save "pnp/cred/cert" sim_cert sim_start).2).2.

Lemma sim_provisioned_booted :
  booted (KC := cred_only_build) (P := sim_platform) sim_provisioned sim_provisioned (sim_load "pnp" sim_provisioned).1.2.
Proof. by split. Qed.

Lemma reboot_skips_provisioning_witness :
  wp (cred_only_main (KC := cred_only_build) (SC := cred_only_sample) mub) (fun r s' =>
    is_Some r /\ mg_running (d_mgr (s_dev s')) = false /\ adv_enabled (d_adv (s_dev s')) = false /\
    pouch_prov_cred_get POUCH_PROV_CRED_DEVICE_CERT s' = Some (Some sim_cert, s') /\
    pouch_prov_cred_get POUCH_PROV_CRED_PRIVATE_KEY s' = Some (Some sim_key, s'))
    {| s_dev := device_boot (KC := cred_only_build) 0; s_env := sim_provisioned |}.
Proof.
  apply (reboot_skips_provisioning (KC := cred_only_build) (P := sim_platform) (SC := cred_only_sample) 0 sim_provisioned
    sim_provisioned (sim_load "pnp" sim_provisioned).1.2 mub sim_cert sim_key).
  - reflexivity.
  - exact sim_provisioned_booted.
  - vm_compute. reflexivity.
  - vm_compute. reflexivity.
  - split; apply Nat.leb_le; reflexivity.
  - split; apply Nat.leb_le; reflexivity.
Defined.

(** A blank device opens a session and waits for its end. *)
Lemma sim_blank_provisions :
  match cred_only_main (KC := cred_only_build) (SC := cred_only_sample) (mret tt)
          {| s_dev := device_boot (KC := cred_only_build) 0; s_env := sim_start |} with
  | Some (r, s') => Some (r, mg_running (d_mgr (s_dev s')))
  | None => None
  end = Some (None, true).
Proof. vm_compute. reflexivity. Qed.
