(* ===== verification/FakeWifiSpec.v ===== *)
(** * The simulated driver's contract

    Its invariant, that every call keeps it and is defined, and the network its
    credential-matching mode simulates. *)

From S2P Require Import Prelude Platform FakeWifi.

Section FakeWifiSpec.
Context {FC : FakeConfig} {KW : KWork}.

(** ** The invariant *)

Definition ap_wf (ap : fake_wifi_ap) : Prop :=
  length (fa_ssid ap) = S WIFI_SSID_MAX_LEN /\ (fa_ssid_len ap <= S WIFI_SSID_MAX_LEN)%nat /\
  length (fa_bssid ap) = WIFI_MAC_ADDR_LEN /\ -128 <= fa_rssi ap < 128.

Definition fw_wf (d : fake_wifi_data) : Prop :=
  length (fd_aps d) = MAX_AP /\ (fd_ap_count d <= MAX_AP)%nat /\
  (forall ap, ap ∈ fd_aps d -> ap_wf ap) /\
  length (fd_exp_ssid d) = S WIFI_SSID_MAX_LEN /\ (fd_exp_ssid_len d <= WIFI_SSID_MAX_LEN)%nat /\
  length (fd_exp_pass d) = S WIFI_PSK_MAX_LEN /\ (fd_exp_pass_len d <= WIFI_PSK_MAX_LEN)%nat /\
  length (fd_conn_ssid d) = S WIFI_SSID_MAX_LEN /\ (fd_conn_ssid_len d <= WIFI_SSID_MAX_LEN)%nat /\
  (work_pending (fd_scan_work d) = true -> fd_scan_cb d = true).

Lemma fw_wf_boot : fw_wf fw_data.
Proof.
  unfold fw_wf. cbn. rewrite length_replicate, work_pending_zero. split_and!; try done; try lia.
  intros ap [-> _]%elem_of_replicate. unfold ap_wf. cbn. split_and!; try done; lia.
Qed.

(** ** The simulated network *)

(** The names on the air, and the credentials of the one real network. *)
Definition names (d : fake_wifi_data) : list (list byte) :=
  map (fun ap => take (fa_ssid_len ap) (fa_ssid ap)) (take (fd_ap_count d) (fd_aps d)).
Definition real_ssid (d : fake_wifi_data) : list byte := take (fd_exp_ssid_len d) (fd_exp_ssid d).
Definition real_pass (d : fake_wifi_data) : list byte := take (fd_exp_pass_len d) (fd_exp_pass d).

Definition network_outcome (d : fake_wifi_data) (ssid pass : list byte) : Z :=
  if bool_decide (ssid ∈ names d) then
    if bool_decide (ssid = real_ssid d /\ pass = real_pass d) then WIFI_STATUS_CONN_SUCCESS
    else WIFI_STATUS_CONN_WRONG_PASSWORD
  else WIFI_STATUS_CONN_AP_NOT_FOUND.

Lemma mem_eq_run a b n d :
  (n <= length a)%nat -> (n <= length b)%nat ->
  mem_eq a b n d = Some (bool_decide (take n a = take n b), d).
Proof.
  intros Ha Hb. unfold mem_eq, mbind, mguard.
  by rewrite (proj2 (Nat.leb_le _ _) Ha), (proj2 (Nat.leb_le _ _) Hb).
Qed.

Lemma ssid_in_from_run aps ssid n : forall i d,
  (forall ap, ap ∈ aps -> ap_wf ap) -> (i + n <= length aps)%nat ->
  ssid_in_from aps i n ssid d =
  Some (bool_decide (ssid ∈ map (fun ap => take (fa_ssid_len ap) (fa_ssid ap))
                              (take n (drop i aps))), d).
Proof.
  induction n as [|n IH]; intros i d Hw Hn; cbn [ssid_in_from]; [done|].
  destruct (lookup_lt_is_Some_2 aps i) as [ap Hap]; [lia|]. rewrite Hap.
  rewrite (drop_S aps ap i Hap). cbn [take map].
  destruct (Hw ap (list_elem_of_lookup_2 _ _ _ Hap)) as (W1 & W2 & _).
  assert (Hlen : length (take (fa_ssid_len ap) (fa_ssid ap)) = fa_ssid_len ap)
    by (rewrite length_take; lia).
  unfold mbind. destruct (fa_ssid_len ap =? length ssid)%nat eqn:E; zbool.
  - rewrite mem_eq_run by lia. rewrite firstn_all, <- E.
    destruct (decide (take (fa_ssid_len ap) (fa_ssid ap) = ssid)) as [Heq|Hne].
    + rewrite bool_decide_eq_true_2 by done. unfold mret. do 2 f_equal. symmetry.
      apply bool_decide_eq_true. rewrite Heq. left.
    + rewrite bool_decide_eq_false_2 by done. rewrite IH by (done || lia). do 2 f_equal.
      apply bool_decide_ext. rewrite elem_of_cons. split; [by right|]. by intros [?|?].
  - unfold mret. rewrite IH by (done || lia). do 2 f_equal.
    apply bool_decide_ext. rewrite elem_of_cons. split; [by right|]. intros [->|?]; [|done].
    by rewrite Hlen in E.
Qed.

Lemma ssid_in_scan_list_run ssid d :
  fw_wf d -> ssid_in_scan_list ssid d = Some (bool_decide (ssid ∈ names d), d).
Proof.
  intros (W1 & W2 & W3 & _). unfold ssid_in_scan_list, mbind, mget.
  by rewrite ssid_in_from_run by (done || lia).
Qed.

(** The outcome derived from the credentials is the simulated network's. *)
Lemma creds_outcome_run p d :
  fw_wf d -> creds_outcome p d = Some (network_outcome d (cp_ssid p) (psk_bytes p), d).
Proof.
  intros Hw. unfold creds_outcome, network_outcome. unfold mbind at 1.
  rewrite ssid_in_scan_list_run by done. destruct (bool_decide (cp_ssid p ∈ names d)); [|done].
  cbn [negb]. unfold mbind at 1, mget. destruct Hw as (_ & _ & _ & E1 & E2 & P1 & P2 & _).
  assert (HS : length (real_ssid d) = fd_exp_ssid_len d) by (apply length_take_le; lia).
  assert (HP : length (real_pass d) = fd_exp_pass_len d) by (apply length_take_le; lia).
  assert (Hno : cp_ssid p <> real_ssid d \/ psk_bytes p <> real_pass d ->
    Some (WIFI_STATUS_CONN_WRONG_PASSWORD, d) =
    Some (if bool_decide (cp_ssid p = real_ssid d /\ psk_bytes p = real_pass d)
          then WIFI_STATUS_CONN_SUCCESS else WIFI_STATUS_CONN_WRONG_PASSWORD, d)).
  { intros H. rewrite bool_decide_eq_false_2; [done|]. intros [? ?]. by destruct H. }
  destruct (length (cp_ssid p) =? fd_exp_ssid_len d)%nat eqn:El; cbn [negb]; zbool.
  2:{ apply Hno. left. intros H. by rewrite H in El. }
  unfold mbind at 1. rewrite mem_eq_run by lia.
  change (take (fd_exp_ssid_len d) (fd_exp_ssid d)) with (real_ssid d). rewrite <- El, firstn_all.
  destruct (decide (cp_ssid p = real_ssid d)) as [Hs|Hs].
  2:{ rewrite bool_decide_eq_false_2 by done. apply Hno. by left. }
  rewrite bool_decide_eq_true_2 by done. cbn [negb orb].
  destruct (length (psk_bytes p) =? fd_exp_pass_len d)%nat eqn:Ep; cbn [negb]; zbool.
  2:{ apply Hno. right. intros H. by rewrite H in Ep. }
  unfold mbind. destruct (0 <? fd_exp_pass_len d)%nat eqn:E0; zbool.
  - rewrite mem_eq_run by lia.
    change (take (fd_exp_pass_len d) (fd_exp_pass d)) with (real_pass d). rewrite <- Ep, firstn_all.
    unfold mret. do 2 f_equal. destruct (decide (psk_bytes p = real_pass d)) as [H|H].
    + by rewrite !bool_decide_eq_true_2.
    + rewrite !bool_decide_eq_false_2; [done| |done]. by intros [_ ?].
  - unfold mret. rewrite bool_decide_eq_true_2; [done|]. split; [done|].
    rewrite (nil_length_inv (psk_bytes p)) by lia. symmetry. apply nil_length_inv. lia.
Qed.

(** ** Every call is defined *)

(** The calls into the driver: from the tests, from wifi_mgmt, and from the
    work queue, which starts an item only while it is submitted. *)
Inductive fake_call : Type :=
| SetScanAps (aps : list fake_wifi_ap) (count : nat)
| SetNextResult (status : Z)
| SetSyncError (errnum : Z)
| SetExpected (ssid pass : option (list byte))
| Reset_
| Scan
| Connect (p : wifi_connect_req_params)
| Disconnect
| IfaceStatus (status : wifi_iface_status)
| ScanWork
| ConnectWork.

Definition run_call (c : fake_call) : D unit :=
  match c with
  | SetScanAps aps count => fake_wifi_set_scan_aps aps count
  | SetNextResult status => fake_wifi_set_next_connect_result status
  | SetSyncError errnum => fake_wifi_set_next_connect_sync_error errnum
  | SetExpected ssid pass => fake_wifi_set_expected_credentials ssid pass
  | Reset_ => fake_wifi_reset
  | Scan => r <- fake_scan ;; mret tt
  | Connect p => r <- fake_connect p ;; mret tt
  | Disconnect => r <- fake_disconnect ;; mret tt
  | IfaceStatus status => r <- fake_iface_status status ;; mret tt
  | ScanWork => mmod (fset_scan_work k_work_start) ;;; r <- scan_work_fn ;; mret tt
  | ConnectWork => mmod (fset_connect_work k_work_start) ;;; r <- connect_work_fn ;; mret tt
  end.

(** The arguments have their C types, and the work queue keeps its rule. *)
Definition call_ok (c : fake_call) (d : fake_wifi_data) : Prop :=
  match c with
  | SetScanAps aps count => (count <= length aps)%nat /\ forall ap, ap ∈ aps -> ap_wf ap
  | IfaceStatus status => length (is_ssid status) = S WIFI_SSID_MAX_LEN
  | ScanWork => work_pending (fd_scan_work d) = true
  | _ => True
  end.

(** The result reported for an entry. *)
Definition ap_result (ap : fake_wifi_ap) : wifi_scan_result :=
  let n := Nat.min (fa_ssid_len ap) WIFI_SSID_MAX_LEN in
  {| sr_ssid := buf_write 0 (take n (fa_ssid ap)) (zeros (S WIFI_SSID_MAX_LEN));
     sr_ssid_length := n; sr_mac := fa_bssid ap;
     sr_channel := fa_channel ap; sr_rssi := fa_rssi ap; sr_security := fa_security ap |}.

Lemma ap_result_typed ap : ap_wf ap -> result_typed (ap_result ap).
Proof.
  intros (W1 & W2 & W3 & W4).
  assert (Hz : length (zeros (S WIFI_SSID_MAX_LEN)) = S WIFI_SSID_MAX_LEN) by apply length_replicate.
  unfold result_typed. cbn -[buf_write zeros].
  rewrite length_buf_write, Hz by (rewrite length_take; lia). split_and!; done || lia.
Qed.

Lemma scan_results_run aps n : forall i d,
  (forall ap, ap ∈ aps -> ap_wf ap) -> (i + n <= length aps)%nat ->
  scan_results_from aps i n d = Some (map ap_result (take n (drop i aps)), d).
Proof.
  induction n as [|n IH]; intros i d Hw Hn; cbn [scan_results_from]; [done|].
  destruct (lookup_lt_is_Some_2 aps i) as [ap Hap]; [lia|]. rewrite Hap.
  rewrite (drop_S aps ap i Hap). cbn [take map].
  destruct (Hw ap (list_elem_of_lookup_2 _ _ _ Hap)) as (W1 & W2 & W3 & W4).
  unfold mbind at 1, scan_result_of, mguard. cbv zeta.
  rewrite (proj2 (Nat.leb_le _ _)) by (rewrite W1; lia).
  unfold mbind, mret. rewrite IH by (done || lia). unfold ap_result.
  by rewrite (take_ge (fa_bssid ap)) by lia.
Qed.

(** The networks in range. *)
Definition on_air (d : fake_wifi_data) : list fake_wifi_ap := take (fd_ap_count d) (fd_aps d).

Lemma scan_work_run d :
  fw_wf d -> fd_scan_cb d = true ->
  scan_work_fn d = Some (map Some (map ap_result (on_air d)) ++ [None], d).
Proof.
  intros (H1 & H2 & H3 & _) Hcb. unfold scan_work_fn, mbind, mget, mguard. rewrite Hcb.
  cbn [mret]. by rewrite scan_results_run by (done || lia).
Qed.

(** Assignments to single members keep the invariant. *)
Lemma fw_wf_exp_ssid l n d :
  fw_wf d -> length l = S WIFI_SSID_MAX_LEN -> (n <= WIFI_SSID_MAX_LEN)%nat -> fw_wf (fset_exp_ssid l n d).
Proof. intros (H1 & H2 & H3 & H4 & H5 & H6 & H7 & H8 & H9 & H10) Hl Hn. by split_and!. Qed.

Lemma fw_wf_exp_pass l n d :
  fw_wf d -> length l = S WIFI_PSK_MAX_LEN -> (n <= WIFI_PSK_MAX_LEN)%nat -> fw_wf (fset_exp_pass l n d).
Proof. intros (H1 & H2 & H3 & H4 & H5 & H6 & H7 & H8 & H9 & H10) Hl Hn. by split_and!. Qed.

Lemma fw_wf_conn_ssid l n d :
  fw_wf d -> length l = S WIFI_SSID_MAX_LEN -> (n <= WIFI_SSID_MAX_LEN)%nat -> fw_wf (fset_conn_ssid l n d).
Proof. intros (H1 & H2 & H3 & H4 & H5 & H6 & H7 & H8 & H9 & H10) Hl Hn. by split_and!. Qed.

Lemma fw_wf_ap_count n d : fw_wf d -> (n <= MAX_AP)%nat -> fw_wf (fset_ap_count n d).
Proof. intros (H1 & H2 & H3 & H4 & H5 & H6 & H7 & H8 & H9 & H10) Hn. by split_and!. Qed.

Lemma fw_wf_aps l d :
  fw_wf d -> length l = MAX_AP -> (forall ap, ap ∈ l -> ap_wf ap) -> fw_wf (fset_aps l d).
Proof. intros (H1 & H2 & H3 & H4 & H5 & H6 & H7 & H8 & H9 & H10) Hl Hn. by split_and!. Qed.

Lemma wp_set_scan_aps aps count d :
  fw_wf d -> (count <= length aps)%nat -> (forall ap, ap ∈ aps -> ap_wf ap) ->
  wp (fake_wifi_set_scan_aps aps count) (fun _ => fw_wf) d.
Proof.
  intros Hw Hc Ha. unfold fake_wifi_set_scan_aps. cbv zeta.
  set (n := if (MAX_AP <? count)%nat then MAX_AP else count).
  assert (Hn : (n <= MAX_AP)%nat /\ (n <= count)%nat).
  { unfold n. destruct (_ <? _)%nat eqn:E; zbool; lia. }
  assert (Hlen : length (fd_aps d) = MAX_AP) by apply Hw.
  apply wp_bind, wp_mod, wp_when; intros _; [|apply fw_wf_ap_count; [done|lia]].
  apply wp_bind, wp_guard; [apply Nat.leb_le; lia|].
  apply wp_bind, wp_get, wp_bind, wp_guard; [apply Nat.leb_le; cbn; lia|]. apply wp_mod.
  apply fw_wf_aps; [apply fw_wf_ap_count; [done|lia]| |].
  - cbn. rewrite length_app, length_take, length_drop. lia.
  - assert (Hall : forall ap, ap ∈ fd_aps d -> ap_wf ap) by apply Hw.
    intros ap [H|H]%elem_of_app; [by apply Ha, (subseteq_take n)|by apply Hall, (subseteq_drop n)].
Qed.

Lemma wp_set_expected ssid pass d :
  fw_wf d -> wp (fake_wifi_set_expected_credentials ssid pass) (fun _ => fw_wf) d.
Proof.
  intros Hw. unfold fake_wifi_set_expected_credentials.
  destruct ssid as [[|b ssid]|]; [by apply wp_mod| |by apply wp_mod]. cbv zeta.
  set (n := Nat.min (length (b :: ssid)) WIFI_SSID_MAX_LEN).
  set (k := match pass with Some p => _ | None => _ end).
  assert (Hk : (k <= WIFI_PSK_MAX_LEN)%nat) by (unfold k; destruct pass; lia).
  assert (L1 : length (fd_exp_ssid d) = S WIFI_SSID_MAX_LEN) by apply Hw.
  assert (L2 : length (fd_exp_pass d) = S WIFI_PSK_MAX_LEN) by apply Hw.
  assert (Ln : (length (take n (b :: ssid)) <= WIFI_SSID_MAX_LEN)%nat) by (rewrite length_take; lia).
  apply wp_bind, wp_mod, wp_bind, wp_get, wp_bind, wp_guard.
  { unfold buf_fits. apply Nat.leb_le. cbn [fd_exp_ssid fset_creds_mode]. lia. }
  apply wp_bind, wp_mod, wp_bind, wp_get, wp_bind, wp_mod.
  set (d1 := fset_exp_pass _ k _).
  assert (H1 : fw_wf d1).
  { apply fw_wf_exp_pass; [apply fw_wf_exp_ssid; [done| |lia]|done|done].
    cbn [fd_exp_ssid fset_creds_mode]. rewrite length_buf_write; lia. }
  destruct pass as [p|]; [|by apply wp_ret]. apply wp_when; intros _; [|done].
  assert (Lk : (length (take k p) <= WIFI_PSK_MAX_LEN)%nat) by (rewrite length_take; lia).
  apply wp_bind, wp_guard; [unfold buf_fits; apply Nat.leb_le; cbn; lia|]. apply wp_mod.
  apply fw_wf_exp_pass; [done| |done]. cbn -[buf_write]. rewrite length_buf_write; cbn; lia.
Qed.

(** What a connect request does in either mode. *)
Definition next_status (p : wifi_connect_req_params) (d : fake_wifi_data) : Z :=
  if fd_creds_mode d then network_outcome d (cp_ssid p) (psk_bytes p) else fd_next_conn d.

Definition connect_target (p : wifi_connect_req_params) (d : fake_wifi_data) : list byte :=
  take WIFI_SSID_MAX_LEN (cp_ssid p).

(** The network a status names. *)
Definition conn_name (d : fake_wifi_data) : list byte := take (fd_conn_ssid_len d) (fd_conn_ssid d).

(** The programming of the driver, which connecting does not touch. *)
Definition programmed (d : fake_wifi_data) :=
  (fd_aps d, fd_ap_count d, fd_creds_mode d, (fd_exp_ssid d, fd_exp_ssid_len d),
   (fd_exp_pass d, fd_exp_pass_len d)).

Lemma fake_connect_run p d :
  fw_wf d -> fd_next_sync_err d = 0 ->
  exists d', fake_connect p d = Some (0, d') /\ fw_wf d' /\ fd_next_conn d' = next_status p d /\
    conn_name d' = connect_target p d /\ work_pending (fd_connect_work d') = true /\
    programmed d' = programmed d /\ fd_next_sync_err d' = 0.
Proof.
  intros Hw He. unfold fake_connect. unfold mbind at 1, mget at 1. rewrite He. cbn [negb Z.eqb].
  unfold mbind at 1, mget at 1.
  assert (Hrun : forall d1, fw_wf d1 ->
    exists d', (let n := Nat.min (length (cp_ssid p)) WIFI_SSID_MAX_LEN in
      old <- mget fd_conn_ssid ;;
      mguard (buf_fits 0 (take n (cp_ssid p)) old) ;;;
      mmod (fset_conn_ssid (buf_write 0 (take n (cp_ssid p)) old) n) ;;;
      mmod (fset_conn_channel (if cp_channel p =? WIFI_CHANNEL_ANY then 1 else cp_channel p)) ;;;
      mmod (fset_connect_work k_work_submit) ;;; mret 0) d1 = Some (0, d') /\
    fw_wf d' /\ fd_next_conn d' = fd_next_conn d1 /\ conn_name d' = connect_target p d /\
    work_pending (fd_connect_work d') = true /\ programmed d' = programmed d1 /\
    fd_next_sync_err d' = fd_next_sync_err d1).
  { intros d1 H1. cbv zeta. set (n := Nat.min _ _).
    assert (L : length (fd_conn_ssid d1) = S WIFI_SSID_MAX_LEN) by apply H1.
    assert (Ln : length (take n (cp_ssid p)) = n) by (rewrite length_take; lia).
    assert (Hn : (n <= WIFI_SSID_MAX_LEN)%nat) by lia.
    unfold mbind, mget, mguard, buf_fits. rewrite (proj2 (Nat.leb_le _ _)) by lia.
    unfold mmod, mret. eexists. split; [reflexivity|]. split_and!; try done.
    - apply (fw_wf_conn_ssid (buf_write 0 (take n (cp_ssid p)) (fd_conn_ssid d1)) n d1); [done| |lia].
      rewrite length_buf_write; lia.
    - unfold conn_name, connect_target. cbn -[buf_write]. rewrite <- Ln at 1.
      rewrite take_buf_write_0 by lia. unfold n.
      destruct (decide (length (cp_ssid p) <= WIFI_SSID_MAX_LEN)%nat).
      + rewrite Nat.min_l, firstn_all by done. symmetry. by apply take_ge.
      + by rewrite Nat.min_r by lia.
    - cbn. apply work_pending_submit. }
  unfold next_status. destruct (fd_creds_mode d) eqn:Em; cbn [mwhen].
  - unfold mbind at 1. unfold mbind at 1. rewrite creds_outcome_run by done. unfold mmod at 1.
    destruct (Hrun (fset_next_conn (network_outcome d (cp_ssid p) (psk_bytes p)) d) Hw)
      as (d' & E & H1 & H2 & H3 & H4 & H5 & H6).
    exists d'. split; [exact E|]. split_and!; try done. by rewrite H6, <- He.
  - unfold mbind at 1, mret at 1. destruct (Hrun d Hw) as (d' & E & H1 & H2 & H3 & H4 & H5 & H6).
    exists d'. split; [exact E|]. split_and!; try done. by rewrite H6, <- He.
Qed.

Lemma wp_connect p d : fw_wf d -> wp (fake_connect p) (fun _ => fw_wf) d.
Proof.
  intros Hw. destruct (decide (fd_next_sync_err d = 0)) as [E|E].
  - destruct (fake_connect_run p d Hw E) as (d' & H & Hd & _). unfold wp. by rewrite H.
  - unfold fake_connect. apply wp_bind, wp_get. rewrite (proj2 (Z.eqb_neq _ _)) by done.
    by apply wp_bind, wp_mod, wp_ret.
Qed.

Lemma fake_status_run status d :
  fw_wf d -> length (is_ssid status) = S WIFI_SSID_MAX_LEN ->
  exists status', fake_iface_status status d = Some ((0, status'), d) /\
    (fd_connected d = true -> take (is_ssid_len status') (is_ssid status') = conn_name d).
Proof.
  intros (_ & _ & _ & _ & _ & _ & _ & C1 & C2 & _) Hs. unfold fake_iface_status, mbind at 1, mget.
  destruct (fd_connected d); cbn [negb]; [|by eexists].
  assert (Ln : length (take (fd_conn_ssid_len d) (fd_conn_ssid d)) = fd_conn_ssid_len d)
    by (rewrite length_take; lia).
  cbv zeta. unfold mbind, mguard, buf_fits. rewrite Ln.
  rewrite !(proj2 (Nat.leb_le _ _)) by lia. cbn [andb mret]. eexists. split; [reflexivity|].
  intros _. cbn [is_ssid is_ssid_len]. unfold conn_name. rewrite <- Ln at 1.
  apply take_buf_write_0. lia.
Qed.

(** The simulated driver never runs into undefined behaviour: whatever the
    tests program and whatever order the stack's requests and its own work items
    come in, every call is defined and keeps its arrays, lengths and the scan
    callback consistent. *)
Theorem fake_driver_safe c d :
  fw_wf d -> call_ok c d -> wp (run_call c) (fun _ => fw_wf) d.
Proof.
  intros Hw Hc. pose proof Hw as (H1 & H2 & H3 & H4 & H5 & H6 & H7 & H8 & H9 & H10).
  destruct c; cbn [run_call call_ok] in *.
  - eapply wp_set_scan_aps; [done|apply Hc..].
  - apply wp_mod. exact Hw.
  - apply wp_mod. exact Hw.
  - by apply wp_set_expected.
  - unfold fake_wifi_reset. do 4 (apply wp_bind, wp_mod).
    apply wp_bind, wp_mod, wp_bind, wp_mod, wp_bind, wp_mod, wp_mod.
    split_and!; try done; apply Nat.le_0_l.
  - apply wp_bind, wp_bind, wp_mod, wp_bind, wp_mod, wp_ret, wp_ret. by split_and!.
  - apply wp_bind. eapply wp_mono; [by apply wp_connect|]. done.
  - apply wp_bind, wp_bind, wp_mod, wp_ret, wp_ret. exact Hw.
  - apply wp_bind. destruct (fake_status_run status d Hw Hc) as (st' & E & _).
    unfold wp at 1. by rewrite E.
  - apply wp_bind, wp_mod, wp_bind. unfold wp at 1. rewrite scan_work_run; [|split_and!; try done; intros _; by apply H10|by apply H10].
    apply wp_ret. split_and!; try done. intros _. by apply H10.
  - apply wp_bind, wp_mod, wp_bind, wp_bind, wp_get, wp_bind, wp_mod, wp_ret, wp_ret. exact Hw.
Qed.
End FakeWifiSpec.
