(* ===== verification/FakeNet.v ===== *)
(** * The library on the simulated network

    The connection state machine of wifi_config.c composed with the driver of
    fake_wifi.c: what Zephyr passes between them is the class [FakeStack], the
    driver's work items are steps of the whole system. *)

From S2P Require Import Prelude ProvTypes Zcbor Schema Codec Platform State Frame Rpc Session.
From S2P Require Import CredStore WifiScan WifiConfig Adv Identity Manager Ctrl Dispatch System.
From S2P Require Import WifiSpec WifiInv WifiStatus ScanSpec FakeWifi FakeWifiSpec WorldFrame.

(** Zephyr's wifi_mgmt layer between the library and the driver: a request that
    its parameter checks accept is handed to the driver through the operations it
    registered, whose return value is the request's; nothing else of the platform
    touches the driver. *)
Class FakeStack (P : Platform) {FC : FakeConfig} {KW : KWork} {WL : WifiStoreLaws P} : Type := {
  fw_of : W -> fake_wifi_data;
  fw_put : fake_wifi_data -> W -> W;
  fw_of_put f w : fw_of (fw_put f w) = f;
  fw_put_store f w : stored_ssids (fw_put f w) = stored_ssids w;
  stack_iface w : wifi_iface w <> None;            (**r the driver's own interface *)
  l2_accepts : wifi_connect_req_params -> bool;
  l2_connect i p w r w' :
    fw_wf (fw_of w) -> net_mgmt_wifi_connect i p w = (r, w') ->
    if l2_accepts p then op_connect (wifi_mgmt_api fake_wifi_api) p (fw_of w) = Some (r, fw_of w')
    else r <> 0 /\ fw_of w' = fw_of w;
  l2_scan i w r w' :
    net_mgmt_wifi_scan i w = (r, w') ->
    op_scan (wifi_mgmt_api fake_wifi_api) (fw_of w) = Some (r, fw_of w');
  l2_status i w err ssid rssi w' :
    fw_wf (fw_of w) -> net_mgmt_wifi_iface_status i w = ((err, (ssid, rssi)), w') ->
    exists status,
      op_iface_status (wifi_mgmt_api fake_wifi_api) status_zero (fw_of w) =
        Some ((err, status), fw_of w') /\
      ssid = take (is_ssid_len status) (is_ssid status) /\ rssi = is_rssi status;
  fw_event ev data w : fw_of (event_cb ev data w) = fw_of w;
  fw_delete ssid w r w' : wifi_credentials_delete_by_ssid ssid w = (r, w') -> fw_of w' = fw_of w;
  fw_set c w r w' : wifi_credentials_set_personal c w = (r, w') -> fw_of w' = fw_of w;
}.

Section FakeNet.
Context {KC : Kconfig} {K : Kernel} {P : Platform} {CD : Codec}.
Context {FC : FakeConfig} {KW : KWork} {WL : WifiStoreLaws P} {FS : FakeStack P}.

(** A call into the driver. *)
Definition driver {A} (m : D A) : C A :=
  fun s => match m (fw_of (s_env s)) with
           | Some (a, f) => Some (a, {| s_dev := s_dev s; s_env := fw_put f (s_env s) |})
           | None => None
           end.

(** The connect work item: the event it raises reaches the library. *)
Definition run_connect_work : C unit :=
  driver (mmod (fset_connect_work k_work_start)) ;;;
  status <- driver connect_work_fn ;;
  handle (EvConnectResult status).

(** The events that Zephyr's scan callback raises. *)
Definition raised (r : option wifi_scan_result) : scan_event :=
  match r with
  | Some r => NET_EVENT_WIFI_SCAN_RESULT r
  | None => NET_EVENT_WIFI_SCAN_DONE
  end.

Definition run_scan_work : C unit :=
  driver (mmod (fset_scan_work k_work_start)) ;;;
  rs <- driver scan_work_fn ;;
  mfor rs (fun r => handle (EvScan (raised r))).

(** Attempts until one is final: the driver reports, and the library retries
    while it is connecting. *)
Fixpoint settle (fuel : nat) : C unit :=
  match fuel with
  | O => mret tt
  | S n =>
      run_connect_work ;;;
      sta <- get (fun d => wc_sta_state (d_wifi d)) ;;
      match sta with
      | sta_state_sta_connecting_m_c => handle EvRetryWork ;;; settle n
      | _ => mret tt
      end
  end.

Lemma wp_driver {A} (m : D A) (Q : A -> st -> Prop) s a f :
  m (fw_of (s_env s)) = Some (a, f) ->
  Q a {| s_dev := s_dev s; s_env := fw_put f (s_env s) |} -> wp (driver m) Q s.
Proof. intros E HQ. unfold wp, driver. by rewrite E. Qed.

(** The driver has a connect work item pending that will report [o], for the
    network named [ssid]. *)
Definition reporting (d0 : fake_wifi_data) (o : Z) (ssid : list byte) (w : W) : Prop :=
  fw_wf (fw_of w) /\ programmed (fw_of w) = programmed d0 /\ fd_next_sync_err (fw_of w) = 0 /\
  fd_next_conn (fw_of w) = o /\ conn_name (fw_of w) = ssid.

Lemma network_outcome_programmed d d' ssid pass :
  programmed d' = programmed d -> network_outcome d' ssid pass = network_outcome d ssid pass.
Proof.
  unfold programmed, network_outcome, names, real_ssid, real_pass.
  by intros [= -> -> _ -> -> -> ->].
Qed.

Lemma psk_request r : psk_bytes (request_params r) = wr_pass r.
Proof. unfold psk_bytes, request_params. cbn. by destruct (wr_pass r). Qed.

(** A connect request for an acceptable network reaches the driver. *)
Lemma connect_reports d0 i r w err w' :
  fw_wf (fw_of w) -> programmed (fw_of w) = programmed d0 -> fd_next_sync_err (fw_of w) = 0 ->
  fd_creds_mode d0 = true -> (length (wr_ssid r) <= WIFI_SSID_MAX_LEN)%nat ->
  l2_accepts (request_params r) = true ->
  net_mgmt_wifi_connect i (request_params r) w = (err, w') ->
  err = 0 /\ reporting d0 (network_outcome d0 (wr_ssid r) (wr_pass r)) (wr_ssid r) w'.
Proof.
  intros Hw Hp He Hm Hl Ha E. pose proof (l2_connect _ _ _ _ _ Hw E) as H. rewrite Ha in H.
  destruct (fake_connect_run (request_params r) (fw_of w) Hw He)
    as (d' & E' & H1 & H2 & H3 & H4 & H5 & H6).
  change (fake_connect (request_params r) (fw_of w) = Some (err, fw_of w')) in H.
  rewrite E' in H. injection H as <- ->. split; [done|]. split_and!; [done|congruence|done| |].
  - rewrite H2. unfold next_status. assert (Hc : fd_creds_mode (fw_of w) = true).
    { unfold programmed in Hp. by injection Hp as _ _ -> _ _ _ _. }
    rewrite Hc, psk_request. by apply network_outcome_programmed.
  - rewrite H3. by apply take_ge.
Qed.

(** The connect work item reports, and leaves the programming as it is. *)
Lemma wp_connect_work d0 o ssid (Q : unit -> st -> Prop) d w :
  reporting d0 o ssid w ->
  (forall w', reporting d0 o ssid w' -> stored_ssids w' = stored_ssids w ->
     fd_connected (fw_of w') = (o =? 0) ->
     wp (on_connect_result o) Q {| s_dev := d; s_env := w' |}) ->
  wp run_connect_work Q {| s_dev := d; s_env := w |}.
Proof.
  intros (H1 & H2 & H3 & H4 & H5) HQ. unfold run_connect_work. apply wp_bind.
  eapply wp_driver; [reflexivity|]. cbn [s_dev s_env]. apply wp_bind.
  eapply wp_driver; [cbn [s_env]; rewrite fw_of_put; reflexivity|]. cbn [s_dev s_env handle].
  cbn [fd_next_conn fset_connect_work]. rewrite H4. apply HQ.
  - unfold reporting. rewrite fw_of_put. by split_and!.
  - by rewrite !fw_put_store.
  - by rewrite fw_of_put.
Qed.

(** ** What leaves the driver alone *)

Hint Resolve fw_event fw_delete : off.

Lemma off_connect_result status : off fw_of (on_connect_result status).
Proof. off_go. Qed.

(** ** Provisioning *)

(** How an attempt for the network [r] ends: connected with the SSID stored, or
    given up, which deletes the stored SSID if the store can do it. *)
Definition settled (d0 : fake_wifi_data) (r : wifi_request) (d : device) (s' : st) : Prop :=
  let o := network_outcome d0 (wr_ssid r) (wr_pass r) in
  wifi_idle (s_dev s') /\ fw_wf (fw_of (s_env s')) /\
  (if o =? 0
   then wc_sta_state (d_wifi (s_dev s')) = sta_state_sta_connected_m_c /\
        wr_ssid r ∈ stored_ssids (s_env s') /\
        fd_connected (fw_of (s_env s')) = true /\ conn_name (fw_of (s_env s')) = wr_ssid r /\
        told d POUCH_PROV_EVENT_WIFI_CONNECTED None (s_env s')
   else wc_sta_state (d_wifi (s_dev s')) = sta_state_sta_failed_m_c /\
        wc_fail_reason (d_wifi (s_dev s')) = fail_code o /\
        fd_connected (fw_of (s_env s')) = false /\
        exists w, wr_ssid r ∈ stored_ssids w /\
          given_up d (wr_ssid r) (fail_event o) w (s_env s')).

Lemma after_failure_flying max k ssid o d :
  flying max k ssid d -> 0 <= k -> k < Z.max 1 max -> in_u32 max ->
  if k + 1 <? Z.max 1 max then after_failure o (d_wifi d) = (wifi_retry o (k + 1) (d_wifi d), false)
  else (after_failure o (d_wifi d)).2 = true /\
       wc_sta_state (after_failure o (d_wifi d)).1 = sta_state_sta_failed_m_c /\
       wc_fail_reason (after_failure o (d_wifi d)).1 = fail_code o /\
       cn_ssid_len (wc_inflight (after_failure o (d_wifi d)).1) = 0%nat.
Proof.
  intros (H1 & H2 & H3 & H4 & H5 & H6) Hk Hm H32. unfold after_failure. rewrite H4, H5.
  destruct (0 <? max) eqn:E0; zbool.
  - cbv zeta. rewrite u32_small by (unfold in_u32 in *; lia). rewrite (Z.max_r 1 max) in * by lia.
    by destruct (k + 1 <? max).
  - by rewrite (proj2 (Z.ltb_ge _ _)) by lia.
Qed.

(** Once the attempt is in flight and the driver will report, the attempts are
    settled, in as many rounds as the budget has left. *)
Lemma wp_settle d0 r max n : forall k d w,
  let o := network_outcome d0 (wr_ssid r) (wr_pass r) in
  in_u32 max -> fd_creds_mode d0 = true -> l2_accepts (request_params r) = true ->
  flying max k (wr_ssid r) d -> view (wc_inflight (d_wifi d)) = r ->
  reporting d0 o (wr_ssid r) w -> wr_ssid r ∈ stored_ssids w ->
  0 <= k < Z.max 1 max -> Z.max 1 max - k <= Z.of_nat n ->
  wp (settle n) (fun _ s' => settled d0 r d s') {| s_dev := d; s_env := w |}.
Proof.
  induction n as [|n IH]; intros k d w o H32 Hcm Hl2 Hf Hv Hr Hst Hk Hn; [lia|].
  cbn [settle]. apply wp_bind. eapply wp_connect_work; [exact Hr|]. intros w1 Hr1 Hs1 Hc1.
  pose proof Hf as (F1 & F2 & F3 & F4 & F5 & F6). apply (wp_off fw_of); [apply off_connect_result|].
  unfold settled. fold o. destruct (o =? 0) eqn:Eo; zbool.
  - (* the network is joined at the first attempt *)
    rewrite Eo. apply wp_connect_success; [done|]. intros f w2 Hs2 Ht Hd. cbn [s_env s_dev] in Hd.
    apply wp_bind, wp_getd. cbn [s_dev]. apply wp_ret. split; [done|]. cbn [s_dev s_env].
    rewrite Hs2, Hs1, Hd. split; [apply Hr1|]. split_and!; [done|exact Hst|done|apply Hr1|done].
  - pose proof (after_failure_flying max k (wr_ssid r) o d Hf ltac:(lia) ltac:(lia) H32) as Ha.
    destruct (k + 1 <? Z.max 1 max) eqn:Ek; zbool.
    + (* a retry *)
      assert (Hrep : forall i err w2, net_mgmt_wifi_connect i (request_params r) w1 = (err, w2) ->
        err = 0 /\ reporting d0 o (wr_ssid r) w2).
      { intros i err w2. destruct Hr1 as (R1 & R2 & R3 & _).
        apply connect_reports; try done. rewrite <- Hv. cbn [wr_ssid view].
        rewrite length_ssid by done. apply F2. }
      apply wp_connect_failure; [done|done| |by rewrite Ha]. intros _ _. rewrite Ha. cbn [fst].
      apply wp_bind, wp_getd.
      match goal with |- wp _ ?Q ?s1 => change (wp (handle EvRetryWork ;;; settle n) Q s1) end.
      apply wp_bind. cbn [handle]. apply wp_bind, wp_put. cbn [s_dev s_env].
      apply wp_retry; [done|done| |].
      * intros i w2 _ E2.
        change (view (wc_inflight (d_wifi _))) with (view (wc_inflight (d_wifi d))) in E2.
        rewrite Hv in E2. destruct (Hrep i 0 w2 E2) as [_ Hrep2].
        assert (Hst2 : wr_ssid r ∈ stored_ssids w2)
          by by rewrite (wifi_connect_law _ _ _ _ _ E2), Hs1.
        eapply wp_mono; [apply (IH (k + 1)); try done; try lia; by split_and!|].
        intros [] s' Hs'. unfold settled in Hs'. fold o in Hs'.
        rewrite (proj2 (Z.eqb_neq o 0) Eo) in Hs'. exact Hs'.
      * change (view (wc_inflight (d_wifi _))) with (view (wc_inflight (d_wifi d))). rewrite Hv.
        intros w2 [[Hno _]|(i & err & _ & E2 & Hno)]; exfalso; [by apply (stack_iface w1)|].
        by destruct (Hrep i err w2 E2) as [-> _].
    + (* the last failure *)
      destruct Ha as (A1 & A2 & A3 & A4).
      apply wp_connect_failure; [done|done|by rewrite A1|]. intros _ f w2 Hg Hd.
      cbn [s_env s_dev] in Hd. apply wp_bind, wp_getd. cbn [s_dev].
      assert (Hsta : wc_sta_state (d_wifi (with_wifi_st (after_failure o (d_wifi d)).1 f d)) =
        sta_state_sta_failed_m_c) by exact A2.
      rewrite Hsta. apply wp_ret. split; [exact A4|]. cbn [s_dev s_env]. rewrite Hd, Hc1.
      split; [apply Hr1|].
      rewrite F6 in Hg. split_and!; [done|done|done|]. exists w1. by rewrite Hs1.
Qed.

(** Telling the application leaves the driver alone. *)
Lemma fw_emitted d ev data w : fw_of (emitted d ev data w) = fw_of w.
Proof. unfold emitted. destruct (cfg_event_cb _); [apply fw_event|done]. Qed.

(** The apply for [r] is under way: it is in flight, stored, and the driver
    will report. *)
Definition underway (d0 : fake_wifi_data) (r : wifi_request) (max : Z) (d : device) (w : W) : Prop :=
  flying max 0 (wr_ssid r) d /\ view (wc_inflight (d_wifi d)) = r /\
  reporting d0 (network_outcome d0 (wr_ssid r) (wr_pass r)) (wr_ssid r) w /\
  wr_ssid r ∈ stored_ssids w.

(** What an apply for [r] needs of the simulated network: acceptable parameters,
    a programmed driver, and room in the credential store. *)
Record can_apply (max : Z) (r : wifi_request) (d : device) (w : W) : Prop := {
  ca_max : in_u32 max;
  ca_budget : wc_attempts_max (d_wifi d) = max;
  ca_cfg : conn_wf (wc_cfg (d_wifi d));
  ca_inflight : conn_wf (wc_inflight (d_wifi d));
  ca_driver : fw_wf (fw_of w);
  ca_mode : fd_creds_mode (fw_of w) = true;
  ca_sync : fd_next_sync_err (fw_of w) = 0;
  ca_ssid : wr_ssid r <> [];
  ca_accepts : l2_accepts (request_params r) = true;
  ca_room : forall c w, (wifi_credentials_set_personal c w).1 = 0;
}.

Lemma wp_apply_underway max d w :
  let r := view (wc_cfg (d_wifi d)) in
  can_apply max r d w ->
  wp do_apply (fun rc s' => rc = prov_status_status_ok_m_c /\
    underway (fw_of w) r max (s_dev s') (s_env s') /\
    pouch_prov_config_get (s_dev s') = pouch_prov_config_get d) {| s_dev := d; s_env := w |}.
Proof.
  intros r [H32 Hmax Hc Hi Hw Hm He Hne Hl2 Hset].
  eapply wp_mono; [by apply wp_do_apply|]. intros rc [d1 w1] Ho. cbn [s_dev s_env] in Ho.
  assert (Hlen : (length (wr_ssid r) <= WIFI_SSID_MAX_LEN)%nat).
  { unfold r. cbn [wr_ssid view]. rewrite length_ssid by done. apply Hc. }
  assert (Hconn : forall w2 w3 w4 err i err', wifi_credentials_delete_by_ssid (wr_ssid r) w = (err, w2) ->
    wifi_credentials_set_personal (request_cred r) w2 = (0, w3) ->
    net_mgmt_wifi_connect i (request_params r) (emitted d POUCH_PROV_EVENT_WIFI_CRED_RECV None w3) = (err', w4) ->
    err' = 0 /\ reporting (fw_of w) (network_outcome (fw_of w) (wr_ssid r) (wr_pass r)) (wr_ssid r) w4).
  { intros w2 w3 w4 err i err' E1 E2 E3.
    assert (Hfw : fw_of (emitted d POUCH_PROV_EVENT_WIFI_CRED_RECV None w3) = fw_of w).
    { rewrite fw_emitted, (fw_set _ _ _ _ E2). by eapply fw_delete. }
    apply (connect_reports (fw_of w) i r _ _ _) in E3; try done; by rewrite Hfw. }
  inversion Ho as [Hno|w2 err (i0 & err0 & w3 & _ & _ & E1 & E2) Herr
    |f w3 i w4 (i0 & err0 & w2 & _ & _ & E1 & E2) Hif E3 Hin
    |f g w3 w4 w5 (i0 & err0 & w2 & _ & _ & E1 & E2) Href Hgone]; subst.
  - destruct Hno as [Hno|Hno]; [by apply stack_iface in Hno|done].
  - exfalso. apply Herr. pose proof (Hset (request_cred r) w3) as H0. fold r in E2. by rewrite E2 in H0.
  - destruct (Hconn _ _ _ _ _ _ E1 E2 E3) as [_ Hrep].
    assert (Hv : view (snapshot (wc_cfg (d_wifi d)) (wc_inflight (d_wifi d))) = r)
      by (by apply view_snapshot).
    split; [done|]. split; [|done]. split_and!; try done.
    split_and!; try done; [by apply in_flight_applied|by apply conn_wf_snapshot].
  - destruct Href as [[Hno _]|(i & err & _ & E3 & Hno)]; exfalso; [by apply stack_iface in Hno|].
    by destruct (Hconn _ _ _ _ _ _ E1 E2 E3) as [-> _].
Qed.

Lemma wp_settle_underway d0 r max d w :
  in_u32 max -> fd_creds_mode d0 = true -> l2_accepts (request_params r) = true ->
  underway d0 r max d w ->
  wp (settle (Z.to_nat (Z.max 1 max))) (fun _ s' => settled d0 r d s') {| s_dev := d; s_env := w |}.
Proof.
  intros H32 Hm Hl2 (Hf & Hv & Hr & Hs). apply (wp_settle d0 r max _ 0); try done; lia.
Qed.

(** Only the application's callback matters of the device that is told. *)
Lemma settled_config d0 r d d' s' :
  pouch_prov_config_get d' = pouch_prov_config_get d -> settled d0 r d' s' -> settled d0 r d s'.
Proof. intros H. unfold settled, given_up, emitted, told. by rewrite H. Qed.

(** Against the simulated network an apply always comes to an end within the
    attempt budget, and to the end the network dictates. With the network's own
    credentials the device is connected to it, the SSID is stored and the
    application told; with an SSID that is not on the air it ends "failed" with
    "network not found", and with a wrong passphrase with "authentication error":
    the store is asked to delete the SSID, which is gone if that returns 0, and
    the application is told. *)
Theorem apply_settles max s :
  let r := view (wc_cfg (d_wifi (s_dev s))) in
  can_apply max r (s_dev s) (s_env s) ->
  wp (do_apply ;;; settle (Z.to_nat (Z.max 1 max)))
    (fun _ s' => settled (fw_of (s_env s)) r (s_dev s) s') s.
Proof.
  destruct s as [d w]. cbn zeta. cbn [s_dev s_env]. intros Hc. apply wp_bind.
  eapply wp_mono; [by apply (wp_apply_underway max)|]. intros rc [d1 w1] (_ & Hu & Hcfg).
  eapply wp_mono; [apply (wp_settle_underway (fw_of w)); [..|exact Hu]; apply Hc|].
  intros [] s'. by apply settled_config.
Qed.

(** ** Scanning *)

(** A scan that starts asks the driver for results, and the cache is empty. *)
Lemma wp_scan_start (Q : prov_status_r -> st -> Prop) d w :
  (forall w', fw_of w' = fset_scan_work k_work_submit (fset_scan_cb true (fw_of w)) ->
     Q prov_status_status_ok_m_c {| s_dev := set_finished false (set_count 0 d); s_env := w' |}) ->
  wp do_start Q {| s_dev := d; s_env := w |}.
Proof.
  intros HQ. unfold do_start. apply wp_bind, wp_ask. cbn [s_env].
  destruct (scan_iface w) as [i|] eqn:Ei; [|by apply stack_iface in Ei].
  apply wp_bind, wp_put, wp_bind, wp_put, wp_bind, wp_call. cbn [s_dev s_env]. intros err w1 E.
  apply l2_scan in E. cbn in E. injection E as <- Hfw.
  cbn [negb Z.eqb]. by apply wp_ret, HQ.
Qed.

(** What a scan of the networks in range leaves in the cache. *)
Definition air_view (f : fake_wifi_data) : list scan_entry :=
  map (fun ap => result_view (ap_result ap)) (on_air f).

(** The driver's work item fills the empty cache and finishes the scan. *)
Lemma wp_run_scan_work (Q : unit -> st -> Prop) d w :
  scan_wf (d_scan d) -> sc_count (d_scan d) = 0%nat ->
  fw_wf (fw_of w) -> fd_scan_cb (fw_of w) = true ->
  (forall sc w', scan_wf sc -> sc_finished sc = true ->
     cached sc = take SCAN_MAX (air_view (fw_of w)) ->
     Q tt {| s_dev := set_scan (fun _ => sc) d; s_env := w' |}) ->
  wp run_scan_work Q {| s_dev := d; s_env := w |}.
Proof.
  intros Hs Hc0 Hw Hcb HQ. unfold run_scan_work. apply wp_bind.
  eapply wp_driver; [reflexivity|]. cbn [s_dev s_env]. apply wp_bind.
  assert (Hw1 : fw_wf (fset_scan_work k_work_start (fw_of w))).
  { destruct Hw as (H1 & H2 & H3 & H4 & H5 & H6 & H7 & H8 & H9 & H10). by split_and!. }
  eapply wp_driver; [cbn [s_env]; rewrite fw_of_put; by apply scan_work_run|].
  cbn [s_dev s_env]. change (on_air (fset_scan_work _ _)) with (on_air (fw_of w)).
  eapply wp_eq; [apply mfor_app|]. apply wp_bind.
  eapply wp_eq; [rewrite mfor_map, mfor_map; reflexivity|]. cbn [raised handle scan_mgmt_event].
  eapply wp_eq; [symmetry; apply (mfor_map ap_result _ on_result)|]. apply wp_results; [exact Hs| |].
  - intros r (ap & -> & Hap)%list_elem_of_fmap. apply ap_result_typed.
    destruct Hw as (_ & _ & H3 & _). apply H3. by apply (subseteq_take (fd_ap_count (fw_of w))).
  - intros sc Hsc Hf Hc. cbn [mfor]. apply wp_bind, wp_put, wp_ret.
    apply (HQ {| sc_entries := sc_entries sc; sc_count := sc_count sc; sc_finished := true;
                 sc_cb_registered := sc_cb_registered sc |}); [exact Hsc|done|].
    change (cached _) with (cached sc). rewrite Hc. unfold cached at 1. cbn [s_dev].
    by rewrite Hc0, map_map.
Qed.

(** A scan over the simulated network fills the cache with exactly the networks
    on the air, in their order and up to the size of the cache, whatever was
    cached before, and is reported finished when the driver's work item is done. *)
Theorem scan_finds_the_air s :
  scan_wf (d_scan (s_dev s)) -> fw_wf (fw_of (s_env s)) ->
  wp do_start (fun r s1 =>
    r = prov_status_status_ok_m_c /\ sc_finished (d_scan (s_dev s1)) = false /\
    wp run_scan_work (fun _ s2 =>
      sc_finished (d_scan (s_dev s2)) = true /\
      cached (d_scan (s_dev s2)) = take SCAN_MAX (air_view (fw_of (s_env s)))) s1) s.
Proof.
  destruct s as [d w]. cbn [s_dev s_env]. intros (S1 & S2 & S3) Hw. apply wp_scan_start.
  intros w1 E. split; [done|]. split; [done|]. apply wp_run_scan_work; [|done|..|].
  - split_and!; [exact S1|apply Nat.le_0_l|exact S3].
  - rewrite E. destruct Hw as (H1 & H2 & H3 & H4 & H5 & H6 & H7 & H8 & H9 & H10). by split_and!.
  - by rewrite E.
  - intros sc w' _ Hf Hc. split; [done|]. cbn [s_dev d_scan set_scan]. by rewrite Hc, E.
Qed.
End FakeNet.
