(* ===== verification/Provision.v ===== *)
(** * Wi-Fi provisioning end to end

    The client of Client.v against the device: after the handshake the Wi-Fi
    requests go through the dispatcher, the response queue and the codec, and
    the connection state machine runs over the simulated network. *)

From S2P Require Import Prelude ProvTypes Zcbor Schema Codec Platform State Frame Rpc Session.
From S2P Require Import Auth CredStore WifiScan WifiConfig Version Adv Identity Manager Ctrl Dispatch.
From S2P Require Import System Frames DispatchSpec AuthSpec WifiSpec WifiInv WifiStatus Lifecycle.
From S2P Require Import WorldFrame Client Hello FakeWifi FakeWifiSpec FakeNet.

Section Wifi.
Context {KC : Kconfig} {K : Kernel} {P : Platform} {CD : Codec}.
Context {CL : CodecEncLaws CD} {DL : CodecDecLaws CD}.
Context {PH : PsaHmac P} {PS : PlatformSizes P} {PA : PsaAvailable P} {MA : MemoryAvailable P}.
Context {FC : FakeConfig} {KW : KWork} {WL : WifiStoreLaws P} {FS : FakeStack P}.

(** What the message path leaves alone: the driver and the stored networks. *)
Definition net_obs (w : W) : fake_wifi_data * list (list byte) := (fw_of w, stored_ssids w).

Context {MS : MessageServices P net_obs}.

Lemma find_config : CONFIG_POUCH_PROV_WIFI = true -> exists ep,
  find_endpoint POUCH_PROV_PATH_CONFIG endpoints = Some ep /\
  ep_handler ep = pouch_prov_handle_config_p /\ ep_require_auth ep = true.
Proof. intros H. unfold endpoints. rewrite H. by destruct CONFIG_POUCH_PROV_AUTH; eexists. Qed.

Lemma wifi_io d d' : not_io d' = not_io d -> d_wifi d' = d_wifi d.
Proof. unfold not_io. by intros [= _ _ _ -> _ _ _ _]. Qed.

(** A request of the config endpoint that the handler answers with [rsp]. *)
Lemma wp_config_ask r rsp (Q : option config_rsp_r -> st -> Prop) d w :
  CONFIG_POUCH_PROV_WIFI = true -> clear d -> pouch_prov_session_authorized d = true ->
  config_req_ok r -> config_rsp_ok rsp ->
  (item_bound (config_req_item r) <= POUCH_PROV_MSG_MAX)%nat ->
  (item_bound (config_rsp_item rsp) <= POUCH_PROV_MSG_MAX)%nat ->
  (forall d1, not_io d1 = not_io d ->
     wp (pouch_prov_handle_config (item_bytes (config_req_item r) ++ []) POUCH_PROV_MSG_MAX)
       (fun h s1 => h = enc_result (cbor_encode_config_rsp POUCH_PROV_MSG_MAX rsp) /\
          forall d2 w2, clear d2 -> not_io d2 = not_io (s_dev s1) ->
            net_obs w2 = net_obs (s_env s1) -> Q (Some rsp) {| s_dev := d2; s_env := w2 |})
       {| s_dev := d1; s_env := w |}) ->
  wp (config_ask r) Q {| s_dev := d; s_env := w |}.
Proof.
  intros Hw Hc Hau Hr Hs Hb Hb' HQ. destruct (find_config Hw) as (ep & Hf & Hh & Hg).
  apply (wp_round net_obs _ ep (config_req_item r) (config_rsp_item rsp) _ _ rsp);
    rewrite ?Hh, ?Hg; try done.
  - by apply encode_config_req_law.
  - intros tl. by apply decode_config_rsp_law.
  - intros d1 Hd1. cbn [run_handler]. specialize (HQ d1 Hd1).
    rewrite encode_config_rsp_law in HQ by done. exact HQ.
Qed.

Lemma set_req_bound c : wifi_config_ok c ->
  (item_bound (IArr [IUint 1; wifi_config_item c]) <= POUCH_PROV_MSG_MAX)%nat.
Proof.
  intros ([H1 H1'] & H2 & H3 & _). unfold wifi_config_item, okv, kv, POUCH_PROV_MSG_MAX.
  destruct (wifi_config_pass c) as [p|] eqn:Ep; [specialize (H2 p eq_refl)|clear H2];
  (destruct (wifi_config_bssid c) as [b|] eqn:Eb; [specialize (H3 b eq_refl)|clear H3]);
  destruct (wifi_config_ch c); cbn; lia.
Qed.

(** A set that the device accepts stages the request. *)
Lemma wp_client_set c (Q : bool -> st -> Prop) d w :
  CONFIG_POUCH_PROV_WIFI = true -> clear d -> pouch_prov_session_authorized d = true ->
  conn_wf (wc_cfg (d_wifi d)) -> set_accepts c = true -> wifi_config_ok c ->
  (forall cfg d' w', clear d' -> conn_wf cfg -> view cfg = staged_request c ->
     not_io d' = not_io (set_wc_cfg (fun _ => cfg) d) -> net_obs w' = net_obs w ->
     Q true {| s_dev := d'; s_env := w' |}) ->
  wp (client_set c) Q {| s_dev := d; s_env := w |}.
Proof.
  intros Hw Hc Hau Hcw Hs Hok HQ. unfold client_set. apply wp_bind.
  apply (wp_config_ask _ (config_rsp_config_set_rsp_m
    {| config_set_rsp_prov_status_m := prov_status_status_ok_m_c |})); try done.
  - by apply set_req_bound.
  - by apply Nat.leb_le.
  - intros d1 Hd1. unfold pouch_prov_handle_config. rewrite decode_config_req_law by done.
    cbn [config_set_wifi_config_m]. apply wp_bind, wp_do_set; cbn [s_dev].
    { by rewrite (wifi_io _ _ Hd1). }
    rewrite Hs. intros cfg H1 H2. apply wp_ret. split; [done|]. cbn [s_dev s_env with_cfg].
    intros d2 w2 G1 G2 G3. apply wp_ret. rewrite bool_decide_eq_true_2 by done.
    apply (HQ cfg); try done. rewrite G2. unfold not_io, set_wc_cfg, set_wifi in *. cbn in *.
    by injection Hd1 as -> -> -> -> -> -> -> ->.
Qed.

(** ** Apply *)

Lemma can_apply_obs max r d w d' w' :
  d_wifi d' = d_wifi d -> net_obs w' = net_obs w -> can_apply max r d w -> can_apply max r d' w'.
Proof.
  unfold net_obs. intros Hd [= Hf _] [H1 H2 H3 H4 H5 H6 H7 H8 H9 H10].
  split; rewrite ?Hd, ?Hf; done.
Qed.

Lemma underway_obs d0 r max d w d' w' :
  d_wifi d' = d_wifi d -> net_obs w' = net_obs w -> underway d0 r max d w -> underway d0 r max d' w'.
Proof.
  unfold underway, flying, reporting, net_obs, in_flight, connecting. intros Hd [= Hf Hs].
  by rewrite Hd, Hf, Hs.
Qed.

Lemma apply_frame : keeps not_wifi do_apply.
Proof. steps_go. Qed.

Lemma wp_client_apply max r (Q : bool -> st -> Prop) d w :
  CONFIG_POUCH_PROV_WIFI = true -> clear d -> pouch_prov_session_authorized d = true ->
  view (wc_cfg (d_wifi d)) = r -> can_apply max r d w ->
  (forall d' w', clear d' -> session_of d' = session_of d -> underway (fw_of w) r max d' w' ->
     Q true {| s_dev := d'; s_env := w' |}) ->
  wp client_apply Q {| s_dev := d; s_env := w |}.
Proof.
  intros Hw Hc Hau Hv Hca HQ. unfold client_apply. apply wp_bind.
  apply (wp_config_ask _ (config_rsp_config_apply_rsp_m
    {| config_apply_rsp_prov_status_m := prov_status_status_ok_m_c |})); try done.
  - by apply Nat.leb_le.
  - by apply Nat.leb_le.
  - intros d1 Hd1. unfold pouch_prov_handle_config. rewrite decode_config_req_law by done.
    assert (Hv1 : view (wc_cfg (d_wifi d1)) = r) by (by rewrite (wifi_io _ _ Hd1)).
    apply wp_bind. eapply wp_mono.
    { apply wp_steps; [apply apply_frame|]. apply (wp_apply_underway max). rewrite Hv1.
      eapply can_apply_obs; [by apply wifi_io|done|exact Hca]. }
    rewrite Hv1. intros rc [d2 w2] [(-> & Hu & Hcfg) Hk]. cbn [s_dev s_env] in *. apply wp_ret.
    split; [done|]. intros d3 w3 H1 H2 H3. apply wp_ret. rewrite bool_decide_eq_true_2 by done.
    apply HQ; [done| |].
    + rewrite (session_io _ _ H2), <- (session_io _ _ Hd1). unfold session_of. cbn [s_dev].
      rewrite Hcfg. unfold same, not_wifi in Hk. injection Hk. intros. congruence.
    + eapply underway_obs; [by apply wifi_io|exact H3|exact Hu].
Qed.

(** ** The whole run *)

(** A device on which the client can set up the network of [c]: the build has
    the Wi-Fi endpoints, no request is pending, the client knows the secret if
    there is one, the message is valid and an apply is possible. *)
Record can_provision (max : Z) (pop : list byte) (c : wifi_config) (d : device) (w : W) : Prop := {
  cp_wifi : CONFIG_POUCH_PROV_WIFI = true;
  cp_block : in_u32 CONFIG_POUCH_BLOCK_SIZE;
  cp_clear : clear d;
  cp_secret : secret_ok pop d;
  cp_set : set_accepts c = true;
  cp_msg : wifi_config_ok c;
  cp_apply : can_apply max (staged_request c) d w;
}.

Lemma wp_client_wifi max pop nonce c (Q : bool -> st -> Prop) d w :
  length nonce = NONCE_LEN -> can_provision max pop c d w ->
  (forall d' w', clear d' -> pouch_prov_session_authorized d' = true ->
     pouch_prov_config_get d' = pouch_prov_config_get d ->
     underway (fw_of w) (staged_request c) max d' w' -> Q true {| s_dev := d'; s_env := w' |}) ->
  wp (client_wifi pop nonce c) Q {| s_dev := d; s_env := w |}.
Proof.
  intros Hl [Hw Hb Hc Hs Hset Hok Ha] HQ. unfold client_wifi, and_also.
  apply wp_bind, (wp_client_hello net_obs); [done..|]. intros d1 w1 C1 A1 N1 O1.
  unfold not_login in N1. injection N1 as _ N1 _ _ _ M1.
  assert (Ha1 : can_apply max (staged_request c) d1 w1) by by eapply can_apply_obs.
  apply wp_bind, wp_client_set; [done..|apply Ha1|done|done|].
  intros cfg d2 w2 C2 F2 V2 N2 O2. assert (Ha2 : can_apply max (staged_request c) d2 w2).
  { destruct Ha1 as [G1 G2 G3 G4 G5 G6 G7 G8 G9 G10]. unfold net_obs in O2. injection O2 as O2 _.
    split; rewrite ?O2, ?(wifi_io _ _ N2); done. }
  assert (S2 : session_of d2 = session_of d1) by by rewrite (session_io _ _ N2).
  apply (wp_client_apply max (staged_request c)); [done|done| | |done|].
  { by rewrite (session_authorized_of _ _ S2). }
  { by rewrite (wifi_io _ _ N2). }
  intros d3 w3 C3 S3 U3.
  assert (Hfw : fw_of w2 = fw_of w) by (unfold net_obs in *; congruence). rewrite Hfw in U3.
  rewrite S2 in S3.
  apply HQ; [done| | |done].
  - by rewrite (session_authorized_of _ _ S3).
  - unfold session_of in S3. injection S3 as -> _ _. unfold pouch_prov_config_get. by rewrite M1.
Qed.

(** The session across the connection attempts. *)
Definition exchanging (d : device) := (io d, session_of d).

Lemma settle_frame n : keeps exchanging (settle n).
Proof.
  assert (Hd : forall A (m : D A), keeps exchanging (driver m)).
  { intros A m s a s'. unfold driver. destruct (m _) as [[x f]|]; [|done]. by intros [= _ <-]. }
  assert (Hw : keeps exchanging run_connect_work).
  { unfold run_connect_work. apply (steps_bind (same exchanging)); [apply Hd|]. intros _.
    apply (steps_bind (same exchanging)); [apply Hd|]. intros status. steps_go. }
  assert (Hr : keeps exchanging (handle EvRetryWork)) by (handle_cbn; steps_go).
  unfold keeps in *. induction n as [|n IH]; cbn [settle]; [apply (steps_ret _)|].
  apply (steps_bind (same exchanging)); [done|]. intros _.
  apply (steps_bind (same exchanging)); [apply (steps_get _)|]. intros sta.
  destruct sta; try apply (steps_ret _). by apply (steps_bind (same exchanging)).
Qed.

(** The run up to the end of the attempts. *)
Definition provision (max : Z) (pop nonce : list byte) (c : wifi_config) : C bool :=
  ok <- client_wifi pop nonce c ;; settle (Z.to_nat (Z.max 1 max)) ;;; mret ok.

Lemma wp_provision max pop nonce c (Q : bool -> st -> Prop) d w :
  length nonce = NONCE_LEN -> can_provision max pop c d w ->
  (forall d' w', clear d' -> pouch_prov_session_authorized d' = true ->
     settled (fw_of w) (requested c) d {| s_dev := d'; s_env := w' |} ->
     Q true {| s_dev := d'; s_env := w' |}) ->
  wp (provision max pop nonce c) Q {| s_dev := d; s_env := w |}.
Proof.
  intros Hl Hp HQ. unfold provision. apply wp_bind. eapply (wp_client_wifi max); [done..|].
  intros d1 w1 C1 A1 G1 U1. apply wp_bind. eapply wp_mono.
  - apply wp_steps; [apply settle_frame|].
    apply (wp_settle_underway (fw_of w) (staged_request c)); [..|exact U1]; apply (cp_apply _ _ _ _ _ Hp).
  - intros [] [d2 w2] [Hs Hk]. unfold same, exchanging in Hk. cbn [s_dev] in *.
    pose proof (f_equal fst Hk) as Hio. pose proof (f_equal snd Hk) as Hse. cbn [fst snd] in *.
    apply wp_ret, HQ.
    + by eapply clear_io.
    + by rewrite (session_authorized_of _ _ Hse).
    + eapply settled_config; [exact G1|exact Hs].
Qed.

(** C3: A client that follows the protocol provisions the device: from any state in
    which no request is pending and an attempt is left, the version query, the
    handshake, the set and the apply are all answered "ok", and the attempts then
    settle within the budget, on the outcome the network dictates for exactly the
    credentials the client sent: connected, with the SSID stored and the
    application told, or "failed" with the reason, after asking the store to
    delete the SSID, which is gone if the deletion returns 0. *)
Theorem client_provisions_wifi max pop nonce c s :
  length nonce = NONCE_LEN -> can_provision max pop c (s_dev s) (s_env s) ->
  wp (provision max pop nonce c) (fun ok s' =>
    ok = true /\ settled (fw_of (s_env s)) (requested c) (s_dev s) s') s.
Proof. destruct s as [d w]. intros Hl Hp. by apply wp_provision. Qed.

(** ** The final poll *)

(** The status reply of a failed station. *)
Definition failed_status (r : fail_reason_r) : config_rsp_r :=
  config_rsp_config_status_rsp_m {|
    config_status_rsp_prov_status_m := prov_status_status_ok_m_c;
    config_status_rsp_sta_state_m := sta_state_sta_failed_m_c;
    config_status_rsp_config_detail_m := Some (config_detail_fail_reason_m r) |}.

Lemma wp_poll_failed r d w :
  CONFIG_POUCH_PROV_WIFI = true -> clear d -> pouch_prov_session_authorized d = true ->
  wc_sta_state (d_wifi d) = sta_state_sta_failed_m_c -> wc_fail_reason (d_wifi d) = r ->
  wp client_status (fun a _ => a = Some (sta_state_sta_failed_m_c, Some (config_detail_fail_reason_m r)))
    {| s_dev := d; s_env := w |}.
Proof.
  intros Hw Hc Hau Hst Hr. unfold client_status. apply wp_bind.
  apply (wp_config_ask _ (failed_status r)); try done.
  - by intros x [= <-].
  - by apply Nat.leb_le.
  - by apply Nat.leb_le.
  - intros d1 Hd1. unfold pouch_prov_handle_config. rewrite decode_config_req_law by done.
    unfold encode_status. apply wp_bind, wp_getd. cbn [s_dev]. unfold status_detail.
    rewrite (wifi_io _ _ Hd1), Hst. apply wp_bind, wp_ret, wp_ret. rewrite Hr. split; [done|].
    intros d2 w2 _ _ _. by apply wp_ret.
Qed.

(** The driver's status names the network it is connected to. *)
Lemma connected_readable w :
  fw_wf (fw_of w) -> fd_connected (fw_of w) = true ->
  (1 <= length (conn_name (fw_of w)) <= SSID_MAX)%nat -> status_readable w.
Proof.
  intros Hw Hc Hl. destruct (wifi_iface w) as [i|] eqn:Ei; [|by apply stack_iface in Ei].
  destruct (net_mgmt_wifi_iface_status i w) as [[err [ssid rssi]] w'] eqn:E.
  destruct (l2_status _ _ _ _ _ _ Hw E) as (status & E1 & -> & ->).
  destruct (fake_status_run status_zero (fw_of w) Hw eq_refl) as (st' & E2 & Hn).
  change (fake_iface_status status_zero (fw_of w) = Some ((err, status), fw_of w')) in E1.
  rewrite E1 in E2. injection E2 as -> -> _. rewrite (Hn Hc) in E.
  by exists i, (conn_name (fw_of w)), (is_rssi st'), w'.
Qed.

Lemma poll_connected_undefined d w :
  CONFIG_POUCH_PROV_WIFI = true -> clear d -> pouch_prov_session_authorized d = true ->
  wc_sta_state (d_wifi d) = sta_state_sta_connected_m_c -> status_readable w ->
  client_status {| s_dev := d; s_env := w |} = None.
Proof.
  intros Hw [Hb Hq] Hau Hst Hrd. destruct (find_config Hw) as (ep & Hf & Hh & Hg).
  unfold client_status, config_ask. rewrite encode_config_req_law, fit_item by (done || by apply Nat.leb_le).
  unfold mbind at 1, ask_device, mbind at 1. rewrite (exchange_undefined _ ep); try done.
  - by apply fits, Nat.leb_le.
  - intros d1 Hd1. rewrite Hh. cbn [run_handler]. unfold pouch_prov_handle_config.
    rewrite <- (app_nil_r (item_bytes _)), decode_config_req_law by done.
    apply status_undefined; [|done]. cbn [s_dev]. by rewrite (wifi_io _ _ Hd1).
Qed.

(** C31: How a client learns the outcome it waits for: when the network refuses the
    credentials, the poll reports "failed" with the reason, but when the device
    has connected, the very poll that the protocol prescribes is undefined
    behaviour on the device. *)
Theorem client_learns_outcome max pop nonce c s :
  length nonce = NONCE_LEN -> can_provision max pop c (s_dev s) (s_env s) ->
  let r := requested c in
  let o := network_outcome (fw_of (s_env s)) (wr_ssid r) (wr_pass r) in
  wp (provision max pop nonce c) (fun _ s' =>
    if o =? 0 then client_status s' = None
    else wp client_status (fun a _ =>
      a = Some (sta_state_sta_failed_m_c, Some (config_detail_fail_reason_m (fail_code o)))) s') s.
Proof.
  destruct s as [d w]. cbn zeta. cbn [s_dev s_env]. intros Hl Hp. apply wp_provision; [done|done|].
  intros d1 w1 Hc Hau (_ & Hw & Hs). pose proof (cp_wifi _ _ _ _ _ Hp) as Hcfg.
  cbn [s_dev s_env] in *. destruct (network_outcome _ _ _ =? 0).
  - destruct Hs as (Hst & _ & Hcn & Hn & _). apply poll_connected_undefined; try done.
    apply connected_readable; try done. rewrite Hn. cbn [wr_ssid requested].
    pose proof (cp_msg _ _ _ _ _ Hp) as [Hlen _]. unfold SSID_MAX. lia.
  - destruct Hs as (Hst & Hr & _). by apply wp_poll_failed.
Qed.
End Wifi.
