(* ===== verification/Survey.v ===== *)
(** * A client surveys the networks

    The client of Client.v scans through the device over the simulated network:
    start, a poll while the driver works, and the pages of the result.  The page
    size is the client's choice; with the six entries that the repository's own
    clients ask for, long network names are in its way. *)

From S2P Require Import Prelude ProvTypes Zcbor Schema Codec Platform State Frame Rpc Session.
From S2P Require Import Auth CredStore WifiScan WifiConfig Version Adv Identity Manager Ctrl Dispatch.
From S2P Require Import System Frames DispatchSpec AuthSpec WifiSpec WifiInv WifiStatus ScanSpec.
From S2P Require Import Lifecycle WorldFrame Client Hello FakeWifi FakeWifiSpec FakeNet Provision.

(** The next page continues the list. *)
Lemma take_page {A} (l : list A) n size :
  (n <= length l)%nat -> 0 <= size ->
  take n l ++ page (Z.of_nat n) size l =
  take (n + length (page (Z.of_nat n) size l)) l.
Proof.
  intros Hn Hs. unfold page. rewrite Nat2Z.id. set (k := Z.to_nat _).
  rewrite length_take, length_drop.
  destruct (decide (k <= length l - n)%nat) as [H|H].
  - rewrite Nat.min_l by lia. by rewrite <- take_take_drop.
  - rewrite Nat.min_r, (take_ge (drop n l)), take_drop by (rewrite ?length_drop; lia).
    by rewrite take_ge by lia.
Qed.

Section Survey.
Context {KC : Kconfig} {K : Kernel} {P : Platform} {CD : Codec}.
Context {CL : CodecEncLaws CD} {DL : CodecDecLaws CD}.
Context {PH : PsaHmac P} {PS : PlatformSizes P} {PA : PsaAvailable P} {MA : MemoryAvailable P}.
Context {FC : FakeConfig} {KW : KWork} {WL : WifiStoreLaws P} {FS : FakeStack P}.
Context {MS : MessageServices P net_obs}.

Lemma find_scan : CONFIG_POUCH_PROV_WIFI = true -> exists ep,
  find_endpoint POUCH_PROV_PATH_SCAN endpoints = Some ep /\
  ep_handler ep = pouch_prov_handle_scan_p /\ ep_require_auth ep = true.
Proof. intros H. unfold endpoints. rewrite H. by destruct CONFIG_POUCH_PROV_AUTH; eexists. Qed.

Lemma scan_io d d' : not_io d' = not_io d -> d_scan d' = d_scan d.
Proof. unfold not_io. by intros [= _ _ -> _ _ _ _ _]. Qed.

Lemma authorized_io d d' :
  not_io d' = not_io d -> pouch_prov_session_authorized d' = pouch_prov_session_authorized d.
Proof. unfold not_io, pouch_prov_session_authorized, pouch_prov_config_get. by intros [= -> _ _ _ _ _ _ ->]. Qed.

(** ** Requests of the scan endpoint *)

Lemma wp_scan_ask r rsp (Q : option scan_rsp_r -> st -> Prop) d w :
  CONFIG_POUCH_PROV_WIFI = true -> clear d -> pouch_prov_session_authorized d = true ->
  scan_req_ok r -> scan_rsp_ok rsp -> (item_bound (scan_req_item r) <= POUCH_PROV_MSG_MAX)%nat ->
  (0 < length (item_bytes (scan_rsp_item rsp)) <= POUCH_PROV_MSG_MAX)%nat ->
  (forall d1, not_io d1 = not_io d ->
     wp (pouch_prov_handle_scan (item_bytes (scan_req_item r) ++ []) POUCH_PROV_MSG_MAX)
       (fun h s1 => h = enc_result (cbor_encode_scan_rsp POUCH_PROV_MSG_MAX rsp) /\
          forall d2 w2, clear d2 -> not_io d2 = not_io (s_dev s1) ->
            net_obs w2 = net_obs (s_env s1) -> Q (Some rsp) {| s_dev := d2; s_env := w2 |})
       {| s_dev := d1; s_env := w |}) ->
  wp (scan_ask r) Q {| s_dev := d; s_env := w |}.
Proof.
  intros Hw Hc Hau Hr Hs Hb Hb' HQ. destruct (find_scan Hw) as (ep & Hf & Hh & Hg).
  apply (wp_round_len net_obs _ ep (scan_req_item r) (scan_rsp_item rsp) _ _ rsp);
    rewrite ?Hh, ?Hg; try done.
  - by apply encode_scan_req_law.
  - intros tl. by apply decode_scan_rsp_law.
  - intros d1 Hd1. cbn [run_handler]. specialize (HQ d1 Hd1).
    rewrite encode_scan_rsp_law in HQ by done. exact HQ.
Qed.

(** The device between a start and the driver's report. *)
Definition scanning (d : device) : device := set_finished false (set_count 0 d).

Lemma wp_client_scan_start (Q : bool -> st -> Prop) d w :
  CONFIG_POUCH_PROV_WIFI = true -> clear d -> pouch_prov_session_authorized d = true ->
  (forall d' w', clear d' -> not_io d' = not_io (scanning d) ->
     fw_of w' = fset_scan_work k_work_submit (fset_scan_cb true (fw_of w)) ->
     Q true {| s_dev := d'; s_env := w' |}) ->
  wp client_scan_start Q {| s_dev := d; s_env := w |}.
Proof.
  intros Hw Hc Hau HQ. unfold client_scan_start. apply wp_bind.
  apply (wp_scan_ask _ (scan_rsp_scan_start_rsp_m
    {| scan_start_rsp_prov_status_m := prov_status_status_ok_m_c |})); try done.
  - by apply Nat.leb_le.
  - by apply fits, Nat.leb_le.
  - intros d1 Hd1. unfold pouch_prov_handle_scan. rewrite decode_scan_req_law by done.
    apply wp_bind, wp_scan_start. intros w1 E. apply wp_ret. split; [done|].
    intros d2 w2 H1 H2 H3. apply wp_ret. rewrite bool_decide_eq_true_2 by done.
    apply HQ; [done| |unfold net_obs in H3; injection H3 as -> _; exact E].
    rewrite H2. unfold not_io, scanning in *. cbn in *. by injection Hd1 as -> -> -> -> -> -> -> ->.
Qed.

Lemma status_len b n : in_u32 n ->
  (0 < length (item_bytes (scan_rsp_item (scan_rsp_scan_status_rsp_m
     {| scan_status_rsp_prov_status_m := prov_status_status_ok_m_c;
        scan_status_rsp_finished := b; scan_status_rsp_total := n |}))) <= POUCH_PROV_MSG_MAX)%nat.
Proof. intros H. apply fits. unfold POUCH_PROV_MSG_MAX. cbn. destruct b; cbn; lia. Qed.

Lemma wp_client_scan_status (Q : option (bool * Z) -> st -> Prop) d w :
  CONFIG_POUCH_PROV_WIFI = true -> clear d -> pouch_prov_session_authorized d = true ->
  in_u32 (Z.of_nat (sc_count (d_scan d))) ->
  (forall d' w', clear d' -> not_io d' = not_io d -> net_obs w' = net_obs w ->
     Q (Some (sc_finished (d_scan d), Z.of_nat (sc_count (d_scan d)))) {| s_dev := d'; s_env := w' |}) ->
  wp client_scan_status Q {| s_dev := d; s_env := w |}.
Proof.
  intros Hw Hc Hau Hn HQ. unfold client_scan_status. apply wp_bind.
  apply (wp_scan_ask _ (scan_rsp_scan_status_rsp_m
    {| scan_status_rsp_prov_status_m := prov_status_status_ok_m_c;
       scan_status_rsp_finished := sc_finished (d_scan d);
       scan_status_rsp_total := Z.of_nat (sc_count (d_scan d)) |})); try done.
  - by apply Nat.leb_le.
  - by apply status_len.
  - intros d1 Hd1. unfold pouch_prov_handle_scan. rewrite decode_scan_req_law by done.
    apply wp_bind, wp_getd. cbn [s_dev]. rewrite (scan_io _ _ Hd1), u32_small by done.
    apply wp_ret. split; [done|]. cbn [s_dev s_env]. intros d2 w2 H1 H2 H3.
    apply wp_ret, HQ; [done|congruence|done].
Qed.

(** ** Pages *)

(** The cache holds a finished scan that found [l]. *)
Definition found (l : list scan_entry) (d : device) : Prop :=
  scan_wf (d_scan d) /\ sc_finished (d_scan d) = true /\ cached (d_scan d) = l.

Lemma found_count l d : found l d -> sc_count (d_scan d) = length l.
Proof.
  intros ((H1 & H2 & _) & _ & <-). unfold cached. rewrite length_map, length_take. lia.
Qed.

Lemma found_io l d d' : not_io d' = not_io d -> found l d -> found l d'.
Proof. intros H. unfold found. by rewrite (scan_io _ _ H). Qed.

(** The page size lets every reply fit. *)
Definition pages_fit (size : Z) (l : list scan_entry) : Prop :=
  1 <= size <= 5 \/ 1 <= size < 4294967296 /\ (forall e, e ∈ l -> (length (scan_entry_ssid e) <= 21)%nat).

Lemma page_len_bound start size (l : list scan_entry) : (length (page start size l) <= 6)%nat.
Proof. unfold page, PAGE_MAX. rewrite length_take. lia. Qed.

Lemma page_reply_len start size l d :
  found l d -> pages_fit size l ->
  (0 < length (item_bytes (scan_rsp_item (page_msg (page start size l)))) <= POUCH_PROV_MSG_MAX)%nat.
Proof.
  intros (Hs & _ & <-) Hp. change (scan_rsp_item (page_msg ?l)) with (page_rsp l). split.
  - rewrite page_rsp_len by apply page_len_bound. lia.
  - apply page_fits; [intros e; by apply page_views|apply page_len_bound|].
    destruct Hp as [Hp|[_ Hp]].
    + left. unfold page. rewrite length_take. lia.
    + right. intros e He. apply Hp. by eapply page_elem.
Qed.

Lemma page_req_bound start size :
  (item_bound (scan_req_item (page_req start size)) <= POUCH_PROV_MSG_MAX)%nat.
Proof. unfold POUCH_PROV_MSG_MAX. cbn. lia. Qed.

Lemma wp_client_page l start size (Q : option (list scan_entry) -> st -> Prop) d w :
  CONFIG_POUCH_PROV_WIFI = true -> Z.of_nat SCAN_MAX < 4294967296 ->
  clear d -> pouch_prov_session_authorized d = true -> found l d -> pages_fit size l ->
  in_u32 start ->
  (forall d' w', clear d' -> not_io d' = not_io d ->
     Q (Some (page start size l)) {| s_dev := d'; s_env := w' |}) ->
  wp (client_page start size) Q {| s_dev := d; s_env := w |}.
Proof.
  intros Hw H32 Hc Hau Hf Hp Hst HQ. pose proof Hf as (Hs & _ & Hl).
  assert (Hsz : in_u32 size) by (unfold in_u32, pages_fit in *; lia).
  unfold client_page. apply wp_bind. apply (wp_scan_ask _ (page_msg (page start size l))); try done.
  - rewrite <- Hl. by apply page_msg_ok.
  - apply page_req_bound.
  - by eapply page_reply_len.
  - intros d1 Hd1. unfold pouch_prov_handle_scan. rewrite decode_scan_req_law by done.
    cbn [page_req scan_get_results_start scan_get_results_count].
    unfold wp. rewrite encode_results_msg; cbn [s_dev]; rewrite ?(scan_io _ _ Hd1), ?Hl; try done.
    split; [done|]. intros d2 w2 H1 H2 H3. apply wp_ret, HQ; [done|]. by rewrite H2.
Qed.

(** The loop ends with everything that was found. *)
Lemma wp_client_pages l size fuel : forall n (Q : option (list scan_entry) -> st -> Prop) d w,
  CONFIG_POUCH_PROV_WIFI = true -> Z.of_nat SCAN_MAX < 4294967296 ->
  clear d -> pouch_prov_session_authorized d = true -> found l d -> pages_fit size l ->
  (n <= length l)%nat -> (length l - n <= fuel)%nat ->
  (forall d' w', clear d' -> not_io d' = not_io d -> Q (Some l) {| s_dev := d'; s_env := w' |}) ->
  wp (client_pages fuel size (Z.of_nat (length l)) (take n l)) Q {| s_dev := d; s_env := w |}.
Proof.
  assert (Hlen : forall d, found l d -> (length l <= SCAN_MAX)%nat).
  { intros d Hf. rewrite <- (found_count l d Hf). apply Hf. }
  induction fuel as [|fuel IH]; intros n Q d w Hw H32 Hc Hau Hf Hp Hn Hfu HQ; cbn [client_pages].
  - apply wp_ret. rewrite take_ge by lia. by apply HQ.
  - rewrite length_take_le by done. destruct (_ <? _) eqn:E; zbool.
    + pose proof (Hlen d Hf). apply wp_bind, (wp_client_page l); try done.
      { unfold in_u32. lia. }
      intros d1 w1 C1 N1. assert (Hnx : take n l ++ page (Z.of_nat n) size l =
        take (n + length (page (Z.of_nat n) size l)) l) by (apply take_page; unfold pages_fit in Hp; lia).
      assert (Hpos : (0 < length (page (Z.of_nat n) size l) <= length l - n)%nat).
      { unfold page. rewrite Nat2Z.id, length_take, length_drop. unfold PAGE_MAX, pages_fit in *. lia. }
      destruct (page (Z.of_nat n) size l) as [|e p] eqn:Ep; [cbn in Hpos; lia|]. rewrite Hnx.
      apply IH; try done; [by rewrite (authorized_io _ _ N1)|by eapply found_io|lia|lia|].
      intros d2 w2 C2 N2. apply HQ; [done|congruence].
    + apply wp_ret. rewrite take_ge by lia. by apply HQ.
Qed.

Lemma wp_client_networks l size (Q : option (list scan_entry) -> st -> Prop) d w :
  CONFIG_POUCH_PROV_WIFI = true -> Z.of_nat SCAN_MAX < 4294967296 ->
  clear d -> pouch_prov_session_authorized d = true -> found l d -> pages_fit size l ->
  (forall d' w', clear d' -> not_io d' = not_io d -> Q (Some l) {| s_dev := d'; s_env := w' |}) ->
  wp (client_networks size) Q {| s_dev := d; s_env := w |}.
Proof.
  intros Hw H32 Hc Hau Hf Hp HQ. unfold client_networks.
  pose proof Hf as ((_ & Hcnt & _) & Hfin & _).
  apply wp_bind, wp_client_scan_status; try done; [unfold in_u32; lia|].
  intros d1 w1 C1 N1 _. rewrite Hfin, (found_count l d Hf), Nat2Z.id.
  apply (wp_client_pages l size _ 0); try done; [by rewrite (authorized_io _ _ N1)|by eapply found_io|lia|lia|].
  intros d2 w2 C2 N2. apply HQ; [done|congruence].
Qed.

(** ** The whole run *)

(** A device on which the client can scan. *)
Record can_scan (pop : list byte) (d : device) (w : W) : Prop := {
  cs_wifi : CONFIG_POUCH_PROV_WIFI = true;
  cs_block : in_u32 CONFIG_POUCH_BLOCK_SIZE;
  cs_cache : Z.of_nat SCAN_MAX < 4294967296;
  cs_clear : clear d;
  cs_secret : secret_ok pop d;
  cs_scan : scan_wf (d_scan d);
  cs_driver : fw_wf (fw_of w);
}.

(** Handshake and start, a poll while the driver works, and its report. *)
Definition scan_air (pop nonce : list byte) : C (option (bool * Z)) :=
  ok <- and_also (client_hello pop nonce) client_scan_start ;;
  early <- client_scan_status ;;
  run_scan_work ;;;
  mret (if ok : bool then early else None).

(** What the scan touches is its cache and the authorization. *)
Definition not_survey (d : device) := (d_wifi d, d_blobs d, d_ident d, d_adv d, d_mgr d).

Lemma not_survey_io d d' : not_io d' = not_io d -> not_survey d' = not_survey d.
Proof. unfold not_io, not_survey. by intros [= _ _ _ -> -> -> -> ->]. Qed.

Lemma wp_scan_air pop nonce (Q : option (bool * Z) -> st -> Prop) d w :
  length nonce = NONCE_LEN -> can_scan pop d w ->
  (forall d' w', clear d' -> pouch_prov_session_authorized d' = true ->
     not_survey d' = not_survey d -> found (take SCAN_MAX (air_view (fw_of w))) d' ->
     Q (Some (false, 0)) {| s_dev := d'; s_env := w' |}) ->
  wp (scan_air pop nonce) Q {| s_dev := d; s_env := w |}.
Proof.
  intros Hl [Hw Hb H32 Hc Hs Hsc Hfw] HQ. unfold scan_air, and_also.
  apply wp_bind, wp_bind, (wp_client_hello net_obs); [done..|]. intros d1 w1 C1 A1 N1 O1.
  unfold not_login in N1. injection N1 as S1 W1 B1 I1 V1 M1.
  apply wp_client_scan_start; [done..|]. intros d2 w2 C2 N2 F2.
  assert (A2 : pouch_prov_session_authorized d2 = true) by (by rewrite (authorized_io _ _ N2)).
  assert (E2 : d_scan d2 = d_scan (scanning d1)) by by apply scan_io.
  apply wp_bind, wp_client_scan_status; try done; [by rewrite E2|]. intros d3 w3 C3 N3 O3.
  unfold net_obs in O1, O3. injection O1 as O1 _. injection O3 as O3 _. rewrite O1 in F2.
  assert (E3 : d_scan d3 = d_scan (scanning d1)) by by rewrite (scan_io _ _ N3).
  apply wp_bind, wp_run_scan_work; rewrite ?E3, ?O3, ?F2; try done.
  - destruct Hsc as (H1 & H2 & H3). rewrite <- S1 in *.
    split_and!; [exact H1|apply Nat.le_0_l|exact H3].
  - destruct Hfw as (H1 & H2 & H3 & H4 & H5 & H6 & H7 & H8 & H9 & H10). by split_and!.
  - intros sc w4 Wsc Fsc Csc. apply wp_ret. rewrite E2. apply HQ.
    + exact C3.
    + change (pouch_prov_session_authorized (set_scan _ d3)) with (pouch_prov_session_authorized d3).
      by rewrite (authorized_io _ _ N3).
    + change (not_survey (set_scan _ d3)) with (not_survey d3).
      rewrite (not_survey_io _ _ N3), (not_survey_io _ _ N2).
      unfold not_survey. cbn. by rewrite W1, B1, I1, V1, M1.
    + by split_and!.
Qed.

(** The client's list of the networks, in pages of [size]. *)
Definition survey (pop nonce : list byte) (size : Z)
  : C (option (bool * Z) * option (list scan_entry)) :=
  early <- scan_air pop nonce ;; l <- client_networks size ;; mret (early, l).

(** C5: A client that follows the protocol lists the networks: after version query
    and handshake a scan starts, a poll before the driver has reported says "not
    finished", and once it has, the client's pages put together are exactly the
    networks on the air, in order and up to the size of the device's cache,
    whatever was cached before.  Pages of up to five entries always do; larger
    ones when no network name has more than 21 bytes.  Besides the cache and the
    authorization nothing of the device has changed. *)
Theorem client_lists_networks pop nonce size s :
  length nonce = NONCE_LEN -> can_scan pop (s_dev s) (s_env s) ->
  let air := take SCAN_MAX (air_view (fw_of (s_env s))) in
  pages_fit size air ->
  wp (survey pop nonce size) (fun r s' => r = (Some (false, 0), Some air) /\
    not_survey (s_dev s') = not_survey (s_dev s)) s.
Proof.
  destruct s as [d w]. cbn [s_dev s_env]. intros Hl Hcs Hp. unfold survey.
  apply wp_bind, wp_scan_air; [done..|]. intros d1 w1 C1 A1 N1 F1.
  apply wp_bind, (wp_client_networks (take SCAN_MAX (air_view (fw_of w)))); try done;
    [apply Hcs..|]. intros d2 w2 C2 N2. apply wp_ret. split; [done|].
  cbn [s_dev]. by rewrite (not_survey_io _ _ N2).
Qed.

(** ** Six long names *)

Lemma page_req_ok start size : in_u32 start -> in_u32 size -> scan_req_ok (page_req start size).
Proof. by split. Qed.

Lemma peek_page_req start size : peek_op (item_bytes (scan_req_item (page_req start size))) = 2.
Proof. reflexivity. Qed.

(** The bare error reply to a results request. *)
Definition page_error : list byte :=
  item_bytes (op_status_item 2 prov_status_status_internal_error_m_c).

Definition ask_page (start size : Z) : C (option (list byte)) :=
  exchange POUCH_PROV_PATH_SCAN (item_bytes (scan_req_item (page_req start size))).

Lemma wp_ask_long_page l start (Q : option (list byte) -> st -> Prop) d w :
  CONFIG_POUCH_PROV_WIFI = true -> Z.of_nat SCAN_MAX < 4294967296 ->
  clear d -> pouch_prov_session_authorized d = true -> found l d -> in_u32 start ->
  length (page start 6 l) = 6%nat ->
  (forall e, e ∈ page start 6 l -> length (scan_entry_ssid e) = 32%nat) ->
  (forall d' w', clear d' -> not_io d' = not_io d -> Q (Some page_error) {| s_dev := d'; s_env := w' |}) ->
  wp (ask_page start 6) Q {| s_dev := d; s_env := w |}.
Proof.
  intros Hw H32 Hc Hau (Hs & _ & Hl) Hst H6 Hss HQ.
  destruct (find_scan Hw) as (ep & Hf & Hh & Hg).
  apply (wp_exchange_answer net_obs _ ep); rewrite ?Hh, ?Hg; try done.
  { apply fits, page_req_bound. }
  intros d1 Hd1. cbn [run_handler]. unfold pouch_prov_handle_scan.
  rewrite <- (app_nil_r (item_bytes _)), decode_scan_req_law by (by apply page_req_ok).
  cbn [page_req scan_get_results_start scan_get_results_count].
  unfold wp. rewrite encode_results_eq; cbn [s_dev]; rewrite ?(scan_io _ _ Hd1), ?Hl; try done.
  rewrite fit_none by (apply page_too_big; [intros e; rewrite <- Hl; by apply page_views|done|done]).
  cbn [enc_result]. exists page_error. split.
  { rewrite app_nil_r. cbn [answer]. rewrite peek_page_req, encode_ctrl_rsp_law by done. by apply fit_some, Nat.leb_le. }
  split; [split; apply Nat.leb_le; reflexivity|]. intros d2 w2 G1 G2 _. apply HQ; [done|].
  rewrite G2. exact Hd1.
Qed.

(** The page that every client of the repository asks for first, [k] times over. *)
Definition survey_long (pop nonce : list byte) (k : nat) : C (option (list byte)) :=
  r <- scan_air pop nonce ;;
  mfor (replicate k tt) (fun _ => r <- ask_page 0 6 ;; mret tt) ;;;
  ask_page 0 6.

(** C6: When the first six networks on the air have names of 32 bytes, a client that
    asks for pages of six entries, as the repository's own clients do, never
    gets the list: however often it asks, the reply to its first page is an
    internal error, because six such entries do not fit a reply. *)
Theorem long_names_block_survey pop nonce k s :
  length nonce = NONCE_LEN -> can_scan pop (s_dev s) (s_env s) ->
  let air := take SCAN_MAX (air_view (fw_of (s_env s))) in
  (6 <= length air)%nat -> (forall e, e ∈ take 6 air -> length (scan_entry_ssid e) = 32%nat) ->
  wp (survey_long pop nonce k) (fun r _ => r = Some page_error) s.
Proof.
  destruct s as [d w]. cbn [s_dev s_env]. intros Hl Hcs Hn Hss. set (air := take SCAN_MAX _) in *.
  unfold survey_long. apply wp_bind, wp_scan_air; [done..|]. intros d1 w1 C1 A1 _ F1. clear - Hcs Hn Hss C1 A1 F1 CL DL MA MS.
  assert (Hpg : page 0 6 air = take 6 air) by reflexivity.
  assert (Hask : forall d w (Q : option (list byte) -> st -> Prop), clear d ->
    pouch_prov_session_authorized d = true -> found air d ->
    (forall d' w', clear d' -> not_io d' = not_io d -> Q (Some page_error) {| s_dev := d'; s_env := w' |}) ->
    wp (ask_page 0 6) Q {| s_dev := d; s_env := w |}).
  { intros d2 w2 Q C2 A2 F2 HQ. apply (wp_ask_long_page air); try done; try apply Hcs; rewrite ?Hpg; try done.
    rewrite length_take. lia. }
  apply wp_bind. revert d1 w1 C1 A1 F1. induction k as [|k IH]; intros d1 w1 C1 A1 F1; cbn [replicate mfor].
  - apply wp_ret. by apply Hask.
  - apply wp_bind, wp_bind, Hask; [done..|]. intros d2 w2 C2 N2. apply wp_ret.
    apply IH; [done|by rewrite (authorized_io _ _ N2)|by eapply found_io].
Qed.
End Survey.
