(* ===== verification/FakeSim.v ===== *)
(** * The library with the simulated driver, at concrete inputs

    The concrete platform of Instances.v with the Wi-Fi requests handed to the
    driver of fake_wifi.c, on which the composed theorems are applied. *)

From stdpp Require Import gmap.
From S2P Require Import Prelude ProvTypes Zcbor Schema Codec Platform State Frame Rpc Session.
From S2P Require Import CredStore WifiScan WifiConfig Adv Identity Manager Ctrl Dispatch System.
From S2P Require Import Instances WifiSpec WifiInv ScanSpec FakeWifi FakeWifiSpec FakeNet.
From S2P Require Import Version Auth DispatchSpec AuthSpec Lifecycle WorldFrame CredSpec CredPersist Client Hello Bootstrap Complete Provision Survey.

#[export] Instance sim_kwork : KWork := {|
  k_work := bool;
  work_pending b := b;
  k_work_init _ := false;
  k_work_submit _ := true;
  k_work_start _ := false;
  work_zero := false;
  work_pending_zero := eq_refl;
  work_pending_init _ := eq_refl;
  work_pending_submit _ := eq_refl;
  work_pending_start _ := eq_refl;
|}.

#[export] Instance sim_fake_config : FakeConfig := {| CONFIG_POUCH_PROV_FAKE_WIFI_MAX_AP := 8 |}.

(** A service that does not touch the driver. *)
Definition beside {A} (f : sim_world -> A * sim_world) (w : fake_wifi_data * sim_world)
  : A * (fake_wifi_data * sim_world) :=
  ((f w.2).1, (w.1, (f w.2).2)).

(** A request that the driver answers; [a] where the driver is undefined. *)
Definition on_driver {A} (a : A) (m : D A) (w : fake_wifi_data * sim_world)
  : A * (fake_wifi_data * sim_world) :=
  match m w.1 with Some (a, f) => (a, (f, w.2)) | None => (a, w) end.

(** The parameter checks of wifi_mgmt. *)
Definition sim_accepts (p : wifi_connect_req_params) : bool :=
  (1 <=? length (cp_ssid p))%nat && (length (cp_ssid p) <=? WIFI_SSID_MAX_LEN)%nat &&
  match cp_psk p with Some k => (8 <=? length k)%nat && (length k <=? 64)%nat | None => true end.

Definition fake_platform : Platform := {|
  W := (fake_wifi_data * sim_world)%type;
  k_malloc _ w := (true, w);
  k_free w := (w.1, k_free (Platform := sim_platform) w.2);
  pouch_init x0 w := beside (pouch_init (Platform := sim_platform) x0) w;
  pouch_uplink_entry_write x0 x1 x2 w := beside (pouch_uplink_entry_write (Platform := sim_platform) x0 x1 x2) w;
  event_cb x0 x1 w := (w.1, event_cb (Platform := sim_platform) x0 x1 w.2);
  sys_rand_get x0 w := beside (sys_rand_get (Platform := sim_platform) x0) w;
  psa_mac_operation_t := psa_mac_operation_t (Platform := sim_platform);
  psa_crypto_init w := beside (psa_crypto_init (Platform := sim_platform)) w;
  psa_import_key x0 x1 w := beside (psa_import_key (Platform := sim_platform) x0 x1) w;
  psa_generate_key x0 w := beside (psa_generate_key (Platform := sim_platform) x0) w;
  psa_export_key x0 x1 w := beside (psa_export_key (Platform := sim_platform) x0 x1) w;
  psa_destroy_key x0 w := (w.1, psa_destroy_key (Platform := sim_platform) x0 w.2);
  psa_mac_sign_setup x0 w := beside (psa_mac_sign_setup (Platform := sim_platform) x0) w;
  psa_mac_update x0 x1 w := beside (psa_mac_update (Platform := sim_platform) x0 x1) w;
  psa_mac_sign_finish x0 x1 w := beside (psa_mac_sign_finish (Platform := sim_platform) x0 x1) w;
  psa_mac_abort x0 w := (w.1, psa_mac_abort (Platform := sim_platform) x0 w.2);
  settings_subsys_init w := beside (settings_subsys_init (Platform := sim_platform)) w;
  settings_save_one k v w := (0, (w.1, with_settings (<[k := v]> (w_settings w.2)) w.2));
  settings_delete x0 w := beside (settings_delete (Platform := sim_platform) x0) w;
  settings_load_subtree x0 w := beside (settings_load_subtree (Platform := sim_platform) x0) w;
  wifi_credentials_is_empty w := wifi_credentials_is_empty (Platform := sim_platform) w.2;
  wifi_credentials_delete_by_ssid x0 w := beside (wifi_credentials_delete_by_ssid (Platform := sim_platform) x0) w;
  wifi_credentials_delete_all w := beside (wifi_credentials_delete_all (Platform := sim_platform)) w;
  wifi_credentials_set_personal x0 w := beside (wifi_credentials_set_personal (Platform := sim_platform) x0) w;
  net_if_get_wifi_sta w := net_if_get_wifi_sta (Platform := sim_platform) w.2;
  net_if_get_first_wifi w := net_if_get_first_wifi (Platform := sim_platform) w.2;
  net_mgmt_add_event_callback w := (w.1, net_mgmt_add_event_callback (Platform := sim_platform) w.2);
  net_mgmt_wifi_scan _ w := on_driver 0 fake_scan w;
  net_mgmt_wifi_connect _ p w :=
    if sim_accepts p then on_driver 0 (fake_connect p) w else (- EINVAL, w);
  net_mgmt_wifi_iface_status _ w :=
    let (r, w') := on_driver (0, status_zero) (fake_iface_status status_zero) w in
    ((r.1, (take (is_ssid_len r.2) (is_ssid r.2), is_rssi r.2)), w');
  net_if_ipv4_get_global_addr x0 w := net_if_ipv4_get_global_addr (Platform := sim_platform) x0 w.2;
  bt_is_ready w := bt_is_ready (Platform := sim_platform) w.2;
  bt_enable w := beside (bt_enable (Platform := sim_platform)) w;
  bt_id_get w := bt_id_get (Platform := sim_platform) w.2;
  bt_le_adv_start x0 x1 w := beside (bt_le_adv_start (Platform := sim_platform) x0 x1) w;
  bt_le_adv_stop w := beside (bt_le_adv_stop (Platform := sim_platform)) w;
  bt_conn_set_security w := beside (bt_conn_set_security (Platform := sim_platform)) w;
  mbedtls_pk_setup_opaque x0 w := beside (mbedtls_pk_setup_opaque (Platform := sim_platform) x0) w;
  mbedtls_x509write_crt_set_subject_name x0 w := beside (mbedtls_x509write_crt_set_subject_name (Platform := sim_platform) x0) w;
  mbedtls_x509write_crt_set_issuer_name x0 w := beside (mbedtls_x509write_crt_set_issuer_name (Platform := sim_platform) x0) w;
  mbedtls_mpi_lset x0 w := beside (mbedtls_mpi_lset (Platform := sim_platform) x0) w;
  mbedtls_x509write_crt_set_serial w := beside (mbedtls_x509write_crt_set_serial (Platform := sim_platform)) w;
  mbedtls_x509write_crt_set_validity x0 x1 w := beside (mbedtls_x509write_crt_set_validity (Platform := sim_platform) x0 x1) w;
  mbedtls_x509write_crt_der x0 w := beside (mbedtls_x509write_crt_der (Platform := sim_platform) x0) w;
|}.

(** ** The laws *)

Definition fake_store : WifiStoreLaws fake_platform.
Proof.
  refine {| stored_ssids (w : @W fake_platform) := stored_ssids (P := sim_platform) w.2 |}.
  - intros w. apply (wifi_is_empty_law (P := sim_platform)).
  - intros ssid w w' [= <-]. exact (wifi_delete_law (P := sim_platform) ssid w.2 _ eq_refl).
  - intros w w' [= <-]. exact (wifi_delete_all_law (P := sim_platform) w.2 _ eq_refl).
  - intros c w w' [= <-] x. exact (wifi_set_law (P := sim_platform) c w.2 _ eq_refl x).
  - intros i p w r w'. cbn -[fake_connect sim_accepts]. unfold on_driver. destruct (sim_accepts p); [|by intros [= _ <-]].
    destruct (fake_connect p w.1) as [[a f]|]; by intros [= _ <-].
  - done.
Defined.

Lemma on_driver_run {A} (a : A) (m : D A) w x w' :
  (exists y f, m w.1 = Some (y, f)) -> on_driver a m w = (x, w') -> m w.1 = Some (x, w'.1).
Proof. intros (y & f & E). unfold on_driver. rewrite E. by intros [= <- <-]. Qed.

Definition fake_stack : FakeStack fake_platform (WL := fake_store).
Proof.
  refine (Build_FakeStack fake_platform _ _ fake_store
    (fun w : @W fake_platform => w.1) (fun f (w : @W fake_platform) => (f, w.2) : @W fake_platform)
    _ _ _ sim_accepts _ _ _ _ _ _).
  - done.
  - done.
  - done.
  - intros i p w r w' Hw E0. cbn -[fake_connect sim_accepts] in E0.
    destruct (sim_accepts p); [|by injection E0 as <- <-]. revert E0. apply on_driver_run. pose proof (wp_connect p w.1 Hw) as H.
    apply wp_run_some in H as (y & f & E & _). eauto.
  - intros i w r w'. apply on_driver_run. eauto.
  - intros i w err ssid rssi w' Hw. cbn -[fake_iface_status status_zero].
    destruct (fake_status_run status_zero w.1 Hw eq_refl) as (st' & E & _).
    unfold on_driver. rewrite E. cbn. intros [= <- <- <- <-]. by exists st'.
  - done.
  - by intros ssid w r w' [= _ <-].
  - by intros c w r w' [= _ <-].
Defined.

Lemma beside_run {A} (f : sim_world -> A * sim_world) w a w' :
  beside f w = (a, w') -> f w.2 = (a, w'.2) /\ w'.1 = w.1.
Proof. unfold beside. destruct (f w.2). by intros [= <- <-]. Qed.

Definition fake_psa : PsaHmac fake_platform.
Proof.
  refine (Build_PsaHmac fake_platform sim_hmac
    (fun w : @W fake_platform => key_material (P := sim_platform) w.2)
    (mac_absorbed (P := sim_platform)) _ _ _ _ _).
  - apply (hmac_length (PsaHmac := sim_hmac_laws)).
  - intros k w id w' [E _]%beside_run. exact (psa_import_law (P := sim_platform) _ _ _ _ E).
  - intros id k w op w' Hk [E _]%beside_run. exact (psa_setup_law (P := sim_platform) _ _ _ _ _ Hk E).
  - intros op k m x w op' w' Ho [E _]%beside_run.
    exact (psa_update_law (P := sim_platform) _ _ _ _ _ _ _ Ho E).
  - intros op k m n w out w' Ho [E _]%beside_run.
    exact (psa_finish_law (P := sim_platform) _ _ _ _ _ _ _ Ho E).
Defined.

Lemma fake_psa_available : PsaAvailable fake_platform.
Proof.
  split; [done| |done|done].
  intros k w id w' [E _]%beside_run. exact (psa_setup_ok (P := sim_platform) _ _ _ _ E).
Qed.

Lemma fake_sizes : PlatformSizes fake_platform.
Proof.
  split.
  - intros n w. exact (rand_length (P := sim_platform) n w.2).
  - intros id n w st raw w' [E _]%beside_run. exact (export_length (P := sim_platform) _ _ _ _ _ _ E).
  - intros n w ret der w' [E _]%beside_run. exact (der_length (P := sim_platform) _ _ _ _ _ E).
  - intros w. exact (bt_addr_length (P := sim_platform) w.2).
  - intros i w a. exact (ip4_length (P := sim_platform) i w.2 a).
Qed.

Lemma fake_memory : MemoryAvailable fake_platform.
Proof. by split. Qed.

Lemma fake_messages :
  MessageServices fake_platform (net_obs (WL := fake_store) (FS := fake_stack)).
Proof.
  split; try done.
  - by intros n w r w' [= <- <-].
  - by intros p c m w r w' [= <- <-].
  - by intros n w r w' [= <- <-].
  - by intros u k w r w' [= <- <-].
  - intros id w r w'. cbn. unfold beside. cbn. destruct (_ !! _); by intros [= <- <-].
  - by intros op x w r w' [= <- <-].
  - by intros op n w r w' [= <- <-].
Qed.

Definition fake_settings : SettingsLaws fake_platform.
Proof.
  refine {| settings_value (w : @W fake_platform) :=
              settings_value (SettingsLaws := sim_settings) w.2 |}.
  - intros k v w w' [= <-]. split; [apply lookup_insert_eq|]. intros k' Hk. by apply lookup_insert_ne.
  - intros k w w' [E _]%beside_run. exact (settings_delete_law (P := sim_platform) _ _ _ E).
  - intros t w l w' [E _]%beside_run. exact (settings_load_law (P := sim_platform) _ _ _ _ E).
  - done.
Defined.

Lemma fake_writable : SettingsWritable fake_platform.
Proof. by split. Qed.

Lemma fake_cred_messages : MessageServices fake_platform (cred_obs (SL := fake_settings)).
Proof.
  split; try done.
  - by intros n w r w' [= <- <-].
  - by intros p c m w r w' [= <- <-].
  - by intros n w r w' [= <- <-].
  - by intros u k w r w' [= <- <-].
  - intros id w r w'. cbn. unfold beside. cbn. destruct (_ !! _); by intros [= <- <-].
  - by intros op x w r w' [= <- <-].
  - by intros op n w r w' [= <- <-].
Qed.

(** ** A provisioning run *)

#[local] Existing Instance fake_platform.
#[local] Existing Instance fake_store.
#[local] Existing Instance fake_stack.
#[local] Existing Instance fake_psa.
#[local] Existing Instance fake_psa_available.
#[local] Existing Instance fake_sizes.
#[local] Existing Instance fake_memory.
#[local] Existing Instance fake_messages.
#[local] Existing Instance fake_settings.
#[local] Existing Instance fake_writable.
#[local] Existing Instance fake_cred_messages.

Definition sim_air : fake_wifi_ap :=
  {| fa_ssid := buf_write 0 (str "home") (zeros 33); fa_ssid_len := 4; fa_bssid := replicate 6 x0a;
     fa_channel := 6; fa_rssi := -40; fa_security := 1 |}.

(** The network "home" with its passphrase is the real one. *)
Definition sim_driver : fake_wifi_data := Eval vm_compute in
  match (fake_wifi_init ;;; fake_wifi_set_scan_aps [sim_air] 1 ;;;
         fake_wifi_set_expected_credentials (Some (str "home")) (Some (str "secret-pass"))) fw_data
  with Some (_, d) => d | None => fw_data end.

Lemma sim_air_wf : ap_wf sim_air.
Proof. unfold ap_wf. split_and!; try done; apply Nat.leb_le; done. Qed.

Lemma sim_driver_wf : fw_wf sim_driver.
Proof.
  assert (H : wp (fake_wifi_init ;;; fake_wifi_set_scan_aps [sim_air] 1 ;;;
    fake_wifi_set_expected_credentials (Some (str "home")) (Some (str "secret-pass")))
    (fun _ => fw_wf) fw_data).
  { unfold fake_wifi_init. apply wp_bind, wp_bind, wp_mod, wp_bind, wp_mod, wp_ret, wp_bind.
    eapply wp_mono.
    - apply wp_set_scan_aps; [|done|].
      + destruct fw_wf_boot as (H1 & H2 & H3 & H4 & H5 & H6 & H7 & H8 & H9 & H10). by split_and!.
      + intros ap ->%list_elem_of_singleton. apply sim_air_wf.
    - intros [] d Hd. by apply wp_set_expected. }
  refine (wp_run _ (fun _ => fw_wf) _ tt sim_driver _ H). vm_compute. reflexivity.
Qed.

(** A device started, with a network set: [pass] decides whether it is the real one. *)
Definition sim_request (pass : string) : wifi_config :=
  {| wifi_config_ssid := str "home"; wifi_config_pass := Some (str pass);
     wifi_config_bssid := None; wifi_config_ch := Some 6 |}.

Definition run_fake (m : C unit) (s : st) : st :=
  match m s with Some (_, s') => s' | None => s end.

Definition fake_state (pass : string) : st :=
  run_fake (run_events [EvInit (Some sim_app); EvStart] ;;; ignore (do_set (sim_request pass)))
    {| s_dev := device_boot 0; s_env := (sim_driver, sim_start) : W |}.

Definition sim_good : st := Eval vm_compute in fake_state "secret-pass".
Definition sim_bad : st := Eval vm_compute in fake_state "other-pass".

Lemma sim_good_driver : fw_of (s_env sim_good) = sim_driver.
Proof. reflexivity. Qed.

Lemma sim_bad_driver : fw_of (s_env sim_bad) = sim_driver.
Proof. reflexivity. Qed.

Definition conn_wf_b (c : conn_params) : bool :=
  ((length (cn_ssid c) =? S SSID_MAX) && (length (cn_pass c) =? S PASS_MAX) &&
   (cn_ssid_len c <=? SSID_MAX) && (cn_pass_len c <=? PASS_MAX) &&
   (length (cn_bssid c) =? WIFI_MAC_ADDR_LEN))%nat.

Lemma conn_wf_test c : conn_wf_b c = true -> conn_wf c.
Proof. unfold conn_wf_b, conn_wf. intros. zbool. by split_and!. Qed.

(** With the real passphrase the device ends up connected. *)
Lemma apply_settles_witness :
  wp (do_apply ;;; settle 3) (fun _ s' =>
    settled (fw_of (s_env sim_good)) (view (wc_cfg (d_wifi (s_dev sim_good)))) (s_dev sim_good) s')
    sim_good /\
  network_outcome sim_driver (str "home") (str "secret-pass") = 0.
Proof.
  split; [|vm_compute; reflexivity].
  apply (apply_settles 3 sim_good). split; try reflexivity.
  - unfold in_u32. lia.
  - apply conn_wf_test. vm_compute. reflexivity.
  - apply conn_wf_test. vm_compute. reflexivity.
  - rewrite sim_good_driver. apply sim_driver_wf.
  - discriminate.
Defined.

(** With another one it fails, the reason is the passphrase, and the SSID is gone
    from the store, whose deletion succeeds. *)
Lemma sim_bad_settles :
  match (do_apply ;;; settle 3) sim_bad with
  | Some (_, s') => Some (wc_sta_state (d_wifi (s_dev s')), wc_fail_reason (d_wifi (s_dev s')),
                          map wcr_ssid (w_wifi (s_env s').2))
  | None => None
  end = Some (sta_state_sta_failed_m_c, fail_reason_fail_auth_error_m_c, []).
Proof. vm_compute. reflexivity. Qed.

Lemma scan_finds_the_air_witness :
  wp do_start (fun r s1 =>
    r = prov_status_status_ok_m_c /\ sc_finished (d_scan (s_dev s1)) = false /\
    wp run_scan_work (fun _ s2 =>
      sc_finished (d_scan (s_dev s2)) = true /\
      cached (d_scan (s_dev s2)) = take SCAN_MAX (air_view (fw_of (s_env sim_good)))) s1) sim_good.
Proof.
  apply (scan_finds_the_air sim_good).
  - exact scan_wf_init.
  - rewrite sim_good_driver. apply sim_driver_wf.
Defined.

Lemma fake_driver_safe_witness :
  wp (run_call Scan) (fun _ => fw_wf) sim_driver.
Proof. apply (fake_driver_safe Scan sim_driver sim_driver_wf I). Defined.

(** ** The client, from the started device *)

Definition sim_fresh : st := Eval vm_compute in
  run_fake (run_events [EvInit (Some sim_app); EvStart])
    {| s_dev := device_boot 0; s_env := (sim_driver, sim_start) : W |}.

Definition sim_nonce : list byte := replicate 16 x5c.

Lemma sim_fresh_driver : fw_of (s_env sim_fresh) = sim_driver.
Proof. reflexivity. Qed.

Lemma sim_fresh_clear : clear (s_dev sim_fresh).
Proof. split; [split; [reflexivity|apply Nat.leb_le; reflexivity]|reflexivity]. Qed.

Lemma sim_fresh_provisions pass :
  (8 <= length (str pass) <= 63)%nat ->
  can_provision 3 sim_pop (sim_request pass) (s_dev sim_fresh) (s_env sim_fresh).
Proof.
  intros Hp. assert (Hset : set_accepts (sim_request pass) = true).
  { change ((length (str pass) <=? 63)%nat = true). apply Nat.leb_le. lia. }
  assert (Hok : wifi_config_ok (sim_request pass)).
  { unfold wifi_config_ok, in_u32. cbn. split_and!; try (by intros x [= <-]); try lia.
    intros p [= <-]. lia. }
  assert (Hacc : sim_accepts (request_params (staged_request (sim_request pass))) = true).
  { unfold sim_accepts, request_params, staged_request, requested. cbn [sim_request wr_pass wr_ssid cp_ssid cp_psk
      wifi_config_pass wifi_config_ssid]. destruct (str pass) as [|b l]; [cbn in Hp; lia|].
    rewrite (proj2 (Nat.leb_le 8 _)), (proj2 (Nat.leb_le (length (b :: l)) 64)) by lia. done. }
  split; [done|unfold in_u32; cbn; lia|apply sim_fresh_clear| |exact Hset|exact Hok|].
  - split; [done|]. split; [done|]. vm_compute. split; [discriminate|reflexivity].
  - split; [unfold in_u32; lia|done| | | |done|done|discriminate|exact Hacc|done].
    + apply conn_wf_test. vm_compute. reflexivity.
    + apply conn_wf_test. vm_compute. reflexivity.
    + rewrite sim_fresh_driver. apply sim_driver_wf.
Qed.

(** With the real passphrase the whole run ends connected. *)
Lemma client_provisions_wifi_witness :
  wp (provision 3 sim_pop sim_nonce (sim_request "secret-pass")) (fun ok s' =>
    ok = true /\ settled (fw_of (s_env sim_fresh)) (requested (sim_request "secret-pass"))
                   (s_dev sim_fresh) s') sim_fresh /\
  network_outcome sim_driver (str "home") (str "secret-pass") = 0.
Proof.
  split; [|vm_compute; reflexivity].
  apply (client_provisions_wifi 3 sim_pop sim_nonce (sim_request "secret-pass") sim_fresh).
  - reflexivity.
  - apply sim_fresh_provisions. split; apply Nat.leb_le; reflexivity.
Defined.

Lemma client_learns_outcome_witness :
  let r := requested (sim_request "other-pass") in
  let o := network_outcome (fw_of (s_env sim_fresh)) (wr_ssid r) (wr_pass r) in
  wp (provision 3 sim_pop sim_nonce (sim_request "other-pass")) (fun _ s' =>
    if o =? 0 then client_status s' = None
    else wp client_status (fun a _ =>
      a = Some (sta_state_sta_failed_m_c, Some (config_detail_fail_reason_m (fail_code o)))) s')
    sim_fresh.
Proof.
  apply (client_learns_outcome 3 sim_pop sim_nonce (sim_request "other-pass") sim_fresh).
  - reflexivity.
  - apply sim_fresh_provisions. split; apply Nat.leb_le; reflexivity.
Defined.

(** The run that succeeds, and the poll after it, evaluated. *)
Lemma sim_poll_undefined :
  match provision 3 sim_pop sim_nonce (sim_request "secret-pass") sim_fresh with
  | Some (ok, s') => Some (ok, wc_sta_state (d_wifi (s_dev s')),
                           match client_status s' with Some _ => true | None => false end)
  | None => None
  end = Some (true, sta_state_sta_connected_m_c, false).
Proof. vm_compute. reflexivity. Qed.

Lemma version_reported_witness :
  wp client_version (fun r s' => not_io (s_dev s') = not_io (s_dev sim_fresh) /\
    exists i, r = Some i /\ ver_info_proto i = 1 /\ ver_info_blk i = CONFIG_POUCH_BLOCK_SIZE /\
      (str "wifi" ∈ ver_info_caps_tstr i <-> find_endpoint POUCH_PROV_PATH_CONFIG endpoints <> None) /\
      (str "scan" ∈ ver_info_caps_tstr i <-> find_endpoint POUCH_PROV_PATH_SCAN endpoints <> None) /\
      (str "cred" ∈ ver_info_caps_tstr i <-> find_endpoint POUCH_PROV_PATH_CRED endpoints <> None) /\
      (ver_info_pop i = Some true <-> CONFIG_POUCH_PROV_AUTH = true /\
         cfg_pop (pouch_prov_config_get (s_dev sim_fresh)) <> None)) sim_fresh.
Proof.
  apply (version_reported net_obs sim_fresh).
  - unfold in_u32. cbn. lia.
  - apply sim_fresh_clear.
Defined.

Lemma handshake_completes_witness :
  wp (client_auth sim_pop sim_nonce) (fun ok s' => ok = true /\ d_authorized (s_dev s') = true /\
    not_login (s_dev s') = not_login (s_dev sim_fresh)) sim_fresh.
Proof.
  apply (handshake_completes net_obs sim_pop sim_nonce sim_fresh).
  - reflexivity.
  - apply sim_fresh_clear.
  - reflexivity.
  - vm_compute. split; [discriminate|reflexivity].
  - reflexivity.
Defined.

(** A certificate in two chunks and a key, from the started device. *)
Definition sim_cert_chunks : list (list byte) := [[x30; x03]; [x02; x01; x05]].
Definition sim_key_chunks : list (list byte) := [str "private key"].

Lemma sim_chunks_sendable :
  sendable cred_kind_cred_device_cert_m_c sim_cert_chunks /\
  sendable cred_kind_cred_private_key_m_c sim_key_chunks.
Proof.
  split; (split; [done|]); (split; [apply Nat.leb_le; reflexivity|]); intros c Hc;
    repeat (apply elem_of_cons in Hc as [->|Hc]; [apply Nat.leb_le; reflexivity|]);
    by apply elem_of_nil in Hc.
Qed.

Lemma client_bootstraps_witness :
  wp (client_bootstrap sim_pop sim_nonce sim_cert_chunks sim_key_chunks) (fun ok s' =>
    ok = true /\ in_place (concat sim_cert_chunks) (concat sim_key_chunks) s') sim_fresh.
Proof.
  apply (client_bootstraps sim_pop sim_nonce sim_cert_chunks sim_key_chunks sim_fresh).
  - reflexivity.
  - split; [reflexivity|unfold in_u32; cbn; lia|apply sim_fresh_clear| |exact store_wf_init].
    split; [done|]. split; [done|]. vm_compute. split; [discriminate|reflexivity].
  - apply sim_chunks_sendable.
  - apply sim_chunks_sendable.
  - vm_compute. reflexivity.
Defined.

Lemma fake_stop_services : StopServices fake_platform (cred_obs (SL := fake_settings)).
Proof. split; [|done]. by intros w r w' [= <- <-]. Qed.

#[local] Existing Instance fake_stop_services.

(** The whole session, from the started device, while the application waits. *)
Lemma session_completes_witness :
  let session := client_session sim_pop sim_nonce sim_cert_chunks sim_key_chunks in
  wp session (fun ok s' =>
    ok = true /\ completed (concat sim_cert_chunks) (concat sim_key_chunks) s') sim_fresh /\
  wp (pouch_prov_mgr_wait (ok <- session ;; mret tt)) (fun rc s' =>
    rc = 0 /\ completed (concat sim_cert_chunks) (concat sim_key_chunks) s') sim_fresh.
Proof.
  apply (session_completes sim_pop sim_nonce sim_cert_chunks sim_key_chunks sim_fresh).
  - reflexivity.
  - split; [reflexivity|unfold in_u32; cbn; lia|apply sim_fresh_clear| |exact store_wf_init].
    split; [done|]. split; [done|]. vm_compute. split; [discriminate|reflexivity].
  - reflexivity.
  - reflexivity.
  - apply sim_chunks_sendable.
  - apply sim_chunks_sendable.
  - vm_compute. reflexivity.
Defined.

(** ** Surveys: eight networks, with names of [n] bytes *)

Definition named_ap (n : nat) : fake_wifi_ap :=
  {| fa_ssid := buf_write 0 (replicate n x61) (zeros 33); fa_ssid_len := n;
     fa_bssid := replicate 6 x0b; fa_channel := 11; fa_rssi := -70; fa_security := 1 |}.

Lemma named_ap_wf n : (n <= 33)%nat -> ap_wf (named_ap n).
Proof.
  intros Hn. unfold ap_wf, named_ap. cbn [fa_ssid fa_ssid_len fa_bssid fa_rssi].
  rewrite length_buf_write by (unfold zeros; by rewrite !length_replicate).
  unfold WIFI_SSID_MAX_LEN. split_and!; try done; lia.
Qed.

(** A step of the driver in front of a state. *)
Definition on_fake (m : D unit) (s : st) : st := run_fake (driver m) s.

Definition sim_air_of (n : nat) (s : st) : st :=
  on_fake (fake_wifi_set_scan_aps (replicate 8 (named_ap n)) 8) s.

Definition sim_short : st := Eval vm_compute in sim_air_of 21 sim_fresh.
Definition sim_long : st := Eval vm_compute in sim_air_of 32 sim_fresh.

Lemma sim_air_wf_of n s :
  (n <= 33)%nat -> fw_wf (fw_of (s_env s)) -> fw_wf (fw_of (s_env (sim_air_of n s))).
Proof.
  intros Hn Hw. pose proof (wp_set_scan_aps (replicate 8 (named_ap n)) 8 _ Hw ltac:(done)) as H.
  unfold sim_air_of, on_fake, run_fake, driver. destruct (fake_wifi_set_scan_aps _ _ _) as [[[] f]|] eqn:E.
  - cbn [s_env]. rewrite fw_of_put. specialize (H ltac:(intros ap [-> _]%elem_of_replicate; by apply named_ap_wf)).
    by apply (wp_run _ _ _ _ _ E) in H.
  - exact Hw.
Qed.

Lemma sim_scans n s :
  (n <= 33)%nat -> s = sim_air_of n sim_fresh -> s_dev s = s_dev sim_fresh ->
  can_scan sim_pop (s_dev s) (s_env s).
Proof.
  intros Hn -> ->. split; [done|unfold in_u32; cbn; lia|done|apply sim_fresh_clear| |exact scan_wf_init|].
  - split; [done|]. split; [done|]. vm_compute. split; [discriminate|reflexivity].
  - apply sim_air_wf_of; [done|]. rewrite sim_fresh_driver. apply sim_driver_wf.
Qed.

(** A property of every entry, decided. *)
Lemma entries_dec (f : scan_entry -> bool) l : forallb f l = true -> forall e, e ∈ l -> f e = true.
Proof. intros H e He. rewrite forallb_forall in H. by apply H, list_elem_of_In. Qed.

(** With names of 21 bytes even pages of six list the whole air. *)
Lemma client_lists_networks_witness :
  let air := take SCAN_MAX (air_view (fw_of (s_env sim_short))) in
  wp (survey sim_pop sim_nonce 6) (fun r s' => r = (Some (false, 0), Some air) /\
    not_survey (s_dev s') = not_survey (s_dev sim_short)) sim_short /\ length air = 8%nat.
Proof.
  split; [|vm_compute; reflexivity].
  apply (client_lists_networks sim_pop sim_nonce 6 sim_short).
  - reflexivity.
  - apply (sim_scans 21); [apply Nat.leb_le; reflexivity|vm_compute; reflexivity|reflexivity].
  - right. split; [lia|]. intros e He. apply Nat.leb_le. revert e He. apply entries_dec.
    vm_compute. reflexivity.
Defined.

Lemma long_names_block_survey_witness :
  wp (survey_long sim_pop sim_nonce 2) (fun r _ => r = Some page_error) sim_long.
Proof.
  apply (long_names_block_survey sim_pop sim_nonce 2 sim_long).
  - reflexivity.
  - apply (sim_scans 32); [apply Nat.leb_le; reflexivity|vm_compute; reflexivity|reflexivity].
  - apply Nat.leb_le. vm_compute. reflexivity.
  - intros e He. apply Nat.eqb_eq. revert e He. apply entries_dec. vm_compute. reflexivity.
Defined.

(** The client gives up on that reply, and with pages of five gets the list. *)
Lemma sim_long_surveys :
  match survey sim_pop sim_nonce 6 sim_long, survey sim_pop sim_nonce 5 sim_long with
  | Some ((_, l6), _), Some ((_, l5), _) => Some (l6, length <$> l5)
  | _, _ => None
  end = Some (None, Some 8%nat).
Proof. vm_compute. reflexivity. Qed.
